(* ===== verification/_CoqProject ===== *)
-Q . S2P
Prelude.v
Platform.v
Sched.v
Init.v
SchedInv.v
SchedSteps.v
MmIface.v
Mm.v
MmInv.v
MmPut.v
MmSafe.v
Demo.v
Vmmap.v
Areas.v
VmmapFacts.v
VmmapThms.v
VmmapRun.v
MmThms.v
MmLookup.v
MmCow.v
MmPageout.v
PageoutRun.v
CowRun.v
UserMem.v
UserThms.v
BrkThms.v
FaultThms.v
ReadWrite.v
UserRun.v
ForkVm.v
ForkCow.v
ForkRun.v
Vfs.v
VnSpecial.v
VfsThms.v
Namev.v
PathCalls.v
OpenThms.v
VfsDemo.v
VfsRun.v
ProcSched.v
Proc.v
ProcInv.v
ProcIds.v
ProcCreate.v
ProcThread.v
ProcFork.v
ProcFam.v
ProcExit.v
ProcReap.v
ProcWait.v
ProcLife.v
ProcSteps.v
KernSched.v
ProcKill.v
Store.v
FileRefs.v
StoreRun.v
KernUser.v
KernFiles.v
KernSteps.v
Boot.v
BootThms.v
Commands.v
Info.v
InfoThms.v
Pageout.v
ProcDemo.v
ProcRun.v
KernRun.v
InfoRun.v
Syscall.v
SyscallThms.v
Mount.v
SyscallRun.v
