(* ===== verification/Prelude.v ===== *)
(** * The Weenix kernel: threads, memory and files

    Weenix is a small Unix-like kernel in C.  This library models the parts of
    it in [src/kernel] and proves them correct, or states where they are not.

    ** The program

    - Threads ([proc/sched.c], [proc/sched_helper.c], [proc/kmutex.c]) wait on
      queues; [sched_switch] picks the next one from the run queue, mutexes hand
      themselves over to the thread that has waited longest.
    - An address space ([vm/vmmap.c]) is a list of areas in order; each area maps
      pages of a memory object.  Memory objects are anonymous ([vm/anon.c]),
      shadows of another object for copy-on-write ([vm/shadow.c]), or files.
      They own page frames ([mm/pframe.c]), which are found through a hash table
      and kept on a list of pinned or of reclaimable pages.
    - User programs change their address space with [vm/mmap.c] and [vm/brk.c];
      [vm/pagefault.c] fills the page table on demand; the kernel copies from and
      to it with [api/access.c].
    - Processes ([proc/proc.c]) form a tree with threads ([proc/kthread.c]);
      [proc/fork.c] copies one, with shadow objects for its private memory; exit
      leaves a zombie that waitpid of the parent reaps.  [main/kmain.c] makes the
      first two and starts the scheduler.
    - Paths ([fs/namev.c]) lead to vnodes; open files ([fs/open.c],
      [fs/vfs_syscall.c]) share a position and count references to them; device
      files ([fs/vn_special.c]) pass calls on to drivers.
    - System calls ([api/syscall.c]) copy arguments in, call all of this, and
      report errors.

    ** The files

    - [Prelude]: computations that return or stop ([M], [Ok], [Halt]), 32-bit
      arithmetic, lists; the hint database [kernel].
    - [Platform]: constants of headers that are not in the repository.
    - [Sched] models the three files of threads: [sched] is the state, [threads],
      [queues] and [km_holder] its parts, one definition per function.
      [SchedInv] has what each operation does to the invariant [sched_ok];
      [SchedSteps] runs the operations in any order by any threads ([step]),
      proves the invariant for all reachable states and what mutexes promise.
    - [Init] has the functions that start the components, in any order.
    - [MmIface] is the interface between address spaces and memory objects:
      operations ([MmOps]) and laws ([MmLaws]).  [Mm] models [pframe.c], [anon.c]
      and [shadow.c] and implements the operations; [MmInv], [MmPut] and [MmSafe]
      state the invariant of frames, references and shadow chains and discharge
      the laws; [MmThms] has the theorems about dropping references.  [MmLookup]
      follows [pframe_lookup] down a chain of shadow objects, and [MmCow] says
      what each object shows ([view]) and that writing to one is private to it;
      [MmPageout] is about the loop of the page-out daemon and pages that cannot be cleaned.
    - [Vmmap] models [vmmap.c] over any [MmOps]; [Areas] specifies lists of areas
      by the page each page number is mapped to ([maps_to]); [VmmapFacts] and
      [VmmapThms] prove the operations against that for any [MmLaws];
      [ReadWrite] proves [vmmap_read] and [vmmap_write] against what areas show.
    - [UserMem] models [mmap.c], [brk.c], [pagefault.c] and the copies and tests
      of [access.c]; [UserThms], [BrkThms] and [FaultThms] prove them.
    - [ForkVm] is the part of [do_fork] that copies an address space; [ForkCow]
      proves that parent and child see the same pages and then their own writes.
    - [Proc] models [proc.c], [kthread.c] and [do_fork] on the state [kern] of
      scheduler, memory, files and processes.  [ProcSched] and [ProcInv] have the
      invariant [kern_ok]; [ProcIds], [ProcCreate], [ProcThread], [ProcFork],
      [ProcFam], [ProcExit], [ProcReap] and [ProcWait] what each operation does;
      [ProcLife] puts exit and waitpid together; [ProcSteps] has all interleavings
      ([pstep]); [ProcKill] is about killing all other processes.  [Boot] models the start in [kmain.c], [BootThms] proves that it
      succeeds; [Commands] has the shell commands and the body of init; [Pageout]
      the page-out daemon as a process and the shutdown of the page frames.
    - [Info] models what [proc.c] and [vmmap.c] print about processes and mappings, into
      buffers in memory; [InfoThms] says which bytes change.
    - [Vfs] models [namev.c], [open.c] and [vfs_syscall.c] over any file system
      ([VfsOps]); [VfsThms] states what the file table and the vnode table promise
      ([VfsLaws]) and proves the calls on descriptors; [Namev] proves path
      resolution against the walk [walk] along directory entries; [PathCalls] and
      [OpenThms] prove calls on paths.  [VnSpecial] models [vn_special.c].
    - [Store] is the file table and the vnode table all processes share, with the
      contract [FsLaws] of processes discharged; [FileRefs] follows references
      through every call on files and paths, on every branch.
    - [KernSched], [KernUser] and [KernFiles] run the operations of [Sched], [UserMem]
      and [Vfs] as the current process of [Proc]; [KernSteps] puts all steps together
      ([kstep]) and has the invariants of the kernel as a whole.
    - [Syscall] models [syscall.c], and the copying of strings and vectors of
      [access.c], over an interface of what they call ([SysOps]); [SyscallThms]
      has what the interface promises ([SysLaws], [SysMem]) and the theorems; [Mount] has
      the two calls for mounting.
    - [Demo], [VmmapRun], [CowRun], [UserRun], [ForkRun], [VfsDemo], [VfsRun],
      [StoreRun], [ProcDemo], [ProcRun], [KernRun], [PageoutRun], [InfoRun] and [SyscallRun] are small
      machines on which the theorems are applied.

    ** What the theorems show

    Scheduling: in every reachable state each thread is on the one queue it says
    it is on, mutexes with waiters are held, and a thread that returns from
    [kmutex_lock] holds the mutex; queues are served in order.  Memory: mapping
    and unmapping change exactly the pages asked for; the highest free range is
    found; destroying an address space and dropping references frees what nobody
    uses and nothing else, with chains of shadow objects of any length; a lookup
    returns the page the chain defines, a write to a shadow object is seen there
    only, and what is written through an area is read back; the page-out daemon ends and
    frees pages of files only.  User memory: mmap,
    munmap, brk and page faults do to the mappings what they say.  Processes: the
    invariant of the kernel holds in every state that processes, scheduling, memory
    calls and file calls reach in any order; fork makes a copy and isolates it; exit gives
    everything back and a waiting parent gets the status; waitpid never follows a
    dangling pointer, and no descriptor dangles; halting cancels the threads of other
    processes and nothing else.  Files: path resolution is the walk
    along the entries and keeps exactly one reference; [open], [close], [dup],
    [lseek], [read], [mkdir] and [chdir] do what they should on every branch, errors
    included, and every call leaves the reference counts of files and vnodes exact.  System calls free the memory
    they allocate, report errors, and write into the user's buffer only.  Some
    theorems state defects: their doc comments say what goes wrong.

    ** Conventions

    A pointer is an address, NULL is 0; structs are entries of finite maps, and
    a list of structs is the sequence of their addresses.  [uint32_t] arithmetic
    wraps ([+u], [-u]); [int] results are wrapped with [s32] where the code
    stores them.  A failed KASSERT, a call of panic, a NULL or dangling pointer
    and an index out of bounds stop the computation with the state reached.

    Loops are structural, or have fuel: the chain of shadow objects below an
    object is no longer than the number of objects, and [put_releases] shows that
    the fuel of [put] is enough; [vmmap_read] and [vmmap_write] copy at least a
    byte a round; the idle loop of [sched_switch] waits for as many interrupts as
    its argument says; [pframe_clean_all] and the loop of the page-out daemon take
    the number of rounds as an argument, since the code bounds neither; for clean pages
    [pageout_reclaims] shows that the number of pages is enough.

    ** Not modelled

    Debug output; the code of a kernel stack (a context switch changes the current
    thread, a context is a record); the file systems, drivers, allocators, page
    tables, [iprintf] and list macros, which are not in the repository and are
    parameters. Threads beyond one per process and getcwd are not compiled. Tests
    the shell starts and [kernel_execve] are not in the repository. In [kstep] a
    process maps anonymous memory only, and [dup2] goes to a free descriptor. *)
From stdpp Require Export prelude gmap gmultiset functions.
From stdpp Require Export list.

(** ** Kernel computations

    Kernel code is a state transformer that either returns a value or stops.
    A stop keeps the state in which it happened, so that a theorem can say
    what a failing path has already changed. *)

Inductive halt :=
| KAssert          (* a KASSERT failed *)
| PanicCall        (* panic() was called *)
| NullDeref        (* a NULL (or dangling) pointer was dereferenced *)
| BadIndex         (* an array was indexed outside its bounds *)
| OutOfFuel        (* the bound given to a loop of the model was used up *)
| Sleeps           (* the calling thread went to sleep *)
| Exits (status : Z). (* the calling thread left the kernel with do_exit *)

Inductive outcome (S A : Type) :=
| Ok (a : A) (s : S)
| Halt (h : halt) (s : S).
Arguments Ok {S A} a s.
Arguments Halt {S A} h s.

Definition M (S A : Type) : Type := S -> outcome S A.

#[global] Instance M_ret S : MRet (M S) := fun A a s => Ok a s.
#[global] Instance M_bind S : MBind (M S) := fun A B k m s =>
  match m s with
  | Ok a s' => k a s'
  | Halt h s' => Halt h s'
  end.

Definition get {S} : M S S := fun s => Ok s s.
Definition gets {S A} (f : S -> A) : M S A := fun s => Ok (f s) s.
Definition modify {S} (f : S -> S) : M S unit := fun s => Ok tt (f s).
Definition stop {S A} (h : halt) : M S A := fun s => Halt h s.
Definition kassert {S} (b : bool) : M S unit := if b then mret tt else stop KAssert.
(** Dereferencing a pointer. *)
Definition deref {S A} (o : option A) : M S A :=
  match o with Some a => mret a | None => stop NullDeref end.

(** [if (c) m;] *)
Definition when {S} (c : bool) (m : M S unit) : M S unit := if c then m else mret tt.

(** [for each x in l do f x] *)
Fixpoint mfor {S A} (l : list A) (f : A -> M S unit) : M S unit :=
  match l with
  | [] => mret tt
  | x :: l => f x;; mfor l f
  end.

(** The state an outcome ends in, and whether it is a return. *)
Definition out_state {S A} (o : outcome S A) : S :=
  match o with Ok _ s => s | Halt _ s => s end.
Definition returned {S A} (o : outcome S A) : bool :=
  match o with Ok _ _ => true | Halt _ _ => false end.

(** ** 32-bit unsigned arithmetic *)

Declare Scope u32_scope.
Delimit Scope u32_scope with u32.

Definition u32 (z : Z) : Z := (z `mod` 4294967296)%Z.
Definition is_u32 (z : Z) : Prop := (0 <= z < 4294967296)%Z.

(** The value of a 32-bit pattern read as a signed int. *)
Definition s32 (z : Z) : Z :=
  let w := u32 z in if (w <? 2147483648)%Z then w else (w - 4294967296)%Z.

Notation "x +u y" := (u32 (x + y)%Z) (at level 50, left associativity) : u32_scope.
Notation "x -u y" := (u32 (x - y)%Z) (at level 50, left associativity) : u32_scope.
Open Scope u32_scope.

(** The null pointer; every other pointer is the address of a struct. *)
Definition NULL : Z := 0%Z.

(** C truth values. *)
Definition c_true (z : Z) : bool := negb (z =? 0)%Z.

Create HintDb kernel.

(** Reduce a boolean hypothesis or goal about [Z] comparisons to [lia]'s form. *)
Ltac zify_bool :=
  repeat match goal with
  | H : (_ && _)%bool = true |- _ => apply andb_true_iff in H as [? ?]
  | H : (_ || _)%bool = false |- _ => apply orb_false_iff in H as [? ?]
  | H : negb _ = true |- _ => apply negb_true_iff in H
  | H : negb _ = false |- _ => apply negb_false_iff in H
  | H : (_ <? _)%Z = true |- _ => apply Z.ltb_lt in H
  | H : (_ <? _)%Z = false |- _ => apply Z.ltb_ge in H
  | H : (_ <=? _)%Z = true |- _ => apply Z.leb_le in H
  | H : (_ <=? _)%Z = false |- _ => apply Z.leb_gt in H
  | H : (_ =? _)%Z = true |- _ => apply Z.eqb_eq in H
  | H : (_ =? _)%Z = false |- _ => apply Z.eqb_neq in H
  end.

(** Split every boolean test that decides the shape of the goal. *)
Ltac case_tests :=
  repeat match goal with
  | |- context [if ?b then _ else _] => let E := fresh "E" in destruct b eqn:E
  end.

(** ** Lemmas on computations *)

Lemma bind_ok {S A B} (m : M S A) (k : A -> M S B) s a s' :
  m s = Ok a s' -> (m ≫= k) s = k a s'.
Proof. unfold mbind, M_bind. by intros ->. Qed.

Lemma bind_halt {S A B} (m : M S A) (k : A -> M S B) s h s' :
  m s = Halt h s' -> (m ≫= k) s = Halt h s'.
Proof. unfold mbind, M_bind. by intros ->. Qed.

Lemma get_bind {S B} (k : S -> M S B) s : (get ≫= k) s = k s s.
Proof. done. Qed.
Lemma gets_bind {S A B} (f : S -> A) (k : A -> M S B) s : (gets f ≫= k) s = k (f s) s.
Proof. done. Qed.
Lemma modify_bind {S B} (f : S -> S) (k : unit -> M S B) s : (modify f ≫= k) s = k tt (f s).
Proof. done. Qed.
Lemma ret_bind {S A B} (a : A) (k : A -> M S B) s : (mret a ≫= k) s = k a s.
Proof. done. Qed.
Lemma kassert_bind {S B} b (k : unit -> M S B) s : b = true -> (kassert b ≫= k) s = k tt s.
Proof. by intros ->. Qed.
Lemma kassert_fail {S B} b (k : unit -> M S B) s : b = false -> (kassert b ≫= k) s = Halt KAssert s.
Proof. by intros ->. Qed.
Lemma deref_bind {S A B} (o : option A) a (k : A -> M S B) s : o = Some a -> (deref o ≫= k) s = k a s.
Proof. by intros ->. Qed.
Lemma bind_assoc {S A B C} (m : M S A) (k : A -> M S B) (h : B -> M S C) s :
  ((m ≫= k) ≫= h) s = (m ≫= fun a => k a ≫= h) s.
Proof. unfold mbind, M_bind. by destruct (m s). Qed.

(** A computation that returned did so through its first step. *)
Lemma bind_Ok_inv {S A B} (m : M S A) (k : A -> M S B) s b s' :
  (m ≫= k) s = Ok b s' -> exists a s1, m s = Ok a s1 /\ k a s1 = Ok b s'.
Proof. unfold mbind, M_bind. destruct (m s); naive_solver. Qed.

Lemma kassert_Ok_inv {S} b (s s' : S) u : kassert b s = Ok u s' -> b = true /\ s' = s.
Proof. destruct b; cbv; naive_solver. Qed.

Lemma deref_Ok_inv {S A} (o : option A) (s s' : S) a :
  deref o s = Ok a s' -> o = Some a /\ s' = s.
Proof. destruct o; cbv; naive_solver. Qed.

(** ** Lemmas on 32-bit arithmetic *)

Lemma u32_small z : is_u32 z -> u32 z = z.
Proof. unfold is_u32, u32. intros. apply Z.mod_small. lia. Qed.

Lemma u32_range z : is_u32 (u32 z).
Proof. unfold is_u32, u32. pose proof (Z.mod_pos_bound z 4294967296). lia. Qed.

Lemma s32_small z : (0 <= z < 2147483648)%Z -> s32 z = z.
Proof.
  intros. unfold s32. rewrite u32_small by (unfold is_u32; lia).
  destruct (Z.ltb_spec z 2147483648); lia.
Qed.

Lemma c_true_spec z : c_true z = true <-> z <> 0%Z.
Proof. unfold c_true. rewrite negb_true_iff, Z.eqb_neq. done. Qed.

#[export] Hint Resolve u32_range : kernel.

(** ** Removing an element from a list without duplicates *)

Section FilterNe.
Context {A : Type} `{EqDecision A}.
Implicit Types (x t : A) (l : list A).

Lemma filter_ne_id t l : t ∉ l -> filter (fun x => x <> t) l = l.
Proof.
  induction l as [|x l IH]; [done|]. intros Ht.
  rewrite filter_cons_True by set_solver. f_equal. set_solver.
Qed.

Lemma length_filter_ne t l :
  NoDup l -> t ∈ l -> S (length (filter (fun x => x <> t) l)) = length l.
Proof.
  induction 1 as [|x l Hx Hl IH]; [by intros ?%elem_of_nil|].
  destruct (decide (x = t)) as [->|].
  - intros _. rewrite filter_cons_False by naive_solver. by rewrite filter_ne_id.
  - rewrite filter_cons_True by done. intros Ht. cbn. rewrite IH; set_solver.
Qed.

(** An element at the back is the only one dropped. *)
Lemma filter_ne_snoc t l : NoDup (l ++ [t]) -> filter (fun x => x <> t) (l ++ [t]) = l.
Proof.
  intros Hl. rewrite filter_app, filter_cons_False by naive_solver.
  rewrite filter_nil, app_nil_r. apply filter_ne_id.
  apply NoDup_app in Hl as (_ & H & _). set_solver.
Qed.

Lemma filter_ne_cons t l : NoDup (t :: l) -> filter (fun x => x <> t) (t :: l) = l.
Proof. intros [? ?]%NoDup_cons. rewrite filter_cons_False by naive_solver. by apply filter_ne_id. Qed.

End FilterNe.

(** ** Gathering a list from every entry of a map *)

Section Gather.
Context {A : Type}.
Implicit Types (m : gmap Z A) (f : Z -> A -> list Z).

Definition gather f m : list Z := map_to_list m ≫= fun e => f e.1 e.2.

Lemma gather_insert f m i x : m !! i = None -> gather f (<[i := x]> m) ≡ₚ f i x ++ gather f m.
Proof. intros H. unfold gather. by rewrite map_to_list_insert. Qed.
Lemma gather_delete f m i x : m !! i = Some x -> gather f m ≡ₚ f i x ++ gather f (delete i m).
Proof. intros H. rewrite <- gather_insert by apply lookup_delete_eq. by rewrite insert_delete_id. Qed.
Lemma gather_update f m i x x' : m !! i = Some x -> f i x' ≡ₚ f i x -> gather f (<[i := x']> m) ≡ₚ gather f m.
Proof.
  intros H E. rewrite <- insert_delete_eq, gather_insert by apply lookup_delete_eq. by rewrite E, <- gather_delete.
Qed.
Lemma gather_ext f m m' : (forall i, f i <$> m !! i = f i <$> m' !! i) -> gather f m ≡ₚ gather f m'.
Proof.
  revert m'. induction m as [|i x m Hi IH] using map_ind; intros m' H.
  - replace m' with (∅ : gmap Z A); [done|]. apply map_eq. intros j. specialize (H j). rewrite lookup_empty in *. by destruct (m' !! j).
  - pose proof (H i) as Hx. rewrite lookup_insert_eq in Hx. destruct (m' !! i) as [x'|] eqn:E; [|done]. injection Hx as Hx.
    rewrite gather_insert, (gather_delete f m' i x'), Hx by done. f_equiv. apply IH. intros j. destruct (decide (i = j)) as [<-|Hn].
    + by rewrite Hi, lookup_delete_eq.
    + rewrite lookup_delete_ne by done. rewrite <- H. by rewrite lookup_insert_ne.
Qed.
Lemma elem_of_gather f m a : a ∈ gather f m <-> exists i x, m !! i = Some x /\ a ∈ f i x.
Proof.
  unfold gather. rewrite list_elem_of_bind. split.
  - intros ([i x] & Ha & Hi%elem_of_map_to_list). eauto.
  - intros (i & x & Hi & Ha). exists (i, x). split; [done|]. by apply elem_of_map_to_list.
Qed.
End Gather.
