(* ===== verification/Platform.v ===== *)
(** What the kernel takes from headers and code that are not in the repository:
    the values of its constants, with the facts the code relies on.

    The definitions of the development are stated for any [Platform]; theorems
    that need more than the mere existence of a constant ask for [PlatformOk].
    [weenix] is the platform on which the witnesses run. *)
From S2P Require Import Prelude.
Open Scope Z_scope.

Class Platform := {
  (* errno.h *)
  EPERM : Z; ENOENT : Z; EINTR : Z; EBADF : Z; ECHILD : Z; ENOMEM : Z; EFAULT : Z;
  EEXIST : Z; ENODEV : Z; ENOTDIR : Z; EISDIR : Z; EINVAL : Z; EMFILE : Z;
  ENAMETOOLONG : Z; ENOTEMPTY : Z; ENOSYS : Z;
  (* main/interrupt.h *)
  IPL_LOW : Z; IPL_HIGH : Z;
  (* mm/page.h, mm/mm.h *)
  PAGE_SIZE : Z;
  USER_MEM_LOW : Z; USER_MEM_HIGH : Z;
  ADDR_TO_PN : Z -> Z; PN_TO_ADDR : Z -> Z; PAGE_OFFSET : Z -> Z; PAGE_ALIGNED : Z -> bool;
  (* mm/mman.h *)
  PROT_READ : Z; PROT_WRITE : Z; PROT_EXEC : Z;
  MAP_SHARED : Z; MAP_PRIVATE : Z; MAP_FIXED : Z; MAP_ANON : Z; MAP_TYPE : Z;
  (* vm/vmmap.h *)
  VMMAP_DIR_LOHI : Z; VMMAP_DIR_HILO : Z;
  (* proc/proc.h *)
  NFILES : Z; MAX_FILES : Z; PROC_MAX_COUNT : Z;
  (* mm/pframe.h *)
  PF_HASH_SIZE : Z
}.

(** Error numbers are positive and different, so a negated one is a negative
    result that names its cause. *)
Definition errnos `{Platform} : list Z :=
  [EPERM; ENOENT; EINTR; EBADF; ECHILD; ENOMEM; EFAULT; EEXIST; ENODEV; ENOTDIR; EISDIR;
   EINVAL; EMFILE; ENAMETOOLONG; ENOTEMPTY; ENOSYS].

Class PlatformOk `(P : Platform) : Prop := {
  errnos_pos : Forall (fun e => 0 < e) errnos;
  errnos_nodup : NoDup errnos;
  page_size_eq : PAGE_SIZE = 4096;
  user_mem : 0 < USER_MEM_LOW /\ USER_MEM_LOW < USER_MEM_HIGH /\ USER_MEM_HIGH < 4294967296;
  user_low_aligned : USER_MEM_LOW `mod` 4096 = 0;
  user_high_aligned : USER_MEM_HIGH `mod` 4096 = 0;
  addr_to_pn_eq : forall a, is_u32 a -> ADDR_TO_PN a = a / 4096;
  pn_to_addr_eq : forall p, PN_TO_ADDR p = u32 (p * 4096);
  page_offset_eq : forall a, is_u32 a -> PAGE_OFFSET a = a `mod` 4096;
  page_aligned_eq : forall a, is_u32 a -> PAGE_ALIGNED a = (a `mod` 4096 =? 0);
  dirs_differ : VMMAP_DIR_LOHI <> VMMAP_DIR_HILO;
  nfiles_pos : 0 < NFILES;
  max_files_eq : MAX_FILES = NFILES;
  proc_max_pos : 1 < PROC_MAX_COUNT;
  pf_hash_pos : 0 < PF_HASH_SIZE;
  map_private_bit : MAP_PRIVATE <> 0
}.

(** The values the x86 build of Weenix uses. *)
Definition weenix : Platform := {|
  EPERM := 1; ENOENT := 2; EINTR := 4; EBADF := 9; ECHILD := 10; ENOMEM := 12; EFAULT := 14;
  EEXIST := 17; ENODEV := 19; ENOTDIR := 20; EISDIR := 21; EINVAL := 22; EMFILE := 24;
  ENAMETOOLONG := 36; ENOTEMPTY := 39; ENOSYS := 38;
  IPL_LOW := 0; IPL_HIGH := 255;
  PAGE_SIZE := 4096;
  USER_MEM_LOW := 4194304; USER_MEM_HIGH := 3221225472;
  ADDR_TO_PN a := Z.shiftr a 12; PN_TO_ADDR p := u32 (Z.shiftl p 12);
  PAGE_OFFSET a := Z.land a 4095; PAGE_ALIGNED a := Z.land a 4095 =? 0;
  PROT_READ := 1; PROT_WRITE := 2; PROT_EXEC := 4;
  MAP_SHARED := 1; MAP_PRIVATE := 2; MAP_FIXED := 4; MAP_ANON := 8; MAP_TYPE := 3;
  VMMAP_DIR_LOHI := 1; VMMAP_DIR_HILO := 2;
  NFILES := 32; MAX_FILES := 32; PROC_MAX_COUNT := 65536;
  PF_HASH_SIZE := 17
|}.

#[global] Instance weenix_ok : PlatformOk weenix.
Proof.
  split; try (cbn; lia); try done.
  - cbn. repeat constructor; lia.
  - apply (bool_decide_unpack _). vm_compute. exact I.
  - intros a _. cbn. rewrite Z.shiftr_div_pow2 by lia. done.
  - intros p. cbn. rewrite Z.shiftl_mul_pow2 by lia. done.
  - intros a _. change (Z.land a (Z.ones 12) = a `mod` 4096). by rewrite Z.land_ones by lia.
  - intros a _. change ((Z.land a (Z.ones 12) =? 0) = (a `mod` 4096 =? 0)).
    by rewrite Z.land_ones by lia.
Qed.

Section PlatformFacts.
Context `{P : Platform} `{!PlatformOk P}.

Lemma errno_pos e : e ∈ errnos -> 0 < e.
Proof. pose proof errnos_pos as F. rewrite Forall_forall in F. apply F. Qed.

Lemma user_pages :
  0 < ADDR_TO_PN USER_MEM_LOW /\ ADDR_TO_PN USER_MEM_LOW < ADDR_TO_PN USER_MEM_HIGH /\
  ADDR_TO_PN USER_MEM_HIGH < 1048576.
Proof.
  pose proof user_mem. pose proof user_low_aligned as Hl. pose proof user_high_aligned as Hh.
  rewrite !addr_to_pn_eq by (unfold is_u32; lia).
  pose proof (Z.div_mod USER_MEM_LOW 4096). pose proof (Z.div_mod USER_MEM_HIGH 4096). lia.
Qed.

End PlatformFacts.
