(* ===== verification/Sched.v ===== *)
(** Threads, the run queue, wait queues and mutexes: [proc/sched.c],
    [proc/sched_helper.c] and [proc/kmutex.c].

    A [ktqueue_t] is the sequence of the threads linked into it, head first
    (the kernel's lists are circular doubly linked lists with the links inside
    the objects, so a list is determined by the order of its objects); a pointer
    is its address, with [NULL] the address 0.  [context_switch] makes another
    thread current; what the calling thread does when it is scheduled again is
    a definition of its own, named [..._resume]. *)
From S2P Require Import Prelude.
From S2P Require Import Platform.
Open Scope Z_scope.

(** ** Data *)

Inductive ktstate := KT_NO_STATE | KT_RUN | KT_SLEEP | KT_SLEEP_CANCELLABLE | KT_EXITED.
#[global] Instance ktstate_eq_dec : EqDecision ktstate.
Proof. solve_decision. Defined.

(** The queues of the system: the run queue, the queue inside mutex [m], and
    every other wait queue. *)
Inductive qid := kt_runq | km_waitq (m : Z) | waitq (a : Z).
#[global] Instance qid_eq_dec : EqDecision qid.
Proof. solve_decision. Defined.
#[global] Instance qid_countable : Countable qid.
Proof.
  apply (inj_countable'
    (fun q => match q with kt_runq => inl tt | km_waitq m => inr (inl m) | waitq a => inr (inr a) end)
    (fun x => match x with inl _ => kt_runq | inr (inl m) => km_waitq m | inr (inr a) => waitq a end)).
  by intros [].
Defined.

Record kthread := Kthread {
  kt_state : ktstate;
  kt_wchan : option qid;
  kt_qlink : option qid;    (* the list its queue link is in, None when the link is NULL *)
  kt_cancelled : Z;
  kt_retval : Z;
  kt_errno : Z;
  kt_proc : Z;
  kt_kstack : Z;
  kt_frame : option Z       (* [curr_ipl] of its suspended [sched_switch] call *)
}.

Record ktqueue := Ktqueue { tq_list : list Z; tq_size : Z }.

Record sched := Sched {
  threads : gmap Z kthread;
  queues_of : gmap qid ktqueue;
  holders : gmap Z Z;
  curthr : Z;
  curproc : Z;
  ipl : Z;
  intr_on : bool
}.

(** A queue nobody was put on is empty, a mutex nobody locked has no holder. *)
Definition queues (s : sched) (q : qid) : ktqueue := default (Ktqueue [] 0) (queues_of s !! q).
Definition km_holder (s : sched) (m : Z) : Z := default NULL (holders s !! m).

Definition with_state (x : ktstate) (k : kthread) : kthread :=
  Kthread x (kt_wchan k) (kt_qlink k) (kt_cancelled k) (kt_retval k) (kt_errno k)
    (kt_proc k) (kt_kstack k) (kt_frame k).
Definition with_wchan (x : option qid) (k : kthread) : kthread :=
  Kthread (kt_state k) x (kt_qlink k) (kt_cancelled k) (kt_retval k) (kt_errno k)
    (kt_proc k) (kt_kstack k) (kt_frame k).
Definition with_qlink (x : option qid) (k : kthread) : kthread :=
  Kthread (kt_state k) (kt_wchan k) x (kt_cancelled k) (kt_retval k) (kt_errno k)
    (kt_proc k) (kt_kstack k) (kt_frame k).
Definition with_cancelled (x : Z) (k : kthread) : kthread :=
  Kthread (kt_state k) (kt_wchan k) (kt_qlink k) x (kt_retval k) (kt_errno k)
    (kt_proc k) (kt_kstack k) (kt_frame k).
Definition with_retval (x : Z) (k : kthread) : kthread :=
  Kthread (kt_state k) (kt_wchan k) (kt_qlink k) (kt_cancelled k) x (kt_errno k)
    (kt_proc k) (kt_kstack k) (kt_frame k).
Definition with_frame (x : option Z) (k : kthread) : kthread :=
  Kthread (kt_state k) (kt_wchan k) (kt_qlink k) (kt_cancelled k) (kt_retval k) (kt_errno k)
    (kt_proc k) (kt_kstack k) x.

Definition set_thr (t : Z) (k : kthread) (s : sched) : sched :=
  Sched (<[t := k]> (threads s)) (queues_of s) (holders s) (curthr s) (curproc s) (ipl s) (intr_on s).
Definition set_queue (q : qid) (x : ktqueue) (s : sched) : sched :=
  Sched (threads s) (<[q := x]> (queues_of s)) (holders s) (curthr s) (curproc s) (ipl s) (intr_on s).
Definition set_holder (m : Z) (t : Z) (s : sched) : sched :=
  Sched (threads s) (queues_of s) (<[m := t]> (holders s)) (curthr s) (curproc s) (ipl s) (intr_on s).
Definition set_cur (t p : Z) (s : sched) : sched :=
  Sched (threads s) (queues_of s) (holders s) t p (ipl s) (intr_on s).
Definition set_ipl (x : Z) (s : sched) : sched :=
  Sched (threads s) (queues_of s) (holders s) (curthr s) (curproc s) x (intr_on s).
Definition set_intr (x : bool) (s : sched) : sched :=
  Sched (threads s) (queues_of s) (holders s) (curthr s) (curproc s) (ipl s) x.

(** [t->...] and [t->field = ...] *)
Definition thr (t : Z) : M sched kthread := s ← get; deref (threads s !! t).
Definition upd_thr (t : Z) (f : kthread -> kthread) : M sched unit :=
  k ← thr t; modify (set_thr t (f k)).

Definition intr_getipl : M sched Z := gets ipl.
Definition intr_setipl (x : Z) : M sched unit := modify (set_ipl x).
Definition intr_disable : M sched unit := modify (set_intr false).
Definition intr_enable : M sched unit := modify (set_intr true).

(** ** Queues *)

Definition ktqueue_enqueue (q : qid) (t : Z) : M sched unit :=
  k ← thr t;
  kassert (bool_decide (kt_wchan k = None));;
  modify (fun s => set_queue q (Ktqueue (t :: tq_list (queues s q)) (tq_size (queues s q))) s);;
  upd_thr t (with_qlink (Some q));;
  upd_thr t (with_wchan (Some q));;
  modify (fun s => set_queue q (Ktqueue (tq_list (queues s q)) (tq_size (queues s q) + 1)) s).

(** [list_remove(&t->kt_qlink)]: unlink [t] from the list its link is in. *)
Definition list_remove_qlink (t : Z) : M sched unit :=
  k ← thr t;
  q ← deref (kt_qlink k);
  modify (fun s => set_queue q
    (Ktqueue (filter (fun x => x <> t) (tq_list (queues s q))) (tq_size (queues s q))) s);;
  upd_thr t (with_qlink None).

Definition ktqueue_dequeue (q : qid) : M sched Z :=
  s ← get;
  match last (tq_list (queues s q)) with
  | None => mret NULL
  | Some t =>
      list_remove_qlink t;;
      upd_thr t (with_wchan None);;
      modify (fun s => set_queue q (Ktqueue (tq_list (queues s q)) (tq_size (queues s q) - 1)) s);;
      mret t
  end.

Definition ktqueue_remove (q : qid) (t : Z) : M sched unit :=
  k ← thr t;
  kassert (bool_decide (is_Some (kt_qlink k)));;
  list_remove_qlink t;;
  upd_thr t (with_wchan None);;
  modify (fun s => set_queue q (Ktqueue (tq_list (queues s q)) (tq_size (queues s q) - 1)) s).

(** The loop of [ktqueue_contains]: [link] is not advanced. *)
Fixpoint ktqueue_contains_loop (n : nat) (link t : Z) : bool :=
  match n with
  | O => false
  | S n => if t =? link then true else ktqueue_contains_loop n link t
  end.
Definition ktqueue_contains (q : ktqueue) (t : Z) : bool :=
  match tq_list q with
  | [] => false
  | link :: _ => ktqueue_contains_loop (Z.to_nat (tq_size q)) link t
  end.

Definition ktqueue_skipqueue (q : qid) (t : Z) : M sched unit :=
  k ← thr t;
  kassert (bool_decide (kt_wchan k = None));;
  modify (fun s => set_queue q (Ktqueue (tq_list (queues s q) ++ [t]) (tq_size (queues s q))) s);;
  upd_thr t (with_qlink (Some q));;
  upd_thr t (with_wchan (Some q));;
  modify (fun s => set_queue q (Ktqueue (tq_list (queues s q)) (tq_size (queues s q) + 1)) s).

Definition sched_queue_init (q : qid) : M sched unit :=
  modify (set_queue q (Ktqueue [] 0)).
Definition sched_queue_empty (q : qid) (s : sched) : bool :=
  match tq_list (queues s q) with [] => true | _ => false end.

(** ** The scheduler *)

Section Scheduler.

(** Interrupts come from code outside the repository: [intr_wait] is whatever
    the handler that runs while the machine idles does to the scheduler's state,
    [irqs] bounds how many interrupts an idle wait is followed for. *)
Context `{P : Platform} (intr_wait : sched -> sched) (irqs : nat).

Definition sched_make_runnable (t : Z) : M sched unit :=
  k ← thr t;
  kassert (negb (bool_decide (kt_wchan k = Some kt_runq)));;
  curr_ipl ← intr_getipl;
  intr_setipl IPL_HIGH;;
  upd_thr t (with_state KT_RUN);;
  ktqueue_enqueue kt_runq t;;
  intr_setipl curr_ipl.

Fixpoint sched_idle (fuel : nat) : M sched unit :=
  match fuel with
  | O => stop OutOfFuel
  | S fuel =>
      e ← gets (sched_queue_empty kt_runq);
      if (e : bool) then
        intr_disable;;
        intr_setipl IPL_LOW;;
        modify intr_wait;;
        intr_setipl IPL_HIGH;;
        sched_idle fuel
      else mret tt
  end.

(** The part of [sched_switch] that runs when [t] is switched into: a thread
    that was suspended inside [sched_switch] restores its own [curr_ipl]. *)
Definition sched_switch_resume (t : Z) : M sched unit :=
  k ← thr t;
  match kt_frame k with
  | None => mret tt
  | Some curr_ipl => upd_thr t (with_frame None);; intr_setipl curr_ipl
  end.

Definition sched_switch : M sched unit :=
  curr_ipl ← intr_getipl;
  intr_setipl IPL_HIGH;;
  sched_idle (S irqs);;
  t ← ktqueue_dequeue kt_runq;
  previous_thread ← gets curthr;
  k ← thr t;
  modify (set_cur t (kt_proc k));;
  upd_thr previous_thread (with_frame (Some curr_ipl));;
  sched_switch_resume t.

Definition sched_sleep_on (q : qid) : M sched unit :=
  t ← gets curthr;
  upd_thr t (with_state KT_SLEEP);;
  ktqueue_enqueue q t;;
  sched_switch.

Definition sched_wakeup_on (q : qid) : M sched Z :=
  t ← ktqueue_dequeue q;
  if t =? NULL then mret NULL
  else
    k ← thr t;
    kassert (bool_decide (kt_state k = KT_SLEEP) || bool_decide (kt_state k = KT_SLEEP_CANCELLABLE));;
    sched_make_runnable t;;
    mret t.

Fixpoint sched_broadcast_loop (fuel : nat) (q : qid) : M sched unit :=
  match fuel with
  | O => stop OutOfFuel
  | S fuel =>
      t ← sched_wakeup_on q;
      if t =? NULL then mret tt else sched_broadcast_loop fuel q
  end.
Definition sched_broadcast_on (q : qid) : M sched unit :=
  s ← get; sched_broadcast_loop (S (length (tq_list (queues s q)))) q.

(** How a call that may sleep ends: it returned a value, or the thread was
    switched away from and finishes the call when it runs again. *)
Inductive called := Returned (v : Z) | Switched.

Definition sched_cancellable_sleep_on (q : qid) : M sched called :=
  intr_disable;;
  t ← gets curthr;
  k ← thr t;
  if kt_cancelled k =? 1 then intr_enable;; mret (Returned (- EINTR))
  else
    ktqueue_enqueue q t;;
    upd_thr t (with_state KT_SLEEP_CANCELLABLE);;
    intr_enable;;
    sched_switch;;
    mret Switched.
Definition sched_cancellable_sleep_on_resume : M sched Z :=
  t ← gets curthr;
  k ← thr t;
  mret (if kt_cancelled k =? 1 then - EINTR else 0).

Definition sched_cancel (t : Z) : M sched unit :=
  intr_disable;;
  k ← thr t;
  (if bool_decide (kt_state k = KT_SLEEP_CANCELLABLE) then
     upd_thr t (with_cancelled 1);;
     q ← deref (kt_wchan k);
     ktqueue_remove q t;;
     sched_make_runnable t
   else upd_thr t (with_cancelled 1));;
  intr_enable.

(** ** Mutexes *)

Definition kmutex_init (m : Z) : M sched unit :=
  modify (set_holder m NULL);; sched_queue_init (km_waitq m).

Definition kmutex_lock (m : Z) : M sched called :=
  s ← get;
  kassert (c_true (curthr s) && negb (curthr s =? km_holder s m));;
  if negb (km_holder s m =? NULL) then sched_sleep_on (km_waitq m);; mret Switched
  else modify (set_holder m (curthr s));; mret (Returned 0).

Definition kmutex_unlock (m : Z) : M sched unit :=
  s ← get;
  kassert (c_true (curthr s) && (curthr s =? km_holder s m));;
  (if sched_queue_empty (km_waitq m) s then modify (set_holder m NULL)
   else t ← sched_wakeup_on (km_waitq m); modify (set_holder m t));;
  s ← get;
  kassert (negb (curthr s =? km_holder s m)).

Definition kmutex_lock_cancellable (m : Z) : M sched called :=
  s ← get;
  kassert (c_true (curthr s) && negb (curthr s =? km_holder s m));;
  k ← thr (curthr s);
  if negb (kt_cancelled k =? 1) then
    if negb (km_holder s m =? NULL) then
      r ← sched_cancellable_sleep_on (km_waitq m);
      match r with
      | Switched => mret Switched
      | Returned retval =>
          when (retval =? - EINTR) (kmutex_unlock m);; mret (Returned retval)
      end
    else modify (set_holder m (curthr s));; mret (Returned 0)
  else mret (Returned (- EINTR)).
Definition kmutex_lock_cancellable_resume (m : Z) : M sched Z :=
  retval ← sched_cancellable_sleep_on_resume;
  when (retval =? - EINTR) (kmutex_unlock m);;
  mret retval.

(** ** Cancelling a thread: [kthread_cancel] of [proc/kthread.c] for a thread
    other than the current one. *)
Definition kthread_cancel_other (t retval : Z) : M sched unit :=
  upd_thr t (with_cancelled 1);;
  upd_thr t (with_retval retval);;
  sched_cancel t.

End Scheduler.

(** ** Invariants *)

(** Queues and threads agree: a thread is on a queue exactly when its [kt_wchan]
    is that queue, once, and [tq_size] counts the queue. *)
Record queue_ok (s : sched) : Prop := {
  qo_size : forall q, tq_size (queues s q) = Z.of_nat (length (tq_list (queues s q)));
  qo_nodup : forall q, NoDup (tq_list (queues s q));
  qo_mem : forall t q,
    t ∈ tq_list (queues s q) <-> exists k, threads s !! t = Some k /\ kt_wchan k = Some q;
  qo_link : forall t k, threads s !! t = Some k -> kt_qlink k = kt_wchan k;
  qo_null : threads s !! NULL = None
}.

(** A thread on the run queue is runnable, a thread on any other queue sleeps. *)
Definition state_fits (q : qid) (x : ktstate) : Prop :=
  match q with
  | kt_runq => x = KT_RUN
  | _ => x = KT_SLEEP \/ x = KT_SLEEP_CANCELLABLE
  end.
Definition state_ok (s : sched) : Prop :=
  forall t k q, threads s !! t = Some k -> kt_wchan k = Some q -> state_fits q (kt_state k).

(** A free mutex has no waiters, and its holder does not wait for it. *)
Definition mutex_ok (s : sched) : Prop :=
  forall m, (km_holder s m = NULL -> tq_list (queues s (km_waitq m)) = []) /\
            km_holder s m ∉ tq_list (queues s (km_waitq m)).

(** The current thread runs and is on no queue. *)
Definition cur_ok (s : sched) : Prop :=
  exists k, threads s !! curthr s = Some k /\ kt_wchan k = None /\ kt_state k = KT_RUN.

(** What holds between any two kernel operations, and also while idle. *)
Record idle_ok (s : sched) : Prop := {
  io_queue : queue_ok s; io_state : state_ok s; io_mutex : mutex_ok s
}.
Record sched_ok (s : sched) : Prop := { so_idle : idle_ok s; so_cur : cur_ok s }.

(** The threads of a queue in the order they will be dequeued. *)
Definition fifo (s : sched) (q : qid) : list Z := reverse (tq_list (queues s q)).

(** [s'] has the mutexes of [s]. *)
Definition same_mutexes (s s' : sched) : Prop :=
  holders s' = holders s /\ forall m, queues s' (km_waitq m) = queues s (km_waitq m).
(** [s'] has the threads of [s] with the same cancellation flags, and those that
    wait for a mutex still do, in the same state. *)
Definition same_waiter (k k' : kthread) : Prop :=
  kt_cancelled k' = kt_cancelled k /\
  forall m, kt_wchan k = Some (km_waitq m) -> kt_wchan k' = kt_wchan k /\ kt_state k' = kt_state k.
Definition same_waiters (s s' : sched) : Prop :=
  forall t k, threads s !! t = Some k -> exists k', threads s' !! t = Some k' /\ same_waiter k k'.

(** What interrupt handlers promise the scheduler: they keep its invariant, leave
    the current thread current, never touch a mutex (mutexes are used in thread
    context only) and never cancel a thread. *)
Definition intr_pres (intr_wait : sched -> sched) : Prop :=
  forall s, idle_ok s ->
  idle_ok (intr_wait s) /\ same_mutexes s (intr_wait s) /\ same_waiters s (intr_wait s) /\
  curthr (intr_wait s) = curthr s.

(** ** The primitive operations compute *)

Definition linked (q : qid) (k : kthread) : kthread := with_wchan (Some q) (with_qlink (Some q) k).
Definition unlinked (k : kthread) : kthread := with_wchan None (with_qlink None k).

Definition enq (q : qid) (t : Z) (k : kthread) (s : sched) : sched :=
  set_queue q (Ktqueue (t :: tq_list (queues s q)) (tq_size (queues s q) + 1))
    (set_thr t (linked q k) s).
Definition deq (q : qid) (t : Z) (k : kthread) (s : sched) : sched :=
  set_queue q (Ktqueue (filter (fun x => x <> t) (tq_list (queues s q))) (tq_size (queues s q) - 1))
    (set_thr t (unlinked k) s).

Lemma thr_ok t k s : threads s !! t = Some k -> thr t s = Ok k s.
Proof. unfold thr, get, mbind, M_bind. intros H. cbn. by rewrite H. Qed.

Lemma upd_thr_ok t f k s :
  threads s !! t = Some k -> upd_thr t f s = Ok tt (set_thr t (f k) s).
Proof. intros H. unfold upd_thr. by rewrite (bind_ok _ _ _ _ _ (thr_ok _ _ _ H)). Qed.

Lemma queues_set_queue q x s : queues (set_queue q x s) q = x.
Proof. unfold queues, set_queue. cbn. by rewrite lookup_insert_eq. Qed.
Lemma queues_set_queue_ne q q' x s : q <> q' -> queues (set_queue q x s) q' = queues s q'.
Proof. intros. unfold queues, set_queue. cbn. by rewrite lookup_insert_ne. Qed.
Lemma set_queue_twice q x y s : set_queue q x (set_queue q y s) = set_queue q x s.
Proof. unfold set_queue. cbn. by rewrite insert_insert_eq. Qed.
Lemma set_thr_twice t x y s : set_thr t x (set_thr t y s) = set_thr t x s.
Proof. unfold set_thr. cbn. by rewrite insert_insert_eq. Qed.
Lemma set_thr_id t k s : threads s !! t = Some k -> set_thr t k s = s.
Proof. intros H. destruct s. unfold set_thr; cbn in *. by rewrite insert_id. Qed.

(** Two states built by updates of the same fields are equal field by field. *)
Ltac sched_eq :=
  unfold enq, deq, set_queue, set_thr, queues; cbn;
  rewrite ?lookup_insert_eq, ?insert_insert_eq; done.

(** A link operation writes the whole thread, so an update of it before is lost. *)
Lemma enq_set_thr q t k k' s : enq q t k (set_thr t k' s) = enq q t k s.
Proof. unfold enq. by rewrite set_thr_twice. Qed.
Lemma deq_set_thr q t k k' s : deq q t k (set_thr t k' s) = deq q t k s.
Proof. unfold deq. by rewrite set_thr_twice. Qed.
Lemma set_intr_set_thr b t k s : set_intr b (set_thr t k s) = set_thr t k (set_intr b s).
Proof. done. Qed.
Lemma set_intr_deq b q t k s : set_intr b (deq q t k s) = deq q t k (set_intr b s).
Proof. done. Qed.
Lemma set_intr_enq b q t k s : set_intr b (enq q t k s) = enq q t k (set_intr b s).
Proof. done. Qed.
Lemma set_intr_twice a b s : set_intr a (set_intr b s) = set_intr a s.
Proof. done. Qed.

(** Run the next step of a computation whose outcome a lemma or hypothesis gives. *)
Ltac run_with E := rewrite (bind_ok _ _ _ _ _ E); cbn.

Lemma ktqueue_enqueue_ok q t k s :
  threads s !! t = Some k -> kt_wchan k = None -> ktqueue_enqueue q t s = Ok tt (enq q t k s).
Proof.
  intros Ht Hw. unfold ktqueue_enqueue. run_with (thr_ok _ _ _ Ht).
  rewrite Hw. cbn. unfold mbind, M_bind, modify. cbn.
  rewrite (upd_thr_ok t _ k) by done.
  rewrite (upd_thr_ok t _ (with_qlink (Some q) k)) by (cbn; apply lookup_insert_eq).
  f_equal. sched_eq.
Qed.

Lemma list_remove_qlink_ok q t k s :
  threads s !! t = Some k -> kt_qlink k = Some q ->
  list_remove_qlink t s =
    Ok tt (set_queue q (Ktqueue (filter (fun x => x <> t) (tq_list (queues s q))) (tq_size (queues s q)))
             (set_thr t (with_qlink None k) s)).
Proof.
  intros Ht Hq. unfold list_remove_qlink. run_with (thr_ok _ _ _ Ht).
  rewrite Hq. unfold mbind, M_bind, modify. cbn. by rewrite (upd_thr_ok t _ k) by done.
Qed.

Lemma ktqueue_remove_ok q t k s :
  threads s !! t = Some k -> kt_qlink k = Some q -> ktqueue_remove q t s = Ok tt (deq q t k s).
Proof.
  intros Ht Hq. unfold ktqueue_remove. run_with (thr_ok _ _ _ Ht).
  rewrite Hq. cbn. unfold mbind, M_bind. cbn. rewrite (list_remove_qlink_ok q t k) by done.
  rewrite (upd_thr_ok t _ (with_qlink None k)) by (cbn; apply lookup_insert_eq).
  unfold modify. f_equal. sched_eq.
Qed.

Lemma ktqueue_dequeue_ok q t k s :
  last (tq_list (queues s q)) = Some t -> threads s !! t = Some k -> kt_qlink k = Some q ->
  ktqueue_dequeue q s = Ok t (deq q t k s).
Proof.
  intros Hl Ht Hq. unfold ktqueue_dequeue, get, mbind, M_bind. cbn.
  rewrite Hl. rewrite (list_remove_qlink_ok q t k) by done.
  rewrite (upd_thr_ok t _ (with_qlink None k)) by (cbn; apply lookup_insert_eq).
  unfold modify. cbn. f_equal. sched_eq.
Qed.

Lemma ktqueue_dequeue_empty q s :
  tq_list (queues s q) = [] -> ktqueue_dequeue q s = Ok NULL s.
Proof. intros Hl. unfold ktqueue_dequeue, get, mbind, M_bind. cbn. by rewrite Hl. Qed.

(** ** The invariants under the primitive operations *)

Lemma list_enq q t k s q' :
  tq_list (queues (enq q t k s) q') =
    if decide (q = q') then t :: tq_list (queues s q') else tq_list (queues s q').
Proof. unfold enq, set_queue, set_thr, queues; cbn. rewrite lookup_insert. by case_decide; subst. Qed.
Lemma list_deq q t k s q' :
  tq_list (queues (deq q t k s) q') =
    if decide (q = q') then filter (fun x => x <> t) (tq_list (queues s q')) else tq_list (queues s q').
Proof. unfold deq, set_queue, set_thr, queues; cbn. rewrite lookup_insert. by case_decide; subst. Qed.

Lemma lookup_set_thr t k s u :
  threads (set_thr t k s) !! u = if decide (t = u) then Some k else threads s !! u.
Proof. cbn. by rewrite lookup_insert. Qed.

Lemma set_thr_queue_ok t k k' s :
  threads s !! t = Some k -> kt_wchan k' = kt_wchan k -> kt_qlink k' = kt_qlink k ->
  queue_ok s -> queue_ok (set_thr t k' s).
Proof.
  intros Ht Hw Hq [H1 H2 H3 H4 H5]. split; [done|done| | | ].
  - intros u q. change (queues (set_thr t k' s) q) with (queues s q).
    rewrite H3, lookup_set_thr. case_decide; [subst|done].
    rewrite Ht. split; intros (x & [= <-] & Hx); eexists; (split; [done|]); congruence.
  - intros u x. rewrite lookup_set_thr. case_decide; [|by apply H4].
    intros [= <-]. subst. rewrite Hw, Hq. by apply H4 with u.
  - rewrite lookup_set_thr. case_decide; [congruence|done].
Qed.

Lemma enq_queue_ok q t k s :
  threads s !! t = Some k -> kt_wchan k = None -> queue_ok s -> queue_ok (enq q t k s).
Proof.
  intros Ht Hw [H1 H2 H3 H4 H5].
  assert (forall q, t ∉ tq_list (queues s q)) as Hn 
    by (intros ?; rewrite H3; intros (? & ? & ?); congruence).
  split.
  - intros q'. rewrite list_enq. unfold enq, set_queue, set_thr, queues; cbn.
    rewrite lookup_insert. case_decide; subst; [|by apply H1].
    cbn. fold (queues s q'). rewrite (H1 q'). lia.
  - intros q'. rewrite list_enq. case_decide; [by constructor|done].
  - intros u q'. rewrite list_enq. change (threads (enq q t k s)) with (threads (set_thr t (linked q k) s)).
    rewrite lookup_set_thr. specialize (H3 u q'). specialize (Hn q').
    destruct (decide (q = q')) as [<-|]; destruct (decide (t = u)) as [<-|]; rewrite ?elem_of_cons.
    + split; [intros _; by exists (linked q k)|by left].
    + rewrite H3. naive_solver.
    + split; [done|]. intros (? & [= <-] & ?). cbn in *. congruence.
    + done.
  - intros u x. change (threads (enq q t k s)) with (threads (set_thr t (linked q k) s)).
    rewrite lookup_set_thr. case_decide; [by intros [= <-]|eauto].
  - change (threads (enq q t k s)) with (threads (set_thr t (linked q k) s)).
    rewrite lookup_set_thr. case_decide; congruence.
Qed.

Lemma deq_queue_ok q t k s :
  threads s !! t = Some k -> kt_wchan k = Some q -> queue_ok s -> queue_ok (deq q t k s).
Proof.
  intros Ht Hw [H1 H2 H3 H4 H5].
  assert (t ∈ tq_list (queues s q)) as Hin by (apply H3; eauto).
  split.
  - intros q'. rewrite list_deq. unfold deq, set_queue, set_thr, queues; cbn.
    rewrite lookup_insert. case_decide; subst; [|by apply H1].
    cbn. fold (queues s q'). rewrite (H1 q'). rewrite <- (length_filter_ne t _ (H2 q') Hin). lia.
  - intros q'. rewrite list_deq. case_decide; [by apply NoDup_filter|done].
  - intros u q'. rewrite list_deq. change (threads (deq q t k s)) with (threads (set_thr t (unlinked k) s)).
    rewrite lookup_set_thr. specialize (H3 u q').
    destruct (decide (q = q')) as [<-|]; destruct (decide (t = u)) as [<-|]; rewrite ?list_elem_of_filter.
    + split; [tauto|]. intros (? & [= <-] & ?). done.
    + rewrite H3. naive_solver.
    + rewrite H3. split; [intros (? & ? & ?); congruence|]. intros (? & [= <-] & ?). done.
    + done.
  - intros u x. change (threads (deq q t k s)) with (threads (set_thr t (unlinked k) s)).
    rewrite lookup_set_thr. case_decide; [by intros [= <-]|eauto].
  - change (threads (deq q t k s)) with (threads (set_thr t (unlinked k) s)).
    rewrite lookup_set_thr. case_decide; congruence.
Qed.

Lemma set_thr_state_ok t k s :
  (forall q, kt_wchan k = Some q -> state_fits q (kt_state k)) -> state_ok s -> state_ok (set_thr t k s).
Proof. intros Hk Hs u x q. rewrite lookup_set_thr. case_decide; naive_solver. Qed.

Lemma enq_state_ok q t k s :
  state_fits q (kt_state k) -> state_ok s -> state_ok (enq q t k s).
Proof. intros Hf. apply set_thr_state_ok. cbn. naive_solver. Qed.

Lemma deq_state_ok q t k s : state_ok s -> state_ok (deq q t k s).
Proof. apply set_thr_state_ok. cbn. naive_solver. Qed.

Lemma enq_mutex_ok q t k s :
  (forall m, q = km_waitq m -> km_holder s m <> NULL /\ km_holder s m <> t) ->
  mutex_ok s -> mutex_ok (enq q t k s).
Proof.
  intros Hq Hm m. rewrite list_enq. change (km_holder (enq q t k s) m) with (km_holder s m).
  destruct (Hm m) as [Hn Hi]. case_decide; [|done].
  destruct (Hq m) as [? ?]; [done|]. set_solver.
Qed.

Lemma deq_mutex_ok q t k s : mutex_ok s -> mutex_ok (deq q t k s).
Proof.
  intros Hm m. rewrite list_deq. change (km_holder (deq q t k s) m) with (km_holder s m).
  destruct (Hm m) as [Hn Hi]. case_decide; [|done]. split.
  - intros Hh. by rewrite (Hn Hh).
  - rewrite list_elem_of_filter. naive_solver.
Qed.

(** Under [queue_ok] a dequeue returns the oldest thread. *)
Lemma dequeue_oldest q s l t :
  queue_ok s -> tq_list (queues s q) = l ++ [t] ->
  exists k, threads s !! t = Some k /\ kt_wchan k = Some q /\
    ktqueue_dequeue q s = Ok t (deq q t k s) /\
    tq_list (queues (deq q t k s) q) = l /\ t <> NULL.
Proof.
  intros Hs Hl. destruct Hs as [H1 H2 H3 H4 H5].
  destruct (proj1 (H3 t q)) as (k & Hk & Hw); [rewrite Hl; set_solver|].
  exists k. split_and!; try done.
  - apply ktqueue_dequeue_ok; [by rewrite Hl, last_snoc|done|]. rewrite (H4 _ _ Hk). done.
  - rewrite list_deq, decide_True by done. rewrite Hl. apply filter_ne_snoc.
    specialize (H2 q). by rewrite Hl in H2.
  - naive_solver.
Qed.
