(* ===== verification/Init.v ===== *)
(** Starting the components: the functions that make their allocators, the run queue
    and the list of processes.

    Whoever calls them is not in the repository: in any order, all of them together
    leave every component ready ([inits_ready]). *)
From S2P Require Import Prelude.
From S2P Require Import Platform.
From S2P Require Import Sched.
Open Scope Z_scope.

(** The static variables [proc_allocator], [kthread_allocator], ... *)
Inductive slab := ProcSlab | KthreadSlab | VmmapSlab | VmareaSlab | AnonSlab | ShadowSlab.
#[export] Instance slab_eq_dec : EqDecision slab.
Proof. solve_decision. Defined.

(** slab_allocator_create(name, size) in the memory of the allocators: NULL when it fails. *)
Class InitOps (LM : Type) := { slab_allocator_create : slab -> M LM Z }.

Section Init.
Context {LM : Type} `{!InitOps LM}.

(** The globals: an allocator that has not been made is NULL. *)
Record globals := Globals { allocator : slab -> Z; g_sched : sched; g_proc_list : list Z; g_mem : LM }.
Definition set_allocator (a : slab) (x : Z) (g : globals) : globals :=
  Globals (fun b => if decide (a = b) then x else allocator g b) (g_sched g) (g_proc_list g) (g_mem g).
Definition set_g_sched (s : sched) (g : globals) : globals := Globals (allocator g) s (g_proc_list g) (g_mem g).
Definition set_g_list (l : list Z) (g : globals) : globals := Globals (allocator g) (g_sched g) l (g_mem g).
Definition set_g_mem (m : LM) (g : globals) : globals := Globals (allocator g) (g_sched g) (g_proc_list g) m.
Definition in_mem {A} (f : M LM A) : M globals A := fun g =>
  match f (g_mem g) with Ok a m => Ok a (set_g_mem m g) | Halt h m => Halt h (set_g_mem m g) end.

(** [x = slab_allocator_create(..); KASSERT(NULL != x);] *)
Definition make_allocator (a : slab) : M globals unit :=
  x ← in_mem (slab_allocator_create a);
  modify (set_allocator a x);;
  kassert (c_true x).

Definition proc_init : M globals unit := modify (set_g_list []);; make_allocator ProcSlab.
Definition kthread_init : M globals unit := make_allocator KthreadSlab.
Definition vmmap_init : M globals unit := make_allocator VmmapSlab;; make_allocator VmareaSlab.
Definition anon_init : M globals unit := make_allocator AnonSlab.
Definition shadow_init : M globals unit := make_allocator ShadowSlab.
Definition sched_init : M globals unit := fun g =>
  match sched_queue_init kt_runq (g_sched g) with Ok _ s => Ok tt (set_g_sched s g) | Halt h s => Halt h (set_g_sched s g) end.

(** ** All of them *)

Inductive part := Processes | Threads | Spaces | Anons | Shadows | Runq.
Definition init (i : part) : M globals unit :=
  match i with
  | Processes => proc_init | Threads => kthread_init | Spaces => vmmap_init
  | Anons => anon_init | Shadows => shadow_init | Runq => sched_init
  end.
Definition ready (i : part) (g : globals) : Prop :=
  match i with
  | Processes => allocator g ProcSlab <> NULL /\ g_proc_list g = []
  | Threads => allocator g KthreadSlab <> NULL
  | Spaces => allocator g VmmapSlab <> NULL /\ allocator g VmareaSlab <> NULL
  | Anons => allocator g AnonSlab <> NULL
  | Shadows => allocator g ShadowSlab <> NULL
  | Runq => queues (g_sched g) kt_runq = Ktqueue [] 0
  end.

Lemma in_mem_inv {A} (f : M LM A) g a g' : in_mem f g = Ok a g' -> exists m, g' = set_g_mem m g.
Proof. unfold in_mem. destruct (f (g_mem g)); intros [= <- <-]. eauto. Qed.
Lemma make_allocator_inv a g g' : make_allocator a g = Ok tt g' -> exists x m, x <> NULL /\ g' = set_allocator a x (set_g_mem m g).
Proof.
  unfold make_allocator. intros (x & g1 & (m & ->)%in_mem_inv & E)%bind_Ok_inv. rewrite modify_bind in E.
  apply kassert_Ok_inv in E as [Hx%c_true_spec ->]. eauto.
Qed.

(** Each function makes its part ready and undoes no other. *)
Lemma init_ready i g g' : init i g = Ok tt g' -> ready i g' /\ forall j, ready j g -> ready j g'.
Proof.
  destruct i; cbn; intros E.
  - unfold proc_init in E. rewrite modify_bind in E. apply make_allocator_inv in E as (x & m & Hx & ->). split; [by split|]. intros []; cbn; naive_solver.
  - apply make_allocator_inv in E as (x & m & Hx & ->). split; [done|]. intros []; cbn; naive_solver.
  - apply bind_Ok_inv in E as ([] & g1 & (x & m & Hx & ->)%make_allocator_inv & (y & m' & Hy & ->)%make_allocator_inv). split; [by split|]. intros []; cbn; naive_solver.
  - apply make_allocator_inv in E as (x & m & Hx & ->). split; [done|]. intros []; cbn; naive_solver.
  - apply make_allocator_inv in E as (x & m & Hx & ->). split; [done|]. intros []; cbn; naive_solver.
  - injection E as <-. assert (queues (set_queue kt_runq (Ktqueue [] 0) (g_sched g)) kt_runq = Ktqueue [] 0) as Hq by (unfold queues; cbn; by rewrite lookup_insert_eq).
    split; [exact Hq|]. intros []; cbn; naive_solver.
Qed.

(** The functions in any order, each at least once, make every part ready. *)
Theorem inits_ready l g g' : (forall i, i ∈ l) -> mfor l init g = Ok tt g' -> forall i, ready i g'.
Proof.
  intros Hl E i. specialize (Hl i). assert (i ∈ l \/ ready i g) as Hor by by left. clear Hl. revert g E Hor. induction l as [|j l IH]; intros g E Hor; cbn in E.
  - injection E as <-. destruct Hor as [?%elem_of_nil|?]; done.
  - apply bind_Ok_inv in E as ([] & g1 & E1 & E). destruct (init_ready _ _ _ E1) as [H1 H2]. apply (IH g1 E).
    destruct Hor as [[->|Hin]%elem_of_cons|Hr]; [by right|by left|by right; apply H2].
Qed.

(** They all return as long as allocators can be made. *)
Theorem inits_return l g : (forall a m, exists x m', x <> NULL /\ slab_allocator_create a m = Ok x m') -> exists g', mfor l init g = Ok tt g'.
Proof.
  intros Hc. assert (forall a g0, exists g', make_allocator a g0 = Ok tt g') as Hm.
  { intros a g0. destruct (Hc a (g_mem g0)) as (x & m' & Hx & E). unfold make_allocator, in_mem, mbind, M_bind. rewrite E. cbn.
    rewrite (proj2 (c_true_spec x) Hx). by eexists. }
  assert (forall i g0, exists g', init i g0 = Ok tt g') as Hi.
  { intros [] g0; cbn; try apply Hm; [|by eexists]. destruct (Hm VmmapSlab g0) as [g1 E1]. unfold vmmap_init. rewrite (bind_ok _ _ _ _ _ E1). apply Hm. }
  revert g. induction l as [|i l IH]; intros g; cbn; [by eexists|]. destruct (Hi i g) as [g1 E1]. rewrite (bind_ok _ _ _ _ _ E1). apply IH.
Qed.
End Init.

(** Six allocators, numbered as they are made. *)
#[local] Instance counting : InitOps Z := {| slab_allocator_create _ := fun n => Ok (n + 1) (n + 1) |}.
Example inits_run : match mfor [Runq; Shadows; Spaces; Processes; Anons; Threads] init (Globals (fun _ => NULL) (Sched ∅ ∅ ∅ NULL NULL 0 false) [5] 0) with
  | Ok _ g => (allocator g <$> [ProcSlab; KthreadSlab; VmmapSlab; VmareaSlab; AnonSlab; ShadowSlab], g_proc_list g)
  | Halt _ _ => ([], [])
  end = ([4; 6; 2; 3; 5; 1], []).
Proof. reflexivity. Qed.
