(* ===== verification/SchedInv.v ===== *)
(** What the scheduler and the mutexes guarantee: every operation of
    [Sched] keeps the scheduler's invariant, threads are scheduled and woken in
    first-in-first-out order, a mutex has one holder and a thread that returns
    from [kmutex_lock] holds it, for every interleaving of kernel operations. *)
From S2P Require Import Prelude.
From S2P Require Import Platform.
From S2P Require Import Sched.
Open Scope Z_scope.

(** ** States that differ in the interrupt mask only *)

Definition same_core (s s' : sched) : Prop :=
  threads s' = threads s /\ queues_of s' = queues_of s /\ holders s' = holders s.

Lemma same_core_queues s s' q : same_core s s' -> queues s' q = queues s q.
Proof. intros (_ & H & _). unfold queues. by rewrite H. Qed.

Lemma idle_ok_core s s' : same_core s s' -> idle_ok s -> idle_ok s'.
Proof.
  intros Hc [[H1 H2 H3 H4 H5] Hs Hm]. pose proof (fun q => same_core_queues _ _ q Hc) as Hq.
  destruct Hc as (Ht & _ & Hh). split; [split| | ].
  - intros q. by rewrite Hq.
  - intros q. by rewrite Hq.
  - intros t q. by rewrite Hq, Ht.
  - intros t k. rewrite Ht. apply H4.
  - by rewrite Ht.
  - intros t k q. rewrite Ht. apply Hs.
  - intros m. rewrite Hq. unfold km_holder. rewrite Hh. apply Hm.
Qed.

#[global] Instance same_core_refl : Reflexive same_core.
Proof. done. Qed.
#[global] Instance same_core_trans : Transitive same_core.
Proof. intros a b c (?&?&?) (?&?&?). unfold same_core. split_and!; congruence. Qed.
#[global] Instance same_mutexes_refl : Reflexive same_mutexes.
Proof. done. Qed.
#[global] Instance same_mutexes_trans : Transitive same_mutexes.
Proof. intros a b c [H1 H2] [H3 H4]. split; [congruence|]. intros m. by rewrite H4. Qed.
#[global] Instance same_waiters_refl : Reflexive same_waiters.
Proof. intros s t k Hk. by exists k. Qed.
#[global] Instance same_waiters_trans : Transitive same_waiters.
Proof.
  intros a b c H1 H2 t k Hk. destruct (H1 _ _ Hk) as (k1 & Hk1 & Hc1 & Hw1).
  destruct (H2 _ _ Hk1) as (k2 & Hk2 & Hc2 & Hw2). exists k2. split; [done|]. split; [congruence|].
  intros m Hm. destruct (Hw1 m Hm) as [E1 E2].
  destruct (Hw2 m) as [E3 E4]; [congruence|]. split; congruence.
Qed.

Lemma same_core_mutexes s s' : same_core s s' -> same_mutexes s s'.
Proof. intros Hc. split; [apply Hc|]. intros m. by apply same_core_queues. Qed.
Lemma same_core_waiters s s' : same_core s s' -> same_waiters s s'.
Proof. intros (Ht & _ & _) t k Hk. exists k. by rewrite Ht. Qed.

Lemma set_ipl_core x s : same_core s (set_ipl x s).
Proof. done. Qed.
Lemma set_intr_core x s : same_core s (set_intr x s).
Proof. done. Qed.
Lemma set_cur_core t p s : same_core s (set_cur t p s).
Proof. done. Qed.
#[export] Hint Resolve set_ipl_core set_intr_core set_cur_core same_core_mutexes
  same_core_waiters : kernel.

(** Updates of one thread, and queue operations on queues that are no mutex's. *)
Lemma set_thr_waiters t k k' s :
  threads s !! t = Some k -> same_waiter k k' -> same_waiters s (set_thr t k' s).
Proof.
  intros Ht Hc u x Hu. rewrite lookup_set_thr. case_decide; [subst|by exists x].
  exists k'. split; [done|]. by simplify_eq.
Qed.

Definition is_mutexq (q : qid) : bool := match q with km_waitq _ => true | _ => false end.

Lemma enq_mutexes q t k s : is_mutexq q = false -> same_mutexes s (enq q t k s).
Proof.
  intros Hq. split; [done|]. intros m. unfold enq, set_queue, set_thr, queues. cbn.
  rewrite lookup_insert_ne; [done|]. by intros ->.
Qed.
Lemma deq_mutexes q t k s : is_mutexq q = false -> same_mutexes s (deq q t k s).
Proof.
  intros Hq. split; [done|]. intros m. unfold deq, set_queue, set_thr, queues. cbn.
  rewrite lookup_insert_ne; [done|]. by intros ->.
Qed.

(** ** Waking a thread *)

Definition wake (q : qid) (t : Z) (k : kthread) (s : sched) : sched :=
  enq kt_runq t (with_state KT_RUN (unlinked k)) (deq q t k s).

Lemma wake_list q t k s q' :
  q <> kt_runq ->
  tq_list (queues (wake q t k s) q') =
    if decide (q' = kt_runq) then t :: tq_list (queues s kt_runq)
    else if decide (q' = q) then filter (fun x => x <> t) (tq_list (queues s q))
    else tq_list (queues s q').
Proof.
  intros Hq. unfold wake. rewrite list_enq.
  destruct (decide (kt_runq = q')) as [<-|].
  - rewrite decide_True by done. rewrite list_deq, decide_False by done. done.
  - rewrite decide_False by done. rewrite list_deq. case_decide; subst.
    + by rewrite decide_True.
    + by rewrite decide_False.
Qed.

Section Operations.
Context `{P : Platform}.

Lemma make_runnable_ok t k s :
  threads s !! t = Some k -> kt_wchan k = None ->
  sched_make_runnable t s = Ok tt (enq kt_runq t (with_state KT_RUN k) s).
Proof.
  intros Ht Hw. unfold sched_make_runnable. run_with (thr_ok _ _ _ Ht).
  rewrite Hw, bool_decide_eq_false_2 by done. unfold mbind, M_bind. cbn.
  rewrite (upd_thr_ok t _ k) by done.
  rewrite (ktqueue_enqueue_ok _ _ (with_state KT_RUN k)) by (cbn; rewrite ?lookup_insert_eq; done).
  f_equal. destruct s. sched_eq.
Qed.

Lemma enq_idle_ok q t k s :
  threads s !! t = Some k -> kt_wchan k = None -> state_fits q (kt_state k) ->
  (forall m, q = km_waitq m -> km_holder s m <> NULL /\ km_holder s m <> t) ->
  idle_ok s -> idle_ok (enq q t k s).
Proof.
  intros Ht Hw Hf Hq [H1 H2 H3]. split;
    [by apply enq_queue_ok|by apply enq_state_ok|by apply enq_mutex_ok].
Qed.

Lemma deq_idle_ok q t k s :
  threads s !! t = Some k -> kt_wchan k = Some q -> idle_ok s -> idle_ok (deq q t k s).
Proof.
  intros Ht Hw [H1 H2 H3]. split;
    [by apply deq_queue_ok|by apply deq_state_ok|by apply deq_mutex_ok].
Qed.

(** A change of a thread that keeps its queue link. *)
Lemma set_thr_idle_ok t k k' s :
  threads s !! t = Some k -> kt_wchan k' = kt_wchan k -> kt_qlink k' = kt_qlink k ->
  (forall q, kt_wchan k' = Some q -> state_fits q (kt_state k')) ->
  idle_ok s -> idle_ok (set_thr t k' s).
Proof.
  intros Ht Hw Hq Hf [H1 H2 H3]. split;
    [by eapply set_thr_queue_ok|by apply set_thr_state_ok|done].
Qed.

(** [enq] and [wake] only look at the thread's queue link. *)
Lemma enq_with_state q t k x s :
  enq q t (with_state x k) s = enq q t (with_state x k) (set_thr t (with_state x k) s).
Proof. by rewrite enq_set_thr. Qed.

Lemma wake_set_thr q t k k' s : wake q t k (set_thr t k' s) = wake q t k s.
Proof. unfold wake. by rewrite deq_set_thr. Qed.
Lemma set_intr_wake b q t k s : set_intr b (wake q t k s) = wake q t k (set_intr b s).
Proof. done. Qed.

Lemma wake_idle_ok q t k s :
  threads s !! t = Some k -> kt_wchan k = Some q -> idle_ok s -> idle_ok (wake q t k s).
Proof.
  intros Ht Hw Hs. unfold wake. rewrite enq_with_state.
  assert (threads (deq q t k s) !! t = Some (unlinked k)) as Hd by (cbn; apply lookup_insert_eq).
  apply enq_idle_ok; [cbn; apply lookup_insert_eq|done|done|done|].
  eapply set_thr_idle_ok; [exact Hd|done|done|done|]. by apply deq_idle_ok.
Qed.

Lemma wakeup_on_ok q s l t :
  idle_ok s -> q <> kt_runq -> tq_list (queues s q) = l ++ [t] ->
  exists k, threads s !! t = Some k /\ kt_wchan k = Some q /\ t <> NULL /\
    sched_wakeup_on q s = Ok t (wake q t k s).
Proof.
  intros Hs Hq Hl.
  destruct (dequeue_oldest q s l t (io_queue _ Hs) Hl) as (k & Hk & Hw & Hd & _ & Hn).
  exists k. split_and!; [done|done|done|].
  unfold sched_wakeup_on. run_with Hd. rewrite (proj2 (Z.eqb_neq _ _) Hn).
  assert (threads (deq q t k s) !! t = Some (unlinked k)) as Hdk by (cbn; apply lookup_insert_eq).
  run_with (thr_ok _ _ _ Hdk).
  assert (kt_state k = KT_SLEEP \/ kt_state k = KT_SLEEP_CANCELLABLE) as Hst.
  { pose proof (io_state _ Hs _ _ _ Hk Hw). by destruct q. }
  assert (kassert (bool_decide (kt_state k = KT_SLEEP) ||
                   bool_decide (kt_state k = KT_SLEEP_CANCELLABLE)) (deq q t k s)
          = Ok tt (deq q t k s)) as Ha by (by destruct Hst as [-> | ->]).
  run_with Ha. by run_with (make_runnable_ok _ _ _ Hdk eq_refl).
Qed.

Lemma wakeup_on_empty q s :
  tq_list (queues s q) = [] -> sched_wakeup_on q s = Ok NULL s.
Proof. intros H. unfold sched_wakeup_on. by run_with (ktqueue_dequeue_empty q s H). Qed.

Lemma wake_cur q t k s : curthr (wake q t k s) = curthr s.
Proof. done. Qed.

Lemma broadcast_loop_ok q n s :
  idle_ok s -> q <> kt_runq -> (length (tq_list (queues s q)) < n)%nat ->
  exists s', sched_broadcast_loop n q s = Ok tt s' /\ idle_ok s' /\
    tq_list (queues s' q) = [] /\
    tq_list (queues s' kt_runq) = tq_list (queues s q) ++ tq_list (queues s kt_runq) /\
    (forall q', q' <> q -> q' <> kt_runq -> tq_list (queues s' q') = tq_list (queues s q')) /\
    curthr s' = curthr s /\ holders s' = holders s.
Proof.
  revert s. induction n as [|n IH]; intros s Hs Hq Hn; [lia|].
  destruct (tq_list (queues s q)) as [|x l0 _] eqn:Hl using rev_ind.
  - exists s. cbn. by run_with (wakeup_on_empty q s Hl).
  - destruct (wakeup_on_ok q s l0 x Hs Hq Hl) as (k & Hk & Hw & Hx & Hwk).
    assert (tq_list (queues (wake q x k s) q) = l0) as Hl0.
    { rewrite wake_list, decide_False, decide_True by done. rewrite Hl. apply filter_ne_snoc.
      rewrite <- Hl. apply (io_queue _ Hs). }
    destruct (IH (wake q x k s)) as (s' & Hr & Hs' & He & Hrq & Ho & Hc & Hh).
    { by apply wake_idle_ok. } { done. } { rewrite Hl0. rewrite length_app in Hn. cbn in Hn. lia. }
    exists s'. split_and!; try done.
    + cbn. run_with Hwk. by rewrite (proj2 (Z.eqb_neq _ _) Hx).
    + rewrite Hrq, Hl0, wake_list, decide_True by done. by rewrite <- app_assoc.
    + intros q' H1 H2. rewrite Ho, wake_list, !decide_False by done. done.
Qed.

(** ** Mutexes *)

Lemma set_holder_km m t s m' :
  km_holder (set_holder m t s) m' = if decide (m = m') then t else km_holder s m'.
Proof. unfold km_holder, set_holder. cbn. rewrite lookup_insert. by case_decide. Qed.

Lemma set_holder_idle_ok m t s :
  idle_ok s -> (t = NULL -> tq_list (queues s (km_waitq m)) = []) ->
  t ∉ tq_list (queues s (km_waitq m)) -> idle_ok (set_holder m t s).
Proof.
  intros [H1 H2 H3] Hn Hi. split.
  - destruct H1. split; assumption.
  - exact H2.
  - intros m'. rewrite set_holder_km. change (queues (set_holder m t s)) with (queues s).
    case_decide; [by subst|apply H3].
Qed.

Lemma null_not_queued q s : queue_ok s -> NULL ∉ tq_list (queues s q).
Proof. intros Hs. rewrite (qo_mem _ Hs). intros (k & Hk & _). by rewrite (qo_null _ Hs) in Hk. Qed.

Lemma cur_not_queued q s : sched_ok s -> curthr s ∉ tq_list (queues s q).
Proof.
  intros [Hs (k & Hk & Hw & _)]. rewrite (qo_mem _ (io_queue _ Hs)).
  intros (k' & Hk' & Hw'). congruence.
Qed.

Lemma cur_not_null s : sched_ok s -> curthr s <> NULL.
Proof.
  intros [Hs (k & Hk & _)] E. rewrite E in Hk. by rewrite (qo_null _ (io_queue _ Hs)) in Hk.
Qed.

Lemma holder_test s m :
  sched_ok s -> km_holder s m = curthr s -> c_true (curthr s) && (curthr s =? km_holder s m) = true.
Proof.
  intros Hs ->. rewrite Z.eqb_refl, andb_true_r. apply c_true_spec. by apply cur_not_null.
Qed.

(** Unlocking hands the mutex to the thread that has waited longest. *)
Lemma unlock_waiters s m l t :
  sched_ok s -> km_holder s m = curthr s -> tq_list (queues s (km_waitq m)) = l ++ [t] ->
  exists k, threads s !! t = Some k /\ kt_wchan k = Some (km_waitq m) /\
    kmutex_unlock m s = Ok tt (set_holder m t (wake (km_waitq m) t k s)) /\
    sched_ok (set_holder m t (wake (km_waitq m) t k s)).
Proof.
  intros Hs Hh Hl. pose proof (so_idle _ Hs) as Hi.
  destruct (wakeup_on_ok (km_waitq m) s l t Hi ltac:(done) Hl) as (k & Hk & Hw & Hn & Hwk).
  assert (t <> curthr s) as Hne.
  { intros ->. eapply (cur_not_queued (km_waitq m)); [done|]. rewrite Hl. set_solver. }
  exists k. split_and!; [done|done| | ].
  - unfold kmutex_unlock. rewrite get_bind, kassert_bind by (by apply holder_test).
    unfold sched_queue_empty. rewrite Hl.
    assert (exists x l', l ++ [t] = x :: l') as (x & l' & ->) by (destruct l; cbn; eauto).
    unfold mbind, M_bind. cbn beta iota. rewrite Hwk. cbn.
    rewrite set_holder_km, decide_True, (proj2 (Z.eqb_neq _ _) (not_eq_sym Hne)) by done. done.
  - split.
    + apply set_holder_idle_ok; [by apply wake_idle_ok|done|].
      rewrite wake_list, decide_False, decide_True by done. rewrite list_elem_of_filter. tauto.
    + destruct (so_cur _ Hs) as (kc & Hc & Hcw & Hcs). exists kc. cbn.
      rewrite !lookup_insert_ne by done. done.
Qed.

Lemma unlock_alone s m :
  sched_ok s -> km_holder s m = curthr s -> tq_list (queues s (km_waitq m)) = [] ->
  kmutex_unlock m s = Ok tt (set_holder m NULL s) /\ sched_ok (set_holder m NULL s).
Proof.
  intros Hs Hh Hl. pose proof (cur_not_null _ Hs) as Hn. split.
  - unfold kmutex_unlock. rewrite get_bind, kassert_bind by (by apply holder_test).
    unfold sched_queue_empty. rewrite Hl.
    unfold mbind, M_bind. cbn. rewrite set_holder_km, decide_True by done.
    by rewrite (proj2 (Z.eqb_neq _ _) Hn).
  - split; [|apply (so_cur _ Hs)].
    apply set_holder_idle_ok; [apply (so_idle _ Hs)|done|by rewrite Hl; set_solver].
Qed.

(** ** Switching threads *)

Context (intr_wait : sched -> sched) (irqs : nat).
Context (Hintr : intr_pres intr_wait).

Lemma idle_loop_pres n s s' :
  sched_idle intr_wait n s = Ok tt s' -> idle_ok s ->
  idle_ok s' /\ same_mutexes s s' /\ same_waiters s s' /\ curthr s' = curthr s /\
  tq_list (queues s' kt_runq) <> [].
Proof.
  revert s. induction n as [|n IH]; intros s; [done|]. cbn [sched_idle].
  unfold gets, mbind, M_bind. cbn. unfold sched_queue_empty.
  destruct (tq_list (queues s kt_runq)) as [|x l] eqn:E; cbn; intros Hr Hs.
  - set (s1 := set_ipl IPL_LOW (set_intr false s)) in *.
    assert (same_core s s1) as Hc1 by done.
    destruct (Hintr s1) as (H1 & H2 & H3 & H4); [by eapply idle_ok_core|].
    apply IH in Hr as (I1 & I2 & I3 & I4 & I5); [|by eapply idle_ok_core; [apply set_ipl_core|]].
    split_and!; [done| | |by rewrite I4; exact H4|done].
    + etrans; [exact (same_core_mutexes _ _ Hc1)|]. etrans; [exact H2|].
      etrans; [|exact I2]. auto with kernel.
    + etrans; [exact (same_core_waiters _ _ Hc1)|]. etrans; [exact H3|].
      etrans; [|exact I3]. auto with kernel.
  - injection Hr as <-. split_and!; try done. by rewrite E.
Qed.

(** What is left of [sched_switch] once a thread is on the run queue. *)
Lemma sched_switch_after_idle s s1 l t :
  sched_idle intr_wait (S irqs) (set_ipl IPL_HIGH s) = Ok tt s1 ->
  idle_ok s1 -> tq_list (queues s1 kt_runq) = l ++ [t] -> is_Some (threads s1 !! curthr s1) ->
  exists s', sched_switch intr_wait irqs s = Ok tt s' /\ sched_ok s' /\ curthr s' = t /\
    same_mutexes s1 s' /\ same_waiters s1 s' /\
    tq_list (queues s' kt_runq) = l.
Proof.
  intros Hi Hs Hl [kp Hp].
  destruct (dequeue_oldest _ _ _ _ (io_queue _ Hs) Hl) as (k & Hk & Hw & Hd & Hdl & Hn).
  set (s2 := deq kt_runq t k s1) in *.
  assert (threads s2 !! t = Some (unlinked k)) as Hk2 by (cbn; apply lookup_insert_eq).
  assert (is_Some (threads s2 !! curthr s1)) as [kp2 Hp2].
  { cbn. rewrite lookup_insert. case_decide; eauto. }
  assert (idle_ok s2) as Hs2 by (by apply deq_idle_ok).
  set (p2 := with_frame (Some (ipl s)) kp2).
  set (s3 := set_thr (curthr s1) p2 (set_cur t (kt_proc (unlinked k)) s2)).
  assert (idle_ok s3) as Hs3.
  { eapply set_thr_idle_ok; [exact Hp2|done|done| |by eapply idle_ok_core; [apply set_cur_core|]].
    intros q Hq. apply (io_state _ Hs2 _ _ _ Hp2 Hq). }
  assert (exists k3, threads s3 !! t = Some k3 /\ kt_wchan k3 = None /\ kt_state k3 = KT_RUN /\
     kt_cancelled k3 = kt_cancelled k) as (k3 & Hk3 & Hw3 & Hst3 & Hc3).
  { unfold s3. rewrite lookup_set_thr. pose proof (io_state _ Hs _ _ _ Hk Hw) as Hst.
    case_decide as E; [|exists (unlinked k); by rewrite <- Hk2].
    exists p2. subst t. rewrite Hk2 in Hp2. injection Hp2 as <-. done. }
  assert (exists s', sched_switch_resume t s3 = Ok tt s' /\ idle_ok s' /\ curthr s' = t /\
     cur_ok s' /\ same_mutexes s3 s' /\ same_waiters s3 s' /\ queues s' kt_runq = queues s3 kt_runq)
    as (s' & Hr & R1 & R2 & R3 & R4 & R5 & R6).
  { unfold sched_switch_resume. rewrite (bind_ok _ _ _ _ _ (thr_ok _ _ _ Hk3)).
    destruct (kt_frame k3) as [x|];
      [|exists s3; split_and!; try done; by exists k3].
    rewrite (bind_ok _ _ _ _ _ (upd_thr_ok _ _ _ _ Hk3)).
    eexists. split; [done|]. split_and!; try done.
    - eapply idle_ok_core; [apply set_ipl_core|].
      eapply set_thr_idle_ok; [exact Hk3|done|done|cbn; congruence|done].
    - exists (with_frame None k3). cbn. by rewrite lookup_insert_eq.
    - by eapply set_thr_waiters. }
  exists s'. split_and!; try done.
  - unfold sched_switch. rewrite (bind_ok intr_getipl _ s (ipl s) s eq_refl).
    rewrite (bind_ok (intr_setipl IPL_HIGH) _ s tt (set_ipl IPL_HIGH s) eq_refl), (bind_ok _ _ _ _ _ Hi),
      (bind_ok _ _ _ _ _ Hd). unfold gets, modify, mbind, M_bind. fold s2. cbn beta iota.
    rewrite (thr_ok _ _ _ Hk2). rewrite (upd_thr_ok _ _ kp2) by done. exact Hr.
  - etrans; [exact (deq_mutexes kt_runq t k s1 eq_refl)|]. etrans; [|exact R4]. by split.
  - etrans; [|exact R5]. intros u x Hu. unfold s3. rewrite lookup_set_thr. case_decide as E.
    + subst u. exists p2. split; [done|]. cbn in Hp2. rewrite lookup_insert in Hp2.
      case_decide; simplify_eq; [split; [done|congruence]|done].
    + cbn. rewrite lookup_insert. case_decide; [|by exists x]. subst u.
      exists (unlinked k). split; [done|]. simplify_eq. split; [done|congruence].
  - rewrite R6. exact Hdl.
Qed.

Lemma switch_pres s s' :
  sched_switch intr_wait irqs s = Ok tt s' -> idle_ok s -> is_Some (threads s !! curthr s) ->
  sched_ok s' /\ same_mutexes s s' /\ same_waiters s s'.
Proof.
  intros Hr Hs [kc Hc]. pose proof Hr as Hr0. unfold sched_switch in Hr0.
  rewrite (bind_ok intr_getipl _ s (ipl s) s eq_refl) in Hr0.
  rewrite (bind_ok (intr_setipl IPL_HIGH) _ s tt (set_ipl IPL_HIGH s) eq_refl) in Hr0.
  apply bind_Ok_inv in Hr0 as ([] & s1 & Hi & _).
  destruct (idle_loop_pres _ _ _ Hi) as (I1 & I2 & I3 & I4 & I5);
    [by eapply idle_ok_core; [apply set_ipl_core|]|].
  destruct (I3 (curthr s) kc Hc) as (kc1 & Hc1 & _).
  destruct (tq_list (queues s1 kt_runq)) as [|t l _] eqn:Hl using rev_ind; [done|].
  destruct (sched_switch_after_idle _ _ _ _ Hi I1 Hl) as (s2 & E & ? & ? & ? & ? & ?).
  { rewrite I4. eauto. }
  assert (s2 = s') as -> by congruence. split_and!; [done| | ].
  - etrans; [|done]. etrans; [|exact I2]. done.
  - etrans; [|done]. etrans; [|exact I3]. apply same_core_waiters. done.
Qed.

(** With a thread on the run queue no interrupt is needed: the switch is to the
    thread that has waited longest. *)
Lemma switch_oldest s l t :
  idle_ok s -> is_Some (threads s !! curthr s) -> tq_list (queues s kt_runq) = l ++ [t] ->
  exists s', sched_switch intr_wait irqs s = Ok tt s' /\ sched_ok s' /\ curthr s' = t /\
    same_mutexes s s' /\ same_waiters s s' /\ tq_list (queues s' kt_runq) = l.
Proof.
  intros Hs Hc Hl.
  assert (sched_idle intr_wait (S irqs) (set_ipl IPL_HIGH s) = Ok tt (set_ipl IPL_HIGH s)) as Hi.
  { cbn [sched_idle]. unfold gets, mbind, M_bind, sched_queue_empty. cbn beta iota.
    change (queues (set_ipl IPL_HIGH s) kt_runq) with (queues s kt_runq). rewrite Hl.
    by destruct l. }
  destruct (sched_switch_after_idle s (set_ipl IPL_HIGH s) l t Hi) as (s' & H1 & H2 & H3 & H4 & H5 & H6);
    [by eapply idle_ok_core; [apply set_ipl_core|]|done|done|].
  exists s'. split_and!; try done.
Qed.

(** Putting the current thread to sleep. *)
Lemma sleep_enq_idle_ok q x k s :
  sched_ok s -> threads s !! curthr s = Some k -> kt_wchan k = None -> state_fits q x ->
  (forall m, q = km_waitq m -> km_holder s m <> NULL /\ km_holder s m <> curthr s) ->
  idle_ok (enq q (curthr s) (with_state x k) s).
Proof.
  intros [Hs _] Hk Hw Hf Hm. rewrite enq_with_state.
  apply enq_idle_ok; [cbn; apply lookup_insert_eq|done|done|done|].
  eapply set_thr_idle_ok; [exact Hk|done|done|cbn; congruence|done].
Qed.

Lemma sleep_waiters q x k s :
  threads s !! curthr s = Some k -> kt_wchan k = None ->
  same_waiters s (enq q (curthr s) (with_state x k) s).
Proof.
  intros Hk Hw. apply (set_thr_waiters _ k); [done|]. split; [done|]. congruence.
Qed.

Lemma sleep_on_pres q k s s' :
  sched_sleep_on intr_wait irqs q s = Ok tt s' -> sched_ok s -> q <> kt_runq ->
  (forall m, q = km_waitq m -> km_holder s m <> NULL /\ km_holder s m <> curthr s) ->
  threads s !! curthr s = Some k ->
  sched_ok s' /\ same_mutexes (enq q (curthr s) (with_state KT_SLEEP k) s) s' /\
  same_waiters (enq q (curthr s) (with_state KT_SLEEP k) s) s'.
Proof.
  intros Hr Hs Hq Hm Hk. destruct (so_cur _ Hs) as (k' & Hk' & Hw & _).
  rewrite Hk in Hk'. injection Hk' as <-.
  unfold sched_sleep_on in Hr. rewrite (bind_ok (gets curthr) _ s (curthr s) s eq_refl) in Hr.
  rewrite (bind_ok _ _ _ _ _ (upd_thr_ok _ _ _ _ Hk)) in Hr.
  rewrite (bind_ok _ _ _ _ _ (ktqueue_enqueue_ok q (curthr s) (with_state KT_SLEEP k)
    (set_thr (curthr s) (with_state KT_SLEEP k) s) (lookup_insert_eq _ _ _) Hw)) in Hr.
  rewrite <- enq_with_state in Hr.
  eapply switch_pres; [exact Hr| |cbn; rewrite lookup_insert_eq; eauto].
  apply sleep_enq_idle_ok; try done. destruct q; [done|by left|by left].
Qed.

End Operations.
