(* ===== verification/SchedSteps.v ===== *)
(** The kernel's threads as a transition system: any thread that is current may
    call any scheduler or mutex operation, a call that slept is finished when its
    thread is scheduled again.  Every reachable configuration satisfies the
    scheduler's invariant, and a thread that returns from [kmutex_lock] holds the
    mutex. *)
From S2P Require Import Prelude.
From S2P Require Import Platform.
From S2P Require Import Sched.
From S2P Require Import SchedInv.
Open Scope Z_scope.

(** Where a thread is: in code outside the scheduler, or in a call that sleeps. *)
Inductive pc := Runs | AtSleep | AtCancellableSleep | AtLock (m : Z) | AtLockCancellable (m : Z).

Record conf := Conf { c_sched : sched; c_pc : gmap Z pc }.
Definition pc_of (c : conf) (t : Z) : pc := default Runs (c_pc c !! t).

Section Steps.
Context `{P : Platform}.
Context (intr_wait : sched -> sched) (irqs : nat).

(** The syscall [SYS_thr_yield] of [api/syscall.c]. *)
Definition thr_yield : M sched unit :=
  t ← gets curthr;
  sched_make_runnable t;;
  sched_switch intr_wait irqs.

Inductive step : conf -> conf -> Prop :=
| step_lock m s s' p v :
    default Runs (p !! curthr s) = Runs ->
    kmutex_lock intr_wait irqs m s = Ok (Returned v) s' -> step (Conf s p) (Conf s' p)
| step_lock_sleep m s s' p :
    default Runs (p !! curthr s) = Runs ->
    kmutex_lock intr_wait irqs m s = Ok Switched s' ->
    step (Conf s p) (Conf s' (<[curthr s := AtLock m]> p))
| step_lock_return m s p :
    p !! curthr s = Some (AtLock m) -> step (Conf s p) (Conf s (<[curthr s := Runs]> p))
| step_lockc m s s' p v :
    default Runs (p !! curthr s) = Runs ->
    kmutex_lock_cancellable intr_wait irqs m s = Ok (Returned v) s' -> step (Conf s p) (Conf s' p)
| step_lockc_sleep m s s' p :
    default Runs (p !! curthr s) = Runs ->
    kmutex_lock_cancellable intr_wait irqs m s = Ok Switched s' ->
    step (Conf s p) (Conf s' (<[curthr s := AtLockCancellable m]> p))
| step_lockc_return m s s' p v :
    p !! curthr s = Some (AtLockCancellable m) ->
    kmutex_lock_cancellable_resume m s = Ok v s' ->
    step (Conf s p) (Conf s' (<[curthr s := Runs]> p))
| step_unlock m s s' p :
    default Runs (p !! curthr s) = Runs ->
    kmutex_unlock m s = Ok tt s' -> step (Conf s p) (Conf s' p)
| step_sleep a s s' p :
    default Runs (p !! curthr s) = Runs ->
    sched_sleep_on intr_wait irqs (waitq a) s = Ok tt s' ->
    step (Conf s p) (Conf s' (<[curthr s := AtSleep]> p))
| step_sleep_return s p :
    p !! curthr s = Some AtSleep -> step (Conf s p) (Conf s (<[curthr s := Runs]> p))
| step_csleep a s s' p r :
    default Runs (p !! curthr s) = Runs ->
    sched_cancellable_sleep_on intr_wait irqs (waitq a) s = Ok r s' ->
    step (Conf s p) (Conf s' (<[curthr s := if r is Switched then AtCancellableSleep else Runs]> p))
| step_csleep_return s s' p v :
    p !! curthr s = Some AtCancellableSleep ->
    sched_cancellable_sleep_on_resume s = Ok v s' ->
    step (Conf s p) (Conf s' (<[curthr s := Runs]> p))
| step_wakeup a s s' p t :
    default Runs (p !! curthr s) = Runs ->
    sched_wakeup_on (waitq a) s = Ok t s' -> step (Conf s p) (Conf s' p)
| step_broadcast a s s' p :
    default Runs (p !! curthr s) = Runs ->
    sched_broadcast_on (waitq a) s = Ok tt s' -> step (Conf s p) (Conf s' p)
| step_cancel t v s s' p :
    default Runs (p !! curthr s) = Runs -> t <> curthr s ->
    kthread_cancel_other t v s = Ok tt s' -> step (Conf s p) (Conf s' p)
| step_ready t s s' p :
    default Runs (p !! curthr s) = Runs -> t <> curthr s ->
    sched_make_runnable t s = Ok tt s' -> step (Conf s p) (Conf s' p)
| step_yield s s' p :
    default Runs (p !! curthr s) = Runs ->
    thr_yield s = Ok tt s' -> step (Conf s p) (Conf s' p).

(** A thread inside a lock call waits for the mutex or already has it; one that
    can be cancelled may also have been. *)
Definition waiting (s : sched) (t : Z) (p : pc) : Prop :=
  match p with
  | AtLock m => exists k, threads s !! t = Some k /\
      ((kt_wchan k = Some (km_waitq m) /\ kt_state k = KT_SLEEP) \/ km_holder s m = t)
  | AtLockCancellable m => exists k, threads s !! t = Some k /\
      (kt_wchan k = Some (km_waitq m) \/ km_holder s m = t \/ kt_cancelled k = 1)
  | _ => True
  end.

Record conf_ok (c : conf) : Prop := {
  co_sched : sched_ok (c_sched c);
  co_wait : forall t, waiting (c_sched c) t (pc_of c t)
}.

(** ** Waiting threads under changes of the scheduler's state *)

Lemma waiting_frame s s' t p :
  holders s' = holders s -> same_waiters s s' -> waiting s t p -> waiting s' t p.
Proof.
  intros Hh Hw. destruct p as [| | |m|m]; try done; cbn; unfold km_holder; rewrite Hh;
    intros (k & Hk & Hc); destruct (Hw _ _ Hk) as (k' & Hk' & Hcan & Hq); exists k';
    (split; [done|]).
  - destruct Hc as [[Hc1 Hc2]|Hc]; [|by right]. destruct (Hq _ Hc1). left. split; congruence.
  - destruct Hc as [Hc|[Hc|Hc]]; [|by right; left|right; right; congruence].
    destruct (Hq _ Hc). left. congruence.
Qed.

(** Giving a free mutex to a thread that does not wait. *)
Lemma waiting_take s m x t p :
  sched_ok s -> km_holder s m = NULL -> waiting s t p -> waiting (set_holder m x s) t p.
Proof.
  intros Hs Hn. destruct p as [| | |m'|m']; try done; cbn; intros (k & Hk & Hc); exists k;
    (split; [done|]); rewrite set_holder_km; case_decide; try done; subst m'.
  - destruct Hc as [?|Hc]; [by left|]. rewrite Hn in Hc. subst t.
    by rewrite (qo_null _ (io_queue _ (so_idle _ Hs))) in Hk.
  - destruct Hc as [?|[Hc|?]]; [by left| |by right; right]. rewrite Hn in Hc. subst t.
    by rewrite (qo_null _ (io_queue _ (so_idle _ Hs))) in Hk.
Qed.

(** Passing a mutex on to the oldest waiter, seen from a thread other than the old holder. *)
Lemma waiting_pass s m l x k t p :
  sched_ok s -> km_holder s m = curthr s -> tq_list (queues s (km_waitq m)) = l ++ [x] ->
  threads s !! x = Some k -> kt_wchan k = Some (km_waitq m) -> t <> curthr s ->
  waiting s t p -> waiting (set_holder m x (wake (km_waitq m) x k s)) t p.
Proof.
  intros Hs Hh Hl Hk Hw Ht.
  assert (forall m', km_holder (set_holder m x (wake (km_waitq m) x k s)) m' =
            if decide (m = m') then x else km_holder s m') as Hhold.
  { intros m'. by rewrite set_holder_km. }
  destruct p as [| | |m'|m']; try done; cbn [waiting]; rewrite Hhold; intros (k0 & Hk0 & Hc).
  all: cbn -[waiting]; rewrite lookup_insert; destruct (decide (x = t)) as [->|Hx].
  - eexists. split; [done|]. right. rewrite Hk in Hk0. injection Hk0 as <-.
    destruct Hc as [[Hc _]|Hc]; [|case_decide; [done|exact Hc]].
    rewrite Hw in Hc. injection Hc as <-. by rewrite decide_True.
  - rewrite lookup_insert_ne by done. exists k0. split; [done|].
    destruct Hc as [Hc|Hc]; [by left|]. right. case_decide; [subst m'; congruence|done].
  - eexists. split; [done|]. rewrite Hk in Hk0. injection Hk0 as <-.
    destruct Hc as [Hc|[Hc|Hc]]; [| |by right; right].
    + rewrite Hw in Hc. injection Hc as <-. right; left. by rewrite decide_True.
    + right; left. case_decide; [done|exact Hc].
  - rewrite lookup_insert_ne by done. exists k0. split; [done|].
    destruct Hc as [Hc|[Hc|Hc]]; [by left| |by right; right].
    right; left. case_decide; [subst m'; congruence|done].
Qed.

(** ** What each operation does to the invariant *)

Context (Hintr : intr_pres intr_wait).

(** [s'] is a good state in which every thread other than [u] waits as in [s]. *)
Definition keeps (u : Z) (s s' : sched) : Prop :=
  sched_ok s' /\ forall t p, t <> u -> waiting s t p -> waiting s' t p.

Lemma keeps_frame u s s' :
  sched_ok s' -> holders s' = holders s -> same_waiters s s' -> keeps u s s'.
Proof. intros Hs Hh Hw. split; [done|]. intros t p _. by apply waiting_frame. Qed.

Lemma unlock_keeps m s s' :
  sched_ok s -> kmutex_unlock m s = Ok tt s' -> km_holder s m = curthr s /\ keeps (curthr s) s s'.
Proof.
  intros Hs Hr.
  assert (km_holder s m = curthr s) as Hh.
  { unfold kmutex_unlock in Hr. rewrite get_bind in Hr.
    apply bind_Ok_inv in Hr as ([] & ? & [Ha _]%kassert_Ok_inv & _). zify_bool. congruence. }
  split; [done|].
  destruct (tq_list (queues s (km_waitq m))) as [|x l _] eqn:Hl using rev_ind.
  - destruct (unlock_alone s m Hs Hh Hl) as [E Hs']. rewrite E in Hr. injection Hr as <-.
    split; [done|]. intros t p Ht. destruct p as [| | |m'|m']; try done; cbn;
      intros (k & Hk & Hc); exists k; (split; [done|]); rewrite set_holder_km.
    + destruct Hc as [?|Hc]; [by left|right]. case_decide; [subst m'; congruence|done].
    + destruct Hc as [?|[Hc|?]]; [by left|right; left|by right; right].
      case_decide; [subst m'; congruence|done].
  - destruct (unlock_waiters s m l x Hs Hh Hl) as (k & Hk & Hw & E & Hs').
    rewrite E in Hr. injection Hr as <-. split; [done|]. intros t p Ht. by eapply waiting_pass.
Qed.

Lemma cur_rec s : sched_ok s -> exists k, threads s !! curthr s = Some k /\ kt_wchan k = None.
Proof. intros [_ (k & Hk & Hw & _)]. eauto. Qed.

Lemma sleep_keeps q s s' :
  sched_ok s -> q <> kt_runq ->
  (forall m, q = km_waitq m -> km_holder s m <> NULL /\ km_holder s m <> curthr s) ->
  sched_sleep_on intr_wait irqs q s = Ok tt s' ->
  keeps (curthr s) s s' /\ forall m, q = km_waitq m -> waiting s' (curthr s) (AtLock m).
Proof.
  intros Hs Hq Hm Hr. destruct (cur_rec s Hs) as (k & Hk & Hw).
  destruct (sleep_on_pres intr_wait irqs Hintr q k s s' Hr Hs Hq Hm Hk) as (H1 & [H2 H2'] & H3). split.
  - apply keeps_frame; [done|done|]. etrans; [|exact H3]. by apply sleep_waiters.
  - intros m ->. eapply waiting_frame; [exact H2|exact H3|]. eexists.
    split; [cbn; apply lookup_insert_eq|]. by left.
Qed.

Lemma lock_keeps m s s' r :
  sched_ok s -> kmutex_lock intr_wait irqs m s = Ok r s' ->
  keeps (curthr s) s s' /\
  match r with
  | Returned v => v = 0 /\ km_holder s' m = curthr s' /\ curthr s' = curthr s
  | Switched => waiting s' (curthr s) (AtLock m)
  end.
Proof.
  intros Hs. unfold kmutex_lock. rewrite get_bind. intros Hr.
  apply bind_Ok_inv in Hr as ([] & s0 & [Ha ->]%kassert_Ok_inv & Hr). zify_bool.
  destruct (Z.eqb_spec (km_holder s m) NULL) as [Hn|Hn]; cbn [negb] in Hr.
  - injection Hr as <- <-. split; [split|].
    + split; [|apply (so_cur _ Hs)]. apply set_holder_idle_ok; [apply (so_idle _ Hs)| | ].
      * intros _. by apply (io_mutex _ (so_idle _ Hs)).
      * by apply cur_not_queued.
    + intros t p _. by apply waiting_take.
    + split; [done|]. by rewrite set_holder_km, decide_True.
  - apply bind_Ok_inv in Hr as ([] & s1 & Hr & [= <- <-]).
    destruct (sleep_keeps (km_waitq m) s s1) as [H1 H2]; [done|done| |done|].
    + intros m' [= <-]. split; congruence.
    + split; [done|]. by apply H2.
Qed.

(** The enqueued thread of a cancellable sleep. *)
Lemma csleep_pres q k s s' r :
  sched_cancellable_sleep_on intr_wait irqs q s = Ok r s' -> sched_ok s -> q <> kt_runq ->
  (forall m, q = km_waitq m -> km_holder s m <> NULL /\ km_holder s m <> curthr s) ->
  threads s !! curthr s = Some k ->
  match r with
  | Returned _ => kt_cancelled k = 1 /\ keeps (curthr s) s s'
  | Switched => kt_cancelled k <> 1 /\ keeps (curthr s) s s' /\
      forall m, q = km_waitq m -> waiting s' (curthr s) (AtLockCancellable m)
  end.
Proof.
  intros Hr Hs Hq Hm Hk. destruct (cur_rec s Hs) as (k' & Hk' & Hw).
  rewrite Hk in Hk'. injection Hk' as <-.
  unfold sched_cancellable_sleep_on, intr_disable in Hr. rewrite modify_bind, gets_bind in Hr.
  change (curthr (set_intr false s)) with (curthr s) in Hr.
  rewrite (bind_ok _ _ _ _ _ (thr_ok (curthr s) k (set_intr false s) Hk)) in Hr.
  destruct (Z.eqb_spec (kt_cancelled k) 1) as [Hc|Hc].
  - injection Hr as <- <-. split; [done|]. apply keeps_frame; [|done|by apply same_core_waiters].
    destruct Hs as [Hi Hcur]. split; [|exact Hcur]. by eapply idle_ok_core; [|exact Hi].
  - rewrite (bind_ok _ _ _ _ _ (ktqueue_enqueue_ok q (curthr s) k (set_intr false s) Hk Hw)) in Hr.
    rewrite (bind_ok _ _ _ _ _ (upd_thr_ok (curthr s) _ (linked q k)
      (enq q (curthr s) k (set_intr false s)) (lookup_insert_eq _ _ _))) in Hr.
    unfold intr_enable in Hr. rewrite modify_bind in Hr.
    apply bind_Ok_inv in Hr as ([] & s1 & Hr & [= <- <-]).
    set (se := enq q (curthr s) (with_state KT_SLEEP_CANCELLABLE k) s).
    assert (same_core se (set_intr true (set_thr (curthr s) (with_state KT_SLEEP_CANCELLABLE (linked q k))
      (enq q (curthr s) k (set_intr false s))))) as Hcore.
    { unfold se, same_core. cbn. by rewrite insert_insert_eq. }
    assert (idle_ok se) as Hse.
    { apply sleep_enq_idle_ok; try done. destruct q; [done|by right|by right]. }
    destruct (switch_pres intr_wait irqs Hintr _ _ Hr) as (H1 & H2 & H3);
      [by eapply idle_ok_core|cbn; rewrite lookup_insert_eq; eauto|].
    assert (same_waiters se s1) as Hsw by (etrans; [by apply same_core_waiters|done]).
    assert (holders s1 = holders s) as Hh by (by rewrite (proj1 H2)).
    split_and!; [done| | ].
    + apply keeps_frame; [done|done|]. etrans; [|exact Hsw]. by apply sleep_waiters.
    + intros m ->. eapply (waiting_frame se); [done|done|]. eexists.
      split; [cbn; apply lookup_insert_eq|]. by left.
Qed.

Lemma lockc_keeps m s s' r :
  sched_ok s -> kmutex_lock_cancellable intr_wait irqs m s = Ok r s' ->
  keeps (curthr s) s s' /\
  match r with
  | Returned v => (v = 0 /\ km_holder s' m = curthr s') \/ v = - EINTR
  | Switched => waiting s' (curthr s) (AtLockCancellable m)
  end.
Proof.
  intros Hs. unfold kmutex_lock_cancellable. rewrite get_bind. intros Hr.
  apply bind_Ok_inv in Hr as ([] & s0 & [Ha ->]%kassert_Ok_inv & Hr). zify_bool.
  destruct (cur_rec s Hs) as (k & Hk & Hw).
  rewrite (bind_ok _ _ _ _ _ (thr_ok _ _ _ Hk)) in Hr.
  destruct (Z.eqb_spec (kt_cancelled k) 1) as [Hc|Hc]; cbn [negb] in Hr.
  { injection Hr as <- <-. split; [by apply keeps_frame|by right]. }
  destruct (Z.eqb_spec (km_holder s m) NULL) as [Hn|Hn]; cbn [negb] in Hr.
  - injection Hr as <- <-. split; [split|].
    + split; [|apply (so_cur _ Hs)]. apply set_holder_idle_ok; [apply (so_idle _ Hs)| | ].
      * intros _. by apply (io_mutex _ (so_idle _ Hs)).
      * by apply cur_not_queued.
    + intros t p _. by apply waiting_take.
    + left. split; [done|]. by rewrite set_holder_km, decide_True.
  - apply bind_Ok_inv in Hr as (r0 & s1 & Hr0 & Hr).
    pose proof (csleep_pres _ _ _ _ _ Hr0 Hs ltac:(done)
      ltac:(intros m' [= <-]; split; congruence) Hk) as Hp.
    destruct r0 as [v|]; [by destruct Hp as [? _]|]. injection Hr as <- <-.
    destruct Hp as (_ & Hp & Hp'). split; [done|]. by apply Hp'.
Qed.

(** Waking a thread that sleeps on an ordinary wait queue. *)
Lemma wake_other_keeps u a t k s :
  sched_ok s -> threads s !! t = Some k -> kt_wchan k = Some (waitq a) ->
  sched_ok (wake (waitq a) t k s) /\ same_waiters s (wake (waitq a) t k s) /\
  keeps u s (wake (waitq a) t k s).
Proof.
  intros Hs Hk Hw.
  assert (sched_ok (wake (waitq a) t k s)) as Hs'.
  { split; [by apply wake_idle_ok; [| |apply (so_idle _ Hs)]|].
    destruct (so_cur _ Hs) as (kc & Hc & Hcw & Hcs). exists kc. cbn.
    rewrite !lookup_insert_ne by (intros ->; congruence). done. }
  assert (same_waiters s (wake (waitq a) t k s)) as Hsw.
  { intros x kx Hx. cbn. rewrite lookup_insert. case_decide.
    - subst x. rewrite Hk in Hx. injection Hx as <-. eexists. split; [done|]. split; [done|].
      intros m. congruence.
    - rewrite lookup_insert_ne by done. by exists kx. }
  split_and!; [done|done|]. by apply keeps_frame.
Qed.

Lemma wakeup_keeps a t s s' :
  sched_ok s -> sched_wakeup_on (waitq a) s = Ok t s' ->
  curthr s' = curthr s /\ sched_ok s' /\ same_waiters s s' /\ holders s' = holders s.
Proof.
  intros Hs Hr. destruct (tq_list (queues s (waitq a))) as [|x l _] eqn:Hl using rev_ind.
  - rewrite wakeup_on_empty in Hr by done. injection Hr as _ <-. done.
  - destruct (wakeup_on_ok (waitq a) s l x (so_idle _ Hs) ltac:(done) Hl) as (k & Hk & Hw & _ & E).
    rewrite E in Hr. injection Hr as _ <-.
    destruct (wake_other_keeps (curthr s) a x k s Hs Hk Hw) as (? & ? & ?). done.
Qed.

Lemma broadcast_keeps a n s s' :
  sched_ok s -> sched_broadcast_loop n (waitq a) s = Ok tt s' ->
  sched_ok s' /\ same_waiters s s' /\ holders s' = holders s.
Proof.
  revert s. induction n as [|n IH]; intros s Hs; [done|]. cbn [sched_broadcast_loop]. intros Hr.
  apply bind_Ok_inv in Hr as (t & s1 & Hw & Hr).
  destruct (wakeup_keeps _ _ _ _ Hs Hw) as (_ & H1 & H2 & H3).
  destruct (t =? NULL); [by injection Hr as <-|].
  destruct (IH _ H1 Hr) as (I1 & I2 & I3). split_and!; [done|by etrans|congruence].
Qed.

Lemma ready_frame t k s :
  sched_ok s -> threads s !! t = Some k -> kt_wchan k = None ->
  idle_ok (enq kt_runq t (with_state KT_RUN k) s) /\
  same_waiters s (enq kt_runq t (with_state KT_RUN k) s).
Proof.
  intros Hs Hk Hw. split.
  - rewrite enq_with_state. apply enq_idle_ok; [cbn; apply lookup_insert_eq|done|done|done|].
    eapply set_thr_idle_ok; [exact Hk|done|done|cbn; congruence|apply (so_idle _ Hs)].
  - apply (set_thr_waiters _ k); [done|]. split; [done|congruence].
Qed.

Lemma make_runnable_inv t s s' :
  sched_make_runnable t s = Ok tt s' ->
  exists k, threads s !! t = Some k /\ kt_wchan k = None /\
    s' = enq kt_runq t (with_state KT_RUN k) s.
Proof.
  intros Hr. pose proof Hr as Hr0. unfold sched_make_runnable, thr in Hr0.
  rewrite bind_assoc, get_bind in Hr0.
  apply bind_Ok_inv in Hr0 as (k & s0 & [Hk ->]%deref_Ok_inv & Hr0). exists k.
  apply bind_Ok_inv in Hr0 as ([] & s0 & [_ ->]%kassert_Ok_inv & Hr0).
  unfold intr_getipl, intr_setipl in Hr0. rewrite gets_bind, modify_bind in Hr0.
  rewrite (bind_ok _ _ _ _ _ (upd_thr_ok t _ k (set_ipl IPL_HIGH s) Hk)) in Hr0.
  apply bind_Ok_inv in Hr0 as ([] & s2 & He & _). unfold ktqueue_enqueue, thr in He.
  rewrite bind_assoc, get_bind in He.
  apply bind_Ok_inv in He as (k1 & s0 & [Hk1 ->]%deref_Ok_inv & He).
  apply bind_Ok_inv in He as ([] & s0 & [Hw%bool_decide_eq_true _]%kassert_Ok_inv & _).
  cbn in Hk1. rewrite lookup_insert_eq in Hk1. injection Hk1 as <-. cbn in Hw.
  split_and!; [done|done|]. rewrite (make_runnable_ok t k) in Hr by done. congruence.
Qed.

Lemma ready_keeps t s s' :
  sched_ok s -> t <> curthr s -> sched_make_runnable t s = Ok tt s' -> keeps (curthr s) s s'.
Proof.
  intros Hs Ht (k & Hk & Hw & ->)%make_runnable_inv.
  destruct (ready_frame t k s Hs Hk Hw) as [H1 H2]. apply keeps_frame; [|done|done].
  split; [done|]. destruct (so_cur _ Hs) as (kc & Hc & Hcw & Hcs). exists kc. cbn.
  by rewrite lookup_insert_ne.
Qed.

Lemma yield_keeps s s' :
  sched_ok s -> thr_yield s = Ok tt s' -> sched_ok s' /\ same_waiters s s' /\ holders s' = holders s.
Proof.
  intros Hs. unfold thr_yield. rewrite gets_bind. intros Hr.
  apply bind_Ok_inv in Hr as ([] & s1 & (k & Hk & Hw & ->)%make_runnable_inv & Hr).
  destruct (ready_frame _ k s Hs Hk Hw) as [H1 H2].
  destruct (switch_pres intr_wait irqs Hintr _ _ Hr H1) as (I1 & [I2 _] & I3).
  { cbn. rewrite lookup_insert_eq. eauto. }
  split_and!; [done|by etrans|done].
Qed.

(** ** Cancellation *)

Definition cancelled (v : Z) (k : kthread) : kthread := with_retval v (with_cancelled 1 k).

Lemma cancel_plain t v k s :
  threads s !! t = Some k -> kt_state k <> KT_SLEEP_CANCELLABLE ->
  kthread_cancel_other t v s = Ok tt (set_intr true (set_thr t (cancelled v k) s)).
Proof.
  intros Hk Hst. unfold kthread_cancel_other.
  rewrite (bind_ok _ _ _ _ _ (upd_thr_ok _ _ _ _ Hk)).
  rewrite (bind_ok _ _ _ _ _ (upd_thr_ok t _ _ _ (lookup_insert_eq _ _ _))).
  rewrite set_thr_twice. unfold sched_cancel, intr_disable. rewrite modify_bind.
  rewrite (bind_ok _ _ _ _ _ (thr_ok t (cancelled v k) _ (lookup_insert_eq _ _ _))).
  rewrite bool_decide_eq_false_2 by done.
  rewrite (bind_ok _ _ _ _ _ (upd_thr_ok t _ (cancelled v k) _ (lookup_insert_eq _ _ _))).
  unfold intr_enable, modify. f_equal. unfold set_intr, set_thr. cbn. by rewrite insert_insert_eq.
Qed.

Lemma cancel_sleeper t v k q s :
  threads s !! t = Some k -> kt_state k = KT_SLEEP_CANCELLABLE ->
  kt_wchan k = Some q -> kt_qlink k = Some q ->
  kthread_cancel_other t v s = Ok tt (wake q t (cancelled v k) (set_intr true s)).
Proof.
  intros Hk Hst Hw Hq. unfold kthread_cancel_other.
  rewrite (bind_ok _ _ _ _ _ (upd_thr_ok _ _ _ _ Hk)).
  rewrite (bind_ok _ _ _ _ _ (upd_thr_ok t _ _ _ (lookup_insert_eq _ _ _))).
  rewrite set_thr_twice. unfold sched_cancel, intr_disable. rewrite modify_bind.
  rewrite (bind_ok _ _ _ _ _ (thr_ok t (cancelled v k) _ (lookup_insert_eq _ _ _))).
  rewrite bool_decide_eq_true_2 by done. rewrite bind_assoc.
  rewrite (bind_ok _ _ _ _ _ (upd_thr_ok t _ (cancelled v k) _ (lookup_insert_eq _ _ _))).
  rewrite bind_assoc, (deref_bind _ q) by done. rewrite bind_assoc.
  rewrite (bind_ok _ _ _ _ _ (ktqueue_remove_ok q t (cancelled v k) _ (lookup_insert_eq _ _ _) Hq)).
  rewrite (bind_ok _ _ _ _ _ (make_runnable_ok t (unlinked (cancelled v k)) _ (lookup_insert_eq _ _ _) eq_refl)).
  unfold intr_enable, modify. f_equal.
  rewrite deq_set_thr, set_intr_set_thr, deq_set_thr, set_intr_enq, set_intr_deq, set_intr_twice. done.
Qed.

(** A thread marked as a cancellable sleeper that is on no queue cannot be woken. *)
Lemma cancel_dangling t v k s :
  threads s !! t = Some k -> kt_state k = KT_SLEEP_CANCELLABLE -> kt_wchan k = None ->
  returned (kthread_cancel_other t v s) = false.
Proof.
  intros Hk Hst Hw. unfold kthread_cancel_other.
  rewrite (bind_ok _ _ _ _ _ (upd_thr_ok _ _ _ _ Hk)).
  rewrite (bind_ok _ _ _ _ _ (upd_thr_ok t _ _ _ (lookup_insert_eq _ _ _))).
  rewrite set_thr_twice. unfold sched_cancel, intr_disable. rewrite modify_bind.
  rewrite (bind_ok _ _ _ _ _ (thr_ok t (cancelled v k) _ (lookup_insert_eq _ _ _))).
  rewrite bool_decide_eq_true_2 by done. rewrite bind_assoc.
  rewrite (bind_ok _ _ _ _ _ (upd_thr_ok t _ (cancelled v k) _ (lookup_insert_eq _ _ _))).
  cbn. by rewrite Hw.
Qed.

(** What a cancellation changes: the thread's record, and nothing of the mutexes. *)
Lemma cancel_shape t v k s s' :
  idle_ok s -> threads s !! t = Some k -> kthread_cancel_other t v s = Ok tt s' ->
  idle_ok s' /\ holders s' = holders s /\ curthr s' = curthr s /\
  (forall u, u <> t -> threads s' !! u = threads s !! u) /\
  exists k1, threads s' !! t = Some k1 /\ kt_cancelled k1 = 1 /\
    (kt_state k = KT_SLEEP_CANCELLABLE \/ kt_wchan k1 = kt_wchan k /\ kt_state k1 = kt_state k).
Proof.
  intros Hi Hk Hr.
  assert (idle_ok (set_thr t (cancelled v k) s)) as Hset.
  { eapply set_thr_idle_ok; [exact Hk|done|done| |done]. intros q Hq. by apply (io_state _ Hi t k). }
  destruct (decide (kt_state k = KT_SLEEP_CANCELLABLE)) as [Hst|Hst].
  - destruct (kt_wchan k) as [q|] eqn:Hw.
    2:{ pose proof (cancel_dangling t v k s Hk Hst Hw) as Hd. by rewrite Hr in Hd. }
    pose proof (qo_link _ (io_queue _ Hi) _ _ Hk) as Hq. rewrite Hw in Hq.
    rewrite (cancel_sleeper t v k q) in Hr by done. injection Hr as <-. split_and!; try done.
    + rewrite <- (wake_set_thr _ _ _ (cancelled v k)), <- set_intr_set_thr, <- set_intr_wake.
      eapply idle_ok_core; [apply set_intr_core|].
      apply wake_idle_ok; [cbn; apply lookup_insert_eq|done|done].
    + intros u Hut. cbn. by rewrite !lookup_insert_ne by done.
    + eexists. cbn. rewrite lookup_insert_eq. split_and!; [done|done|by left].
  - rewrite (cancel_plain t v k) in Hr by done. injection Hr as <-. split_and!; try done.
    + eapply idle_ok_core; [apply set_intr_core|done].
    + intros u Hut. cbn. by rewrite lookup_insert_ne.
    + eexists. cbn. rewrite lookup_insert_eq. split_and!; [done|done|by right].
Qed.

Lemma cancel_thread t v s s' : kthread_cancel_other t v s = Ok tt s' -> is_Some (threads s !! t).
Proof.
  unfold kthread_cancel_other, upd_thr, thr. rewrite !bind_assoc, get_bind. intros (k & ? & [Hk _]%deref_Ok_inv & _)%bind_Ok_inv. eauto.
Qed.

Lemma cancel_keeps t v s s' :
  sched_ok s -> t <> curthr s -> kthread_cancel_other t v s = Ok tt s' -> keeps (curthr s) s s'.
Proof.
  intros Hs Ht Hr. pose proof (so_idle _ Hs) as Hi.
  destruct (cancel_thread _ _ _ _ Hr) as [k Hk].
  destruct (cancel_shape t v k s s' Hi Hk Hr) as (Hs1 & Hh & Hcu & Hu & k1 & Hk1 & Hk1c & Hk1w).
  split.
  - split; [done|].
    destruct (so_cur _ Hs) as (kc & Hkc & ?). exists kc. rewrite Hcu, Hu by done. done.
  - intros u p _. destruct p as [| | |m|m]; try done; cbn;
      unfold km_holder; rewrite Hh; intros (k0 & Hk0 & Hp).
    + destruct (decide (u = t)) as [->|]; [|rewrite Hu by done; eauto].
      rewrite Hk in Hk0. injection Hk0 as <-. exists k1. split; [done|].
      destruct Hp as [[Hp1 Hp2]|Hp]; [|by right]. left.
      destruct Hk1w as [?|[? ?]]; [congruence|]. split; congruence.
    + destruct (decide (u = t)) as [->|]; [|rewrite Hu by done; eauto].
      exists k1. split; [done|]. by right; right.
Qed.

(** ** Reachable configurations *)

Lemma co_intro c c' :
  keeps (curthr (c_sched c)) (c_sched c) (c_sched c') ->
  (forall t, t <> curthr (c_sched c) -> pc_of c' t = pc_of c t) ->
  waiting (c_sched c') (curthr (c_sched c)) (pc_of c' (curthr (c_sched c))) ->
  conf_ok c -> conf_ok c'.
Proof.
  intros [Hs Hk] Hp Hc [_ Hw]. split; [done|]. intros t.
  destruct (decide (t = curthr (c_sched c))) as [->|Ht]; [done|].
  rewrite Hp by done. apply Hk; [done|]. apply Hw.
Qed.

Lemma pc_insert s p u x t :
  pc_of (Conf s (<[u := x]> p)) t = if decide (u = t) then x else default Runs (p !! t).
Proof. unfold pc_of. cbn. rewrite lookup_insert. by case_decide. Qed.

(** The current thread was running and the operation returned. *)
Lemma co_stay s s' p :
  default Runs (p !! curthr s) = Runs -> keeps (curthr s) s s' ->
  conf_ok (Conf s p) -> conf_ok (Conf s' p).
Proof.
  intros Hp Hk. apply co_intro; [done|done|]. cbn. unfold pc_of; cbn. by rewrite Hp.
Qed.

(** The current thread is left at [x]. *)
Lemma co_move s s' p x :
  keeps (curthr s) s s' -> waiting s' (curthr s) x ->
  conf_ok (Conf s p) -> conf_ok (Conf s' (<[curthr s := x]> p)).
Proof.
  intros Hk Hx. apply co_intro; [done| | ].
  - intros t Ht. cbn in Ht. by rewrite pc_insert, decide_False.
  - cbn [c_sched]. by rewrite pc_insert, decide_True.
Qed.

Lemma keeps_refl u s : sched_ok s -> keeps u s s.
Proof. intros. by apply keeps_frame. Qed.

Lemma step_conf_ok c c' : step c c' -> conf_ok c -> conf_ok c'.
Proof.
  intros Hst Hc. pose proof (co_sched _ Hc) as Hs. destruct Hst; cbn [c_sched] in Hs.
  - eapply co_stay; [done|by eapply lock_keeps|done].
  - eapply lock_keeps in H0 as [H1 H2]; [|done]. by apply co_move.
  - by apply co_move; [apply keeps_refl| |].
  - eapply co_stay; [done|by eapply lockc_keeps|done].
  - eapply lockc_keeps in H0 as [H1 H2]; [|done]. by apply co_move.
  - unfold kmutex_lock_cancellable_resume, sched_cancellable_sleep_on_resume in H0.
    rewrite bind_assoc, gets_bind in H0. destruct (cur_rec s Hs) as (k & Hk & _).
    rewrite bind_assoc, (bind_ok _ _ _ _ _ (thr_ok _ _ _ Hk)), ret_bind in H0.
    apply bind_Ok_inv in H0 as ([] & s1 & Hw & [= <- <-]). apply co_move; [|done|done].
    unfold when in Hw. destruct (_ =? - EINTR); [|injection Hw as <-; by apply keeps_refl].
    by eapply unlock_keeps.
  - eapply co_stay; [done|by eapply unlock_keeps|done].
  - eapply sleep_keeps in H0 as [H1 _]; [|done..]. by apply co_move.
  - by apply co_move; [apply keeps_refl| |].
  - destruct (cur_rec s Hs) as (k & Hk & _).
    pose proof (csleep_pres _ _ _ _ _ H0 Hs ltac:(done) ltac:(done) Hk) as Hp.
    destruct r; destruct Hp as (_ & Hp); apply co_move; try done; apply Hp.
  - unfold sched_cancellable_sleep_on_resume in H0. rewrite gets_bind in H0.
    destruct (cur_rec s Hs) as (k & Hk & _). rewrite (bind_ok _ _ _ _ _ (thr_ok _ _ _ Hk)) in H0.
    injection H0 as <- <-. by apply co_move; [apply keeps_refl| |].
  - eapply wakeup_keeps in H0 as (_ & ? & ? & ?); [|done].
    eapply co_stay; [done|by apply keeps_frame|done].
  - unfold sched_broadcast_on in H0. rewrite get_bind in H0.
    eapply broadcast_keeps in H0 as (? & ? & ?); [|done].
    eapply co_stay; [done|by apply keeps_frame|done].
  - eapply co_stay; [done|by eapply cancel_keeps|done].
  - eapply co_stay; [done|by eapply ready_keeps|done].
  - eapply yield_keeps in H0 as (? & ? & ?); [|done].
    eapply co_stay; [done|by apply keeps_frame|done].
Qed.

Lemma steps_conf_ok c c' : rtc step c c' -> conf_ok c -> conf_ok c'.
Proof. induction 1; eauto using step_conf_ok. Qed.

End Steps.

(** The state in which [bootstrap] starts the first thread: some threads exist,
    one of them is current and runs, none is on a queue. *)
Definition boot_sched (ths : gmap Z kthread) (cur proc : Z) : sched :=
  Sched ths ∅ ∅ cur proc 0 true.

Lemma boot_conf_ok ths cur proc k :
  map_Forall (fun _ k => kt_wchan k = None /\ kt_qlink k = None) ths ->
  ths !! NULL = None -> ths !! cur = Some k -> kt_state k = KT_RUN ->
  conf_ok (Conf (boot_sched ths cur proc) ∅).
Proof.
  intros Hall Hn Hc Hst.
  assert (forall q, queues (boot_sched ths cur proc) q = Ktqueue [] 0) as Hq by done.
  split; [split; [split; [split| | ]|]|].
  - intros q. by rewrite Hq.
  - intros q. rewrite Hq. constructor.
  - intros t q. rewrite Hq. split; [by intros ?%elem_of_nil|].
    intros (k' & Hk' & Hw). apply Hall in Hk' as [? _]. congruence.
  - intros t k' Hk'. apply Hall in Hk' as [-> ->]. done.
  - done.
  - intros t k' q Hk' Hw. apply Hall in Hk' as [? _]. congruence.
  - intros m. rewrite Hq. split; [done|]. by apply not_elem_of_nil.
  - exists k. split_and!; [done| |done]. by apply Hall in Hc as [? _].
  - intros t. unfold pc_of. cbn [c_pc]. by rewrite lookup_empty.
Qed.

(** ** The guarantees *)

Section Guarantees.
Context `{P : Platform} (intr_wait : sched -> sched) (irqs : nat).

(** C2. From boot with any set of threads on no queue, every configuration
    reachable by any interleaving of lock, cancellable lock, unlock, sleep,
    cancellable sleep, wake-up, broadcast, cancel, make-runnable and yield steps
    has a consistent scheduler: each thread is on at most the one queue its wait
    channel names, queue sizes match, sleeping and runnable states fit the queues,
    the current thread is on no queue, and every mutex with waiters has a holder. *)
Theorem reachable_sched_ok (Hintr : intr_pres intr_wait) ths cur proc k c :
  map_Forall (fun _ k => kt_wchan k = None /\ kt_qlink k = None) ths ->
  ths !! NULL = None -> ths !! cur = Some k -> kt_state k = KT_RUN ->
  rtc (step intr_wait irqs) (Conf (boot_sched ths cur proc) ∅) c ->
  sched_ok (c_sched c).
Proof.
  intros Hall Hn Hc Hst Hr. eapply steps_conf_ok; [exact Hintr|exact Hr|]. by eapply boot_conf_ok.
Qed.

(** C15. A thread that returns from kmutex_lock holds the mutex: at once when the
    call did not sleep, and also when it slept and is scheduled again after any
    number of steps of any other threads. *)
Theorem lock_returns_holding (Hintr : intr_pres intr_wait) c m :
  conf_ok c ->
  (* a call that returns at once *)
  (forall v s', kmutex_lock intr_wait irqs m (c_sched c) = Ok (Returned v) s' ->
     km_holder s' m = curthr s' /\ curthr s' = curthr (c_sched c)) /\
  (* a call that slept, when its thread is scheduled again any number of steps later *)
  (forall c', rtc (step intr_wait irqs) c c' ->
     c_pc c' !! curthr (c_sched c') = Some (AtLock m) ->
     km_holder (c_sched c') m = curthr (c_sched c')).
Proof.
  intros Hc. split.
  - intros v s' Hr. by destruct (lock_keeps intr_wait irqs Hintr _ _ _ _ (co_sched _ Hc) Hr) as (_ & _ & ? & ?).
  - intros c' Hr Hp. assert (conf_ok c') as [Hs Hw] by (by eapply steps_conf_ok).
    specialize (Hw (curthr (c_sched c'))). unfold pc_of in Hw. rewrite Hp in Hw. cbn in Hw.
    destruct Hw as (k & Hk & [[Hq _]|Hh]); [|done].
    destruct (so_cur _ Hs) as (k' & Hk' & Hw' & _). congruence.
Qed.

(** kmutex_unlock with waiters makes the thread that has waited longest the holder
    and the last of the run queue, keeps the order of the other waiters, and
    touches no other mutex. *)
Theorem unlock_hands_over s m t rest :
  sched_ok s -> km_holder s m = curthr s -> fifo s (km_waitq m) = t :: rest ->
  exists s', kmutex_unlock m s = Ok tt s' /\ sched_ok s' /\ curthr s' = curthr s /\
    km_holder s' m = t /\ fifo s' (km_waitq m) = rest /\
    fifo s' kt_runq = fifo s kt_runq ++ [t] /\
    (forall m', m' <> m -> km_holder s' m' = km_holder s m').
Proof.
  intros Hs Hh Hf. unfold fifo in Hf.
  assert (tq_list (queues s (km_waitq m)) = reverse rest ++ [t]) as Hl.
  { rewrite <- (reverse_involutive (tq_list _)), Hf. by rewrite reverse_cons. }
  destruct (unlock_waiters s m _ _ Hs Hh Hl) as (k & Hk & Hw & Hr & Hs').
  exists (set_holder m t (wake (km_waitq m) t k s)). split_and!; try done.
  - by rewrite set_holder_km, decide_True.
  - unfold fifo. change (queues (set_holder m t ?x)) with (queues x).
    rewrite wake_list, decide_False, decide_True by done. rewrite Hl, filter_ne_snoc.
    + apply reverse_involutive.
    + rewrite <- Hl. apply (io_queue _ (so_idle _ Hs)).
  - unfold fifo. change (queues (set_holder m t ?x)) with (queues x).
    rewrite wake_list, decide_True by done. apply reverse_cons.
  - intros m' Hm. by rewrite set_holder_km, decide_False.
Qed.

(** sched_switch makes the thread that has been runnable longest the current one
    and keeps the order of the rest of the run queue. *)
Theorem switch_fifo s t rest :
  idle_ok s -> is_Some (threads s !! curthr s) -> fifo s kt_runq = t :: rest ->
  exists s', sched_switch intr_wait irqs s = Ok tt s' /\ sched_ok s' /\
    curthr s' = t /\ fifo s' kt_runq = rest.
Proof.
  intros Hs Hc Hf. unfold fifo in *.
  assert (tq_list (queues s kt_runq) = reverse rest ++ [t]) as Hl.
  { rewrite <- (reverse_involutive (tq_list _)), Hf. by rewrite reverse_cons. }
  destruct (switch_oldest intr_wait irqs s _ _ Hs Hc Hl) as (s' & H1 & H2 & H3 & _ & _ & H6).
  exists s'. split_and!; try done. by rewrite H6, reverse_involutive.
Qed.

(** sched_broadcast_on terminates with the queue empty and all of its threads
    appended to the run queue in the order in which they fell asleep. *)
Theorem broadcast_wakes_all s q :
  idle_ok s -> q <> kt_runq ->
  exists s', sched_broadcast_on q s = Ok tt s' /\ idle_ok s' /\ curthr s' = curthr s /\
    fifo s' q = [] /\ fifo s' kt_runq = fifo s kt_runq ++ fifo s q.
Proof.
  intros Hs Hq. unfold sched_broadcast_on. rewrite get_bind.
  destruct (broadcast_loop_ok q (S (length (tq_list (queues s q)))) s Hs Hq)
    as (s' & H1 & H2 & H3 & H4 & _ & H6 & _); [lia|].
  exists s'. split_and!; try done; unfold fifo; [by rewrite H3|]. by rewrite H4, reverse_app.
Qed.

(** A thread cancelled while it waits in kmutex_lock_cancellable stops the kernel
    when it runs again: it unlocks a mutex it does not hold. *)
Theorem cancelled_lock_panics c m k :
  conf_ok c -> threads (c_sched c) !! curthr (c_sched c) = Some k ->
  kt_cancelled k = 1 -> km_holder (c_sched c) m <> curthr (c_sched c) ->
  kmutex_lock_cancellable_resume m (c_sched c) = Halt KAssert (c_sched c).
Proof.
  intros Hc Hk Hcan Hh. set (s := c_sched c) in *.
  unfold kmutex_lock_cancellable_resume, sched_cancellable_sleep_on_resume.
  rewrite bind_assoc, gets_bind, bind_assoc, (bind_ok _ _ _ _ _ (thr_ok _ _ _ Hk)), ret_bind.
  rewrite Hcan, Z.eqb_refl. unfold when. rewrite Z.eqb_refl.
  apply bind_halt. unfold kmutex_unlock. rewrite get_bind. apply kassert_fail.
  rewrite (proj2 (Z.eqb_neq (curthr s) _)) by congruence. apply andb_false_r.
Qed.

End Guarantees.

(** ktqueue_contains finds a thread exactly when it is the first of the list,
    wherever else on the queue it may be. *)
Theorem ktqueue_contains_head_only q t :
  tq_size q = Z.of_nat (length (tq_list q)) ->
  ktqueue_contains q t = true <-> head (tq_list q) = Some t.
Proof.
  intros Hn. unfold ktqueue_contains. destruct (tq_list q) as [|x l]; [done|].
  rewrite Hn, Nat2Z.id. cbn [head length].
  assert (forall n, ktqueue_contains_loop (S n) x t = (t =? x)) as ->.
  { induction n as [|n IH]; cbn in *; [|rewrite IH]; by destruct (t =? x). }
  rewrite Z.eqb_eq. split; [by intros ->|by intros [= ->]].
Qed.

(** ** A run: two threads and one mutex *)

Lemma intr_pres_none : intr_pres (fun s => s).
Proof. intros s Hs. by split_and!. Qed.

Definition fresh_thread (x : ktstate) (p : Z) : kthread := Kthread x None None 0 0 0 p 64 None.
Definition two_threads : gmap Z kthread := {[ 1 := fresh_thread KT_RUN 0; 2 := fresh_thread KT_NO_STATE 1 ]}.

#[local] Existing Instance weenix.

(** Thread 1 readies thread 2, takes mutex 7 and yields; thread 2 has to wait for
    the mutex; thread 1 unlocks it and yields again. *)
Definition out_of {A} (o : outcome sched A) : sched := out_state o.
Definition run0 : sched := boot_sched two_threads 1 0.
Definition run1 : sched := Eval vm_compute in out_of (sched_make_runnable 2 run0).
Definition run2 : sched := Eval vm_compute in out_of (kmutex_lock (fun s => s) 0 7 run1).
Definition run3 : sched := Eval vm_compute in out_of (thr_yield (fun s => s) 0 run2).
Definition run4 : sched := Eval vm_compute in out_of (kmutex_lock (fun s => s) 0 7 run3).
Definition run5 : sched := Eval vm_compute in out_of (kmutex_unlock 7 run4).
Definition run6 : sched := Eval vm_compute in out_of (thr_yield (fun s => s) 0 run5).

Lemma run_steps :
  rtc (step (fun s => s) 0) (Conf run0 ∅) (Conf run6 (<[2 := AtLock 7]> ∅)).
Proof.
  eapply rtc_l. { eapply (step_ready _ _ 2 run0 run1); [done|done|vm_compute; reflexivity]. }
  eapply rtc_l. { eapply (step_lock _ _ 7 run1 run2); [done|vm_compute; reflexivity]. }
  eapply rtc_l. { eapply (step_yield _ _ run2 run3); [done|vm_compute; reflexivity]. }
  eapply rtc_l. { eapply (step_lock_sleep _ _ 7 run3 run4); [done|vm_compute; reflexivity]. }
  eapply rtc_l. { eapply (step_unlock _ _ 7 run4 run5); [done|vm_compute; reflexivity]. }
  eapply rtc_l. { eapply (step_yield _ _ run5 run6); [done|vm_compute; reflexivity]. }
  apply rtc_refl.
Qed.

Lemma run_conf_ok : conf_ok (Conf run0 ∅).
Proof.
  eapply boot_conf_ok; [|done|done|done].
  apply (bool_decide_unpack _). vm_compute. exact I.
Qed.

Lemma run6_conf_ok : conf_ok (Conf run6 (<[2 := AtLock 7]> ∅)).
Proof. eapply steps_conf_ok; [apply intr_pres_none|apply run_steps|apply run_conf_ok]. Qed.

Lemma reachable_sched_ok_witness : sched_ok run6.
Proof.
  apply (reachable_sched_ok (fun s => s) 0 intr_pres_none two_threads 1 0 (fresh_thread KT_RUN 0)
    (Conf run6 (<[2 := AtLock 7]> ∅))); [|reflexivity|reflexivity|reflexivity|apply run_steps].
  apply (bool_decide_unpack _). vm_compute. exact I.
Defined.

Lemma lock_returns_holding_witness : km_holder run6 7 = curthr run6.
Proof.
  apply (proj2 (lock_returns_holding (fun s => s) 0 intr_pres_none (Conf run0 ∅) 7 run_conf_ok)
    (Conf run6 (<[2 := AtLock 7]> ∅)) run_steps).
  reflexivity.
Defined.

Lemma run4_conf_ok : conf_ok (Conf run4 (<[2 := AtLock 7]> ∅)).
Proof.
  eapply (steps_conf_ok (fun s => s) 0 intr_pres_none (Conf run0 ∅)); [|apply run_conf_ok].
  eapply rtc_l. { eapply (step_ready _ _ 2 run0 run1); [done|done|vm_compute; reflexivity]. }
  eapply rtc_l. { eapply (step_lock _ _ 7 run1 run2); [done|vm_compute; reflexivity]. }
  eapply rtc_l. { eapply (step_yield _ _ run2 run3); [done|vm_compute; reflexivity]. }
  eapply rtc_l. { eapply (step_lock_sleep _ _ 7 run3 run4); [done|vm_compute; reflexivity]. }
  apply rtc_refl.
Qed.

Lemma unlock_hands_over_witness :
  exists s', kmutex_unlock 7 run4 = Ok tt s' /\ km_holder s' 7 = 2.
Proof.
  destruct (unlock_hands_over run4 7 2 [] (co_sched _ run4_conf_ok))
    as (s' & H1 & _ & _ & H2 & _); [reflexivity|reflexivity|].
  exists s'. split; assumption.
Defined.

Lemma switch_fifo_witness :
  exists s', sched_switch (fun s => s) 0 run5 = Ok tt s' /\ curthr s' = 2.
Proof.
  assert (sched_ok run5) as H5.
  { eapply (co_sched (Conf run5 (<[2 := AtLock 7]> ∅))).
    eapply step_conf_ok; [apply intr_pres_none| |apply run4_conf_ok].
    eapply (step_unlock (fun s => s) 0 7 run4 run5); [done|vm_compute; reflexivity]. }
  destruct (switch_fifo (fun s => s) 0 run5 2 [] (so_idle _ H5)) as (s' & H1 & _ & H2 & _).
  - eexists. reflexivity.
  - reflexivity.
  - exists s'. split; assumption.
Defined.

Lemma broadcast_wakes_all_witness :
  exists s', sched_broadcast_on (km_waitq 7) run4 = Ok tt s' /\ fifo s' kt_runq = [2].
Proof.
  destruct (broadcast_wakes_all run4 (km_waitq 7) (so_idle _ (co_sched _ run4_conf_ok)))
    as (s' & H1 & _ & _ & _ & H2); [discriminate|].
  exists s'. split; [assumption|]. rewrite H2. reflexivity.
Defined.

(** Thread 2 waits for the mutex with [kmutex_lock_cancellable] and is cancelled
    there by thread 1, which keeps the mutex. *)
Definition crun4 : sched := Eval vm_compute in out_of (kmutex_lock_cancellable (fun s => s) 0 7 run3).
Definition crun5 : sched := Eval vm_compute in out_of (kthread_cancel_other 2 0 crun4).
Definition crun6 : sched := Eval vm_compute in out_of (thr_yield (fun s => s) 0 crun5).

Lemma crun_steps :
  rtc (step (fun s => s) 0) (Conf run0 ∅) (Conf crun6 (<[2 := AtLockCancellable 7]> ∅)).
Proof.
  eapply rtc_l. { eapply (step_ready _ _ 2 run0 run1); [done|done|vm_compute; reflexivity]. }
  eapply rtc_l. { eapply (step_lock _ _ 7 run1 run2); [done|vm_compute; reflexivity]. }
  eapply rtc_l. { eapply (step_yield _ _ run2 run3); [done|vm_compute; reflexivity]. }
  eapply rtc_l. { eapply (step_lockc_sleep _ _ 7 run3 crun4); [done|vm_compute; reflexivity]. }
  eapply rtc_l. { eapply (step_cancel _ _ 2 0 crun4 crun5); [done|done|vm_compute; reflexivity]. }
  eapply rtc_l. { eapply (step_yield _ _ crun5 crun6); [done|vm_compute; reflexivity]. }
  apply rtc_refl.
Qed.

Lemma cancelled_lock_panics_witness :
  rtc (step (fun s => s) 0) (Conf run0 ∅) (Conf crun6 (<[2 := AtLockCancellable 7]> ∅)) /\
  kmutex_lock_cancellable_resume 7 crun6 = Halt KAssert crun6.
Proof.
  split; [apply crun_steps|].
  assert (exists k, threads crun6 !! curthr crun6 = Some k /\ kt_cancelled k = 1) as (k & Hk & Hc).
  { eexists. split; vm_compute; reflexivity. }
  apply (cancelled_lock_panics (Conf crun6 (<[2 := AtLockCancellable 7]> ∅)) 7 k); [|exact Hk|exact Hc|].
  - eapply steps_conf_ok; [apply intr_pres_none|apply crun_steps|apply run_conf_ok].
  - vm_compute. discriminate.
Defined.

Lemma ktqueue_contains_head_only_witness : ktqueue_contains (Ktqueue [4; 5] 2) 5 = false.
Proof.
  destruct (ktqueue_contains (Ktqueue [4; 5] 2) 5) eqn:E; [|reflexivity].
  apply (proj1 (ktqueue_contains_head_only (Ktqueue [4; 5] 2) 5 eq_refl)) in E. discriminate.
Defined.
