(* ===== verification/MmIface.v ===== *)
(** The interface between the address spaces of [vm/vmmap.c] and the memory
    objects, page frames and page tables below them.

    [vmarea] and [vmmap] are the data of the address spaces.  [MmOps] are the
    operations an address space calls; those that may walk the areas (releasing
    an object can free page frames, and a freed frame is removed from the page
    tables of every area that maps it) get the address spaces as an argument.
    [MmLaws] is the contract of these operations in terms of who holds what:
    [mm_safe live I R mm] says that [mm] is consistent, that the structs [live]
    are allocated, that the references to memory objects held from outside are
    the multiset [R], and that every area linked to a memory object is in [I]. *)
From S2P Require Import Prelude.
From S2P Require Import Platform.
Open Scope Z_scope.

Record vmarea := Vmarea {
  vma_id : Z;            (* the address of the struct *)
  vma_start : Z; vma_end : Z; vma_off : Z;
  vma_prot : Z; vma_flags : Z;
  vma_vmmap : Z; vma_obj : Z
}.
#[global] Instance vmarea_eq_dec : EqDecision vmarea.
Proof. solve_decision. Defined.

Record vmmap := Vmmap { vmm_list : list vmarea; vmm_proc : Z }.

(** The address spaces of the system, by address. *)
Notation vmmaps := (gmap Z vmmap).

Class MmOps (MM : Type) := {
  (* slab allocators: NULL when memory is short *)
  vmarea_slab_alloc : M MM Z;
  vmarea_slab_free : Z -> M MM unit;
  vmmap_slab_alloc : M MM Z;
  vmmap_slab_free : Z -> M MM unit;
  (* o->mmo_ops->ref(o), o->mmo_ops->put(o) *)
  mmobj_ref : Z -> M MM unit;
  mmobj_put : vmmaps -> Z -> M MM unit;
  anon_create : M MM Z;
  shadow_create : M MM Z;
  (* s->mmo_shadowed = o; s->mmo_un.mmo_bottom_obj = mmobj_bottom_obj(o) *)
  shadow_over : Z -> Z -> M MM unit;
  (* list_insert_tail(mmobj_bottom_vmas(o), &vma->vma_olink), the link's state, list_remove *)
  olink_insert : Z -> Z -> M MM unit;
  olink_is_linked : Z -> MM -> bool;
  olink_remove : Z -> M MM unit;
  (* pt_unmap_range(pd, lo, hi), the page directory named by its process *)
  pt_unmap_range : Z -> Z -> Z -> M MM unit;
  (* file->vn_ops->mmap(file, vma, &vma->vma_obj): result and object *)
  vnode_mmap : Z -> vmarea -> M MM (Z * Z);
  (* page frames: pframe_lookup(o, pagenum, forwrite, &pf): result and frame;
     the bytes of a frame; pframe_dirty *)
  pframe_lookup : vmmaps -> Z -> Z -> bool -> M MM (Z * Z);
  pf_bytes : Z -> MM -> list Z;
  pf_write : Z -> list Z -> M MM unit;
  pframe_dirty : Z -> M MM Z
}.

(** The addresses of the areas of all address spaces; they are different structs,
    and an area knows the address space it is in. *)
Definition area_ids (maps : vmmaps) : list Z :=
  vma_id <$> (map_to_list maps ≫= fun mv => vmm_list mv.2).
Definition maps_ok (maps : vmmaps) : Prop :=
  NoDup (area_ids maps) /\ NULL ∉ area_ids maps /\
  map_Forall (fun m v => Forall (fun a => vma_vmmap a = m) (vmm_list v)) maps.

(** The structs of the address spaces. *)
Definition live (maps : vmmaps) : list Z := (map_to_list maps).*1 ++ area_ids maps.

Section Laws.
Context {MM : Type} `{!MmOps MM}.

(** No area gets linked, and no area but those of [I] gets unlinked. *)
Definition same_links (I : list Z) (mm mm' : MM) : Prop :=
  forall j, j ∉ I -> olink_is_linked j mm' = olink_is_linked j mm.

Class MmLaws := {
  mm_safe : list Z -> list Z -> gmultiset Z -> MM -> Prop;
  (* the object is there: somebody refers to it *)
  mm_obj : Z -> MM -> Prop;
  mm_obj_held L I R mm o : mm_safe L I R mm -> o ∈ R -> mm_obj o mm;
  (* structs may be forgotten, and the set of areas matters only for linked ones *)
  mm_safe_weaken L L' I I' R mm :
    mm_safe L I R mm -> L' ⊆+ L ->
    (forall i, olink_is_linked i mm = true -> i ∈ I -> i ∈ I') -> mm_safe L' I' R mm;
  mm_live L I R mm : mm_safe L I R mm -> NoDup L /\ NULL ∉ L;
  mm_linked L I R mm i : mm_safe L I R mm -> olink_is_linked i mm = true -> i ∈ I;
  mm_vmarea_alloc L I R mm : mm_safe L I R mm ->
    exists i mm', vmarea_slab_alloc mm = Ok i mm' /\ same_links [] mm mm' /\
      (i = NULL -> mm_safe L I R mm') /\
      (i <> NULL -> mm_safe (i :: L) I R mm' /\ i ∉ L);
  mm_vmarea_free L I R mm i : mm_safe (i :: L) I R mm -> olink_is_linked i mm = false ->
    exists mm', vmarea_slab_free i mm = Ok tt mm' /\ mm_safe L I R mm' /\ same_links [] mm mm';
  mm_vmmap_alloc L I R mm : mm_safe L I R mm ->
    exists i mm', vmmap_slab_alloc mm = Ok i mm' /\ same_links [] mm mm' /\
      (i = NULL -> mm_safe L I R mm') /\
      (i <> NULL -> mm_safe (i :: L) I R mm' /\ i ∉ L);
  mm_vmmap_free L I R mm i : mm_safe (i :: L) I R mm ->
    exists mm', vmmap_slab_free i mm = Ok tt mm' /\ mm_safe L I R mm' /\ same_links [] mm mm';
  mm_ref L I R mm o : mm_safe L I R mm -> o ∈ R ->
    exists mm', mmobj_ref o mm = Ok tt mm' /\ mm_safe L I (R ⊎ {[+ o +]}) mm' /\ same_links [] mm mm';
  mm_put L maps R mm o : maps_ok maps -> mm_safe L (area_ids maps) (R ⊎ {[+ o +]}) mm ->
    exists mm', mmobj_put maps o mm = Ok tt mm' /\ mm_safe L (area_ids maps) R mm' /\ same_links [] mm mm';
  mm_anon_create L I R mm : mm_safe L I R mm ->
    (exists mm', anon_create mm = Halt NullDeref mm') \/
    exists o mm', anon_create mm = Ok o mm' /\ o <> NULL /\
      mm_safe L I (R ⊎ {[+ o +]}) mm' /\ same_links [] mm mm';
  (* a file's mmap operation hands out a reference, or no object *)
  mm_vnode_mmap L I R mm file vma : mm_safe L I R mm ->
    exists r o mm', vnode_mmap file vma mm = Ok (r, o) mm' /\ same_links [] mm mm' /\
      (o <> NULL -> mm_safe L I (R ⊎ {[+ o +]}) mm');
  (* a new shadow object takes over the reference to the object it shadows *)
  mm_shadow L I R mm o : mm_safe L I (R ⊎ {[+ o +]}) mm ->
    (exists mm', shadow_create mm = Halt NullDeref mm') \/
    exists sh mm1 mm2, shadow_create mm = Ok sh mm1 /\ sh <> NULL /\
      shadow_over sh o mm1 = Ok tt mm2 /\
      mm_safe L I (R ⊎ {[+ sh +]}) mm2 /\ mm_obj o mm2 /\ same_links [] mm mm2;
  mm_olink_insert L I R mm o i : mm_safe L I R mm -> mm_obj o mm -> i ∈ L -> olink_is_linked i mm = false ->
    exists mm', olink_insert o i mm = Ok tt mm' /\ mm_safe L (i :: I) R mm' /\ same_links [i] mm mm';
  mm_olink_remove L I R mm i : mm_safe L I R mm -> olink_is_linked i mm = true ->
    exists mm', olink_remove i mm = Ok tt mm' /\ mm_safe L I R mm' /\
      olink_is_linked i mm' = false /\ same_links [i] mm mm' /\ (forall o, mm_obj o mm -> mm_obj o mm');
  mm_pt_unmap L I R mm p lo hi : mm_safe L I R mm ->
    exists mm', pt_unmap_range p lo hi mm = Ok tt mm' /\ mm_safe L I R mm' /\ same_links [] mm mm'
}.

End Laws.
Arguments MmLaws MM {_}.
