(* ===== verification/Mm.v ===== *)
(** Page frames and memory objects: [mm/pframe.c], [vm/anon.c], [vm/shadow.c].

    The allocators, the page tables and the TLB ([LowMem]), the macros of
    [mm/mmobj.h] ([MmobjHeader]) and the memory objects of files ([FileOps]) are
    not in the repository and are parameters.

    Structs are entries of maps from addresses; a freed struct leaves its map, and
    a write through a pointer to a freed struct, which changes nothing that is
    alive, is recorded in [stray].  [woken] are the threads made runnable by a
    broadcast on a frame's wait queue. *)
From S2P Require Import Prelude.
From S2P Require Import Platform.
From S2P Require Import MmIface.
Open Scope Z_scope.

Inductive slab := VmareaSlab | VmmapSlab | AnonSlab | ShadowSlab | PframeSlab.

(** mm/slab.h, mm/page.h, mm/pagetable.h, mm/tlb.h; a page directory is named by
    its process. *)
Class LowMem (LM : Type) := {
  slab_obj_alloc : slab -> LM -> Z * LM;
  slab_obj_free : slab -> Z -> LM -> LM;
  page_alloc : LM -> Z * LM;
  page_free : Z -> LM -> LM;
  page_free_count : LM -> Z;
  pt_unmap : Z -> Z -> LM -> LM;
  pt_unmap_pages : Z -> Z -> Z -> LM -> LM;  (* pt_unmap_range *)
  tlb_flush : Z -> LM -> LM
}.

(** [mmo_ops], by the table of operations it points to *)
Inductive mmobj_ops := anon_mmobj_ops | shadow_mmobj_ops | file_mmobj_ops.
#[global] Instance mmobj_ops_eq_dec : EqDecision mmobj_ops.
Proof. solve_decision. Defined.

Record mmobj := Mmobj {
  mmo_ops : mmobj_ops;
  mmo_refcount : Z;
  mmo_nrespages : Z;
  mmo_respages : list Z;
  mmo_shadowed : Z;
  mmo_bottom_obj : Z;     (* mmo_un of a shadow object *)
  mmo_vmas : list Z       (* mmo_un of any other object *)
}.

Record pframe := Pframe {
  pf_addr : Z; pf_obj : Z; pf_pagenum : Z;
  pf_busy : bool; pf_dirty : bool; pf_pincount : Z;
  pf_waitq : list Z
}.

(** mm/mmobj.h *)
Class MmobjHeader := {
  mmobj_init : mmobj_ops -> mmobj;
  mmobj_bottom : Z -> mmobj -> Z     (* mmobj_bottom_obj(o) *)
}.

Section Mm.
Context {LM : Type}.

Record mm := Mm {
  lowmem : LM;
  mmobjs : gmap Z mmobj;
  pframes : gmap Z pframe;
  alloc_list : list Z; nallocated : Z;
  pinned_list : list Z; npinned : Z;
  pframe_hash : gmap Z (list Z);
  olinks : gmap Z Z;             (* linked areas, with the object whose list they are on *)
  phys : gmap Z (list Z);        (* the bytes of physical pages *)
  nfreepages_min : Z; nfreepages_target : Z;
  mm_curthr : Z; woken : list Z;
  stray : list Z
}.

Definition set_lowmem (f : LM -> LM) (s : mm) : mm :=
  Mm (f (lowmem s)) (mmobjs s) (pframes s) (alloc_list s) (nallocated s) (pinned_list s) (npinned s)
    (pframe_hash s) (olinks s) (phys s) (nfreepages_min s) (nfreepages_target s) (mm_curthr s) (woken s) (stray s).
Definition set_mmobjs (f : gmap Z mmobj -> gmap Z mmobj) (s : mm) : mm :=
  Mm (lowmem s) (f (mmobjs s)) (pframes s) (alloc_list s) (nallocated s) (pinned_list s) (npinned s)
    (pframe_hash s) (olinks s) (phys s) (nfreepages_min s) (nfreepages_target s) (mm_curthr s) (woken s) (stray s).
Definition set_pframes (f : gmap Z pframe -> gmap Z pframe) (s : mm) : mm :=
  Mm (lowmem s) (mmobjs s) (f (pframes s)) (alloc_list s) (nallocated s) (pinned_list s) (npinned s)
    (pframe_hash s) (olinks s) (phys s) (nfreepages_min s) (nfreepages_target s) (mm_curthr s) (woken s) (stray s).
(** the two page lists and their counts *)
Definition set_lists (al : list Z) (na : Z) (pl : list Z) (np : Z) (s : mm) : mm :=
  Mm (lowmem s) (mmobjs s) (pframes s) al na pl np
    (pframe_hash s) (olinks s) (phys s) (nfreepages_min s) (nfreepages_target s) (mm_curthr s) (woken s) (stray s).
Definition set_hash (f : gmap Z (list Z) -> gmap Z (list Z)) (s : mm) : mm :=
  Mm (lowmem s) (mmobjs s) (pframes s) (alloc_list s) (nallocated s) (pinned_list s) (npinned s)
    (f (pframe_hash s)) (olinks s) (phys s) (nfreepages_min s) (nfreepages_target s) (mm_curthr s) (woken s) (stray s).
Definition set_olinks (f : gmap Z Z -> gmap Z Z) (s : mm) : mm :=
  Mm (lowmem s) (mmobjs s) (pframes s) (alloc_list s) (nallocated s) (pinned_list s) (npinned s)
    (pframe_hash s) (f (olinks s)) (phys s) (nfreepages_min s) (nfreepages_target s) (mm_curthr s) (woken s) (stray s).
Definition set_phys (f : gmap Z (list Z) -> gmap Z (list Z)) (s : mm) : mm :=
  Mm (lowmem s) (mmobjs s) (pframes s) (alloc_list s) (nallocated s) (pinned_list s) (npinned s)
    (pframe_hash s) (olinks s) (f (phys s)) (nfreepages_min s) (nfreepages_target s) (mm_curthr s) (woken s) (stray s).
Definition add_woken (ts : list Z) (s : mm) : mm :=
  Mm (lowmem s) (mmobjs s) (pframes s) (alloc_list s) (nallocated s) (pinned_list s) (npinned s)
    (pframe_hash s) (olinks s) (phys s) (nfreepages_min s) (nfreepages_target s) (mm_curthr s) (woken s ++ ts) (stray s).
Definition add_stray (p : Z) (s : mm) : mm :=
  Mm (lowmem s) (mmobjs s) (pframes s) (alloc_list s) (nallocated s) (pinned_list s) (npinned s)
    (pframe_hash s) (olinks s) (phys s) (nfreepages_min s) (nfreepages_target s) (mm_curthr s) (woken s) (p :: stray s).

Definition set_refcount (n : Z) (x : mmobj) : mmobj :=
  Mmobj (mmo_ops x) n (mmo_nrespages x) (mmo_respages x) (mmo_shadowed x) (mmo_bottom_obj x) (mmo_vmas x).
Definition set_nrespages (n : Z) (x : mmobj) : mmobj :=
  Mmobj (mmo_ops x) (mmo_refcount x) n (mmo_respages x) (mmo_shadowed x) (mmo_bottom_obj x) (mmo_vmas x).
Definition set_respages (l : list Z) (x : mmobj) : mmobj :=
  Mmobj (mmo_ops x) (mmo_refcount x) (mmo_nrespages x) l (mmo_shadowed x) (mmo_bottom_obj x) (mmo_vmas x).
Definition set_shadowed (o : Z) (x : mmobj) : mmobj :=
  Mmobj (mmo_ops x) (mmo_refcount x) (mmo_nrespages x) (mmo_respages x) o (mmo_bottom_obj x) (mmo_vmas x).
Definition set_bottom (b : Z) (x : mmobj) : mmobj :=
  Mmobj (mmo_ops x) (mmo_refcount x) (mmo_nrespages x) (mmo_respages x) (mmo_shadowed x) b (mmo_vmas x).
Definition set_vmas (l : list Z) (x : mmobj) : mmobj :=
  Mmobj (mmo_ops x) (mmo_refcount x) (mmo_nrespages x) (mmo_respages x) (mmo_shadowed x) (mmo_bottom_obj x) l.

Definition set_pf_obj (o : Z) (f : pframe) : pframe :=
  Pframe (pf_addr f) o (pf_pagenum f) (pf_busy f) (pf_dirty f) (pf_pincount f) (pf_waitq f).
Definition set_busy (b : bool) (f : pframe) : pframe :=
  Pframe (pf_addr f) (pf_obj f) (pf_pagenum f) b (pf_dirty f) (pf_pincount f) (pf_waitq f).
Definition set_dirty (b : bool) (f : pframe) : pframe :=
  Pframe (pf_addr f) (pf_obj f) (pf_pagenum f) (pf_busy f) b (pf_pincount f) (pf_waitq f).
Definition set_pincount (n : Z) (f : pframe) : pframe :=
  Pframe (pf_addr f) (pf_obj f) (pf_pagenum f) (pf_busy f) (pf_dirty f) n (pf_waitq f).
Definition set_waitq (q : list Z) (f : pframe) : pframe :=
  Pframe (pf_addr f) (pf_obj f) (pf_pagenum f) (pf_busy f) (pf_dirty f) (pf_pincount f) q.

Definition obj (o : Z) : M mm mmobj := s ← get; deref (mmobjs s !! o).
Definition upd_obj (o : Z) (f : mmobj -> mmobj) : M mm unit :=
  x ← obj o; modify (set_mmobjs (insert o (f x))).
Definition frame (pf : Z) : M mm pframe := s ← get; deref (pframes s !! pf).
Definition upd_frame (pf : Z) (g : pframe -> pframe) : M mm unit :=
  f ← frame pf; modify (set_pframes (insert pf (g f))).

(** [list_remove], for each list the link may be on. *)
Definition unlink (x : Z) (l : list Z) : list Z := filter (fun y => y <> x) l.

(** The area at address [i]. *)
Definition area_at (maps : vmmaps) (i : Z) : option vmarea :=
  list_find (fun a => vma_id a = i) (map_to_list maps ≫= fun mv => vmm_list mv.2) ≫= fun x => Some x.2.

(** The operations of the memory objects of files. *)
Class FileOps := {
  file_ref : Z -> M mm unit;
  file_put : vmmaps -> Z -> M mm unit;
  file_lookuppage : vmmaps -> Z -> Z -> bool -> M mm (Z * Z);
  file_fillpage : Z -> Z -> M mm Z;
  file_dirtypage : Z -> Z -> M mm Z;
  file_cleanpage : Z -> Z -> M mm Z;
  file_mmap : Z -> vmarea -> M mm (Z * Z)
}.

Context `{P : Platform} `{!LowMem LM} `{!MmobjHeader} `{!FileOps}.

(** ** mm/pframe.c: the state of a frame *)

(** pframe.h: a page with a positive pin count is pinned; a free page has no object. *)
Definition pframe_is_pinned (f : pframe) : bool := 0 <? pf_pincount f.
Definition pframe_is_free (f : pframe) : bool := pf_obj f =? NULL.

Definition hash_page (o pagenum : Z) : Z := (o +u pagenum) `mod` PF_HASH_SIZE.

Definition chain (h : Z) (s : mm) : list Z := default [] (pframe_hash s !! h).

(** Set up the page management structures. *)
Definition pframe_init : M mm unit :=
  modify (fun s => Mm (lowmem s) (mmobjs s) (pframes s) [] 0 [] 0 ∅ (olinks s) (phys s)
    0 (Z.shiftr (page_free_count (lowmem s)) 1) (mm_curthr s) (woken s) (stray s)).

Fixpoint get_resident_loop (o pagenum : Z) (hashchain : list Z) : M mm Z :=
  match hashchain with
  | [] => mret NULL
  | pf :: rest =>
      f ← frame pf;
      if (o =? pf_obj f) && (pagenum =? pf_pagenum f) then
        when (negb (pframe_is_pinned f))
          (modify (fun s => set_lists (unlink pf (alloc_list s) ++ [pf]) (nallocated s)
             (unlink pf (pinned_list s)) (npinned s) s));;
        mret pf
      else get_resident_loop o pagenum rest
  end.
Definition pframe_get_resident (o pagenum : Z) : M mm Z :=
  hashchain ← gets (chain (hash_page o pagenum)); get_resident_loop o pagenum hashchain.

Definition pframe_pin (pf : Z) : M mm unit :=
  f ← frame pf;
  kassert (negb (pframe_is_free f));;
  kassert (0 <=? pf_pincount f);;
  when (negb (pframe_is_pinned f))
    (modify (fun s => set_lists (unlink pf (alloc_list s)) (nallocated s - 1)
       (unlink pf (pinned_list s) ++ [pf]) (npinned s + 1) s));;
  upd_frame pf (fun f => set_pincount (pf_pincount f + 1) f).

Definition pframe_unpin (pf : Z) : M mm unit :=
  f ← frame pf;
  kassert (negb (pframe_is_free f));;
  kassert (0 <? pf_pincount f);;
  upd_frame pf (fun f => set_pincount (pf_pincount f - 1) f);;
  when (pf_pincount f - 1 =? 0)
    (modify (fun s => set_lists (unlink pf (alloc_list s) ++ [pf]) (nallocated s + 1)
       (unlink pf (pinned_list s)) (npinned s - 1) s)).

(** [sched_broadcast_on(&pf->pf_waitq)]; [sched_sleep_on(&pf->pf_waitq)] *)
Definition broadcast_on (pf : Z) : M mm unit :=
  f ← frame pf; modify (add_woken (reverse (pf_waitq f)));; upd_frame pf (set_waitq []).
Definition sleep_on {A} (pf : Z) : M mm A :=
  s ← get; upd_frame pf (fun f => set_waitq (mm_curthr s :: pf_waitq f) f);; stop Sleeps.

(** ** Reference counts of memory objects *)

Definition anon_ref (o : Z) : M mm unit :=
  x ← obj o;
  kassert (c_true o && (0 <? mmo_refcount x) && bool_decide (mmo_ops x = anon_mmobj_ops));;
  upd_obj o (fun x => set_refcount (mmo_refcount x + 1) x).
Definition shadow_ref (o : Z) : M mm unit :=
  x ← obj o;
  kassert (c_true o && (0 <? mmo_refcount x) && bool_decide (mmo_ops x = shadow_mmobj_ops));;
  upd_obj o (fun x => set_refcount (mmo_refcount x + 1) x).
(** [o->mmo_ops->ref(o)] *)
Definition ref (o : Z) : M mm unit :=
  x ← obj o;
  match mmo_ops x with
  | anon_mmobj_ops => anon_ref o
  | shadow_mmobj_ops => shadow_ref o
  | file_mmobj_ops => file_ref o
  end.

(** The body of [pframe_remove_from_pts]: page [pagenum] of the object area [i] maps. *)
Definition unmap_from_area (maps : vmmaps) (pagenum i : Z) : M mm unit :=
  vma ← deref (area_at maps i);
  when ((vma_off vma <=? pagenum) &&
        (pagenum <? (vma_off vma +u (vma_end vma -u vma_start vma))))
    (m ← deref (maps !! vma_vmmap vma);
     when (c_true (vmm_proc m))
       (modify (set_lowmem (pt_unmap (vmm_proc m)
          (PN_TO_ADDR (vma_start vma +u pagenum -u vma_off vma)))))).
Definition pframe_remove_from_pts (maps : vmmaps) (pf : Z) : M mm unit :=
  f ← frame pf;
  x ← obj (pf_obj f);
  b ← obj (mmobj_bottom (pf_obj f) x);
  mfor (mmo_vmas b) (unmap_from_area maps (pf_pagenum f)).

(** [put] is [o->mmo_ops->put]. *)
Definition pframe_free (put : Z -> M mm unit) (maps : vmmaps) (pf : Z) : M mm unit :=
  f ← frame pf;
  kassert (negb (pframe_is_pinned f));;
  kassert (negb (pframe_is_free f));;
  kassert (negb (pf_busy f));;
  let o := pf_obj f in
  modify (set_lowmem (tlb_flush (pf_addr f)));;
  pframe_remove_from_pts maps pf;;
  modify (set_hash (fmap (unlink pf)));;
  upd_frame pf (set_pf_obj NULL);;
  modify (fun s => set_lists (unlink pf (alloc_list s)) (nallocated s - 1)
    (unlink pf (pinned_list s)) (npinned s) s);;
  modify (set_lowmem (page_free (pf_addr f)));;
  modify (set_lowmem (slab_obj_free PframeSlab pf));;
  modify (set_pframes (delete pf));;
  upd_obj o (fun x => set_nrespages (mmo_nrespages x - 1) x);;
  modify (add_stray pf);; (* list_remove(&pf->pf_olink) goes through the freed frame *)
  upd_obj o (fun x => set_respages (unlink pf (mmo_respages x)) x);;
  put o.

(** [o->mmo_refcount--] where [o] may have been freed. *)
Definition dec_refcount (o : Z) : M mm unit :=
  s ← get;
  match mmobjs s !! o with
  | Some x => modify (set_mmobjs (insert o (set_refcount (mmo_refcount x - 1) x)))
  | None => modify (add_stray o)
  end.

Definition free_obj (k : slab) (o : Z) : M mm unit :=
  modify (set_lowmem (slab_obj_free k o));; modify (set_mmobjs (delete o)).

Definition free_respages (put : Z -> M mm unit) (maps : vmmaps) (o : Z) : M mm unit :=
  x ← obj o;
  mfor (mmo_respages x) (fun pf => pframe_unpin pf;; pframe_free put maps pf).

Definition anon_put (put : Z -> M mm unit) (maps : vmmaps) (o : Z) : M mm unit :=
  x ← obj o;
  kassert (c_true o && (0 <? mmo_refcount x) && bool_decide (mmo_ops x = anon_mmobj_ops));;
  if mmo_refcount x - 1 =? mmo_nrespages x then
    free_respages put maps o;;
    free_obj AnonSlab o
  else dec_refcount o.

Definition shadow_put (put : Z -> M mm unit) (maps : vmmaps) (o : Z) : M mm unit :=
  x ← obj o;
  kassert (c_true o && (0 <? mmo_refcount x) && bool_decide (mmo_ops x = shadow_mmobj_ops));;
  when (mmo_refcount x - 1 =? mmo_nrespages x)
    (free_respages put maps o;;
     x ← obj o;
     put (mmo_shadowed x);;
     free_obj ShadowSlab o);;
  dec_refcount o.

(** [o->mmo_ops->put(o)] *)
Fixpoint put_fuel (fuel : nat) (maps : vmmaps) (o : Z) : M mm unit :=
  match fuel with
  | O => stop OutOfFuel
  | S fuel =>
      x ← obj o;
      match mmo_ops x with
      | anon_mmobj_ops => anon_put (put_fuel fuel maps) maps o
      | shadow_mmobj_ops => shadow_put (put_fuel fuel maps) maps o
      | file_mmobj_ops => file_put maps o
      end
  end.
(** A chain of shadow objects is no longer than the number of objects. *)
Definition put (maps : vmmaps) (o : Z) : M mm unit := fun s => put_fuel (S (size (mmobjs s))) maps o s.

(** ** Creating memory objects *)

Definition anon_create : M mm Z :=
  s ← get;
  let (p, lm) := slab_obj_alloc AnonSlab (lowmem s) in
  modify (set_lowmem (fun _ => lm));;
  if p =? NULL then stop NullDeref (* list_init(&anon_obj->mmo_respages) *)
  else
    modify (set_mmobjs (insert p (set_nrespages 0 (set_refcount 1 (mmobj_init anon_mmobj_ops)))));;
    mret p.

Definition shadow_create : M mm Z :=
  s ← get;
  let (p, lm) := slab_obj_alloc ShadowSlab (lowmem s) in
  modify (set_lowmem (fun _ => lm));;
  if p =? NULL then stop NullDeref (* memset(shadow_obj, 0, ...) *)
  else
    modify (set_mmobjs (insert p (set_refcount 1 (mmobj_init shadow_mmobj_ops))));;
    mret p.

(** [s->mmo_shadowed = o; s->mmo_un.mmo_bottom_obj = mmobj_bottom_obj(o)] *)
Definition shadow_over (sh o : Z) : M mm unit :=
  upd_obj sh (set_shadowed o);;
  x ← obj o;
  upd_obj sh (set_bottom (mmobj_bottom o x)).

(** The list of areas of the bottom object. *)
Definition olink_insert (o i : Z) : M mm unit :=
  x ← obj o;
  let b := mmobj_bottom o x in
  upd_obj b (fun x => set_vmas (mmo_vmas x ++ [i]) x);;
  modify (set_olinks (insert i b)).
Definition olink_is_linked (i : Z) (s : mm) : bool := bool_decide (is_Some (olinks s !! i)).
Definition olink_remove (i : Z) : M mm unit :=
  s ← get;
  b ← deref (olinks s !! i);
  modify (set_olinks (delete i));;
  match mmobjs s !! b with
  | Some x => modify (set_mmobjs (insert b (set_vmas (unlink i (mmo_vmas x)) x)))
  | None => modify (add_stray b)
  end.

(** ** Finding and filling pages *)

Definition pframe_alloc (o pagenum : Z) : M mm Z :=
  s ← get;
  let (pf, lm) := slab_obj_alloc PframeSlab (lowmem s) in
  modify (set_lowmem (fun _ => lm));;
  if pf =? NULL then mret NULL
  else
    let (addr, lm) := page_alloc lm in
    modify (set_lowmem (fun _ => lm));;
    if addr =? NULL then modify (set_lowmem (slab_obj_free PframeSlab pf));; mret NULL
    else
      modify (fun s => set_lists (alloc_list s ++ [pf]) (nallocated s + 1) (pinned_list s) (npinned s) s);;
      modify (set_pframes (insert pf (Pframe addr o pagenum false false 0 [])));;
      modify (set_hash (fun h => <[hash_page o pagenum := pf :: default [] (h !! hash_page o pagenum)]> h));;
      ref o;;
      upd_obj o (fun x => set_nrespages (mmo_nrespages x + 1) x);;
      upd_obj o (fun x => set_respages (pf :: mmo_respages x) x);;
      mret pf.

(** [fillpage] is [pf->pf_obj->mmo_ops->fillpage]. *)
Definition pframe_fill (fillpage : Z -> Z -> M mm Z) (pf : Z) : M mm Z :=
  f ← frame pf;
  upd_frame pf (set_busy true);;
  r ← fillpage (pf_obj f) pf;
  upd_frame pf (set_busy false);;
  broadcast_on pf;;
  mret r.

Definition pframe_get (fillpage : Z -> Z -> M mm Z) (maps : vmmaps) (o pagenum : Z) : M mm (Z * Z) :=
  pf ← pframe_get_resident o pagenum;
  if c_true pf then
    f ← frame pf;
    if pf_busy f then sleep_on pf else mret (0, pf)
  else
    pf ← pframe_alloc o pagenum;
    (if pf =? NULL then stop NullDeref else mret tt);;
    retval ← pframe_fill fillpage pf;
    if c_true retval then
      pframe_free (put maps) maps pf;;
      mret (- EFAULT, NULL)
    else
      f ← frame pf;
      kassert (negb (pf_busy f));;
      mret (retval, pf).

Definition page_bytes (pf : Z) (s : mm) : list Z :=
  match pframes s !! pf with Some f => default [] (phys s !! pf_addr f) | None => [] end.
Definition set_page_bytes (pf : Z) (bytes : list Z) : M mm unit :=
  f ← frame pf; modify (set_phys (insert (pf_addr f) bytes)).

Definition anon_fillpage (o pf : Z) : M mm Z :=
  f ← frame pf;
  kassert (pf_busy f);;
  kassert (negb (pframe_is_pinned f));;
  set_page_bytes pf (replicate (Z.to_nat PAGE_SIZE) 0);;
  pframe_pin pf;;
  mret 0.

Definition anon_lookuppage (maps : vmmaps) (o pagenum : Z) (forwrite : bool) : M mm (Z * Z) :=
  pframe_get anon_fillpage maps o pagenum.

(** The loop of [shadow_fillpage]: the frame found and the object reached. *)
Fixpoint fill_loop (fuel : nat) (bottom pagenum curr_obj : Z) : M mm (Z * Z) :=
  if bottom =? curr_obj then mret (NULL, curr_obj)
  else match fuel with
  | O => stop OutOfFuel
  | S fuel =>
      curr_pf ← pframe_get_resident curr_obj pagenum;
      x ← obj curr_obj;
      if c_true curr_pf then mret (curr_pf, mmo_shadowed x)
      else fill_loop fuel bottom pagenum (mmo_shadowed x)
  end.

(** [lookup] is [pframe_lookup]. *)
Definition shadow_fillpage (lookup : Z -> Z -> bool -> M mm (Z * Z)) (o pf : Z) : M mm Z :=
  f ← frame pf;
  kassert (pf_busy f);;
  kassert (negb (pframe_is_pinned f));;
  x ← obj o;
  s ← get;
  r ← fill_loop (size (mmobjs s)) (mmo_bottom_obj x) (pf_pagenum f) (mmo_shadowed x);
  found ← (if r.1 =? NULL then
             q ← lookup r.2 (pf_pagenum f) true;
             mret (if q.1 <? 0 then inl 1 else inr q.2)
           else mret (inr r.1));
  match found : Z + Z with
  | inl retval => mret retval
  | inr curr_pf =>
      pframe_pin pf;;
      (if curr_pf =? NULL then stop NullDeref else mret tt);;
      bytes ← gets (page_bytes curr_pf);
      set_page_bytes pf bytes;;
      mret 0
  end.

(** The loop of [shadow_lookuppage]: the frame found and the object reached. *)
Fixpoint lookup_loop (fuel : nat) (pagenum curr_obj : Z) : M mm (Z * Z) :=
  x ← obj curr_obj;
  if mmo_shadowed x =? NULL then mret (NULL, curr_obj)
  else match fuel with
  | O => stop OutOfFuel
  | S fuel =>
      curr_pf ← pframe_get_resident curr_obj pagenum;
      if c_true curr_pf then mret (curr_pf, mmo_shadowed x)
      else lookup_loop fuel pagenum (mmo_shadowed x)
  end.

Definition shadow_lookuppage (lookup : Z -> Z -> bool -> M mm (Z * Z)) (maps : vmmaps)
    (o pagenum : Z) (forwrite : bool) : M mm (Z * Z) :=
  if forwrite then pframe_get (shadow_fillpage lookup) maps o pagenum
  else
    s ← get;
    r ← lookup_loop (size (mmobjs s)) pagenum o;
    if r.1 =? NULL then lookup r.2 pagenum forwrite
    else
      f ← frame r.1;
      kassert ((pagenum =? pf_pagenum f) && negb (pf_busy f));;
      mret (0, r.1).

(** [pframe_lookup]: a shadow object asks its bottom object, which asks nobody. *)
Fixpoint lookup_fuel (fuel : nat) (maps : vmmaps) (o pagenum : Z) (forwrite : bool) : M mm (Z * Z) :=
  kassert (c_true o);;
  match fuel with
  | O => stop OutOfFuel
  | S fuel =>
      x ← obj o;
      match mmo_ops x with
      | anon_mmobj_ops => anon_lookuppage maps o pagenum forwrite
      | shadow_mmobj_ops => shadow_lookuppage (lookup_fuel fuel maps) maps o pagenum forwrite
      | file_mmobj_ops => file_lookuppage maps o pagenum forwrite
      end
  end.
Definition pframe_lookup (maps : vmmaps) (o pagenum : Z) (forwrite : bool) : M mm (Z * Z) :=
  lookup_fuel 2 maps o pagenum forwrite.

(** ** Dirty pages *)

Definition anon_dirtypage (o pf : Z) : M mm Z := mret (-1).   (* NOT_YET_IMPLEMENTED *)
Definition anon_cleanpage (o pf : Z) : M mm Z := mret (-1).   (* NOT_YET_IMPLEMENTED *)
Definition shadow_dirtypage (o pf : Z) : M mm Z := upd_frame pf (set_dirty true);; mret 0.
Definition shadow_cleanpage (o pf : Z) : M mm Z := mret (-1). (* NOT_YET_IMPLEMENTED *)

Definition pframe_dirty (pf : Z) : M mm Z :=
  f ← frame pf;
  kassert (negb (pf_busy f));;
  upd_frame pf (set_busy true);;
  x ← obj (pf_obj f);
  r ← match mmo_ops x with
      | anon_mmobj_ops => anon_dirtypage (pf_obj f) pf
      | shadow_mmobj_ops => shadow_dirtypage (pf_obj f) pf
      | file_mmobj_ops => file_dirtypage (pf_obj f) pf
      end;
  when (r =? 0) (upd_frame pf (set_dirty true));;
  upd_frame pf (set_busy false);;
  broadcast_on pf;;
  mret r.

Definition pframe_clean (maps : vmmaps) (pf : Z) : M mm Z :=
  f ← frame pf;
  kassert (pf_dirty f);;
  kassert (pf_pincount f =? 0);;
  upd_frame pf (set_dirty false);;
  modify (set_lowmem (tlb_flush (pf_addr f)));;
  pframe_remove_from_pts maps pf;;
  upd_frame pf (set_busy true);;
  x ← obj (pf_obj f);
  r ← match mmo_ops x with
      | anon_mmobj_ops => anon_cleanpage (pf_obj f) pf
      | shadow_mmobj_ops => shadow_cleanpage (pf_obj f) pf
      | file_mmobj_ops => file_cleanpage (pf_obj f) pf
      end;
  when (r <? 0) (upd_frame pf (set_dirty true));;
  upd_frame pf (set_busy false);;
  broadcast_on pf;;
  mret r.

(** One walk over [alloc_list]: [true] when [goto list_start] starts it over. *)
Fixpoint clean_walk (maps : vmmaps) (l : list Z) : M mm bool :=
  match l with
  | [] => mret false
  | pf :: l =>
      f ← frame pf;
      kassert (negb (pframe_is_pinned f));;
      kassert (negb (pframe_is_free f));;
      if pf_busy f then sleep_on pf
      else if pf_dirty f then pframe_clean maps pf;; mret true
      else clean_walk maps l
  end.
Fixpoint pframe_clean_all (fuel : nat) (maps : vmmaps) : M mm unit :=
  match fuel with
  | O => stop OutOfFuel
  | S fuel =>
      l ← gets alloc_list;
      again ← clean_walk maps l;
      if (again : bool) then pframe_clean_all fuel maps else mret tt
  end.

Definition pframe_migrate (maps : vmmaps) (pf dest : Z) : M mm unit :=
  f ← frame pf;
  kassert (negb (pf_busy f));;
  r ← pframe_get_resident dest (pf_pagenum f);
  if c_true r then
    pframe_unpin pf;;
    pframe_clean maps pf;;
    pframe_free (put maps) maps pf
  else
    let src := pf_obj f in
    upd_frame pf (set_pf_obj dest);;
    modify (set_hash (fmap (unlink pf)));;
    upd_obj src (fun x => set_respages (unlink pf (mmo_respages x)) x);;
    upd_obj src (fun x => set_nrespages (mmo_nrespages x - 1) x);;
    put maps src;;
    modify (set_hash (fun h =>
      <[hash_page dest (pf_pagenum f) := pf :: default [] (h !! hash_page dest (pf_pagenum f))]> h));;
    upd_obj dest (fun x => set_respages (pf :: mmo_respages x) x);;
    upd_obj dest (fun x => set_nrespages (mmo_nrespages x + 1) x);;
    ref dest.

(** The inner loop of [pageoutd_run]: reclaim pages, least recently requested
    first, until enough are free. *)
Definition pageoutd_target_met (s : mm) : bool := nfreepages_target s <=? page_free_count (lowmem s).
Fixpoint pageoutd_loop (fuel : nat) (maps : vmmaps) : M mm unit :=
  met ← gets pageoutd_target_met;
  l ← gets alloc_list;
  if (met : bool) then mret tt else
  match l with
  | [] => mret tt
  | pf :: _ =>
      match fuel with
      | O => stop OutOfFuel
      | S fuel =>
          f ← frame pf;
          (if pf_busy f then sleep_on pf
           else if pf_dirty f then pframe_clean maps pf;; mret tt
           else pframe_free (put maps) maps pf);;
          pageoutd_loop fuel maps
      end
  end.

(** ** The operations address spaces use *)

Definition slab_alloc (k : slab) : M mm Z :=
  s ← get; let (p, lm) := slab_obj_alloc k (lowmem s) in modify (set_lowmem (fun _ => lm));; mret p.

#[export] Instance mm_ops : MmOps mm := {|
  vmarea_slab_alloc := slab_alloc VmareaSlab;
  vmarea_slab_free i := modify (set_lowmem (slab_obj_free VmareaSlab i));
  vmmap_slab_alloc := slab_alloc VmmapSlab;
  vmmap_slab_free m := modify (set_lowmem (slab_obj_free VmmapSlab m));
  mmobj_ref := ref;
  mmobj_put := put;
  MmIface.anon_create := anon_create;
  MmIface.shadow_create := shadow_create;
  MmIface.shadow_over := shadow_over;
  MmIface.olink_insert := olink_insert;
  MmIface.olink_is_linked := olink_is_linked;
  MmIface.olink_remove := olink_remove;
  pt_unmap_range p lo hi := modify (set_lowmem (pt_unmap_pages p lo hi));
  vnode_mmap := file_mmap;
  MmIface.pframe_lookup := pframe_lookup;
  pf_bytes := page_bytes;
  pf_write := set_page_bytes;
  MmIface.pframe_dirty := pframe_dirty
|}.

End Mm.
Arguments mm : clear implicits.
