(* ===== verification/MmInv.v ===== *)
(** The consistency of page frames and memory objects, and that releasing a
    reference keeps it: a memory object lives exactly as long as somebody refers
    to it, and its pages go with it. *)
From S2P Require Import Prelude.
From S2P Require Import Platform.
From S2P Require Import MmIface.
From S2P Require Import Mm.
Open Scope Z_scope.

Section Inv.
Context {LM : Type} `{P : Platform} `{!PlatformOk P} `{!LowMem LM} {HHdr0 : MmobjHeader}.
Implicit Types (s : mm LM) (x y : mmobj) (f : pframe) (R : gmultiset Z) (L I : list Z) (maps : vmmaps).

(** What the allocators promise: they hand out what is not in use.  [slabs] are the
    addresses in use, of structs and of pages. *)
Class LowMemOk := {
  slabs : LM -> gset Z;
  slab_alloc_spec k lm p lm' : slab_obj_alloc k lm = (p, lm') ->
    p = NULL /\ slabs lm' = slabs lm \/
    p <> NULL /\ p ∉ slabs lm /\ slabs lm' = {[p]} ∪ slabs lm;
  slab_free_spec k p lm : slabs (slab_obj_free k p lm) = slabs lm ∖ {[p]};
  page_alloc_spec lm p lm' : page_alloc lm = (p, lm') ->
    p = NULL /\ slabs lm' = slabs lm \/
    p <> NULL /\ p ∉ slabs lm /\ slabs lm' = {[p]} ∪ slabs lm;
  page_free_spec p lm : slabs (page_free p lm) = slabs lm ∖ {[p]};
  pt_unmap_slabs d v lm : slabs (pt_unmap d v lm) = slabs lm;
  pt_unmap_pages_slabs d lo hi lm : slabs (pt_unmap_pages d lo hi lm) = slabs lm;
  tlb_flush_slabs v lm : slabs (tlb_flush v lm) = slabs lm
}.

(** What the header promises: a new object has no pages, no users and shadows
    nothing; the bottom of an object that shadows nothing is the object. *)
Class MmobjHeaderOk := {
  mmobj_init_spec k :
    mmo_ops (mmobj_init k) = k /\ mmo_respages (mmobj_init k) = [] /\
    mmo_nrespages (mmobj_init k) = 0 /\ mmo_shadowed (mmobj_init k) = NULL /\
    mmo_vmas (mmobj_init k) = [];
  mmobj_bottom_spec o x :
    mmobj_bottom o x = if mmo_shadowed x =? NULL then o else mmo_bottom_obj x
}.

Context {HLow : LowMemOk} {HHdr : MmobjHeaderOk}.

(** ** Page frames *)

(** Every frame is on the hash chain of its identity, on the list its pin count
    asks for and on the list of its object, and these lists hold nothing else. *)
Record page_inv (s : mm LM) : Prop := {
  pg_frames pf f : pframes s !! pf = Some f ->
    pf_obj f <> NULL /\ 0 <= pf_pincount f /\
    pf ∈ chain (hash_page (pf_obj f) (pf_pagenum f)) s /\
    (pf_pincount f = 0 -> pf ∈ alloc_list s) /\ (0 < pf_pincount f -> pf ∈ pinned_list s) /\
    exists x, mmobjs s !! pf_obj f = Some x /\ pf ∈ mmo_respages x;
  pg_respages o x : mmobjs s !! o = Some x ->
    mmo_nrespages x = Z.of_nat (length (mmo_respages x)) /\ NoDup (mmo_respages x) /\
    forall pf, pf ∈ mmo_respages x -> exists f, pframes s !! pf = Some f /\ pf_obj f = o;
  pg_chain h : NoDup (chain h s) /\
    forall pf, pf ∈ chain h s -> exists f, pframes s !! pf = Some f /\ hash_page (pf_obj f) (pf_pagenum f) = h;
  pg_alloc : NoDup (alloc_list s) /\ nallocated s = Z.of_nat (length (alloc_list s)) /\
    forall pf, pf ∈ alloc_list s -> exists f, pframes s !! pf = Some f /\ pf_pincount f = 0;
  pg_pinned : NoDup (pinned_list s) /\ npinned s = Z.of_nat (length (pinned_list s)) /\
    forall pf, pf ∈ pinned_list s -> exists f, pframes s !! pf = Some f /\ 0 < pf_pincount f;
  pg_ident pf pf' f f' : pframes s !! pf = Some f -> pframes s !! pf' = Some f' ->
    pf_obj f = pf_obj f' -> pf_pagenum f = pf_pagenum f' -> pf = pf'
}.

(** A page that cannot be paged out is pinned once. *)
Definition pins_inv (U : gset Z) (s : mm LM) : Prop := forall pf f x,
  pframes s !! pf = Some f -> mmobjs s !! pf_obj f = Some x -> mmo_ops x <> file_mmobj_ops ->
  pf ∉ U -> pf_pincount f = 1.

(** Only the pages [B] are busy. *)
Definition busy_inv (B : gset Z) (s : mm LM) : Prop := forall pf f,
  pframes s !! pf = Some f -> pf_busy f = true -> pf ∈ B.

(** ** References *)

(** The reference object [o] holds to the object it shadows, unless it has given
    it up because it is about to be freed ([Zs]). *)
Definition sref (Zs : gset Z) (o : Z) (x : mmobj) : gmultiset Z :=
  if decide (mmo_ops x = shadow_mmobj_ops /\ o ∉ Zs) then {[+ mmo_shadowed x +]} else ∅.
Definition srefs (Zs : gset Z) (objs : gmap Z mmobj) : gmultiset Z :=
  foldr (fun ox acc => sref Zs ox.1 ox.2 ⊎ acc) ∅ (map_to_list objs).

(** The reference count of an object counts its pages and the references [R] from
    outside and from the objects that shadow it; nobody refers to what is gone, and
    an object nobody refers to is gone, or about to be. *)
Record ref_inv (Zs : gset Z) (R : gmultiset Z) (objs : gmap Z mmobj) : Prop := {
  rf_count o x : objs !! o = Some x -> mmo_ops x <> file_mmobj_ops ->
    mmo_refcount x = mmo_nrespages x + Z.of_nat (multiplicity o (R ⊎ srefs Zs objs));
  rf_held o : o ∈ R ⊎ srefs Zs objs -> is_Some (objs !! o);
  rf_used o x : objs !! o = Some x -> mmo_ops x <> file_mmobj_ops -> o ∉ Zs -> o ∈ R ⊎ srefs Zs objs
}.

(** Shadow objects form chains that end in an object that shadows nothing. *)
Record shadow_inv (Zs : gset Z) (objs : gmap Z mmobj) : Prop := {
  sh_none o x : objs !! o = Some x -> mmo_ops x <> shadow_mmobj_ops -> mmo_shadowed x = NULL;
  sh_bottom o x : objs !! o = Some x -> mmo_ops x = shadow_mmobj_ops -> o ∉ Zs ->
    mmo_shadowed x ∉ Zs /\ mmo_shadowed x <> NULL /\
    exists y, objs !! mmo_shadowed x = Some y /\ mmo_bottom_obj x = mmobj_bottom (mmo_shadowed x) y;
  sh_rank : exists rank : Z -> nat, forall o x, objs !! o = Some x -> mmo_ops x = shadow_mmobj_ops ->
    (rank (mmo_shadowed x) < rank o)%nat
}.

(** Areas on the list of an object are linked, and linked areas are areas of [I]. *)
Record link_inv (I : list Z) (s : mm LM) : Prop := {
  lk_vmas o x i : mmobjs s !! o = Some x -> i ∈ mmo_vmas x -> olinks s !! i = Some o;
  lk_areas i o : olinks s !! i = Some o -> i ∈ I
}.

(** The memory of page frames: the structs and the pages. *)
Definition frame_mem (fs : gmap Z pframe) : list Z := map_to_list fs ≫= fun e => [e.1; pf_addr e.2].

(** All structs and pages are allocated, and no two share an address. *)
Record mem_inv (L : list Z) (s : mm LM) : Prop := {
  me_nodup : NoDup (L ++ (map_to_list (mmobjs s)).*1 ++ frame_mem (pframes s));
  me_alloc i : i ∈ L ++ (map_to_list (mmobjs s)).*1 ++ frame_mem (pframes s) ->
    i ∈ slabs (lowmem s);
  me_null : NULL ∉ L ++ (map_to_list (mmobjs s)).*1 ++ frame_mem (pframes s)
}.

Record mm_inv (Zs U B : gset Z) (L I : list Z) (R : gmultiset Z) (s : mm LM) : Prop := {
  mi_page : page_inv s; mi_pins : pins_inv U s; mi_busy : busy_inv B s;
  mi_ref : ref_inv Zs R (mmobjs s); mi_shadow : shadow_inv Zs (mmobjs s);
  mi_link : link_inv I s; mi_mem : mem_inv L s
}.

(** ** Reading and writing structs *)

Lemma mm_ext s s' :
  lowmem s = lowmem s' -> mmobjs s = mmobjs s' -> pframes s = pframes s' ->
  alloc_list s = alloc_list s' -> nallocated s = nallocated s' ->
  pinned_list s = pinned_list s' -> npinned s = npinned s' ->
  pframe_hash s = pframe_hash s' -> olinks s = olinks s' -> phys s = phys s' ->
  nfreepages_min s = nfreepages_min s' -> nfreepages_target s = nfreepages_target s' ->
  mm_curthr s = mm_curthr s' -> woken s = woken s' -> stray s = stray s' -> s = s'.
Proof. destruct s, s'. cbn. intros. by subst. Qed.

Lemma frame_bind {B} pf f s (k : pframe -> M (mm LM) B) :
  pframes s !! pf = Some f -> (frame pf ≫= k) s = k f s.
Proof. intros Hf. unfold frame. by rewrite bind_assoc, get_bind, (deref_bind _ f). Qed.
Lemma obj_bind {B} o x s (k : mmobj -> M (mm LM) B) :
  mmobjs s !! o = Some x -> (obj o ≫= k) s = k x s.
Proof. intros Hf. unfold obj. by rewrite bind_assoc, get_bind, (deref_bind _ x). Qed.
Lemma upd_frame_eq pf f g s :
  pframes s !! pf = Some f -> upd_frame pf g s = Ok tt (set_pframes (insert pf (g f)) s).
Proof. intros Hf. unfold upd_frame. by rewrite (frame_bind _ f). Qed.
Lemma upd_obj_eq o x g s :
  mmobjs s !! o = Some x -> upd_obj o g s = Ok tt (set_mmobjs (insert o (g x)) s).
Proof. intros Hf. unfold upd_obj. by rewrite (obj_bind _ x). Qed.
Lemma upd_frame_bind {B} pf f g s (k : unit -> M (mm LM) B) :
  pframes s !! pf = Some f -> (upd_frame pf g ≫= k) s = k tt (set_pframes (insert pf (g f)) s).
Proof. intros Hf. by rewrite (bind_ok _ _ _ _ _ (upd_frame_eq pf f g s Hf)). Qed.
Lemma upd_obj_bind {B} o x g s (k : unit -> M (mm LM) B) :
  mmobjs s !! o = Some x -> (upd_obj o g ≫= k) s = k tt (set_mmobjs (insert o (g x)) s).
Proof. intros Hf. by rewrite (bind_ok _ _ _ _ _ (upd_obj_eq o x g s Hf)). Qed.

(** ** Lemmas on references *)

Lemma mult_add_eq (o : Z) R (T : gmultiset Z) : multiplicity o (R ⊎ {[+ o +]} ⊎ T) = S (multiplicity o (R ⊎ T)).
Proof. rewrite !multiplicity_disj_union, multiplicity_singleton. case_decide; [lia|done]. Qed.
Lemma mult_add_ne (o k : Z) R (T : gmultiset Z) :
  k <> o -> multiplicity k (R ⊎ {[+ o +]} ⊎ T) = multiplicity k (R ⊎ T).
Proof. intros. rewrite !multiplicity_disj_union, multiplicity_singleton. case_decide; [done|lia]. Qed.

Lemma srefs_insert Zs objs o x :
  objs !! o = None -> srefs Zs (<[o := x]> objs) = sref Zs o x ⊎ srefs Zs objs.
Proof.
  intros Ho. unfold srefs.
  rewrite (foldr_permutation eq (fun ox acc => sref Zs ox.1 ox.2 ⊎ acc) ∅ _ ((o, x) :: map_to_list objs)).
  - done.
  - intros. multiset_solver.
  - by rewrite map_to_list_insert.
Qed.

Lemma srefs_lookup Zs objs o x :
  objs !! o = Some x -> srefs Zs objs = sref Zs o x ⊎ srefs Zs (delete o objs).
Proof.
  intros Ho. rewrite <- srefs_insert by apply lookup_delete_eq.
  by rewrite insert_delete_eq, insert_id.
Qed.

(** Changing an object without changing what it refers to. *)
Lemma srefs_update Zs objs o x x' :
  objs !! o = Some x -> sref Zs o x' = sref Zs o x -> srefs Zs (<[o := x']> objs) = srefs Zs objs.
Proof.
  intros Ho Hs. rewrite (srefs_lookup Zs (<[o := x']> objs) o x') by apply lookup_insert_eq.
  by rewrite delete_insert_eq, Hs, <- srefs_lookup.
Qed.

Lemma srefs_zombie Zs objs o : objs !! o = None -> srefs ({[o]} ∪ Zs) objs = srefs Zs objs.
Proof.
  intros Ho. unfold srefs. assert (forall k y, (k, y) ∈ map_to_list objs -> k <> o) as Hk.
  { intros k y Hin%elem_of_map_to_list ->. congruence. }
  induction (map_to_list objs) as [|[k y] l IH]; [done|]. cbn. rewrite IH by set_solver.
  f_equal. unfold sref. specialize (Hk k y ltac:(by left)).
  destruct (decide _) as [Hd|Hd], (decide _) as [Hd'|Hd']; try done; set_solver.
Qed.


(** The bottom object of a chain exists. *)
Lemma bottom_exists Zs objs o x :
  shadow_inv Zs objs -> objs !! o = Some x -> o ∉ Zs -> is_Some (objs !! mmobj_bottom o x).
Proof.
  intros [Hn Hb [rank Hr]]. remember (rank o) as n eqn:En. revert o x En.
  induction (lt_wf n) as [n _ IH]. intros o x -> Ho Hz. rewrite mmobj_bottom_spec.
  destruct (Z.eqb_spec (mmo_shadowed x) NULL) as [?|Hs]; [by exists x|].
  destruct (decide (mmo_ops x = shadow_mmobj_ops)) as [Hk|Hk]; [|by specialize (Hn o x Ho Hk)].
  destruct (Hb o x Ho Hk Hz) as (Hz' & _ & y & Hy & ->).
  eapply IH; [|reflexivity|done|done]. by apply Hr.
Qed.

(** ** Taking a page out of every page table *)

Lemma area_at_in maps i : i ∈ area_ids maps -> exists a m v,
  area_at maps i = Some a /\ vma_id a = i /\ maps !! m = Some v /\ a ∈ vmm_list v.
Proof.
  unfold area_ids, area_at. intros (a & -> & Ha)%list_elem_of_fmap.
  destruct (list_find_elem_of (fun b => vma_id b = vma_id a) _ a Ha eq_refl) as [[j b] E].
  pose proof E as (Hb & Hid & _)%list_find_Some. apply list_elem_of_lookup_2 in Hb.
  apply list_elem_of_bind in Hb as ([m v] & Hb & Hm%elem_of_map_to_list).
  exists b, m, v. rewrite E. done.
Qed.

Lemma remove_from_pts_loop maps l n s :
  maps_ok maps -> (forall i, i ∈ l -> i ∈ area_ids maps) ->
  exists lm, mfor l (unmap_from_area maps n) s = Ok tt (set_lowmem (fun _ => lm) s) /\
    slabs lm = slabs (lowmem s).
Proof.
  intros (_ & _ & Hm). revert s. induction l as [|i l IH]; intros s Hl.
  { exists (lowmem s). by destruct s. }
  destruct (area_at_in maps i (Hl i ltac:(by left))) as (a & m & v & E & _ & Hv & Ha).
  assert (vma_vmmap a = m) as Hvm.
  { specialize (Hm m v Hv). rewrite Forall_forall in Hm. by apply Hm. }
  assert (exists lm, unmap_from_area maps n i s = Ok tt (set_lowmem (fun _ => lm) s) /\
    slabs lm = slabs (lowmem s)) as (lm & E1 & Hlm).
  { unfold unmap_from_area. rewrite (deref_bind _ a) by done.
    destruct (_ && _); cbn [when]; [|exists (lowmem s); by destruct s].
    rewrite (deref_bind _ v) by (by rewrite Hvm).
    destruct (c_true _); cbn [when]; [|exists (lowmem s); by destruct s].
    eexists. split; [reflexivity|]. apply pt_unmap_slabs. }
  cbn [mfor]. rewrite (bind_ok _ _ _ _ _ E1).
  destruct (IH (set_lowmem (fun _ => lm) s) ltac:(set_solver)) as (lm' & E2 & Hlm').
  exists lm'. rewrite E2. split; [done|]. by rewrite Hlm'.
Qed.

Lemma remove_from_pts_ok Zs maps pf f x s :
  maps_ok maps -> pframes s !! pf = Some f -> mmobjs s !! pf_obj f = Some x -> pf_obj f ∉ Zs ->
  shadow_inv Zs (mmobjs s) -> link_inv (area_ids maps) s ->
  exists lm, pframe_remove_from_pts maps pf s = Ok tt (set_lowmem (fun _ => lm) s) /\
    slabs lm = slabs (lowmem s).
Proof.
  intros Hm Hf Hx Hz Hsh [Hl1 Hl2]. unfold pframe_remove_from_pts, frame, obj.
  rewrite bind_assoc, get_bind, (deref_bind _ f) by done.
  rewrite bind_assoc, get_bind, (deref_bind _ x) by done.
  destruct (bottom_exists _ _ _ _ Hsh Hx Hz) as [b Hb].
  rewrite bind_assoc, get_bind, (deref_bind _ b) by done.
  apply remove_from_pts_loop; [done|]. intros i Hi. by eapply Hl2, Hl1.
Qed.

(** ** Lists of frames *)

Lemma unlink_notin pf l : pf ∉ l -> unlink pf l = l.
Proof. apply filter_ne_id. Qed.
Lemma elem_of_unlink pf pf' l : pf' ∈ unlink pf l <-> pf' ∈ l /\ pf' <> pf.
Proof. unfold unlink. rewrite list_elem_of_filter. tauto. Qed.
Lemma unlink_length pf l : NoDup l -> pf ∈ l -> Z.of_nat (length (unlink pf l)) = Z.of_nat (length l) - 1.
Proof. intros Hl Hp. pose proof (length_filter_ne pf l Hl Hp). unfold unlink. lia. Qed.
Lemma unlink_nodup pf l : NoDup l -> NoDup (unlink pf l).
Proof. apply NoDup_filter. Qed.
Lemma unlink_snoc pf l : unlink pf (l ++ [pf]) = unlink pf l.
Proof.
  unfold unlink. rewrite filter_app, filter_cons_False by naive_solver. by rewrite filter_nil, app_nil_r.
Qed.
Lemma chain_unlink pf h s : chain h (set_hash (fmap (unlink pf)) s) = unlink pf (chain h s).
Proof. unfold chain. cbn. rewrite lookup_fmap. by destruct (_ !! h). Qed.

(** ** Unpinning *)

Definition unpinned (pf : Z) (f : pframe) s : mm LM :=
  set_lists (unlink pf (alloc_list s) ++ [pf]) (nallocated s + 1) (unlink pf (pinned_list s)) (npinned s - 1)
    (set_pframes (insert pf (set_pincount 0 f)) s).

Lemma unpin_eq pf f s :
  pframes s !! pf = Some f -> pf_obj f <> NULL -> pf_pincount f = 1 ->
  pframe_unpin pf s = Ok tt (unpinned pf f s).
Proof.
  intros Hf Ho Hp. unfold pframe_unpin. rewrite (frame_bind _ f) by done.
  rewrite !kassert_bind; [|by rewrite Hp|unfold pframe_is_free; by apply negb_true_iff, Z.eqb_neq].
  rewrite (upd_frame_bind _ f) by done. by rewrite Hp.
Qed.

Lemma page_inv_unpinned pf f s :
  page_inv s -> pframes s !! pf = Some f -> pf_pincount f = 1 -> page_inv (unpinned pf f s).
Proof.
  intros [H1 H2 H3 H4 H5 H6] Hf Hp. destruct H4 as (A1 & A2 & A3), H5 as (P1 & P2 & P3).
  destruct (H1 pf f Hf) as (F1 & F2 & F3 & F4 & F5 & F6).
  assert (pf ∉ alloc_list s) as Hna. { intros (g & Hg & ?)%A3. rewrite Hg in Hf. simplify_eq. lia. }
  assert (forall k g, pframes (unpinned pf f s) !! k = Some g -> exists g0, pframes s !! k = Some g0 /\
    pf_obj g = pf_obj g0 /\ pf_pagenum g = pf_pagenum g0 /\ (k <> pf /\ g = g0 \/ k = pf /\ g = set_pincount 0 f)) as Hback.
  { intros k g. cbn. intros [[<- <-]|[? ?]]%lookup_insert_Some; eauto 10. }
  assert (forall k g0, pframes s !! k = Some g0 -> exists g, pframes (unpinned pf f s) !! k = Some g /\
    pf_obj g = pf_obj g0 /\ pf_pagenum g = pf_pagenum g0 /\ (k <> pf -> g = g0)) as Hforth.
  { intros k g0 Hg. cbn. destruct (decide (k = pf)) as [->|]; [|by exists g0; rewrite lookup_insert_ne].
    exists (set_pincount 0 f). rewrite lookup_insert_eq. simplify_eq. done. }
  split.
  - intros k g Hg. destruct (Hback k g Hg) as (g0 & Hg0 & Eo & En & Hc). rewrite Eo, En.
    destruct (H1 k g0 Hg0) as (? & ? & ? & G4 & G5 & ?). split_and!; [done| |done| | |done].
    + destruct Hc as [[_ ->]|[_ ->]]; cbn; lia.
    + cbn. destruct Hc as [[Hk ->]|[-> ->]]; intros ?; apply elem_of_app; [left; rewrite elem_of_unlink; auto|right; by left].
    + cbn. destruct Hc as [[Hk ->]|[-> ->]]; cbn; [|lia]. intros ?. rewrite elem_of_unlink. auto.
  - intros o x Ho. destruct (H2 o x Ho) as (? & ? & G). split_and!; [done..|]. intros k Hk.
    destruct (G k Hk) as (g0 & Hg0 & <-). destruct (Hforth _ _ Hg0) as (g & ? & ? & _). eauto.
  - intros h. destruct (H3 h) as [? G]. split; [done|]. intros k Hk. destruct (G k Hk) as (g0 & Hg0 & <-).
    destruct (Hforth _ _ Hg0) as (g & ? & Eo & En & _). exists g. by rewrite Eo, En.
  - cbn. rewrite unlink_notin by done. split_and!.
    + apply NoDup_app. split_and!; [done| |apply NoDup_singleton]. intros k Hk ->%list_elem_of_singleton. done.
    + rewrite length_app. cbn. lia.
    + intros k [Hk| ->%list_elem_of_singleton]%elem_of_app.
      * destruct (A3 k Hk) as (g & ? & ?). exists g. rewrite lookup_insert_ne by congruence. done.
      * exists (set_pincount 0 f). by rewrite lookup_insert_eq.
  - cbn. split_and!; [by apply unlink_nodup| |].
    + rewrite unlink_length; [lia|done|]. apply F5. lia.
    + intros k [Hk Hne]%elem_of_unlink. rewrite lookup_insert_ne by done. by apply P3.
  - intros k k' g g' Hg Hg' Eo En. destruct (Hback _ _ Hg) as (g0 & ? & E1 & E2 & _), (Hback _ _ Hg') as (g0' & ? & E3 & E4 & _).
    apply (H6 k k' g0 g0'); congruence.
Qed.

(** ** Freeing a page *)

Definition without_page (pf : Z) (x : mmobj) : mmobj :=
  set_respages (unlink pf (mmo_respages x)) (set_nrespages (mmo_nrespages x - 1) x).

(** The state before [pframe_free] drops the page's reference to its object. *)
Definition page_out (pf o : Z) (x : mmobj) (lm : LM) s : mm LM :=
  Mm lm (<[o := without_page pf x]> (mmobjs s)) (delete pf (pframes s))
    (unlink pf (alloc_list s)) (nallocated s - 1) (unlink pf (pinned_list s)) (npinned s)
    (unlink pf <$> pframe_hash s) (olinks s) (phys s) (nfreepages_min s) (nfreepages_target s)
    (mm_curthr s) (woken s) (pf :: stray s).

Lemma pframe_free_eq Zs pt maps pf f x s :
  maps_ok maps -> pframes s !! pf = Some f -> mmobjs s !! pf_obj f = Some x -> pf_obj f ∉ Zs ->
  pf_obj f <> NULL -> pf_pincount f = 0 -> pf_busy f = false ->
  shadow_inv Zs (mmobjs s) -> link_inv (area_ids maps) s ->
  exists lm, pframe_free pt maps pf s = pt (pf_obj f) (page_out pf (pf_obj f) x lm s) /\
    slabs lm = slabs (lowmem s) ∖ {[pf_addr f]} ∖ {[pf]}.
Proof.
  intros Hm Hf Hx Hz Hn Hp Hb Hsh Hl. unfold pframe_free. rewrite (frame_bind _ f) by done.
  rewrite !kassert_bind; [|by rewrite Hb|unfold pframe_is_free; by apply negb_true_iff, Z.eqb_neq|
    unfold pframe_is_pinned; by rewrite Hp].
  cbn zeta. rewrite modify_bind. set (s1 := set_lowmem _ s).
  destruct (remove_from_pts_ok Zs maps pf f x s1 Hm Hf Hx Hz Hsh) as (lm & E & Hlm).
  { destruct Hl. by split. }
  rewrite (bind_ok _ _ _ _ _ E), modify_bind, (upd_frame_bind _ f) by done.
  do 4 rewrite modify_bind. rewrite (upd_obj_bind _ x) by done. rewrite modify_bind.
  rewrite (upd_obj_bind _ (set_nrespages (mmo_nrespages x - 1) x)) by (cbn; apply lookup_insert_eq).
  eexists (slab_obj_free PframeSlab pf (page_free (pf_addr f) lm)). split.
  - f_equal. apply mm_ext; try reflexivity; cbn [mmobjs pframes page_out].
    + apply (insert_insert_eq (mmobjs s)).
    + apply (delete_insert_eq (pframes s)).
  - rewrite slab_free_spec, page_free_spec, Hlm. cbn. by rewrite tlb_flush_slabs.
Qed.

Lemma page_inv_out pf f x lm s :
  page_inv s -> pframes s !! pf = Some f -> mmobjs s !! pf_obj f = Some x -> pf_pincount f = 0 ->
  page_inv (page_out pf (pf_obj f) x lm s).
Proof.
  intros [H1 H2 H3 H4 H5 H6] Hf Hx Hp. destruct H4 as (A1 & A2 & A3), H5 as (P1 & P2 & P3).
  destruct (H1 pf f Hf) as (F1 & F2 & F3 & F4 & F5 & F6).
  assert (pf ∉ pinned_list s) as Hnp. { intros (g & Hg & ?)%P3. rewrite Hg in Hf. simplify_eq. lia. }
  destruct F6 as (x' & Hx' & Hpx). rewrite Hx in Hx'. simplify_eq.
  assert (forall h, chain h (page_out pf (pf_obj f) x' lm s) = unlink pf (chain h s)) as Hch.
  { intros h. apply (chain_unlink pf h s). }
  split; cbn [pframes alloc_list pinned_list mmobjs nallocated npinned page_out].
  - intros k g [Hne Hg]%lookup_delete_Some. destruct (H1 k g Hg) as (G1 & G2 & G3 & G4 & G5 & G6).
    rewrite Hch. split_and!; [done|done| | | |].
    + rewrite elem_of_unlink. auto.
    + intros ?. rewrite elem_of_unlink. auto.
    + intros ?. rewrite elem_of_unlink. auto.
    + destruct G6 as (y & Hy & Hk). destruct (decide (pf_obj g = pf_obj f)) as [Heq|].
      * exists (without_page pf y). rewrite Heq in *. simplify_eq. rewrite lookup_insert_eq. split; [done|].
        cbn. rewrite elem_of_unlink. auto.
      * exists y. by rewrite lookup_insert_ne.
  - intros o y [[<- <-]|[Hne Hy]]%lookup_insert_Some.
    + destruct (H2 _ _ Hx) as (G1 & G2 & G3). cbn. split_and!; [rewrite unlink_length by done; lia|by apply unlink_nodup|].
      intros k [Hk Hne]%elem_of_unlink. destruct (G3 k Hk) as (g & Hg & Eo). exists g.
      by rewrite lookup_delete_ne.
    + destruct (H2 _ _ Hy) as (G1 & G2 & G3). split_and!; [done..|]. intros k Hk.
      destruct (G3 k Hk) as (g & Hg & Eo). exists g. rewrite lookup_delete_ne; [done|]. intros ->. simplify_eq.
  - intros h. rewrite Hch. destruct (H3 h) as [G1 G2]. split; [by apply unlink_nodup|].
    intros k [Hk Hne]%elem_of_unlink. rewrite lookup_delete_ne by done. by apply G2.
  - split_and!; [by apply unlink_nodup| |].
    + rewrite unlink_length; [lia|done|]. by apply F4.
    + intros k [Hk Hne]%elem_of_unlink. rewrite lookup_delete_ne by done. by apply A3.
  - rewrite unlink_notin by done. split_and!; [done..|]. intros k Hk.
    rewrite lookup_delete_ne by (intros ->; done). by apply P3.
  - intros k k' g g' [? ?]%lookup_delete_Some [? ?]%lookup_delete_Some. by apply H6.
Qed.

(** An object that changes only in its counts and pages. *)
Definition same_shape (x x' : mmobj) : Prop :=
  mmo_ops x' = mmo_ops x /\ mmo_shadowed x' = mmo_shadowed x /\
  mmo_bottom_obj x' = mmo_bottom_obj x /\ mmo_vmas x' = mmo_vmas x.

Lemma sref_same Zs o x x' : same_shape x x' -> sref Zs o x' = sref Zs o x.
Proof. intros (E1 & E2 & _). unfold sref. by rewrite E1, E2. Qed.

Lemma shadow_inv_upd Zs objs o x x' :
  objs !! o = Some x -> mmo_ops x' = mmo_ops x -> mmo_shadowed x' = mmo_shadowed x ->
  mmo_bottom_obj x' = mmo_bottom_obj x -> shadow_inv Zs objs -> shadow_inv Zs (<[o := x']> objs).
Proof.
  intros Ho E1 E2 E3 [H1 H2 [rank H3]]. split.
  - intros k y [[<- <-]|[? Hy]]%lookup_insert_Some; [|by apply (H1 k)]. rewrite E1, E2. by apply (H1 o).
  - intros k y Hy Hk Hz.
    assert (exists y0, objs !! k = Some y0 /\ mmo_ops y0 = shadow_mmobj_ops /\
      mmo_shadowed y = mmo_shadowed y0 /\ mmo_bottom_obj y = mmo_bottom_obj y0) as (y0 & Hy0 & K1 & K2 & K3).
    { apply lookup_insert_Some in Hy as [[<- <-]|[? Hy]]; [exists x|exists y]; by rewrite <- ?E1. }
    rewrite K2, K3. destruct (H2 k y0 Hy0 K1 Hz) as (G1 & G2 & z & Hz1 & Hz2). split_and!; [done..|].
    destruct (decide (mmo_shadowed y0 = o)) as [Heq|].
    + exists x'. rewrite Heq in *. rewrite lookup_insert_eq. split; [done|]. simplify_eq.
      rewrite Hz2, !mmobj_bottom_spec. by rewrite E2, E3.
    + exists z. by rewrite lookup_insert_ne.
  - exists rank. intros k y [[<- <-]|[? Hy]]%lookup_insert_Some; [|by apply H3]. rewrite E1, E2. by apply H3.
Qed.

Lemma shadow_inv_same Zs objs o x x' :
  objs !! o = Some x -> same_shape x x' -> shadow_inv Zs objs -> shadow_inv Zs (<[o := x']> objs).
Proof. intros Ho (? & ? & ? & ?). by apply (shadow_inv_upd _ _ _ x). Qed.

Lemma link_inv_same I s s' o x x' :
  mmobjs s !! o = Some x -> same_shape x x' -> mmobjs s' = <[o := x']> (mmobjs s) ->
  olinks s' = olinks s -> link_inv I s -> link_inv I s'.
Proof.
  intros Ho (_ & _ & _ & E4) Eo El [H1 H2]. split; rewrite El; [|done]. rewrite Eo.
  intros k y i [[<- <-]|[? Hy]]%lookup_insert_Some; [rewrite E4|]; by apply H1.
Qed.

(** The reference a page held is handed over when the page goes. *)
Lemma ref_inv_page Zs R objs o x x' :
  objs !! o = Some x -> same_shape x x' -> mmo_refcount x' = mmo_refcount x ->
  mmo_nrespages x' = mmo_nrespages x - 1 -> ref_inv Zs R objs ->
  ref_inv Zs (R ⊎ {[+ o +]}) (<[o := x']> objs).
Proof.
  intros Ho Hs Hr Hn [H1 H2 H3]. pose proof Hs as (E1 & _).
  pose proof (srefs_update Zs objs o x x' Ho (sref_same _ _ _ _ Hs)) as Es. split; rewrite Es.
  - intros k y [[<- <-]|[Hne Hy]]%lookup_insert_Some Hk.
    + rewrite Hr, Hn, (H1 o x Ho) by congruence.
      rewrite mult_add_eq. lia.
    + rewrite (H1 k y Hy Hk). rewrite mult_add_ne by done. lia.
  - intros k Hk. destruct (decide (k = o)) as [->|]; [by rewrite lookup_insert_eq|].
    rewrite lookup_insert_ne by done. apply H2. multiset_solver.
  - intros k y [[<- <-]|[Hne Hy]]%lookup_insert_Some Hk Hz; [multiset_solver|].
    specialize (H3 k y Hy Hk Hz). multiset_solver.
Qed.

(** ** One reference less *)

Lemma ref_inv_dec Zs R objs o x x' :
  objs !! o = Some x -> same_shape x x' -> mmo_refcount x' = mmo_refcount x - 1 ->
  mmo_nrespages x' = mmo_nrespages x -> ref_inv Zs (R ⊎ {[+ o +]}) objs ->
  o ∈ R ⊎ srefs Zs objs \/ mmo_ops x = file_mmobj_ops -> ref_inv Zs R (<[o := x']> objs).
Proof.
  intros Ho Hs Hr Hn [H1 H2 H3] Hu. pose proof Hs as (E1 & _).
  pose proof (srefs_update Zs objs o x x' Ho (sref_same _ _ _ _ Hs)) as Es. split; rewrite Es.
  - intros k y [[<- <-]|[Hne Hy]]%lookup_insert_Some Hk.
    + rewrite Hr, Hn, (H1 o x Ho) by congruence.
      rewrite mult_add_eq. lia.
    + rewrite (H1 k y Hy Hk). rewrite mult_add_ne by done. lia.
  - intros k Hk. destruct (decide (k = o)) as [->|]; [by rewrite lookup_insert_eq|].
    rewrite lookup_insert_ne by done. apply H2. multiset_solver.
  - intros k y [[<- <-]|[Hne Hy]]%lookup_insert_Some Hk Hz; [destruct Hu; [done|congruence]|].
    specialize (H3 k y Hy Hk Hz). multiset_solver.
Qed.
End Inv.
