(* ===== verification/MmPut.v ===== *)
(** Releasing a reference to a memory object: [anon_put], [shadow_put] and
    [pframe_free] keep the page frames and memory objects consistent. *)
From S2P Require Import Prelude.
From S2P Require Import Platform.
From S2P Require Import MmIface.
From S2P Require Import Mm.
From S2P Require Import MmInv.
Open Scope Z_scope.

Section Put.
Context {LM : Type} `{P : Platform} `{!PlatformOk P} `{!LowMem LM} {HHdr0 : MmobjHeader}.
Context {HLow : LowMemOk (LM:=LM)} {HHdr : MmobjHeaderOk} {HFile : FileOps (LM:=LM)}.
Implicit Types (s : mm LM) (x y : mmobj) (f : pframe) (R : gmultiset Z) (L I : list Z) (maps : vmmaps).

(** What a release does not touch: the links of areas, and objects that are
    about to be freed. *)
Definition put_frame (Zs : gset Z) s s' : Prop :=
  olinks s' = olinks s /\ forall o, o ∈ Zs -> mmobjs s' !! o = mmobjs s !! o.

(** What the memory objects of files promise: taking a reference changes at most
    the count, dropping one leaves everything else in order, and mapping a file
    hands out a reference. *)
Class FileOpsOk := {
  file_ref_ok s o x : mmobjs s !! o = Some x -> mmo_ops x = file_mmobj_ops ->
    exists n, file_ref o s = Ok tt (set_mmobjs (insert o (set_refcount n x)) s);
  file_put_ok Zs U B L maps R s o x : maps_ok maps ->
    mm_inv Zs U B L (area_ids maps) (R ⊎ {[+ o +]}) s -> o ∉ Zs ->
    mmobjs s !! o = Some x -> mmo_ops x = file_mmobj_ops ->
    exists s', file_put maps o s = Ok tt s' /\ mm_inv Zs U B L (area_ids maps) R s' /\ put_frame Zs s s';
  file_mmap_ok L I R s file vma : mm_inv ∅ ∅ ∅ L I R s ->
    exists r o s', file_mmap file vma s = Ok (r, o) s' /\ olinks s' = olinks s /\
      (o <> NULL -> mm_inv ∅ ∅ ∅ L I (R ⊎ {[+ o +]}) s')
}.
Context {HFileOk : FileOpsOk}.

(** ** The invariant after the steps of a release *)

Lemma dom_perm {A} (m : gmap Z A) k a a' :
  m !! k = Some a -> (map_to_list (<[k := a']> m)).*1 ≡ₚ (map_to_list m).*1.
Proof.
  intros Hk. rewrite <- (insert_id m k a Hk) at 2. rewrite <- !(insert_delete_eq m k).
  rewrite !map_to_list_insert by apply lookup_delete_eq. done.
Qed.

Lemma dom_delete_perm {A} (m : gmap Z A) k a :
  m !! k = Some a -> (map_to_list m).*1 ≡ₚ k :: (map_to_list (delete k m)).*1.
Proof.
  intros Hk. rewrite <- (insert_id m k a Hk) at 1. rewrite <- (insert_delete_eq m k).
  by rewrite map_to_list_insert by apply lookup_delete_eq.
Qed.

Lemma frame_mem_insert fs pf f : fs !! pf = None -> frame_mem (<[pf := f]> fs) ≡ₚ pf :: pf_addr f :: frame_mem fs.
Proof. intros Hn. unfold frame_mem. by rewrite map_to_list_insert. Qed.
Lemma frame_mem_delete fs pf f : fs !! pf = Some f -> frame_mem fs ≡ₚ pf :: pf_addr f :: frame_mem (delete pf fs).
Proof.
  intros Hf. rewrite <- (insert_id fs pf f Hf) at 1. rewrite <- (insert_delete_eq fs pf).
  apply frame_mem_insert, lookup_delete_eq.
Qed.
Lemma frame_mem_update fs pf f f' :
  fs !! pf = Some f -> pf_addr f' = pf_addr f -> frame_mem (<[pf := f']> fs) ≡ₚ frame_mem fs.
Proof.
  intros Hf E. rewrite (frame_mem_delete fs pf f Hf), <- (insert_delete_eq fs pf), frame_mem_insert, E by apply lookup_delete_eq.
  done.
Qed.
Lemma frame_mem_elem fs pf f : fs !! pf = Some f -> pf ∈ frame_mem fs /\ pf_addr f ∈ frame_mem fs.
Proof. intros Hf. rewrite (frame_mem_delete fs pf f Hf). set_solver. Qed.

(** [mem_inv] depends on the addresses of the structs and pages only. *)
Lemma mem_inv_same L s s' :
  (map_to_list (mmobjs s')).*1 ≡ₚ (map_to_list (mmobjs s)).*1 ->
  frame_mem (pframes s') ≡ₚ frame_mem (pframes s) ->
  slabs (lowmem s') = slabs (lowmem s) -> mem_inv L s -> mem_inv L s'.
Proof.
  intros E1 E2 E3 [H1 H2 H3]. split; rewrite ?E3.
  - by rewrite E1, E2.
  - intros i. rewrite E1, E2. apply H2.
  - by rewrite E1, E2.
Qed.

Lemma mm_inv_unpinned Zs U B L I R s pf f :
  mm_inv Zs U B L I R s -> pframes s !! pf = Some f -> pf_pincount f = 1 ->
  mm_inv Zs ({[pf]} ∪ U) B L I R (unpinned pf f s).
Proof.
  intros [H1 H2 H3 H4 H5 H6 H7] Hf Hp. split.
  - by apply page_inv_unpinned.
  - intros k g x. cbn. intros [[<- <-]|[? Hg]]%lookup_insert_Some Hx Hk Hu; [set_solver|].
    apply (H2 k g x); [done..|set_solver].
  - intros k g. cbn. intros [[<- <-]|[? Hg]]%lookup_insert_Some Hb; by eapply H3.
  - done.
  - done.
  - destruct H6. by split.
  - eapply mem_inv_same; [| | |done]; [done| |done]. by eapply frame_mem_update.
Qed.

Lemma mem_inv_delete_frame L s s' pf f :
  (map_to_list (mmobjs s')).*1 ≡ₚ (map_to_list (mmobjs s)).*1 ->
  pframes s !! pf = Some f -> pframes s' = delete pf (pframes s) ->
  slabs (lowmem s') = slabs (lowmem s) ∖ {[pf_addr f]} ∖ {[pf]} -> mem_inv L s -> mem_inv L s'.
Proof.
  intros E1 Hf E2 E3 [H1 H2 H3]. pose proof (frame_mem_delete _ _ _ Hf) as Hd.
  rewrite Hd in H1, H3. assert (forall i, i ∈ L ++ (map_to_list (mmobjs s)).*1 ++
    pf :: pf_addr f :: frame_mem (delete pf (pframes s)) -> i ∈ slabs (lowmem s)) as H2'.
  { intros i. rewrite <- Hd. apply H2. }
  rewrite !(assoc_L (++)), <- !(Permutation_middle (L ++ _)) in H1.
  apply NoDup_cons in H1 as [Hn H1]. apply NoDup_cons in H1 as [Hn' H1].
  rewrite <- (assoc_L (++)) in H1, Hn, Hn'.
  split; rewrite ?E1, E2; [done| |set_solver].
  intros i. rewrite E1, E3. intros Hi. rewrite !elem_of_difference. split_and!; [apply H2'; set_solver|set_solver|set_solver].
Qed.

Lemma mm_inv_page_out Zs U B L I R s pf f x lm :
  mm_inv Zs U B L I R s -> pframes s !! pf = Some f -> mmobjs s !! pf_obj f = Some x ->
  pf_pincount f = 0 -> slabs lm = slabs (lowmem s) ∖ {[pf_addr f]} ∖ {[pf]} ->
  mm_inv Zs (U ∖ {[pf]}) B L I (R ⊎ {[+ pf_obj f +]}) (page_out pf (pf_obj f) x lm s).
Proof.
  intros [H1 H2 H3 H4 H5 H6 H7] Hf Hx Hp Hlm. assert (same_shape x (without_page pf x)) as Hs by done. split.
  - by apply page_inv_out.
  - intros k g y. cbn. intros [? Hg]%lookup_delete_Some Hy Hk Hu.
    assert (exists y0, mmobjs s !! pf_obj g = Some y0 /\ mmo_ops y0 = mmo_ops y) as (y0 & Hy0 & Ey).
    { apply lookup_insert_Some in Hy as [[<- <-]|[? ?]]; eauto. }
    apply (H2 k g y0); [done..|congruence|set_solver].
  - intros k g. cbn. intros [? Hg]%lookup_delete_Some Hb. by eapply H3.
  - cbn. by eapply ref_inv_page.
  - cbn. by eapply shadow_inv_same.
  - by eapply link_inv_same.
  - eapply mem_inv_delete_frame; [|done|done|done|done]. cbn. by eapply dom_perm.
Qed.

(** Changing the reference count only. *)
Lemma page_inv_objs s s' o x x' :
  mmobjs s !! o = Some x -> mmo_respages x' = mmo_respages x -> mmo_nrespages x' = mmo_nrespages x ->
  mmobjs s' = <[o := x']> (mmobjs s) -> pframes s' = pframes s -> alloc_list s' = alloc_list s ->
  nallocated s' = nallocated s -> pinned_list s' = pinned_list s -> npinned s' = npinned s ->
  pframe_hash s' = pframe_hash s -> page_inv s -> page_inv s'.
Proof.
  intros Ho E1 E2 Eo Ef Ea En Ep Enp Eh [H1 H2 H3 H4 H5 H6].
  assert (forall h, chain h s' = chain h s) as Hc by (intros; unfold chain; by rewrite Eh).
  split; rewrite ?Ef, ?Ea, ?En, ?Ep, ?Enp; try done.
  - intros pf f Hf. rewrite Hc. destruct (H1 pf f Hf) as (? & ? & ? & ? & ? & y & Hy & Hin).
    split_and!; [done..|]. rewrite Eo. destruct (decide (pf_obj f = o)) as [Heq|].
    + exists x'. rewrite Heq in *. simplify_eq. rewrite lookup_insert_eq, E1. done.
    + exists y. by rewrite lookup_insert_ne.
  - intros k y. rewrite Eo. intros [[<- <-]|[? Hy]]%lookup_insert_Some; [rewrite E1, E2|]; by apply H2.
  - intros h. rewrite Hc. apply H3.
Qed.

Lemma mm_inv_dec Zs U B L I R s o x :
  mm_inv Zs U B L I (R ⊎ {[+ o +]}) s -> mmobjs s !! o = Some x ->
  o ∈ R ⊎ srefs Zs (mmobjs s) \/ mmo_ops x = file_mmobj_ops ->
  mm_inv Zs U B L I R (set_mmobjs (insert o (set_refcount (mmo_refcount x - 1) x)) s).
Proof.
  intros [H1 H2 H3 H4 H5 H6 H7] Hx Hus. assert (same_shape x (set_refcount (mmo_refcount x - 1) x)) as Hs by done. split.
  - by apply (page_inv_objs s _ o x (set_refcount (mmo_refcount x - 1) x)).
  - intros k g y. cbn. intros Hg [[Eq <-]|[? Hy]]%lookup_insert_Some Hk Hu; [|by eapply H2].
    eapply (H2 k g x); [done|by rewrite <- Eq|done|done].
  - done.
  - cbn. by eapply ref_inv_dec.
  - cbn. by eapply shadow_inv_same.
  - by eapply link_inv_same.
  - eapply mem_inv_same; [| | |done]; [|done|done]. cbn. by eapply dom_perm.
Qed.

(** ** A release that is not the last one *)

Lemma put_not_last n maps Zs U B L I R s o x :
  mm_inv Zs U B L I (R ⊎ {[+ o +]}) s -> mmobjs s !! o = Some x ->
  mmo_ops x <> file_mmobj_ops -> o ∈ R ⊎ srefs Zs (mmobjs s) ->
  put_fuel (S n) maps o s = Ok tt (set_mmobjs (insert o (set_refcount (mmo_refcount x - 1) x)) s).
Proof.
  intros Hi Hx Hk Hin. pose proof (rf_count _ _ _ (mi_ref _ _ _ _ _ _ _ Hi) o x Hx Hk) as Hrc.
  rewrite mult_add_eq in Hrc. rewrite elem_of_multiplicity in Hin.
  destruct (pg_respages _ (mi_page _ _ _ _ _ _ _ Hi) o x Hx) as (Hnr & _).
  assert (o <> NULL) as Hn.
  { intros ->. apply (me_null _ _ (mi_mem _ _ _ _ _ _ _ Hi)). apply elem_of_app. right. apply elem_of_app. left.
    apply list_elem_of_fmap. exists (NULL, x). split; [done|]. by apply elem_of_map_to_list. }
  cbn [put_fuel]. rewrite (obj_bind _ x) by done.
  assert (dec_refcount o s = Ok tt (set_mmobjs (insert o (set_refcount (mmo_refcount x - 1) x)) s)) as Hd.
  { unfold dec_refcount. rewrite get_bind, Hx. done. }
  destruct (mmo_ops x) eqn:Ek; [| |done].
  - unfold anon_put. rewrite (obj_bind _ x), kassert_bind by
      (done || (rewrite Ek, bool_decide_eq_true_2, andb_true_r, andb_true_iff, c_true_spec, Z.ltb_lt by done; split; [done|lia])).
    destruct (Z.eqb_spec (mmo_refcount x - 1) (mmo_nrespages x)); [lia|done].
  - unfold shadow_put. rewrite (obj_bind _ x), kassert_bind by
      (done || (rewrite Ek, bool_decide_eq_true_2, andb_true_r, andb_true_iff, c_true_spec, Z.ltb_lt by done; split; [done|lia])).
    destruct (Z.eqb_spec (mmo_refcount x - 1) (mmo_nrespages x)); [lia|]. done.
Qed.

(** ** Freeing the pages of an object *)

Definition page_freed (pf : Z) (x : mmobj) : mmobj :=
  set_refcount (mmo_refcount x - 1) (without_page pf x).

(** [pframe_free] of an unpinned page whose object is in use. *)
Lemma pframe_free_ok n maps Zs U B L R s pf f x :
  maps_ok maps -> mm_inv Zs U B L (area_ids maps) R s -> pframes s !! pf = Some f ->
  mmobjs s !! pf_obj f = Some x -> mmo_ops x <> file_mmobj_ops -> pf_obj f ∉ Zs ->
  pf_obj f ∈ R ⊎ srefs Zs (mmobjs s) -> pf_pincount f = 0 -> pf ∉ B ->
  exists s', pframe_free (put_fuel (S n) maps) maps pf s = Ok tt s' /\
    mm_inv Zs (U ∖ {[pf]}) B L (area_ids maps) R s' /\
    mmobjs s' = <[pf_obj f := page_freed pf x]> (mmobjs s) /\
    pframes s' = delete pf (pframes s) /\ olinks s' = olinks s.
Proof.
  intros Hm Hi Hf Hx Hk Hz Hin Hp Hb.
  destruct (pframe_free_eq Zs (put_fuel (S n) maps) maps pf f x s) as (lm & E & Hlm); try done.
  { by apply (pg_frames _ (mi_page _ _ _ _ _ _ _ Hi) pf f). }
  { destruct (pf_busy f) eqn:Eb; [|done]. by apply (mi_busy _ _ _ _ _ _ _ Hi pf f Hf) in Eb. }
  { apply Hi. } { apply Hi. }
  pose proof (mm_inv_page_out _ _ _ _ _ _ _ _ _ _ lm Hi Hf Hx Hp Hlm) as Hi1.
  set (s1 := page_out pf (pf_obj f) x lm s) in *.
  assert (mmobjs s1 !! pf_obj f = Some (without_page pf x)) as Hx1 by apply lookup_insert_eq.
  exists (set_mmobjs (insert (pf_obj f) (page_freed pf x)) s1). split_and!.
  - rewrite E. rewrite (put_not_last n maps _ _ _ _ _ _ s1 (pf_obj f) (without_page pf x) Hi1 Hx1); [done|done|].
    cbn [mmobjs s1 page_out]. by rewrite (srefs_update _ _ _ x).
  - apply (mm_inv_dec _ _ _ _ _ _ s1 (pf_obj f) (without_page pf x)); [done|done|left].
    cbn [mmobjs s1 page_out]. by rewrite (srefs_update _ _ _ x).
  - cbn [mmobjs set_mmobjs s1 page_out]. by rewrite insert_insert_eq.
  - done.
  - done.
Qed.

(** One turn of the loop in [anon_put] and [shadow_put]. *)
Lemma unpin_free_ok n maps Zs L R s pf f x :
  maps_ok maps -> mm_inv Zs ∅ ∅ L (area_ids maps) R s -> pframes s !! pf = Some f ->
  mmobjs s !! pf_obj f = Some x -> mmo_ops x <> file_mmobj_ops -> pf_obj f ∉ Zs ->
  pf_obj f ∈ R ⊎ srefs Zs (mmobjs s) ->
  exists s', (pframe_unpin pf;; pframe_free (put_fuel (S n) maps) maps pf) s = Ok tt s' /\
    mm_inv Zs ∅ ∅ L (area_ids maps) R s' /\
    mmobjs s' = <[pf_obj f := page_freed pf x]> (mmobjs s) /\
    pframes s' = delete pf (pframes s) /\ olinks s' = olinks s.
Proof.
  intros Hm Hi Hf Hx Hk Hz Hin.
  assert (pf_pincount f = 1) as Hp by (apply (mi_pins _ _ _ _ _ _ _ Hi pf f x); [done..|set_solver]).
  destruct (pg_frames _ (mi_page _ _ _ _ _ _ _ Hi) pf f Hf) as (Hn & _).
  rewrite (bind_ok _ _ _ _ _ (unpin_eq pf f s Hf Hn Hp)).
  pose proof (mm_inv_unpinned _ _ _ _ _ _ _ _ _ Hi Hf Hp) as Hi1.
  destruct (pframe_free_ok n maps Zs ({[pf]} ∪ ∅) ∅ L R (unpinned pf f s) pf (set_pincount 0 f) x) as (s' & E & Hi' & E1 & E2 & E3);
    try done; [apply lookup_insert_eq|].
  exists s'. split_and!; [done| |done| |done].
  - by replace (({[pf]} ∪ ∅) ∖ {[pf]} : gset Z) with (∅ : gset Z) in Hi' by set_solver.
  - rewrite E2. apply (delete_insert_eq (pframes s)).
Qed.

(** The object without any pages. *)
Definition stripped (x : mmobj) : mmobj :=
  set_refcount (mmo_refcount x - mmo_nrespages x) (set_respages [] (set_nrespages 0 x)).

Lemma free_pages_loop n maps Zs L R o l x s :
  maps_ok maps -> mm_inv Zs ∅ ∅ L (area_ids maps) R s -> mmobjs s !! o = Some x ->
  mmo_respages x = l -> mmo_ops x <> file_mmobj_ops -> o ∉ Zs -> o ∈ R ⊎ srefs Zs (mmobjs s) ->
  exists s', mfor l (fun pf => pframe_unpin pf;; pframe_free (put_fuel (S n) maps) maps pf) s = Ok tt s' /\
    mm_inv Zs ∅ ∅ L (area_ids maps) R s' /\
    mmobjs s' = <[o := stripped x]> (mmobjs s) /\ olinks s' = olinks s.
Proof.
  intros Hm. revert x s. induction l as [|pf l IH]; intros x s Hi Hx Hl Hk Hz Hin.
  - exists s. destruct (pg_respages _ (mi_page _ _ _ _ _ _ _ Hi) o x Hx) as (Hnr & _).
    rewrite Hl in Hnr. cbn in Hnr. split_and!; [done|done| |done].
    symmetry. apply insert_id. rewrite Hx. f_equal. unfold stripped. rewrite Hnr, Z.sub_0_r.
    destruct x. cbn in *. by subst.
  - destruct (pg_respages _ (mi_page _ _ _ _ _ _ _ Hi) o x Hx) as (Hnr & Hnd & Hpf).
    destruct (Hpf pf) as (f & Hf & Ho); [rewrite Hl; by left|]. subst o.
    destruct (unpin_free_ok n maps Zs L R s pf f x Hm Hi Hf Hx Hk Hz Hin) as (s1 & E1 & Hi1 & Eo & Ef & El).
    destruct (IH (page_freed pf x) s1) as (s2 & E2 & Hi2 & Eo2 & El2); try done.
    { rewrite Eo. apply lookup_insert_eq. }
    { cbn. rewrite Hl in *. by apply filter_ne_cons. }
    { rewrite Eo. by rewrite (srefs_update _ _ _ x). }
    exists s2. cbn [mfor]. rewrite (bind_ok _ _ _ _ _ E1). split_and!; [done|done| |congruence].
    rewrite Eo2, Eo, insert_insert_eq. f_equal.
    unfold stripped, page_freed, without_page, set_refcount, set_respages, set_nrespages. cbn. f_equal. lia.
Qed.

(** ** Freeing an object *)

Lemma srefs_in Zs objs k y :
  objs !! k = Some y -> mmo_ops y = shadow_mmobj_ops -> k ∉ Zs -> mmo_shadowed y ∈ srefs Zs objs.
Proof.
  intros Hk Hs Hz. rewrite (srefs_lookup Zs objs k y Hk). unfold sref. rewrite decide_True by done.
  multiset_solver.
Qed.

Lemma shadow_inv_delete Zs objs o x :
  objs !! o = Some x -> o ∉ srefs Zs objs -> shadow_inv Zs objs ->
  shadow_inv (Zs ∖ {[o]}) (delete o objs).
Proof.
  intros Hx Hin [H1 H2 [rank H3]]. split.
  - intros k y [? Hy]%lookup_delete_Some. by apply (H1 k).
  - intros k y [Hne Hy]%lookup_delete_Some Hs Hz.
    assert (k ∉ Zs) as Hz' by set_solver.
    destruct (H2 k y Hy Hs Hz') as (G1 & G2 & z & G3 & G4).
    assert (mmo_shadowed y <> o) as Hno. { intros <-. by apply Hin, (srefs_in _ _ k). }
    split_and!; [set_solver|done|]. exists z. rewrite lookup_delete_ne by done. done.
  - exists rank. intros k y [? Hy]%lookup_delete_Some. by apply H3.
Qed.

Lemma srefs_delete Zs objs o x :
  objs !! o = Some x -> (mmo_ops x = shadow_mmobj_ops -> o ∈ Zs) ->
  srefs (Zs ∖ {[o]}) (delete o objs) = srefs Zs objs.
Proof.
  intros Hx Hz. rewrite (srefs_lookup Zs objs o x Hx). unfold sref. rewrite decide_False by tauto.
  rewrite (left_id_L ∅ (⊎)).
  rewrite <- (srefs_zombie (Zs ∖ {[o]}) (delete o objs) o) by apply lookup_delete_eq.
  rewrite <- (srefs_zombie Zs (delete o objs) o) by apply lookup_delete_eq.
  replace ({[o]} ∪ Zs ∖ {[o]}) with ({[o]} ∪ Zs); [done|].
  apply set_eq. intros k. destruct (decide (k = o)); set_solver.
Qed.

Lemma mm_inv_delete Zs L I R s k o x :
  mm_inv Zs ∅ ∅ L I (R ⊎ {[+ o +]}) s -> mmobjs s !! o = Some x -> mmo_respages x = [] ->
  multiplicity o (R ⊎ srefs Zs (mmobjs s)) = 0%nat -> (mmo_ops x = shadow_mmobj_ops -> o ∈ Zs) ->
  mm_inv (Zs ∖ {[o]}) ∅ ∅ L I R
    (set_mmobjs (delete o) (set_lowmem (slab_obj_free k o) s)).
Proof.
  intros [H1 H2 H3 H4 H5 H6 H7] Hx Hr Hmu Hz.
  assert (o ∉ R ⊎ srefs Zs (mmobjs s)) as Hno by (rewrite elem_of_multiplicity; lia).
  assert (forall pf f, pframes s !! pf = Some f -> pf_obj f <> o) as Hfr.
  { intros pf f Hf <-. destruct (pg_frames _ H1 pf f Hf) as (_ & _ & _ & _ & _ & y & Hy & Hin).
    simplify_eq. rewrite Hr in Hin. by apply elem_of_nil in Hin. }
  split; cbn [mmobjs set_mmobjs set_lowmem pframes].
  - destruct H1 as [A1 A2 A3 A4 A5 A6]. split; try done.
    + intros pf f Hf. destruct (A1 pf f Hf) as (? & ? & ? & ? & ? & y & Hy & Hin). split_and!; [done..|].
      exists y. cbn. rewrite lookup_delete_ne; [done|]. intros ->. by apply (Hfr pf f).
    + intros q y Hq. cbn in Hq. apply lookup_delete_Some in Hq as [? Hy]. by apply A2.
  - intros pf f y Hf Hy. cbn in Hf, Hy. apply lookup_delete_Some in Hy as [? Hy]. by apply H2.
  - done.
  - destruct H4 as [B1 B2 B3]. split; rewrite (srefs_delete _ _ _ x) by done.
    + intros q y [Hne Hy]%lookup_delete_Some Hq. rewrite (B1 q y Hy Hq). by rewrite mult_add_ne.
    + intros q Hq. destruct (B2 q) as [y Hy]; [multiset_solver|].
      exists y. rewrite lookup_delete_ne; [done|]. intros ->. done.
    + intros q y [Hne Hy]%lookup_delete_Some Hq Hqz. specialize (B3 q y Hy Hq ltac:(set_solver)). multiset_solver.
  - apply (shadow_inv_delete _ _ _ x); [done|multiset_solver|done].
  - destruct H6 as [C1 C2]. split; [|done]. intros q y i Hq. cbn in Hq.
    apply lookup_delete_Some in Hq as [? Hy]. by apply C1.
  - destruct H7 as [D1 D2 D3]. pose proof (dom_delete_perm _ _ _ Hx) as Hd.
    assert (forall i, i ∈ L ++ (o :: (map_to_list (delete o (mmobjs s))).*1) ++ frame_mem (pframes s) ->
      i ∈ slabs (lowmem s)) as D2' by (intros i; rewrite <- Hd; apply D2).
    rewrite Hd in D1, D3. cbn in D1. rewrite <- Permutation_middle in D1. apply NoDup_cons in D1 as [Hn D1].
    split; cbn [mmobjs set_mmobjs set_lowmem pframes lowmem]; [done| |set_solver].
    intros i Hin. rewrite slab_free_spec. apply elem_of_difference. split; [apply D2'; set_solver|set_solver].
Qed.

(** An object that is about to be freed hands its reference over. *)
Lemma mm_inv_zombie Zs L I R s o x :
  mm_inv Zs ∅ ∅ L I R s -> mmobjs s !! o = Some x -> mmo_ops x = shadow_mmobj_ops -> o ∉ Zs ->
  o ∉ srefs Zs (mmobjs s) ->
  mm_inv ({[o]} ∪ Zs) ∅ ∅ L I (R ⊎ {[+ mmo_shadowed x +]}) s.
Proof.
  intros [H1 H2 H3 H4 H5 H6 H7] Hx Hs Hz Hno.
  assert (srefs Zs (mmobjs s) = {[+ mmo_shadowed x +]} ⊎ srefs ({[o]} ∪ Zs) (mmobjs s)) as Hsr.
  { rewrite (srefs_lookup Zs _ o x Hx), (srefs_lookup ({[o]} ∪ Zs) _ o x Hx).
    rewrite srefs_zombie by apply lookup_delete_eq. unfold sref.
    rewrite decide_True by done. rewrite decide_False by set_solver. multiset_solver. }
  split; try done.
  - destruct H4 as [B1 B2 B3]. rewrite Hsr, (assoc_L (⊎)) in B1, B2, B3. split; [done|done|].
    intros k y Hy Hk Hkz. apply (B3 k y); [done|done|set_solver].
  - destruct H5 as [C1 C2 C3]. split; [done| |done]. intros k y Hy Hk Hkz.
    destruct (C2 k y Hy Hk ltac:(set_solver)) as (G1 & G2 & G3). split_and!; [|done|done].
    assert (mmo_shadowed y <> o); [|set_solver]. intros <-. apply Hno, (srefs_in _ _ k); [done|done|set_solver].
Qed.

(** ** Releasing a reference *)

(** The chain of shadow objects from [o] has at most [n] objects. *)
Fixpoint ends_within (n : nat) (objs : gmap Z mmobj) (o : Z) : Prop :=
  match n with
  | O => False
  | S n => forall x, objs !! o = Some x -> mmo_ops x = shadow_mmobj_ops -> ends_within n objs (mmo_shadowed x)
  end.

Lemma ends_within_same n objs o x x' k :
  objs !! o = Some x -> same_shape x x' -> ends_within n objs k -> ends_within n (<[o := x']> objs) k.
Proof.
  intros Hx (E1 & E2 & _). revert k. induction n as [|n IH]; [done|]. intros k Hk y.
  cbn in Hk. intros [[<- <-]|[? Hy]]%lookup_insert_Some Hs.
  - rewrite E2. apply IH, Hk; congruence.
  - by apply IH, Hk.
Qed.

(** A chain does not visit an object twice, so it is no longer than the number of
    objects. *)
Lemma chain_short Zs objs o x :
  shadow_inv Zs objs -> objs !! o = Some x -> o ∉ Zs -> ends_within (size objs) objs o.
Proof.
  intros [H1 H2 [rank H3]] Hx Hz.
  set (below := fun k => filter (fun j => (rank j <= rank k)%nat) (dom objs)).
  assert (forall n k y, objs !! k = Some y -> k ∉ Zs -> (size (below k) <= n)%nat -> ends_within n objs k) as Hgo.
  { intros n. induction n as [|n IH]; intros k y Hy Hk Hn.
    - assert (k ∈ below k) as Hin by (apply elem_of_filter; split; [lia|by apply elem_of_dom_2 in Hy]).
      assert (below k = ∅) as He by (apply leibniz_equiv, size_empty_iff; lia). set_solver.
    - intros y' Hy' Hs. simplify_eq. destruct (H2 k y Hy Hs Hk) as (G1 & _ & z & G3 & _).
      apply (IH _ z); [done|done|]. specialize (H3 k y Hy Hs).
      assert (below (mmo_shadowed y) ⊂ below k) as Hsub.
      { split; [intros j; unfold below; rewrite !elem_of_filter; intros [? ?]; split; [lia|done]|].
        intros Hc. specialize (Hc k). unfold below in Hc. rewrite !elem_of_filter in Hc.
        apply elem_of_dom_2 in Hy. destruct Hc; [split; [lia|done]|]. lia. }
      apply subset_size in Hsub. lia. }
  eapply Hgo; [done|done|]. rewrite <- size_dom. apply subseteq_size. unfold below. set_solver.
Qed.

Lemma put_frame_dec Zs s o x : o ∉ Zs -> put_frame Zs s (set_mmobjs (insert o x) s).
Proof. intros Hz. split; [done|]. intros k Hk. apply (lookup_insert_ne (mmobjs s)). set_solver. Qed.

Lemma mm_inv_stray Zs U B L I R s p : mm_inv Zs U B L I R s -> mm_inv Zs U B L I R (add_stray p s).
Proof.
  intros [[A1 A2 A3 A4 A5 A6] H2 H3 H4 H5 [C1 C2] [D1 D2 D3]].
  split; [by split|done|done|done|done|by split|by split].
Qed.

(** What holds when the last reference to [o] is dropped. *)
Lemma last_reference Zs L I R s o x :
  mm_inv Zs ∅ ∅ L I (R ⊎ {[+ o +]}) s -> mmobjs s !! o = Some x -> mmo_ops x <> file_mmobj_ops ->
  mmo_refcount x - 1 = mmo_nrespages x -> multiplicity o (R ⊎ srefs Zs (mmobjs s)) = 0%nat.
Proof.
  intros Hi Hx Hk Hrc. pose proof (rf_count _ _ _ (mi_ref _ _ _ _ _ _ _ Hi) o x Hx Hk) as H.
  rewrite mult_add_eq in H. lia.
Qed.

Lemma more_references Zs L I R s o x :
  mm_inv Zs ∅ ∅ L I (R ⊎ {[+ o +]}) s -> mmobjs s !! o = Some x -> mmo_ops x <> file_mmobj_ops ->
  mmo_refcount x - 1 <> mmo_nrespages x -> o ∈ R ⊎ srefs Zs (mmobjs s).
Proof.
  intros Hi Hx Hk Hrc. pose proof (rf_count _ _ _ (mi_ref _ _ _ _ _ _ _ Hi) o x Hx Hk) as H.
  rewrite mult_add_eq in H. rewrite elem_of_multiplicity. lia.
Qed.

Lemma obj_nonnull Zs U B L I R s o x : mm_inv Zs U B L I R s -> mmobjs s !! o = Some x -> o <> NULL.
Proof.
  intros Hi Hx ->. apply (me_null _ _ (mi_mem _ _ _ _ _ _ _ Hi)). apply elem_of_app. right. apply elem_of_app. left.
  apply list_elem_of_fmap. exists (NULL, x). split; [done|]. by apply elem_of_map_to_list.
Qed.

Lemma held_count Zs U B L I R s o x :
  mm_inv Zs U B L I (R ⊎ {[+ o +]}) s -> mmobjs s !! o = Some x -> mmo_ops x <> file_mmobj_ops ->
  (c_true o && (0 <? mmo_refcount x) && bool_decide (mmo_ops x = mmo_ops x)) = true.
Proof.
  intros Hi Hx Hk. rewrite bool_decide_eq_true_2, andb_true_r, andb_true_iff, c_true_spec, Z.ltb_lt by done.
  split; [by eapply obj_nonnull|].
  pose proof (rf_count _ _ _ (mi_ref _ _ _ _ _ _ _ Hi) o x Hx Hk) as H. rewrite mult_add_eq in H.
  destruct (pg_respages _ (mi_page _ _ _ _ _ _ _ Hi) o x Hx) as (Hnr & _). lia.
Qed.

(** The last release of an anonymous object. *)
Lemma anon_put_ok n maps Zs L R s o x :
  maps_ok maps -> mm_inv Zs ∅ ∅ L (area_ids maps) (R ⊎ {[+ o +]}) s -> o ∉ Zs ->
  mmobjs s !! o = Some x -> mmo_ops x = anon_mmobj_ops ->
  exists s', anon_put (put_fuel (S n) maps) maps o s = Ok tt s' /\
    mm_inv Zs ∅ ∅ L (area_ids maps) R s' /\ put_frame Zs s s'.
Proof.
  intros Hm Hi Hz Hx Hk. assert (mmo_ops x <> file_mmobj_ops) as Hnf by congruence.
  unfold anon_put. rewrite (obj_bind _ x), kassert_bind by
    (done || (rewrite <- Hk; by eapply held_count)).
  destruct (Z.eqb_spec (mmo_refcount x - 1) (mmo_nrespages x)) as [Hlast|Hmore].
  - unfold free_respages. rewrite bind_assoc, (obj_bind _ x) by done.
    destruct (free_pages_loop n maps Zs L _ o _ x s Hm Hi Hx eq_refl Hnf Hz) as (s1 & E1 & Hi1 & Eo & El);
      [multiset_solver|].
    rewrite (bind_ok _ _ _ _ _ E1).
    pose proof (last_reference _ _ _ _ _ _ _ Hi Hx Hnf Hlast) as Hmu.
    eexists. split; [reflexivity|]. split.
    + rewrite <- (difference_disjoint_L Zs {[o]}) by set_solver.
      apply (mm_inv_delete Zs L _ R s1 AnonSlab o (stripped x)); [done| |done| |].
      * rewrite Eo. apply lookup_insert_eq.
      * rewrite Eo. by rewrite (srefs_update _ _ _ x).
      * cbn. congruence.
    + split; [done|]. intros k Hkz. cbn. rewrite Eo.
      rewrite lookup_delete_ne, lookup_insert_ne by set_solver. done.
  - unfold dec_refcount. rewrite get_bind, Hx. eexists. split; [reflexivity|].
    split; [|by apply put_frame_dec]. apply mm_inv_dec; [done|done|left]. by eapply more_references.
Qed.

(** The last release of a shadow object releases the object it shadows. *)
Lemma shadow_put_ok n maps Zs L R s o x :
  maps_ok maps -> mm_inv Zs ∅ ∅ L (area_ids maps) (R ⊎ {[+ o +]}) s -> o ∉ Zs ->
  mmobjs s !! o = Some x -> mmo_ops x = shadow_mmobj_ops ->
  (forall Zs' R' s', mm_inv Zs' ∅ ∅ L (area_ids maps) (R' ⊎ {[+ mmo_shadowed x +]}) s' ->
    mmo_shadowed x ∉ Zs' -> mmobjs s' = <[o := stripped x]> (mmobjs s) ->
    exists s2, put_fuel (S n) maps (mmo_shadowed x) s' = Ok tt s2 /\
      mm_inv Zs' ∅ ∅ L (area_ids maps) R' s2 /\ put_frame Zs' s' s2) ->
  exists s', shadow_put (put_fuel (S n) maps) maps o s = Ok tt s' /\
    mm_inv Zs ∅ ∅ L (area_ids maps) R s' /\ put_frame Zs s s' /\
    (mmo_refcount x - 1 = mmo_nrespages x -> mmobjs s' !! o = None /\ head (stray s') = Some o).
Proof.
  intros Hm Hi Hz Hx Hk Hput. assert (mmo_ops x <> file_mmobj_ops) as Hnf by congruence.
  unfold shadow_put. rewrite (obj_bind _ x), kassert_bind by
    (done || (rewrite <- Hk; by eapply held_count)).
  destruct (Z.eqb_spec (mmo_refcount x - 1) (mmo_nrespages x)) as [Hlast|Hmore]; cbn [when].
  2: { rewrite ret_bind. unfold dec_refcount. rewrite get_bind, Hx. eexists. split; [reflexivity|].
       split_and!; [|by apply put_frame_dec|done]. apply mm_inv_dec; [done|done|left]. by eapply more_references. }
  unfold free_respages. rewrite !bind_assoc, (obj_bind _ x) by done.
  destruct (free_pages_loop n maps Zs L _ o _ x s Hm Hi Hx eq_refl Hnf Hz) as (s1 & E1 & Hi1 & Eo & El);
    [multiset_solver|].
  rewrite (bind_ok _ _ _ _ _ E1).
  assert (mmobjs s1 !! o = Some (stripped x)) as Hx1 by (rewrite Eo; apply lookup_insert_eq).
  rewrite bind_assoc, (obj_bind _ (stripped x)) by done.
  pose proof (last_reference _ _ _ _ _ _ _ Hi Hx Hnf Hlast) as Hmu.
  assert (srefs Zs (mmobjs s1) = srefs Zs (mmobjs s)) as Esr by (rewrite Eo; by rewrite (srefs_update _ _ _ x)).
  assert (o ∉ R ⊎ srefs Zs (mmobjs s1)) as Hno by (rewrite Esr, elem_of_multiplicity; lia).
  pose proof (mm_inv_zombie _ _ _ _ _ _ _ Hi1 Hx1 Hk Hz ltac:(multiset_solver)) as Hi2.
  destruct (sh_bottom _ _ (mi_shadow _ _ _ _ _ _ _ Hi1) o _ Hx1 Hk Hz) as (Hsz & _).
  destruct (sh_rank _ _ (mi_shadow _ _ _ _ _ _ _ Hi1)) as (rank & Hrank). specialize (Hrank o _ Hx1 Hk).
  change (mmo_shadowed (stripped x)) with (mmo_shadowed x) in *.
  assert (mmo_shadowed x <> o) as Hso by (intros Eq; rewrite Eq in Hrank; lia).
  destruct (Hput ({[o]} ∪ Zs) _ s1 Hi2 ltac:(set_solver) Eo) as (s2 & E2 & Hi3 & El2 & Efr).
  rewrite bind_assoc, (bind_ok _ _ _ _ _ E2). unfold free_obj. rewrite bind_assoc, !modify_bind.
  assert (mmobjs s2 !! o = Some (stripped x)) as Hx2 by (rewrite Efr; [done|set_solver]).
  unfold dec_refcount. rewrite get_bind. cbn [mmobjs set_mmobjs set_lowmem]. rewrite lookup_delete_eq.
  eexists. split; [reflexivity|]. split_and!.
  - apply mm_inv_stray. replace Zs with (({[o]} ∪ Zs) ∖ {[o]}) by set_solver.
    eapply mm_inv_delete; [exact Hi3|exact Hx2|done| |set_solver].
    pose proof (rf_count _ _ _ (mi_ref _ _ _ _ _ _ _ Hi3) o _ Hx2 Hnf) as Hc. cbn in Hc.
    rewrite mult_add_eq in Hc. lia.
  - split; [cbn; congruence|]. intros k Hkz. cbn. rewrite lookup_delete_ne by set_solver.
    rewrite Efr by set_solver. rewrite Eo. apply lookup_insert_ne. set_solver.
  - intros _. split; [apply (lookup_delete_eq (mmobjs s2))|done].
Qed.

Lemma put_fuel_ok n maps Zs L R s o :
  maps_ok maps -> mm_inv Zs ∅ ∅ L (area_ids maps) (R ⊎ {[+ o +]}) s -> o ∉ Zs ->
  ends_within n (mmobjs s) o ->
  exists s', put_fuel (S n) maps o s = Ok tt s' /\
    mm_inv Zs ∅ ∅ L (area_ids maps) R s' /\ put_frame Zs s s'.
Proof.
  intros Hm. revert Zs R s o. induction n as [|n IH]; intros Zs R s o Hi Hz Hn; [done|].
  destruct (rf_held _ _ _ (mi_ref _ _ _ _ _ _ _ Hi) o ltac:(multiset_solver)) as [x Hx].
  change (put_fuel (S (S n)) maps o s) with ((x ← obj o; match mmo_ops x with
    | anon_mmobj_ops => anon_put (put_fuel (S n) maps) maps o
    | shadow_mmobj_ops => shadow_put (put_fuel (S n) maps) maps o
    | file_mmobj_ops => file_put maps o end) s).
  rewrite (obj_bind _ x) by done. destruct (mmo_ops x) eqn:Hk.
  - by apply (anon_put_ok n maps Zs L R s o x).
  - destruct (shadow_put_ok n maps Zs L R s o x) as (s' & ? & ? & ? & _); [done..| |by exists s'].
    intros Zs' R' s' Hi' Hz' Eo.
    apply IH; [done|done|]. rewrite Eo. apply (ends_within_same _ _ _ x); [done|done|]. by apply Hn.
  - by apply (file_put_ok Zs ∅ ∅ L maps R s o x).
Qed.

Lemma put_shadow_ok maps L R s o x :
  maps_ok maps -> mm_inv ∅ ∅ ∅ L (area_ids maps) (R ⊎ {[+ o +]}) s ->
  mmobjs s !! o = Some x -> mmo_ops x = shadow_mmobj_ops ->
  exists s', put maps o s = Ok tt s' /\
    (mmo_refcount x - 1 = mmo_nrespages x -> mmobjs s' !! o = None /\ head (stray s') = Some o).
Proof.
  intros Hm Hi Hx Hk.
  pose proof (chain_short ∅ _ _ x (mi_shadow _ _ _ _ _ _ _ Hi) Hx ltac:(set_solver)) as Hc.
  unfold put. destruct (size (mmobjs s)) as [|n]; [done|].
  change (put_fuel (S (S n)) maps o s) with ((x ← obj o; match mmo_ops x with
    | anon_mmobj_ops => anon_put (put_fuel (S n) maps) maps o
    | shadow_mmobj_ops => shadow_put (put_fuel (S n) maps) maps o
    | file_mmobj_ops => file_put maps o end) s).
  rewrite (obj_bind _ x), Hk by done.
  destruct (shadow_put_ok n maps ∅ L R s o x) as (s' & E & _ & _ & Hl); [done|done|set_solver|done|done| |by exists s'].
  intros Zs' R' s' Hi' Hz' Eo.
  apply put_fuel_ok; [done|done|done|]. rewrite Eo. apply (ends_within_same _ _ _ x); [done|done|]. by apply Hc.
Qed.

(** [put] always returns, and what is left is consistent without the reference. *)
Lemma put_ok maps L R s o :
  maps_ok maps -> mm_inv ∅ ∅ ∅ L (area_ids maps) (R ⊎ {[+ o +]}) s ->
  exists s', put maps o s = Ok tt s' /\ mm_inv ∅ ∅ ∅ L (area_ids maps) R s' /\ olinks s' = olinks s.
Proof.
  intros Hm Hi. destruct (rf_held _ _ _ (mi_ref _ _ _ _ _ _ _ Hi) o ltac:(multiset_solver)) as [x Hx].
  destruct (put_fuel_ok (size (mmobjs s)) maps ∅ L R s o Hm Hi) as (s' & E & Hi' & El & _); [set_solver| |eauto].
  apply (chain_short ∅ _ _ x); [apply Hi|done|set_solver].
Qed.
End Put.
