(* ===== verification/MmSafe.v ===== *)
(** Page frames and memory objects keep the promises address spaces rely on. *)
From S2P Require Import Prelude.
From S2P Require Import Platform.
From S2P Require Import MmIface.
From S2P Require Import Mm.
From S2P Require Import MmInv.
From S2P Require Import MmPut.
Open Scope Z_scope.

Section Safe.
Context {LM : Type} `{P : Platform} `{!PlatformOk P} `{!LowMem LM} {HHdr0 : MmobjHeader}.
Context {HLow : LowMemOk (LM:=LM)} {HHdr : MmobjHeaderOk} {HFile : FileOps (LM:=LM)} {HFileOk : FileOpsOk}.
Implicit Types (s : mm LM) (x y : mmobj) (R : gmultiset Z) (L I : list Z) (maps : vmmaps).

(** Outside of any operation no object is about to be freed, no page of an object
    that is in memory only is unpinned, and no page is busy. *)
Definition safe (L I : list Z) (R : gmultiset Z) (s : mm LM) : Prop := mm_inv ∅ ∅ ∅ L I R s.

Lemma safe_weaken L L' I I' R s :
  safe L I R s -> L' ⊆+ L ->
  (forall i, olink_is_linked i s = true -> i ∈ I -> i ∈ I') -> safe L' I' R s.
Proof.
  intros [H1 H2 H3 H4 H5 [C1 C2] [D1 D2 D3]] HL HI. split; try done.
  - split; [done|]. intros i o Hi. apply HI; [|by apply (C2 i o)].
    unfold olink_is_linked. rewrite Hi. by apply bool_decide_eq_true_2.
  - assert (forall i, i ∈ L' -> i ∈ L) as Hin by (intros i Hi; by eapply elem_of_submseteq).
    split; [|intros i Hi; apply D2; set_solver|set_solver].
    apply NoDup_app in D1 as (N1 & N2 & N3). apply NoDup_app. split_and!; [|set_solver|done].
    apply submseteq_Permutation in HL as [k HL]. rewrite HL in N1. by apply NoDup_app in N1 as [? _].
Qed.

(** Only the low-level state changes. *)
Lemma inv_lowmem Zs U B L I R s lm :
  slabs lm = slabs (lowmem s) -> mm_inv Zs U B L I R s -> mm_inv Zs U B L I R (set_lowmem (fun _ => lm) s).
Proof.
  intros Hlm [[A1 A2 A3 A4 A5 A6] H2 H3 H4 H5 [C1 C2] H7].
  split; [by split|done..|by split|]. by apply (mem_inv_same L s).
Qed.

Lemma mem_inv_alloc L s s' i :
  mmobjs s' = mmobjs s -> pframes s' = pframes s -> i <> NULL -> i ∉ slabs (lowmem s) ->
  slabs (lowmem s') = {[i]} ∪ slabs (lowmem s) -> mem_inv L s -> mem_inv (i :: L) s'.
Proof.
  intros E1 E2 Hn Hi E3 [D1 D2 D3]. split; rewrite E1, E2; cbn.
  - constructor; [|done]. intros Hin. by apply Hi, D2.
  - intros j [->|Hj]%elem_of_cons; rewrite E3; [set_solver|]. apply elem_of_union. right. by apply D2.
  - intros [?|?]%elem_of_cons; [congruence|done].
Qed.

Lemma mem_inv_free L s s' i :
  mmobjs s' = mmobjs s -> pframes s' = pframes s ->
  slabs (lowmem s') = slabs (lowmem s) ∖ {[i]} -> mem_inv (i :: L) s -> mem_inv L s'.
Proof.
  intros E1 E2 E3 [D1 D2 D3]. cbn in *. apply NoDup_cons in D1 as [Hn D1].
  split; rewrite E1, E2; [done| |set_solver].
  intros j Hj. rewrite E3. apply elem_of_difference. split; [apply D2; by right|set_solver].
Qed.

Lemma slab_alloc_ok k L I R s :
  safe L I R s ->
  exists i s', slab_alloc k s = Ok i s' /\ olinks s' = olinks s /\
    (i = NULL -> safe L I R s') /\ (i <> NULL -> safe (i :: L) I R s' /\ i ∉ L).
Proof.
  intros Hi. unfold slab_alloc. rewrite get_bind. destruct (slab_obj_alloc k (lowmem s)) as [i lm] eqn:E.
  exists i, (set_lowmem (fun _ => lm) s). split_and!; [done|done| |].
  - intros ->. apply slab_alloc_spec in E as [[_ E]|[? _]]; [|done]. by apply inv_lowmem.
  - intros Hn. apply slab_alloc_spec in E as [[? _]|(_ & Hni & E)]; [done|]. split.
    + destruct Hi as [[A1 A2 A3 A4 A5 A6] H2 H3 H4 H5 [C1 C2] H7].
      split; [by split|done..|by split|]. by apply (mem_inv_alloc L s).
    + intros Hin. apply Hni, (me_alloc _ _ (mi_mem _ _ _ _ _ _ _ Hi)). set_solver.
Qed.

Lemma slab_free_ok k L I R s i :
  safe (i :: L) I R s ->
  safe L I R (set_lowmem (slab_obj_free k i) s).
Proof.
  intros [[A1 A2 A3 A4 A5 A6] H2 H3 H4 H5 [C1 C2] H7].
  split; [by split|done..|by split|]. apply (mem_inv_free L s _ i); [done|done| |done]. cbn. apply slab_free_spec.
Qed.

(** ** One reference more *)

Lemma inv_inc Zs U B L I R s o x n :
  mm_inv Zs U B L I R s -> mmobjs s !! o = Some x ->
  (mmo_ops x <> file_mmobj_ops -> n = mmo_refcount x + 1) ->
  mm_inv Zs U B L I (R ⊎ {[+ o +]}) (set_mmobjs (insert o (set_refcount n x)) s).
Proof.
  intros [H1 H2 H3 H4 H5 H6 H7] Hx Hn. assert (same_shape x (set_refcount n x)) as Hs by done. split.
  - by apply (page_inv_objs s _ o x (set_refcount n x)).
  - intros k g y. cbn. intros Hg [[Eq <-]|[? Hy]]%lookup_insert_Some Hk Hu; [|by eapply H2].
    eapply (H2 k g x); [done|by rewrite <- Eq|done|done].
  - done.
  - cbn. destruct H4 as [B1 B2 B3]. split; rewrite (srefs_update _ _ _ x) by done.
    + intros k y [[<- <-]|[Hne Hy]]%lookup_insert_Some Hk.
      * rewrite mult_add_eq. cbn in Hk |- *. rewrite (Hn Hk), (B1 o x Hx Hk). lia.
      * rewrite mult_add_ne by done. by apply B1.
    + intros k Hk. destruct (decide (k = o)) as [->|]; [by rewrite lookup_insert_eq|].
      rewrite lookup_insert_ne by done. apply B2. multiset_solver.
    + intros k y [[<- <-]|[Hne Hy]]%lookup_insert_Some Hk Hz; [multiset_solver|].
      specialize (B3 k y Hy Hk Hz). multiset_solver.
  - cbn. by eapply shadow_inv_same.
  - by eapply link_inv_same.
  - eapply mem_inv_same; [| | |done]; [|done|done]. cbn. by eapply dom_perm.
Qed.

Lemma held_positive Zs U B L I R s o x :
  mm_inv Zs U B L I R s -> mmobjs s !! o = Some x -> mmo_ops x <> file_mmobj_ops ->
  o ∈ R ⊎ srefs Zs (mmobjs s) ->
  (c_true o && (0 <? mmo_refcount x) && bool_decide (mmo_ops x = mmo_ops x)) = true.
Proof.
  intros Hi Hx Hk Hin. rewrite bool_decide_eq_true_2, andb_true_r, andb_true_iff, c_true_spec, Z.ltb_lt by done.
  split; [by eapply obj_nonnull|].
  pose proof (rf_count _ _ _ (mi_ref _ _ _ _ _ _ _ Hi) o x Hx Hk) as H. rewrite elem_of_multiplicity in Hin.
  destruct (pg_respages _ (mi_page _ _ _ _ _ _ _ Hi) o x Hx) as (Hnr & _). lia.
Qed.

Lemma ref_eq Zs U B L I R s o x :
  mm_inv Zs U B L I R s -> mmobjs s !! o = Some x -> o ∈ R ⊎ srefs Zs (mmobjs s) ->
  exists n, ref o s = Ok tt (set_mmobjs (insert o (set_refcount n x)) s) /\
    (mmo_ops x <> file_mmobj_ops -> n = mmo_refcount x + 1).
Proof.
  intros Hi Hx Hin. unfold ref. rewrite (obj_bind _ x) by done.
  destruct (mmo_ops x) eqn:Hk.
  - unfold anon_ref. rewrite (obj_bind _ x), kassert_bind by
      (done || (rewrite <- Hk; eapply held_positive; [done|done|congruence|done])).
    rewrite (upd_obj_eq _ x) by done. eauto.
  - unfold shadow_ref. rewrite (obj_bind _ x), kassert_bind by
      (done || (rewrite <- Hk; eapply held_positive; [done|done|congruence|done])).
    rewrite (upd_obj_eq _ x) by done. eauto.
  - destruct (file_ref_ok s o x Hx Hk) as [n E]. exists n. split; [done|]. congruence.
Qed.

Lemma ref_ok L I R s o :
  safe L I R s -> o ∈ R ->
  exists s', ref o s = Ok tt s' /\ safe L I (R ⊎ {[+ o +]}) s' /\ olinks s' = olinks s.
Proof.
  intros Hi Hin. destruct (rf_held _ _ _ (mi_ref _ _ _ _ _ _ _ Hi) o ltac:(multiset_solver)) as [x Hx].
  destruct (ref_eq _ _ _ _ _ _ _ _ _ Hi Hx ltac:(multiset_solver)) as (n & E & Hn).
  eexists. split_and!; [exact E|by apply inv_inc|done].
Qed.

(** ** New objects *)

Lemma shadow_inv_new objs p x :
  objs !! p = None -> shadow_inv ∅ objs ->
  (mmo_ops x <> shadow_mmobj_ops -> mmo_shadowed x = NULL) ->
  (mmo_ops x = shadow_mmobj_ops -> mmo_shadowed x <> NULL /\
    exists y, objs !! mmo_shadowed x = Some y /\ mmo_bottom_obj x = mmobj_bottom (mmo_shadowed x) y) ->
  shadow_inv ∅ (<[p := x]> objs).
Proof.
  intros Hp [H1 H2 [rank H3]] Hx1 Hx2.
  assert (forall k y, objs !! k = Some y -> k <> p) as Hne by congruence. split.
  - intros k y [[<- <-]|[? Hy]]%lookup_insert_Some; [done|by apply (H1 k)].
  - intros k y [[<- <-]|[? Hy]]%lookup_insert_Some Hk Hz.
    + destruct (Hx2 Hk) as (? & y & Hy & ?). split_and!; [set_solver|done|]. exists y.
      rewrite lookup_insert_ne; [done|]. intros Eq. by apply (Hne _ _ Hy).
    + destruct (H2 k y Hy Hk ltac:(set_solver)) as (? & ? & z & Hz' & ?). split_and!; [set_solver|done|].
      exists z. rewrite lookup_insert_ne; [done|]. intros Eq. by apply (Hne _ _ Hz').
  - exists (fun k => if decide (k = p) then S (rank (mmo_shadowed x)) else rank k).
    intros k y [[<- <-]|[? Hy]]%lookup_insert_Some Hk.
    + rewrite (decide_True (P := p = p)) by done. destruct (Hx2 Hk) as (_ & y & Hy & _).
      rewrite decide_False by (by eapply Hne). lia.
    + rewrite (decide_False (P := k = p)) by done.
      destruct (H2 k y Hy Hk ltac:(set_solver)) as (_ & _ & z & Hz' & _).
      rewrite decide_False by (by eapply Hne). by apply H3.
Qed.

(** A new object with one reference, which may take over a reference for the
    object it shadows. *)
Lemma safe_new L I R R' s lm p x :
  safe L I R s -> p <> NULL -> p ∉ slabs (lowmem s) -> slabs lm = {[p]} ∪ slabs (lowmem s) ->
  mmo_respages x = [] -> mmo_nrespages x = 0 -> mmo_vmas x = [] -> mmo_refcount x = 1 ->
  R' ⊎ sref ∅ p x = R ⊎ {[+ p +]} -> shadow_inv ∅ (<[p := x]> (mmobjs s)) ->
  safe L I R' (set_mmobjs (insert p x) (set_lowmem (fun _ => lm) s)).
Proof.
  intros [H1 H2 H3 H4 H5 H6 H7] Hn Hnew Hlm Hr Hnr Hv Hrc HR Hsh.
  assert (mmobjs s !! p = None) as Hp.
  { apply eq_None_not_Some. intros [y Hy]. apply Hnew, (me_alloc _ _ H7). apply elem_of_app. right.
    apply elem_of_app. left. apply list_elem_of_fmap. exists (p, y). split; [done|]. by apply elem_of_map_to_list. }
  assert (forall pf f, pframes s !! pf = Some f -> pf_obj f <> p) as Hfr.
  { intros pf f Hf Eq. destruct (pg_frames _ H1 pf f Hf) as (_ & _ & _ & _ & _ & y & Hy & _). congruence. }
  split.
  - destruct H1 as [A1 A2 A3 A4 A5 A6]. split; try done.
    + intros pf f Hf. destruct (A1 pf f Hf) as (? & ? & ? & ? & ? & y & Hy & ?). split_and!; [done..|].
      exists y. cbn. rewrite lookup_insert_ne; [done|]. intros Eq. by apply (Hfr pf f).
    + intros o y. cbn. intros [[<- <-]|[? Hy]]%lookup_insert_Some; [|by apply A2].
      rewrite Hr, Hnr. split_and!; [done|constructor|]. by intros pf ?%elem_of_nil.
  - intros pf f y Hf. cbn. intros [[Eq <-]|[? Hy]]%lookup_insert_Some; [by destruct (Hfr pf f Hf)|by apply H2].
  - done.
  - cbn. destruct H4 as [B1 B2 B3]. assert (R' ⊎ srefs ∅ (<[p := x]> (mmobjs s)) = R ⊎ {[+ p +]} ⊎ srefs ∅ (mmobjs s)) as Es.
    { rewrite srefs_insert by done. by rewrite (assoc_L (⊎)), HR. }
    assert (multiplicity p (R ⊎ srefs ∅ (mmobjs s)) = 0%nat) as Hmu.
    { destruct (decide (p ∈ R ⊎ srefs ∅ (mmobjs s))) as [Hin|Hin]; [apply B2 in Hin as [? ?]; congruence|].
      rewrite elem_of_multiplicity in Hin. lia. }
    split; rewrite Es.
    + intros k y [[<- <-]|[? Hy]]%lookup_insert_Some Hk; [rewrite mult_add_eq; lia|].
      rewrite mult_add_ne by done. by apply B1.
    + intros k Hk. destruct (decide (k = p)) as [->|]; [by rewrite lookup_insert_eq|].
      rewrite lookup_insert_ne by done. apply B2. multiset_solver.
    + intros k y [[<- <-]|[Hne Hy]]%lookup_insert_Some Hk Hz; [multiset_solver|].
      specialize (B3 k y Hy Hk Hz). multiset_solver.
  - done.
  - destruct H6 as [C1 C2]. split; [|done]. intros o y i. cbn.
    intros [[<- <-]|[? Hy]]%lookup_insert_Some; [rewrite Hv; by intros ?%elem_of_nil|by apply C1].
  - destruct H7 as [D1 D2 D3]. pose proof (map_to_list_insert (mmobjs s) p x Hp) as Hd.
    split; cbn [mmobjs set_mmobjs set_lowmem pframes lowmem].
    + rewrite Hd. cbn. rewrite <- Permutation_middle. constructor; [|done]. intros Hin. by apply Hnew, D2.
    + intros i. rewrite Hd, Hlm. cbn. rewrite <- Permutation_middle. intros [->|Hin]%elem_of_cons; [set_solver|].
      apply elem_of_union. right. by apply D2.
    + rewrite Hd. cbn. rewrite <- Permutation_middle. intros [?|?]%elem_of_cons; [congruence|done].
Qed.

Lemma anon_create_ok L I R s :
  safe L I R s ->
  (exists s', anon_create s = Halt NullDeref s') \/
  exists o s', anon_create s = Ok o s' /\ o <> NULL /\ safe L I (R ⊎ {[+ o +]}) s' /\ olinks s' = olinks s.
Proof.
  intros Hi. unfold anon_create. rewrite get_bind. destruct (slab_obj_alloc AnonSlab (lowmem s)) as [p lm] eqn:E.
  rewrite modify_bind. destruct (Z.eqb_spec p NULL) as [->|Hn]; [left; by eexists|right].
  apply slab_alloc_spec in E as [[? _]|(_ & Hni & E)]; [done|].
  destruct (mmobj_init_spec anon_mmobj_ops) as (K1 & K2 & K3 & K4 & K5).
  eexists p, _. split_and!; [reflexivity|done| |done].
  apply (safe_new L I R _ s lm); try done; cbn.
  - unfold sref. cbn. rewrite K1, decide_False by naive_solver. apply (right_id_L ∅ (⊎)).
  - apply shadow_inv_new; [|apply Hi|done|cbn; congruence].
    apply eq_None_not_Some. intros [y Hy]. apply Hni, (me_alloc _ _ (mi_mem _ _ _ _ _ _ _ Hi)).
    apply elem_of_app. right. apply elem_of_app. left. apply list_elem_of_fmap. exists (p, y).
    split; [done|]. by apply elem_of_map_to_list.
Qed.

Lemma fresh_obj L I R s p y : safe L I R s -> p ∉ slabs (lowmem s) -> mmobjs s !! p = Some y -> False.
Proof.
  intros Hi Hni Hy. apply Hni, (me_alloc _ _ (mi_mem _ _ _ _ _ _ _ Hi)).
  apply elem_of_app. right. apply elem_of_app. left. apply list_elem_of_fmap. exists (p, y).
  split; [done|]. by apply elem_of_map_to_list.
Qed.

Lemma shadow_ok L I R s o :
  safe L I (R ⊎ {[+ o +]}) s ->
  (exists s', shadow_create s = Halt NullDeref s') \/
  exists sh s1 s2, shadow_create s = Ok sh s1 /\ sh <> NULL /\ shadow_over sh o s1 = Ok tt s2 /\
    safe L I (R ⊎ {[+ sh +]}) s2 /\ is_Some (mmobjs s2 !! o) /\ olinks s2 = olinks s.
Proof.
  intros Hi. unfold shadow_create. rewrite get_bind. destruct (slab_obj_alloc ShadowSlab (lowmem s)) as [p lm] eqn:E.
  rewrite modify_bind. destruct (Z.eqb_spec p NULL) as [->|Hn]; [left; by eexists|right].
  apply slab_alloc_spec in E as [[? _]|(_ & Hni & E)]; [done|].
  destruct (mmobj_init_spec shadow_mmobj_ops) as (K1 & K2 & K3 & K4 & K5).
  destruct (rf_held _ _ _ (mi_ref _ _ _ _ _ _ _ Hi) o ltac:(multiset_solver)) as [y Hy].
  assert (mmobjs s !! p = None) as Hp.
  { apply eq_None_not_Some. intros [z Hz]. by eapply fresh_obj. }
  assert (o <> p) as Hop by congruence.
  pose proof (obj_nonnull _ _ _ _ _ _ _ _ _ Hi Hy) as Hon.
  set (x0 := set_refcount 1 (mmobj_init shadow_mmobj_ops)).
  set (x := set_bottom (mmobj_bottom o y) (set_shadowed o x0)).
  eexists p, _, (set_mmobjs (insert p x) (set_lowmem (fun _ => lm) s)).
  split_and!; [reflexivity|done| | |exists y; cbn; by rewrite lookup_insert_ne|done].
  - unfold shadow_over. rewrite (upd_obj_bind _ x0) by apply (lookup_insert_eq (mmobjs s)).
    rewrite (obj_bind _ y).
    + rewrite (upd_obj_eq _ (set_shadowed o x0)) by apply (lookup_insert_eq (<[p := x0]> (mmobjs s))).
      f_equal. apply mm_ext; try reflexivity.
      etransitivity; [apply (insert_insert_eq (<[p := x0]> (mmobjs s)))|]. apply (insert_insert_eq (mmobjs s)).
    + etransitivity; [apply (lookup_insert_ne (<[p := x0]> (mmobjs s))); congruence|].
      by rewrite lookup_insert_ne.
  - apply (safe_new L I (R ⊎ {[+ o +]})); try done; cbn.
    + unfold sref. cbn. rewrite K1, decide_True by set_solver. multiset_solver.
    + apply shadow_inv_new; [done|apply Hi|cbn; congruence|]. intros _. split; [done|]. cbn. by exists y.
Qed.

(** ** Links between areas and objects *)

Lemma inv_vmas L I I' R s o x vs ol :
  safe L I R s -> mmobjs s !! o = Some x ->
  link_inv I' (set_olinks ol (set_mmobjs (insert o (set_vmas vs x)) s)) ->
  safe L I' R (set_olinks ol (set_mmobjs (insert o (set_vmas vs x)) s)).
Proof.
  intros [H1 H2 H3 H4 H5 H6 H7] Hx Hl. split; [| | | | |done|].
  - by apply (page_inv_objs s _ o x (set_vmas vs x)).
  - intros k g y. cbn. intros Hg [[Eq <-]|[? Hy]]%lookup_insert_Some Hk Hu; [|by eapply H2].
    eapply (H2 k g x); [done|by rewrite <- Eq|done|done].
  - done.
  - cbn. destruct H4 as [B1 B2 B3]. split; rewrite (srefs_update _ _ _ x) by done.
    + intros k y [[<- <-]|[Hne Hy]]%lookup_insert_Some Hk; [by apply (B1 o x)|by apply B1].
    + intros k Hk. destruct (decide (k = o)) as [->|]; [by rewrite lookup_insert_eq|].
      rewrite lookup_insert_ne by done. by apply B2.
    + intros k y [[<- <-]|[Hne Hy]]%lookup_insert_Some Hk Hz; [by apply (B3 o x)|by apply (B3 k y)].
  - cbn. by apply (shadow_inv_upd _ _ _ x).
  - apply (mem_inv_same L s); [|done|done|done]. cbn. by eapply dom_perm.
Qed.

Lemma olink_insert_ok L I R s o i :
  safe L I R s -> is_Some (mmobjs s !! o) -> olink_is_linked i s = false ->
  exists s', olink_insert o i s = Ok tt s' /\ safe L (i :: I) R s' /\
    forall j, j <> i -> olinks s' !! j = olinks s !! j.
Proof.
  intros Hi [x Hx] Hl.
  destruct (bottom_exists ∅ _ _ _ (mi_shadow _ _ _ _ _ _ _ Hi) Hx ltac:(set_solver)) as [b Hb].
  assert (olinks s !! i = None) as Hli.
  { unfold olink_is_linked in Hl. apply bool_decide_eq_false in Hl. by apply eq_None_not_Some. }
  unfold olink_insert. rewrite (obj_bind _ x) by done. cbn zeta. rewrite (upd_obj_bind _ b) by done.
  eexists. split_and!; [reflexivity| |].
  - eapply inv_vmas; [done|done|]. destruct (mi_link _ _ _ _ _ _ _ Hi) as [C1 C2]. split.
    + intros k y j. cbn. intros [[<- <-]|[? Hy]]%lookup_insert_Some.
      * cbn. intros [Hj| ->%list_elem_of_singleton]%elem_of_app; [|by rewrite lookup_insert_eq].
        pose proof (C1 _ _ _ Hb Hj). rewrite lookup_insert_ne by congruence. done.
      * intros Hj. pose proof (C1 _ _ _ Hy Hj). rewrite lookup_insert_ne by congruence. done.
    + intros j k. cbn. intros [[<- <-]|[? Hj]]%lookup_insert_Some; [by left|right]. by apply (C2 j k).
  - intros j Hj. cbn. by rewrite lookup_insert_ne.
Qed.

Lemma olink_remove_ok L I R s i :
  safe L I R s -> olink_is_linked i s = true ->
  exists s', olink_remove i s = Ok tt s' /\ safe L I R s' /\ olinks s' = delete i (olinks s) /\
    forall o, is_Some (mmobjs s !! o) -> is_Some (mmobjs s' !! o).
Proof.
  intros Hi Hl. unfold olink_is_linked in Hl. apply bool_decide_eq_true in Hl as [b Hb].
  unfold olink_remove. rewrite get_bind, (deref_bind _ b), modify_bind by done.
  destruct (mi_link _ _ _ _ _ _ _ Hi) as [C1 C2].
  destruct (mmobjs s !! b) as [x|] eqn:Hx.
  - eexists. split_and!; [reflexivity| |done|intros o Ho; by apply lookup_insert_is_Some'; right].
    change (set_mmobjs ?f (set_olinks ?g s)) with (set_olinks g (set_mmobjs f s)).
    eapply inv_vmas; [done|done|]. split.
    + intros k y j. cbn. intros [[<- <-]|[? Hy]]%lookup_insert_Some.
      * cbn. intros [Hj Hne]%elem_of_unlink. rewrite lookup_delete_ne by done. by apply (C1 b x).
      * intros Hj. pose proof (C1 _ _ _ Hy Hj). rewrite lookup_delete_ne by congruence. done.
    + intros j k. cbn. intros [? Hj]%lookup_delete_Some. by apply (C2 j k).
  - eexists. split_and!; [reflexivity| |done|done]. apply mm_inv_stray.
    destruct Hi as [[A1 A2 A3 A4 A5 A6] H2 H3 H4 H5 _ [D1 D2 D3]].
    split; [by split|done..| |by split]. split; cbn.
    + intros k y j Hy Hj. pose proof (C1 _ _ _ Hy Hj). rewrite lookup_delete_ne by congruence. done.
    + intros j k [? Hj]%lookup_delete_Some. by apply (C2 j k).
Qed.

Lemma links_same s s' I :
  (forall j, j ∉ I -> olinks s' !! j = olinks s !! j) -> same_links I s s'.
Proof. intros H j Hj. cbn. unfold olink_is_linked. by rewrite H. Qed.

(** The contract. *)
#[export] Instance mm_laws : MmLaws (mm LM).
Proof.
  refine {| mm_safe := safe; mm_obj o s := is_Some (mmobjs s !! o) |}.
  - intros L I R s o Hi Ho. apply (rf_held _ _ _ (mi_ref _ _ _ _ _ _ _ Hi) o). multiset_solver.
  - apply safe_weaken.
  - intros L I R s [_ _ _ _ _ _ [D1 D2 D3]]. apply NoDup_app in D1 as [? _]. split; [done|set_solver].
  - intros L I R s i Hi Hl. cbn in Hl. unfold olink_is_linked in Hl. apply bool_decide_eq_true in Hl as [b Hb].
    by apply (lk_areas _ _ (mi_link _ _ _ _ _ _ _ Hi) i b).
  - intros L I R s Hi. destruct (slab_alloc_ok VmareaSlab L I R s Hi) as (i & s' & E & El & H0 & H1).
    exists i, s'. split_and!; [done|apply links_same; by rewrite El|done|done].
  - intros L I R s i Hi Hl. eexists. split_and!; [reflexivity|by apply slab_free_ok|by apply links_same].
  - intros L I R s Hi. destruct (slab_alloc_ok VmmapSlab L I R s Hi) as (i & s' & E & El & H0 & H1).
    exists i, s'. split_and!; [done|apply links_same; by rewrite El|done|done].
  - intros L I R s i Hi. eexists. split_and!; [reflexivity|by apply slab_free_ok|by apply links_same].
  - intros L I R s o Hi Ho. destruct (ref_ok L I R s o Hi Ho) as (s' & E & Hs & El).
    exists s'. split_and!; [done|done|apply links_same; by rewrite El].
  - intros L maps R s o Hm Hi. destruct (put_ok maps L R s o Hm Hi) as (s' & E & Hs & El).
    exists s'. split_and!; [done|done|apply links_same; by rewrite El].
  - intros L I R s Hi. destruct (anon_create_ok L I R s Hi) as [?|(o & s' & E & Hn & Hs & El)]; [by left|right].
    exists o, s'. split_and!; [done..|apply links_same; by rewrite El].
  - intros L I R s file vma Hi. destruct (file_mmap_ok L I R s file vma Hi) as (r & o & s' & E & El & Hs).
    exists r, o, s'. split_and!; [done|apply links_same; by rewrite El|done].
  - intros L I R s o Hi. destruct (shadow_ok L I R s o Hi) as [?|(sh & s1 & s2 & E1 & Hn & E2 & Hs & Ho & El)]; [by left|right].
    exists sh, s1, s2. split_and!; [done..|apply links_same; by rewrite El].
  - intros L I R s o i Hi Ho _ Hl. destruct (olink_insert_ok L I R s o i Hi Ho Hl) as (s' & E & Hs & El).
    exists s'. split_and!; [done..|apply links_same]. intros j Hj. apply El. set_solver.
  - intros L I R s i Hi Hl. destruct (olink_remove_ok L I R s i Hi Hl) as (s' & E & Hs & El & Ho).
    exists s'. split_and!; [done|done| | |done].
    + cbn. unfold olink_is_linked. rewrite El, lookup_delete_eq. by apply bool_decide_eq_false_2.
    + apply links_same. intros j Hj. rewrite El, lookup_delete_ne; [done|]. set_solver.
  - intros L I R s p lo hi Hi. eexists. split_and!; [reflexivity| |by apply links_same].
    apply (inv_lowmem _ _ _ _ _ _ s); [|done]. apply pt_unmap_pages_slabs.
Defined.
End Safe.
