(* ===== verification/Demo.v ===== *)
(** A small machine: the parameters of the memory model made concrete, and an
    address space with two areas on it.  The witnesses run here. *)
From S2P Require Import Prelude.
From S2P Require Import Platform.
From S2P Require Import MmIface.
From S2P Require Import Mm.
From S2P Require Import MmInv.
From S2P Require Import MmPut.
Open Scope Z_scope.

#[export] Existing Instance weenix.

(** Structs are numbered in order up to a limit; page table entries are a map
    from page directory and address to physical page and flags. *)
Record machine := Machine {
  next : Z; limit : Z; used : gset Z;
  next_page : Z; ptes : gmap (Z * Z) (Z * Z)
}.

#[export] Instance machine_low : LowMem machine := {|
  slab_obj_alloc _ lm :=
    if decide (next lm ∈ used lm \/ next lm = 0 \/ limit lm <= next lm) then (0, lm)
    else (next lm, Machine (next lm + 1) (limit lm) ({[next lm]} ∪ used lm) (next_page lm) (ptes lm));
  slab_obj_free _ p lm := Machine (next lm) (limit lm) (used lm ∖ {[p]}) (next_page lm) (ptes lm);
  page_alloc lm :=
    if decide (next_page lm ∈ used lm \/ next_page lm = 0) then (0, lm)
    else (next_page lm, Machine (next lm) (limit lm) ({[next_page lm]} ∪ used lm) (next_page lm + 4096) (ptes lm));
  page_free p lm := Machine (next lm) (limit lm) (used lm ∖ {[p]}) (next_page lm) (ptes lm);
  page_free_count _ := 1000;
  pt_unmap d v lm := Machine (next lm) (limit lm) (used lm) (next_page lm) (delete (d, v) (ptes lm));
  pt_unmap_pages d lo hi lm := Machine (next lm) (limit lm) (used lm) (next_page lm)
    (filter (fun e => ~ (e.1.1 = d /\ lo <= e.1.2 < hi)) (ptes lm));
  tlb_flush _ lm := lm
|}.

#[export] Instance machine_low_ok : LowMemOk (LM:=machine).
Proof.
  refine {| slabs := used |}; try done.
  - intros k lm p lm' E. cbn in E. case_decide as Hd; simplify_eq; [by left|right].
    split_and!; [naive_solver|naive_solver|done].
  - intros lm p lm' E. cbn in E. case_decide as Hd; simplify_eq; [by left|right].
    split_and!; [naive_solver|naive_solver|done].
Defined.

#[export] Instance demo_header : MmobjHeader := {|
  mmobj_init k := Mmobj k 0 0 [] NULL NULL [];
  mmobj_bottom o x := if mmo_shadowed x =? NULL then o else mmo_bottom_obj x
|}.
#[export] Instance demo_header_ok : MmobjHeaderOk.
Proof. by split. Qed.

(** File objects that are never freed and have no pages in memory; a file is named
    by its object. *)
#[export] Instance demo_files : FileOps (LM:=machine) := {|
  file_ref _ := mret tt;
  file_put _ _ := mret tt;
  file_lookuppage _ _ _ _ := mret (- EFAULT, NULL);
  file_fillpage _ _ := mret (- EFAULT);
  file_dirtypage _ _ := mret 0;
  file_cleanpage _ _ := mret 0;
  file_mmap file _ := s ← get;
    match mmobjs s !! file with
    | Some x => if decide (mmo_ops x = file_mmobj_ops) then mret (0, file) else mret (- ENODEV, NULL)
    | None => mret (- ENODEV, NULL)
    end
|}.

#[export] Instance demo_files_ok : FileOpsOk (LM:=machine).
Proof.
  split.
  - intros s o x Hx Hk. exists (mmo_refcount x). cbn. unfold mret, M_ret. f_equal.
    apply mm_ext; try reflexivity. cbn. symmetry. apply insert_id. rewrite Hx. by destruct x.
  - intros Zs U B L maps R s o x Hm [H1 H2 H3 [B1 B2 B3] H5 H6 H7] Hz Hx Hk. exists s. split_and!; [done| |done].
    split; try done. split.
    + intros k y Hy Hky. rewrite (B1 k y Hy Hky). rewrite mult_add_ne; [done|]. congruence.
    + intros k Hk'. apply B2. multiset_solver.
    + intros k y Hy Hky Hkz. specialize (B3 k y Hy Hky Hkz). assert (k <> o) by congruence. multiset_solver.
  - intros L I R s file vma [H1 H2 H3 [B1 B2 B3] H5 H6 H7]. cbn. rewrite get_bind.
    destruct (mmobjs s !! file) as [x|] eqn:Hx; [case_decide as Hk|]; eexists _, _, s; split_and!; try done.
    intros _. split; try done. split.
    + intros k y Hy Hky. rewrite mult_add_ne by congruence. by apply B1.
    + intros k Hk'. destruct (decide (k = file)) as [->|]; [done|]. apply B2. multiset_solver.
    + intros k y Hy Hky Hkz. specialize (B3 k y Hy Hky Hkz). multiset_solver.
Qed.

(** The machine after start-up. *)
Definition boot_mm : mm machine :=
  Mm (Machine 1 1000 ∅ 4096 ∅) ∅ ∅ [] 0 [] 0 ∅ ∅ ∅ 0 0 1 [] [].

Lemma boot_safe : mm_inv ∅ ∅ ∅ [] [] ∅ boot_mm.
Proof.
  split.
  - split; try (intros *; by rewrite lookup_empty); try done.
    + intros h. split; [constructor|]. intros pf Hp. by apply elem_of_nil in Hp.
    + split_and!; [constructor|done|]. by intros pf ?%elem_of_nil.
    + split_and!; [constructor|done|]. by intros pf ?%elem_of_nil.
  - done.
  - done.
  - split; [done| |done]. intros o Ho. multiset_solver.
  - split; [done|done|]. by exists (fun _ => 0%nat).
  - done.
  - split; cbn; [constructor|by intros i ?%elem_of_nil|by intros ?%elem_of_nil].
Qed.
