(* ===== verification/Vmmap.v ===== *)
(** Address spaces: [vm/vmmap.c].

    An address space is its list of areas in order.  A [vmarea_t *] is the
    area's address; the operations that walk the list while changing it walk
    the addresses and go through them to the areas, as the code's iteration
    (which fetches the next link before it runs the body) does. *)
From S2P Require Import Prelude.
From S2P Require Import Platform.
From S2P Require Import MmIface.
Open Scope Z_scope.

(** ** The list of areas *)

Definition area_get (i : Z) (l : list vmarea) : option vmarea := list_find (fun a => vma_id a = i) l ≫= fun x => Some x.2.
Definition area_upd (i : Z) (f : vmarea -> vmarea) (l : list vmarea) : list vmarea :=
  (fun a => if vma_id a =? i then f a else a) <$> l.
Definition area_del (i : Z) (l : list vmarea) : list vmarea := filter (fun a => vma_id a <> i) l.
Fixpoint area_insert_before (i : Z) (x : vmarea) (l : list vmarea) : list vmarea :=
  match l with
  | [] => []
  | a :: l => if vma_id a =? i then x :: a :: l else a :: area_insert_before i x l
  end.

Definition set_start (x : Z) (a : vmarea) : vmarea :=
  Vmarea (vma_id a) x (vma_end a) (vma_off a) (vma_prot a) (vma_flags a) (vma_vmmap a) (vma_obj a).
Definition set_end (x : Z) (a : vmarea) : vmarea :=
  Vmarea (vma_id a) (vma_start a) x (vma_off a) (vma_prot a) (vma_flags a) (vma_vmmap a) (vma_obj a).
Definition set_off (x : Z) (a : vmarea) : vmarea :=
  Vmarea (vma_id a) (vma_start a) (vma_end a) x (vma_prot a) (vma_flags a) (vma_vmmap a) (vma_obj a).
Definition set_vmmap (x : Z) (a : vmarea) : vmarea :=
  Vmarea (vma_id a) (vma_start a) (vma_end a) (vma_off a) (vma_prot a) (vma_flags a) x (vma_obj a).
Definition set_obj (x : Z) (a : vmarea) : vmarea :=
  Vmarea (vma_id a) (vma_start a) (vma_end a) (vma_off a) (vma_prot a) (vma_flags a) (vma_vmmap a) x.

(** The loop of [vmmap_insert]: before the first area that starts at or after the
    end of the new one, or at the tail. *)
Fixpoint insert_area (x : vmarea) (l : list vmarea) : list vmarea :=
  match l with
  | [] => [x]
  | a :: l => if vma_end x <=? vma_start a then x :: a :: l else a :: insert_area x l
  end.

(** The loop of [vmmap_lookup]. *)
Fixpoint lookup_area (vfn : Z) (l : list vmarea) : option vmarea :=
  match l with
  | [] => None
  | a :: l => if (vfn <? vma_end a) && (vma_start a <=? vfn) then Some a else lookup_area vfn l
  end.

(** The loop of [vmmap_is_range_empty]. *)
Fixpoint range_empty_loop (startvfn endvfn : Z) (l : list vmarea) : bool :=
  match l with
  | [] => true
  | a :: l =>
      if (startvfn <? vma_end a) && (vma_start a <? endvfn) then false
      else if (startvfn <? vma_start a) && (endvfn <=? vma_start a) then true
      else range_empty_loop startvfn endvfn l
  end.

(** The loop of [vmmap_find_range] from the highest area down. *)
Fixpoint find_range_loop (npages userspace_end : Z) (rl : list vmarea) : option Z :=
  match rl with
  | [] => None
  | a :: rl =>
      if npages <=? (userspace_end -u vma_end a) then Some (userspace_end -u npages)
      else find_range_loop npages (vma_start a) rl
  end.

Section Vmmap.
Context `{P : Platform} {MM : Type} `{!MmOps MM}.

(** The state: the address spaces and what is below them. *)
Record vm := Vm { vm_maps : vmmaps; vm_mm : MM }.

Definition lift {A} (m : M MM A) : M vm A := fun s =>
  match m (vm_mm s) with
  | Ok a mm => Ok a (Vm (vm_maps s) mm)
  | Halt h mm => Halt h (Vm (vm_maps s) mm)
  end.

Definition set_map (m : Z) (v : vmmap) (s : vm) : vm := Vm (<[m := v]> (vm_maps s)) (vm_mm s).
Definition vmmap_of (m : Z) : M vm vmmap := s ← get; deref (vm_maps s !! m).
Definition upd_list (m : Z) (f : list vmarea -> list vmarea) : M vm unit :=
  v ← vmmap_of m; modify (set_map m (Vmmap (f (vmm_list v)) (vmm_proc v))).
(** [vma->...] for an area of address space [m] *)
Definition area (m i : Z) : M vm vmarea := v ← vmmap_of m; deref (area_get i (vmm_list v)).

(** [o->mmo_ops->put(o)], [o->mmo_ops->ref(o)] *)
Definition obj_put (o : Z) : M vm unit := s ← get; lift (mmobj_put (vm_maps s) o).
Definition obj_ref (o : Z) : M vm unit := lift (mmobj_ref o).

Definition vmarea_alloc : M vm Z := lift vmarea_slab_alloc.
Definition vmarea_free (i : Z) : M vm unit := kassert (c_true i);; lift (vmarea_slab_free i).

Definition vmmap_create : M vm Z :=
  m ← lift vmmap_slab_alloc;
  when (c_true m) (modify (set_map m (Vmmap [] NULL)));;
  mret m.

(** Unlink an area from its object and its address space, and free it. *)
Definition vmarea_unlink_free (m i : Z) : M vm unit :=
  linked ← gets (fun s => olink_is_linked i (vm_mm s));
  when linked (lift (olink_remove i));;
  upd_list m (area_del i);;
  vmarea_free i.

Definition vmmap_destroy (m : Z) : M vm unit :=
  kassert (c_true m);;
  v ← vmmap_of m;
  mfor (vma_id <$> vmm_list v) (fun i =>
    vma ← area m i;
    obj_put (vma_obj vma);;
    vmarea_unlink_free m i);;
  lift (vmmap_slab_free m);;
  modify (fun s => Vm (delete m (vm_maps s)) (vm_mm s)).

(** [newvma] is a struct that is in no list. *)
Definition vmmap_insert (m : Z) (newvma : vmarea) : M vm unit :=
  kassert (c_true m && c_true (vma_id newvma));;
  kassert (vma_vmmap newvma =? NULL);;
  kassert (vma_start newvma <? vma_end newvma);;
  kassert ((ADDR_TO_PN USER_MEM_LOW <=? vma_start newvma) && (vma_end newvma <=? ADDR_TO_PN USER_MEM_HIGH));;
  upd_list m (insert_area (set_vmmap m newvma)).

Definition vmmap_find_range (m npages dir : Z) : M vm Z :=
  v ← vmmap_of m;
  let userspace_start := ADDR_TO_PN USER_MEM_LOW in
  let userspace_end := ADDR_TO_PN USER_MEM_HIGH in
  if dir =? VMMAP_DIR_HILO then
    match find_range_loop npages userspace_end (reverse (vmm_list v)) with
    | Some r => mret (s32 r)
    | None =>
        vma ← deref (head (vmm_list v));
        if npages <=? (vma_start vma -u userspace_start) then mret (s32 (vma_start vma -u npages))
        else mret (-1)
    end
  else stop PanicCall.

Definition vmmap_lookup (m vfn : Z) : M vm (option vmarea) :=
  kassert (c_true m);;
  v ← vmmap_of m;
  mret (lookup_area vfn (vmm_list v)).

Definition vmmap_clone (m : Z) : M vm Z :=
  clone ← vmmap_create;
  v ← vmmap_of m;
  mfor (vmm_list v) (fun vma =>
    i ← vmarea_alloc;
    (if i =? NULL then stop NullDeref else mret tt);;
    vmmap_insert clone
      (Vmarea i (vma_start vma) (vma_end vma) (vma_off vma) (vma_prot vma) (vma_flags vma) NULL NULL));;
  mret clone.

Definition vmmap_is_range_empty (m startvfn npages : Z) : M vm bool :=
  let endvfn := startvfn +u npages in
  kassert ((startvfn <? endvfn) && (ADDR_TO_PN USER_MEM_LOW <=? startvfn) &&
           (endvfn <=? ADDR_TO_PN USER_MEM_HIGH));;
  v ← vmmap_of m;
  mret (range_empty_loop startvfn endvfn (vmm_list v)).

(** [if (vma_curr->vma_start == vma_curr->vma_end)]: the area has no pages left. *)
Definition drop_if (b : bool) (m : Z) (vma : vmarea) : M vm unit :=
  when b (obj_put (vma_obj vma);; vmarea_unlink_free m (vma_id vma)).

(** The area loses its first pages. *)
Definition move_start (end_vfn : Z) (a : vmarea) : vmarea :=
  set_start end_vfn (set_off (vma_off a +u end_vfn -u vma_start a) a).

(** Case 1 of [vmmap_remove]: the region lies inside the area, which is split. *)
Definition remove_inside (cur m start_vfn end_vfn : Z) (vma : vmarea) : M vm unit :=
  split ← vmarea_alloc;
  (if split =? NULL then stop NullDeref else mret tt);;
  obj_ref (vma_obj vma);;
  upd_list m (area_upd (vma_id vma) (move_start end_vfn));;
  (if vma_start vma =? start_vfn then
     obj_put (vma_obj vma);; vmarea_free split
   else
     upd_list m (area_insert_before (vma_id vma)
       (Vmarea split (vma_start vma) start_vfn (vma_off vma) (vma_prot vma) (vma_flags vma)
          m (vma_obj vma))));;
  drop_if (end_vfn =? vma_end vma) m vma;;
  lift (pt_unmap_range cur (PN_TO_ADDR start_vfn) (PN_TO_ADDR end_vfn)).

(** Case 2: the region overlaps the end of the area. *)
Definition remove_back (m lopage : Z) (vma : vmarea) : M vm unit :=
  upd_list m (area_upd (vma_id vma) (set_end lopage));;
  drop_if (vma_start vma =? lopage) m vma.

(** Case 3: the region overlaps the beginning of the area. *)
Definition remove_front (m end_vfn : Z) (vma : vmarea) : M vm unit :=
  upd_list m (area_upd (vma_id vma) (move_start end_vfn));;
  drop_if (end_vfn =? vma_end vma) m vma.

(** Case 4: the region contains the area. *)
Definition remove_whole (cur m : Z) (vma : vmarea) : M vm unit :=
  drop_if true m vma;;
  lift (pt_unmap_range cur (PN_TO_ADDR (vma_start vma)) (PN_TO_ADDR (vma_end vma))).

(** The loop of [vmmap_remove] over the addresses of the areas; [cur] is the
    current process.  Case 1 leaves the loop. *)
Fixpoint vmmap_remove_loop (cur m lopage start_vfn end_vfn : Z) (ids : list Z) : M vm unit :=
  match ids with
  | [] => mret tt
  | i :: ids =>
      vma ← area m i;
      let flg_overlap := (vma_end vma <? start_vfn) || (end_vfn <? vma_start vma) in
      if (vma_start vma <=? start_vfn) && negb flg_overlap && (end_vfn <=? vma_end vma) then
        remove_inside cur m start_vfn end_vfn vma
      else
        (if (vma_end vma <? end_vfn) && (vma_start vma <=? start_vfn) && negb flg_overlap then
           remove_back m lopage vma
         else if (start_vfn <? vma_start vma) && (end_vfn <=? vma_end vma) && negb flg_overlap then
           remove_front m end_vfn vma
         else if (start_vfn <? vma_start vma) && (vma_end vma <? end_vfn) && negb flg_overlap then
           remove_whole cur m vma
         else mret tt);;
        vmmap_remove_loop cur m lopage start_vfn end_vfn ids
  end.

Definition vmmap_remove (cur m lopage npages : Z) : M vm Z :=
  v ← vmmap_of m;
  vmmap_remove_loop cur m lopage lopage (lopage +u npages) (vma_id <$> vmm_list v);;
  mret 0.

(** Where [vmmap_map] puts the new area: a page, or the error to return. *)
Definition map_place (cur m lopage npages dir : Z) : M vm (Z + Z) :=
  if lopage =? 0 then
    avail_space_start ← vmmap_find_range m npages dir;
    mret (if avail_space_start <? 0 then inl avail_space_start else inr (u32 avail_space_start))
  else
    empty ← vmmap_is_range_empty m lopage npages;
    when (negb empty) (vmmap_remove cur m lopage npages;; mret tt);;
    mret (inr lopage).

(** The object of the file, or a new anonymous object. *)
Definition map_bottom (file : Z) (vma : vmarea) : M vm Z :=
  o ← (if c_true file then r ← lift (vnode_mmap file vma); mret r.2 else lift anon_create);
  if o =? NULL then stop NullDeref else mret o.

(** The object [vmmap_map] gives the new area, which it links to its bottom object. *)
Definition map_object (file flags : Z) (vma : vmarea) : M vm Z :=
  o ← map_bottom file vma;
  lift (olink_insert o (vma_id vma));;
  if Z.land flags MAP_PRIVATE =? MAP_PRIVATE then
    sh ← lift shadow_create;
    lift (shadow_over sh o);;
    mret sh
  else mret o.

(** The result and the new area ([NULL] when there is none). *)
Definition vmmap_map (cur m file lopage npages prot flags off dir : Z) : M vm (Z * Z) :=
  kassert (c_true m);;
  kassert (0 <? npages);;
  kassert (c_true (Z.land MAP_SHARED flags) || c_true (Z.land MAP_PRIVATE flags));;
  kassert ((0 =? lopage) || (ADDR_TO_PN USER_MEM_LOW <=? lopage));;
  kassert ((0 =? lopage) || (lopage +u npages <=? ADDR_TO_PN USER_MEM_HIGH));;
  kassert (PAGE_ALIGNED off);;
  i ← vmarea_alloc;
  place ← map_place cur m lopage npages dir;
  match place with
  | inl err => mret (err, NULL)
  | inr addr_s =>
      (if i =? NULL then stop NullDeref else mret tt);;
      let vma := Vmarea i addr_s (addr_s +u npages) (ADDR_TO_PN off) prot flags NULL NULL in
      o ← map_object file flags vma;
      vmmap_insert m (set_obj o vma);;
      mret (0, i)
  end.

Definition min_uint32 (a b : Z) : Z := if a <? b then a else b.

(** The bytes [vmmap_read] copies, [done] of [count] already read. *)
Fixpoint vmmap_read_loop (fuel : nat) (m addr_s done count : Z) : M vm (list Z) :=
  if count <=? done then mret []
  else match fuel with
  | O => stop OutOfFuel
  | S fuel =>
      let vfn := ADDR_TO_PN addr_s in
      a ← vmmap_lookup m vfn;
      vma ← deref a;
      let pagenum := vfn -u (vma_start vma +u vma_off vma) in
      let start_pg_off := PAGE_OFFSET addr_s in
      s ← get;
      r ← lift (pframe_lookup (vm_maps s) (vma_obj vma) pagenum false);
      let read_size := min_uint32 (count -u done) (PAGE_SIZE -u start_pg_off) in
      (if r.2 =? NULL then stop NullDeref else mret tt);;
      bytes ← gets (fun s => take (Z.to_nat read_size) (drop (Z.to_nat start_pg_off) (pf_bytes r.2 (vm_mm s))));
      rest ← vmmap_read_loop fuel m (addr_s +u read_size) (done +u read_size) count;
      mret (bytes ++ rest)
  end.
Definition vmmap_read (m vaddr count : Z) : M vm (Z * list Z) :=
  bytes ← vmmap_read_loop (Z.to_nat count) m vaddr 0 count;
  mret (0, bytes).

(** Replace part of a page. *)
Definition splice (at_ : nat) (new old : list Z) : list Z :=
  take at_ old ++ new ++ drop (at_ + length new) old.

Fixpoint vmmap_write_loop (fuel : nat) (m addr_s : Z) (buf : list Z) (done count : Z) : M vm unit :=
  if count <=? done then mret tt
  else match fuel with
  | O => stop OutOfFuel
  | S fuel =>
      let vfn := ADDR_TO_PN addr_s in
      a ← vmmap_lookup m vfn;
      vma ← deref a;
      let pagenum := vfn -u vma_start vma +u vma_off vma in
      let start_pg_off := PAGE_OFFSET addr_s in
      s ← get;
      r ← lift (pframe_lookup (vm_maps s) (vma_obj vma) pagenum true);
      let write_size := count -u done in
      let write_size := if PAGE_SIZE -u start_pg_off <? write_size then PAGE_SIZE -u start_pg_off else write_size in
      (if r.2 =? NULL then stop NullDeref else mret tt);;
      s ← get;
      lift (pf_write r.2 (splice (Z.to_nat start_pg_off)
        (take (Z.to_nat write_size) (drop (Z.to_nat done) buf)) (pf_bytes r.2 (vm_mm s))));;
      lift (pframe_dirty r.2);;
      vmmap_write_loop fuel m (addr_s +u write_size) buf (done +u write_size) count
  end.
Definition vmmap_write (m vaddr : Z) (buf : list Z) (count : Z) : M vm Z :=
  vmmap_write_loop (Z.to_nat count) m vaddr buf 0 count;;
  mret 0.

End Vmmap.
