(* ===== verification/Areas.v ===== *)
(** Facts about lists of areas: what the pure loops of [Vmmap] compute on a
    well-formed address space. *)
From S2P Require Import Prelude.
From S2P Require Import Platform.
From S2P Require Import MmIface.
From S2P Require Import Vmmap.
From stdpp Require Import sorting.
Open Scope Z_scope.

(** ** Well-formed address spaces *)

Definition covers (a : vmarea) (vfn : Z) : Prop := vma_start a <= vfn < vma_end a.
Definition before (a b : vmarea) : Prop := vma_end a <= vma_start b.

Section Areas.
Context `{P : Platform}.

(** An area is a non-empty range of user pages, and the pages of its object do
    not wrap around. *)
Definition area_ok (a : vmarea) : Prop :=
  ADDR_TO_PN USER_MEM_LOW <= vma_start a /\ vma_start a < vma_end a /\
  vma_end a <= ADDR_TO_PN USER_MEM_HIGH /\
  0 <= vma_off a /\ vma_off a + (vma_end a - vma_start a) < 4294967296.

(** The areas are in order and do not overlap. *)
Record areas_ok (l : list vmarea) : Prop := {
  ao_sorted : StronglySorted before l;
  ao_each : Forall area_ok l;
  ao_ids : NoDup (vma_id <$> l)
}.

(** No area of [l] has a page in [lo, hi). *)
Definition range_free (lo hi : Z) (l : list vmarea) : Prop :=
  forall a v, a ∈ l -> lo <= v < hi -> ~ covers a v.

(** What an address space maps a page to: the object, the page of the object, and
    the rights; this is all a client of an address space can tell. *)
Definition maps_to (l : list vmarea) (v : Z) : option (Z * Z * Z * Z) :=
  a ← lookup_area v l; Some (vma_obj a, v - vma_start a + vma_off a, vma_prot a, vma_flags a).

(** ** Lookup *)

Lemma lookup_area_Some l v a :
  lookup_area v l = Some a -> a ∈ l /\ covers a v.
Proof.
  induction l as [|b l IH]; [done|]. cbn.
  destruct ((v <? vma_end b) && (vma_start b <=? v)) eqn:E.
  - intros [= ->]. zify_bool. split; [by left|]. unfold covers. lia.
  - intros H. destruct (IH H). split; [by right|done].
Qed.

Lemma lookup_area_None l v :
  lookup_area v l = None <-> forall a, a ∈ l -> ~ covers a v.
Proof.
  induction l as [|b l IH]; cbn.
  { split; [|done]. intros _ a ?%elem_of_nil. done. }
  destruct ((v <? vma_end b) && (vma_start b <=? v)) eqn:E.
  - split; [done|]. intros H. exfalso. apply (H b); [by left|]. zify_bool. unfold covers. lia.
  - rewrite IH. split.
    + intros H a [->|Ha]%elem_of_cons; [|by apply H].
      intros [H1 H2]. apply andb_false_iff in E as [E|E]; zify_bool; lia.
    + intros H a Ha. apply H. by right.
Qed.

(** On a sorted list at most one area covers a page, so lookup finds it. *)
Lemma covers_unique l a b v :
  StronglySorted before l -> Forall area_ok l ->
  a ∈ l -> b ∈ l -> covers a v -> covers b v -> a = b.
Proof.
  induction 1 as [|c l Hl IH Hc]; intros Hok; [by intros ?%elem_of_nil|].
  apply Forall_cons in Hok as [Hc' Hok]. rewrite Forall_forall in Hc. unfold before, covers in *.
  intros [->|Ha]%elem_of_cons [->|Hb]%elem_of_cons Hav Hbv; [done| | |by apply IH].
  - specialize (Hc _ Hb). lia.
  - specialize (Hc _ Ha). lia.
Qed.

Lemma lookup_area_iff l v a :
  areas_ok l -> lookup_area v l = Some a <-> a ∈ l /\ covers a v.
Proof.
  intros [Hs Hok _]. split; [apply lookup_area_Some|]. intros [Ha Hv].
  destruct (lookup_area v l) as [b|] eqn:E.
  - apply lookup_area_Some in E as [Hb Hbv]. f_equal. by eapply covers_unique.
  - rewrite lookup_area_None in E. by destruct (E a Ha).
Qed.

(** ** Free ranges *)

Lemma range_empty_loop_spec l lo hi :
  StronglySorted before l -> Forall area_ok l -> lo < hi ->
  range_empty_loop lo hi l = true <-> range_free lo hi l.
Proof.
  intros Hs. revert lo hi. induction Hs as [|a l Hl IH Ha]; intros lo hi Hok Hlt; cbn.
  { split; [|done]. intros _ a v ?%elem_of_nil. done. }
  apply Forall_cons in Hok as [Hok1 Hok]. destruct Hok1 as (? & ? & ? & _).
  rewrite Forall_forall in Ha. unfold before in Ha.
  destruct ((lo <? vma_end a) && (vma_start a <? hi)) eqn:E.
  { zify_bool. split; [done|]. intros H'. exfalso.
    apply (H' a (Z.max lo (vma_start a))); [by left|lia|unfold covers; lia]. }
  destruct ((lo <? vma_start a) && (hi <=? vma_start a)) eqn:E'.
  - zify_bool. split; [|done]. intros _ b v [->|Hb]%elem_of_cons Hv [Hc1 Hc2]; [lia|].
    specialize (Ha _ Hb). lia.
  - rewrite IH by done. split.
    + intros H' b v [->|Hb]%elem_of_cons Hv; [|by apply H'].
      intros [Hc1 Hc2]. apply andb_false_iff in E as [E|E]; zify_bool; lia.
    + intros H' b v Hb. apply H'. by right.
Qed.

(** The search from the top: [userspace_end] is the end of the free space below
    which the remaining areas [reverse l] lie. *)
Lemma find_range_loop_spec n e l :
  StronglySorted before l -> Forall area_ok l -> Forall (fun a => vma_end a <= e) l ->
  0 < n -> e <= ADDR_TO_PN USER_MEM_HIGH -> ADDR_TO_PN USER_MEM_HIGH < 1048576 ->
  0 < ADDR_TO_PN USER_MEM_LOW ->
  match find_range_loop n e (reverse l) with
  | Some r =>
      ADDR_TO_PN USER_MEM_LOW <= r /\ r + n <= e /\ range_free r (r + n) l /\
      (forall r', r < r' -> r' + n <= e -> ~ range_free r' (r' + n) l)
  | None =>
      (* whatever fits lies below the lowest area *)
      forall r', r' + n <= e -> range_free r' (r' + n) l ->
        match head l with Some a => r' + n <= vma_start a | None => True end
  end.
Proof.
  intros Hs. revert e. induction l as [|a l IH] using rev_ind; intros e Hok He Hn Heh Hh Hl; [done|].
  rewrite reverse_snoc. cbn [find_range_loop].
  apply Forall_app in Hok as [Hok Ha]. rewrite Forall_singleton in Ha. destruct Ha as (? & ? & ? & _).
  apply Forall_app in He as [He Hea]. rewrite Forall_singleton in Hea.
  apply StronglySorted_app in Hs as (Hx & Hs & _).
  assert (forall b, b ∈ l -> vma_end b <= vma_start a) as Hb.
  { intros b Hb. apply (Hx b a); [done|set_solver]. }
  rewrite u32_small by (unfold is_u32; lia).
  destruct (Z.leb_spec n (e - vma_end a)) as [Hfit|Hfit].
  - rewrite u32_small by (unfold is_u32; lia). split_and!; [lia|lia| | ].
    + intros b v [Hb'| ->%list_elem_of_singleton]%elem_of_app Hv [? ?]; [|lia].
      specialize (Hb _ Hb'). lia.
    + intros r' Hr Hr'. exfalso. lia.
  - assert (forall r', r' + n <= e -> range_free r' (r' + n) (l ++ [a]) -> r' + n <= vma_start a) as Hbelow.
    { intros r' Hr' Hfree. destruct (Z.le_gt_cases (r' + n) (vma_start a)); [done|exfalso].
      apply (Hfree a (Z.max r' (vma_start a))); [set_solver|lia|unfold covers; lia]. }
    assert (forall lo hi, range_free lo hi (l ++ [a]) -> range_free lo hi l) as Hsub.
    { intros lo hi Hf b v Hb'. apply Hf. set_solver. }
    assert (Forall (fun b => vma_end b <= vma_start a) l) as Hbs by by rewrite Forall_forall.
    specialize (IH Hs (vma_start a) Hok Hbs Hn ltac:(lia) Hh Hl).
    destruct (find_range_loop n (vma_start a) (reverse l)) as [r|].
    + destruct IH as (IH1 & IH2 & IH3 & IH4). split_and!; [done|lia| |].
      * intros b v [Hb'| ->%list_elem_of_singleton]%elem_of_app Hv; [by apply IH3|].
        unfold covers. lia.
      * intros r' Hr Hr' Hf. apply (IH4 r' Hr); [by apply Hbelow|by apply Hsub].
    + intros r' Hr' Hf. specialize (Hbelow _ Hr' Hf). destruct l as [|b l]; [done|].
      apply (IH r'); [done|by apply Hsub].
Qed.

(** ** Insertion *)

Lemma insert_area_perm x l : insert_area x l ≡ₚ x :: l.
Proof.
  induction l as [|a l IH]; [done|]. cbn. destruct (_ <=? _); [done|].
  rewrite IH. apply Permutation_swap.
Qed.

(** An area that overlaps no other is put where the order asks for it. *)
Lemma insert_area_sorted x l :
  StronglySorted before l -> Forall area_ok l -> area_ok x ->
  range_free (vma_start x) (vma_end x) l -> StronglySorted before (insert_area x l).
Proof.
  intros Hs Hok (? & Hx & ? & _) Hf. induction Hs as [|a l Hl IH Ha]; cbn.
  { repeat constructor. }
  apply Forall_cons in Hok as [(? & ? & ? & _) Hok].
  destruct (Z.leb_spec (vma_end x) (vma_start a)) as [Hle|Hgt].
  - constructor; [by constructor|]. constructor; [done|].
    eapply Forall_impl; [exact Ha|]. unfold before. intros b. lia.
  - constructor.
    { apply IH; [done|]. intros b v Hb. apply Hf. by right. }
    rewrite insert_area_perm. constructor; [|done]. unfold before.
    destruct (Z.le_gt_cases (vma_end a) (vma_start x)); [done|exfalso].
    apply (Hf a (Z.max (vma_start a) (vma_start x))); [by left|lia|unfold covers; lia].
Qed.

Lemma insert_area_ok x l :
  areas_ok l -> area_ok x -> vma_id x ∉ vma_id <$> l ->
  range_free (vma_start x) (vma_end x) l -> areas_ok (insert_area x l).
Proof.
  intros [Hs Hok Hid] Hx Hi Hf. split.
  - by apply insert_area_sorted.
  - rewrite insert_area_perm. by constructor.
  - rewrite insert_area_perm. cbn. by constructor.
Qed.

Lemma covers_dec a v : Decision (covers a v).
Proof. unfold covers. apply _. Defined.
#[local] Existing Instance covers_dec.

Lemma insert_area_lookup x l v :
  areas_ok (insert_area x l) -> areas_ok l ->
  lookup_area v (insert_area x l) = if decide (covers x v) then Some x else lookup_area v l.
Proof.
  intros Hok Hl. destruct (decide (covers x v)) as [Hv|Hv].
  - apply lookup_area_iff; [done|]. split; [|done]. rewrite insert_area_perm. by left.
  - destruct (lookup_area v l) as [a|] eqn:E.
    + apply lookup_area_iff; [done|]. apply lookup_area_Some in E as [Ha Hav].
      split; [|done]. rewrite insert_area_perm. by right.
    + rewrite lookup_area_None in E |- *. intros a. rewrite insert_area_perm.
      intros [->|Ha]%elem_of_cons; [done|by apply E].
Qed.

(** ** Removal *)

Definition set_id (x : Z) (a : vmarea) : vmarea :=
  Vmarea x (vma_start a) (vma_end a) (vma_off a) (vma_prot a) (vma_flags a) (vma_vmmap a) (vma_obj a).

(** What is left of an area above page [hi]. *)
Definition above (hi : Z) (a : vmarea) : vmarea :=
  set_start hi (set_off (vma_off a + (hi - vma_start a)) a).

(** What is left of area [a] when the pages [lo, hi) are unmapped; an area cut on
    both sides keeps its struct for the upper part and uses struct [sid] for the
    lower. *)
Definition cut (lo hi sid : Z) (a : vmarea) : list vmarea :=
  if (hi <=? vma_start a) || (vma_end a <=? lo) then [a]
  else
    (if vma_start a <? lo then [set_end lo (if hi <=? vma_end a then set_id sid a else a)] else []) ++
    (if hi <? vma_end a then [above hi a] else []).

Definition cuts (lo hi sid : Z) (l : list vmarea) : list vmarea := l ≫= cut lo hi sid.

Lemma lookup_area_app v l1 l2 :
  lookup_area v (l1 ++ l2) =
  match lookup_area v l1 with Some a => Some a | None => lookup_area v l2 end.
Proof. induction l1 as [|a l1 IH]; [done|]. cbn. by destruct (_ && _). Qed.

(** Unmapping takes the pages out of the range away, and nothing else. *)
Lemma cut_maps_to lo hi sid a v :
  lo < hi -> maps_to (cut lo hi sid a) v = if decide (lo <= v < hi) then None else maps_to [a] v.
Proof.
  intros Hlt. unfold cut, maps_to, above, set_id.
  destruct a; cbn.
  repeat (cbn; match goal with
    | |- context [?x <=? ?y] => destruct (Z.leb_spec x y)
    | |- context [?x <? ?y] => destruct (Z.ltb_spec x y)
    end);
  cbn; case_decide; try lia; try done; f_equal; f_equal; f_equal; f_equal; lia.
Qed.

Lemma maps_to_app v l1 l2 :
  maps_to (l1 ++ l2) v = match maps_to l1 v with Some x => Some x | None => maps_to l2 v end.
Proof. unfold maps_to. rewrite lookup_area_app. by destruct (lookup_area v l1). Qed.

Lemma cuts_maps_to lo hi sid l v :
  lo < hi -> maps_to (cuts lo hi sid l) v = if decide (lo <= v < hi) then None else maps_to l v.
Proof.
  intros Hlt. induction l as [|a l IH].
  { cbn. by case_decide. }
  unfold cuts in *. rewrite bind_cons, maps_to_app, IH, cut_maps_to by done.
  change (a :: l) with ([a] ++ l). rewrite (maps_to_app v [a] l).
  by case_decide; destruct (maps_to [a] v).
Qed.

Lemma cut_in lo hi sid a b :
  area_ok a -> lo < hi -> b ∈ cut lo hi sid a ->
  area_ok b /\ vma_start a <= vma_start b /\ vma_end b <= vma_end a /\
  vma_vmmap b = vma_vmmap a /\ vma_obj b = vma_obj a /\
  (vma_id b = vma_id a \/ vma_id b = sid /\ vma_start a < lo /\ hi <= vma_end a).
Proof.
  intros (? & ? & ? & ? & ?) Hlt. unfold cut, area_ok.
  destruct (Z.leb_spec hi (vma_start a)), (Z.leb_spec (vma_end a) lo); cbn [orb];
    try (intros ->%list_elem_of_singleton; repeat split; auto; lia).
  intros [Hb|Hb]%elem_of_app.
  - destruct (Z.ltb_spec (vma_start a) lo); [|by apply elem_of_nil in Hb].
    apply list_elem_of_singleton in Hb as ->.
    destruct (Z.leb_spec hi (vma_end a)); cbn; repeat split; auto; lia.
  - destruct (Z.ltb_spec hi (vma_end a)); [|by apply elem_of_nil in Hb].
    apply list_elem_of_singleton in Hb as ->. cbn; repeat split; auto; lia.
Qed.

Lemma above_move_start hi a :
  area_ok a -> vma_start a <= hi <= vma_end a -> move_start hi a = above hi a.
Proof.
  intros (? & ? & ? & ? & ?) ?. unfold move_start, above. f_equal. f_equal.
  rewrite <- u32_small by (unfold is_u32; lia). unfold u32. rewrite Zminus_mod_idemp_l. f_equal. lia.
Qed.

(** The struct for the lower part is used only when the range lies inside. *)
Lemma cut_sid lo hi sid sid' a :
  ~ (vma_start a <= lo /\ hi <= vma_end a) -> cut lo hi sid a = cut lo hi sid' a.
Proof.
  intros Hn. unfold cut. destruct (_ || _); [done|]. f_equal.
  destruct (Z.ltb_spec (vma_start a) lo), (Z.leb_spec hi (vma_end a)); try done. lia.
Qed.

Lemma cuts_sid lo hi sid sid' l :
  Forall (fun a => ~ (vma_start a <= lo /\ hi <= vma_end a)) l -> cuts lo hi sid l = cuts lo hi sid' l.
Proof.
  induction 1 as [|a l Ha Hl IH]; [done|]. unfold cuts in *. rewrite !bind_cons, IH.
  by rewrite (cut_sid lo hi sid sid' a).
Qed.

(** Areas above the range stay as they are. *)
Lemma cuts_above lo hi sid l : Forall (fun a => hi <= vma_start a) l -> cuts lo hi sid l = l.
Proof.
  induction 1 as [|a l Ha Hl IH]; [done|]. unfold cuts in *. rewrite bind_cons, IH.
  unfold cut. destruct (Z.leb_spec hi (vma_start a)); [done|lia].
Qed.

Lemma cut_sorted lo hi sid a :
  area_ok a -> lo < hi -> StronglySorted before (cut lo hi sid a).
Proof.
  intros (? & ? & ? & _) Hlt. unfold cut.
  destruct (Z.leb_spec hi (vma_start a)), (Z.leb_spec (vma_end a) lo),
    (Z.ltb_spec (vma_start a) lo), (Z.ltb_spec hi (vma_end a)); cbn;
    repeat constructor; unfold before; destruct (hi <=? vma_end a); cbn; lia.
Qed.

Lemma cuts_in lo hi sid l b :
  Forall area_ok l -> lo < hi -> b ∈ cuts lo hi sid l ->
  exists a, a ∈ l /\ area_ok b /\ vma_start a <= vma_start b /\ vma_end b <= vma_end a /\
  vma_vmmap b = vma_vmmap a /\ vma_obj b = vma_obj a /\
  (vma_id b = vma_id a \/ vma_id b = sid /\ vma_start a < lo /\ hi <= vma_end a).
Proof.
  intros Hok Hlt. unfold cuts. rewrite list_elem_of_bind. intros (a & Hb & Ha).
  exists a. split; [done|]. apply (cut_in lo hi sid a b); [|done|done].
  rewrite Forall_forall in Hok. by apply Hok.
Qed.

Lemma cuts_sorted lo hi sid l :
  StronglySorted before l -> Forall area_ok l -> lo < hi ->
  StronglySorted before (cuts lo hi sid l).
Proof.
  induction 1 as [|a l Hl IH Ha]; intros Hok Hlt; [constructor|].
  apply Forall_cons in Hok as [Hok1 Hok]. change (StronglySorted before (cut lo hi sid a ++ cuts lo hi sid l)).
  apply StronglySorted_app. split_and!; [|by apply cut_sorted|by apply IH].
  intros x y Hx Hy. apply cut_in in Hx as (_ & _ & Hx & _); [|done|done].
  apply cuts_in in Hy as (b & Hb & _ & Hy & _); [|done|done].
  rewrite Forall_forall in Ha. specialize (Ha b Hb). unfold before in *. lia.
Qed.

Lemma cut_ids lo hi sid a :
  area_ok a -> lo < hi -> sid <> vma_id a -> NoDup (vma_id <$> cut lo hi sid a).
Proof.
  intros (? & ? & ? & _) Hlt Hsid. unfold cut.
  destruct (Z.leb_spec hi (vma_start a)), (Z.leb_spec (vma_end a) lo),
    (Z.ltb_spec (vma_start a) lo), (Z.ltb_spec hi (vma_end a)); cbn;
    try apply NoDup_singleton; try constructor.
  - destruct (Z.leb_spec hi (vma_end a)); [|lia]. cbn. set_solver.
  - apply NoDup_singleton.
Qed.

Lemma cuts_ids lo hi sid l :
  StronglySorted before l -> Forall area_ok l -> lo < hi ->
  NoDup (vma_id <$> l) -> sid ∉ vma_id <$> l -> NoDup (vma_id <$> cuts lo hi sid l).
Proof.
  induction 1 as [|a l Hl IH Ha]; intros Hok Hlt Hnd Hsid; [constructor|].
  apply Forall_cons in Hok as [Hok1 Hok]. cbn in Hnd, Hsid.
  apply NoDup_cons in Hnd as [Hid Hnd]. apply not_elem_of_cons in Hsid as [Hsa Hsid].
  change (NoDup (vma_id <$> cut lo hi sid a ++ cuts lo hi sid l)).
  rewrite fmap_app. apply NoDup_app. split_and!; [by apply cut_ids| |by apply IH].
  intros i Hi Hi'. apply list_elem_of_fmap in Hi as (x & -> & Hx). apply list_elem_of_fmap in Hi' as (y & Heq & Hy).
  apply cut_in in Hx as (_ & _ & _ & _ & _ & Hx); [|done|done].
  apply cuts_in in Hy as (b & Hb & _ & _ & _ & _ & _ & Hy); [|done|done].
  assert (vma_id b ∈ vma_id <$> l) as Hbi by (by apply list_elem_of_fmap_2).
  rewrite Forall_forall in Ha. specialize (Ha b Hb). unfold before in Ha.
  destruct Hok1 as (? & ? & ? & _).
  destruct Hx as [Hx|(Hx & ? & ?)], Hy as [Hy|(Hy & ? & ?)]; rewrite ?Hx, ?Hy in *; try lia; congruence.
Qed.

Lemma cuts_ok lo hi sid l :
  areas_ok l -> lo < hi -> sid ∉ vma_id <$> l -> areas_ok (cuts lo hi sid l).
Proof.
  intros [Hs Hok Hid] Hlt Hsid. split; [by apply cuts_sorted| |by apply cuts_ids].
  rewrite Forall_forall. intros b Hb. by apply cuts_in in Hb as (? & ? & ? & _).
Qed.

End Areas.
