(* ===== verification/VmmapFacts.v ===== *)
(** Address spaces keep their form and account for every reference to a memory
    object: the operations of [Vmmap] against the laws of the memory objects. *)
From S2P Require Import Prelude.
From S2P Require Import Platform.
From S2P Require Import MmIface.
From S2P Require Import Vmmap.
From S2P Require Import Areas.
From stdpp Require Import sorting.
Open Scope Z_scope.

(** ** The list operations at a known place *)

Section Lists.
Implicit Types (a x : vmarea) (l : list vmarea).

Lemma area_get_mid l1 a l2 :
  vma_id a ∉ vma_id <$> l1 -> area_get (vma_id a) (l1 ++ a :: l2) = Some a.
Proof.
  intros Hn. unfold area_get. rewrite list_find_app_r.
  - cbn. by rewrite decide_True by done.
  - apply list_find_None, Forall_forall. intros b Hb ?. apply Hn.
    rewrite list_elem_of_fmap. by exists b.
Qed.

Lemma area_get_insert x l :
  vma_id x ∉ vma_id <$> l -> area_get (vma_id x) (insert_area x l) = Some x.
Proof.
  assert (forall l, area_get (vma_id x) (x :: l) = Some x) as Hh.
  { intros l'. unfold area_get. cbn. by rewrite decide_True by done. }
  induction l as [|a l IH]; [intros _; apply Hh|]. rewrite fmap_cons. intros [Hn Hl]%not_elem_of_cons. cbn.
  destruct (_ <=? _); [apply Hh|]. specialize (IH Hl). unfold area_get in *. cbn.
  rewrite decide_False by done. by destruct (list_find _ (insert_area x l)) as [[k y]|].
Qed.

Lemma area_upd_other i f l : i ∉ vma_id <$> l -> area_upd i f l = l.
Proof.
  induction l as [|a l IH]; [done|]. cbn. intros [? ?]%not_elem_of_cons.
  destruct (Z.eqb_spec (vma_id a) i); [by subst|]. f_equal. by apply IH.
Qed.

Lemma area_upd_mid f l1 a l2 :
  NoDup (vma_id <$> l1 ++ a :: l2) -> area_upd (vma_id a) f (l1 ++ a :: l2) = l1 ++ f a :: l2.
Proof.
  rewrite fmap_app, fmap_cons. intros (_ & H1 & [H2 _]%NoDup_cons)%NoDup_app.
  unfold area_upd. rewrite fmap_app, fmap_cons.
  fold (area_upd (vma_id a) f l1). fold (area_upd (vma_id a) f l2).
  rewrite !area_upd_other; [by rewrite Z.eqb_refl|done|]. intros Hi. apply (H1 _ Hi). by left.
Qed.

Lemma area_del_other i l : i ∉ vma_id <$> l -> area_del i l = l.
Proof.
  induction l as [|a l IH]; [done|]. rewrite fmap_cons. intros [? ?]%not_elem_of_cons.
  unfold area_del. rewrite filter_cons_True by auto. f_equal. by apply IH.
Qed.

Lemma area_del_mid l1 a l2 :
  NoDup (vma_id <$> l1 ++ a :: l2) -> area_del (vma_id a) (l1 ++ a :: l2) = l1 ++ l2.
Proof.
  rewrite fmap_app, fmap_cons. intros (_ & H1 & [H2 _]%NoDup_cons)%NoDup_app.
  unfold area_del. rewrite filter_app, filter_cons_False by auto.
  fold (area_del (vma_id a) l1). fold (area_del (vma_id a) l2).
  rewrite !area_del_other; [done|done|]. intros Hi. apply (H1 _ Hi). by left.
Qed.

Lemma area_insert_before_mid x l1 a l2 :
  vma_id a ∉ vma_id <$> l1 ->
  area_insert_before (vma_id a) x (l1 ++ a :: l2) = l1 ++ x :: a :: l2.
Proof.
  induction l1 as [|b l1 IH]; cbn.
  - by rewrite Z.eqb_refl.
  - intros [? ?]%not_elem_of_cons. destruct (Z.eqb_spec (vma_id b) (vma_id a)); [congruence|].
    by rewrite IH.
Qed.

Lemma perm_move {A} (i j : A) k k1 k2 k3 :
  k ++ j :: (k1 ++ i :: k2) ++ k3 ≡ₚ i :: k ++ j :: (k1 ++ k2) ++ k3.
Proof.
  rewrite <- (Permutation_middle k1). cbn. rewrite Permutation_swap.
  symmetry. apply Permutation_middle.
Qed.

End Lists.

(** ** Who holds references *)

(** The references held by a list of areas. *)
Definition objs (l : list vmarea) : gmultiset Z := list_to_set_disj (vma_obj <$> l).
(** The references held by all areas of the system. *)
Definition all_objs (maps : vmmaps) : gmultiset Z :=
  objs (map_to_list maps ≫= fun mv => vmm_list mv.2).

Lemma objs_app l1 l2 : objs (l1 ++ l2) = objs l1 ⊎ objs l2.
Proof. unfold objs. by rewrite fmap_app, list_to_set_disj_app. Qed.
Lemma objs_cons a l : objs (a :: l) = {[+ vma_obj a +]} ⊎ objs l.
Proof. done. Qed.
Lemma objs_perm l l' : l ≡ₚ l' -> objs l = objs l'.
Proof. intros H. unfold objs. apply list_to_set_disj_perm. by rewrite H. Qed.
Lemma objs_nil : objs [] = ∅.
Proof. done. Qed.
Lemma objs_singleton a : objs [a] = {[+ vma_obj a +]}.
Proof. rewrite objs_cons, objs_nil. multiset_solver. Qed.

Section Facts.
Context `{P : Platform} `{!PlatformOk P} {MM : Type} `{!MmOps MM} `{!MmLaws MM}.
Implicit Types (mm : MM) (l : list vmarea) (a x : vmarea) (T : gmultiset Z).

(** The address spaces are well formed, [F] are structs that are allocated but in
    no address space yet, and [T] are the references held from outside the memory
    objects. *)
Definition vm_inv (F : list Z) (T : gmultiset Z) (s : vm) : Prop :=
  maps_ok (vm_maps s) /\ mm_safe (F ++ live (vm_maps s)) (area_ids (vm_maps s)) T (vm_mm s).

(** The same while the allocated area [i] may be linked to an object already. *)
Definition vm_inv1 (i : Z) (F : list Z) (T : gmultiset Z) (s : vm) : Prop :=
  maps_ok (vm_maps s) /\
  mm_safe (i :: F ++ live (vm_maps s)) (i :: area_ids (vm_maps s)) T (vm_mm s).

Lemma vm_inv_1 i F T s : vm_inv (i :: F) T s -> vm_inv1 i F T s.
Proof.
  intros [Hok Hs]. split; [done|]. eapply mm_safe_weaken; [exact Hs|done|].
  intros j _ Hj. by right.
Qed.

(** An allocated struct outside the address spaces is linked to nothing. *)
Lemma vm_inv_new i F T s :
  vm_inv (i :: F) T s ->
  i <> NULL /\ i ∉ area_ids (vm_maps s) /\ olink_is_linked i (vm_mm s) = false.
Proof.
  intros [Hok Hs]. destruct (mm_live _ _ _ _ Hs) as [Hnd Hnn]. cbn in Hnd.
  apply NoDup_cons in Hnd as [Hi _]. unfold live in Hi.
  assert (i ∉ area_ids (vm_maps s)) as Hi' by set_solver. split_and!; [set_solver|done|].
  destruct (olink_is_linked i (vm_mm s)) eqn:El; [|done]. by apply (mm_linked _ _ _ _ _ Hs) in El.
Qed.

(** One address space [m] in sight, the others in [maps0]. *)
Section OneMap.
Variables (maps0 : vmmaps) (m p : Z).
Hypothesis m_new : maps0 !! m = None.

Definition st (l : list vmarea) (mm : MM) : vm := Vm (<[m := Vmmap l p]> maps0) mm.

Lemma st_ids l : area_ids (<[m := Vmmap l p]> maps0) ≡ₚ (vma_id <$> l) ++ area_ids maps0.
Proof. unfold area_ids. rewrite map_to_list_insert by done. cbn. by rewrite fmap_app. Qed.

Lemma st_maps_ok l :
  maps_ok (<[m := Vmmap l p]> maps0) <->
  NoDup ((vma_id <$> l) ++ area_ids maps0) /\ NULL ∉ (vma_id <$> l) ++ area_ids maps0 /\
  Forall (fun a => vma_vmmap a = m) l /\
  map_Forall (fun m v => Forall (fun a => vma_vmmap a = m) (vmm_list v)) maps0.
Proof. unfold maps_ok. rewrite st_ids, map_Forall_insert by done. done. Qed.

Lemma st_lookup l mm : vmmap_of m (st l mm) = Ok (Vmmap l p) (st l mm).
Proof. unfold vmmap_of. rewrite get_bind. cbn. by rewrite lookup_insert_eq. Qed.

Lemma st_upd l mm f : upd_list m f (st l mm) = Ok tt (st (f l) mm).
Proof.
  unfold upd_list. rewrite (bind_ok _ _ _ _ _ (st_lookup l mm)). unfold modify, set_map, st. cbn.
  by rewrite insert_insert_eq.
Qed.

Lemma st_live l : live (<[m := Vmmap l p]> maps0) ≡ₚ m :: (vma_id <$> l) ++ live maps0.
Proof.
  unfold live. rewrite st_ids, map_to_list_insert by done. cbn. constructor.
  rewrite !(assoc_L (++)). apply Permutation_app; [apply Permutation_app_comm|done].
Qed.

Lemma st_nodup F T l mm : vm_inv F T (st l mm) -> NoDup (vma_id <$> l).
Proof. intros [(H & _)%st_maps_ok _]. by apply NoDup_app in H as [? _]. Qed.

Lemma st_nonnull F T l1 a l2 mm : vm_inv F T (st (l1 ++ a :: l2) mm) -> vma_id a <> NULL.
Proof. intros [(_ & H & _)%st_maps_ok _]. set_solver. Qed.

Lemma st_area F T l1 a l2 mm :
  vm_inv F T (st (l1 ++ a :: l2) mm) -> area m (vma_id a) (st (l1 ++ a :: l2) mm) = Ok a (st (l1 ++ a :: l2) mm).
Proof.
  intros Hi. unfold area. rewrite (bind_ok _ _ _ _ _ (st_lookup _ mm)). cbn [vmm_list].
  rewrite area_get_mid; [done|]. apply st_nodup in Hi. rewrite fmap_app, fmap_cons in Hi.
  apply NoDup_app in Hi as (_ & H & _). intros Hi. apply (H _ Hi). by left.
Qed.

Lemma st_vmmap F T l mm : vm_inv F T (st l mm) -> Forall (fun a => vma_vmmap a = m) l.
Proof. intros [(_ & _ & H & _)%st_maps_ok _]. done. Qed.

(** Areas with the same addresses and the same owner are as good. *)
Lemma st_inv_same F T l l' mm :
  vma_id <$> l = vma_id <$> l' -> Forall (fun a => vma_vmmap a = m) l' ->
  vm_inv F T (st l mm) -> vm_inv F T (st l' mm).
Proof.
  intros Hid Hm [Hok Hs]. split; cbn in *.
  - apply st_maps_ok. apply st_maps_ok in Hok. rewrite Hid in Hok. tauto.
  - eapply mm_safe_weaken; [exact Hs| |].
    + by rewrite !st_live, Hid.
    + intros i _. by rewrite !st_ids, Hid.
Qed.

Lemma obj_put_ok F T l mm o :
  vm_inv F (T ⊎ {[+ o +]}) (st l mm) ->
  exists mm', obj_put o (st l mm) = Ok tt (st l mm') /\ vm_inv F T (st l mm') /\ same_links [] mm mm'.
Proof.
  intros [Hok Hs]. destruct (mm_put _ _ _ _ _ Hok Hs) as (mm' & E & Hs' & Hl).
  exists mm'. split; [|by split]. unfold obj_put. rewrite get_bind. unfold lift. by rewrite E.
Qed.

Lemma obj_ref_ok F T l mm o :
  vm_inv F T (st l mm) -> o ∈ T ->
  exists mm', obj_ref o (st l mm) = Ok tt (st l mm') /\ vm_inv F (T ⊎ {[+ o +]}) (st l mm') /\
    same_links [] mm mm'.
Proof.
  intros [Hok Hs] Ho. destruct (mm_ref _ _ _ _ o Hs Ho) as (mm' & E & Hs' & Hl).
  exists mm'. split; [|by split]. unfold obj_ref, lift. cbn in *. by rewrite E.
Qed.

Lemma pt_unmap_ok F T l mm cur lo hi :
  vm_inv F T (st l mm) ->
  exists mm', lift (pt_unmap_range cur lo hi) (st l mm) = Ok tt (st l mm') /\ vm_inv F T (st l mm').
Proof.
  intros [Hok Hs]. destruct (mm_pt_unmap _ _ _ _ cur lo hi Hs) as (mm' & E & Hs' & _).
  exists mm'. split; [|by split]. unfold lift. cbn in *. by rewrite E.
Qed.

(** What [vmarea_alloc] returns is new, and is nobody's area yet. *)
Definition new_area (i : Z) (l : list vmarea) (mm : MM) : Prop :=
  i <> NULL /\ i ∉ vma_id <$> l /\ i ∉ area_ids maps0 /\ olink_is_linked i mm = false.

Lemma vmarea_alloc_ok F T l mm :
  vm_inv F T (st l mm) ->
  exists i mm', vmarea_alloc (st l mm) = Ok i (st l mm') /\ vmarea_slab_alloc mm = Ok i mm' /\
    (i = NULL /\ vm_inv F T (st l mm') \/ vm_inv (i :: F) T (st l mm') /\ new_area i l mm').
Proof.
  intros [Hok Hs]. destruct (mm_vmarea_alloc _ _ _ _ Hs) as (i & mm' & E & _ & Hi0 & Hi).
  exists i, mm'. split_and!; [| done |].
  - unfold vmarea_alloc, lift. cbn in *. by rewrite E.
  - destruct (decide (i = NULL)) as [->|Hn]; [left; split; [done|by split; [|apply Hi0]]|right].
    destruct (Hi Hn) as [H1 _]. assert (vm_inv (i :: F) T (st l mm')) as Hi1 by by split.
    split; [done|]. destruct (vm_inv_new _ _ _ _ Hi1) as (_ & H2 & H3). cbn in H2. rewrite st_ids in H2.
    unfold new_area. set_solver.
Qed.

Lemma vmarea_free_ok F T l mm i :
  vm_inv (i :: F) T (st l mm) -> i <> NULL -> olink_is_linked i mm = false ->
  exists mm', vmarea_free i (st l mm) = Ok tt (st l mm') /\ vm_inv F T (st l mm').
Proof.
  intros [Hok Hs] Hi Hl. destruct (mm_vmarea_free _ _ _ _ i Hs Hl) as (mm' & E & Hs' & _).
  exists mm'. split; [|by split]. unfold vmarea_free.
  rewrite kassert_bind by (by apply c_true_spec). unfold lift. cbn in *. by rewrite E.
Qed.

(** Taking an area that is linked to no object out of the address space. *)
Lemma st_drop F T l1 a l2 mm :
  vm_inv F T (st (l1 ++ a :: l2) mm) -> olink_is_linked (vma_id a) mm = false ->
  vm_inv (vma_id a :: F) T (st (l1 ++ l2) mm).
Proof.
  intros [Hok Hs] Hl. split; cbn in *.
  - apply st_maps_ok. apply st_maps_ok in Hok as (H1 & H2 & H3 & H4).
    rewrite fmap_app, fmap_cons in H1, H2. rewrite fmap_app.
    rewrite <- Permutation_middle in H1. cbn in H1. apply NoDup_cons in H1 as [_ H1].
    split_and!; [done|set_solver| |done].
    apply Forall_app in H3 as [? [_ ?]%Forall_cons]. by apply Forall_app.
  - eapply mm_safe_weaken; [exact Hs| |].
    + by rewrite !st_live, !fmap_app, fmap_cons, perm_move.
    + intros i Hi. rewrite !st_ids, !fmap_app, !fmap_cons.
      destruct (decide (i = vma_id a)) as [->|]; [congruence|]. set_solver.
Qed.

Lemma vmarea_unlink_free_ok F T l1 a l2 mm :
  vm_inv F T (st (l1 ++ a :: l2) mm) ->
  exists mm', vmarea_unlink_free m (vma_id a) (st (l1 ++ a :: l2) mm) = Ok tt (st (l1 ++ l2) mm') /\
    vm_inv F T (st (l1 ++ l2) mm').
Proof.
  intros Hi. pose proof (st_nonnull _ _ _ _ _ _ Hi) as Hn. pose proof (st_nodup _ _ _ _ Hi) as Hnd.
  unfold vmarea_unlink_free. rewrite gets_bind.
  assert (exists mm1, when (olink_is_linked (vma_id a) mm) (lift (olink_remove (vma_id a)))
      (st (l1 ++ a :: l2) mm) = Ok tt (st (l1 ++ a :: l2) mm1) /\
    olink_is_linked (vma_id a) mm1 = false /\ vm_inv F T (st (l1 ++ a :: l2) mm1)) as (mm1 & E & Hl & Hi1).
  { destruct (olink_is_linked (vma_id a) mm) eqn:El.
    - destruct Hi as [Hok Hs]. cbn in Hs. destruct (mm_olink_remove _ _ _ _ _ Hs El) as (mm1 & E & Hs' & Hl & _).
      exists mm1. split_and!; [|done|by split]. unfold when, lift. cbn. by rewrite E.
    - by exists mm. }
  rewrite (bind_ok _ _ _ _ _ E), (bind_ok _ _ _ _ _ (st_upd _ _ _)), area_del_mid by done.
  apply vmarea_free_ok; [|done|done]. by apply (st_drop _ _ _ a).
Qed.

(** Releasing an area's object and dropping the area. *)
Lemma put_unlink_ok F T l1 a l2 mm :
  vm_inv F (T ⊎ {[+ vma_obj a +]}) (st (l1 ++ a :: l2) mm) ->
  exists mm', (obj_put (vma_obj a);; vmarea_unlink_free m (vma_id a)) (st (l1 ++ a :: l2) mm) =
      Ok tt (st (l1 ++ l2) mm') /\ vm_inv F T (st (l1 ++ l2) mm').
Proof.
  intros Hi. destruct (obj_put_ok _ _ _ _ _ Hi) as (mm1 & E & Hi1 & _).
  rewrite (bind_ok _ _ _ _ _ E). by apply vmarea_unlink_free_ok.
Qed.

(** Putting an allocated area into the address space. *)
Lemma st_add F T l1 x l2 mm :
  vm_inv1 (vma_id x) F T (st (l1 ++ l2) mm) -> vma_id x ∉ vma_id <$> l1 ++ l2 -> vma_id x ∉ area_ids maps0 ->
  vma_id x <> NULL -> vma_vmmap x = m -> vm_inv F T (st (l1 ++ x :: l2) mm).
Proof.
  intros [Hok Hs] H1 H2 H3 H4. split; cbn in *.
  - apply st_maps_ok. apply st_maps_ok in Hok as (H5 & H6 & H7 & H8).
    rewrite fmap_app in *. rewrite fmap_cons. split_and!; [| | |done].
    + rewrite <- Permutation_middle. cbn. constructor; [set_solver|done].
    + set_solver.
    + apply Forall_app in H7 as [? ?]. apply Forall_app. split; [done|by constructor].
  - eapply mm_safe_weaken; [exact Hs| |].
    + by rewrite !st_live, !fmap_app, fmap_cons, perm_move.
    + intros i _. rewrite !st_ids, !fmap_app, !fmap_cons. set_solver.
Qed.

(** [drop_if] at an area that was cut down to [a']. *)
Lemma drop_if_ok (b : bool) F T l1 a a' l2 mm :
  vma_id a' = vma_id a -> vma_obj a' = vma_obj a ->
  vm_inv F (T ⊎ {[+ vma_obj a +]}) (st (l1 ++ a' :: l2) mm) ->
  let l' := if b : bool then l1 ++ l2 else l1 ++ a' :: l2 in
  exists mm', drop_if b m a (st (l1 ++ a' :: l2) mm) = Ok tt (st l' mm') /\
    vm_inv F (if b then T else T ⊎ {[+ vma_obj a +]}) (st l' mm').
Proof.
  intros Hid Ho Hi. unfold drop_if, when. rewrite <- Hid, <- Ho in *. destruct b; [|by exists mm].
  by apply put_unlink_ok.
Qed.

(** Changing an area in place. *)
Lemma area_upd_ok (f : vmarea -> vmarea) F T l1 a l2 mm :
  vma_id (f a) = vma_id a -> vma_vmmap (f a) = vma_vmmap a ->
  vm_inv F T (st (l1 ++ a :: l2) mm) ->
  upd_list m (area_upd (vma_id a) f) (st (l1 ++ a :: l2) mm) = Ok tt (st (l1 ++ f a :: l2) mm) /\
  vm_inv F T (st (l1 ++ f a :: l2) mm).
Proof.
  intros Hid Hm Hi. rewrite st_upd. pose proof (st_nodup _ _ _ _ Hi).
  rewrite area_upd_mid by done. split; [done|].
  eapply st_inv_same; [|  |exact Hi].
  - rewrite !fmap_app, !fmap_cons. by rewrite Hid.
  - apply st_vmmap in Hi. apply Forall_app in Hi as [? [? ?]%Forall_cons].
    apply Forall_app. split; [done|]. constructor; [congruence|done].
Qed.

Section Remove.
Variables (cur lo hi : Z).
Hypothesis lo_hi : lo < hi.

(** The three cases that do not split an area do to it what [cut] does. *)
Definition cut_done (m' : M vm unit) (a : vmarea) : Prop := forall sid F T l1 l2 mm,
  vm_inv F (T ⊎ {[+ vma_obj a +]}) (st (l1 ++ a :: l2) mm) ->
  exists mm', m' (st (l1 ++ a :: l2) mm) = Ok tt (st (l1 ++ cut lo hi sid a ++ l2) mm') /\
    vm_inv F (T ⊎ objs (cut lo hi sid a)) (st (l1 ++ cut lo hi sid a ++ l2) mm').

Lemma remove_back_ok a :
  area_ok a -> lo <= vma_end a -> vma_end a < hi -> vma_start a <= lo ->
  cut_done (remove_back m lo a) a.
Proof.
  intros Ha H1 H2 H3 sid F T l1 l2 mm Hi. unfold remove_back.
  destruct (area_upd_ok (set_end lo) _ _ l1 a l2 mm eq_refl eq_refl Hi) as [E Hi1].
  rewrite (bind_ok _ _ _ _ _ E).
  destruct (drop_if_ok (vma_start a =? lo) F T l1 a (set_end lo a) l2 mm eq_refl eq_refl Hi1) as (mm' & E' & Hi').
  exists mm'. rewrite E'. destruct Ha as (? & ? & ? & ?).
  assert (cut lo hi sid a = if vma_start a =? lo then [] else [set_end lo a]) as ->.
  { unfold cut. destruct (Z.eqb_spec (vma_start a) lo).
    - repeat (case_match; zify_bool; try lia); done.
    - destruct (Z.eq_dec (vma_end a) lo) as [Heq|].
      + rewrite (proj2 (Z.leb_le (vma_end a) lo)), orb_true_r by lia. by rewrite <- Heq; destruct a.
      + repeat (case_match; zify_bool; try lia); done. }
  destruct (_ =? _); [by rewrite objs_nil, (right_id_L ∅ (⊎))|by rewrite objs_singleton].
Qed.

Lemma remove_front_ok a :
  area_ok a -> lo < vma_start a -> vma_start a <= hi -> hi <= vma_end a ->
  cut_done (remove_front m hi a) a.
Proof.
  intros Ha H1 H2 H3 sid F T l1 l2 mm Hi. unfold remove_front.
  destruct (area_upd_ok (move_start hi) _ _ l1 a l2 mm eq_refl eq_refl Hi) as [E Hi1].
  rewrite (bind_ok _ _ _ _ _ E).
  destruct (drop_if_ok (hi =? vma_end a) F T l1 a (move_start hi a) l2 mm eq_refl eq_refl Hi1) as (mm' & E' & Hi').
  exists mm'. rewrite E'. rewrite (above_move_start hi a) in * by done.
  destruct Ha as (? & ? & ? & ?).
  assert (cut lo hi sid a = if hi =? vma_end a then [] else [above hi a]) as ->.
  { unfold cut. destruct (Z.eq_dec hi (vma_start a)) as [Heq|].
    - rewrite (proj2 (Z.leb_le hi (vma_start a))) by lia. destruct (Z.eqb_spec hi (vma_end a)); [lia|].
      cbn. unfold above. rewrite <- Heq, Z.sub_diag, Z.add_0_r, Heq. by destruct a.
    - destruct (Z.eqb_spec hi (vma_end a)); repeat (case_match; zify_bool; try lia); done. }
  destruct (_ =? _); [by rewrite objs_nil, (right_id_L ∅ (⊎))|by rewrite objs_singleton].
Qed.

Lemma remove_whole_ok a :
  area_ok a -> lo < vma_start a -> vma_end a < hi -> cut_done (remove_whole cur m a) a.
Proof.
  intros Ha H1 H2 sid F T l1 l2 mm Hi. unfold remove_whole.
  destruct (drop_if_ok true F T l1 a a l2 mm eq_refl eq_refl Hi) as (mm1 & E & Hi1).
  rewrite (bind_ok _ _ _ _ _ E).
  destruct (pt_unmap_ok _ _ _ _ cur (PN_TO_ADDR (vma_start a)) (PN_TO_ADDR (vma_end a)) Hi1) as (mm' & E' & Hi').
  exists mm'. rewrite E'. destruct Ha as (? & ? & ? & ?).
  assert (cut lo hi sid a = []) as ->.
  { unfold cut. repeat (case_match; zify_bool; try lia); done. }
  by rewrite objs_nil, (right_id_L ∅ (⊎)).
Qed.

Lemma untouched_ok a :
  vma_end a < lo \/ hi < vma_start a -> cut_done (mret tt) a.
Proof.
  intros H sid F T l1 l2 mm Hi. exists mm.
  assert (cut lo hi sid a = [a]) as ->.
  { unfold cut. case_match; zify_bool; [done|]. lia. }
  by rewrite objs_singleton.
Qed.

Definition lower (sid : Z) (a : vmarea) : list vmarea :=
  if vma_start a =? lo then []
  else [Vmarea sid (vma_start a) lo (vma_off a) (vma_prot a) (vma_flags a) m (vma_obj a)].

Lemma cut_inside sid a :
  area_ok a -> vma_vmmap a = m -> vma_start a <= lo -> hi <= vma_end a ->
  cut lo hi sid a = lower sid a ++ if hi =? vma_end a then [] else [above hi a].
Proof.
  intros (? & ? & ? & ?) Hm ? ?. unfold cut, lower.
  destruct (Z.eqb_spec (vma_start a) lo), (Z.eqb_spec hi (vma_end a));
    repeat (case_match; zify_bool; try lia); try done; by rewrite <- Hm; destruct a.
Qed.

(** The lower part of a split area, with the reference taken for it. *)
Lemma split_lower_ok sid a F T l1 l2 mm :
  new_area sid (l1 ++ a :: l2) mm ->
  vm_inv (sid :: F) (T ⊎ {[+ vma_obj a +]} ⊎ {[+ vma_obj a +]}) (st (l1 ++ above hi a :: l2) mm) ->
  exists mm', (if vma_start a =? lo then obj_put (vma_obj a);; vmarea_free sid
      else upd_list m (area_insert_before (vma_id a)
        (Vmarea sid (vma_start a) lo (vma_off a) (vma_prot a) (vma_flags a) m (vma_obj a))))
      (st (l1 ++ above hi a :: l2) mm) = Ok tt (st ((l1 ++ lower sid a) ++ above hi a :: l2) mm') /\
    vm_inv F (T ⊎ objs (lower sid a) ⊎ {[+ vma_obj a +]}) (st ((l1 ++ lower sid a) ++ above hi a :: l2) mm').
Proof.
  intros (Hn & Hf1 & Hf2 & Hl) Hi. unfold lower. destruct (_ =? _).
  - destruct (obj_put_ok _ _ _ _ _ Hi) as (mm3 & Ep & Hip & Hlp). rewrite (bind_ok _ _ _ _ _ Ep).
    rewrite objs_nil, (right_id_L ∅ (⊎)), app_nil_r. apply vmarea_free_ok; [done|done|].
    by rewrite (Hlp sid) by apply not_elem_of_nil.
  - exists mm. rewrite st_upd, objs_singleton, <- app_assoc. cbn [app].
    change (vma_id a) with (vma_id (above hi a)). rewrite area_insert_before_mid.
    + split; [done|]. apply st_add; [by apply vm_inv_1| |done..]. by rewrite !fmap_app, !fmap_cons in *.
    + pose proof (st_nodup _ _ _ _ Hi) as Hnd. rewrite fmap_app, fmap_cons in Hnd.
      apply NoDup_app in Hnd as (_ & H & _). intros Hin. apply (H _ Hin). by left.
Qed.

(** Splitting needs a new area: without memory it stops, and otherwise it does
    what [cut] does. *)
Lemma remove_inside_ok a F T l1 l2 mm :
  area_ok a -> vma_start a <= lo -> hi <= vma_end a ->
  vm_inv F (T ⊎ {[+ vma_obj a +]}) (st (l1 ++ a :: l2) mm) ->
  (exists sid mm', remove_inside cur m lo hi a (st (l1 ++ a :: l2) mm) =
      Ok tt (st (l1 ++ cut lo hi sid a ++ l2) mm') /\
    vm_inv F (T ⊎ objs (cut lo hi sid a)) (st (l1 ++ cut lo hi sid a ++ l2) mm') /\
    sid ∉ vma_id <$> l1 ++ a :: l2 /\ sid ∉ area_ids maps0) \/
  (exists mm', vmarea_slab_alloc mm = Ok NULL mm' /\
    remove_inside cur m lo hi a (st (l1 ++ a :: l2) mm) = Halt NullDeref (st (l1 ++ a :: l2) mm')).
Proof.
  intros Ha H1 H2 Hi. unfold remove_inside.
  destruct (vmarea_alloc_ok _ _ _ _ Hi) as (sid & mm1 & E1 & Es & Hsid).
  rewrite (bind_ok _ _ _ _ _ E1). destruct Hsid as [[-> _]|[Hi1 (Hn & Hf1 & Hf2 & Hl)]].
  { right. by exists mm1. }
  left. exists sid. rewrite (proj2 (Z.eqb_neq _ _) Hn), ret_bind.
  destruct (obj_ref_ok _ _ _ _ (vma_obj a) Hi1) as (mm2 & E2 & Hi2 & Hl2); [multiset_solver|].
  rewrite (bind_ok _ _ _ _ _ E2).
  destruct (area_upd_ok (move_start hi) _ _ l1 a l2 mm2 eq_refl eq_refl Hi2) as [E3 Hi3].
  rewrite (bind_ok _ _ _ _ _ E3). rewrite (above_move_start hi a) in * by (auto; lia).
  assert (new_area sid (l1 ++ a :: l2) mm2) as Hnew
    by (split_and!; try done; by rewrite (Hl2 sid) by apply not_elem_of_nil).
  destruct (split_lower_ok sid a F T l1 l2 mm2 Hnew Hi3) as (mm4 & E4 & Hi4).
  rewrite (bind_ok _ _ _ _ _ E4).
  destruct (drop_if_ok (hi =? vma_end a) _ _ _ a (above hi a) l2 mm4 eq_refl eq_refl Hi4) as (mm5 & E5 & Hi5).
  rewrite (bind_ok _ _ _ _ _ E5).
  destruct (pt_unmap_ok _ _ _ _ cur (PN_TO_ADDR lo) (PN_TO_ADDR hi) Hi5) as (mm6 & E6 & Hi6).
  exists mm6. rewrite E6. apply st_vmmap in Hi as [_ [Hm _]%Forall_cons]%Forall_app.
  rewrite (cut_inside sid a) by done.
  destruct (hi =? vma_end a).
  - rewrite app_nil_r, (app_assoc l1). done.
  - rewrite objs_app, objs_singleton, (assoc_L (⊎)), <- !app_assoc in *. done.
Qed.

(** One turn of the loop that does not split. *)
Lemma remove_turn_ok a :
  area_ok a -> ~ (vma_start a <= lo /\ hi <= vma_end a) ->
  let flg_overlap := (vma_end a <? lo) || (hi <? vma_start a) in
  cut_done (if (vma_end a <? hi) && (vma_start a <=? lo) && negb flg_overlap then remove_back m lo a
    else if (lo <? vma_start a) && (hi <=? vma_end a) && negb flg_overlap then remove_front m hi a
    else if (lo <? vma_start a) && (vma_end a <? hi) && negb flg_overlap then remove_whole cur m a
    else mret tt) a.
Proof.
  intros Ha Hn. pose proof Ha as (? & ? & ? & _). cbn zeta.
  destruct (Z.ltb_spec (vma_end a) lo), (Z.ltb_spec hi (vma_start a)); cbn [orb negb];
    rewrite ?andb_false_r, ?andb_true_r; try (apply untouched_ok; lia).
  destruct (Z.ltb_spec (vma_end a) hi), (Z.leb_spec (vma_start a) lo); cbn [andb].
  - by apply remove_back_ok.
  - destruct (Z.ltb_spec lo (vma_start a)), (Z.leb_spec hi (vma_end a)); cbn; try lia.
    by apply remove_whole_ok.
  - lia.
  - destruct (Z.ltb_spec lo (vma_start a)), (Z.leb_spec hi (vma_end a)); cbn; try lia.
    apply remove_front_ok; (done || lia).
Qed.

(** The walk over the areas. *)
Lemma vmmap_remove_loop_ok l F T l1 mm :
  StronglySorted before l -> Forall area_ok l ->
  vm_inv F (T ⊎ objs l) (st (l1 ++ l) mm) ->
  (exists sid mm', vmmap_remove_loop cur m lo lo hi (vma_id <$> l) (st (l1 ++ l) mm) =
      Ok tt (st (l1 ++ cuts lo hi sid l) mm') /\
    vm_inv F (T ⊎ objs (cuts lo hi sid l)) (st (l1 ++ cuts lo hi sid l) mm') /\
    sid ∉ vma_id <$> l1 ++ l /\ sid ∉ area_ids maps0) \/
  (exists mm1 mm2 l', vmarea_slab_alloc mm1 = Ok NULL mm2 /\
    vmmap_remove_loop cur m lo lo hi (vma_id <$> l) (st (l1 ++ l) mm) = Halt NullDeref (st l' mm2)).
Proof.
  intros Hs. revert T l1 mm. induction Hs as [|a l Hl IH Hal]; intros T l1 mm Hok Hi.
  { left. exists (fresh ((vma_id <$> l1) ++ area_ids maps0)), mm. cbn. rewrite app_nil_r in *.
    split_and!; [done|done| |];
      pose proof (infinite_is_fresh ((vma_id <$> l1) ++ area_ids maps0)); set_solver. }
  apply Forall_cons in Hok as [Ha Hok]. rewrite fmap_cons. cbn [vmmap_remove_loop].
  rewrite (bind_ok _ _ _ _ _ (st_area _ _ _ _ _ _ Hi)).
  rewrite objs_cons in Hi. assert (Hi' : vm_inv F ((T ⊎ objs l) ⊎ {[+ vma_obj a +]}) (st (l1 ++ a :: l) mm)).
  { by rewrite <- (assoc_L (⊎)), (comm_L (⊎) (objs l)). }
  pose proof Ha as (? & ? & ? & _). rewrite Forall_forall in Hal. unfold before in Hal.
  destruct (decide (vma_start a <= lo /\ hi <= vma_end a)) as [[Hc1 Hc2]|Hn].
  - rewrite (proj2 (Z.leb_le _ _) Hc1), (proj2 (Z.leb_le _ _) Hc2).
    rewrite (proj2 (Z.ltb_ge (vma_end a) lo)), (proj2 (Z.ltb_ge hi (vma_start a))) by lia. cbn [orb negb andb].
    destruct (remove_inside_ok a _ _ l1 l mm Ha Hc1 Hc2 Hi') as [(sid & mm' & E & Hinv & Hf1 & Hf2)|(mm' & E & E')];
      [left|right; by exists mm, mm', (l1 ++ a :: l)].
    exists sid, mm'. unfold cuts. rewrite bind_cons. fold (cuts lo hi sid l).
    rewrite (cuts_above lo hi sid l) by (rewrite Forall_forall; intros b Hb; specialize (Hal b Hb); lia).
    rewrite objs_app, (comm_L (⊎) (objs (cut _ _ _ _))), (assoc_L (⊎)). done.
  - rewrite (proj2 (andb_false_iff _ _)) by (rewrite andb_false_iff, !Z.leb_gt; lia).
    set (sid0 := fresh ((vma_id <$> l1 ++ a :: l) ++ area_ids maps0)).
    pose proof (infinite_is_fresh ((vma_id <$> l1 ++ a :: l) ++ area_ids maps0)) as Hfr. fold sid0 in Hfr.
    destruct (remove_turn_ok a Ha Hn sid0 _ _ l1 l mm Hi') as (mm1 & E1 & Hi1).
    rewrite (bind_ok _ _ _ _ _ E1). rewrite app_assoc in Hi1 |- *.
    rewrite <- (assoc_L (⊎)), (comm_L (⊎) (objs l)), (assoc_L (⊎)) in Hi1.
    destruct (IH _ _ _ Hok Hi1) as [(sid & mm' & E & Hinv & Hf1 & Hf2)|?]; [left|by right].
    destruct (decide (vma_end a <= lo \/ hi <= vma_start a)) as [Hu|Hu].
    + assert (forall s, cut lo hi s a = [a]) as Hcut.
      { intros s. unfold cut. rewrite (proj2 (orb_true_iff _ _)); [done|]. rewrite !Z.leb_le. lia. }
      exists sid, mm'. unfold cuts. rewrite bind_cons. fold (cuts lo hi sid l). rewrite !Hcut in *.
      rewrite objs_app, (assoc_L (⊎)), !app_assoc, <- (app_assoc l1 [a] l) in *. done.
    + exists sid0, mm'. unfold cuts. rewrite bind_cons. fold (cuts lo hi sid0 l).
      assert (cuts lo hi sid l = cuts lo hi sid0 l) as Hc.
      { apply cuts_sid, Forall_forall. intros b Hb. specialize (Hal b Hb). lia. }
      rewrite Hc, <- ?app_assoc in *. rewrite objs_app, (assoc_L (⊎)). set_solver.
Qed.

End Remove.

(** ** Insertion *)

Lemma insert_area_split x l : exists l1 l2, l = l1 ++ l2 /\ insert_area x l = l1 ++ x :: l2.
Proof.
  induction l as [|a l (l1 & l2 & -> & E)]; [by exists [], []|]. cbn. destruct (_ <=? _).
  - by exists [], (a :: l1 ++ l2).
  - exists (a :: l1), l2. by rewrite E.
Qed.

Lemma vmmap_insert_ok F T l x mm :
  m <> NULL -> vm_inv1 (vma_id x) F T (st l mm) -> vma_id x <> NULL ->
  vma_id x ∉ vma_id <$> l -> vma_id x ∉ area_ids maps0 -> vma_vmmap x = NULL ->
  vma_start x < vma_end x -> ADDR_TO_PN USER_MEM_LOW <= vma_start x ->
  vma_end x <= ADDR_TO_PN USER_MEM_HIGH ->
  vmmap_insert m x (st l mm) = Ok tt (st (insert_area (set_vmmap m x) l) mm) /\
  vm_inv F T (st (insert_area (set_vmmap m x) l) mm).
Proof.
  intros Hm Hi Hn H1 H2 Hv Hlt Hlo Hhi. unfold vmmap_insert.
  rewrite !kassert_bind.
  - rewrite st_upd. split; [done|].
    destruct (insert_area_split (set_vmmap m x) l) as (l1 & l2 & -> & E). rewrite E. by apply st_add.
  - rewrite andb_true_iff, !Z.leb_le. done.
  - by apply Z.ltb_lt.
  - by apply Z.eqb_eq.
  - rewrite andb_true_iff, !c_true_spec. done.
Qed.

(** ** Destruction *)

Lemma vmmap_destroy_loop_ok F T l mm :
  vm_inv F (T ⊎ objs l) (st l mm) ->
  exists mm', mfor (vma_id <$> l) (fun i =>
      vma ← area m i; obj_put (vma_obj vma);; vmarea_unlink_free m i) (st l mm) = Ok tt (st [] mm') /\
    vm_inv F T (st [] mm').
Proof.
  revert mm. induction l as [|a l IH]; intros mm Hi.
  { exists mm. by rewrite objs_nil, (right_id_L ∅ (⊎)) in Hi. }
  rewrite fmap_cons. cbn [mfor]. rewrite bind_assoc, (bind_ok _ _ _ _ _ (st_area _ _ [] _ _ _ Hi)).
  rewrite objs_cons, (comm_L (⊎) {[+ _ +]}), (assoc_L (⊎)) in Hi.
  destruct (put_unlink_ok _ _ [] a l mm Hi) as (mm1 & E & Hi1). cbn [app] in *.
  rewrite (bind_ok _ _ _ _ _ E). by apply IH.
Qed.

End OneMap.

(** ** Whole address spaces *)

Lemma all_objs_insert maps m v :
  maps !! m = None -> all_objs (<[m := v]> maps) = objs (vmm_list v) ⊎ all_objs maps.
Proof.
  intros Hm. unfold all_objs, objs.
  rewrite (list_to_set_disj_perm _ (vma_obj <$> (vmm_list v ++ (map_to_list maps ≫= fun mv => vmm_list mv.2)))).
  - by rewrite fmap_app, list_to_set_disj_app.
  - by rewrite map_to_list_insert by done.
Qed.

(** An address space in sight. *)
Lemma st_of s m v :
  vm_maps s !! m = Some v ->
  s = st (delete m (vm_maps s)) m (vmm_proc v) (vmm_list v) (vm_mm s) /\
  delete m (vm_maps s) !! m = None /\
  all_objs (vm_maps s) = objs (vmm_list v) ⊎ all_objs (delete m (vm_maps s)).
Proof.
  intros Hm. assert (<[m := v]> (delete m (vm_maps s)) = vm_maps s) as E.
  { by rewrite insert_delete_eq, insert_id. }
  split_and!.
  - destruct s as [maps mm], v as [l p]. unfold st. cbn in *. by rewrite E.
  - apply lookup_delete_eq.
  - rewrite <- E at 1. apply all_objs_insert, lookup_delete_eq.
Qed.

End Facts.
