(* ===== verification/VmmapThms.v ===== *)
(** What the operations on address spaces promise: the mappings they establish
    and take away, and that every reference to a memory object has an owner
    afterwards. *)
From S2P Require Import Prelude.
From S2P Require Import Platform.
From S2P Require Import MmIface.
From S2P Require Import Vmmap.
From S2P Require Import Areas.
From S2P Require Import VmmapFacts.
From stdpp Require Import sorting.
Open Scope Z_scope.

Section Thms.
Context `{P : Platform} `{!PlatformOk P} {MM : Type} `{!MmOps MM} `{!MmLaws MM}.
Implicit Types (s : vm (MM:=MM)) (R : gmultiset Z) (F : list Z).

(** The address spaces are well formed, and the references to memory objects are
    those of the areas and [R]; [F] are structs that belong to no address space. *)
Record vm_ok (F : list Z) (R : gmultiset Z) (s : vm (MM:=MM)) : Prop := {
  vo_inv : vm_inv F (all_objs (vm_maps s) ⊎ R) s;
  vo_areas : map_Forall (fun m v => m <> NULL /\ areas_ok (vmm_list v)) (vm_maps s)
}.

Lemma vm_ok_st F R maps0 m p l mm :
  maps0 !! m = None -> m <> NULL -> areas_ok l ->
  map_Forall (fun m v => m <> NULL /\ areas_ok (vmm_list v)) maps0 ->
  vm_inv F ((all_objs maps0 ⊎ R) ⊎ objs l) (st maps0 m p l mm) ->
  vm_ok F R (st maps0 m p l mm).
Proof.
  intros Hm Hn Hl H0 Hi. split; cbn.
  - rewrite all_objs_insert by done. cbn. by rewrite <- (assoc_L (⊎)), (comm_L (⊎) (objs l)).
  - by apply map_Forall_insert.
Qed.

(** A state that is fine, with address space [m] in sight. *)
Lemma vm_ok_inv F R s m v :
  vm_ok F R s -> vm_maps s !! m = Some v ->
  let maps0 := delete m (vm_maps s) in
  s = st maps0 m (vmm_proc v) (vmm_list v) (vm_mm s) /\ maps0 !! m = None /\ m <> NULL /\
  areas_ok (vmm_list v) /\ map_Forall (fun m v => m <> NULL /\ areas_ok (vmm_list v)) maps0 /\
  vm_inv F ((all_objs maps0 ⊎ R) ⊎ objs (vmm_list v)) (st maps0 m (vmm_proc v) (vmm_list v) (vm_mm s)).
Proof.
  intros [Hi Ha] Hm maps0. destruct (st_of s m v Hm) as (E & H0 & Ho).
  destruct (Ha m v Hm) as [Hn Hl]. split_and!; [done|done|done|done|by apply map_Forall_delete|].
  rewrite Ho in Hi. unfold maps0. rewrite <- E.
  by rewrite (comm_L (⊎) _ (objs (vmm_list v))), (assoc_L (⊎)).
Qed.

(** ** Unmapping *)

Lemma vmmap_remove_st cur maps0 m p l lo n mm F T :
  maps0 !! m = None -> areas_ok l -> 0 <= lo -> 0 < n -> lo + n < 4294967296 ->
  vm_inv F (T ⊎ objs l) (st maps0 m p l mm) ->
  (exists l' mm', vmmap_remove cur m lo n (st maps0 m p l mm) = Ok 0 (st maps0 m p l' mm') /\
    vm_inv F (T ⊎ objs l') (st maps0 m p l' mm') /\ areas_ok l' /\
    forall v, maps_to l' v = if decide (lo <= v < lo + n) then None else maps_to l v) \/
  (exists mm1 mm2 l', vmarea_slab_alloc mm1 = Ok NULL mm2 /\
    vmmap_remove cur m lo n (st maps0 m p l mm) = Halt NullDeref (st maps0 m p l' mm2)).
Proof.
  intros H0 Hl Hlo Hn Hb Hi. unfold vmmap_remove.
  rewrite (bind_ok _ _ _ _ _ (st_lookup _ _ _ _ _)), u32_small by (unfold is_u32; lia).
  destruct (vmmap_remove_loop_ok maps0 m p H0 cur lo (lo + n) ltac:(lia) l F T [] mm
    (ao_sorted _ Hl) (ao_each _ Hl) Hi) as [(sid & mm' & E & Hi' & Hs & _)|(mm1 & mm2 & l' & E1 & E2)].
  - left. exists (cuts lo (lo + n) sid l), mm'. cbn [vmm_list]. rewrite (bind_ok _ _ _ _ _ E).
    split_and!; [done|done|apply cuts_ok; [done|lia|done]|]. intros v. apply cuts_maps_to. lia.
  - right. exists mm1, mm2, l'. split; [done|]. cbn [vmm_list]. by rewrite (bind_halt _ _ _ _ _ E2).
Qed.

Lemma remove_ok cur m lo n s v F R :
  vm_ok F R s -> vm_maps s !! m = Some v -> 0 <= lo -> 0 < n -> lo + n < 4294967296 ->
  (exists l' s', vmmap_remove cur m lo n s = Ok 0 s' /\ vm_ok F R s' /\
    vm_maps s' = <[m := Vmmap l' (vmm_proc v)]> (vm_maps s) /\
    forall pg, maps_to l' pg =
      if decide (lo <= pg < lo + n) then None else maps_to (vmm_list v) pg) \/
  (exists mm1 s', vmarea_slab_alloc mm1 = Ok NULL (vm_mm s') /\
    vmmap_remove cur m lo n s = Halt NullDeref s').
Proof.
  intros Hok Hm Hlo Hn Hb. destruct (vm_ok_inv _ _ _ _ _ Hok Hm) as (E & H0 & Hnn & Hl & Hms & Hi).
  rewrite E. destruct (vmmap_remove_st cur _ m _ _ lo n _ _ _ H0 Hl Hlo Hn Hb Hi)
    as [(l' & mm' & E' & Hi' & Hl' & Hmap)|(mm1 & mm2 & l' & E1 & E2)].
  - left. eexists l', _. split_and!; [exact E'|by apply vm_ok_st| |done].
    cbn. by rewrite insert_insert_eq.
  - right. eexists mm1, _. split; [|exact E2]. done.
Qed.

(** C10. vmmap_remove returns 0 with exactly the pages of the given range
    unmapped: every page outside keeps its object, page within the object,
    protection and flags, through all four overlap cases, splits included; the
    address space and the reference counts stay consistent, and the only crash is
    a failed allocation of the split area. *)
Theorem vmmap_remove_unmaps cur m lo n s v F R :
  vm_ok F R s -> vm_maps s !! m = Some v -> 0 <= lo -> 0 < n -> lo + n < 4294967296 ->
  (exists l' s', vmmap_remove cur m lo n s = Ok 0 s' /\ vm_ok F R s' /\
    vm_maps s' = <[m := Vmmap l' (vmm_proc v)]> (vm_maps s) /\
    forall pg, maps_to l' pg =
      if decide (lo <= pg < lo + n) then None else maps_to (vmm_list v) pg) \/
  (exists mm1 s', vmarea_slab_alloc mm1 = Ok NULL (vm_mm s') /\
    vmmap_remove cur m lo n s = Halt NullDeref s').
Proof. apply remove_ok. Qed.

(** ** Destroying an address space *)

Lemma destroy_ok m s v F R :
  vm_ok F R s -> vm_maps s !! m = Some v ->
  exists s', vmmap_destroy m s = Ok tt s' /\ vm_ok F R s' /\
    vm_maps s' = delete m (vm_maps s).
Proof.
  intros Hok Hm. destruct (vm_ok_inv _ _ _ _ _ Hok Hm) as (E & H0 & Hnn & Hl & Hms & Hi).
  rewrite E. unfold vmmap_destroy. rewrite kassert_bind by (by apply c_true_spec).
  rewrite (bind_ok _ _ _ _ _ (st_lookup _ _ _ _ _)).
  destruct (vmmap_destroy_loop_ok _ m (vmm_proc v) H0 _ _ _ _ Hi) as (mm1 & E1 & [Hmo Hs]).
  cbn [vmm_list]. rewrite (bind_ok _ _ _ _ _ E1). cbn in Hs.
  assert (mm_safe (m :: F ++ live (delete m (vm_maps s))) (area_ids (delete m (vm_maps s)))
    (all_objs (delete m (vm_maps s)) ⊎ R) mm1) as Hs'.
  { eapply mm_safe_weaken; [exact Hs| |].
    - rewrite st_live by done. cbn. by rewrite Permutation_middle.
    - intros i _. rewrite st_ids by done. done. }
  destruct (mm_vmmap_free _ _ _ _ _ Hs') as (mm2 & E2 & Hs2 & _).
  eexists. split.
  { erewrite bind_ok; [reflexivity|]. unfold lift. cbn. rewrite E2. reflexivity. }
  cbn. rewrite !delete_insert_eq, delete_id by done. split; [|done]. split; cbn.
  - split; [|done]. cbn. apply st_maps_ok in Hmo; [|done]. unfold maps_ok. tauto.
  - done.
Qed.

(** C30. vmmap_destroy removes exactly the address space it is given, drops its
    references to memory objects and its links to them, and leaves the other
    address spaces and all invariants intact. *)
Theorem vmmap_destroy_releases m s v F R :
  vm_ok F R s -> vm_maps s !! m = Some v ->
  exists s', vmmap_destroy m s = Ok tt s' /\ vm_ok F R s' /\
    vm_maps s' = delete m (vm_maps s).
Proof. apply destroy_ok. Qed.

(** ** Free ranges *)

Lemma head_before a l : StronglySorted before (a :: l) -> Forall area_ok (a :: l) ->
  forall b, b ∈ a :: l -> vma_start a <= vma_start b.
Proof.
  intros [_ Hs]%StronglySorted_inv [(? & ? & ? & _) _]%Forall_cons b [->|Hb]%elem_of_cons; [done|].
  rewrite Forall_forall in Hs. specialize (Hs b Hb). unfold before in Hs. lia.
Qed.

(** Pages of user space. *)
Definition user_range (lo hi : Z) : Prop :=
  ADDR_TO_PN USER_MEM_LOW <= lo /\ hi <= ADDR_TO_PN USER_MEM_HIGH.

(** [r] is the highest place of user space where [n] pages are free. *)
Definition highest_fit (n : Z) (l : list vmarea) (r : Z) : Prop :=
  user_range r (r + n) /\ range_free r (r + n) l /\
  forall r', r < r' -> user_range r' (r' + n) -> ~ range_free r' (r' + n) l.

Lemma find_range_spec n l m p maps0 (mm : MM) :
  l <> [] -> areas_ok l -> 0 < n ->
  (exists r, vmmap_find_range m n VMMAP_DIR_HILO (st maps0 m p l mm) = Ok r (st maps0 m p l mm) /\
    0 <= r /\ highest_fit n l r) \/
  vmmap_find_range m n VMMAP_DIR_HILO (st maps0 m p l mm) = Ok (-1) (st maps0 m p l mm) /\
    (forall r, user_range r (r + n) -> ~ range_free r (r + n) l).
Proof.
  intros Hne [Hs Hok _] Hn. pose proof user_pages as (Hp1 & Hp2 & Hp3). unfold vmmap_find_range.
  rewrite (bind_ok _ _ _ _ _ (st_lookup _ _ _ _ _)), Z.eqb_refl. cbn [vmm_list].
  assert (Forall (fun a => vma_end a <= ADDR_TO_PN USER_MEM_HIGH) l) as Hhi.
  { eapply Forall_impl; [exact Hok|]. intros a (? & ? & ? & _). done. }
  pose proof (find_range_loop_spec n (ADDR_TO_PN USER_MEM_HIGH) l Hs Hok Hhi Hn
    ltac:(lia) Hp3 Hp1) as H.
  unfold highest_fit, user_range. destruct (find_range_loop _ _ _) as [r|].
  { left. destruct H as (H1 & H2 & H3 & H4). exists r. rewrite s32_small by lia. naive_solver lia. }
  destruct l as [|a l]; [done|]. cbn [head] in *. rewrite (deref_bind _ a) by done.
  pose proof (head_before a l Hs Hok) as Hb. apply Forall_cons in Hok as [(? & ? & ? & _) Hok].
  rewrite u32_small by (unfold is_u32; lia).
  destruct (Z.leb_spec n (vma_start a - ADDR_TO_PN USER_MEM_LOW)) as [Hfit|Hfit].
  - left. exists (vma_start a - n). rewrite u32_small, s32_small by (unfold is_u32; lia).
    split_and!; [done|lia|lia|lia| |].
    + intros b v Hin Hv [? ?]. specialize (Hb b Hin). lia.
    + intros r' Hr [? ?] Hf. specialize (H r' ltac:(lia) Hf). lia.
  - right. split; [done|]. intros r' [? ?] Hf. specialize (H r' ltac:(lia) Hf). lia.
Qed.

(** C31. vmmap_find_range searching downwards in a non-empty address space returns
    the start of the highest free range of the requested length, or -1 exactly
    when no free range of that length exists. *)
Theorem vmmap_find_range_highest m n s v :
  vm_maps s !! m = Some v -> vmm_list v <> [] -> areas_ok (vmm_list v) -> 0 < n ->
  (exists r, vmmap_find_range m n VMMAP_DIR_HILO s = Ok r s /\
    0 <= r /\ highest_fit n (vmm_list v) r) \/
  vmmap_find_range m n VMMAP_DIR_HILO s = Ok (-1) s /\
    (forall r, user_range r (r + n) -> ~ range_free r (r + n) (vmm_list v)).
Proof.
  intros Hm Hne Hl Hn. destruct (st_of s m v Hm) as (E & _).
  pose proof (find_range_spec n (vmm_list v) m (vmm_proc v) (delete m (vm_maps s)) (vm_mm s) Hne Hl Hn) as H.
  by rewrite <- E in H.
Qed.

Lemma is_range_empty_spec lo n l m p maps0 (mm : MM) :
  areas_ok l -> 0 < n -> user_range lo (lo + n) ->
  exists b, vmmap_is_range_empty m lo n (st maps0 m p l mm) = Ok b (st maps0 m p l mm) /\
    (b = true <-> range_free lo (lo + n) l).
Proof.
  intros [Hs Hok _] Hn [H1 H2]. pose proof user_pages as (Hp1 & Hp2 & Hp3).
  unfold vmmap_is_range_empty. rewrite u32_small by (unfold is_u32; lia).
  rewrite kassert_bind by (rewrite !andb_true_iff, Z.ltb_lt, !Z.leb_le; lia).
  rewrite (bind_ok _ _ _ _ _ (st_lookup _ _ _ _ _)). eexists. split; [reflexivity|].
  apply range_empty_loop_spec; [done|done|lia].
Qed.

(** vmmap_is_range_empty returns 1 exactly when no page of the range is mapped. *)
Theorem vmmap_is_range_empty_iff m lo n s v :
  vm_maps s !! m = Some v -> areas_ok (vmm_list v) -> 0 < n -> user_range lo (lo + n) ->
  exists b, vmmap_is_range_empty m lo n s = Ok b s /\
    (b = true <-> forall pg, lo <= pg < lo + n -> maps_to (vmm_list v) pg = None).
Proof.
  intros Hm Hl Hn Hu. destruct (st_of s m v Hm) as (E & _).
  destruct (is_range_empty_spec lo n (vmm_list v) m (vmm_proc v) (delete m (vm_maps s)) (vm_mm s) Hl Hn Hu)
    as (b & E' & Hb). rewrite <- E in E'. exists b. split; [done|]. rewrite Hb. unfold maps_to, range_free.
  split.
  - intros H pg Hpg. rewrite (proj2 (lookup_area_None _ _)); [done|]. intros a Ha. by apply H.
  - intros H a pg Ha Hpg Hc. specialize (H pg Hpg).
    by rewrite (proj2 (lookup_area_iff _ pg a Hl)) in H.
Qed.

(** ** Mapping *)

(** A state just after an allocation that failed. *)
Definition alloc_failed (mm' : MM) : Prop := exists mm,
  vmarea_slab_alloc mm = Ok NULL mm' \/ anon_create mm = Halt NullDeref mm' \/
  shadow_create mm = Halt NullDeref mm' \/
  exists file vma r, vnode_mmap file vma mm = Ok (r, NULL) mm'.

Lemma lift_ok {A} (k : M MM A) maps mm a mm' :
  k mm = Ok a mm' -> lift k (Vm maps mm) = Ok a (Vm maps mm').
Proof. unfold lift. cbn. by intros ->. Qed.

Lemma lift_halt {A} (k : M MM A) maps mm h mm' :
  k mm = Halt h mm' -> lift k (Vm maps mm) = Halt h (Vm maps mm').
Proof. unfold lift. cbn. by intros ->. Qed.

(** The object of the bottom of a new mapping. *)
Lemma map_bottom_ok L I R mm file vma maps :
  mm_safe L I R mm ->
  (exists o mm', map_bottom file vma (Vm maps mm) = Ok o (Vm maps mm') /\
    mm_safe L I (R ⊎ {[+ o +]}) mm' /\ same_links [] mm mm') \/
  (exists mm', map_bottom file vma (Vm maps mm) = Halt NullDeref (Vm maps mm') /\ alloc_failed mm').
Proof.
  intros Hs. unfold map_bottom. destruct (c_true file).
  - destruct (mm_vnode_mmap _ _ _ _ file vma Hs) as (r & o & mm' & E & Hl & Ho).
    rewrite bind_assoc, (bind_ok _ _ _ _ _ (lift_ok _ maps _ _ _ E)), ret_bind. cbn [snd].
    destruct (Z.eqb_spec o NULL) as [->|Hn].
    + right. exists mm'. split; [done|]. exists mm. right. right. right. by exists file, vma, r.
    + left. exists o, mm'. split_and!; auto.
  - destruct (mm_anon_create _ _ _ _ Hs) as [(mm' & E)|(o & mm' & E & Hn & Hs' & Hl)].
    + right. exists mm'. rewrite (bind_halt _ _ _ _ _ (lift_halt _ maps _ _ _ E)).
      split; [done|]. exists mm. tauto.
    + left. exists o, mm'. rewrite (bind_ok _ _ _ _ _ (lift_ok _ maps _ _ _ E)).
      by rewrite (proj2 (Z.eqb_neq _ _) Hn).
Qed.

Lemma map_object_ok i F T file flags vma maps mm :
  vma_id vma = i -> vm_inv (i :: F) T (Vm maps mm) -> olink_is_linked i mm = false ->
  (exists o mm', map_object file flags vma (Vm maps mm) = Ok o (Vm maps mm') /\
    vm_inv1 i F (T ⊎ {[+ o +]}) (Vm maps mm')) \/
  (exists mm', map_object file flags vma (Vm maps mm) = Halt NullDeref (Vm maps mm') /\
    alloc_failed mm').
Proof.
  intros Hid [Hok Hs] Hl. unfold map_object. rewrite Hid. cbn in Hs, Hok.
  destruct (map_bottom_ok _ _ _ _ file vma maps Hs) as [(o & mm1 & E & Hs1 & Hl1)|(mm1 & E & Hf)].
  2: { right. exists mm1. by rewrite (bind_halt _ _ _ _ _ E). }
  rewrite (bind_ok _ _ _ _ _ E).
  destruct (mm_olink_insert _ _ _ _ o i Hs1) as (mm2 & E2 & Hs2 & _); [eapply mm_obj_held; [done|multiset_solver]|by left| |].
  { by rewrite (Hl1 i) by apply not_elem_of_nil. }
  rewrite (bind_ok _ _ _ _ _ (lift_ok _ maps _ _ _ E2)).
  destruct (_ =? MAP_PRIVATE).
  - destruct (mm_shadow _ _ _ _ _ Hs2) as [(mm3 & E3)|(sh & mm3 & mm4 & E3 & Hsh & E4 & Hs4 & _)].
    + right. exists mm3. rewrite (bind_halt _ _ _ _ _ (lift_halt _ maps _ _ _ E3)).
      split; [done|]. exists mm2. tauto.
    + left. exists sh, mm4. rewrite (bind_ok _ _ _ _ _ (lift_ok _ maps _ _ _ E3)).
      rewrite (bind_ok _ _ _ _ _ (lift_ok _ maps _ _ _ E4)). done.
  - left. exists o, mm2. done.
Qed.

(** Where a new mapping goes: pages [lo, lo+n), free in what is left of [l]. *)
Definition placed (lopage n lo : Z) (l l' : list vmarea) : Prop :=
  areas_ok l' /\ range_free lo (lo + n) l' /\ user_range lo (lo + n) /\
  (if lopage =? 0 then highest_fit n l lo else lo = lopage) /\
  forall pg, maps_to l' pg = if decide (lo <= pg < lo + n) then None else maps_to l pg.

Lemma range_free_maps_to lo hi l :
  range_free lo hi l <-> forall pg, lo <= pg < hi -> maps_to l pg = None.
Proof.
  unfold range_free, maps_to. split.
  - intros H pg Hpg. rewrite (proj2 (lookup_area_None _ _)); [done|]. intros a Ha. by apply H.
  - intros H a pg Ha Hpg Hc. specialize (H pg Hpg).
    destruct (lookup_area pg l) eqn:E; [done|]. rewrite lookup_area_None in E. by apply (E a).
Qed.

Lemma placed_same lopage n lo l :
  areas_ok l -> range_free lo (lo + n) l -> user_range lo (lo + n) ->
  (if lopage =? 0 then highest_fit n l lo else lo = lopage) -> placed lopage n lo l l.
Proof.
  intros Hl Hf Hu Hp. split_and!; [done..|]. intros pg. case_decide as Hpg; [|done].
  by apply (proj1 (range_free_maps_to _ _ _) Hf).
Qed.

Lemma map_place_ok cur maps0 m p l lopage n mm F T :
  maps0 !! m = None -> areas_ok l -> 0 < n ->
  lopage = 0 /\ l <> [] \/ user_range lopage (lopage + n) ->
  vm_inv F (T ⊎ objs l) (st maps0 m p l mm) ->
  (exists lo l' mm', map_place cur m lopage n VMMAP_DIR_HILO (st maps0 m p l mm) =
      Ok (inr lo) (st maps0 m p l' mm') /\
    vm_inv F (T ⊎ objs l') (st maps0 m p l' mm') /\ placed lopage n lo l l') \/
  map_place cur m lopage n VMMAP_DIR_HILO (st maps0 m p l mm) = Ok (inl (-1)) (st maps0 m p l mm) /\
    lopage = 0 /\ (forall r, user_range r (r + n) -> ~ range_free r (r + n) l) \/
  (exists mm' l', map_place cur m lopage n VMMAP_DIR_HILO (st maps0 m p l mm) =
      Halt NullDeref (st maps0 m p l' mm') /\ alloc_failed mm').
Proof.
  intros H0 Hl Hn Hlo Hi. pose proof user_pages as (Hp1 & Hp2 & Hp3). unfold map_place.
  destruct (Z.eqb_spec lopage 0) as [->|Hne].
  - destruct Hlo as [[_ Hne]|[? _]]; [|lia].
    destruct (find_range_spec n l m p maps0 mm Hne Hl Hn) as [(r & E & Hr & Hfit)|[E Hno]];
      rewrite (bind_ok _ _ _ _ _ E); [left|right; left; done].
    destruct (Z.ltb_spec r 0); [lia|]. destruct Hfit as (Hu & Hf & Hhi). destruct Hu as [? ?].
    exists r, l, mm. rewrite u32_small by (unfold is_u32; lia). by split_and!; [|done|apply placed_same].
  - destruct Hlo as [[? _]|[Hu1 Hu2]]; [done|].
    destruct (is_range_empty_spec lopage n l m p maps0 mm Hl Hn (conj Hu1 Hu2)) as (b & E & Hb).
    rewrite (bind_ok _ _ _ _ _ E).
    assert ((if lopage =? 0 then highest_fit n l lopage else lopage = lopage)) as Hpl
      by by rewrite (proj2 (Z.eqb_neq _ _) Hne).
    destruct b; cbn [negb when].
    { left. exists lopage, l, mm. split_and!; [done|done|]. by apply placed_same; [|apply Hb| |]. }
    destruct (vmmap_remove_st cur maps0 m p l lopage n mm F T H0 Hl ltac:(lia) Hn ltac:(lia) Hi)
      as [(l' & mm' & E' & Hi' & Hl' & Hmap)|(mm1 & mm2 & l' & E1 & E2)].
    + left. exists lopage, l', mm'. rewrite !bind_assoc, (bind_ok _ _ _ _ _ E'). split_and!; [done|done|].
      split_and!; [done| |done|done|done]. apply range_free_maps_to. intros pg Hpg.
      rewrite Hmap. by rewrite decide_True.
    + right. right. exists mm2, l'. rewrite !bind_assoc, (bind_halt _ _ _ _ _ E2). split; [done|].
      exists mm1. tauto.
Qed.

(** The last step of [vmmap_map]. *)
Lemma map_insert_ok i lo n off prot flags o maps0 m p l mm F T :
  maps0 !! m = None -> m <> NULL -> areas_ok l -> range_free lo (lo + n) l -> user_range lo (lo + n) ->
  0 < n -> is_u32 off -> i <> NULL -> i ∉ vma_id <$> l -> i ∉ area_ids maps0 ->
  vm_inv1 i F (T ⊎ objs l ⊎ {[+ o +]}) (st maps0 m p l mm) ->
  let x := Vmarea i lo (lo + n) (ADDR_TO_PN off) prot flags NULL o in
  exists l', vmmap_insert m x (st maps0 m p l mm) = Ok tt (st maps0 m p l' mm) /\
    vm_inv F (T ⊎ objs l') (st maps0 m p l' mm) /\ areas_ok l' /\
    area_get i l' = Some (set_vmmap m x) /\
    forall pg, maps_to l' pg = if decide (lo <= pg < lo + n)
      then Some (o, pg - lo + ADDR_TO_PN off, prot, flags) else maps_to l pg.
Proof.
  intros H0 Hm Hl Hf [Hu1 Hu2] Hn Hoff Hi Hi1 Hi2 Hinv x. pose proof user_pages as (Hp1 & Hp2 & Hp3).
  destruct (vmmap_insert_ok maps0 m p H0 _ _ l x mm Hm Hinv Hi Hi1 Hi2 eq_refl) as [E Hinv']; [cbn; lia..|].
  assert (0 <= ADDR_TO_PN off < 1048576) as Hoffp.
  { rewrite addr_to_pn_eq by done. destruct Hoff. split; [by apply Z.div_pos|].
    apply Z.div_lt_upper_bound; lia. }
  assert (areas_ok (insert_area (set_vmmap m x) l)) as Hl'.
  { apply insert_area_ok; [done| |done|done]. unfold area_ok. cbn. lia. }
  eexists. split_and!; [exact E| |done|by apply (area_get_insert (set_vmmap m x))|].
  - rewrite (objs_perm _ _ (insert_area_perm _ _)), objs_cons. change (vma_obj (set_vmmap m x)) with o. by rewrite (comm_L (⊎) {[+ o +]}), (assoc_L (⊎)).
  - intros pg. unfold maps_to at 1. rewrite insert_area_lookup by done.
    unfold covers. change (vma_start (set_vmmap m x)) with lo. change (vma_end (set_vmmap m x)) with (lo + n).
    by repeat case_decide.
Qed.

(** [vmmap_map] once its arguments are checked. *)
Definition map_body (cur m file lopage n prot flags off : Z) : M (vm (MM:=MM)) (Z * Z) :=
  i ← vmarea_alloc;
  place ← map_place cur m lopage n VMMAP_DIR_HILO;
  match place with
  | inl err => mret (err, NULL)
  | inr addr_s =>
      (if i =? NULL then stop NullDeref else mret tt);;
      let vma := Vmarea i addr_s (addr_s +u n) (ADDR_TO_PN off) prot flags NULL NULL in
      o ← map_object file flags vma;
      vmmap_insert m (set_obj o vma);;
      mret (0, i)
  end.

Lemma map_body_ok cur maps0 m p l file lopage n prot flags off mm F T :
  maps0 !! m = None -> m <> NULL -> areas_ok l -> 0 < n -> is_u32 off ->
  lopage = 0 /\ l <> [] \/ user_range lopage (lopage + n) ->
  vm_inv F (T ⊎ objs l) (st maps0 m p l mm) ->
  let res := map_body cur m file lopage n prot flags off (st maps0 m p l mm) in
  (exists i lo l' o mm', res = Ok (0, i) (st maps0 m p l' mm') /\
    vm_inv F (T ⊎ objs l') (st maps0 m p l' mm') /\ areas_ok l' /\
    (if lopage =? 0 then highest_fit n l lo else lo = lopage) /\ user_range lo (lo + n) /\
    area_get i l' = Some (Vmarea i lo (lo + n) (ADDR_TO_PN off) prot flags m o) /\
    forall pg, maps_to l' pg = if decide (lo <= pg < lo + n)
      then Some (o, pg - lo + ADDR_TO_PN off, prot, flags) else maps_to l pg) \/
  (exists mm', res = Ok (-1, NULL) (st maps0 m p l mm') /\ lopage = 0 /\
    (forall lo, user_range lo (lo + n) -> ~ range_free lo (lo + n) l) /\
    (vm_inv F (T ⊎ objs l) (st maps0 m p l mm') \/
     exists i, vm_inv (i :: F) (T ⊎ objs l) (st maps0 m p l mm'))) \/
  (exists mm' l', res = Halt NullDeref (st maps0 m p l' mm') /\
    (alloc_failed mm' \/ exists mm', vmarea_slab_alloc mm = Ok NULL mm')).
Proof.
  intros H0 Hnn Hl Hn Hoff Hlo Hi res. pose proof user_pages as (Hp1 & Hp2 & Hp3).
  destruct (vmarea_alloc_ok maps0 m p H0 _ _ _ _ Hi) as (i & mm1 & E1 & Es & Hi1).
  unfold res, map_body. rewrite (bind_ok _ _ _ _ _ E1). clear E1.
  assert (exists F', vm_inv F' (T ⊎ objs l) (st maps0 m p l mm1) /\
    (i = NULL /\ F' = F \/ i <> NULL /\ F' = i :: F)) as (F' & HF & Hcase).
  { destruct Hi1 as [[-> ?]|[? (? & _)]]; eauto 10. }
  destruct (map_place_ok cur maps0 m p l lopage n mm1 F' T H0 Hl Hn Hlo HF)
    as [(lo & l1 & mm2 & E2 & Hi2 & Hl1 & Hf1 & Hu & Hp & Hmap)|[(E2 & -> & Hno)|(mm2 & l1 & E2 & Hfail)]].
  - rewrite (bind_ok _ _ _ _ _ E2). destruct Hcase as [[-> ->]|[Hin ->]].
    { right. right. exists mm2, l1. split; [done|]. eauto. }
    rewrite (proj2 (Z.eqb_neq _ _) Hin), ret_bind. destruct Hu as [Hu1 Hu2].
    rewrite u32_small by (unfold is_u32; lia). cbn zeta.
    destruct (vm_inv_new _ _ _ _ Hi2) as (_ & Hia & Hlk). cbn in Hia. rewrite st_ids in Hia by done.
    set (vma := Vmarea i lo _ _ _ _ _ _).
    destruct (map_object_ok i F _ file flags vma _ mm2 eq_refl Hi2 Hlk) as [(o & mm3 & E3 & Hi3)|(mm3 & E3 & Hfail)].
    2: { right. right. exists mm3, l1. rewrite (bind_halt _ _ _ _ _ E3). split; [done|by left]. }
    fold (st maps0 m p l1 mm3) in E3. rewrite (bind_ok _ _ _ _ _ E3).
    destruct (map_insert_ok i lo n off prot flags o maps0 m p l1 mm3 F T H0 Hnn Hl1 Hf1 (conj Hu1 Hu2) Hn Hoff Hin
      ltac:(set_solver) ltac:(set_solver) Hi3) as (l' & E4 & Hi4 & Hl4 & Hget & Hmap4).
    left. exists i, lo, l', o, mm3. rewrite (bind_ok _ _ _ _ _ E4). split_and!; [done..|].
    intros pg. rewrite Hmap4, Hmap. by case_decide.
  - right. left. rewrite (bind_ok _ _ _ _ _ E2). exists mm1. split_and!; [done..|].
    destruct Hcase as [[_ ->]|[_ ->]]; eauto.
  - right. right. exists mm2, l1. rewrite (bind_halt _ _ _ _ _ E2). split; [done|by left].
Qed.

(** What [vmmap_map] leaves: the new mapping at its place, or no change but the
    area it has allocated. *)
Definition map_result (lopage n prot flags off : Z) (F : list Z) (R : gmultiset Z) (m : Z) (v : vmmap)
    (s : vm (MM:=MM)) (r i : Z) (s' : vm) : Prop :=
  (r = 0 /\ vm_ok F R s' /\ exists lo l' o,
    (if lopage =? 0 then highest_fit n (vmm_list v) lo else lo = lopage) /\ user_range lo (lo + n) /\
    area_get i l' = Some (Vmarea i lo (lo + n) (ADDR_TO_PN off) prot flags m o) /\
    vm_maps s' = <[m := Vmmap l' (vmm_proc v)]> (vm_maps s) /\
    forall pg, maps_to l' pg = if decide (lo <= pg < lo + n)
      then Some (o, pg - lo + ADDR_TO_PN off, prot, flags) else maps_to (vmm_list v) pg) \/
  (r = -1 /\ lopage = 0 /\ vm_maps s' = vm_maps s /\
    (forall lo, user_range lo (lo + n) -> ~ range_free lo (lo + n) (vmm_list v)) /\
    (vm_ok F R s' \/ exists i, vm_ok (i :: F) R s')).

Lemma map_cases cur m file lopage n prot flags off s v F R :
  vm_ok F R s -> vm_maps s !! m = Some v -> 0 < n -> is_u32 off -> PAGE_ALIGNED off = true ->
  Z.land MAP_SHARED flags <> 0 \/ Z.land MAP_PRIVATE flags <> 0 ->
  lopage = 0 /\ vmm_list v <> [] \/ user_range lopage (lopage + n) ->
  (exists r i s', vmmap_map cur m file lopage n prot flags off VMMAP_DIR_HILO s = Ok (r, i) s' /\
    map_result lopage n prot flags off F R m v s r i s') \/
  (exists s', vmmap_map cur m file lopage n prot flags off VMMAP_DIR_HILO s = Halt NullDeref s' /\
    (alloc_failed (vm_mm s') \/ exists mm', vmarea_slab_alloc (vm_mm s) = Ok NULL mm')).
Proof.
  intros Hok Hm Hn Hoff Hal Hfl Hlo.
  destruct (vm_ok_inv _ _ _ _ _ Hok Hm) as (E & H0 & Hnn & Hl & Hms & Hi).
  pose proof user_pages as (Hp1 & Hp2 & Hp3).
  set (maps0 := delete m (vm_maps s)) in *. set (p := vmm_proc v) in *. set (l := vmm_list v) in *.
  assert (vm_maps s = <[m := Vmmap l p]> maps0) as Emaps by (by rewrite E).
  unfold vmmap_map. rewrite !kassert_bind; first last.
  { by apply c_true_spec. } { by apply Z.ltb_lt. }
  { rewrite orb_true_iff, !c_true_spec. done. }
  { rewrite orb_true_iff, Z.eqb_eq, Z.leb_le. destruct Hlo as [[-> _]|[? ?]]; lia. }
  { rewrite orb_true_iff, Z.eqb_eq, Z.leb_le.
    destruct Hlo as [[-> _]|[? ?]]; [by left|right]. rewrite u32_small by (unfold is_u32; lia). lia. }
  { done. }
  change ((exists r i s', map_body cur m file lopage n prot flags off s = Ok (r, i) s' /\
    map_result lopage n prot flags off F R m v s r i s') \/
  (exists s', map_body cur m file lopage n prot flags off s = Halt NullDeref s' /\
    (alloc_failed (vm_mm s') \/ exists mm', vmarea_slab_alloc (vm_mm s) = Ok NULL mm'))).
  destruct (map_body_ok cur maps0 m p l file lopage n prot flags off (vm_mm s) F _ H0 Hnn Hl Hn Hoff Hlo Hi)
    as [(i & lo & l' & o & mm' & E' & Hi' & Hl' & Hp & Hu & Hget & Hmap)|
        [(mm' & E' & -> & Hno & Hi')|(mm' & l' & E' & Hf)]]; rewrite <- E in E'.
  - left. exists 0, i, (st maps0 m p l' mm'). split; [done|]. left. split_and!; [done|by apply vm_ok_st|].
    exists lo, l', o. split_and!; [done..| |done]. rewrite Emaps. cbn. by rewrite insert_insert_eq.
  - left. exists (-1), NULL, (st maps0 m p l mm'). split; [done|]. right. split_and!; [done|done|by rewrite Emaps|done|].
    destruct Hi' as [Hi'|(i & Hi')]; [left|right; exists i]; by apply vm_ok_st.
  - right. by exists (st maps0 m p l' mm').
Qed.


(** A mapping that was made leaves the address spaces in order. *)
Lemma map_keeps_ok cur m file lopage n prot flags off s v F R i s' :
  vm_ok F R s -> vm_maps s !! m = Some v -> 0 < n -> is_u32 off -> PAGE_ALIGNED off = true ->
  Z.land MAP_SHARED flags <> 0 \/ Z.land MAP_PRIVATE flags <> 0 ->
  lopage = 0 /\ vmm_list v <> [] \/ user_range lopage (lopage + n) ->
  vmmap_map cur m file lopage n prot flags off VMMAP_DIR_HILO s = Ok (0, i) s' -> vm_ok F R s'.
Proof.
  intros H1 H2 H3 H4 H5 H6 H7 E.
  destruct (map_cases cur m file lopage n prot flags off s v F R H1 H2 H3 H4 H5 H6 H7)
    as [(r & i' & s1 & E1 & [(_ & ? & _)|(? & _)])|(s1 & E1 & _)]; rewrite E in E1; simplify_eq; done.
Qed.

Lemma create_ok F R s :
  vm_ok F R s ->
  (exists m s', vmmap_create s = Ok m s' /\ m <> NULL /\ vm_maps s !! m = None /\
    vm_maps s' = <[m := Vmmap [] NULL]> (vm_maps s) /\ vm_ok F R s') \/
  (exists s', vmmap_create s = Ok NULL s' /\ vm_maps s' = vm_maps s /\ vm_ok F R s').
Proof.
  intros [Hi Ha]. destruct s as [maps mm]. destruct Hi as [Hmo Hs]. cbn in *.
  destruct (mm_vmmap_alloc _ _ _ _ Hs) as (c & mm1 & E1 & _ & Hc0 & Hc).
  unfold vmmap_create. rewrite (bind_ok _ _ _ _ _ (lift_ok _ maps _ _ _ E1)).
  destruct (decide (c = NULL)) as [->|Hcn].
  { right. exists (Vm maps mm1). split_and!; [done|done|]. split; [|done]. split; [done|]. by apply Hc0. }
  left. destruct (Hc Hcn) as [Hs1 Hnew]. rewrite (proj2 (c_true_spec c) Hcn). cbn [when]. rewrite modify_bind.
  change (set_map _ _ _) with (st maps c NULL [] mm1).
  assert (maps !! c = None) as H0.
  { apply eq_None_not_Some. intros [w Hw]. apply Hnew, elem_of_app. right. unfold live. apply elem_of_app. left.
    apply list_elem_of_fmap. exists (c, w). split; [done|]. by apply elem_of_map_to_list. }
  exists c, (st maps c NULL [] mm1). split_and!; [done..|].
  apply vm_ok_st; [done|done|by split; constructor|done|]. rewrite objs_nil, (right_id_L ∅ (⊎)). split; cbn.
  - apply st_maps_ok; [done|]. cbn. destruct Hmo as (? & ? & ?). by split_and!.
  - eapply mm_safe_weaken; [exact Hs1| |].
    + rewrite st_live by done. cbn. by rewrite Permutation_middle.
    + intros i _. by rewrite st_ids by done.
Qed.

(** ** Cloning *)

(** [b] is a copy of area [a] in address space [c], without an object. *)
Definition clone_of (c : Z) (a b : vmarea) : Prop :=
  vma_start b = vma_start a /\ vma_end b = vma_end a /\ vma_off b = vma_off a /\
  vma_prot b = vma_prot a /\ vma_flags b = vma_flags a /\ vma_vmmap b = c /\ vma_obj b = NULL.

Lemma insert_area_tail x l :
  area_ok x -> Forall (fun a => area_ok a /\ before a x) l -> insert_area x l = l ++ [x].
Proof.
  intros (? & ? & ? & _). induction 1 as [|a l [(? & ? & ? & _) Ha] Hl IH]; [done|]. cbn.
  unfold before in Ha. destruct (Z.leb_spec (vma_end x) (vma_start a)); [lia|]. by rewrite IH.
Qed.

Lemma clone_loop_ok maps0 c T F l done_ l1 mm :
  maps0 !! c = None -> c <> NULL -> Forall2 (clone_of c) done_ l1 -> areas_ok (done_ ++ l) ->
  Forall (fun b => olink_is_linked (vma_id b) mm = false) l1 -> vm_inv F T (st maps0 c NULL l1 mm) ->
  let res := mfor l (fun vma =>
    i ← vmarea_alloc;
    (if i =? NULL then stop NullDeref else mret tt);;
    vmmap_insert c
      (Vmarea i (vma_start vma) (vma_end vma) (vma_off vma) (vma_prot vma) (vma_flags vma) NULL NULL))
    (st maps0 c NULL l1 mm) in
  (exists l2 mm', res = Ok tt (st maps0 c NULL l2 mm') /\
    Forall2 (clone_of c) (done_ ++ l) l2 /\ Forall (fun b => olink_is_linked (vma_id b) mm' = false) l2 /\
    vm_inv F T (st maps0 c NULL l2 mm')) \/
  (exists l2 mm', res = Halt NullDeref (st maps0 c NULL l2 mm') /\ alloc_failed mm').
Proof.
  intros H0 Hc. revert done_ l1 mm. induction l as [|a l IH]; intros done_ l1 mm Hd Hok Hul Hi; cbn.
  { left. exists l1, mm. by rewrite app_nil_r. }
  destruct (vmarea_alloc_ok maps0 c NULL H0 _ _ _ _ Hi) as (i & mm1 & E1 & Es & Hi1).
  rewrite !bind_assoc, (bind_ok _ _ _ _ _ E1).
  destruct Hi1 as [[-> _]|[Hi1 (Hn & Hf1 & Hf2 & Hul1)]].
  { right. exists l1, mm1. split; [done|]. exists mm. by left. }
  rewrite (proj2 (Z.eqb_neq _ _) Hn), !bind_assoc, ret_bind.
  set (x := Vmarea i _ _ _ _ _ _ _).
  destruct Hok as [Hs Hok Hids]. pose proof Hok as Hok'.
  apply Forall_app in Hok' as [Hokd [Hoka _]%Forall_cons].
  apply StronglySorted_app in Hs as Hs'. destruct Hs' as (Hx & _ & _).
  pose proof Hoka as (? & ? & ? & ? & ?).
  destruct (vmmap_insert_ok maps0 c NULL H0 F T l1 x mm1 Hc (vm_inv_1 _ _ _ _ Hi1) Hn Hf1 Hf2 eq_refl)
    as [E2 Hi2]; [done..|].
  rewrite (bind_ok _ _ _ _ _ E2).
  assert (insert_area (set_vmmap c x) l1 = l1 ++ [set_vmmap c x]) as Ht.
  { apply insert_area_tail; [done|]. rewrite Forall_forall. intros b Hb.
    apply list_elem_of_lookup in Hb as [k Hk].
    destruct (Forall2_lookup_r _ _ _ _ _ Hd Hk) as (a' & Hk' & Hcl).
    apply list_elem_of_lookup_2 in Hk'. rewrite Forall_forall in Hokd.
    specialize (Hokd _ Hk'). specialize (Hx a' a Hk' ltac:(set_solver)).
    destruct Hcl as (Eq1 & Eq2 & Eq3 & _). unfold area_ok, before in *. cbn. rewrite Eq1, Eq2, Eq3. done. }
  rewrite Ht in *.
  destruct (IH (done_ ++ [a]) (l1 ++ [set_vmmap c x]) mm1) as [(l2 & mm' & E3 & Hd' & Hul' & Hi')|?].
  - apply Forall2_app; [done|]. by repeat constructor.
  - by rewrite <- app_assoc.
  - apply Forall_app. split; [|by repeat constructor]. eapply Forall_impl; [exact Hul|]. intros b Hb.
    destruct Hi as [_ Hs0]. destruct (mm_vmarea_alloc _ _ _ _ Hs0) as (i' & mm1' & E' & Hlk & _).
    cbn in E'. rewrite Es in E'. simplify_eq. by rewrite (Hlk (vma_id b)) by apply not_elem_of_nil.
  - done.
  - left. exists l2, mm'. rewrite <- app_assoc in Hd'. done.
  - by right.
Qed.

Lemma clone_ok m s v F R :
  vm_ok F R s -> vm_maps s !! m = Some v ->
  (exists c l' s', vmmap_clone m s = Ok c s' /\ c ∉ dom (vm_maps s) /\ c <> NULL /\
    vm_maps s' = <[c := Vmmap l' NULL]> (vm_maps s) /\ Forall2 (clone_of c) (vmm_list v) l' /\
    Forall (fun b => olink_is_linked (vma_id b) (vm_mm s') = false) l' /\
    vm_inv F (all_objs (vm_maps s) ⊎ R) s') \/
  (exists s', vmmap_clone m s = Halt NullDeref s' /\ alloc_failed (vm_mm s')) \/
  (exists s', vmmap_create s = Ok NULL s').
Proof.
  intros Hok Hm. destruct (vo_areas _ _ _ Hok m v Hm) as [_ Hl].
  destruct (create_ok F R s Hok) as [(c & s1 & E1 & Hcn & H0 & Em & Hok1)|(s1 & E1 & _)]; [|right; right; by exists s1].
  destruct s as [maps mm], s1 as [maps1 mm1]. cbn in *. subst maps1.
  assert (vm_inv F (all_objs maps ⊎ R) (st maps c NULL [] mm1)) as Hi1.
  { destruct Hok1 as [Hi1 _]. cbn [vm_maps] in Hi1. rewrite all_objs_insert in Hi1 by done.
    cbn [vmm_list] in Hi1. by rewrite objs_nil, (left_id_L ∅ (⊎)) in Hi1. }
  unfold vmmap_clone. rewrite (bind_ok _ _ _ _ _ E1). fold (st maps c NULL [] mm1).
  rewrite (bind_ok _ _ _ v (st maps c NULL [] mm1)); first last.
  { unfold vmmap_of. rewrite get_bind. cbn. rewrite lookup_insert_ne, Hm; [done|]. intros ->. congruence. }
  destruct (clone_loop_ok maps c _ F (vmm_list v) [] [] mm1 H0 Hcn ltac:(constructor) Hl ltac:(constructor) Hi1)
    as [(l2 & mm' & E & Hcl & Hul & Hi')|(l2 & mm' & E & Hf)].
  - left. exists c, l2, (st maps c NULL l2 mm'). rewrite (bind_ok _ _ _ _ _ E).
    split_and!; [done|by apply not_elem_of_dom|done..].
  - right. left. eexists. rewrite (bind_halt _ _ _ _ _ E). split; [reflexivity|done].
Qed.

(** vmmap_clone makes a new address space whose areas have the bounds, offset,
    protection and flags of the originals, in order, with no object set, and
    changes no other address space; it crashes only when an area cannot be
    allocated. *)
Theorem vmmap_clone_copies m s v F R :
  vm_ok F R s -> vm_maps s !! m = Some v ->
  (exists c l' s', vmmap_clone m s = Ok c s' /\ c ∉ dom (vm_maps s) /\ c <> NULL /\
    vm_maps s' = <[c := Vmmap l' NULL]> (vm_maps s) /\ Forall2 (clone_of c) (vmm_list v) l' /\
    Forall (fun b => olink_is_linked (vma_id b) (vm_mm s') = false) l' /\
    vm_inv F (all_objs (vm_maps s) ⊎ R) s') \/
  (exists s', vmmap_clone m s = Halt NullDeref s' /\ alloc_failed (vm_mm s')) \/
  (exists s', vmmap_create s = Ok NULL s').
Proof. apply clone_ok. Qed.
End Thms.
