(* ===== verification/VmmapRun.v ===== *)
(** The theorems about address spaces at work on a small machine: an address
    space with a private and a shared anonymous area, made by running the code. *)
From S2P Require Import Prelude.
From S2P Require Import Platform.
From S2P Require Import MmIface.
From S2P Require Import Mm.
From S2P Require Import MmInv.
From S2P Require Import MmPut.
From S2P Require Import MmSafe.
From S2P Require Import Demo.
From S2P Require Import Vmmap.
From S2P Require Import Areas.
From S2P Require Import VmmapFacts.
From S2P Require Import VmmapThms.
Open Scope Z_scope.

Definition vm0 : vm := Vm ∅ boot_mm.

Lemma vm0_ok : vm_ok [] ∅ vm0.
Proof.
  split; [|done]. split.
  - split_and!; [constructor|by intros ?%elem_of_nil|done].
  - exact boot_safe.
Qed.

(** Address space 1 of process 7, with a private area at pages 2000-2009 and a
    shared one at pages 3000-3004. *)
Definition vm1 : vm := Eval vm_compute in out_state (vmmap_create vm0).
Definition vm2 : vm := Eval vm_compute in out_state
  (vmmap_map 7 1 NULL 2000 10 3 MAP_PRIVATE 0 VMMAP_DIR_HILO vm1).
Definition vm3 : vm := Eval vm_compute in out_state
  (vmmap_map 7 1 NULL 3000 5 3 MAP_SHARED 0 VMMAP_DIR_HILO vm2).

Lemma vm1_eq : vmmap_create vm0 = Ok 1 vm1.
Proof. vm_compute. reflexivity. Qed.
Definition areas2 : list vmarea := [Vmarea 2 2000 2010 0 3 MAP_PRIVATE 1 4].
Definition areas3 : list vmarea := areas2 ++ [Vmarea 5 3000 3005 0 3 MAP_SHARED 1 6].
Lemma vm1_map : vm_maps vm1 !! 1 = Some (Vmmap [] NULL).
Proof. vm_compute. reflexivity. Qed.
Lemma vm2_map : vm_maps vm2 !! 1 = Some (Vmmap areas2 NULL).
Proof. vm_compute. reflexivity. Qed.
Lemma vm3_map : vm_maps vm3 !! 1 = Some (Vmmap areas3 NULL).
Proof. vm_compute. reflexivity. Qed.

Lemma vm1_ok : vm_ok [] ∅ vm1.
Proof.
  destruct (create_ok [] ∅ vm0 vm0_ok) as [(m & s & E & _ & _ & _ & H)|(s & E & _ & H)];
    rewrite vm1_eq in E; by simplify_eq.
Qed.
Lemma in_user (lo n : Z) : ((1024 <=? lo) && (lo + n <=? 786432)) = true -> user_range lo (lo + n).
Proof. intros H. unfold user_range. cbn. zify_bool. split; [done|done]. Qed.
Lemma vm2_ok : vm_ok [] ∅ vm2.
Proof.
  apply (map_keeps_ok 7 1 NULL 2000 10 3 MAP_PRIVATE 0 vm1 (Vmmap [] NULL) [] ∅ 2); try done.
  - exact vm1_ok.
  - by right.
  - right. by apply in_user.
Qed.
Lemma vm3_ok : vm_ok [] ∅ vm3.
Proof.
  apply (map_keeps_ok 7 1 NULL 3000 5 3 MAP_SHARED 0 vm2 (Vmmap areas2 NULL) [] ∅ 5); try done.
  - exact vm2_ok.
  - by left.
  - right. by apply in_user.
Qed.
Lemma areas3_ok : areas_ok areas3.
Proof. by destruct (vo_areas _ _ _ vm3_ok 1 _ vm3_map) as [_ ?]. Qed.

(** Unmapping pages 2003-2006 splits the private area. *)
Lemma vmmap_remove_unmaps_witness : exists l' s',
  vmmap_remove 7 1 2003 4 vm3 = Ok 0 s' /\ vm_ok [] ∅ s' /\
  vm_maps s' !! 1 = Some (Vmmap l' NULL) /\
  maps_to l' 2005 = None /\ maps_to l' 2008 = Some (4, 8, 3, MAP_PRIVATE) /\
  maps_to l' 2002 = Some (4, 2, 3, MAP_PRIVATE) /\ maps_to l' 3001 = Some (6, 1, 3, MAP_SHARED).
Proof.
  destruct (vmmap_remove_unmaps 7 1 2003 4 vm3 (Vmmap areas3 NULL) [] ∅ vm3_ok vm3_map
    ltac:(lia) ltac:(lia) ltac:(lia)) as [(l' & s' & E & Hok & Em & Hmap)|(mm1 & s' & _ & E)].
  - exists l', s'. split_and!; [exact E|exact Hok|rewrite Em; apply lookup_insert_eq|rewrite Hmap; reflexivity..].
  - vm_compute in E. discriminate E.
Defined.

Lemma vmmap_destroy_releases_witness : exists s',
  vmmap_destroy 1 vm3 = Ok tt s' /\ vm_ok [] ∅ s' /\ vm_maps s' = delete 1 (vm_maps vm3).
Proof. apply (vmmap_destroy_releases 1 vm3 (Vmmap areas3 NULL) [] ∅ vm3_ok vm3_map). Defined.

(** Five free pages: directly below the top of user memory. *)
Lemma vmmap_find_range_highest_witness :
  (exists r, vmmap_find_range 1 5 VMMAP_DIR_HILO vm3 = Ok r vm3 /\ 0 <= r /\ highest_fit 5 areas3 r) \/
  vmmap_find_range 1 5 VMMAP_DIR_HILO vm3 = Ok (-1) vm3 /\
    (forall r, user_range r (r + 5) -> ~ range_free r (r + 5) areas3).
Proof.
  apply (vmmap_find_range_highest 1 5 vm3 (Vmmap areas3 NULL) vm3_map); [discriminate|exact areas3_ok|lia].
Defined.

Lemma vmmap_is_range_empty_iff_witness : exists b,
  vmmap_is_range_empty 1 2100 20 vm3 = Ok b vm3 /\
  (b = true <-> forall pg, 2100 <= pg < 2100 + 20 -> maps_to areas3 pg = None).
Proof.
  apply (vmmap_is_range_empty_iff 1 2100 20 vm3 (Vmmap areas3 NULL) vm3_map areas3_ok);
    [lia|by apply in_user].
Defined.


Lemma vmmap_clone_copies_witness : exists c l' s',
  vmmap_clone 1 vm3 = Ok c s' /\ vm_maps s' = <[c := Vmmap l' NULL]> (vm_maps vm3) /\
  Forall2 (clone_of c) areas3 l'.
Proof.
  destruct (vmmap_clone_copies 1 vm3 (Vmmap areas3 NULL) [] ∅ vm3_ok vm3_map)
    as [(c & l' & s' & E & _ & _ & Em & Hcl & _ & _)|[(s' & E & _)|(s' & E)]].
  - exists c, l', s'. split_and!; [exact E|exact Em|exact Hcl].
  - vm_compute in E. discriminate E.
  - vm_compute in E. discriminate E.
Defined.
