(* ===== verification/MmThms.v ===== *)
(** What releasing a reference to a memory object promises, and the one write it
    does through a pointer to a freed object. *)
From S2P Require Import Prelude.
From S2P Require Import Platform.
From S2P Require Import MmIface.
From S2P Require Import Mm.
From S2P Require Import MmInv.
From S2P Require Import MmPut.
From S2P Require Import MmSafe.
From S2P Require Import Demo.
From S2P Require Import Vmmap.
From S2P Require Import VmmapFacts.
From S2P Require Import VmmapThms.
From S2P Require Import VmmapRun.
Open Scope Z_scope.

Section Thms.
Context {LM : Type} {P : Platform} {HP : PlatformOk P} `{!LowMem LM} {HHdr0 : MmobjHeader}.
Context {HLow : LowMemOk (LM:=LM)} {HHdr : MmobjHeaderOk} {HFile : FileOps (LM:=LM)} {HFileOk : FileOpsOk}.
Implicit Types (s : mm LM) (R : gmultiset Z) (L : list Z) (maps : vmmaps).

(** C11. Dropping a reference to a memory object always returns, whatever the
    length of its chain of shadow objects: afterwards the invariants hold with one
    reference less, no anonymous or shadow object without a reference is left, and
    no page frame belongs to a freed object. *)
Theorem put_releases maps L R s o :
  maps_ok maps -> safe L (area_ids maps) (R ⊎ {[+ o +]}) s ->
  exists s', put maps o s = Ok tt s' /\ safe L (area_ids maps) R s' /\
    (forall k x, mmobjs s' !! k = Some x -> mmo_ops x <> file_mmobj_ops ->
      k ∈ R ⊎ srefs ∅ (mmobjs s')) /\
    (forall pf f, pframes s' !! pf = Some f -> is_Some (mmobjs s' !! pf_obj f)).
Proof.
  intros Hm Hi. destruct (put_ok maps L R s o Hm Hi) as (s' & E & Hi' & _).
  exists s'. split_and!; [done|done| |].
  - intros k x Hx Hk. apply (rf_used _ _ _ (mi_ref _ _ _ _ _ _ _ Hi') k x); [done|done|set_solver].
  - intros pf f Hf. destruct (pg_frames _ (mi_page _ _ _ _ _ _ _ Hi') pf f Hf) as (_ & _ & _ & _ & _ & x & Hx & _).
    by exists x.
Qed.

(** Dropping the last reference to a shadow object frees it and then writes to its
    reference count. *)
Theorem shadow_put_writes_freed maps L R s o x :
  maps_ok maps -> safe L (area_ids maps) (R ⊎ {[+ o +]}) s ->
  mmobjs s !! o = Some x -> mmo_ops x = shadow_mmobj_ops -> o ∉ R ⊎ srefs ∅ (mmobjs s) ->
  exists s', put maps o s = Ok tt s' /\ mmobjs s' !! o = None /\ head (stray s') = Some o.
Proof.
  intros Hm Hi Hx Hk Hno. destruct (put_shadow_ok maps L R s o x Hm Hi Hx Hk) as (s' & E & Hl).
  exists s'. split; [done|]. apply Hl.
  pose proof (rf_count _ _ _ (mi_ref _ _ _ _ _ _ _ Hi) o x Hx ltac:(congruence)) as Hc.
  rewrite mult_add_eq in Hc. rewrite elem_of_multiplicity in Hno. lia.
Qed.
End Thms.

(** The state of the example, with the reference to the shadow object 4 apart. *)
Lemma vm3_safe :
  maps_ok (vm_maps vm3) /\
  safe (live (vm_maps vm3)) (area_ids (vm_maps vm3)) ({[+ 6 +]} ⊎ {[+ 4 +]}) (vm_mm vm3).
Proof.
  destruct vm3_ok as [[Hmo Hs] _]. split; [exact Hmo|].
  replace (all_objs (vm_maps vm3) ⊎ ∅) with ({[+ 6 +]} ⊎ {[+ 4 +]} : gmultiset Z) in Hs by (by vm_compute).
  exact Hs.
Qed.

Lemma put_releases_witness : exists s',
  put (vm_maps vm3) 4 (vm_mm vm3) = Ok tt s' /\ mmobjs s' !! 4 = None /\ mmobjs s' !! 3 = None /\
  safe (live (vm_maps vm3)) (area_ids (vm_maps vm3)) {[+ 6 +]} s'.
Proof.
  destruct vm3_safe as [Hm Hs].
  destruct (put_releases (vm_maps vm3) _ {[+ 6 +]} (vm_mm vm3) 4 Hm Hs) as (s' & E & Hs' & _).
  exists s'. split_and!; [exact E| | |exact Hs']; vm_compute in E; injection E as <-; reflexivity.
Defined.

Lemma shadow_put_writes_freed_witness : exists s',
  put (vm_maps vm3) 4 (vm_mm vm3) = Ok tt s' /\ mmobjs s' !! 4 = None /\ head (stray s') = Some 4.
Proof.
  destruct vm3_safe as [Hm Hs].
  assert (exists x, mmobjs (vm_mm vm3) !! 4 = Some x /\ mmo_ops x = shadow_mmobj_ops) as (x & Hx & Hk).
  { eexists. split; vm_compute; reflexivity. }
  apply (shadow_put_writes_freed (vm_maps vm3) _ {[+ 6 +]} (vm_mm vm3) 4 x Hm Hs Hx Hk).
  apply (bool_decide_unpack _). vm_compute. exact I.
Defined.
