(* ===== verification/MmLookup.v ===== *)
(** Finding pages: [pframe_get], [pframe_lookup] and the operations below them
    show the same bytes to everybody.  A page that is looked up for writing is
    the object's own, copied from the page the object shadows. *)
From S2P Require Import Prelude.
From S2P Require Import Platform.
From S2P Require Import MmIface.
From S2P Require Import Mm.
From S2P Require Import MmInv.
From S2P Require Import MmPut.
From S2P Require Import MmSafe.
Open Scope Z_scope.

Section Lookup.
Context {LM : Type} `{P : Platform} `{!PlatformOk P} `{!LowMem LM} {HHdr0 : MmobjHeader}.
Context {HLow : LowMemOk (LM:=LM)} {HHdr : MmobjHeaderOk} {HFile : FileOps (LM:=LM)} {HFileOk : FileOpsOk}.
Implicit Types (s : mm LM) (x y : mmobj) (f : pframe) (R : gmultiset Z) (L I : list Z) (maps : vmmaps).

(** ** What a memory object shows *)

(** Frame [pf] holds page [n] of object [o]. *)
Definition holds s (pf o n : Z) : Prop :=
  exists f, pframes s !! pf = Some f /\ pf_obj f = o /\ pf_pagenum f = n.
Definition absent s (o n : Z) : Prop := forall pf, ~ holds s pf o n.

Definition zero_page : list Z := replicate (Z.to_nat PAGE_SIZE) 0.

(** The bytes of page [n] as seen through object [o]: its own page, else what the
    object it shadows shows; an anonymous object starts out with zeros. *)
Inductive view s : Z -> Z -> list Z -> Prop :=
| view_here pf o n : holds s pf o n -> view s o n (page_bytes pf s)
| view_below o n x b : absent s o n -> mmobjs s !! o = Some x -> mmo_ops x = shadow_mmobj_ops ->
    view s (mmo_shadowed x) n b -> view s o n b
| view_zero o n x : absent s o n -> mmobjs s !! o = Some x -> mmo_ops x = anon_mmobj_ops ->
    view s o n zero_page.

Lemma view_det s o n b b' : page_inv s -> view s o n b -> view s o n b' -> b = b'.
Proof.
  intros Hp H. revert b'. induction H as [pf o n Hh|o n x b Ha Hx Hk _ IH|o n x Ha Hx Hk]; intros b' H'.
  - inversion H' as [pf' ? ? Hh'|? ? ? ? Ha'|? ? ? Ha']; subst; [|by destruct (Ha' pf)..].
    destruct Hh as (f & Hf & Eo & En), Hh' as (f' & Hf' & Eo' & En').
    by rewrite (pg_ident _ Hp pf pf' f f') by congruence.
  - inversion H' as [pf' ? ? Hh'|? ? ? ? _ ? ? ?|? ? ? _ ? ?]; subst; [by destruct (Ha pf')| |congruence].
    simplify_eq. by apply IH.
  - inversion H' as [pf' ? ? Hh'|? ? ? ? _ ? ? ?|? ? ? _ ? ?]; subst; [by destruct (Ha pf')|congruence|done].
Qed.

(** ** Requesting a resident page *)

(** [s'] differs from [s] in the order of the reclaimable pages only. *)
Definition relisted s s' : Prop :=
  exists l, s' = set_lists l (nallocated s) (pinned_list s) (npinned s) s /\ l ≡ₚ alloc_list s.

Lemma relisted_refl s : relisted s s.
Proof. exists (alloc_list s). by destruct s. Qed.
Lemma relisted_trans s1 s2 s3 : relisted s1 s2 -> relisted s2 s3 -> relisted s1 s3.
Proof. intros (l & -> & Hl) (l' & -> & Hl'). exists l'. split; [done|]. by trans l. Qed.

Lemma relisted_inv Zs U B L I R s s' : relisted s s' -> mm_inv Zs U B L I R s -> mm_inv Zs U B L I R s'.
Proof.
  intros (l & -> & Hl) [[A1 A2 A3 (N1 & N2 & N3) A5 A6] H2 H3 H4 H5 [C1 C2] [D1 D2 D3]].
  split; [|done..|by split|by split]. split; try done.
  - intros pf f Hf. destruct (A1 pf f Hf) as (? & ? & ? & G & ? & ?). split_and!; try done.
    intros Hpin. cbn. rewrite Hl. by apply G.
  - cbn. rewrite Hl. split_and!; [done|done|]. intros pf. rewrite Hl. apply N3.
Qed.

Lemma get_resident_loop_spec o n s l :
  page_inv s -> (forall pf, pf ∈ l -> is_Some (pframes s !! pf)) -> NULL ∉ l ->
  exists r s', get_resident_loop o n l s = Ok r s' /\ relisted s s' /\
    (r <> NULL -> holds s r o n) /\ (r = NULL -> s' = s /\ forall pf, pf ∈ l -> ~ holds s pf o n).
Proof.
  intros Hp. induction l as [|pf l IH]; intros Hl Hn.
  { exists NULL, s. split_and!; [done|apply relisted_refl|done|]. split; [done|]. by intros pf ?%elem_of_nil. }
  destruct (Hl pf ltac:(by left)) as [f Hf]. cbn [get_resident_loop]. rewrite (frame_bind _ f) by done.
  assert (~ (pf_obj f = o /\ pf_pagenum f = n) -> exists r s', get_resident_loop o n l s = Ok r s' /\ relisted s s' /\
    (r <> NULL -> holds s r o n) /\ (r = NULL -> s' = s /\ forall k, k ∈ pf :: l -> ~ holds s k o n)) as IH'.
  { intros Hne. destruct IH as (r & s' & E & Hr & H1 & H2); [set_solver|set_solver|].
    exists r, s'. split_and!; [done..|]. intros Hr0. destruct (H2 Hr0) as [-> H3]. split; [done|].
    intros k [->|Hk]%elem_of_cons; [|by apply H3].
    intros (g & Hg & ? & ?). simplify_eq. naive_solver. }
  destruct (Z.eqb_spec o (pf_obj f)) as [Eo|Eo], (Z.eqb_spec n (pf_pagenum f)) as [En|En]; cbn [andb].
  - exists pf. destruct (pg_alloc _ Hp) as (N1 & N2 & N3), (pg_pinned _ Hp) as (Q1 & Q2 & Q3).
    destruct (pg_frames _ Hp pf f Hf) as (_ & Hpin & _ & Hal & _). unfold pframe_is_pinned.
    assert (pf <> NULL) as Hpn by (intros ->; apply Hn; by left).
    destruct (Z.ltb_spec 0 (pf_pincount f)) as [Hlt|Hlt]; cbn [negb when].
    + exists s. split_and!; [done|apply relisted_refl|by exists f|done].
    + eexists. split_and!; [reflexivity| |by exists f|done].
      exists (unlink pf (alloc_list s) ++ [pf]). rewrite (unlink_notin pf (pinned_list s)).
      * split; [done|]. rewrite <- Permutation_cons_append. specialize (Hal ltac:(lia)).
        apply list_elem_of_split in Hal as (l1 & l2 & El). rewrite El in N1 |- *.
        apply NoDup_app in N1 as (M1 & M2 & [M3 M4]%NoDup_cons).
        unfold unlink. rewrite filter_app, filter_cons_False by naive_solver.
        fold (unlink pf l1) (unlink pf l2). rewrite !unlink_notin by set_solver. by rewrite Permutation_middle.
      * intros (g & Hg & ?)%Q3. simplify_eq. lia.
  - apply IH'. naive_solver.
  - apply IH'. naive_solver.
  - apply IH'. naive_solver.
Qed.

Lemma frame_nonnull Zs U B L I R s pf f : mm_inv Zs U B L I R s -> pframes s !! pf = Some f -> pf <> NULL.
Proof.
  intros Hi Hf ->. apply (me_null _ _ (mi_mem _ _ _ _ _ _ _ Hi)).
  apply frame_mem_elem in Hf as [? _]. set_solver.
Qed.

Lemma get_resident_spec Zs U B L I R s o n :
  mm_inv Zs U B L I R s ->
  exists r s', pframe_get_resident o n s = Ok r s' /\ relisted s s' /\
    (r <> NULL -> holds s r o n) /\ (r = NULL -> s' = s /\ absent s o n).
Proof.
  intros Hi. pose proof (mi_page _ _ _ _ _ _ _ Hi) as Hp. unfold pframe_get_resident.
  destruct (pg_chain _ Hp (hash_page o n)) as [_ Hc].
  destruct (get_resident_loop_spec o n s (chain (hash_page o n) s) Hp) as (r & s' & E & Hr & H1 & H2).
  - intros pf Hpf. destruct (Hc pf Hpf) as (f & Hf & _). by exists f.
  - intros Hn. destruct (Hc NULL Hn) as (f & Hf & _). by apply (frame_nonnull _ _ _ _ _ _ _ _ _ Hi Hf).
  - exists r, s'. split_and!; [done|done|done|]. intros Hr0. destruct (H2 Hr0) as [-> H3]. split; [done|].
    intros pf Hh. apply (H3 pf); [|done].
    destruct Hh as (f & Hf & <- & <-). by apply (pg_frames _ Hp pf f).
Qed.

(** ** A new page *)

Definition new_frame (addr o n : Z) : pframe := Pframe addr o n false false 0 [].
Definition with_page (pf rc : Z) (x : mmobj) : mmobj :=
  set_respages (pf :: mmo_respages x) (set_nrespages (mmo_nrespages x + 1) (set_refcount rc x)).

(** The state after [pframe_alloc]. *)
Definition page_in (pf addr o n rc : Z) (x : mmobj) (lm : LM) s : mm LM :=
  Mm lm (<[o := with_page pf rc x]> (mmobjs s)) (<[pf := new_frame addr o n]> (pframes s))
    (alloc_list s ++ [pf]) (nallocated s + 1) (pinned_list s) (npinned s)
    (<[hash_page o n := pf :: chain (hash_page o n) s]> (pframe_hash s))
    (olinks s) (phys s) (nfreepages_min s) (nfreepages_target s) (mm_curthr s) (woken s) (stray s).

Lemma ref_any s o x :
  mmobjs s !! o = Some x -> o <> NULL -> (mmo_ops x <> file_mmobj_ops -> 0 < mmo_refcount x) ->
  exists rc, ref o s = Ok tt (set_mmobjs (insert o (set_refcount rc x)) s) /\
    (mmo_ops x <> file_mmobj_ops -> rc = mmo_refcount x + 1).
Proof.
  intros Hx Hn Hp. unfold ref. rewrite (obj_bind _ x) by done.
  assert (mmo_ops x <> file_mmobj_ops -> (c_true o && (0 <? mmo_refcount x) && bool_decide (mmo_ops x = mmo_ops x)) = true) as Hk.
  { intros Hk. rewrite bool_decide_eq_true_2, andb_true_r, andb_true_iff, c_true_spec, Z.ltb_lt by done. auto. }
  destruct (mmo_ops x) eqn:E.
  - unfold anon_ref. rewrite (obj_bind _ x), kassert_bind by (done || (rewrite E; by apply Hk)).
    rewrite (upd_obj_eq _ x) by done. eauto.
  - unfold shadow_ref. rewrite (obj_bind _ x), kassert_bind by (done || (rewrite E; by apply Hk)).
    rewrite (upd_obj_eq _ x) by done. eauto.
  - destruct (file_ref_ok s o x Hx E) as [rc Er]. exists rc. split; [done|]. congruence.
Qed.

(** Addresses that are not in use. *)
Definition fresh_addrs (pf addr : Z) (lm : LM) s : Prop :=
  pf <> NULL /\ addr <> NULL /\ pf ∉ slabs (lowmem s) /\ addr ∉ slabs (lowmem s) /\ addr <> pf /\
  slabs lm = {[addr; pf]} ∪ slabs (lowmem s).

Lemma pframe_alloc_eq Zs U B L I R s o n x :
  mm_inv Zs U B L I R s -> mmobjs s !! o = Some x -> o ∈ R ⊎ srefs Zs (mmobjs s) ->
  (exists lm, pframe_alloc o n s = Ok NULL (set_lowmem (fun _ => lm) s) /\ slabs lm = slabs (lowmem s)) \/
  (exists pf addr rc lm, pframe_alloc o n s = Ok pf (page_in pf addr o n rc x lm s) /\ fresh_addrs pf addr lm s /\
    (mmo_ops x <> file_mmobj_ops -> rc = mmo_refcount x + 1)).
Proof.
  intros Hi Hx Hin. unfold pframe_alloc. rewrite get_bind.
  destruct (slab_obj_alloc PframeSlab (lowmem s)) as [pf lm] eqn:E. rewrite modify_bind.
  apply slab_alloc_spec in E as [[-> E]|(Hn & Hni & E)]; [left; by exists lm|].
  rewrite (proj2 (Z.eqb_neq _ _) Hn). destruct (page_alloc lm) as [addr lm'] eqn:E'. rewrite modify_bind.
  apply page_alloc_spec in E' as [[-> E']|(Hn' & Hni' & E')].
  { left. eexists. split; [reflexivity|]. rewrite slab_free_spec. cbn. rewrite E', E. set_solver. }
  assert (fresh_addrs pf addr lm' s) as Hfr.
  { rewrite E in E', Hni'. apply not_elem_of_union in Hni' as [H1 H2]. apply not_elem_of_singleton in H1.
    split_and!; [done..|]. by rewrite E', (assoc_L (∪)). }
  right. rewrite (proj2 (Z.eqb_neq _ _) Hn'). rewrite !modify_bind.
  set (s1 := set_hash _ _).
  destruct (ref_any s1 o x) as (rc & Er & Hrc); [done|by eapply obj_nonnull| |].
  { intros Hk. pose proof (held_positive _ _ _ _ _ _ _ _ _ Hi Hx Hk Hin) as Hh.
    rewrite !andb_true_iff, Z.ltb_lt in Hh. lia. }
  rewrite (bind_ok _ _ _ _ _ Er).
  rewrite (upd_obj_bind _ (set_refcount rc x)) by apply (lookup_insert_eq (mmobjs s)).
  rewrite (upd_obj_bind _ (set_nrespages (mmo_nrespages x + 1) (set_refcount rc x)))
    by apply (lookup_insert_eq (<[o := set_refcount rc x]> (mmobjs s))).
  exists pf, addr, rc, lm'. split_and!; [|done|done].
  unfold mret, M_ret. f_equal. apply mm_ext; try reflexivity.
  etransitivity; [apply (insert_insert_eq (<[o := set_refcount rc x]> (mmobjs s)))|]. apply (insert_insert_eq (mmobjs s)).
Qed.

Lemma fresh_frame Zs U B L I R s pf addr lm :
  mm_inv Zs U B L I R s -> fresh_addrs pf addr lm s -> pframes s !! pf = None.
Proof.
  intros Hi (_ & _ & Hn & _). apply eq_None_not_Some. intros [f Hf]. apply Hn, (me_alloc _ _ (mi_mem _ _ _ _ _ _ _ Hi)).
  apply frame_mem_elem in Hf as [? _]. rewrite !elem_of_app. auto.
Qed.

Lemma chain_page_in pf addr o n rc x lm s h :
  chain h (page_in pf addr o n rc x lm s) = if decide (hash_page o n = h) then pf :: chain h s else chain h s.
Proof. unfold chain at 1. cbn. rewrite lookup_insert. case_decide; [by subst|done]. Qed.

Lemma page_inv_in s pf addr o n rc x lm :
  page_inv s -> mmobjs s !! o = Some x -> o <> NULL -> absent s o n -> pframes s !! pf = None ->
  page_inv (page_in pf addr o n rc x lm s).
Proof.
  intros [H1 H2 H3 (A1 & A2 & A3) (P1 & P2 & P3) H6] Hx Hon Hab Hnew.
  assert (forall k f, pframes s !! k = Some f -> k <> pf) as Hne by congruence.
  split.
  - intros k f. rewrite chain_page_in. cbn. intros [[<- <-]|[Hk Hf]]%lookup_insert_Some; cbn.
    + split_and!; [done|done|rewrite decide_True by done; by left|set_solver|lia|].
      exists (with_page pf rc x). rewrite lookup_insert_eq. split; [done|by left].
    + destruct (H1 k f Hf) as (G1 & G2 & G3 & G4 & G5 & y & Hy & Gy). split_and!; [done|done| |set_solver|done|].
      * case_decide; [by right|done].
      * destruct (decide (pf_obj f = o)) as [Eo|]; [|by exists y; rewrite lookup_insert_ne].
        rewrite Eo in *. simplify_eq. exists (with_page pf rc x). rewrite lookup_insert_eq. split; [done|by right].
  - intros k y. cbn. intros [[<- <-]|[Hk Hy]]%lookup_insert_Some.
    + destruct (H2 o x Hx) as (G1 & G2 & G3). cbn [with_page mmo_respages set_respages mmo_nrespages set_nrespages].
      split_and!; [cbn; lia| |].
      * constructor; [|done]. intros (g & Hg & _)%G3. congruence.
      * intros q [->|Hq]%elem_of_cons; [eexists; by rewrite lookup_insert_eq|].
        destruct (G3 q Hq) as (g & Hg & <-). exists g. rewrite lookup_insert_ne; [done|]. intros ->. by apply (Hne q g).
    + destruct (H2 k y Hy) as (G1 & G2 & G3). split_and!; [done|done|]. intros q Hq.
      destruct (G3 q Hq) as (g & Hg & <-). exists g. rewrite lookup_insert_ne; [done|]. intros ->. by apply (Hne q g).
  - intros h. rewrite chain_page_in. destruct (H3 h) as [G1 G2]. split.
    + case_decide; [|done]. constructor; [|done]. intros (g & Hg & _)%G2. congruence.
    + assert (forall q, q ∈ chain h s -> exists f, <[pf := new_frame addr o n]> (pframes s) !! q = Some f /\
        hash_page (pf_obj f) (pf_pagenum f) = h) as G.
      { intros q Hq. destruct (G2 q Hq) as (g & Hg & E). exists g. rewrite lookup_insert_ne; [done|].
        intros ->. by apply (Hne q g). }
      cbn. case_decide; [|done]. intros q [->|Hq]%elem_of_cons; [|by apply G].
      eexists. by rewrite lookup_insert_eq.
  - cbn. split_and!.
    + apply NoDup_app. split_and!; [done| |apply NoDup_singleton]. intros k (g & Hg & _)%A3 ->%list_elem_of_singleton. congruence.
    + rewrite length_app. cbn. lia.
    + intros k [Hk| ->%list_elem_of_singleton]%elem_of_app; [|eexists; by rewrite lookup_insert_eq].
      destruct (A3 k Hk) as (g & Hg & ?). exists g. rewrite lookup_insert_ne; [done|]. intros ->. by apply (Hne k g).
  - cbn. split_and!; [done|done|]. intros k Hk. destruct (P3 k Hk) as (g & Hg & ?). exists g.
    rewrite lookup_insert_ne; [done|]. intros ->. by apply (Hne k g).
  - intros k k' g g'. cbn.
    intros [[<- <-]|[? Hg]]%lookup_insert_Some [[<- <-]|[? Hg']]%lookup_insert_Some; cbn; try done.
    + intros E1 E2. destruct (Hab k'). by exists g'.
    + intros E1 E2. destruct (Hab k). by exists g.
    + by apply H6.
Qed.

Lemma ref_inv_page_in Zs R objs o x pf rc :
  objs !! o = Some x -> (mmo_ops x <> file_mmobj_ops -> rc = mmo_refcount x + 1) -> ref_inv Zs R objs ->
  ref_inv Zs R (<[o := with_page pf rc x]> objs).
Proof.
  intros Ho Hrc [H1 H2 H3]. split; rewrite (srefs_update Zs objs o x) by done.
  - intros k y [[<- <-]|[Hne Hy]]%lookup_insert_Some Hk; [|by apply H1]. cbn in Hk |- *.
    rewrite (Hrc Hk), (H1 o x Ho Hk). lia.
  - intros k Hk. destruct (decide (k = o)) as [->|]; [by rewrite lookup_insert_eq|].
    rewrite lookup_insert_ne by done. by apply H2.
  - intros k y [[<- <-]|[Hne Hy]]%lookup_insert_Some Hk Hz; [by apply (H3 o x)|by apply (H3 k y)].
Qed.

Lemma mem_inv_page_in L s s' pf addr lm f :
  (map_to_list (mmobjs s')).*1 ≡ₚ (map_to_list (mmobjs s)).*1 -> pframes s' = <[pf := f]> (pframes s) ->
  pf_addr f = addr -> pframes s !! pf = None -> lowmem s' = lm -> fresh_addrs pf addr lm s ->
  mem_inv L s -> mem_inv L s'.
Proof.
  intros E1 E2 Ea Hn El (F1 & F2 & F3 & F4 & F5 & F6) [D1 D2 D3].
  assert (L ++ (map_to_list (mmobjs s')).*1 ++ frame_mem (pframes s') ≡ₚ
    pf :: addr :: L ++ (map_to_list (mmobjs s)).*1 ++ frame_mem (pframes s)) as Ep.
  { rewrite E1, E2, frame_mem_insert, Ea by done. rewrite !(assoc_L (++)). by rewrite <- !Permutation_middle. }
  split.
  - rewrite Ep. constructor; [|constructor; [|done]].
    + intros [?|Hin]%elem_of_cons; [by apply F5|]. by apply F3, D2.
    + intros Hin. by apply F4, D2.
  - intros i. rewrite Ep, El, F6. intros [->|[->|Hin]%elem_of_cons]%elem_of_cons; [set_solver|set_solver|].
    apply elem_of_union. right. by apply D2.
  - rewrite Ep. intros [?|[?|?]%elem_of_cons]%elem_of_cons; [congruence|congruence|done].
Qed.

Lemma mm_inv_page_in Zs U B L I R s pf addr o n rc x lm :
  mm_inv Zs U B L I R s -> mmobjs s !! o = Some x -> absent s o n -> fresh_addrs pf addr lm s ->
  (mmo_ops x <> file_mmobj_ops -> rc = mmo_refcount x + 1) ->
  mm_inv Zs ({[pf]} ∪ U) B L I R (page_in pf addr o n rc x lm s).
Proof.
  intros Hi Hx Hab Hfr Hrc. pose proof (fresh_frame _ _ _ _ _ _ _ _ _ _ Hi Hfr) as Hnew.
  pose proof (obj_nonnull _ _ _ _ _ _ _ _ _ Hi Hx) as Hon. destruct Hi as [H1 H2 H3 H4 H5 H6 H7].
  assert (same_shape x (with_page pf rc x)) as Hs by done. split.
  - by apply page_inv_in.
  - intros k f y. cbn. intros [[<- <-]|[Hk Hf]]%lookup_insert_Some Hy Hky Hu; [set_solver|].
    assert (exists y0, mmobjs s !! pf_obj f = Some y0 /\ mmo_ops y0 = mmo_ops y) as (y0 & Hy0 & Ey).
    { apply lookup_insert_Some in Hy as [[<- <-]|[? ?]]; eauto. }
    apply (H2 k f y0); [done..|congruence|set_solver].
  - intros k f. cbn. intros [[<- <-]|[Hk Hf]]%lookup_insert_Some Hb; [done|by eapply H3].
  - cbn. by apply ref_inv_page_in.
  - cbn. by eapply shadow_inv_same.
  - by apply (link_inv_same I s _ o x (with_page pf rc x)).
  - eapply (mem_inv_page_in L s _ pf addr lm (new_frame addr o n)); try done. cbn. by eapply dom_perm.
Qed.

(** ** Filling a new page *)

(** The page has been filled with [bytes] and pinned. *)
Definition filled (addr o n : Z) : pframe := Pframe addr o n false false 1 [].
Definition finish (pf addr o n : Z) (bytes : list Z) s : mm LM :=
  set_pframes (insert pf (filled addr o n)) (set_phys (insert addr bytes)
    (set_lists (unlink pf (alloc_list s)) (nallocated s - 1) (unlink pf (pinned_list s) ++ [pf]) (npinned s + 1) s)).

Lemma page_inv_finish pf f bytes s :
  page_inv s -> pframes s !! pf = Some f -> pf_pincount f = 0 ->
  page_inv (finish pf (pf_addr f) (pf_obj f) (pf_pagenum f) bytes s).
Proof.
  intros [H1 H2 H3 (A1 & A2 & A3) (P1 & P2 & P3) H6] Hf Hp.
  destruct (H1 pf f Hf) as (F1 & F2 & F3 & F4 & F5 & F6). set (g := filled (pf_addr f) (pf_obj f) (pf_pagenum f)).
  set (s' := finish _ _ _ _ _ s).
  assert (pf ∉ pinned_list s) as Hnp. { intros (h & Hh & ?)%P3. simplify_eq. lia. }
  assert (forall k h, pframes s' !! k = Some h -> exists h0, pframes s !! k = Some h0 /\
    pf_obj h = pf_obj h0 /\ pf_pagenum h = pf_pagenum h0 /\ (k <> pf /\ h = h0 \/ k = pf /\ h = g)) as Hback.
  { intros k h. cbn. intros [[<- <-]|[? ?]]%lookup_insert_Some; [exists f; split_and!; [done..|by right]|eauto 10]. }
  assert (forall k h0, pframes s !! k = Some h0 -> exists h, pframes s' !! k = Some h /\
    pf_obj h = pf_obj h0 /\ pf_pagenum h = pf_pagenum h0 /\ (k <> pf -> h = h0)) as Hforth.
  { intros k h0 Hh. cbn. destruct (decide (k = pf)) as [->|]; [|by exists h0; rewrite lookup_insert_ne].
    exists g. rewrite lookup_insert_eq. by simplify_eq. }
  split.
  - intros k h Hh. destruct (Hback k h Hh) as (h0 & Hh0 & Eo & En & Hc). rewrite Eo, En.
    destruct (H1 k h0 Hh0) as (? & ? & ? & G4 & G5 & ?). split_and!; [done| |done| | |done].
    + destruct Hc as [[_ ->]|[_ ->]]; [done|cbn; lia].
    + cbn. destruct Hc as [[Hk ->]|[-> ->]]; cbn; [|lia]. intros ?. rewrite elem_of_unlink. auto.
    + cbn. rewrite elem_of_app. destruct Hc as [[Hk ->]|[-> ->]]; intros ?; [left; rewrite elem_of_unlink; auto|right; by left].
  - intros o x Ho. destruct (H2 o x Ho) as (? & ? & G). split_and!; [done..|]. intros k Hk.
    destruct (G k Hk) as (h0 & Hh0 & <-). destruct (Hforth _ _ Hh0) as (h & ? & ? & _). eauto.
  - intros h. destruct (H3 h) as [? G]. split; [done|]. intros k Hk. destruct (G k Hk) as (h0 & Hh0 & <-).
    destruct (Hforth _ _ Hh0) as (h & ? & Eo & En & _). exists h. by rewrite Eo, En.
  - cbn. split_and!; [by apply unlink_nodup| |].
    + rewrite unlink_length; [lia|done|by apply F4].
    + intros k [Hk Hne]%elem_of_unlink. rewrite lookup_insert_ne by done. by apply A3.
  - cbn. rewrite unlink_notin by done. split_and!.
    + apply NoDup_app. split_and!; [done| |apply NoDup_singleton]. intros k Hk ->%list_elem_of_singleton. done.
    + rewrite length_app. cbn. lia.
    + intros k [Hk| ->%list_elem_of_singleton]%elem_of_app.
      * rewrite lookup_insert_ne by congruence. by apply P3.
      * exists g. by rewrite lookup_insert_eq.
  - intros k k' h h' Hh Hh' Eo En. destruct (Hback _ _ Hh) as (h0 & ? & E1 & E2 & _), (Hback _ _ Hh') as (h0' & ? & E3 & E4 & _).
    apply (H6 k k' h0 h0'); congruence.
Qed.

Lemma mm_inv_finish Zs U B L I R s pf f bytes :
  mm_inv Zs ({[pf]} ∪ U) ({[pf]} ∪ B) L I R s -> pframes s !! pf = Some f -> pf_pincount f = 0 ->
  mm_inv Zs U B L I R (finish pf (pf_addr f) (pf_obj f) (pf_pagenum f) bytes s).
Proof.
  intros [H1 H2 H3 H4 H5 H6 H7] Hf Hp. split.
  - by apply page_inv_finish.
  - intros k g x. cbn. intros [[<- <-]|[? Hg]]%lookup_insert_Some Hx Hk Hu; [done|].
    apply (H2 k g x); [done..|set_solver].
  - intros k g. cbn. intros [[<- <-]|[? Hg]]%lookup_insert_Some Hb; [done|].
    specialize (H3 k g Hg Hb). set_solver.
  - done.
  - done.
  - destruct H6. by split.
  - eapply mem_inv_same; [| | |done]; [done| |done]. by eapply frame_mem_update.
Qed.

(** The page is marked busy while it is being filled. *)
Definition busy_frame (addr o n : Z) : pframe := Pframe addr o n true false 0 [].

(** A frame may change in anything but its page, its object and its pins. *)
Definition same_frame (f g : pframe) : Prop :=
  pf_addr g = pf_addr f /\ pf_obj g = pf_obj f /\ pf_pagenum g = pf_pagenum f /\ pf_pincount g = pf_pincount f.

Lemma mm_inv_frame Zs U B B' L I R s pf f g :
  mm_inv Zs U B L I R s -> pframes s !! pf = Some f -> same_frame f g ->
  B ⊆ B' -> (pf_busy g = true -> pf ∈ B') ->
  mm_inv Zs U B' L I R (set_pframes (insert pf g) s).
Proof.
  intros [[A1 A2 A3 A4 A5 A6] H2 H3 H4 H5 H6 H7] Hf (E1 & E2 & E3 & E4) HB Hbusy.
  assert (forall k h, pframes (set_pframes (insert pf g) s) !! k = Some h -> exists h0,
    pframes s !! k = Some h0 /\ pf_obj h = pf_obj h0 /\ pf_pagenum h = pf_pagenum h0 /\ pf_pincount h = pf_pincount h0 /\
    (pf_busy h = true -> k ∈ B' \/ pf_busy h0 = true)) as Hback.
  { intros k h. cbn. intros [[<- <-]|[? ?]]%lookup_insert_Some; [|exists h; auto 10]. exists f. auto 10. }
  assert (forall k h0, pframes s !! k = Some h0 -> exists h,
    pframes (set_pframes (insert pf g) s) !! k = Some h /\
    pf_obj h = pf_obj h0 /\ pf_pagenum h = pf_pagenum h0 /\ pf_pincount h = pf_pincount h0) as Hforth.
  { intros k h0 Hg. cbn. destruct (decide (k = pf)) as [->|]; [|by exists h0; rewrite lookup_insert_ne].
    exists g. rewrite lookup_insert_eq. by simplify_eq. }
  split; [|intros k h x Hg|intros k h Hg Hb|done|done|by destruct H6; split|].
  - split.
    + intros k h Hg. destruct (Hback k h Hg) as (g0 & Hg0 & -> & -> & -> & _). by apply A1.
    + intros k y Hy. destruct (A2 k y Hy) as (? & ? & G). split_and!; [done..|]. intros q Hq.
      destruct (G q Hq) as (g0 & Hg0 & <-). destruct (Hforth q g0 Hg0) as (h & ? & ? & _). eauto.
    + intros h. destruct (A3 h) as [? G]. split; [done|]. intros q Hq. destruct (G q Hq) as (g0 & Hg0 & <-).
      destruct (Hforth q g0 Hg0) as (h' & ? & Eo & En & _). exists h'. by rewrite Eo, En.
    + destruct A4 as (? & ? & G). split_and!; [done..|]. intros q Hq. destruct (G q Hq) as (g0 & Hg0 & <-).
      destruct (Hforth q g0 Hg0) as (h & ? & _ & _ & ?). eauto.
    + destruct A5 as (? & ? & G). split_and!; [done..|]. intros q Hq. destruct (G q Hq) as (g0 & Hg0 & ?).
      destruct (Hforth q g0 Hg0) as (h & ? & _ & _ & E). exists h. by rewrite E.
    + intros k k' h h' Hg Hg' Eo En. destruct (Hback _ _ Hg) as (h0 & ? & ? & ? & _), (Hback _ _ Hg') as (h0' & ? & ? & ? & _).
      apply (A6 k k' h0 h0'); congruence.
  - destruct (Hback k h Hg) as (g0 & Hg0 & -> & _ & -> & _). by apply H2.
  - destruct (Hback k h Hg) as (g0 & Hg0 & _ & _ & _ & [?|Hb0]%(fun h => h Hb)); [done|].
    specialize (H3 k g0 Hg0 Hb0). set_solver.
  - eapply mem_inv_same; [| | |done]; [done| |done]. by eapply frame_mem_update.
Qed.

Lemma mm_inv_busy Zs U B L I R s pf addr o n :
  mm_inv Zs U B L I R s -> pframes s !! pf = Some (new_frame addr o n) ->
  mm_inv Zs U ({[pf]} ∪ B) L I R (set_pframes (insert pf (busy_frame addr o n)) s).
Proof.
  intros Hi Hf. apply (mm_inv_frame Zs U B _ L I R s pf (new_frame addr o n)); [done|done|by split_and!|set_solver|set_solver].
Qed.

Lemma fill_eq fp pf addr o n p r s s3 :
  pframes s !! pf = Some (new_frame addr o n) ->
  fp o pf (set_pframes (insert pf (busy_frame addr o n)) s) = Ok r s3 ->
  pframes s3 !! pf = Some (Pframe addr o n true false p []) ->
  pframe_fill fp pf s = Ok r (set_pframes (insert pf (Pframe addr o n false false p [])) s3).
Proof.
  intros Hf E Hf3. unfold pframe_fill. rewrite (frame_bind _ _ _ _ Hf), (upd_frame_bind _ _ _ _ _ Hf).
  cbn [pf_obj new_frame]. rewrite (bind_ok _ _ _ _ _ E), (upd_frame_bind _ _ _ _ _ Hf3).
  set (f3 := set_busy false _). unfold broadcast_on.
  rewrite !bind_assoc, (frame_bind _ f3) by apply (lookup_insert_eq (pframes s3)). rewrite bind_assoc, modify_bind.
  rewrite (upd_frame_bind _ f3) by apply (lookup_insert_eq (pframes s3)).
  unfold mret, M_ret. f_equal. apply mm_ext; try reflexivity; cbn [woken add_woken set_pframes].
  - apply (insert_insert_eq (pframes s3)).
  - apply app_nil_r.
Qed.

(** [pframe_pin] of a page that is busy, and writing its bytes. *)
Lemma pin_bytes_eq pf addr o n s :
  pframes s !! pf = Some (busy_frame addr o n) -> o <> NULL -> forall bytes,
  exists s3, (pframe_pin pf;; set_page_bytes pf bytes) s = Ok tt s3 /\
    pframes s3 !! pf = Some (Pframe addr o n true false 1 []) /\
    set_pframes (insert pf (filled addr o n)) s3 = finish pf addr o n bytes s /\
    (set_page_bytes pf bytes;; pframe_pin pf) s = Ok tt s3.
Proof.
  intros Hf Hn bytes. set (f1 := Pframe addr o n true false 1 []).
  set (lists := set_lists (LM := LM) (unlink pf (alloc_list s)) (nallocated s - 1) (unlink pf (pinned_list s) ++ [pf]) (npinned s + 1)).
  assert (forall s0, pframes s0 = pframes s -> pframe_pin pf s0 =
    Ok tt (set_pframes (insert pf f1) (set_lists (unlink pf (alloc_list s0)) (nallocated s0 - 1)
      (unlink pf (pinned_list s0) ++ [pf]) (npinned s0 + 1) s0))) as Hpin.
  { intros s0 E0. unfold pframe_pin. rewrite (frame_bind _ (busy_frame addr o n)) by (by rewrite E0).
    rewrite !kassert_bind by (cbn; try done; unfold pframe_is_free; cbn; by apply negb_true_iff, Z.eqb_neq).
    cbn [pframe_is_pinned busy_frame pf_pincount Z.ltb negb when]. cbn. rewrite modify_bind.
    apply (upd_frame_eq pf (busy_frame addr o n)). cbn. by rewrite E0. }
  exists (set_phys (insert addr bytes) (set_pframes (insert pf f1) (lists s))). split_and!.
  - rewrite (bind_ok _ _ _ _ _ (Hpin s eq_refl)). unfold set_page_bytes.
    by rewrite (frame_bind _ f1) by apply (lookup_insert_eq (pframes s)).
  - apply (lookup_insert_eq (pframes s)).
  - apply mm_ext; try reflexivity. apply (insert_insert_eq (pframes s)).
  - unfold set_page_bytes. rewrite bind_assoc, (frame_bind _ _ _ _ Hf), modify_bind. by rewrite Hpin.
Qed.

Lemma fill_anon pf addr o n s :
  pframes s !! pf = Some (new_frame addr o n) -> o <> NULL ->
  pframe_fill anon_fillpage pf s =
    Ok 0 (finish pf addr o n zero_page (set_pframes (insert pf (busy_frame addr o n)) s)).
Proof.
  intros Hf Hn. set (s2 := set_pframes (insert pf (busy_frame addr o n)) s).
  assert (pframes s2 !! pf = Some (busy_frame addr o n)) as Hf2 by apply (lookup_insert_eq (pframes s)).
  destruct (pin_bytes_eq pf addr o n s2 Hf2 Hn zero_page) as (s3 & _ & Hf3 & E3 & E4).
  rewrite <- E3. apply fill_eq; [done| |done]. fold s2. unfold anon_fillpage.
  rewrite (frame_bind _ _ _ _ Hf2), !kassert_bind by done.
  rewrite <- bind_assoc. fold zero_page. by rewrite (bind_ok _ _ _ _ _ E4).
Qed.

(** ** More pages *)

(** Every object and every page of [s] is in [s'], with the same bytes. *)
Record extends s s' : Prop := {
  ex_frames k f : pframes s !! k = Some f -> pframes s' !! k = Some f /\ page_bytes k s' = page_bytes k s;
  ex_objs k x : mmobjs s !! k = Some x -> exists x', mmobjs s' !! k = Some x' /\ same_shape x x';
  ex_srefs Zs : srefs Zs (mmobjs s') = srefs Zs (mmobjs s);
  ex_links : olinks s' = olinks s
}.
Lemma extends_trans s1 s2 s3 : extends s1 s2 -> extends s2 s3 -> extends s1 s3.
Proof.
  intros [A1 A2 A3 A4] [B1 B2 B3 B4]. split; [| |intros; by rewrite B3|congruence].
  - intros k f Hf. destruct (A1 k f Hf) as [Hf2 <-]. by apply B1.
  - intros k x Hx. destruct (A2 k x Hx) as (x2 & Hx2 & ? & ? & ? & ?). destruct (B2 k x2 Hx2) as (x3 & Hx3 & ? & ? & ? & ?).
    exists x3. split; [done|]. repeat split; congruence.
Qed.
Lemma relisted_extends s s' : relisted s s' -> extends s s'.
Proof. intros (l & -> & _). split; try done. intros k x Hx. by exists x. Qed.

Lemma extends_holds s s' k o n : extends s s' -> holds s k o n -> holds s' k o n.
Proof. intros He (f & Hf & ?). destruct (ex_frames _ _ He k f Hf) as [? _]. by exists f. Qed.

(** Nobody sees a difference, if the new pages show what was to be seen before. *)
Lemma view_extends s s' o n b :
  page_inv s -> extends s s' ->
  (forall k o n, holds s' k o n -> holds s k o n \/ view s o n (page_bytes k s')) ->
  view s o n b -> view s' o n b.
Proof.
  intros Hp He Hnew H.
  assert (forall o n b, view s o n b -> absent s o n -> (absent s' o n -> view s' o n b) ->
    (exists k, holds s' k o n) \/ absent s' o n -> view s' o n b) as Hcase.
  { intros o1 n1 b1 Hv Ha Hno [[k Hk]|Hk]; [|auto]. destruct (Hnew k o1 n1 Hk) as [Hh|Hv']; [by destruct (Ha k)|].
    rewrite (view_det s o1 n1 b1 (page_bytes k s') Hp Hv Hv'). by apply view_here. }
  assert (forall o n, (exists k, holds s' k o n) \/ absent s' o n) as Hdec.
  { intros o1 n1. destruct (decide (Exists (fun e => pf_obj e.2 = o1 /\ pf_pagenum e.2 = n1) (map_to_list (pframes s')))) as [Hd|Hd].
    - left. apply Exists_exists in Hd as ([k f] & Hk%elem_of_map_to_list & ? & ?). exists k, f. auto.
    - right. intros k (f & Hf & ? & ?). apply Hd, Exists_exists. exists (k, f). by rewrite elem_of_map_to_list. }
  induction H as [k o n Hh|o n x b Ha Hx Hk Hb IH|o n x Ha Hx Hk].
  - pose proof Hh as (f & Hf & ?). destruct (ex_frames _ _ He k f Hf) as [_ <-].
    apply view_here. by eapply extends_holds.
  - destruct (ex_objs _ _ He _ _ Hx) as (x' & Hx' & E1 & E2 & _). apply Hcase; [by eapply view_below|done| |apply Hdec].
    intros Ha'. apply (view_below s' o n x'); [done|done|congruence|by rewrite E2].
  - destruct (ex_objs _ _ He _ _ Hx) as (x' & Hx' & E1 & E2 & _). apply Hcase; [by eapply view_zero|done| |apply Hdec].
    intros Ha'. apply (view_zero s' o n x'); [done|done|congruence].
Qed.

(** ** One page more *)

(** [s'] has one page more than [s], page [n] of [o] with the given bytes. *)
Record added (pf o n : Z) (bytes : list Z) s s' : Prop := {
  ad_new : pframes s !! pf = None;
  ad_frames : exists addr, pframes s' = <[pf := filled addr o n]> (pframes s) /\
    phys s' = <[addr := bytes]> (phys s) /\ forall k f, pframes s !! k = Some f -> pf_addr f <> addr;
  ad_objs k x : mmobjs s !! k = Some x -> exists x', mmobjs s' !! k = Some x' /\ same_shape x x';
  ad_srefs Zs : srefs Zs (mmobjs s') = srefs Zs (mmobjs s);
  ad_links : olinks s' = olinks s
}.

Section Added.
Context (pf o n : Z) (bytes : list Z) (s s' : mm LM) (Had : added pf o n bytes s s').

Lemma added_holds k o' n' : holds s k o' n' -> holds s' k o' n' /\ page_bytes k s' = page_bytes k s.
Proof.
  intros (f & Hf & Eo & En). destruct Had as [Hnew (addr & Ef & Ep & Ha) _ _ _].
  assert (pframes s' !! k = Some f) as Hf' by (rewrite Ef, lookup_insert_ne; [done|congruence]).
  split; [by exists f|]. unfold page_bytes. rewrite Hf, Hf', Ep, lookup_insert_ne; [done|]. intros E. by apply (Ha k f).
Qed.
Lemma added_page : holds s' pf o n /\ page_bytes pf s' = bytes.
Proof.
  destruct Had as [_ (addr & Ef & Ep & _) _ _ _]. unfold holds, page_bytes. rewrite Ef, lookup_insert_eq. split.
  - by eexists.
  - cbn. by rewrite Ep, lookup_insert_eq.
Qed.
Lemma added_back k o' n' : holds s' k o' n' -> holds s k o' n' \/ k = pf /\ o' = o /\ n' = n.
Proof.
  intros (f & Hf & <- & <-). destruct Had as [_ (addr & Ef & _) _ _ _]. rewrite Ef in Hf.
  apply lookup_insert_Some in Hf as [[<- <-]|[? Hf]]; [by right|left]. by exists f.
Qed.

(** The objects and the pages of [s] are there in [s']. *)
Lemma added_extends : extends s s'.
Proof. split; [intros k f Hf|apply Had|apply Had|apply Had]. 
  destruct (added_holds k (pf_obj f) (pf_pagenum f)) as [(f' & Hf' & _) E]; [by exists f|].
  destruct Had as [Hnew (addr & Ef & _) _ _ _]. rewrite Ef in *. rewrite lookup_insert_ne in * by congruence. by simplify_eq.
Qed.

(** Nobody sees a difference, if the page shows what was to be seen before. *)
Lemma view_added o' n' b : page_inv s -> view s o n bytes -> view s o' n' b -> view s' o' n' b.
Proof.
  intros Hp Hv. apply view_extends; [done|apply added_extends|].
  intros k o1 n1 [Hh|(-> & -> & ->)]%added_back; [by left|right]. by destruct added_page as [_ ->].
Qed.
End Added.

Lemma relisted_view s s' o n b : relisted s s' -> view s o n b -> view s' o n b.
Proof.
  intros (l & -> & _) H. induction H as [k o n Hh|o n x b Ha Hx Hk Hb IH|o n x Ha Hx Hk].
  - by apply (view_here (set_lists _ _ _ _ s) k).
  - by apply (view_below (set_lists _ _ _ _ s) o n x).
  - by apply (view_zero (set_lists _ _ _ _ s) o n x).
Qed.

Lemma added_page_in s s' pf addr o n rc x lm bytes :
  mmobjs s !! o = Some x -> pframes s !! pf = None -> fresh_addrs pf addr lm s ->
  (forall k f, pframes s !! k = Some f -> pf_addr f ∈ slabs (lowmem s)) ->
  s' = finish pf addr o n bytes (set_pframes (insert pf (busy_frame addr o n)) (page_in pf addr o n rc x lm s)) ->
  added pf o n bytes s s'.
Proof.
  intros Hx Hn (_ & _ & _ & Hna & _) Hal ->. split.
  - done.
  - exists addr. split_and!; [|done|].
    + cbn. by rewrite !insert_insert_eq.
    + intros k f Hf <-. by apply Hna, (Hal k f).
  - intros k y Hy. cbn. destruct (decide (k = o)) as [->|]; [|by exists y; rewrite lookup_insert_ne].
    simplify_eq. eexists. by rewrite lookup_insert_eq.
  - intros Zs. cbn. by rewrite (srefs_update Zs (mmobjs s) o x).
  - done.
Qed.

Lemma frame_addr_alloc Zs U B L I R s k f :
  mm_inv Zs U B L I R s -> pframes s !! k = Some f -> pf_addr f ∈ slabs (lowmem s).
Proof.
  intros Hi Hf. apply (me_alloc _ _ (mi_mem _ _ _ _ _ _ _ Hi)). apply frame_mem_elem in Hf as [_ ?].
  rewrite !elem_of_app. auto.
Qed.

Lemma addr_nonnull Zs U B L I R s k f : mm_inv Zs U B L I R s -> pframes s !! k = Some f -> pf_addr f <> NULL.
Proof.
  intros Hi Hf E. apply (me_null _ _ (mi_mem _ _ _ _ _ _ _ Hi)). apply frame_mem_elem in Hf as [_ H].
  rewrite E in H. rewrite !elem_of_app. auto.
Qed.

(** ** Pages of anonymous objects *)

(** The code went on with the NULL that [pframe_alloc] returned. *)
Definition no_frame (s' : mm LM) : Prop := exists o n s0, pframe_alloc o n s0 = Ok NULL s'.

Lemma relisted_frames s s' : relisted s s' ->
  pframes s' = pframes s /\ mmobjs s' = mmobjs s /\ phys s' = phys s /\ olinks s' = olinks s /\ lowmem s' = lowmem s.
Proof. by intros (l & -> & _). Qed.

(** What a request for page [n] of [o] ends with: the page that is there, or a new
    one with the given bytes. *)
Definition got (Zs U B : gset Z) L I R (o n : Z) (bytes : list Z) s (pf : Z) s' : Prop :=
  holds s pf o n /\ relisted s s' \/
  absent s o n /\ mm_inv Zs U B L I R s' /\ exists s1, relisted s s1 /\ added pf o n bytes s1 s'.

Lemma anon_get_spec maps Zs U B L I R s b n y :
  mm_inv Zs U B L I R s -> mmobjs s !! b = Some y -> mmo_ops y = anon_mmobj_ops ->
  b ∈ R ⊎ srefs Zs (mmobjs s) -> (forall pf, holds s pf b n -> pf ∉ B) ->
  (exists pf s', pframe_get anon_fillpage maps b n s = Ok (0, pf) s' /\ got Zs U B L I R b n zero_page s pf s') \/
  (exists s', pframe_get anon_fillpage maps b n s = Halt NullDeref s' /\ no_frame s').
Proof.
  intros Hi Hy Hk Hin Hb. unfold pframe_get.
  destruct (get_resident_spec _ _ _ _ _ _ _ b n Hi) as (r & s1 & E & Hr & Hh & Ha).
  rewrite (bind_ok _ _ _ _ _ E). destruct (relisted_frames _ _ Hr) as (Ef & Eo & Ep & El & Elm).
  destruct (Z.eq_dec r NULL) as [->|Hn].
  - destruct (Ha eq_refl) as [_ Ha']. clear Ha. rename Ha' into Ha. change (c_true NULL) with false. cbn match.
    pose proof (relisted_inv _ _ _ _ _ _ _ _ Hr Hi) as Hi1.
    assert (absent s1 b n) as Ha1 by (intros k (f & Hf & ?); rewrite Ef in Hf; apply (Ha k); by exists f).
    rewrite <- Eo in Hy, Hin.
    destruct (pframe_alloc_eq _ _ _ _ _ _ s1 b n y Hi1 Hy Hin) as [(lm & E1 & _)|(pf & addr & rc & lm & E1 & Hfr & Hrc)];
      rewrite (bind_ok _ _ _ _ _ E1).
    { right. eexists. split; [reflexivity|]. by exists b, n, s1. }
    left. pose proof (fresh_frame _ _ _ _ _ _ _ _ _ _ Hi1 Hfr) as Hnew.
    pose proof Hfr as (Hpf & _). rewrite (proj2 (Z.eqb_neq _ _) Hpf), ret_bind.
    pose proof (mm_inv_page_in _ _ _ _ _ _ _ _ _ _ _ _ _ _ Hi1 Hy Ha1 Hfr Hrc) as Hi2.
    set (s2 := page_in pf addr b n rc y lm s1) in *.
    assert (pframes s2 !! pf = Some (new_frame addr b n)) as Hf2 by apply (lookup_insert_eq (pframes s1)).
    pose proof (obj_nonnull _ _ _ _ _ _ _ _ _ Hi1 Hy) as Hbn.
    rewrite (bind_ok _ _ _ _ _ (fill_anon pf addr b n s2 Hf2 Hbn)).
    pose proof (mm_inv_busy _ _ _ _ _ _ _ _ _ _ _ Hi2 Hf2) as Hi3.
    set (s3 := set_pframes (insert pf (busy_frame addr b n)) s2) in *.
    assert (pframes s3 !! pf = Some (busy_frame addr b n)) as Hf3 by apply (lookup_insert_eq (pframes s2)).
    pose proof (mm_inv_finish _ _ _ _ _ _ _ _ _ zero_page Hi3 Hf3 eq_refl) as Hi4. cbn [pf_addr pf_obj pf_pagenum busy_frame] in Hi4.
    change (c_true 0) with false. cbn match.
    rewrite (frame_bind _ (filled addr b n)) by apply (lookup_insert_eq (pframes s3)).
    exists pf, (finish pf addr b n zero_page s3). split; [done|]. right. split_and!; [done|done|].
    exists s1. split; [done|]. apply (added_page_in s1 _ pf addr b n rc y lm); try done.
    intros k f Hf. by eapply frame_addr_alloc.
  - left. rewrite (proj2 (c_true_spec r) Hn). destruct (Hh Hn) as (f & Hf & Efo & Efn).
    rewrite (frame_bind _ f) by (by rewrite Ef).
    destruct (pf_busy f) eqn:Ebu.
    { exfalso. apply (Hb r); [by exists f|]. by apply (mi_busy _ _ _ _ _ _ _ Hi r f). }
    exists r, s1. split; [done|]. left. split; [by exists f|done].
Qed.

Lemma got_inv Zs U B L I R o n bytes s pf s' :
  mm_inv Zs U B L I R s -> got Zs U B L I R o n bytes s pf s' -> mm_inv Zs U B L I R s'.
Proof. intros Hi [[_ Hr]|(_ & ? & _)]; [by eapply relisted_inv|done]. Qed.

(** The page shows what [o] showed before, and nobody sees a difference. *)
Lemma got_view Zs U B L I R o n bytes s pf s' b :
  page_inv s -> got Zs U B L I R o n bytes s pf s' -> (absent s o n -> view s o n bytes) -> view s o n b ->
  holds s' pf o n /\ page_bytes pf s' = b /\ (forall o' n' b', view s o' n' b' -> view s' o' n' b').
Proof.
  intros Hp Hg Hv Hb. destruct Hg as [[Hh Hr]|(Ha & _ & s1 & Hr & Had)].
  - pose proof (view_det s o n b (page_bytes pf s) Hp Hb (view_here s pf o n Hh)) as ->.
    destruct Hr as (l & -> & Hl). split_and!; [done|done|]. intros. by eapply relisted_view; [exists l|].
  - destruct (added_page _ _ _ _ _ _ Had) as [Hh Eb].
    assert (page_inv s1) as Hp1.
    { destruct Hr as (l & -> & Hl). destruct Hp as [A1 A2 A3 (N1 & N2 & N3) A5 A6]. split; try done.
      - intros k f Hf. destruct (A1 k f Hf) as (? & ? & ? & G & ? & ?). split_and!; try done. cbn. rewrite Hl. done.
      - cbn. rewrite Hl. split_and!; [done|done|]. intros k. rewrite Hl. apply N3. }
    split_and!; [done| |].
    + rewrite Eb. apply (view_det s o n); [done|by apply Hv|done].
    + intros o' n' b' H. eapply view_added; [exact Had|done|by eapply relisted_view, Hv|by eapply relisted_view].
Qed.
End Lookup.
