(* ===== verification/MmCow.v ===== *)
(** Copy-on-write: looking up pages through chains of shadow objects that end in
    an anonymous object. *)
From S2P Require Import Prelude.
From S2P Require Import Platform.
From S2P Require Import MmIface.
From S2P Require Import Mm.
From S2P Require Import MmInv.
From S2P Require Import MmPut.
From S2P Require Import MmSafe.
From S2P Require Import MmLookup.
Open Scope Z_scope.

Section Cow.
Context {LM : Type} `{P : Platform} `{!PlatformOk P} `{!LowMem LM} {HHdr0 : MmobjHeader}.
Context {HLow : LowMemOk (LM:=LM)} {HHdr : MmobjHeaderOk} {HFile : FileOps (LM:=LM)} {HFileOk : FileOpsOk}.
Implicit Types (s : mm LM) (x y : mmobj) (f : pframe) (R : gmultiset Z) (L I : list Z) (maps : vmmaps).

(** The chain of [o] ends in the anonymous object [b]. *)
Inductive anon_chain s : Z -> Z -> Prop :=
| chain_anon o x : mmobjs s !! o = Some x -> mmo_ops x = anon_mmobj_ops -> anon_chain s o o
| chain_shadow o x b : mmobjs s !! o = Some x -> mmo_ops x = shadow_mmobj_ops ->
    anon_chain s (mmo_shadowed x) b -> anon_chain s o b.

Lemma anon_chain_bottom s o b : anon_chain s o b -> exists y, mmobjs s !! b = Some y /\ mmo_ops y = anon_mmobj_ops.
Proof. induction 1; eauto. Qed.

Lemma chain_bottom s o b x :
  shadow_inv ∅ (mmobjs s) -> anon_chain s o b -> mmobjs s !! o = Some x -> mmobj_bottom o x = b.
Proof.
  intros Hs H. revert x. induction H as [o x Hx Hk|o x b Hx Hk _ IH]; intros x' Hx'; rewrite Hx in Hx'; simplify_eq;
    rewrite mmobj_bottom_spec.
  - by rewrite (sh_none _ _ Hs o x' Hx ltac:(congruence)), Z.eqb_refl.
  - destruct (sh_bottom _ _ Hs o x' Hx Hk ltac:(set_solver)) as (_ & Hn & y & Hy & ->).
    rewrite (proj2 (Z.eqb_neq _ _) Hn). by apply IH.
Qed.

Lemma extends_chain s s' o b : extends s s' -> anon_chain s o b -> anon_chain s' o b.
Proof.
  intros He. induction 1 as [o x Hx Hk|o x b Hx Hk _ IH].
  - destruct (ex_objs _ _ He o x Hx) as (x' & Hx' & E & _). apply (chain_anon s' o x'); [done|congruence].
  - destruct (ex_objs _ _ He o x Hx) as (x' & Hx' & E1 & E2 & _).
    apply (chain_shadow s' o x'); [done|congruence|by rewrite E2].
Qed.

(** What is shown through a chain is defined. *)
Lemma view_total Zs U B L I R s o b n : mm_inv Zs U B L I R s -> anon_chain s o b -> exists bytes, view s o n bytes.
Proof.
  intros Hi. induction 1 as [o x Hx Hk|o x b Hx Hk _ [bytes IH]];
    destruct (get_resident_spec _ _ _ _ _ _ _ o n Hi) as (r & s' & _ & _ & Hh & Ha);
    (destruct (Z.eq_dec r NULL) as [->|Hr]; [|eexists; by apply view_here, Hh]).
  - eexists. by eapply view_zero; [apply Ha|..].
  - exists bytes. by eapply view_below; [apply Ha|..].
Qed.

(** ** The loops *)

(** What the loops end with: a frame that shows what [o] shows, or the bottom. *)
Definition loop_result s (o b n r o' : Z) s' : Prop :=
  relisted s s' /\ (r <> NULL -> (exists k, holds s r k n) /\ view s o n (page_bytes r s)) /\
  (r = NULL -> o' = b /\ s' = s /\ forall bytes, view s b n bytes -> view s o n bytes).

Lemma loop_result_below s o x b n r o' s' :
  absent s o n -> mmobjs s !! o = Some x -> mmo_ops x = shadow_mmobj_ops ->
  loop_result s (mmo_shadowed x) b n r o' s' -> loop_result s o b n r o' s'.
Proof.
  intros Ha Hx Hk (Hr & H1 & H2). split_and!; [done| |].
  - intros Hn. destruct (H1 Hn) as [? ?]. split; [done|]. by eapply view_below.
  - intros Hn. destruct (H2 Hn) as (? & ? & H). split_and!; [done|done|]. intros bytes Hb. eapply view_below; eauto.
Qed.

Lemma lookup_loop_spec U B L I R s fuel n o b :
  mm_inv ∅ U B L I R s -> anon_chain s o b -> ends_within fuel (mmobjs s) o ->
  exists r o' s', lookup_loop fuel n o s = Ok (r, o') s' /\ loop_result s o b n r o' s'.
Proof.
  intros Hi Hc. revert fuel. induction Hc as [o x Hx Hk|o x b Hx Hk Hc IH]; intros fuel Hf.
  - exists NULL, o, s. split; [|split_and!; [apply relisted_refl|done|done]].
    destruct fuel; [done|]. cbn [lookup_loop]. rewrite (obj_bind _ x) by done.
    by rewrite (sh_none _ _ (mi_shadow _ _ _ _ _ _ _ Hi) o x Hx ltac:(congruence)), Z.eqb_refl.
  - destruct fuel as [|fuel]; [done|]. cbn [lookup_loop]. rewrite (obj_bind _ x) by done.
    destruct (sh_bottom _ _ (mi_shadow _ _ _ _ _ _ _ Hi) o x Hx Hk ltac:(set_solver)) as (_ & Hn & _).
    rewrite (proj2 (Z.eqb_neq _ _) Hn).
    destruct (get_resident_spec _ _ _ _ _ _ _ o n Hi) as (r & s1 & E & Hr & Hh & Ha).
    rewrite (bind_ok _ _ _ _ _ E). destruct (Z.eq_dec r NULL) as [->|Hrn].
    + destruct (Ha eq_refl) as [-> Hab]. change (c_true NULL) with false. cbn match.
      destruct (IH fuel (Hf x Hx Hk)) as (r & o' & s' & E' & H'). exists r, o', s'. split; [done|].
      by eapply loop_result_below.
    + rewrite (proj2 (c_true_spec r) Hrn). exists r, (mmo_shadowed x), s1. split; [done|].
      split_and!; [done| |done]. intros _. split; [exists o; by apply Hh|by apply view_here, Hh].
Qed.

Lemma fill_loop_spec U B L I R s fuel n o b :
  mm_inv ∅ U B L I R s -> anon_chain s o b -> ends_within fuel (mmobjs s) o ->
  exists r o' s', fill_loop fuel b n o s = Ok (r, o') s' /\ loop_result s o b n r o' s'.
Proof.
  intros Hi Hc. revert fuel. induction Hc as [o x Hx Hk|o x b Hx Hk Hc IH]; intros fuel Hf.
  - exists NULL, o, s. split; [|split_and!; [apply relisted_refl|done|done]].
    destruct fuel; [done|]. cbn [fill_loop]. by rewrite Z.eqb_refl.
  - destruct (anon_chain_bottom _ _ _ Hc) as (y & Hy & Hky).
    assert (b <> o) as Hbo by congruence.
    destruct fuel as [|fuel]; [done|]. cbn [fill_loop]. rewrite (proj2 (Z.eqb_neq _ _) Hbo).
    destruct (get_resident_spec _ _ _ _ _ _ _ o n Hi) as (r & s1 & E & Hr & Hh & Ha).
    rewrite (bind_ok _ _ _ _ _ E). destruct (relisted_frames _ _ Hr) as (_ & Eo & _).
    rewrite (obj_bind _ x) by (by rewrite Eo). destruct (Z.eq_dec r NULL) as [->|Hrn].
    + destruct (Ha eq_refl) as [-> Hab]. change (c_true NULL) with false. cbn match.
      destruct (IH fuel (Hf x Hx Hk)) as (r & o' & s' & E' & H'). exists r, o', s'. split; [done|].
      by eapply loop_result_below.
    + rewrite (proj2 (c_true_spec r) Hrn). exists r, (mmo_shadowed x), s1. split; [done|].
      split_and!; [done| |done]. intros _. split; [exists o; by apply Hh|by apply view_here, Hh].
Qed.

(** ** A page of its own *)

Lemma addr_unique Zs U B L I R s k k' f f' :
  mm_inv Zs U B L I R s -> pframes s !! k = Some f -> pframes s !! k' = Some f' -> k <> k' -> pf_addr f <> pf_addr f'.
Proof.
  intros Hi Hf Hf' Hne E. pose proof (me_nodup _ _ (mi_mem _ _ _ _ _ _ _ Hi)) as Hd.
  apply NoDup_app in Hd as (_ & _ & (_ & _ & Hd)%NoDup_app).
  rewrite (frame_mem_delete _ _ _ Hf) in Hd.
  assert (delete k (pframes s) !! k' = Some f') as Hf2 by (by rewrite lookup_delete_ne).
  rewrite (frame_mem_delete _ _ _ Hf2), E in Hd.
  apply NoDup_cons in Hd as [_ [Hd _]%NoDup_cons]. apply Hd. set_solver.
Qed.

(** Filling the page changes no other page. *)
Lemma finish_frames Zs U B L I R s pf addr o n bytes f :
  mm_inv Zs U B L I R s -> pframes s !! pf = Some f -> pf_addr f = addr ->
  (forall k g, k <> pf -> pframes s !! k = Some g -> pframes (finish pf addr o n bytes s) !! k = Some g /\
    page_bytes k (finish pf addr o n bytes s) = page_bytes k s) /\
  page_bytes pf (finish pf addr o n bytes s) = bytes /\
  (forall k o' n', holds (finish pf addr o n bytes s) k o' n' -> k <> pf /\ holds s k o' n' \/ k = pf /\ o' = o /\ n' = n).
Proof.
  intros Hi Hf Ea. split_and!.
  - intros k g Hne Hg. assert (pframes (finish pf addr o n bytes s) !! k = Some g) as Hg' by (cbn; by rewrite lookup_insert_ne).
    split; [done|]. unfold page_bytes. rewrite Hg, Hg'. cbn. rewrite lookup_insert_ne; [done|].
    rewrite <- Ea. intros E. by eapply (addr_unique _ _ _ _ _ _ s pf k).
  - unfold page_bytes. cbn. rewrite lookup_insert_eq. cbn. by rewrite lookup_insert_eq.
  - intros k o' n' (g & Hg & <- & <-). cbn in Hg. apply lookup_insert_Some in Hg as [[<- <-]|[? Hg]]; [by right|left].
    split; [done|]. by exists g.
Qed.

(** Below [o], a page of [o] is not seen. *)
Lemma view_rank s s' (rank : Z -> nat) o k n b :
  extends s s' -> (forall j x, mmobjs s !! j = Some x -> mmo_ops x = shadow_mmobj_ops -> (rank (mmo_shadowed x) < rank j)%nat) ->
  (forall k' o' n', holds s' k' o' n' -> holds s k' o' n' \/ o' = o) -> (rank k < rank o)%nat -> view s k n b -> view s' k n b.
Proof.
  intros He Hr Hnew Hk H. induction H as [pf k n Hh|k n x b Ha Hx Hs Hb IH|k n x Ha Hx Hs].
  - pose proof Hh as (f & Hf & ?). destruct (ex_frames _ _ He pf f Hf) as [_ <-].
    apply view_here. by eapply extends_holds.
  - destruct (ex_objs _ _ He _ _ Hx) as (x' & Hx' & E1 & E2 & _). specialize (Hr k x Hx Hs).
    apply (view_below s' k n x'); [|done|congruence|rewrite E2; apply IH; lia].
    intros q [?| ->]%Hnew; [by apply (Ha q)|lia].
  - destruct (ex_objs _ _ He _ _ Hx) as (x' & Hx' & E1 & E2 & _).
    apply (view_zero s' k n x'); [|done|congruence]. intros q [?| ->]%Hnew; [by apply (Ha q)|lia].
Qed.

Lemma pin_copy_eq pf addr o n r s :
  pframes s !! pf = Some (busy_frame addr o n) -> o <> NULL -> r <> NULL ->
  exists s3, (pframe_pin pf;; (if r =? NULL then stop NullDeref else mret tt);;
      bytes ← gets (page_bytes r); set_page_bytes pf bytes;; mret 0) s = Ok 0 s3 /\
    pframes s3 !! pf = Some (Pframe addr o n true false 1 []) /\
    set_pframes (insert pf (filled addr o n)) s3 = finish pf addr o n (page_bytes r s) s.
Proof.
  intros Hf Hn Hr. rewrite (proj2 (Z.eqb_neq _ _) Hr).
  destruct (pin_bytes_eq pf addr o n s Hf Hn (page_bytes r s)) as (s3 & E & Hf3 & E3 & _). exists s3. split_and!; [|done|done].
  unfold mbind, M_bind in E |- *. destruct (pframe_pin pf s) as [[] s1|h s1] eqn:Ep; [|done].
  assert (page_bytes r s1 = page_bytes r s) as Eb.
  { revert Ep. unfold pframe_pin. rewrite (frame_bind _ _ _ _ Hf).
    rewrite !kassert_bind by (cbn; try done; unfold pframe_is_free; cbn; by apply negb_true_iff, Z.eqb_neq).
    cbn [pframe_is_pinned busy_frame pf_pincount Z.ltb negb when]. cbn. rewrite modify_bind.
    rewrite (upd_frame_eq pf (busy_frame addr o n)) by done. intros [= <-].
    unfold page_bytes. cbn. rewrite lookup_insert. case_decide as Hd; [|done]. subst r. by rewrite Hf. }
  cbn. rewrite Eb, E. done.
Qed.

(** ** Filling a page of a shadow object *)

(** [s3] is [s] with a busy page [n] of [o] at frame [pf]. *)
Record started s (pf addr o n : Z) s3 : Prop := {
  st_ext : extends s s3;
  st_new : pframes s !! pf = None;
  st_frame : pframes s3 !! pf = Some (busy_frame addr o n);
  st_back k o' n' : holds s3 k o' n' -> holds s k o' n' \/ k = pf /\ o' = o /\ n' = n
}.

Lemma started_page_in Zs U B L I R s pf addr o n rc x lm :
  mm_inv Zs U B L I R s -> mmobjs s !! o = Some x -> fresh_addrs pf addr lm s ->
  started s pf addr o n (set_pframes (insert pf (busy_frame addr o n)) (page_in pf addr o n rc x lm s)).
Proof.
  intros Hi Hx Hfr. pose proof (fresh_frame _ _ _ _ _ _ _ _ _ _ Hi Hfr) as Hnew. split.
  - split; [|intros k y Hy|intros Zs'|done].
    + intros k f Hf. assert (k <> pf) by congruence. cbn. rewrite !lookup_insert_ne by done. split; [done|].
      unfold page_bytes. cbn. rewrite !lookup_insert_ne by done. by rewrite Hf.
    + cbn. destruct (decide (k = o)) as [->|]; [|by exists y; rewrite lookup_insert_ne].
      simplify_eq. eexists. by rewrite lookup_insert_eq.
    + cbn. by rewrite (srefs_update Zs' (mmobjs s) o x).
  - done.
  - apply (lookup_insert_eq (<[pf := new_frame addr o n]> (pframes s))).
  - intros k o' n' (f & Hf & <- & <-). cbn in Hf. apply lookup_insert_Some in Hf as [[<- <-]|[? Hf]]; [by right|].
    rewrite lookup_insert_ne in Hf by done. left. by exists f.
Qed.

(** The page to copy: [q] shows in [s5] what the object below showed. *)
Definition source_found (U : gset Z) L I R s3 (b o n : Z) (q : Z) s5 : Prop :=
  mm_inv ∅ U U L I R s5 /\ extends s3 s5 /\ q <> NULL /\ view s3 o n (page_bytes q s5) /\
  (forall k o' n', holds s5 k o' n' -> holds s3 k o' n' \/
    absent s3 o' n' /\ page_bytes k s5 = zero_page /\ o' = b).

Lemma got_extends Zs U B L I R o n bytes s pf s' : got Zs U B L I R o n bytes s pf s' -> extends s s'.
Proof.
  intros [[_ Hr]|(_ & _ & s1 & Hr & Had)]; [by apply relisted_extends|].
  eapply extends_trans; [by apply relisted_extends|by eapply added_extends].
Qed.

Lemma got_source U L I R s3 b n q s5 o y :
  mm_inv ∅ U U L I R s3 -> got ∅ U U L I R b n zero_page s3 q s5 -> mmobjs s3 !! b = Some y -> mmo_ops y = anon_mmobj_ops ->
  (forall bytes, view s3 b n bytes -> view s3 o n bytes) -> source_found U L I R s3 b o n q s5.
Proof.
  intros Hi Hg Hy Hk Hv. pose proof (mi_page _ _ _ _ _ _ _ Hi) as Hp.
  destruct (view_total _ _ _ _ _ _ _ b b n Hi (chain_anon s3 b y Hy Hk)) as [bytes Hb].
  destruct (got_view _ _ _ _ _ _ _ _ _ _ _ _ bytes Hp Hg ltac:(intros; by eapply view_zero) Hb) as (Hh & Eb & _).
  pose proof (got_inv _ _ _ _ _ _ _ _ _ _ _ _ Hi Hg) as Hi5. pose proof Hh as (f & Hf & _).
  split_and!; [done| |by eapply frame_nonnull|rewrite Eb; auto|].
  - by eapply got_extends.
  - intros k o' n' Hh'. destruct Hg as [[_ Hr]|(Ha & _ & s1 & Hr & Had)].
    + left. destruct Hr as (l & -> & _). done.
    + destruct (relisted_frames _ _ Hr) as (Ef & _). unfold holds, absent in *.
      destruct (added_back _ _ _ _ _ _ Had k o' n' Hh') as [(g & Hg & ?)|(-> & -> & ->)].
      * left. exists g. by rewrite <- Ef.
      * right. split_and!; [done| |done]. by destruct (added_page _ _ _ _ _ _ Had) as [_ ->].
Qed.

(** [shadow_fillpage] copies the page the object below shows. *)
Lemma shadow_fill_spec maps L I R s pf addr o n s3 x b :
  safe L I R s -> anon_chain s (mmo_shadowed x) b -> mmobjs s !! o = Some x -> mmo_ops x = shadow_mmobj_ops ->
  started s pf addr o n s3 -> mm_inv ∅ {[pf]} {[pf]} L I R s3 ->
  (exists q s5 s6, shadow_fillpage (lookup_fuel 1 maps) o pf s3 = Ok 0 s6 /\
    source_found {[pf]} L I R s3 b (mmo_shadowed x) n q s5 /\ pframes s6 !! pf = Some (Pframe addr o n true false 1 []) /\
    set_pframes (insert pf (filled addr o n)) s6 = finish pf addr o n (page_bytes q s5) s5) \/
  (exists s', shadow_fillpage (lookup_fuel 1 maps) o pf s3 = Halt NullDeref s' /\ no_frame s').
Proof.
  intros Hi Hc Hx Hk [He Hnew Hf Hback] Hi3. destruct (ex_objs _ _ He o x Hx) as (x3 & Hx3 & E1 & E2 & E3 & _).
  pose proof (extends_chain _ _ _ _ He Hc) as Hc3. pose proof (mi_shadow _ _ _ _ _ _ _ Hi3) as Hsh3.
  destruct (sh_bottom _ _ Hsh3 o x3 Hx3 ltac:(congruence) ltac:(set_solver)) as (_ & _ & z & Hz & Ez). rewrite E2 in Hz, Ez.
  pose proof (chain_bottom _ _ _ _ Hsh3 Hc3 Hz) as Eb. rewrite <- Ez in Eb.
  destruct (fill_loop_spec _ _ _ _ _ s3 (size (mmobjs s3)) n _ _ Hi3 Hc3) as (r & o' & s4 & Efl & Hrl & H1 & H2).
  { by apply (chain_short ∅ _ _ z); [|done|set_solver]. }
  pose proof (obj_nonnull _ _ _ _ _ _ _ _ _ Hi3 Hx3) as Hon.
  unfold shadow_fillpage. rewrite (frame_bind _ _ _ _ Hf), !kassert_bind, (obj_bind _ _ _ _ Hx3), get_bind by done.
  cbn [pf_pagenum busy_frame]. rewrite Eb, E2, (bind_ok _ _ _ _ _ Efl). cbn [fst snd].
  destruct (Z.eqb_spec r NULL) as [->|Hr].
  - destruct (H2 eq_refl) as (-> & -> & Hv). destruct (anon_chain_bottom _ _ _ Hc3) as (y & Hy & Hky).
    pose proof (obj_nonnull _ _ _ _ _ _ _ _ _ Hi3 Hy) as Hbn. assert (b <> o) as Hbo by congruence.
    assert (lookup_fuel 1 maps b n true s3 = pframe_get anon_fillpage maps b n s3) as El.
    { cbn [lookup_fuel]. rewrite kassert_bind by (by apply c_true_spec). by rewrite (obj_bind _ y), Hky. }
    destruct (anon_get_spec maps ∅ {[pf]} {[pf]} L I R s3 b n y Hi3 Hy Hky) as [(q & s5 & E & Hg)|(s' & E & Hnf)].
    { apply (rf_used _ _ _ (mi_ref _ _ _ _ _ _ _ Hi3) b y); [done|congruence|set_solver]. }
    { intros k (g & Hg & Eg & _) ->%elem_of_singleton. rewrite Hf in Hg. simplify_eq. }
    + left. pose proof (got_source _ _ _ _ _ _ _ _ _ _ y Hi3 Hg Hy Hky Hv) as Hs.
      pose proof Hs as (_ & He5 & Hq & _). destruct (ex_frames _ _ He5 _ _ Hf) as [Hf5 _].
      destruct (pin_copy_eq pf addr o n q s5 Hf5 Hon Hq) as (s6 & Ep & Hf6 & E6). exists q, s5, s6. split_and!; [|done|done|done].
      rewrite bind_assoc, (bind_ok _ _ _ _ _ (eq_trans El E)), ret_bind. exact Ep.
    + right. exists s'. split; [|done]. rewrite bind_assoc. by rewrite (bind_halt _ _ _ _ _ (eq_trans El E)).
  - left. destruct (H1 Hr) as [_ Hv]. pose proof (relisted_extends _ _ Hrl) as He4.
    destruct (ex_frames _ _ He4 _ _ Hf) as [Hf4 _].
    destruct (pin_copy_eq pf addr o n r s4 Hf4 Hon Hr) as (s6 & Ep & Hf6 & E6). exists r, s4, s6. split_and!; [|split_and!|done|done].
    + rewrite ret_bind. exact Ep.
    + by eapply relisted_inv.
    + done.
    + done.
    + destruct Hrl as (l & -> & _). exact Hv.
    + intros k o1 n1 Hh. left. destruct Hrl as (l & -> & _). done.
Qed.

(** ** Looking up a page *)

(** The page [pf] shows what [o] showed, is a page of [o] if it is to be written,
    and nobody sees a difference. *)
Definition looked_up L I R s (o n : Z) (forwrite : bool) (pf : Z) s' : Prop :=
  safe L I R s' /\ extends s s' /\ view s o n (page_bytes pf s') /\ (exists k, holds s' pf k n) /\
  (forwrite = true -> holds s' pf o n) /\ (forall o' n' b, view s o' n' b -> view s' o' n' b).

Lemma got_looked_up L I R s o n fw pf s' b :
  safe L I R s -> anon_chain s o b -> got ∅ ∅ ∅ L I R b n zero_page s pf s' ->
  (forall bytes, view s b n bytes -> view s o n bytes) -> (fw = true -> b = o) -> looked_up L I R s o n fw pf s'.
Proof.
  intros Hi Hc Hg Hv Hfw. destruct (anon_chain_bottom _ _ _ Hc) as (y & Hy & Hk).
  destruct (view_total _ _ _ _ _ _ _ b b n Hi (chain_anon s b y Hy Hk)) as [bytes Hb].
  destruct (got_view _ _ _ _ _ _ _ _ _ _ _ _ bytes (mi_page _ _ _ _ _ _ _ Hi) Hg ltac:(intros; by eapply view_zero) Hb) as (Hh & Eb & Hvs).
  split_and!; [by eapply got_inv|by eapply got_extends|rewrite Eb; auto|by exists b|intros ->%Hfw; done|done].
Qed.

(** The new page of a shadow object. *)
Lemma source_looked_up L I R s pf addr o n s3 x b q s5 :
  safe L I R s -> anon_chain s (mmo_shadowed x) b -> mmobjs s !! o = Some x -> mmo_ops x = shadow_mmobj_ops ->
  absent s o n -> started s pf addr o n s3 -> mm_inv ∅ {[pf]} {[pf]} L I R s3 ->
  source_found {[pf]} L I R s3 b (mmo_shadowed x) n q s5 ->
  looked_up L I R s o n true pf (finish pf addr o n (page_bytes q s5) s5).
Proof.
  intros Hi Hc Hx Hk Ha [He Hnew Hf Hback] Hi3 (Hi5 & He5 & Hq & Hv & Hb5).
  destruct (ex_frames _ _ He5 _ _ Hf) as [Hf5 _].
  set (bytes := page_bytes q s5) in *. set (s6 := finish pf addr o n bytes s5).
  destruct (finish_frames _ _ _ _ _ _ s5 pf addr o n bytes _ Hi5 Hf5 eq_refl) as (Hfr & Hpb & Hhs).
  assert (safe L I R s6) as Hi6.
  { apply (mm_inv_finish ∅ ∅ ∅ L I R s5 pf (busy_frame addr o n)); [|done|done]. by rewrite (right_id_L ∅ (∪)). }
  (* what the object below showed *)
  destruct (view_total _ _ _ _ _ _ _ _ _ n Hi Hc) as [b0 Hb0].
  destruct (sh_rank _ _ (mi_shadow _ _ _ _ _ _ _ Hi)) as [rank Hrank].
  assert (view s3 (mmo_shadowed x) n b0) as Hb3.
  { apply (view_rank s s3 rank o); [done|done| |by apply Hrank|done]. intros k o' n' Hh. destruct (Hback k o' n' Hh); naive_solver. }
  pose proof (view_det _ _ _ _ _ (mi_page _ _ _ _ _ _ _ Hi3) Hb3 Hv) as ->.
  assert (view s o n bytes) as Hvo by (by eapply view_below).
  assert (holds s6 pf o n) as Hpf by (eexists; split; [apply (lookup_insert_eq (pframes s5))|done]).
  fold s6 in Hfr, Hpb, Hhs.
  assert (extends s s6) as He6.
  { pose proof (extends_trans _ _ _ He He5) as [X1 X2 X3 X4]. split; [|done..].
    intros k f Hk'. destruct (X1 k f Hk') as [Hk5 <-]. apply Hfr; [congruence|done]. }
  split_and!; [done|done|by rewrite Hpb|by exists o|done|].
  intros o' n' b'. apply view_extends; [apply Hi|done|].
  - intros k o1 n1 Hh6. destruct (Hhs k o1 n1 Hh6) as [[Hne Hh5]|(-> & -> & ->)]; [|right; by rewrite Hpb].
    destruct (Hb5 k o1 n1 Hh5) as [Hh3|(Ha3 & Ez & ->)].
    + left. destruct (Hback k o1 n1 Hh3) as [?|[-> _]]; done.
    + right. pose proof Hh5 as (g & Hg & _). destruct (Hfr k g Hne Hg) as [_ ->]. rewrite Ez.
      destruct (anon_chain_bottom _ _ _ Hc) as (y & Hy & Hky). eapply view_zero; [|done|done].
      intros j Hj. apply (Ha3 j). by eapply extends_holds.
Qed.

Lemma shadow_get_spec maps L I R s o n x b :
  safe L I R s -> anon_chain s (mmo_shadowed x) b -> mmobjs s !! o = Some x -> mmo_ops x = shadow_mmobj_ops ->
  (exists pf s', pframe_get (shadow_fillpage (lookup_fuel 1 maps)) maps o n s = Ok (0, pf) s' /\ looked_up L I R s o n true pf s') \/
  (exists s', pframe_get (shadow_fillpage (lookup_fuel 1 maps)) maps o n s = Halt NullDeref s' /\ no_frame s').
Proof.
  intros Hi Hc Hx Hk. unfold pframe_get.
  destruct (get_resident_spec _ _ _ _ _ _ _ o n Hi) as (r & s1 & E & Hr & Hh & Ha).
  rewrite (bind_ok _ _ _ _ _ E). destruct (Z.eq_dec r NULL) as [->|Hn].
  - destruct (Ha eq_refl) as [-> Hab]. change (c_true NULL) with false. cbn match.
    assert (o ∈ R ⊎ srefs ∅ (mmobjs s)) as Hin
      by (apply (rf_used _ _ _ (mi_ref _ _ _ _ _ _ _ Hi) o x); [done|congruence|set_solver]).
    destruct (pframe_alloc_eq _ _ _ _ _ _ s o n x Hi Hx Hin) as [(lm & E1 & _)|(pf & addr & rc & lm & E1 & Hfr & Hrc)];
      rewrite (bind_ok _ _ _ _ _ E1).
    { right. eexists. split; [reflexivity|]. by exists o, n, s. }
    pose proof Hfr as (Hpf & _). rewrite (proj2 (Z.eqb_neq _ _) Hpf), ret_bind.
    pose proof (mm_inv_page_in _ _ _ _ _ _ _ _ _ _ _ _ _ _ Hi Hx Hab Hfr Hrc) as Hi2.
    pose proof (started_page_in _ _ _ _ _ _ s pf addr o n rc x lm Hi Hx Hfr) as Hst.
    set (s2 := page_in pf addr o n rc x lm s) in *.
    assert (pframes s2 !! pf = Some (new_frame addr o n)) as Hf2 by apply (lookup_insert_eq (pframes s)).
    pose proof (mm_inv_busy _ _ _ _ _ _ _ _ _ _ _ Hi2 Hf2) as Hi3. rewrite !(right_id_L ∅ (∪)) in Hi3.
    destruct (shadow_fill_spec maps L I R s pf addr o n _ x b Hi Hc Hx Hk Hst Hi3)
      as [(q & s5 & s6 & Ef & Hs & Hf6 & E6)|(s' & Ef & Hnf)].
    + left. rewrite (bind_ok _ _ _ _ _ (fill_eq _ pf addr o n 1 0 s2 s6 Hf2 Ef Hf6)).
      change (Pframe addr o n false false 1 []) with (filled addr o n). rewrite E6.
      change (c_true 0) with false. cbn match.
      rewrite (frame_bind _ (filled addr o n)) by apply (lookup_insert_eq (pframes s5)).
      eexists pf, _. split; [reflexivity|]. by eapply source_looked_up.
    + right. exists s'. split; [|done]. apply bind_halt. unfold pframe_fill.
      rewrite (frame_bind _ _ _ _ Hf2), (upd_frame_bind _ _ _ _ _ Hf2). by apply bind_halt.
  - left. rewrite (proj2 (c_true_spec r) Hn). destruct (relisted_frames _ _ Hr) as (Ef & _).
    specialize (Hh Hn). pose proof Hh as (f & Hf & Efo). rewrite (frame_bind _ f) by (by rewrite Ef).
    destruct (pf_busy f) eqn:Ebu; [by apply (mi_busy _ _ _ _ _ _ _ Hi r f) in Ebu|].
    exists r, s1. split; [done|]. assert (holds s1 r o n) as Hh1 by (exists f; by rewrite Ef).
    split_and!; [by eapply relisted_inv|by apply relisted_extends| |by exists o|done|intros; by eapply relisted_view].
    destruct Hr as (l & -> & _). by apply (view_here s r).
Qed.

Lemma lookup_ok maps L I R s o n forwrite b :
  safe L I R s -> anon_chain s o b ->
  (exists pf s', pframe_lookup maps o n forwrite s = Ok (0, pf) s' /\ looked_up L I R s o n forwrite pf s') \/
  (exists s', pframe_lookup maps o n forwrite s = Halt NullDeref s' /\ no_frame s').
Proof.
  intros Hi Hc. unfold pframe_lookup.
  assert (forall fuel fw b y, mmobjs s !! b = Some y -> mmo_ops y = anon_mmobj_ops ->
    lookup_fuel (S fuel) maps b n fw s = pframe_get anon_fillpage maps b n s) as Hl.
  { intros fuel fw b' y Hy Hk. cbn [lookup_fuel]. rewrite kassert_bind, (obj_bind _ y), Hk by (done || apply c_true_spec; by eapply obj_nonnull). done. }
  assert (forall b y, mmobjs s !! b = Some y -> mmo_ops y = anon_mmobj_ops ->
    (exists pf s', pframe_get anon_fillpage maps b n s = Ok (0, pf) s' /\ got ∅ ∅ ∅ L I R b n zero_page s pf s') \/
    (exists s', pframe_get anon_fillpage maps b n s = Halt NullDeref s' /\ no_frame s')) as Hg.
  { intros b' y Hy Hk. apply (anon_get_spec maps ∅ ∅ ∅ L I R s b' n y Hi Hy Hk); [|set_solver].
    apply (rf_used _ _ _ (mi_ref _ _ _ _ _ _ _ Hi) b' y); [done|congruence|set_solver]. }
  destruct Hc as [o x Hx Hk|o x b Hx Hk Hc].
  - rewrite (Hl _ _ o x Hx Hk). destruct (Hg o x Hx Hk) as [(pf & s' & E & G)|?]; [left|by right].
    exists pf, s'. split; [done|]. by eapply got_looked_up; [done|by eapply chain_anon|done|..].
  - change (lookup_fuel 2 maps o n forwrite s) with ((kassert (c_true o);; x ← obj o; match mmo_ops x with
      | anon_mmobj_ops => anon_lookuppage maps o n forwrite
      | shadow_mmobj_ops => shadow_lookuppage (lookup_fuel 1 maps) maps o n forwrite
      | file_mmobj_ops => file_lookuppage maps o n forwrite end) s).
    rewrite kassert_bind, (obj_bind _ x), Hk by (done || apply c_true_spec; by eapply obj_nonnull).
    unfold shadow_lookuppage. destruct forwrite; [by eapply shadow_get_spec|]. rewrite get_bind.
    destruct (lookup_loop_spec _ _ _ _ _ s (size (mmobjs s)) n o b Hi) as (r & o' & s1 & E & Hr & H1 & H2).
    { by eapply chain_shadow. } { apply (chain_short ∅ _ _ x); [apply Hi|done|set_solver]. }
    rewrite (bind_ok _ _ _ _ _ E). cbn [fst snd]. destruct (Z.eqb_spec r NULL) as [->|Hn].
    + destruct (H2 eq_refl) as (-> & -> & Hv). destruct (anon_chain_bottom _ _ _ Hc) as (y & Hy & Hky).
      rewrite (Hl _ _ b y Hy Hky). destruct (Hg b y Hy Hky) as [(pf & s' & E' & G)|?]; [left|by right].
      exists pf, s'. split; [done|]. by eapply got_looked_up; [done|by eapply chain_shadow|done|..].
    + left. destruct (H1 Hn) as [(k & f & Hf & Ek & En) Hv]. destruct (relisted_frames _ _ Hr) as (Ef & _).
      rewrite (frame_bind _ f) by (by rewrite Ef).
      assert (pf_busy f = false) as Eb.
      { destruct (pf_busy f) eqn:Ebu; [|done]. by apply (mi_busy _ _ _ _ _ _ _ Hi r f) in Ebu. }
      rewrite kassert_bind by (by rewrite En, Z.eqb_refl, Eb).
      exists r, s1. split; [done|]. split_and!; [by eapply relisted_inv|by apply relisted_extends| |exists k, f; by rewrite Ef|done|intros; by eapply relisted_view].
      destruct Hr as (l & -> & _). exact Hv.
Qed.

(** C23. pframe_lookup of a page of a chain of shadow objects above an anonymous
    object returns a frame whose bytes are the page as the chain defines it, the
    topmost object that has the page or zeros, of the object itself when it is
    looked up for writing; it leaves every page of every object as it was. The
    only crash is that no page frame is left. *)
Theorem pframe_lookup_shows maps L I R s o n forwrite b :
  safe L I R s -> anon_chain s o b ->
  (exists pf s', pframe_lookup maps o n forwrite s = Ok (0, pf) s' /\ looked_up L I R s o n forwrite pf s') \/
  (exists s', pframe_lookup maps o n forwrite s = Halt NullDeref s' /\ no_frame s').
Proof. apply lookup_ok. Qed.

(** ** Writing to a page *)

(** Object [o] is in the chain of [o']. *)
Inductive reaches s (o : Z) : Z -> Prop :=
| reaches_here : reaches s o o
| reaches_below o' x : mmobjs s !! o' = Some x -> mmo_ops x = shadow_mmobj_ops ->
    reaches s o (mmo_shadowed x) -> reaches s o o'.

(** Siblings do not reach each other, and an object does not reach what shadows it. *)
Lemma sibling_unreached Zs s sh1 sh2 x1 x2 :
  shadow_inv Zs (mmobjs s) -> mmobjs s !! sh1 = Some x1 -> mmo_ops x1 = shadow_mmobj_ops ->
  mmobjs s !! sh2 = Some x2 -> mmo_ops x2 = shadow_mmobj_ops -> mmo_shadowed x1 = mmo_shadowed x2 -> sh1 <> sh2 ->
  ~ reaches s sh1 sh2 /\ ~ reaches s sh1 (mmo_shadowed x1).
Proof.
  intros [_ _ [rank Hr]] H1 K1 H2 K2 E Hne.
  assert (forall o', reaches s sh1 o' -> (rank sh1 <= rank o')%nat) as Hle.
  { induction 1 as [|o' x Hx Hk _ IH]; [done|]. specialize (Hr o' x Hx Hk). lia. }
  pose proof (Hr sh1 x1 H1 K1) as Hlt.
  assert (~ reaches s sh1 (mmo_shadowed x1)) as Hp by (intros Hc%Hle; lia). split; [|done].
  intros Hc. inversion Hc as [|o' x Hx Hk Hc']; subst; [done|]. simplify_eq. by rewrite <- E in Hc'.
Qed.

Lemma mm_inv_phys Zs U B L I R s g : mm_inv Zs U B L I R s -> mm_inv Zs U B L I R (set_phys g s).
Proof.
  intros [[A1 A2 A3 A4 A5 A6] H2 H3 H4 H5 [C1 C2] [D1 D2 D3]]. by split; [split| | | | |split|split].
Qed.

(** Writing to a page of [o] is seen through [o], and not through objects that do
    not have [o] in their chain. *)
Lemma write_seen L I R s pf o n bytes :
  safe L I R s -> holds s pf o n ->
  exists s', set_page_bytes pf bytes s = Ok tt s' /\ safe L I R s' /\ view s' o n bytes /\
    forall o' n' b, view s o' n' b -> n' <> n \/ ~ reaches s o o' -> view s' o' n' b.
Proof.
  intros Hi (f & Hf & Efo & Efn). unfold set_page_bytes. rewrite (frame_bind _ f) by done.
  set (s' := set_phys (insert (pf_addr f) bytes) s). exists s'.
  assert (page_bytes pf s' = bytes) as Hpb.
  { unfold page_bytes. cbn. rewrite Hf. by rewrite lookup_insert_eq. }
  assert (forall k o' n', holds s k o' n' -> (n' <> n \/ o' <> o) -> page_bytes k s' = page_bytes k s) as Hother.
  { intros k o' n' (g & Hg & ? & ?) Hne. unfold page_bytes. cbn. rewrite Hg. rewrite lookup_insert_ne; [done|].
    intros E. destruct (decide (pf = k)) as [->|Hk]; [simplify_eq; naive_solver|].
    by eapply (addr_unique _ _ _ _ _ _ s pf k). }
  split_and!; [done|by apply mm_inv_phys| |].
  - rewrite <- Hpb. apply view_here. by exists f.
  - intros o' n' b Hv. induction Hv as [k o' n' Hh|o' n' x b Ha Hx Hk Hb IH|o' n' x Ha Hx Hk]; intros Hne.
    + rewrite <- (Hother k o' n' Hh); [by apply view_here|]. destruct Hne as [?|Hnr]; [by left|right]. intros ->.
      apply Hnr, reaches_here.
    + apply (view_below s' o' n' x); [done|done|done|]. apply IH. destruct Hne as [?|Hnr]; [by left|right].
      intros Hc. by apply Hnr, (reaches_below s o o' x).
    + by apply (view_zero s' o' n' x).
Qed.

Lemma write_isolated maps L I R s sh1 sh2 x1 x2 n bytes b :
  safe L I R s -> anon_chain s sh1 b -> sh1 <> sh2 ->
  mmobjs s !! sh1 = Some x1 -> mmo_ops x1 = shadow_mmobj_ops ->
  mmobjs s !! sh2 = Some x2 -> mmo_ops x2 = shadow_mmobj_ops -> mmo_shadowed x1 = mmo_shadowed x2 ->
  (exists s', (r ← pframe_lookup maps sh1 n true; set_page_bytes r.2 bytes) s = Ok tt s' /\ safe L I R s' /\
    view s' sh1 n bytes /\
    (forall n' b', n' <> n -> view s sh1 n' b' -> view s' sh1 n' b') /\
    (forall n' b', view s sh2 n' b' -> view s' sh2 n' b') /\
    (forall n' b', view s (mmo_shadowed x1) n' b' -> view s' (mmo_shadowed x1) n' b')) \/
  (exists s', (r ← pframe_lookup maps sh1 n true; set_page_bytes r.2 bytes) s = Halt NullDeref s' /\ no_frame s').
Proof.
  intros Hi Hc Hne H1 K1 H2 K2 E.
  destruct (lookup_ok maps L I R s sh1 n true b Hi Hc) as [(pf & s1 & El & Hi1 & He & _ & _ & Hh & Hv)|(s' & El & Hnf)].
  - left. destruct (write_seen L I R s1 pf sh1 n bytes Hi1 (Hh eq_refl)) as (s' & Ew & Hi' & Hb & Hv').
    destruct (ex_objs _ _ He sh1 x1 H1) as (y1 & Hy1 & E1 & E2 & _), (ex_objs _ _ He sh2 x2 H2) as (y2 & Hy2 & E3 & E4 & _).
    destruct (sibling_unreached _ s1 sh1 sh2 y1 y2 (mi_shadow _ _ _ _ _ _ _ Hi1)) as [N1 N2]; try congruence.
    rewrite E2 in N2. exists s'. rewrite (bind_ok _ _ _ _ _ El). cbn [snd]. split_and!; auto.
  - right. exists s'. split; [|done]. by rewrite (bind_halt _ _ _ _ _ El).
Qed.

End Cow.
