(* ===== verification/MmPageout.v ===== *)
(** Paging out: the loop of the page-out daemon, [pageoutd_run] of [mm/pframe.c].

    Pages of anonymous and shadow objects are pinned, so the daemon finds pages of
    files only; it frees them from the front of the list until enough pages are free,
    and what private memory shows is not affected. *)
From S2P Require Import Prelude.
From S2P Require Import Platform.
From S2P Require Import MmIface.
From S2P Require Import Mm.
From S2P Require Import MmInv.
From S2P Require Import MmPut.
From S2P Require Import MmSafe.
From S2P Require Import MmLookup.
From S2P Require Import MmCow.
Open Scope Z_scope.

Section Pageout.
Context {LM : Type} `{P : Platform} `{!PlatformOk P} `{!LowMem LM} {HHdr0 : MmobjHeader}.
Context {HLow : LowMemOk (LM:=LM)} {HHdr : MmobjHeaderOk} {HFile : FileOps (LM:=LM)} {HFileOk : FileOpsOk}.
Implicit Types (s : mm LM) (x y : mmobj) (f : pframe) (R : gmultiset Z) (L I : list Z) (maps : vmmaps).

(** Dropping a reference to a file that is not the last one (its pages apart) counts it. *)
Class FileCounts := {
  file_put_counts maps s o x : mmobjs s !! o = Some x -> mmo_ops x = file_mmobj_ops -> mmo_nrespages x + 1 < mmo_refcount x ->
    file_put maps o s = Ok tt (set_mmobjs (insert o (set_refcount (mmo_refcount x - 1) x)) s)
}.
Context `{!FileCounts}.

(** Somebody other than its pages refers to a file; the pages on the list are clean. *)
Definition files_used s : Prop := forall o x, mmobjs s !! o = Some x -> mmo_ops x = file_mmobj_ops -> mmo_nrespages x < mmo_refcount x.
Definition all_clean s : Prop := forall pf f, pf ∈ alloc_list s -> pframes s !! pf = Some f -> pf_dirty f = false.

(** [s'] is [s] without the pages [l] of files. *)
Record paged_out (l : list Z) s s' : Prop := {
  po_frames pf : pframes s' !! pf = if decide (pf ∈ l) then None else pframes s !! pf;
  po_alloc : alloc_list s = l ++ alloc_list s';
  po_objs o x : mmobjs s !! o = Some x -> mmo_ops x <> file_mmobj_ops -> mmobjs s' !! o = Some x;
  po_files pf f x : pf ∈ l -> pframes s !! pf = Some f -> mmobjs s !! pf_obj f = Some x -> mmo_ops x = file_mmobj_ops;
  po_back o x : mmobjs s' !! o = Some x -> exists y, mmobjs s !! o = Some y /\ mmo_ops y = mmo_ops x;
  po_phys : phys s' = phys s
}.

Lemma paged_out_refl s : paged_out [] s s.
Proof. split; [done|done|done|by intros pf f x ?%elem_of_nil|eauto|done]. Qed.
Lemma paged_out_trans l1 l2 s1 s2 s3 : NoDup (alloc_list s1) -> paged_out l1 s1 s2 -> paged_out l2 s2 s3 -> paged_out (l1 ++ l2) s1 s3.
Proof.
  intros Hnd [A1 A2 A3 A4 A5 A6] [B1 B2 B3 B4 B5 B6]. rewrite A2, B2 in Hnd. split.
  - intros pf. rewrite B1, A1. repeat case_decide; set_solver.
  - by rewrite A2, B2, app_assoc.
  - eauto.
  - intros pf f x Hin Hf Hx. destruct (decide (pf ∈ l1)); [by eapply A4|]. apply elem_of_app in Hin as [?|Hin]; [done|].
    destruct (decide (mmo_ops x = file_mmobj_ops)); [done|]. eapply (B4 pf f); [done| |by apply A3]. rewrite A1. by rewrite decide_False.
  - intros o x Hx. destruct (B5 o x Hx) as (y & Hy & <-). eauto.
  - congruence.
Qed.

(** Private memory shows what it did. *)
Lemma paged_out_view l s s' o bot n b : page_inv s -> paged_out l s s' -> anon_chain s o bot -> view s o n b -> view s' o n b.
Proof.
  intros Hp [A1 A2 A3 A4 A5 A6] Hc Hv. revert bot Hc.
  assert (forall o x, mmobjs s !! o = Some x -> mmo_ops x <> file_mmobj_ops -> forall pf m, holds s pf o m <-> holds s' pf o m) as Hholds.
  { intros o' x Hx Hk pf m. split; intros (f & Hf & E1 & E2).
    - exists f. split; [|done]. rewrite A1, decide_False; [done|]. intros Hin. apply Hk. subst o'. by eapply A4.
    - exists f. split; [|done]. rewrite A1 in Hf. by case_decide. }
  assert (forall o x m, mmobjs s !! o = Some x -> mmo_ops x <> file_mmobj_ops -> absent s o m -> absent s' o m) as Habs.
  { intros o' x m Hx Hk Ha pf Hh. apply (Ha pf). by eapply Hholds. }
  induction Hv as [pf o n Hh|o n x b Ha Hx Hk _ IH|o n x Ha Hx Hk]; intros bot Hc.
  - assert (exists x, mmobjs s !! o = Some x /\ mmo_ops x <> file_mmobj_ops) as (x & Hx & Hk) by (destruct Hc as [o x Hx Hk|o x ? Hx Hk]; exists x; by rewrite Hk).
    assert (page_bytes pf s' = page_bytes pf s) as <-.
    { apply (Hholds o x Hx Hk) in Hh as (f & Hf & _). unfold page_bytes. rewrite Hf, A6. rewrite A1 in Hf. case_decide; [done|]. by rewrite Hf. }
    apply view_here. by apply (Hholds o x).
  - apply (view_below s' o n x); [eapply Habs; [done|by rewrite Hk|done]|apply A3; [done|by rewrite Hk]|done|].
    destruct Hc as [o y Hy Hky|o y bot Hy Hky Hc]; rewrite Hx in Hy; injection Hy as <-; [congruence|]. by eapply IH.
  - apply (view_zero s' o n x); [eapply Habs; [done|by rewrite Hk|done]|apply A3; [done|by rewrite Hk]|done].
Qed.

(** One turn of the loop. *)
Lemma reclaim_one maps L R s pf f l : maps_ok maps -> safe L (area_ids maps) R s -> files_used s ->
  alloc_list s = pf :: l -> pframes s !! pf = Some f ->
  exists s', pframe_free (put maps) maps pf s = Ok tt s' /\ safe L (area_ids maps) R s' /\ files_used s' /\ paged_out [pf] s s'.
Proof.
  intros Hm Hi Hu Hl Hf. pose proof (mi_page _ _ _ _ _ _ _ Hi) as Hp. destruct (pg_frames _ Hp pf f Hf) as (Hn & _ & _ & _ & _ & x & Hx & _).
  assert (pf_pincount f = 0) as Hpin. { destruct (pg_alloc _ Hp) as (_ & _ & Ha). destruct (Ha pf) as (g & Hg & ?); [rewrite Hl; by left|]. congruence. }
  assert (mmo_ops x = file_mmobj_ops) as Hk.
  { destruct (decide (mmo_ops x = file_mmobj_ops)); [done|]. pose proof (mi_pins _ _ _ _ _ _ _ Hi pf f x Hf Hx). set_solver by lia. }
  assert (pf_busy f = false) as Hb. { destruct (pf_busy f) eqn:Eb; [|done]. by apply (mi_busy _ _ _ _ _ _ _ Hi pf f Hf) in Eb. }
  destruct (pframe_free_eq ∅ (put maps) maps pf f x s) as (lm & E & Hlm); [done..|set_solver|done|done|done|apply Hi|apply Hi|].
  set (s1 := page_out pf (pf_obj f) x lm s) in *. set (x1 := without_page pf x).
  pose proof (mm_inv_page_out _ _ _ _ _ _ _ _ _ _ lm Hi Hf Hx Hpin Hlm) as Hi1. fold s1 in Hi1.
  replace (∅ ∖ {[pf]} : gset Z) with (∅ : gset Z) in Hi1 by set_solver.
  assert (mmobjs s1 !! pf_obj f = Some x1) as Hx1 by apply lookup_insert_eq.
  assert (file_put maps (pf_obj f) s1 = Ok tt (set_mmobjs (insert (pf_obj f) (set_refcount (mmo_refcount x1 - 1) x1)) s1)) as Eput.
  { apply file_put_counts; [done|done|]. pose proof (Hu _ _ Hx Hk). cbn. lia. }
  eexists. split; [|split; [|split]].
  - rewrite E. unfold put. cbn [put_fuel]. rewrite (obj_bind _ x1) by done. change (mmo_ops x1) with (mmo_ops x). rewrite Hk. exact Eput.
  - destruct (file_put_ok ∅ ∅ ∅ L maps R s1 (pf_obj f) x1 Hm Hi1) as (s' & E' & Hi' & _); [set_solver|done|done|]. rewrite Eput in E'. by injection E' as <-.
  - intros o y. cbn. rewrite insert_insert_eq. intros [[<- <-]|[Hne Hy]]%lookup_insert_Some Hky; [|by eapply Hu]. pose proof (Hu _ _ Hx Hk). cbn. lia.
  - split; cbn.
    + intros q. case_decide as Hq; [apply list_elem_of_singleton in Hq as ->; apply lookup_delete_eq|]. rewrite lookup_delete_ne; [done|]. set_solver.
    + rewrite Hl. destruct (pg_alloc _ Hp) as (Hnd & _). rewrite Hl in Hnd. apply NoDup_cons in Hnd as [Hnin _].
      unfold unlink. rewrite filter_cons_False by naive_solver. by rewrite filter_ne_id.
    + intros o y Hy Hky. rewrite insert_insert_eq, lookup_insert_ne; [done|]. congruence.
    + intros q g y ->%list_elem_of_singleton Hg Hy. rewrite Hf in Hg. injection Hg as <-. congruence.
    + intros o y. rewrite insert_insert_eq. intros [[<- <-]|[Hne Hy]]%lookup_insert_Some; eauto.
    + done.
Qed.

Lemma paged_out_clean l s s' : paged_out l s s' -> all_clean s -> all_clean s'.
Proof.
  intros [A1 A2 _ _ _ _] Hc pf f Hin Hf. apply (Hc pf); [rewrite A2; apply elem_of_app; by right|]. rewrite A1 in Hf. by case_decide.
Qed.

Lemma pageout_loop maps L R fuel : maps_ok maps -> forall s, safe L (area_ids maps) R s -> files_used s -> all_clean s ->
  (length (alloc_list s) <= fuel)%nat ->
  exists l s', pageoutd_loop fuel maps s = Ok tt s' /\ safe L (area_ids maps) R s' /\ paged_out l s s' /\
    (pageoutd_target_met s' = true \/ alloc_list s' = []) /\ (pageoutd_target_met s = true -> s' = s).
Proof.
  intros Hm. induction fuel as [|fuel IH]; intros s Hi Hu Hc Hfuel; cbn [pageoutd_loop]; rewrite !gets_bind;
    (destruct (pageoutd_target_met s) eqn:Emet; [exists [], s; split_and!; [done|done|apply paged_out_refl|by left|done]|]);
    (destruct (alloc_list s) as [|pf l] eqn:Hl; [exists [], s; split_and!; [done|done|apply paged_out_refl|by right|done]|]); [cbn in Hfuel; lia|].
  destruct (pg_alloc _ (mi_page _ _ _ _ _ _ _ Hi)) as (Hnd & _ & Ha). destruct (Ha pf) as (f & Hf & _); [rewrite Hl; by left|].
  rewrite (frame_bind _ f) by done. assert (pf_busy f = false) as -> by (destruct (pf_busy f) eqn:Eb; [by apply (mi_busy _ _ _ _ _ _ _ Hi pf f Hf) in Eb|done]).
  rewrite (Hc pf f) by (done || rewrite Hl; by left).
  destruct (reclaim_one maps L R s pf f l Hm Hi Hu Hl Hf) as (s1 & E1 & Hi1 & Hu1 & Hp1). rewrite (bind_ok _ _ _ _ _ E1).
  destruct (IH s1 Hi1 Hu1 (paged_out_clean _ _ _ Hp1 Hc)) as (l2 & s' & E2 & Hi2 & Hp2 & Hend & _).
  { pose proof (po_alloc _ _ _ Hp1) as Ea. rewrite Hl in Ea. injection Ea as <-. cbn in Hfuel. lia. }
  exists ([pf] ++ l2), s'. split_and!; [done|done|by eapply paged_out_trans|done|done].
Qed.

(** C33. The loop of the page-out daemon ends after at most as many turns as there
    are pages that can be paged out, if these are clean and their files in use: it
    frees them from the front of the list until enough pages are free or none are
    left, and nothing when enough are free already; only pages of files go, the
    invariants of page frames and reference counts hold again, and every anonymous
    object and every shadow object above one shows what it showed. *)
Theorem pageout_reclaims fuel maps L R s : maps_ok maps -> safe L (area_ids maps) R s -> files_used s -> all_clean s ->
  (length (alloc_list s) <= fuel)%nat ->
  exists l s', pageoutd_loop fuel maps s = Ok tt s' /\ safe L (area_ids maps) R s' /\ paged_out l s s' /\
    (pageoutd_target_met s' = true \/ alloc_list s' = []) /\ (pageoutd_target_met s = true -> s' = s) /\
    (forall o bot n b, anon_chain s o bot -> view s o n b -> view s' o n b).
Proof.
  intros Hm Hi Hu Hc Hfuel. destruct (pageout_loop maps L R fuel Hm s Hi Hu Hc Hfuel) as (l & s' & E & Hi' & Hpo & Hend & Hmet).
  exists l, s'. split_and!; [done|done|done|done|done|]. intros o bot n b Hch Hv. by eapply paged_out_view; [apply Hi| | |].
Qed.

End Pageout.

(** ** Pages that cannot be cleaned *)

Section Dirty.
Context {LM : Type} `{P : Platform} `{!PlatformOk P} `{!LowMem LM} {HHdr0 : MmobjHeader}.
Context {HLow : LowMemOk (LM:=LM)} {HHdr : MmobjHeaderOk} {HFile : FileOps (LM:=LM)}.
Implicit Types (s : mm LM) (x : mmobj) (f : pframe) (maps : vmmaps).

(** The file cannot write the page back. *)
Definition stays_dirty (o pf : Z) : Prop := forall s, exists r, file_cleanpage o pf s = Ok r s /\ r < 0.

Lemma clean_fails maps pf f x s : maps_ok maps -> pframes s !! pf = Some f -> pf_dirty f = true -> pf_busy f = false -> pf_pincount f = 0 ->
  mmobjs s !! pf_obj f = Some x -> mmo_ops x = file_mmobj_ops -> shadow_inv ∅ (mmobjs s) -> link_inv (area_ids maps) s -> stays_dirty (pf_obj f) pf ->
  exists r s', pframe_clean maps pf s = Ok r s' /\ r < 0 /\ mmobjs s' = mmobjs s /\ olinks s' = olinks s /\ alloc_list s' = alloc_list s /\
    pframes s' = <[pf := set_waitq [] f]> (pframes s).
Proof.
  intros Hm Hf Hd Hb Hp Hx Hk Hsh Hl Hst. unfold pframe_clean. rewrite (frame_bind _ f) by done. rewrite !kassert_bind by (done || by rewrite Hp).
  rewrite (upd_frame_bind _ f) by done. rewrite modify_bind. set (s1 := set_lowmem _ _).
  destruct (remove_from_pts_ok ∅ maps pf (set_dirty false f) x s1 Hm) as (lm & E & _); [apply lookup_insert_eq|done|set_solver|done|destruct Hl; by split|].
  rewrite (bind_ok _ _ _ _ _ E). set (s2 := set_lowmem _ s1).
  rewrite (upd_frame_bind _ (set_dirty false f)) by apply lookup_insert_eq. rewrite (obj_bind _ x) by done. rewrite Hk.
  set (s3 := set_pframes _ s2). destruct (Hst s3) as (r & Er & Hr). rewrite (bind_ok _ _ _ _ _ Er). rewrite (proj2 (Z.ltb_lt _ _) Hr). cbn [when].
  rewrite (upd_frame_bind _ (set_busy true (set_dirty false f))) by apply lookup_insert_eq.
  rewrite (upd_frame_bind _ (set_dirty true (set_busy true (set_dirty false f)))) by apply lookup_insert_eq.
  unfold broadcast_on. rewrite bind_assoc. erewrite frame_bind by apply lookup_insert_eq. rewrite bind_assoc, modify_bind.
  erewrite upd_frame_bind by apply lookup_insert_eq. do 2 eexists. split; [done|]. split_and!; try done.
  cbn. rewrite !insert_insert_eq. f_equal. destruct f. cbn in *. by subst.
Qed.

(** A page that stays dirty, behind clean ones. *)
Definition stuck maps (pf : Z) s : Prop :=
  shadow_inv ∅ (mmobjs s) /\ link_inv (area_ids maps) s /\
  (exists f x, pframes s !! pf = Some f /\ pf_dirty f = true /\ pf_busy f = false /\ pf_pincount f = 0 /\ pf_obj f <> NULL /\
    mmobjs s !! pf_obj f = Some x /\ mmo_ops x = file_mmobj_ops /\ stays_dirty (pf_obj f) pf) /\
  exists l1 l2, alloc_list s = l1 ++ pf :: l2 /\ pf ∉ l1 /\
    forall q, q ∈ l1 -> exists f, pframes s !! q = Some f /\ pf_dirty f = false /\ pf_busy f = false /\ pf_pincount f = 0 /\ pf_obj f <> NULL.

Lemma walk_stuck maps pf s : maps_ok maps -> stuck maps pf s -> exists s', clean_walk maps (alloc_list s) s = Ok true s' /\ stuck maps pf s'.
Proof.
  intros Hm (Hsh & Hl & (f & x & Hf & Hd & Hb & Hp & Hn & Hx & Hk & Hst) & l1 & l2 & El & Hnin & H1).
  destruct (clean_fails maps pf f x s Hm Hf Hd Hb Hp Hx Hk Hsh Hl Hst) as (r & s' & E & _ & Eo & Elk & Ea & Ef).
  assert (clean_walk maps (l1 ++ pf :: l2) s = Ok true s') as Ew.
  { clear El Hnin. induction l1 as [|q l1 IH]; cbn [clean_walk app].
    - rewrite (frame_bind _ f) by done. unfold pframe_is_pinned, pframe_is_free. rewrite Hp, (proj2 (Z.eqb_neq _ _) Hn), Hb, Hd.
      rewrite !kassert_bind by done. by rewrite (bind_ok _ _ _ _ _ E).
    - destruct (H1 q ltac:(by left)) as (g & Hg & Gd & Gb & Gp & Gn). rewrite (frame_bind _ g) by done.
      unfold pframe_is_pinned, pframe_is_free. rewrite Gp, (proj2 (Z.eqb_neq _ _) Gn), Gb, Gd. rewrite !kassert_bind by done.
      apply IH. intros q' Hq'. apply H1. by right. }
  exists s'. rewrite El. split; [done|]. unfold stuck. rewrite Eo, Ea, Ef. split_and!; [done|destruct Hl as [L1 L2]; split; rewrite ?Eo, Elk; done| |].
  - exists (set_waitq [] f), x. rewrite lookup_insert_eq. by split_and!.
  - exists l1, l2. split_and!; [done|done|]. intros q Hq. rewrite lookup_insert_ne by (intros ->; done). by apply H1.
Qed.

(** With a page that cannot be cleaned, [pframe_clean_all], and so sync, never ends. *)
Theorem clean_all_spins fuel maps pf s : maps_ok maps -> stuck maps pf s -> exists s', pframe_clean_all fuel maps s = Halt OutOfFuel s'.
Proof.
  intros Hm. revert s. induction fuel as [|fuel IH]; intros s Hs; cbn [pframe_clean_all]; [by eexists|].
  rewrite gets_bind. destruct (walk_stuck maps pf s Hm Hs) as (s1 & E & H1). rewrite (bind_ok _ _ _ _ _ E). by apply IH.
Qed.

(** Migrating a page to an object that has the page already cleans it whether or not it is
    dirty, and a clean page stops the kernel at an assertion of [pframe_clean]. *)
Theorem migrate_clean_panics {HFileOk : FileOpsOk (LM:=LM)} maps L I R s pf f dest : safe L I R s -> pframes s !! pf = Some f -> pf_pincount f = 1 -> pf_dirty f = false ->
  (exists q, holds s q dest (pf_pagenum f)) -> exists s', pframe_migrate maps pf dest s = Halt KAssert s'.
Proof.
  intros Hi Hf Hp Hd [q Hq]. assert (pf_busy f = false) as Hb by (destruct (pf_busy f) eqn:Eb; [by apply (mi_busy _ _ _ _ _ _ _ Hi pf f Hf) in Eb|done]).
  destruct (pg_frames _ (mi_page _ _ _ _ _ _ _ Hi) pf f Hf) as (Hn & _).
  destruct (get_resident_spec _ _ _ _ _ _ s dest (pf_pagenum f) Hi) as (r & s1 & E1 & (l & Es & _) & _ & H0).
  assert (pframes s1 !! pf = Some f) as Hf1 by by rewrite Es.
  unfold pframe_migrate. rewrite (frame_bind _ f) by done. rewrite kassert_bind by by rewrite Hb. rewrite (bind_ok _ _ _ _ _ E1).
  destruct (c_true r) eqn:Er; [|apply negb_false_iff, Z.eqb_eq in Er; by destruct (proj2 (H0 Er) q)].
  rewrite (bind_ok _ _ _ _ _ (unpin_eq pf f s1 Hf1 Hn Hp)). unfold pframe_clean. rewrite bind_assoc.
  rewrite (frame_bind _ (set_pincount 0 f)) by apply lookup_insert_eq. rewrite bind_assoc, kassert_fail by exact Hd. by eexists.
Qed.
End Dirty.
