(* ===== verification/PageoutRun.v ===== *)
(** Paging out at work: a file with two pages in memory and an anonymous page. *)
From S2P Require Import Prelude.
From S2P Require Import Platform.
From S2P Require Import MmIface.
From S2P Require Import Mm.
From S2P Require Import MmInv.
From S2P Require Import MmPut.
From S2P Require Import MmSafe.
From S2P Require Import MmLookup.
From S2P Require Import MmCow.
From S2P Require Import MmPageout.
From S2P Require Import Demo.
Open Scope Z_scope.

(** Files that count their references. *)
Definition count_file (d o : Z) : M (mm machine) unit := upd_obj o (fun x => set_refcount (mmo_refcount x + d) x).
#[local] Instance paging_files : FileOps (LM:=machine) := {|
  file_ref := count_file 1;
  file_put _ := count_file (-1);
  file_lookuppage _ _ _ _ := mret (- EFAULT, NULL);
  file_fillpage _ _ := mret (- EFAULT);
  file_dirtypage _ _ := mret 0;
  file_cleanpage _ _ := mret 0;
  file_mmap _ _ := mret (- ENODEV, NULL)
|}.
#[local] Instance paging_files_ok : FileOpsOk (LM:=machine).
Proof.
  split.
  - intros s o x Hx Hk. exists (mmo_refcount x + 1). exact (upd_obj_eq o x _ s Hx).
  - intros Zs U B L maps R s o x Hm Hi Hz Hx Hk. eexists. split; [exact (upd_obj_eq o x _ s Hx)|]. split; [|split; [done|]].
    + apply (mm_inv_dec _ _ _ _ _ _ s o x); [done|done|by right].
    + intros q Hq. apply (lookup_insert_ne (mmobjs s)). set_solver.
  - intros L I R s file vma Hi. by exists (- ENODEV), NULL, s.
Qed.
#[local] Instance paging_counts : FileCounts.
Proof. split. intros maps s o x Hx Hk Hr. exact (upd_obj_eq o x _ s Hx). Qed.

Definition file_obj : mmobj := Mmobj file_mmobj_ops 3 2 [21; 22] NULL NULL [].
Definition anon_obj : mmobj := Mmobj anon_mmobj_ops 2 1 [23] NULL NULL [].
Definition page_of (addr o n pin : Z) : pframe := Pframe addr o n false false pin [].
Definition pages : gmap Z pframe := {[21 := page_of 4096 10 0 0; 22 := page_of 8192 10 1 0; 23 := page_of 12288 11 0 1]}.
(** Two pages are wanted; the page of the anonymous object is pinned. *)
Definition full_mm : mm machine :=
  Mm (Machine 24 1000 {[10; 11; 21; 22; 23; 4096; 8192; 12288]} 16384 ∅) {[10 := file_obj; 11 := anon_obj]} pages [22; 21] 2 [23] 1
    {[hash_page 10 0 := [21]; hash_page 10 1 := [23; 22]]} ∅ {[12288 := [1; 2; 3]]} 0 2000 1 [] [].

Lemma pages_elem pf f : pages !! pf = Some f ->
  pf = 21 /\ f = page_of 4096 10 0 0 \/ pf = 22 /\ f = page_of 8192 10 1 0 \/ pf = 23 /\ f = page_of 12288 11 0 1.
Proof. unfold pages. rewrite !lookup_insert_Some, lookup_singleton_Some. naive_solver. Qed.
Lemma objs_elem o x : mmobjs full_mm !! o = Some x -> o = 10 /\ x = file_obj \/ o = 11 /\ x = anon_obj.
Proof. cbn. rewrite !lookup_insert_Some, lookup_singleton_Some. naive_solver. Qed.

Lemma full_pages : page_inv full_mm.
Proof.
  split.
  - intros pf f [[-> ->]|[[-> ->]|[-> ->]]]%pages_elem; split_and!; try (vm_compute; discriminate);
      try (apply list_elem_of_In; vm_compute; tauto); try (intros _; apply list_elem_of_In; vm_compute; tauto); try (intros H; vm_compute in H; discriminate H);
      eexists; (split; [vm_compute; reflexivity|apply list_elem_of_In; vm_compute; tauto]).
  - intros o x [[-> ->]|[-> ->]]%objs_elem; split_and!; [done|vm_compute; repeat constructor; set_solver| |done|repeat constructor; set_solver|];
      intros pf Hin; apply list_elem_of_In in Hin; cbn in Hin; destruct_or?; subst; try done; eexists; (split; [vm_compute; reflexivity|done]).
  - intros h. unfold chain. destruct (pframe_hash full_mm !! h) as [l|] eqn:Hh; cbn [default id].
    + cbn in Hh. apply lookup_insert_Some in Hh as [[<- <-]|[_ [<- <-]%lookup_singleton_Some]]; (split; [repeat constructor; set_solver|]);
        intros pf Hin%list_elem_of_In; cbn in Hin; destruct_or?; subst; try done; eexists; (split; [vm_compute; reflexivity|vm_compute; reflexivity]).
    + split; [constructor|by intros pf ?%elem_of_nil].
  - split_and!; [repeat constructor; set_solver|done|]. intros pf Hin%list_elem_of_In; cbn in Hin; destruct_or?; subst; try done; eexists; (split; [vm_compute; reflexivity|done]).
  - split_and!; [repeat constructor; set_solver|done|]. intros pf Hin%list_elem_of_In; cbn in Hin; destruct_or?; subst; try done; eexists; (split; [vm_compute; reflexivity|done]).
  - intros pf pf' f f' [[-> ->]|[[-> ->]|[-> ->]]]%pages_elem [[-> ->]|[[-> ->]|[-> ->]]]%pages_elem; cbn; congruence.
Qed.
Lemma full_safe : safe [] [] {[+ 11 +]} full_mm.
Proof.
  assert (srefs ∅ (mmobjs full_mm) = ∅) as Hsr by (vm_compute; reflexivity). split.
  - exact full_pages.
  - intros pf f x [[-> ->]|[[-> ->]|[-> ->]]]%pages_elem Hx Hk _; [..|done]; vm_compute in Hx; injection Hx as <-; by destruct Hk.
  - by intros pf f [[-> ->]|[[-> ->]|[-> ->]]]%pages_elem.
  - split; rewrite Hsr.
    + intros o x [[-> ->]|[-> ->]]%objs_elem Hk; [by destruct Hk|]. vm_compute. reflexivity.
    + intros o. rewrite right_id_L by apply _. intros ->%gmultiset_elem_of_singleton. vm_compute. eauto.
    + intros o x [[-> ->]|[-> ->]]%objs_elem Hk _; [by destruct Hk|]. multiset_solver.
  - split; [by intros o x [[-> ->]|[-> ->]]%objs_elem|by intros o x [[-> ->]|[-> ->]]%objs_elem|]. exists (fun _ => 0%nat). by intros o x [[-> ->]|[-> ->]]%objs_elem.
  - split; [|done]. intros o x i [[-> ->]|[-> ->]]%objs_elem Hi; by apply elem_of_nil in Hi.
  - split.
    + refine (bool_decide_unpack _ _). vm_compute. exact I.
    + apply Forall_forall. refine (bool_decide_unpack (Forall (fun i => i ∈ slabs (lowmem full_mm)) _) _). vm_compute. exact I.
    + refine (bool_decide_unpack _ _). vm_compute. exact I.
Qed.

(** Both pages of the file are freed; the anonymous object shows what it did. *)
Lemma pageout_reclaims_witness : exists s', pageoutd_loop 2 ∅ full_mm = Ok tt s' /\ pframes s' !! 21 = None /\ pframes s' !! 22 = None /\
  alloc_list s' = [] /\ view s' 11 0 [1; 2; 3].
Proof.
  assert (maps_ok ∅) as Hm by (split_and!; [constructor|apply not_elem_of_nil|apply map_Forall_empty]).
  assert (files_used full_mm) as Hu by (intros o x [[-> ->]|[-> ->]]%objs_elem; [done|discriminate]).
  assert (all_clean full_mm) as Hc by (by intros pf f _ [[-> ->]|[[-> ->]|[-> ->]]]%pages_elem).
  destruct (pageout_reclaims 2 ∅ [] {[+ 11 +]} full_mm Hm full_safe Hu Hc) as (l & s' & E & _ & _ & _ & _ & Hv); [cbn; lia|].
  exists s'. assert (s' = out_state (pageoutd_loop 2 ∅ full_mm)) as Es by (rewrite E; reflexivity).
  split_and!; [exact E|rewrite Es; vm_compute; reflexivity..|].
  apply (Hv 11 11).
  - apply (chain_anon full_mm 11 anon_obj); vm_compute; reflexivity.
  - apply (view_here full_mm 23). eexists. split; [vm_compute; reflexivity|split; reflexivity].
Defined.

(** The disk is broken: the page at the head of the list stays dirty, and sync does not end. *)
Section Broken.
#[local] Instance broken_files : FileOps (LM:=machine) := {|
  file_ref := file_ref; file_put := file_put; file_lookuppage := file_lookuppage; file_fillpage := file_fillpage; file_dirtypage := file_dirtypage;
  file_cleanpage _ _ := mret (- EFAULT);
  file_mmap := file_mmap
|}.
Definition dirty_mm : mm machine := set_pframes (insert 22 (set_dirty true (page_of 8192 10 1 0))) full_mm.
Lemma dirty_stuck : stuck ∅ 22 dirty_mm.
Proof.
  split_and!; [exact (mi_shadow _ _ _ _ _ _ _ full_safe)|destruct (mi_link _ _ _ _ _ _ _ full_safe); by split| |].
  - do 2 eexists. split_and!; try (vm_compute; reflexivity); [discriminate|]. intros s. exists (- EFAULT). split; reflexivity.
  - exists [], [21]. split_and!; [reflexivity|apply not_elem_of_nil|]. by intros q ?%elem_of_nil.
Qed.
Example sync_spins : exists s', pframe_clean_all 100 ∅ dirty_mm = Halt OutOfFuel s'.
Proof. apply (clean_all_spins 100 ∅ 22); [split_and!; [constructor|apply not_elem_of_nil|apply map_Forall_empty]|exact dirty_stuck]. Qed.
End Broken.
