(* ===== verification/CowRun.v ===== *)
(** Copy-on-write at work: two shadow objects of the anonymous object of the
    shared area of the example. *)
From S2P Require Import Prelude.
From S2P Require Import Platform.
From S2P Require Import MmIface.
From S2P Require Import Mm.
From S2P Require Import MmInv.
From S2P Require Import MmPut.
From S2P Require Import MmSafe.
From S2P Require Import MmLookup.
From S2P Require Import MmCow.
From S2P Require Import Demo.
From S2P Require Import Vmmap.
From S2P Require Import VmmapFacts.
From S2P Require Import VmmapThms.
From S2P Require Import VmmapRun.
From S2P Require Import MmThms.
Open Scope Z_scope.

Definition shadowed_twice : M (mm machine) (Z * Z) :=
  Mm.ref 6;;
  a ← Mm.shadow_create; Mm.shadow_over a 6;;
  b ← Mm.shadow_create; Mm.shadow_over b 6;;
  mret (a, b).
Definition cow0 : mm machine := vm_mm vm3.
Definition cow1 : mm machine := Eval vm_compute in out_state (Mm.ref 6 cow0).
Definition cow2 : mm machine := Eval vm_compute in out_state ((a ← Mm.shadow_create; Mm.shadow_over a 6) cow1).
Definition cow3 : mm machine := Eval vm_compute in out_state ((a ← Mm.shadow_create; Mm.shadow_over a 6) cow2).

Lemma cow3_eq : shadowed_twice cow0 = Ok (7, 8) cow3.
Proof. vm_compute. reflexivity. Qed.

Notation L3 := (live (vm_maps vm3)).
Notation I3 := (area_ids (vm_maps vm3)).

Lemma cow1_safe : safe L3 I3 ({[+ 4; 6 +]} ⊎ {[+ 6 +]}) cow1.
Proof.
  destruct vm3_safe as [_ Hs].
  destruct (ref_ok _ _ _ cow0 6 Hs ltac:(multiset_solver)) as (s' & E & Hs' & _).
  vm_compute in E. injection E as <-.
  by replace ({[+ 4; 6 +]} ⊎ {[+ 6 +]} : gmultiset Z) with ({[+ 6 +]} ⊎ {[+ 4 +]} ⊎ {[+ 6 +]} : gmultiset Z) by multiset_solver.
Qed.

Lemma shadow_step s sh s1 s2 R :
  safe L3 I3 (R ⊎ {[+ 6 +]}) s -> Mm.shadow_create s = Ok sh s1 -> Mm.shadow_over sh 6 s1 = Ok tt s2 ->
  safe L3 I3 (R ⊎ {[+ sh +]}) s2.
Proof.
  intros Hs E1 E2. destruct (shadow_ok _ _ _ s 6 Hs) as [(s' & E)|(sh' & s1' & s2' & E & _ & E' & Hs' & _)];
    rewrite E1 in E; simplify_eq. by rewrite E2 in E'; simplify_eq.
Qed.

Lemma cow2_safe : safe L3 I3 ({[+ 4; 7 +]} ⊎ {[+ 6 +]}) cow2.
Proof.
  replace ({[+ 4; 7 +]} ⊎ {[+ 6 +]} : gmultiset Z) with ({[+ 4; 6 +]} ⊎ {[+ 7 +]} : gmultiset Z) by multiset_solver.
  eapply (shadow_step cow1); [exact cow1_safe|vm_compute; reflexivity|vm_compute; reflexivity].
Qed.
Lemma cow3_safe : safe L3 I3 ({[+ 4; 7 +]} ⊎ {[+ 8 +]}) cow3.
Proof. eapply (shadow_step cow2); [exact cow2_safe|vm_compute; reflexivity|vm_compute; reflexivity]. Qed.

Lemma chain7 : anon_chain cow3 7 6.
Proof.
  eapply chain_shadow; [vm_compute; reflexivity|reflexivity|]. cbn.
  eapply chain_anon; [vm_compute; reflexivity|reflexivity].
Qed.

Lemma pframe_lookup_shows_witness : exists pf s',
  Mm.pframe_lookup (vm_maps vm3) 7 2 true cow3 = Ok (0, pf) s' /\
  looked_up L3 I3 ({[+ 4; 7 +]} ⊎ {[+ 8 +]}) cow3 7 2 true pf s'.
Proof.
  destruct (pframe_lookup_shows (vm_maps vm3) _ _ _ cow3 7 2 true 6 cow3_safe chain7) as [H|(s' & E & _)]; [exact H|].
  vm_compute in E. discriminate E.
Defined.

