(* ===== verification/UserMem.v ===== *)
(** The memory of a user process: [vm/mmap.c], [vm/brk.c], [vm/pagefault.c] and
    [api/access.c], over any memory below ([MmOps]).

    The state is that of the address spaces with the fields of the current
    process and thread these files use.  The file table, [pt_map] and the TLB are not
    in the repository and are parameters ([UserOps]).  [user_strdup] and [user_vecdup]
    are with their callers, in [Syscall]. *)
From S2P Require Import Prelude.
From S2P Require Import Platform.
From S2P Require Import MmIface.
From S2P Require Import Vmmap.
Open Scope Z_scope.

(** mm/pagetable.h, mm/pagefault.h, fs/file.h *)
Class UserConst := {
  FAULT_WRITE : Z;
  PD_PRESENT : Z; PD_USER : Z; PD_WRITE : Z;
  PT_PRESENT : Z; PT_USER : Z; PT_WRITE : Z;
  PAGE_ALIGN_DOWN : Z -> Z;
  pt_virt_to_phys : Z -> Z;
  FILE_MODE_WRITE : Z       (* FMODE_WRITE *)
}.

(** The address of a page frame's page; the operations of a file are on its
    pointer, and [p_files fd] is the entry of the descriptor table. *)
Class UserOps (MM : Type) := {
  frame_addr : Z -> MM -> option Z;
  pt_map : Z -> Z -> Z -> Z -> Z -> M MM Z;
  tlb_flush_all : M MM unit;
  mm_fget : Z -> M MM Z;
  mm_fput : Z -> M MM unit;
  mm_p_files : Z -> MM -> Z;
  mm_f_mode : Z -> MM -> Z;
  mm_f_vnode : Z -> MM -> Z
}.

Section UserMem.
Context `{P : Platform} {C : UserConst} {MM : Type} `{!MmOps MM} `{!UserOps MM}.

Record user := User {
  u_vm : vm (MM := MM);
  p_vmmap : Z; p_pagedir : Z;
  p_brk : Z; p_start_brk : Z
}.
Definition set_vm (v : vm) (s : user) : user :=
  User v (p_vmmap s) (p_pagedir s) (p_brk s) (p_start_brk s).
Definition set_p_brk (b : Z) (s : user) : user :=
  User (u_vm s) (p_vmmap s) (p_pagedir s) b (p_start_brk s).

(** An operation on the address spaces, and on what is below them. *)
Definition onvm {A} (m : M vm A) : M user A := fun s =>
  match m (u_vm s) with Ok a v => Ok a (set_vm v s) | Halt h v => Halt h (set_vm v s) end.
Definition onmm {A} (m : M MM A) : M user A := onvm (lift m).

(** ** vm/pagefault.c *)

Definition handle_pagefault (vaddr cause : Z) : M user unit :=
  s ← get;
  let vfn := ADDR_TO_PN vaddr in
  found ← onvm (vmmap_lookup (p_vmmap s) vfn);
  match found with
  | None => stop (Exits EFAULT)
  | Some vma =>
      if negb (c_true (Z.land (vma_prot vma) PROT_READ)) ||
         (c_true (Z.land cause FAULT_WRITE) && negb (c_true (Z.land (vma_prot vma) PROT_WRITE)))
      then stop (Exits EFAULT)
      else
        let forwrite := c_true (Z.land cause FAULT_WRITE) in
        let pdflags := Z.lor PD_PRESENT PD_USER in
        let ptflags := Z.lor PT_PRESENT PT_USER in
        let pdflags := if forwrite then Z.lor pdflags PD_WRITE else pdflags in
        let ptflags := if forwrite then Z.lor ptflags PT_WRITE else ptflags in
        let pn := vfn -u vma_start vma +u vma_off vma in
        r ← onmm (pframe_lookup (vm_maps (u_vm s)) (vma_obj vma) pn forwrite);
        if r.1 <? 0 then stop (Exits EFAULT)
        else
          kassert (c_true r.2);;
          s ← get;
          addr ← deref (frame_addr r.2 (vm_mm (u_vm s)));
          kassert (c_true addr);;
          onmm (pt_map (p_pagedir s) (PAGE_ALIGN_DOWN vaddr) (pt_virt_to_phys addr) pdflags ptflags);; mret tt
  end.

(** ** vm/mmap.c *)

(** The vnode to map, or the error. *)
Definition mmap_file (prot flags fd : Z) : M user (Z + Z) :=
  if negb (c_true (Z.land flags MAP_ANON)) then
    fp ← onmm (mm_fget fd);
    s ← get;
    if (fd <? 0) || (MAX_FILES <=? fd) || (mm_p_files fd (vm_mm (u_vm s)) =? NULL) || (fp =? NULL) then
      mret (inl (- EBADF))
    else if c_true (Z.land prot PROT_WRITE) &&
            negb (Z.land (mm_f_mode fp (vm_mm (u_vm s))) FILE_MODE_WRITE =? FILE_MODE_WRITE) then
      onmm (mm_fput fp);; mret (inl (- EPERM))
    else
      onmm (mm_fput fp);;
      s ← get;
      mret (inr (mm_f_vnode fp (vm_mm (u_vm s))))
  else mret (inr NULL).

(** The result and [*ret], when it is set. *)
Definition do_mmap (addr len prot flags fd off : Z) : M user (Z * option Z) :=
  if (len <=? 0) || (USER_MEM_HIGH - USER_MEM_LOW <? len) then mret (- EINVAL, None)
  else if negb (PAGE_ALIGNED off) || negb (PAGE_ALIGNED addr) then mret (- EINVAL, None)
  else
    let lopage := if c_true (Z.lxor flags MAP_FIXED) then ADDR_TO_PN addr else 0 in
    if negb (c_true (Z.land MAP_SHARED flags) || c_true (Z.land MAP_PRIVATE flags)) then mret (- EPERM, None)
    else if c_true (Z.land flags MAP_FIXED) && (addr =? 0) then mret (- EINVAL, None)
    else
      node ← mmap_file prot flags fd;
      match node with
      | inl err => mret (err, None)
      | inr node =>
          s ← get;
          r ← onvm (vmmap_map (p_pagedir s) (p_vmmap s) node lopage ((len - 1) / PAGE_SIZE + 1)
                      prot flags off VMMAP_DIR_HILO);
          if r.1 <? 0 then mret (r.1, None)
          else
            kassert (c_true (p_pagedir s));;
            vma ← onvm (area (p_vmmap s) r.2);
            onmm tlb_flush_all;;
            mret (r.1, Some (PN_TO_ADDR (vma_start vma)))
      end.

Definition do_munmap (addr len : Z) : M user Z :=
  if (len <=? 0) || (addr =? NULL) then mret (- EINVAL)
  else if (addr <? USER_MEM_LOW) || ((USER_MEM_HIGH -u addr) <? len) then mret (- EINVAL)
  else if negb (PAGE_ALIGNED addr) then mret (- EINVAL)
  else
    let npages := len / PAGE_SIZE in
    let npages := if negb (len `mod` PAGE_SIZE =? 0) then npages +u 1 else npages in
    s ← get;
    onvm (vmmap_remove (p_pagedir s) (p_vmmap s) (ADDR_TO_PN addr) npages);;
    onmm tlb_flush_all;;
    mret 0.

(** ** vm/brk.c *)

Definition MAX (a b : Z) : Z := if b <? a then a else b.
(** [vma->vma_end = pgn_end] *)
Definition set_vma_end (m i pgn_end : Z) : M user unit := onvm (upd_list m (area_upd i (set_end pgn_end))).

(** The break is on the page the heap starts with: the heap has no area yet. *)
Definition brk_first (m pd addr pgn_start npages pgn_end area_end : Z) : M user (Z * option Z) :=
  if addr <? area_end then modify (set_p_brk addr);; mret (0, Some addr)
  else
    empty ← onvm (vmmap_is_range_empty m pgn_start npages);
    if (empty : bool) then
      r ← onvm (vmmap_map pd m NULL pgn_start npages (Z.lor PROT_READ PROT_WRITE) MAP_PRIVATE
                  (area_end `mod` PAGE_SIZE) VMMAP_DIR_HILO);
      (if r.2 =? NULL then stop NullDeref else mret tt);;
      set_vma_end m r.2 pgn_end;;
      modify (set_p_brk addr);;
      mret (0, Some addr)
    else mret (- ENOMEM, None).

(** The break moves within or behind the area of the heap. *)
Definition brk_move (m addr brk pgn_start npages pgn_end pagenum : Z) : M user (Z * option Z) :=
  found ←
    (if (npages =? 0) || (addr <=? brk) then
       a ← onvm (vmmap_lookup m (Z.shiftr (brk -u 1) 12)); mret (Some a)
     else
       empty ← onvm (vmmap_is_range_empty m pgn_start npages);
       if (empty : bool) then a ← onvm (vmmap_lookup m pagenum); mret (Some a) else mret None);
  match found with
  | None => mret (- ENOMEM, None)
  | Some a =>
      modify (set_p_brk addr);;
      vma ← deref a;
      set_vma_end m (vma_id vma) pgn_end;;
      mret (0, Some addr)
  end.

Definition do_brk (addr : Z) : M user (Z * option Z) :=
  s ← get;
  let m := p_vmmap s in
  let brk := p_brk s in
  if addr =? NULL then mret (0, Some brk)
  else if addr <? p_start_brk s then mret (- ENOMEM, None)
  else if addr =? p_start_brk s then mret (0, Some (p_start_brk s))
  else
    a ← onvm (vmmap_lookup m (Z.shiftr (p_start_brk s -u 1) 12));
    vma_cur ← deref a;
    let area_end := u32 (Z.shiftl (vma_end vma_cur) 12) in
    let addr_str := MAX brk area_end in
    if addr =? addr_str then modify (set_p_brk addr);; mret (0, Some addr)
    else
      let pgn_end := Z.shiftr addr 12 in
      let pgn_start := Z.shiftr addr_str 12 in
      let pgn_end := if negb (PAGE_ALIGNED addr) then pgn_end +u 1 else pgn_end in
      let npages := pgn_end -u pgn_start in
      let npages := if negb (PAGE_ALIGNED addr_str) then npages -u 1 else npages in
      let pagenum := Z.shiftr (brk -u 1) 12 in
      let pagenum := if negb (PAGE_ALIGNED brk) then pagenum +u 1 else pagenum in
      if addr_str =? area_end then brk_first m (p_pagedir s) addr pgn_start npages pgn_end area_end
      else if area_end <? addr then brk_move m addr brk pgn_start npages pgn_end pagenum
      else
        a ← onvm (vmmap_lookup m pagenum);
        vma ← deref a;
        onvm (vmmap_remove (p_pagedir s) m (vma_start vma) (vma_end vma -u vma_start vma));;
        modify (set_p_brk addr);;
        mret (0, Some addr).

(** ** api/access.c *)

Definition addr_perm (vaddr perm : Z) : M user bool :=
  s ← get;
  a ← onvm (vmmap_lookup (p_vmmap s) (ADDR_TO_PN vaddr));
  mret (if a is Some _ then true else false).

Fixpoint range_perm_loop (fuel : nat) (avaddr len perm diff : Z) : M user bool :=
  if diff <? len then
    match fuel with
    | O => stop OutOfFuel
    | S fuel =>
        b ← addr_perm (avaddr +u diff) perm;
        if (b : bool) then range_perm_loop fuel avaddr len perm (diff +u PAGE_SIZE) else mret false
    end
  else mret true.
(** A round for every page, as long as [diff] does not wrap around. *)
Definition range_perm (avaddr len perm : Z) : M user bool :=
  range_perm_loop (Z.to_nat (len / PAGE_SIZE + 1)) avaddr len perm 0.

(** The result and the bytes copied. *)
Definition copy_from_user (uaddr nbytes : Z) : M user (Z * list Z) :=
  ok ← range_perm uaddr nbytes PROT_READ;
  if (ok : bool) then s ← get; onvm (vmmap_read (p_vmmap s) uaddr nbytes) else mret (- EFAULT, []).
Definition copy_to_user (uaddr : Z) (kdata : list Z) (nbytes : Z) : M user Z :=
  ok ← range_perm uaddr nbytes PROT_WRITE;
  if (ok : bool) then s ← get; onvm (vmmap_write (p_vmmap s) uaddr kdata nbytes) else mret (- EFAULT).

End UserMem.
Arguments user : clear implicits.
