(* ===== verification/UserThms.v ===== *)
(** What the memory calls of a process promise: [munmap], [mmap], [brk] and the
    check of user addresses, over any memory that keeps the laws of [MmLaws]. *)
From S2P Require Import Prelude.
From S2P Require Import Platform.
From S2P Require Import MmIface.
From S2P Require Import Vmmap.
From S2P Require Import Areas.
From S2P Require Import VmmapFacts.
From S2P Require Import VmmapThms.
From S2P Require Import UserMem.
From stdpp Require Import sorting.
Open Scope Z_scope.

(** Flushing the TLB changes nothing the memory objects depend on. *)
Class UserLaws (MM : Type) `{!MmOps MM} `{!MmLaws MM} `{!UserOps MM} : Prop :=
  tlb_flush_law : forall L I R (mm : MM), mm_safe L I R mm ->
    exists mm', tlb_flush_all mm = Ok tt mm' /\ mm_safe L I R mm'.

(** ** Lifted operations *)

Section Lifting.
Context `{P : Platform} {MM : Type} `{!MmOps MM} `{!UserOps MM}.
Implicit Types (s : user MM).

Lemma onvm_ok {A} (k : M vm A) s a v : k (u_vm s) = Ok a v -> onvm k s = Ok a (set_vm v s).
Proof. unfold onvm. by intros ->. Qed.
Lemma onvm_halt {A} (k : M vm A) s h v : k (u_vm s) = Halt h v -> onvm k s = Halt h (set_vm v s).
Proof. unfold onvm. by intros ->. Qed.
Lemma onmm_ok {A} (k : M MM A) s a mm :
  k (vm_mm (u_vm s)) = Ok a mm -> onmm k s = Ok a (set_vm (Vm (vm_maps (u_vm s)) mm) s).
Proof. intros E. unfold onmm. apply onvm_ok. unfold lift. by rewrite E. Qed.
Lemma onmm_halt {A} (k : M MM A) s h mm :
  k (vm_mm (u_vm s)) = Halt h mm -> onmm k s = Halt h (set_vm (Vm (vm_maps (u_vm s)) mm) s).
Proof. intros E. unfold onmm. apply onvm_halt. unfold lift. by rewrite E. Qed.
Lemma set_vm_same s : set_vm (u_vm s) s = s.
Proof. by destruct s. Qed.
Lemma onvm_same {A} (k : M vm A) s a : k (u_vm s) = Ok a (u_vm s) -> onvm k s = Ok a s.
Proof. intros ->%onvm_ok. by rewrite set_vm_same. Qed.
Lemma onvm_halt_same {A} (k : M vm A) s h : k (u_vm s) = Halt h (u_vm s) -> onvm k s = Halt h s.
Proof. intros ->%onvm_halt. by rewrite set_vm_same. Qed.

Lemma lookup_same m vfn s v : vm_maps (u_vm s) !! m = Some v -> m <> NULL ->
  onvm (vmmap_lookup m vfn) s = Ok (lookup_area vfn (vmm_list v)) s.
Proof.
  intros Hm Hn. apply onvm_same. unfold vmmap_lookup. rewrite kassert_bind by (by apply c_true_spec).
  unfold vmmap_of. rewrite bind_assoc, get_bind, (deref_bind _ v) by done. done.
Qed.

End Lifting.

(** ** Pages and addresses *)

Section Pages.
Context `{P : Platform} `{!PlatformOk P}.

Lemma aligned_spec a : is_u32 a -> PAGE_ALIGNED a = true <-> a `mod` 4096 = 0.
Proof. intros Ha. by rewrite page_aligned_eq, Z.eqb_eq by done. Qed.

(** The pages of [n] bytes from an aligned address. *)
Lemma page_of_range a n pg : a `mod` 4096 = 0 ->
  a / 4096 <= pg < a / 4096 + (n + 4095) / 4096 <-> a < (pg + 1) * 4096 /\ pg * 4096 < a + n.
Proof.
  intros Ha. pose proof (Z.div_mod a 4096 ltac:(lia)). pose proof (Z.div_mod (n + 4095) 4096 ltac:(lia)).
  pose proof (Z.mod_pos_bound (n + 4095) 4096). lia.
Qed.

Lemma round_up n : 0 <= n -> (if negb (n `mod` 4096 =? 0) then n / 4096 + 1 else n / 4096) = (n + 4095) / 4096.
Proof.
  intros Hn. pose proof (Z.div_mod n 4096 ltac:(lia)). pose proof (Z.mod_pos_bound n 4096 ltac:(lia)).
  pose proof (Z.div_mod (n + 4095) 4096 ltac:(lia)). pose proof (Z.mod_pos_bound (n + 4095) 4096 ltac:(lia)).
  destruct (Z.eqb_spec (n `mod` 4096) 0); cbn; lia.
Qed.

Lemma user_page_range a n : USER_MEM_LOW <= a -> a `mod` 4096 = 0 -> 0 < n -> a + n <= USER_MEM_HIGH ->
  is_u32 a /\ 0 < (n + 4095) / 4096 /\ user_range (a / 4096) (a / 4096 + (n + 4095) / 4096).
Proof.
  intros H1 H2 H3 H4. pose proof user_mem as (? & ? & ?). pose proof user_high_aligned as Hh.
  pose proof user_low_aligned as Hl.
  pose proof (Z.div_mod (n + 4095) 4096 ltac:(lia)). pose proof (Z.mod_pos_bound (n + 4095) 4096 ltac:(lia)).
  pose proof (Z.div_mod a 4096 ltac:(lia)). pose proof (Z.div_mod USER_MEM_HIGH 4096 ltac:(lia)).
  pose proof (Z.div_mod USER_MEM_LOW 4096 ltac:(lia)).
  split_and!; [unfold is_u32; lia|lia|]. unfold user_range. rewrite !addr_to_pn_eq by (unfold is_u32; lia). lia.
Qed.
End Pages.

Section Thms.
Context `{P : Platform} `{!PlatformOk P} {C : UserConst} {MM : Type}.
Context `{!MmOps MM} `{!MmLaws MM} `{!UserOps MM} `{!UserLaws MM}.
Implicit Types (s : user MM) (R : gmultiset Z) (F : list Z).

Lemma tlb_flush_ok F R s : vm_ok F R (u_vm s) ->
  exists mm', onmm tlb_flush_all s = Ok tt (set_vm (Vm (vm_maps (u_vm s)) mm') s) /\
    vm_ok F R (Vm (vm_maps (u_vm s)) mm').
Proof.
  intros [[H1 H2] H3]. destruct (tlb_flush_law _ _ _ _ H2) as (mm' & E & H2').
  exists mm'. split; [by apply onmm_ok|]. by split.
Qed.

(** An area that was allocated and is not used is lost, and harms nothing. *)
Lemma vm_ok_forget F R (v : vm (MM := MM)) i : vm_ok (i :: F) R v -> vm_ok F R v.
Proof.
  intros [[Hm Hs] Ha]. split; [split; [done|]|done]. eapply mm_safe_weaken; [exact Hs| |done].
  cbn. by apply submseteq_cons.
Qed.

(** ** munmap *)

(** The bytes [addr, addr + len) are user memory and start on a page. *)
Definition valid_range (addr len : Z) : Prop :=
  0 < len /\ USER_MEM_LOW <= addr /\ addr + len <= USER_MEM_HIGH /\ addr `mod` 4096 = 0.

Lemma munmap_cases addr len s v F R :
  vm_ok F R (u_vm s) -> vm_maps (u_vm s) !! p_vmmap s = Some v ->
  is_u32 addr -> is_u32 len -> addr <= USER_MEM_HIGH ->
  (~ valid_range addr len -> do_munmap addr len s = Ok (- EINVAL) s) /\
  (valid_range addr len ->
    (exists l' vm', do_munmap addr len s = Ok 0 (set_vm vm' s) /\ vm_ok F R vm' /\
      vm_maps vm' = <[p_vmmap s := Vmmap l' (vmm_proc v)]> (vm_maps (u_vm s)) /\
      forall pg, maps_to l' pg =
        if decide (addr < (pg + 1) * 4096 /\ pg * 4096 < addr + len) then None else maps_to (vmm_list v) pg) \/
    (exists mm1 s', vmarea_slab_alloc mm1 = Ok NULL (vm_mm (u_vm s')) /\
      do_munmap addr len s = Halt NullDeref s')).
Proof.
  intros Hok Hm Ha Hlen Hhi. pose proof user_mem as (Hu1 & Hu2 & Hu3). pose proof (aligned_spec addr Ha) as Hal.
  unfold do_munmap, valid_range, NULL, is_u32 in *. rewrite u32_small by (unfold is_u32; lia). split.
  - intros Hv. destruct (_ || _) eqn:E1; [done|]. destruct ((addr <? _) || _) eqn:E2; [done|].
    destruct (PAGE_ALIGNED addr); [|done]. exfalso. zify_bool. apply Hv. split_and!; [lia..|by apply Hal].
  - intros (H1 & H2 & H3 & H4). destruct (user_page_range addr len H2 H4 H1 H3) as (_ & Hn & Hr1 & Hr2).
    pose proof user_pages as (Hp1 & Hp2 & Hp3).
    assert ((len <=? 0) || (addr =? 0) = false) as -> by (zify_bool; lia).
    assert ((addr <? USER_MEM_LOW) || (USER_MEM_HIGH - addr <? len) = false) as -> by (zify_bool; lia).
    rewrite (proj2 Hal H4). cbn [negb]. rewrite get_bind.
    rewrite page_size_eq, addr_to_pn_eq by (unfold is_u32; lia).
    assert ((if negb (len `mod` 4096 =? 0) then len / 4096 +u 1 else len / 4096) = (len + 4095) / 4096) as ->.
    { rewrite <- round_up by lia. destruct (negb _); [|done]. apply u32_small. unfold is_u32.
      pose proof (Z.div_pos len 4096). pose proof (Z.div_le_upper_bound len 4096 len). lia. }
    destruct (remove_ok (p_pagedir s) (p_vmmap s) (addr / 4096) ((len + 4095) / 4096) (u_vm s) v F R Hok Hm)
      as [(l' & vm1 & E & Hok1 & Em & Hmap)|(mm1 & vm1 & E1 & E2)]; [lia|done|lia|left|right].
    + rewrite (bind_ok _ _ _ _ _ (onvm_ok _ _ _ _ E)).
      destruct (tlb_flush_ok F R (set_vm vm1 s) Hok1) as (mm' & E2 & Hok2).
      rewrite (bind_ok _ _ _ _ _ E2). eexists l', _. split_and!; [reflexivity|exact Hok2|exact Em|].
      intros pg. rewrite Hmap. pose proof (page_of_range addr len pg H4). do 2 case_decide; tauto.
    + eexists mm1, (set_vm vm1 s). split; [exact E1|]. by rewrite (bind_halt _ _ _ _ _ (onvm_halt _ _ _ _ E2)).
Qed.
(** C27. munmap of an address that is not above user memory returns EINVAL with
    nothing changed exactly when the range is empty, unaligned or not within user
    memory, and otherwise unmaps exactly the pages that meet the range. The only
    crash is a failed allocation of a split area. *)
Theorem do_munmap_unmaps addr len s v F R :
  vm_ok F R (u_vm s) -> vm_maps (u_vm s) !! p_vmmap s = Some v ->
  is_u32 addr -> is_u32 len -> addr <= USER_MEM_HIGH ->
  (~ valid_range addr len -> do_munmap addr len s = Ok (- EINVAL) s) /\
  (valid_range addr len ->
    (exists l' vm', do_munmap addr len s = Ok 0 (set_vm vm' s) /\ vm_ok F R vm' /\
      vm_maps vm' = <[p_vmmap s := Vmmap l' (vmm_proc v)]> (vm_maps (u_vm s)) /\
      forall pg, maps_to l' pg =
        if decide (addr < (pg + 1) * 4096 /\ pg * 4096 < addr + len) then None else maps_to (vmm_list v) pg) \/
    (exists mm1 s', vmarea_slab_alloc mm1 = Ok NULL (vm_mm (u_vm s')) /\
      do_munmap addr len s = Halt NullDeref s')).
Proof. apply munmap_cases. Qed.

(** ** mmap *)

(** The arguments of an anonymous mapping that [mmap] takes. *)
Record mmap_args (addr len flags off : Z) : Prop := {
  ma_u32 : is_u32 addr /\ is_u32 off;
  ma_len : 0 < len <= USER_MEM_HIGH - USER_MEM_LOW;
  ma_addr : addr `mod` 4096 = 0;
  ma_off : off `mod` 4096 = 0;
  ma_kind : Z.land MAP_SHARED flags <> 0 \/ Z.land MAP_PRIVATE flags <> 0;
  ma_anon : Z.land flags MAP_ANON <> 0;
  ma_fixed : flags <> MAP_FIXED /\ (addr = 0 -> Z.land flags MAP_FIXED = 0)
}.

(** The call of [vmmap_map] and what follows it. *)
Definition mmap_anon (addr len prot flags off : Z) : M (user MM) (Z * option Z) :=
  s ← get;
  r ← onvm (vmmap_map (p_pagedir s) (p_vmmap s) NULL (addr / 4096) ((len + 4095) / 4096)
              prot flags off VMMAP_DIR_HILO);
  if r.1 <? 0 then mret (r.1, None)
  else
    kassert (c_true (p_pagedir s));;
    vma ← onvm (area (p_vmmap s) r.2);
    onmm tlb_flush_all;;
    mret (r.1, Some (PN_TO_ADDR (vma_start vma))).

Lemma round_up_1 n : 0 < n -> (n - 1) / 4096 + 1 = (n + 4095) / 4096.
Proof. intros Hn. replace (n + 4095) with (n - 1 + 1 * 4096) by lia. by rewrite Z.div_add by lia. Qed.

Lemma do_mmap_eq addr len prot flags fd off s :
  mmap_args addr len flags off -> do_mmap addr len prot flags fd off s = mmap_anon addr len prot flags off s.
Proof.
  intros [[Ha Ho] Hl H1 H2 H3 H4 [H5 H6]]. unfold do_mmap, mmap_anon.
  assert ((len <=? 0) || (USER_MEM_HIGH - USER_MEM_LOW <? len) = false) as ->.
  { apply orb_false_iff. rewrite Z.leb_gt, Z.ltb_ge. lia. }
  rewrite (proj2 (aligned_spec addr Ha) H1), (proj2 (aligned_spec off Ho) H2). cbn [negb orb].
  rewrite (proj2 (c_true_spec (Z.lxor flags MAP_FIXED))) by (rewrite Z.lxor_eq_0_iff; done).
  assert (c_true (Z.land MAP_SHARED flags) || c_true (Z.land MAP_PRIVATE flags) = true) as ->.
  { rewrite orb_true_iff, !c_true_spec. done. }
  assert (c_true (Z.land flags MAP_FIXED) && (addr =? 0) = false) as ->.
  { destruct (Z.eqb_spec addr 0) as [->|]; [|by rewrite andb_false_r]. by rewrite H6. }
  unfold mmap_file. rewrite (proj2 (c_true_spec _) H4). cbn [negb]. rewrite ret_bind, page_size_eq, round_up_1 by lia.
  by rewrite addr_to_pn_eq by done.
Qed.

Lemma mmap_cases addr len prot flags fd off s v F R :
  vm_ok F R (u_vm s) -> vm_maps (u_vm s) !! p_vmmap s = Some v -> p_pagedir s <> NULL ->
  mmap_args addr len flags off ->
  addr = 0 /\ vmm_list v <> [] \/ valid_range addr len ->
  (exists start l' o vm', do_mmap addr len prot flags fd off s = Ok (0, Some start) (set_vm vm' s) /\
    vm_ok F R vm' /\ vm_maps vm' = <[p_vmmap s := Vmmap l' (vmm_proc v)]> (vm_maps (u_vm s)) /\
    start `mod` 4096 = 0 /\
    (if addr =? 0 then highest_fit ((len + 4095) / 4096) (vmm_list v) (start / 4096) else start = addr) /\
    forall pg, maps_to l' pg =
      if decide (start < (pg + 1) * 4096 /\ pg * 4096 < start + len)
      then Some (o, pg - start / 4096 + off / 4096, prot, flags) else maps_to (vmm_list v) pg) \/
  (exists vm', do_mmap addr len prot flags fd off s = Ok (-1, None) (set_vm vm' s) /\ addr = 0 /\ vm_ok F R vm' /\
    vm_maps vm' = vm_maps (u_vm s) /\
    forall lo, user_range lo (lo + (len + 4095) / 4096) -> ~ range_free lo (lo + (len + 4095) / 4096) (vmm_list v)) \/
  (exists s', do_mmap addr len prot flags fd off s = Halt NullDeref s' /\
    (alloc_failed (vm_mm (u_vm s')) \/ exists mm', vmarea_slab_alloc (vm_mm (u_vm s)) = Ok NULL mm')).
Proof.
  intros Hok Hm Hpd Hargs Hplace. rewrite (do_mmap_eq _ _ _ _ _ _ _ Hargs). unfold mmap_anon. rewrite get_bind.
  destruct Hargs as [[Ha Ho] Hlen Hal Hol Hk _ _]. pose proof user_pages as (Hp1 & Hp2 & Hp3).
  assert (0 < (len + 4095) / 4096) as Hn by (apply Z.div_str_pos; lia).
  assert (addr / 4096 = 0 /\ vmm_list v <> [] \/ user_range (addr / 4096) (addr / 4096 + (len + 4095) / 4096)) as Hlo.
  { destruct Hplace as [[-> ?]|(H1 & H2 & H3 & H4)]; [by left|right]. by apply user_page_range. }
  assert ((addr / 4096 =? 0) = (addr =? 0)) as Ez.
  { pose proof (Z.div_mod addr 4096 ltac:(lia)). destruct (Z.eqb_spec addr 0), (Z.eqb_spec (addr / 4096) 0); lia. }
  destruct (map_cases (p_pagedir s) (p_vmmap s) NULL (addr / 4096) ((len + 4095) / 4096) prot flags off (u_vm s) v F R
    Hok Hm Hn Ho (proj2 (aligned_spec off Ho) Hol) Hk Hlo)
    as [(r & i & vm1 & E & [(-> & Hok1 & lo & l' & o & Hlo' & [Hr1 Hr2] & Hget & Em & Hmap)|(-> & E0 & Em & Hno & Hlk)])|(vm1 & E & Hf)].
  - left. rewrite (bind_ok _ _ _ _ _ (onvm_ok _ _ _ _ E)). cbn [fst snd]. change (0 <? 0) with false. cbn match.
    rewrite kassert_bind by (by apply c_true_spec).
    rewrite (bind_ok _ _ _ _ _ (onvm_same (area (p_vmmap s) i) (set_vm vm1 s) _ ltac:(
      unfold area, vmmap_of; rewrite bind_assoc, get_bind; cbn [u_vm set_vm]; rewrite Em, lookup_insert_eq;
      rewrite (deref_bind _ (Vmmap l' (vmm_proc v))) by done; cbn [vmm_list]; rewrite Hget; reflexivity))).
    destruct (tlb_flush_ok F R (set_vm vm1 s) Hok1) as (mm' & E2 & Hok2). rewrite (bind_ok _ _ _ _ _ E2).
    cbn [vma_start]. rewrite pn_to_addr_eq, u32_small by (unfold is_u32; lia).
    exists (lo * 4096), l', o. eexists. split_and!; [reflexivity|exact Hok2|exact Em|by rewrite Z.mod_mul| |].
    + rewrite Z.div_mul by lia. rewrite Ez in Hlo'. destruct (addr =? 0); [done|]. subst lo.
      pose proof (Z.div_mod addr 4096 ltac:(lia)). lia.
    + intros pg. rewrite Hmap, Z.div_mul, addr_to_pn_eq by (done || lia).
      pose proof (page_of_range (lo * 4096) len pg ltac:(by rewrite Z.mod_mul)) as Hpg. rewrite Z.div_mul in Hpg by lia.
      do 2 case_decide; tauto.
  - right. left. exists vm1. rewrite (bind_ok _ _ _ _ _ (onvm_ok _ _ _ _ E)).
    split_and!; [done| | |done|done]; [apply Z.eqb_eq; rewrite <- Ez; by apply Z.eqb_eq|].
    destruct Hlk as [?|[i' Hi]]; [done|by eapply vm_ok_forget].
  - right. right. exists (set_vm vm1 s). by rewrite (bind_halt _ _ _ _ _ (onvm_halt _ _ _ _ E)).
Qed.

(** mmap at an address below user memory stops the kernel at an assertion of
    vmmap_map. *)
Theorem do_mmap_panics addr len prot flags fd off s :
  mmap_args addr len flags off -> p_vmmap s <> NULL -> 0 < addr < USER_MEM_LOW ->
  do_mmap addr len prot flags fd off s = Halt KAssert s.
Proof.
  intros Hargs Hm Hlow. rewrite (do_mmap_eq _ _ _ _ _ _ _ Hargs). unfold mmap_anon. rewrite get_bind.
  destruct Hargs as [[Ha Ho] Hlen Hal Hol Hk _ _].
  assert (0 < (len + 4095) / 4096) as Hn by (apply Z.div_str_pos; lia).
  rewrite (bind_halt _ _ _ KAssert s); [done|]. apply onvm_halt_same.
  unfold vmmap_map. rewrite (kassert_bind (c_true (p_vmmap s))) by (by apply c_true_spec).
  rewrite (kassert_bind (0 <? (len + 4095) / 4096)) by (by apply Z.ltb_lt).
  rewrite kassert_bind by (rewrite orb_true_iff, !c_true_spec; done).
  apply kassert_fail, orb_false_iff. pose proof user_mem as (_ & ? & ?). rewrite addr_to_pn_eq by (unfold is_u32; lia).
  pose proof (Z.div_mod addr 4096 ltac:(lia)). pose proof (Z.div_mod USER_MEM_LOW 4096 ltac:(lia)).
  pose proof user_low_aligned. rewrite Z.eqb_neq, Z.leb_gt. lia.
Qed.

(** ** The check of user addresses *)

Lemma addr_perm_spec a perm s v :
  vm_maps (u_vm s) !! p_vmmap s = Some v -> p_vmmap s <> NULL -> is_u32 a ->
  exists b, addr_perm a perm s = Ok b s /\ (b = true <-> maps_to (vmm_list v) (a / 4096) <> None).
Proof.
  intros Hm Hn Ha. unfold addr_perm. rewrite get_bind, addr_to_pn_eq by done.
  rewrite (bind_ok _ _ _ _ _ (lookup_same _ _ _ _ Hm Hn)). eexists. split; [reflexivity|].
  unfold maps_to. by destruct (lookup_area _ _).
Qed.

(** [range_perm] looks at one address in each page-sized step. *)
Lemma range_perm_loop_spec avaddr len perm s v fuel k :
  vm_maps (u_vm s) !! p_vmmap s = Some v -> p_vmmap s <> NULL ->
  0 <= avaddr -> avaddr + len + 4096 < 4294967296 -> 0 <= k -> 4096 * k < len + 4096 -> len <= 4096 * (k + Z.of_nat fuel) ->
  exists b, range_perm_loop fuel avaddr len perm (4096 * k) s = Ok b s /\
    (b = true <-> forall j, k <= j -> 4096 * j < len -> maps_to (vmm_list v) (avaddr / 4096 + j) <> None).
Proof.
  intros Hm Hn Ha Hb. revert k. induction fuel as [|fuel IH]; intros k Hk Hk' Hf; cbn [range_perm_loop].
  { destruct (Z.ltb_spec (4096 * k) len) as [?|?]; [lia|]. exists true. split; [done|]. split; [|done]. intros _ j. lia. }
  destruct (Z.ltb_spec (4096 * k) len) as [Hlt|?].
  2: { exists true. split; [done|]. split; [|done]. intros _ j. lia. }
  rewrite (u32_small (avaddr + 4096 * k)) by (unfold is_u32; lia).
  destruct (addr_perm_spec (avaddr + 4096 * k) perm s v Hm Hn) as (b & E & Hb'); [unfold is_u32; lia|].
  rewrite (bind_ok _ _ _ _ _ E). rewrite (Z.mul_comm 4096 k), Z.div_add in Hb' by lia. destruct b.
  - rewrite page_size_eq, u32_small by (unfold is_u32; lia).
    destruct (IH (k + 1) ltac:(lia) ltac:(lia) ltac:(lia)) as (b & E' & Hb2).
    replace (4096 * (k + 1)) with (4096 * k + 4096) in E' by lia. exists b. split; [exact E'|]. rewrite Hb2.
    split; intros H j Hj; [destruct (decide (j = k)) as [->|]|]; [by intros _; apply Hb'|apply H; lia..].
  - exists false. split; [done|]. split; [done|]. intros H. apply Hb'. by apply H.
Qed.

Lemma range_perm_ok avaddr len perm s v :
  vm_maps (u_vm s) !! p_vmmap s = Some v -> p_vmmap s <> NULL ->
  0 <= avaddr -> 0 <= len -> avaddr + len + 4096 < 4294967296 ->
  exists b, range_perm avaddr len perm s = Ok b s /\
    (b = true <-> forall j, 0 <= j -> 4096 * j < len -> maps_to (vmm_list v) (avaddr / 4096 + j) <> None).
Proof.
  intros Hm Hn Ha Hl Hb. unfold range_perm. rewrite page_size_eq. pose proof (Z.div_mod len 4096 ltac:(lia)).
  pose proof (Z.mod_pos_bound len 4096 ltac:(lia)). pose proof (Z.div_pos len 4096 Hl ltac:(lia)).
  apply (range_perm_loop_spec avaddr len perm s v _ 0 Hm Hn Ha Hb); lia.
Qed.

End Thms.
