(* ===== verification/BrkThms.v ===== *)
(** The heap of a process: what [brk] does to the break and to the address space,
    where it refuses a request it should grant, and where it panics. *)
From S2P Require Import Prelude.
From S2P Require Import Platform.
From S2P Require Import MmIface.
From S2P Require Import Vmmap.
From S2P Require Import Areas.
From S2P Require Import VmmapFacts.
From S2P Require Import VmmapThms.
From S2P Require Import UserMem.
From S2P Require Import UserThms.
From stdpp Require Import sorting.
Open Scope Z_scope.

(** The first page at or above an address. *)
Definition up (addr : Z) : Z := (addr + 4095) / 4096.

Lemma up_spec a : up a * 4096 - 4096 < a <= up a * 4096.
Proof.
  unfold up. pose proof (Z.div_mod (a + 4095) 4096 ltac:(lia)).
  pose proof (Z.mod_pos_bound (a + 4095) 4096 ltac:(lia)). lia.
Qed.

Lemma shiftr_12 a : Z.shiftr a 12 = a / 4096.
Proof. by rewrite Z.shiftr_div_pow2. Qed.

(** ** Moving the end of an area *)

Lemma maps_to_cons a l v : maps_to (a :: l) v =
  if decide (covers a v) then Some (vma_obj a, v - vma_start a + vma_off a, vma_prot a, vma_flags a) else maps_to l v.
Proof.
  unfold maps_to, covers. cbn. destruct (Z.ltb_spec v (vma_end a)), (Z.leb_spec (vma_start a) v); cbn; case_decide; done || lia.
Qed.

Lemma maps_to_mid l1 a l2 v : maps_to (l1 ++ a :: l2) v = match maps_to l1 v with
  | Some x => Some x
  | None => if decide (covers a v) then Some (vma_obj a, v - vma_start a + vma_off a, vma_prot a, vma_flags a)
            else maps_to l2 v
  end.
Proof. by rewrite maps_to_app, maps_to_cons. Qed.

Section Resize.
Context `{P : Platform} `{!PlatformOk P}.

(** Areas of a list in order, seen from one of them. *)
Lemma areas_ok_mid l1 a l2 :
  areas_ok (l1 ++ a :: l2) ->
  (forall b, b ∈ l1 -> vma_end b <= vma_start a) /\ (forall b, b ∈ l2 -> vma_end a <= vma_start b) /\ area_ok a /\
  Forall area_ok l1 /\ Forall area_ok l2.
Proof.
  intros [Hs Ho _]. apply Forall_app in Ho as [Ho1 [Hoa Ho2]%Forall_cons].
  apply StronglySorted_app in Hs as (H1 & _ & [_ H2]%StronglySorted_inv).
  split_and!; [|by apply Forall_forall|done..]. intros b Hb. apply (H1 b a Hb). by left.
Qed.

(** An area may end anywhere after its start, up to what follows it. *)
Lemma set_end_ok l1 a l2 e :
  areas_ok (l1 ++ a :: l2) -> vma_start a < e <= ADDR_TO_PN USER_MEM_HIGH -> vma_off a = 0 ->
  range_free (vma_end a) e (l1 ++ a :: l2) -> areas_ok (l1 ++ set_end e a :: l2).
Proof.
  intros Hl He Hoff Hf. destruct (areas_ok_mid _ _ _ Hl) as (H1 & H2 & Ha & Ho1 & Ho2). destruct Hl as [Hs Ho Hid].
  pose proof user_pages as (Hp1 & Hp2 & Hp3). unfold area_ok in Ha.
  assert (forall b, b ∈ l2 -> e <= vma_start b) as H3.
  { intros b Hb. specialize (H2 b Hb). destruct (Z.le_gt_cases e (vma_start b)); [done|].
    exfalso. eapply (Hf b (vma_start b)); [set_solver|lia|]. rewrite Forall_forall in Ho2. specialize (Ho2 b Hb).
    unfold area_ok, covers in *. lia. }
  apply StronglySorted_app in Hs as (_ & Hs1 & [Hs2 _]%StronglySorted_inv). split.
  - apply StronglySorted_app. split_and!; [|done|].
    + intros b c Hb [->|Hc]%elem_of_cons; unfold before; cbn; [by apply H1|]. specialize (H1 b Hb). specialize (H3 c Hc). lia.
    + constructor; [done|]. apply Forall_forall. by intros b Hb; apply H3.
  - apply Forall_app. split; [done|]. constructor; [|done]. unfold area_ok. cbn. lia.
  - by rewrite fmap_app, fmap_cons in *.
Qed.

Lemma set_end_maps l1 a l2 e v :
  areas_ok (l1 ++ a :: l2) -> vma_off a = 0 -> range_free (vma_end a) e (l1 ++ a :: l2) ->
  maps_to (l1 ++ set_end e a :: l2) v =
    if decide (vma_start a <= v < e) then Some (vma_obj a, v - vma_start a, vma_prot a, vma_flags a)
    else if decide (vma_start a <= v < vma_end a) then None else maps_to (l1 ++ a :: l2) v.
Proof.
  intros Hl Hoff Hf. destruct (areas_ok_mid _ _ _ Hl) as (H1 & H2 & Ha & Ho1 & Ho2).
  rewrite !maps_to_mid. unfold covers. cbn. rewrite Hoff, Z.add_0_r.
  assert (vma_start a <= v -> maps_to l1 v = None) as N1.
  { intros Hv. unfold maps_to. rewrite (proj2 (lookup_area_None _ _)); [done|]. intros b Hb [? ?]. specialize (H1 b Hb). lia. }
  assert (v < vma_end a -> maps_to l2 v = None) as N2.
  { intros Hv. unfold maps_to. rewrite (proj2 (lookup_area_None _ _)); [done|]. intros b Hb [? ?]. specialize (H2 b Hb). lia. }
  repeat case_decide; try lia; try (rewrite N1 by lia); try done; try (rewrite N2 by lia); done.
Qed.
End Resize.

Section Brk.
Context `{P : Platform} `{!PlatformOk P} {C : UserConst} {MM : Type}.
Context `{!MmOps MM} `{!MmLaws MM} `{!UserOps MM}.
Implicit Types (s : user MM) (R : gmultiset Z) (F : list Z).

(** A call of [brk] above the start of the heap; [d] is the area below the heap. *)
Record heap_call (addr : Z) s (v : vmmap) (d : vmarea) F R : Prop := {
  hc_ok : vm_ok F R (u_vm s);
  hc_map : vm_maps (u_vm s) !! p_vmmap s = Some v;
  hc_start : 0 < p_start_brk s;
  hc_addr : p_start_brk s < addr < 4294967296;
  hc_brk : p_start_brk s <= p_brk s <= USER_MEM_HIGH;
  hc_data : lookup_area ((p_start_brk s - 1) / 4096) (vmm_list v) = Some d
}.

(** [do_brk] behind its checks, with the arithmetic done. *)
Definition brk_steps (addr : Z) (d : vmarea) s : M (user MM) (Z * option Z) :=
  let e := vma_end d in
  let brk := p_brk s in
  let str := MAX brk (e * 4096) in
  if addr =? str then modify (set_p_brk addr);; mret (0, Some addr)
  else
    let npages := u32 (up addr - str / 4096) in
    let npages := if negb (PAGE_ALIGNED str) then npages -u 1 else npages in
    let pagenum := (brk - 1) / 4096 in
    let pagenum := if negb (PAGE_ALIGNED brk) then pagenum +u 1 else pagenum in
    if str =? e * 4096 then brk_first (p_vmmap s) (p_pagedir s) addr (str / 4096) npages (up addr) (e * 4096)
    else if e * 4096 <? addr then brk_move (p_vmmap s) addr brk (str / 4096) npages (up addr) pagenum
    else
      a ← onvm (vmmap_lookup (p_vmmap s) pagenum);
      vma ← deref a;
      onvm (vmmap_remove (p_pagedir s) (p_vmmap s) (vma_start vma) (vma_end vma -u vma_start vma));;
      modify (set_p_brk addr);;
      mret (0, Some addr).

Lemma heap_call_facts addr s v d F R : heap_call addr s v d F R ->
  p_vmmap s <> NULL /\ areas_ok (vmm_list v) /\ area_ok d /\ d ∈ vmm_list v /\
  0 < vma_end d * 4096 <= USER_MEM_HIGH /\ p_start_brk s <= vma_end d * 4096 /\ is_u32 addr.
Proof.
  intros [Hok Hm H1 H2 H3 Hd]. destruct (vo_areas _ _ _ Hok _ _ Hm) as [Hn Hl].
  apply lookup_area_Some in Hd as [Hd [Hc1 Hc2]]. pose proof (ao_each _ Hl) as He. rewrite Forall_forall in He.
  specialize (He d Hd). pose proof user_mem as (? & ? & ?). pose proof user_pages as (? & ? & ?).
  pose proof (Z.div_mod USER_MEM_HIGH 4096 ltac:(lia)). pose proof user_high_aligned.
  pose proof He as (? & ? & Hh & _). rewrite addr_to_pn_eq in Hh by (unfold is_u32; lia).
  pose proof (Z.div_mod (p_start_brk s - 1) 4096 ltac:(lia)).
  pose proof (Z.mod_pos_bound (p_start_brk s - 1) 4096 ltac:(lia)).
  split_and!; try done; unfold is_u32; lia.
Qed.

Lemma do_brk_eq addr s v d F R : heap_call addr s v d F R -> do_brk addr s = brk_steps addr d s s.
Proof.
  intros Hc. destruct (heap_call_facts _ _ _ _ _ _ Hc) as (Hn & Hl & Hd & Hin & He & Hs & Ha).
  destruct Hc as [Hok Hm H1 H2 H3 Hda]. pose proof user_mem as (? & ? & ?). unfold do_brk, brk_steps, NULL in *.
  rewrite get_bind. destruct (Z.eqb_spec addr 0); [lia|]. destruct (Z.ltb_spec addr (p_start_brk s)); [lia|].
  destruct (Z.eqb_spec addr (p_start_brk s)); [lia|].
  rewrite (u32_small (p_start_brk s - 1)), (shiftr_12 (p_start_brk s - 1)) by (unfold is_u32; lia).
  rewrite (bind_ok _ _ _ _ _ (lookup_same _ _ _ _ Hm Hn)), Hda, (deref_bind _ d) by done.
  rewrite !shiftr_12, Z.shiftl_mul_pow2 by lia. change (2 ^ 12) with 4096.
  rewrite (u32_small (vma_end d * 4096)) by (unfold is_u32; lia).
  rewrite (u32_small (p_brk s - 1)) by (unfold is_u32; lia).
  destruct (addr =? _); [done|].
  assert ((if negb (PAGE_ALIGNED addr) then addr / 4096 +u 1 else addr / 4096) = up addr) as ->; [|done].
  unfold up. rewrite <- round_up, page_aligned_eq by (done || lia). destruct (negb _); [|done].
  apply u32_small. pose proof (Z.div_pos addr 4096). pose proof (Z.div_lt_upper_bound addr 4096 1048576). unfold is_u32. lia.
Qed.

Lemma range_empty_user m lo n s v :
  vm_maps (u_vm s) !! m = Some v -> areas_ok (vmm_list v) -> 0 < n -> user_range lo (lo + n) ->
  exists b, onvm (vmmap_is_range_empty m lo n) s = Ok b s /\ (b = true <-> range_free lo (lo + n) (vmm_list v)).
Proof.
  intros Hm Hl Hn Hu. destruct (st_of (u_vm s) m v Hm) as (E & _).
  destruct (is_range_empty_spec lo n (vmm_list v) m (vmm_proc v) (delete m (vm_maps (u_vm s))) (vm_mm (u_vm s)) Hl Hn Hu)
    as (b & E' & Hb). rewrite <- E in E'. exists b. split; [|done]. by apply onvm_same.
Qed.

(** The pages from the end of the data area up to a new break. *)
Lemma heap_pages addr e : 0 < e -> e * 4096 < addr -> addr <= USER_MEM_HIGH ->
  ADDR_TO_PN USER_MEM_LOW <= e -> 0 < up addr - e /\ user_range e (e + (up addr - e)) /\ is_u32 (up addr - e).
Proof.
  intros H1 H2 H3 H4. pose proof (up_spec addr). pose proof user_mem as (? & ? & ?). pose proof user_pages as (? & ? & ?).
  pose proof user_high_aligned. pose proof (Z.div_mod USER_MEM_HIGH 4096 ltac:(lia)).
  unfold user_range, is_u32. rewrite (addr_to_pn_eq USER_MEM_HIGH) by (unfold is_u32; lia). split_and!; lia.
Qed.

Lemma aligned_page e : 0 <= e * 4096 < 4294967296 -> PAGE_ALIGNED (e * 4096) = true.
Proof. intros He. rewrite aligned_spec by done. by rewrite Z.mod_mul. Qed.

(** What a failed [brk] and a [brk] that maps the first pages of the heap leave. *)
Definition heap_started (addr : Z) (d : vmarea) s (v : vmmap) F R : Prop :=
  (exists l' o vm', do_brk addr s = Ok (0, Some addr) (set_p_brk addr (set_vm vm' s)) /\ vm_ok F R vm' /\
    vm_maps vm' = <[p_vmmap s := Vmmap l' (vmm_proc v)]> (vm_maps (u_vm s)) /\
    forall pg, maps_to l' pg = if decide (vma_end d <= pg < up addr)
      then Some (o, pg - vma_end d, Z.lor PROT_READ PROT_WRITE, MAP_PRIVATE) else maps_to (vmm_list v) pg) \/
  (exists s', do_brk addr s = Halt NullDeref s' /\
    (alloc_failed (vm_mm (u_vm s')) \/ exists mm', vmarea_slab_alloc (vm_mm (u_vm s)) = Ok NULL mm')).

Lemma area_get_Some i x l : area_get i l = Some x -> x ∈ l /\ vma_id x = i.
Proof.
  unfold area_get. destruct (list_find _ l) as [[k y]|] eqn:E; [|done]. intros [= <-].
  apply list_find_Some in E as (Hk & Hy & _). split; [|done]. by eapply list_elem_of_lookup_2.
Qed.
Lemma area_ids_in (maps : vmmaps) m v a : maps !! m = Some v -> a ∈ vmm_list v -> vma_id a ∈ area_ids maps.
Proof.
  intros Hm Ha. unfold area_ids. apply list_elem_of_fmap. exists a. split; [done|]. apply list_elem_of_bind.
  exists (m, v). split; [done|]. by apply elem_of_map_to_list.
Qed.

Lemma area_upd_id i x f l : NoDup (vma_id <$> l) -> area_get i l = Some x -> f x = x -> area_upd i f l = l.
Proof.
  unfold area_get, area_upd. intros Hnd Hg Hf. destruct (list_find _ l) as [[k y]|] eqn:E; [|done]. cbn in Hg. simplify_eq.
  apply list_find_Some in E as (Hk & <- & _). rewrite <- (list_fmap_id l) at 2. apply list_fmap_ext. intros j z Hz.
  destruct (Z.eqb_spec (vma_id z) (vma_id x)) as [Hid|]; [|done]. assert (j = k) as ->; [|by simplify_eq].
  eapply (NoDup_lookup (vma_id <$> l)); [done|rewrite list_lookup_fmap, Hz; reflexivity|rewrite list_lookup_fmap, Hk; cbn; congruence].
Qed.

Lemma brk_first_maps addr s v d F R : heap_call addr s v d F R -> p_brk s <= vma_end d * 4096 ->
  vma_end d * 4096 < addr <= USER_MEM_HIGH -> range_free (vma_end d) (up addr) (vmm_list v) ->
  do_brk addr s = brk_first (p_vmmap s) (p_pagedir s) addr (vma_end d) (up addr - vma_end d) (up addr) (vma_end d * 4096) s ->
  heap_started addr d s v F R.
Proof.
  intros Hc Hb Ha Hf E0. destruct (heap_call_facts _ _ _ _ _ _ Hc) as (Hn & Hl & (Hd1 & Hd2 & Hd3 & _) & Hin & He & Hs & Hu).
  pose proof user_pages as (? & ? & ?). pose proof user_mem as (? & ? & ?).
  destruct (heap_pages addr (vma_end d)) as (Hpos & Hr & Hu32); [lia..|]. destruct Hc as [Hok Hm _ _ _ _].
  unfold heap_started. rewrite E0. unfold brk_first. destruct (Z.ltb_spec addr (vma_end d * 4096)); [lia|].
  destruct (range_empty_user (p_vmmap s) (vma_end d) (up addr - vma_end d) s v Hm Hl Hpos Hr) as (b & E & Hfree).
  rewrite (bind_ok _ _ _ _ _ E). replace (vma_end d + (up addr - vma_end d)) with (up addr) in * by lia.
  rewrite (proj2 Hfree Hf). rewrite page_size_eq, Z.mod_mul by lia.
  destruct (map_cases (p_pagedir s) (p_vmmap s) NULL (vma_end d) (up addr - vma_end d) (Z.lor PROT_READ PROT_WRITE)
    MAP_PRIVATE 0 (u_vm s) v F R Hok Hm Hpos ltac:(unfold is_u32; lia))
    as [(r & i & vm1 & E1 & [(-> & Hok1 & lo & l' & o & Hlo & _ & Hget & Em & Hmap)|(-> & E2 & _)])|(vm1 & E1 & Hfail)].
  { by apply (aligned_page 0). } { right. rewrite Z.land_diag. apply map_private_bit. }
  { right. by replace (vma_end d + (up addr - vma_end d)) with (up addr) by lia. }
  - left. destruct (Z.eqb_spec (vma_end d) 0); [lia|]. subst lo.
    destruct (vo_areas _ _ _ Hok1 (p_vmmap s) (Vmmap l' (vmm_proc v))) as [_ [_ _ Hnd]]; [by rewrite Em, lookup_insert_eq|].
    assert (i <> NULL) as Hi0.
    { destruct (vo_inv _ _ _ Hok1) as [(_ & Hnn & _) _]. intros ->. apply area_get_Some in Hget as [Hk _]. apply Hnn.
      apply (area_ids_in (vm_maps vm1) (p_vmmap s) (Vmmap l' (vmm_proc v)) _ ltac:(by rewrite Em, lookup_insert_eq) Hk). }
    exists l', o, vm1. rewrite (bind_ok _ _ _ _ _ (onvm_ok _ _ _ _ E1)). cbn [snd].
    rewrite (proj2 (Z.eqb_neq _ _) Hi0), ret_bind. unfold set_vma_end.
    rewrite (bind_ok _ _ _ tt (set_vm vm1 s)); first last.
    { apply onvm_same. unfold upd_list, vmmap_of. rewrite bind_assoc, get_bind. cbn [u_vm set_vm].
      rewrite Em, lookup_insert_eq, (deref_bind _ (Vmmap l' (vmm_proc v))) by done. unfold modify, set_map. f_equal.
      cbn [vmm_list vmm_proc]. rewrite (area_upd_id _ _ _ _ Hnd Hget); first last.
      { unfold set_end. cbn. f_equal. lia. }
      destruct vm1 as [maps mm]. cbn in *. rewrite Em. by rewrite insert_insert_eq. }
    split_and!; [done|done|done|]. intros pg. rewrite Hmap, addr_to_pn_eq, Z.div_0_l, Z.add_0_r by (done || lia).
    by replace (vma_end d + (up addr - vma_end d)) with (up addr) by lia.
  - lia.
  - right. exists (set_vm vm1 s). by rewrite (bind_halt _ _ _ _ _ (onvm_halt _ _ _ _ E1)).
Qed.

Lemma brk_first_cases addr s v d F R : heap_call addr s v d F R ->
  p_brk s <= vma_end d * 4096 -> addr <= USER_MEM_HIGH ->
  (addr <= vma_end d * 4096 -> do_brk addr s = Ok (0, Some addr) (set_p_brk addr s)) /\
  (vma_end d * 4096 < addr -> ~ range_free (vma_end d) (up addr) (vmm_list v) -> do_brk addr s = Ok (- ENOMEM, None) s) /\
  (vma_end d * 4096 < addr -> range_free (vma_end d) (up addr) (vmm_list v) -> heap_started addr d s v F R).
Proof.
  intros Hc Hb Ha. destruct (heap_call_facts _ _ _ _ _ _ Hc) as (Hn & Hl & (Hd1 & Hd2 & Hd3 & _) & Hin & He & Hs & Hu).
  pose proof user_pages as (? & ? & ?). pose proof user_mem as (? & ? & ?). pose proof (hc_map _ _ _ _ _ _ Hc) as Hm.
  pose proof (do_brk_eq _ _ _ _ _ _ Hc) as E. unfold brk_steps in E.
  assert (MAX (p_brk s) (vma_end d * 4096) = vma_end d * 4096) as Emax by (unfold MAX; destruct (Z.ltb_spec (vma_end d * 4096) (p_brk s)); lia).
  rewrite Emax, Z.eqb_refl, aligned_page, Z.div_mul in E by lia. cbn [negb] in E.
  assert (vma_end d * 4096 < addr -> do_brk addr s = brk_first (p_vmmap s) (p_pagedir s) addr (vma_end d) (up addr - vma_end d) (up addr) (vma_end d * 4096) s) as E'.
  { intros Hlt. rewrite E. destruct (Z.eqb_spec addr (vma_end d * 4096)); [lia|].
    destruct (heap_pages addr (vma_end d)) as (_ & _ & ?); [lia..|]. by rewrite u32_small by done. }
  split_and!.
  - intros Hle. rewrite E. destruct (Z.eqb_spec addr (vma_end d * 4096)); [done|]. unfold brk_first.
    by destruct (Z.ltb_spec addr (vma_end d * 4096)); [|lia].
  - intros Hlt Hnf. rewrite (E' Hlt). destruct (heap_pages addr (vma_end d)) as (Hpos & Hr & _); [lia..|].
    unfold brk_first. destruct (Z.ltb_spec addr (vma_end d * 4096)); [lia|].
    destruct (range_empty_user (p_vmmap s) (vma_end d) (up addr - vma_end d) s v Hm Hl Hpos Hr) as (b & Eb & Hfree).
    rewrite (bind_ok _ _ _ _ _ Eb). replace (vma_end d + (up addr - vma_end d)) with (up addr) in * by lia.
    destruct b; [|done]. by destruct Hnf; apply Hfree.
  - intros Hlt Hf. by apply brk_first_maps; auto.
Qed.
(** While the break has not left the last page of the data area, brk within that
    page only sets the break, brk beyond it over pages in use gives ENOMEM and
    changes nothing, and otherwise maps exactly the pages up to the new break as
    private, readable and writable memory. The only crash is a failed allocation. *)
Theorem do_brk_first addr s v d F R : heap_call addr s v d F R ->
  p_brk s <= vma_end d * 4096 -> addr <= USER_MEM_HIGH ->
  (addr <= vma_end d * 4096 -> do_brk addr s = Ok (0, Some addr) (set_p_brk addr s)) /\
  (vma_end d * 4096 < addr -> ~ range_free (vma_end d) (up addr) (vmm_list v) -> do_brk addr s = Ok (- ENOMEM, None) s) /\
  (vma_end d * 4096 < addr -> range_free (vma_end d) (up addr) (vmm_list v) -> heap_started addr d s v F R).
Proof. apply brk_first_cases. Qed.

(** ** Moving the break of a heap *)

Lemma set_vma_end_ok m a e s v F R :
  vm_ok F R (u_vm s) -> vm_maps (u_vm s) !! m = Some v -> a ∈ vmm_list v -> vma_off a = 0 ->
  vma_start a < e <= ADDR_TO_PN USER_MEM_HIGH -> range_free (vma_end a) e (vmm_list v) ->
  exists l' vm', set_vma_end m (vma_id a) e s = Ok tt (set_vm vm' s) /\ vm_ok F R vm' /\ vm_mm vm' = vm_mm (u_vm s) /\
    vm_maps vm' = <[m := Vmmap l' (vmm_proc v)]> (vm_maps (u_vm s)) /\
    forall pg, maps_to l' pg =
      if decide (vma_start a <= pg < e) then Some (vma_obj a, pg - vma_start a, vma_prot a, vma_flags a)
      else if decide (vma_start a <= pg < vma_end a) then None else maps_to (vmm_list v) pg.
Proof.
  intros Hok Hm Hin Hoff He Hf. destruct (vm_ok_inv _ _ _ _ _ Hok Hm) as (E & H0 & Hnn & Hl & Hms & Hi).
  apply list_elem_of_split in Hin as (l1 & l2 & El). rewrite El in *.
  destruct (area_upd_ok _ m (vmm_proc v) H0 (set_end e) _ _ l1 a l2 (vm_mm (u_vm s)) eq_refl eq_refl Hi) as [E' Hi'].
  rewrite <- E in E'. eexists (l1 ++ set_end e a :: l2), _. split_and!; [by apply onvm_ok| | | |].
  - apply vm_ok_st; [done|done|by apply set_end_ok|done|].
    replace (objs (l1 ++ set_end e a :: l2)) with (objs (l1 ++ a :: l2)); [done|]. by rewrite !objs_app, !objs_cons.
  - done.
  - cbn. by rewrite insert_delete_eq.
  - intros pg. by apply set_end_maps.
Qed.

(** The area of a heap that has pages, its break on a page boundary. *)
Record heap_area s (v : vmmap) (d a : vmarea) : Prop := {
  ha_aligned : p_brk s `mod` 4096 = 0;
  ha_lookup : lookup_area (p_brk s / 4096 - 1) (vmm_list v) = Some a;
  ha_bounds : vma_start a = vma_end d /\ vma_end a = p_brk s / 4096;
  ha_off : vma_off a = 0
}.

(** The steps of [brk] on such a heap. *)
Lemma do_brk_move_eq addr s v d a F R : heap_call addr s v d F R -> heap_area s v d a ->
  vma_end d * 4096 < addr <= USER_MEM_HIGH -> addr <> p_brk s ->
  let finish := (modify (set_p_brk addr);; set_vma_end (p_vmmap s) (vma_id a) (up addr);; mret (0, Some addr)) s in
  (addr <= p_brk s -> do_brk addr s = finish) /\
  (p_brk s < addr -> range_free (p_brk s / 4096) (up addr) (vmm_list v) -> do_brk addr s = finish) /\
  (p_brk s < addr -> ~ range_free (p_brk s / 4096) (up addr) (vmm_list v) -> do_brk addr s = Ok (- ENOMEM, None) s).
Proof.
  intros Hc [Hal Hlk [Hb1 Hb2] Hoff] Ha Hne finish.
  destruct (heap_call_facts _ _ _ _ _ _ Hc) as (Hn & Hl & (Hd1 & Hd2 & Hd3 & _) & Hin & He & Hs & Hu).
  pose proof user_pages as (? & ? & ?). pose proof user_mem as (? & ? & ?). pose proof (hc_map _ _ _ _ _ _ Hc) as Hm.
  pose proof (hc_brk _ _ _ _ _ _ Hc) as Hbr. pose proof (Z.div_mod (p_brk s) 4096 ltac:(lia)) as Hdm. rewrite Hal in Hdm.
  destruct (lookup_area_Some _ _ _ Hlk) as [Hain [? ?]].
  assert ((p_brk s - 1) / 4096 = p_brk s / 4096 - 1) as Epg.
  { symmetry. apply (Z.div_unique _ _ _ 4095); lia. }
  assert (do_brk addr s = brk_move (p_vmmap s) addr (p_brk s) (p_brk s / 4096) (u32 (up addr - p_brk s / 4096)) (up addr) (p_brk s / 4096 - 1) s) as ->.
  { rewrite (do_brk_eq _ _ _ _ _ _ Hc). unfold brk_steps.
    replace (MAX (p_brk s) (vma_end d * 4096)) with (p_brk s) by (unfold MAX; destruct (Z.ltb_spec (vma_end d * 4096) (p_brk s)); lia).
    rewrite (proj2 (aligned_spec (p_brk s) ltac:(unfold is_u32; lia)) Hal). cbn [negb]. rewrite Epg.
    destruct (Z.eqb_spec addr (p_brk s)); [done|]. destruct (Z.eqb_spec (p_brk s) (vma_end d * 4096)); [lia|].
    by destruct (Z.ltb_spec (vma_end d * 4096) addr); [|lia]. }
  unfold brk_move. rewrite shiftr_12, (u32_small (p_brk s - 1)), Epg by (unfold is_u32; lia). split.
  { intros Hle. rewrite (proj2 (Z.leb_le _ _) Hle), orb_true_r.
    rewrite bind_assoc, (bind_ok _ _ _ _ _ (lookup_same _ _ _ _ Hm Hn)), Hlk, ret_bind, !modify_bind. done. }
  assert (p_brk s < addr -> exists b,
    onvm (vmmap_is_range_empty (p_vmmap s) (p_brk s / 4096) (up addr - p_brk s / 4096)) s = Ok b s /\
    (b = true <-> range_free (p_brk s / 4096) (up addr) (vmm_list v)) /\ is_u32 (up addr - p_brk s / 4096) /\
    (up addr - p_brk s / 4096 =? 0) || (addr <=? p_brk s) = false) as Hem.
  { intros Hlt. destruct (heap_pages addr (p_brk s / 4096)) as (Hpos & Hr & Hu'); [lia..|].
    destruct (range_empty_user _ _ _ s v Hm Hl Hpos Hr) as (b & E & Hb). exists b.
    replace (p_brk s / 4096 + (up addr - p_brk s / 4096)) with (up addr) in Hb by lia. split_and!; [done..|].
    rewrite orb_false_iff, Z.eqb_neq, Z.leb_gt. lia. }
  split; intros Hlt Hf; destruct (Hem Hlt) as (b & E & Hb & Hu' & Ez); rewrite (u32_small (up addr - _)), Ez, bind_assoc, (bind_ok _ _ _ _ _ E) by done.
  - rewrite (proj2 Hb Hf), bind_assoc, (bind_ok _ _ _ _ _ (lookup_same _ _ _ _ Hm Hn)), Hlk, ret_bind, !modify_bind. done.
  - destruct b; [by destruct Hf; apply Hb|]. done.
Qed.

Lemma brk_moves_cases addr s v d a F R : heap_call addr s v d F R -> heap_area s v d a ->
  vma_end d * 4096 < addr <= USER_MEM_HIGH -> addr <> p_brk s ->
  (p_brk s < addr -> ~ range_free (p_brk s / 4096) (up addr) (vmm_list v) -> do_brk addr s = Ok (- ENOMEM, None) s) /\
  (addr < p_brk s \/ range_free (p_brk s / 4096) (up addr) (vmm_list v) ->
   exists l' vm', do_brk addr s = Ok (0, Some addr) (set_p_brk addr (set_vm vm' s)) /\ vm_ok F R vm' /\
    vm_mm vm' = vm_mm (u_vm s) /\ vm_maps vm' = <[p_vmmap s := Vmmap l' (vmm_proc v)]> (vm_maps (u_vm s)) /\
    forall pg, maps_to l' pg =
      if decide (vma_end d <= pg < up addr) then Some (vma_obj a, pg - vma_end d, vma_prot a, vma_flags a)
      else if decide (vma_end d * 4096 <= pg * 4096 < p_brk s) then None else maps_to (vmm_list v) pg).
Proof.
  intros Hc Hh Ha Hne. destruct (do_brk_move_eq addr s v d a F R Hc Hh Ha Hne) as (E1 & E2 & E3).
  split; [done|]. intros Hcase. destruct Hh as [Hal Hlk [Hb1 Hb2] Hoff].
  pose proof (Z.div_mod (p_brk s) 4096 ltac:(lia)) as Hdm. rewrite Hal in Hdm. pose proof (up_spec addr) as Hup.
  pose proof user_mem as (? & ? & ?). pose proof user_high_aligned. pose proof (Z.div_mod USER_MEM_HIGH 4096 ltac:(lia)).
  destruct (lookup_area_Some _ _ _ Hlk) as [Hain _].
  assert (range_free (vma_end a) (up addr) (vmm_list v)) as Hf.
  { destruct Hcase as [Hlt|Hf]; [|by rewrite Hb2]. intros b pg _ Hpg. lia. }
  destruct (set_vma_end_ok (p_vmmap s) a (up addr) (set_p_brk addr s) v F R (hc_ok _ _ _ _ _ _ Hc) (hc_map _ _ _ _ _ _ Hc) Hain Hoff)
    as (l' & vm' & E & Hok' & Emm & Em & Hmap); [|done|].
  { rewrite addr_to_pn_eq by (unfold is_u32; lia). lia. }
  exists l', vm'. split_and!; [|done|done|done|].
  - assert (do_brk addr s = (modify (set_p_brk addr);; set_vma_end (p_vmmap s) (vma_id a) (up addr);; mret (0, Some addr)) s) as ->.
    { destruct Hcase as [Hlt|Hf']; [apply E1; lia|]. destruct (Z.lt_ge_cases addr (p_brk s)); [apply E1; lia|apply E2; [lia|done]]. }
    by rewrite modify_bind, (bind_ok _ _ _ _ _ E).
  - intros pg. rewrite Hmap, Hb1, Hb2. repeat case_decide; done || lia.
Qed.

(** ** Where it goes wrong *)

(** brk cannot grow from a break that is not page-aligned: the page of the break
    itself is in use, and the result is ENOMEM. *)
Theorem do_brk_unaligned addr s v d F R : heap_call addr s v d F R ->
  vma_end d * 4096 < p_brk s -> p_brk s `mod` 4096 <> 0 ->
  maps_to (vmm_list v) (p_brk s / 4096) <> None ->
  (p_brk s / 4096 + 1) * 4096 < addr <= USER_MEM_HIGH ->
  do_brk addr s = Ok (- ENOMEM, None) s.
Proof.
  intros Hc Hb Hna Hmp Ha. destruct (heap_call_facts _ _ _ _ _ _ Hc) as (Hn & Hl & (Hd1 & Hd2 & Hd3 & _) & Hin & He & Hs & Hu).
  pose proof user_pages as (? & ? & ?). pose proof user_mem as (? & ? & ?). pose proof (hc_map _ _ _ _ _ _ Hc) as Hm.
  pose proof (hc_brk _ _ _ _ _ _ Hc) as Hbr. pose proof (Z.div_mod (p_brk s) 4096 ltac:(lia)) as Hdm.
  pose proof (Z.mod_pos_bound (p_brk s) 4096 ltac:(lia)) as Hmod. pose proof (up_spec addr) as Hup.
  destruct (heap_pages addr (p_brk s / 4096)) as (Hpos & [Hr1 Hr2] & Hu'); [lia..|].
  rewrite (do_brk_eq _ _ _ _ _ _ Hc). unfold brk_steps.
  replace (MAX (p_brk s) (vma_end d * 4096)) with (p_brk s) by (unfold MAX; destruct (Z.ltb_spec (vma_end d * 4096) (p_brk s)); lia).
  rewrite page_aligned_eq, (proj2 (Z.eqb_neq _ _) Hna) by (unfold is_u32; lia). cbn [negb].
  destruct (Z.eqb_spec addr (p_brk s)); [lia|]. destruct (Z.eqb_spec (p_brk s) (vma_end d * 4096)); [lia|].
  destruct (Z.ltb_spec (vma_end d * 4096) addr); [|lia].
  rewrite (u32_small (up addr - p_brk s / 4096)), (u32_small (up addr - p_brk s / 4096 - 1)) by (unfold is_u32 in *; lia).
  unfold brk_move. replace (_ || _) with false by (symmetry; apply orb_false_iff; rewrite Z.eqb_neq, Z.leb_gt; lia).
  destruct (range_empty_user (p_vmmap s) (p_brk s / 4096) (up addr - p_brk s / 4096 - 1) s v Hm Hl) as (b & E & Hf);
    [lia|unfold user_range; lia|].
  rewrite bind_assoc, (bind_ok _ _ _ _ _ E). destruct b; [|done]. exfalso. apply Hmp.
  apply (proj1 (range_free_maps_to _ _ _) (proj1 Hf eq_refl)). lia.
Qed.

(** brk beyond the end of user memory stops the kernel at an assertion of
    vmmap_is_range_empty. *)
Theorem do_brk_panics addr s v d F R : heap_call addr s v d F R ->
  p_brk s <= vma_end d * 4096 \/ p_brk s `mod` 4096 = 0 -> USER_MEM_HIGH < addr ->
  do_brk addr s = Halt KAssert s.
Proof.
  intros Hc Hb Ha. destruct (heap_call_facts _ _ _ _ _ _ Hc) as (Hn & Hl & (Hd1 & Hd2 & Hd3 & _) & Hin & He & Hs & Hu).
  pose proof user_pages as (? & ? & ?). pose proof user_mem as (? & ? & ?). pose proof (up_spec addr) as Hup.
  pose proof (hc_brk _ _ _ _ _ _ Hc) as Hbr. pose proof (hc_addr _ _ _ _ _ _ Hc) as Had.
  pose proof user_high_aligned. pose proof (Z.div_mod USER_MEM_HIGH 4096 ltac:(lia)).
  rewrite (do_brk_eq _ _ _ _ _ _ Hc). unfold brk_steps.
  set (str := MAX (p_brk s) (vma_end d * 4096)).
  assert (0 < str <= USER_MEM_HIGH /\ str `mod` 4096 = 0) as [Hst Hsa].
  { unfold str, MAX. destruct (Z.ltb_spec (vma_end d * 4096) (p_brk s)); (split; [lia|]); [|by rewrite Z.mod_mul].
    by destruct Hb; [lia|]. }
  pose proof (Z.div_mod str 4096 ltac:(lia)).
  rewrite (proj2 (aligned_spec str ltac:(unfold is_u32; lia)) Hsa). cbn [negb].
  destruct (Z.eqb_spec addr str); [lia|]. rewrite (u32_small (up addr - str / 4096)) by (unfold is_u32; lia).
  assert (onvm (vmmap_is_range_empty (p_vmmap s) (str / 4096) (up addr - str / 4096)) s = Halt KAssert s) as Ep.
  { apply onvm_halt_same. unfold vmmap_is_range_empty. apply kassert_fail.
    rewrite u32_small by (unfold is_u32; lia). rewrite andb_false_iff. right. apply Z.leb_gt.
    rewrite addr_to_pn_eq by (unfold is_u32; lia). lia. }
  destruct (Z.eqb_spec str (vma_end d * 4096)).
  - unfold brk_first. destruct (Z.ltb_spec addr (vma_end d * 4096)); [lia|]. by rewrite (bind_halt _ _ _ _ _ Ep).
  - destruct (Z.ltb_spec (vma_end d * 4096) addr); [|lia]. unfold brk_move.
    replace (_ || _) with false by (symmetry; apply orb_false_iff; rewrite Z.eqb_neq, Z.leb_gt; lia).
    by rewrite !bind_assoc, (bind_halt _ _ _ _ _ Ep).
Qed.
End Brk.
