(* ===== verification/FaultThms.v ===== *)
(** Page faults, over the memory objects of [Mm]: the faulting page is mapped to a
    frame that shows what the area's object shows, and only as the area allows. *)
From S2P Require Import Prelude.
From S2P Require Import Platform.
From S2P Require Import MmIface.
From S2P Require Import Mm.
From S2P Require Import MmInv.
From S2P Require Import MmPut.
From S2P Require Import MmSafe.
From S2P Require Import MmLookup.
From S2P Require Import MmCow.
From S2P Require Import Vmmap.
From S2P Require Import Areas.
From S2P Require Import VmmapFacts.
From S2P Require Import VmmapThms.
From S2P Require Import UserMem.
From S2P Require Import UserThms.
Open Scope Z_scope.

(** A page frame knows its page, and [pt_map] sets one page table entry ([pte]: the
    physical page and the flags) or fails with a result other than 0; it may take
    memory for a page table, but not what others have allocated. *)
Class PtLaws (LM : Type) `{P : Platform} `{!LowMem LM} `{!LowMemOk (LM:=LM)} `{!UserOps (mm LM)} := {
  pte : Z -> Z -> LM -> option (Z * Z);
  frame_addr_law pf (s : mm LM) : frame_addr pf s = pf_addr <$> pframes s !! pf;
  pt_map_law pd va pa pdf ptf (s : mm LM) : exists r lm,
    pt_map pd va pa pdf ptf s = Ok r (set_lowmem (fun _ => lm) s) /\ slabs lm = slabs (lowmem s) /\
    (r = 0 -> pte pd va lm = Some (pa, ptf)) /\
    (forall pd' va', r <> 0 \/ (pd', va') <> (pd, va) -> pte pd' va' lm = pte pd' va' (lowmem s))
}.

Section Fault.
Context {LM : Type} `{P : Platform} `{!PlatformOk P} {C : UserConst} `{!LowMem LM} {HHdr0 : MmobjHeader}.
Context {HLow : LowMemOk (LM:=LM)} {HHdr : MmobjHeaderOk} {HFile : FileOps (LM:=LM)} {HFileOk : FileOpsOk}.
Context {HUser : UserOps (mm LM)} {HPt : PtLaws LM}.
Implicit Types (s : user (mm LM)) (R : gmultiset Z) (F : list Z).

(** The memory below a process. *)
Notation low s := (vm_mm (u_vm s)).

Definition may_access (prot : Z) (forwrite : bool) : bool :=
  c_true (Z.land prot PROT_READ) && (negb forwrite || c_true (Z.land prot PROT_WRITE)).
Definition fault_flags (forwrite : bool) : Z :=
  if forwrite then Z.lor (Z.lor PT_PRESENT PT_USER) PT_WRITE else Z.lor PT_PRESENT PT_USER.

(** The fault is served: the page table entry of the page is for a frame with the
    bytes page [n] of [o] showed, which is [o]'s own page if it is to be written;
    nothing else has changed for anybody. *)
Record served F R s (vaddr o n : Z) (forwrite : bool) s' : Prop := {
  sv_ok : vm_ok F R (u_vm s');
  sv_maps : vm_maps (u_vm s') = vm_maps (u_vm s);
  sv_rest : s' = set_vm (u_vm s') s;
  sv_views : forall o' n' b, view (low s) o' n' b -> view (low s') o' n' b;
  sv_page : exists pf f r, pframes (low s') !! pf = Some f /\ view (low s) o n (page_bytes pf (low s')) /\
    (forwrite = true -> pf_obj f = o /\ pf_pagenum f = n) /\
    (r = 0 -> pte (p_pagedir s) (PAGE_ALIGN_DOWN vaddr) (lowmem (low s')) =
      Some (pt_virt_to_phys (pf_addr f), fault_flags forwrite)) /\
    exists mm1, pt_map (p_pagedir s) (PAGE_ALIGN_DOWN vaddr) (pt_virt_to_phys (pf_addr f))
      (if forwrite then Z.lor (Z.lor PD_PRESENT PD_USER) PD_WRITE else Z.lor PD_PRESENT PD_USER)
      (fault_flags forwrite) mm1 = Ok r (low s')
}.

Lemma view_lowmem lm (s : mm LM) o n b : view s o n b -> view (set_lowmem (fun _ => lm) s) o n b.
Proof.
  induction 1 as [k o n Hh|o n x b Ha Hx Hk _ IH|o n x Ha Hx Hk].
  - by apply (view_here (set_lowmem (fun _ => lm) s) k).
  - by apply (view_below (set_lowmem (fun _ => lm) s) o n x).
  - by apply (view_zero (set_lowmem (fun _ => lm) s) o n x).
Qed.

Lemma lookup_maps l v a : lookup_area v l = Some a ->
  maps_to l v = Some (vma_obj a, v - vma_start a + vma_off a, vma_prot a, vma_flags a).
Proof. unfold maps_to. by intros ->. Qed.

Lemma fault_lookup vaddr fw s v F R a b :
  vm_ok F R (u_vm s) -> vm_maps (u_vm s) !! p_vmmap s = Some v ->
  anon_chain (low s) (vma_obj a) b ->
  let n := vaddr / 4096 - vma_start a + vma_off a in
  (exists pf s', onmm (MmIface.pframe_lookup (vm_maps (u_vm s)) (vma_obj a) n fw) s = Ok (0, pf) s' /\
    vm_ok F R (u_vm s') /\ vm_maps (u_vm s') = vm_maps (u_vm s) /\ s' = set_vm (u_vm s') s /\
    looked_up (F ++ live (vm_maps (u_vm s))) (area_ids (vm_maps (u_vm s))) (all_objs (vm_maps (u_vm s)) ⊎ R)
      (low s) (vma_obj a) n fw pf (low s')) \/
  (exists s', onmm (MmIface.pframe_lookup (vm_maps (u_vm s)) (vma_obj a) n fw) s = Halt NullDeref s' /\ no_frame (low s')).
Proof.
  intros [[Hmo Hs] Ha] Hm Hc n.
  destruct (lookup_ok (vm_maps (u_vm s)) _ _ _ _ (vma_obj a) n fw b Hs Hc) as [(pf & mm' & E & Hl)|(mm' & E & Hnf)].
  - left. exists pf. eexists. split_and!; [by apply (onmm_ok (MmIface.pframe_lookup _ _ _ _))| |done|done|exact Hl].
    split; [|done]. split; [done|]. by destruct Hl.
  - right. eexists. split; [by apply (onmm_halt (MmIface.pframe_lookup _ _ _ _))|done].
Qed.

Lemma pagefault_cases vaddr cause s v F R :
  vm_ok F R (u_vm s) -> vm_maps (u_vm s) !! p_vmmap s = Some v -> is_u32 vaddr ->
  let forwrite := c_true (Z.land cause FAULT_WRITE) in
  match maps_to (vmm_list v) (vaddr / 4096) with
  | None => handle_pagefault vaddr cause s = Halt (Exits EFAULT) s
  | Some (o, n, prot, _) =>
      if may_access prot forwrite then forall b, anon_chain (low s) o b ->
        (exists s', handle_pagefault vaddr cause s = Ok tt s' /\ served F R s vaddr o n forwrite s') \/
        (exists s', handle_pagefault vaddr cause s = Halt NullDeref s' /\ no_frame (low s'))
      else handle_pagefault vaddr cause s = Halt (Exits EFAULT) s
  end.
Proof.
  intros Hok Hm Hv fw. destruct (vo_areas _ _ _ Hok _ _ Hm) as [Hn Hl].
  unfold handle_pagefault. rewrite get_bind, addr_to_pn_eq by done.
  rewrite (bind_ok _ _ _ _ _ (lookup_same _ _ _ _ Hm Hn)).
  destruct (lookup_area (vaddr / 4096) (vmm_list v)) as [a|] eqn:Ea; [|unfold maps_to; by rewrite Ea].
  rewrite (lookup_maps _ _ _ Ea). destruct (lookup_area_Some _ _ _ Ea) as [Hin [Hc1 Hc2]].
  pose proof (ao_each _ Hl) as Heach. rewrite Forall_forall in Heach. destruct (Heach a Hin) as (Hu1 & Hu2 & Hu3 & Ho1 & Ho2).
  pose proof user_pages as (? & ? & ?).
  replace (negb _ || _) with (negb (may_access (vma_prot a) fw)); first last.
  { unfold may_access, fw. by destruct (c_true (Z.land (vma_prot a) PROT_READ)), (c_true (Z.land cause FAULT_WRITE)), (c_true (Z.land (vma_prot a) PROT_WRITE)). }
  destruct (may_access _ _); [|done]. intros b Hb. cbn [negb]. cbv zeta.
  rewrite (u32_small (vaddr / 4096 - _)), (u32_small (vaddr / 4096 - _ + _)) by (unfold is_u32; lia).
  fold fw. destruct (fault_lookup vaddr fw s v F R a b Hok Hm Hb) as [(pf & s1 & E1 & Hok1 & Em1 & Er1 & Hsafe & Hext & Hview & (k & f & Hf & Hfk & Hfn) & Hwr & Hviews)|(s1 & E1 & Hnf)]; cbn zeta in *.
  2: { right. exists s1. by rewrite (bind_halt _ _ _ _ _ E1). }
  left. rewrite (bind_ok _ _ _ _ _ E1). cbn [fst snd]. change (0 <? 0) with false. cbn match.
  rewrite kassert_bind by (apply c_true_spec; by eapply frame_nonnull). rewrite get_bind.
  rewrite (deref_bind _ (pf_addr f)) by (by rewrite frame_addr_law, Hf).
  rewrite kassert_bind by (apply c_true_spec; by eapply addr_nonnull).
  destruct (pt_map_law (p_pagedir s1) (PAGE_ALIGN_DOWN vaddr) (pt_virt_to_phys (pf_addr f))
    (if fw then Z.lor (Z.lor PD_PRESENT PD_USER) PD_WRITE else Z.lor PD_PRESENT PD_USER) (fault_flags fw) (low s1))
    as (r & lm & Ept & Hslab & Hpte & _).
  assert (p_pagedir s1 = p_pagedir s) as Epd by by rewrite Er1. rewrite Epd in *.
  rewrite (bind_ok _ _ _ _ _ (onmm_ok _ _ _ _ Ept)). eexists. split; [reflexivity|]. split.
  - destruct Hok1 as [[Hmo1 Hs1] Ha1]. split; [split; [done|]|done]. by apply inv_lowmem.
  - exact Em1.
  - by rewrite Er1.
  - intros o' n' b' Hv'. apply view_lowmem. by apply Hviews.
  - exists pf, f, r. split_and!; [done|done| |done|by exists (low s1)].
    intros Hfw. destruct (Hwr Hfw) as (f' & Hf' & ? & ?). by simplify_eq.
Qed.
End Fault.
