(* ===== verification/ReadWrite.v ===== *)
(** Reading and writing the memory of a process from the kernel:
    [vmmap_read] and [vmmap_write] page by page, over the memory objects of [Mm]. *)
From S2P Require Import Prelude.
From S2P Require Import Platform.
From S2P Require Import MmIface.
From S2P Require Import Mm.
From S2P Require Import MmInv.
From S2P Require Import MmPut.
From S2P Require Import MmSafe.
From S2P Require Import MmLookup.
From S2P Require Import MmCow.
From S2P Require Import Vmmap.
From S2P Require Import Areas.
From S2P Require Import VmmapFacts.
From S2P Require Import VmmapThms.
Open Scope Z_scope.

Section ReadWrite.
Context {LM : Type} `{P : Platform} `{!PlatformOk P} `{!LowMem LM} {HHdr0 : MmobjHeader}.
Context {HLow : LowMemOk (LM:=LM)} {HHdr : MmobjHeaderOk} {HFile : FileOps (LM:=LM)} {HFileOk : FileOpsOk}.
Implicit Types (s : vm (MM := mm LM)) (R : gmultiset Z) (F : list Z) (l : list vmarea).

(** ** What a process sees *)

(** The byte at address [a] of area [ar]. *)
Definition shows (mem : mm LM) (ar : vmarea) (a c : Z) : Prop :=
  exists pg, view mem (vma_obj ar) (a / 4096 - vma_start ar + vma_off ar) pg /\ pg !! Z.to_nat (a `mod` 4096) = Some c.

(** Area [ar] is backed by memory: its objects end in an anonymous one, and pages are
    whole. *)
Record backed (mem : mm LM) (ar : vmarea) : Prop := {
  bk_chain : exists b, anon_chain mem (vma_obj ar) b;
  bk_full n pg : view mem (vma_obj ar) n pg -> length pg = 4096%nat
}.

Notation vm_safe F R s :=
  (safe (F ++ live (vm_maps s)) (area_ids (vm_maps s)) (all_objs (vm_maps s) ⊎ R) (vm_mm s)).

Lemma space_safe F R s : vm_ok F R s -> vm_safe F R s.
Proof. by intros [[_ ?] _]. Qed.
Lemma space_mm F R s mem :
  vm_ok F R s -> safe (F ++ live (vm_maps s)) (area_ids (vm_maps s)) (all_objs (vm_maps s) ⊎ R) mem ->
  vm_ok F R (Vm (vm_maps s) mem).
Proof. by intros [[? _] ?] ?. Qed.

(** A lookup keeps what is backed and what is seen. *)
Lemma looked_up_backed L I R mem o n fw pf mem' ar :
  safe L I R mem -> looked_up L I R mem o n fw pf mem' -> backed mem ar -> backed mem' ar.
Proof.
  intros Hs (Hs' & He & _ & _ & _ & Hv) [[b Hb] Hf]. split; [exists b; by eapply extends_chain|].
  intros n' pg Hpg. destruct (view_total _ _ _ _ _ _ _ _ _ n' Hs Hb) as [pg0 H0].
  rewrite (view_det _ _ _ _ _ (mi_page _ _ _ _ _ _ _ Hs') Hpg (Hv _ _ _ H0)). by eapply Hf.
Qed.
Lemma looked_up_shows L I R mem o n fw pf mem' ar a c :
  looked_up L I R mem o n fw pf mem' -> shows mem ar a c -> shows mem' ar a c.
Proof. intros (_ & _ & _ & _ & _ & Hv) (pg & Hpg & Hc). exists pg. auto. Qed.

(** ** Reading *)

(** Every address of the range is in an area that is backed and starts at the
    beginning of its object. *)
Definition readable (mem : mm LM) l (lo hi : Z) : Prop := forall a, lo <= a < hi ->
  exists ar, lookup_area (a / 4096) l = Some ar /\ vma_off ar = 0 /\ backed mem ar.

Lemma vmmap_lookup_eq m vfn s v : vm_maps s !! m = Some v -> m <> NULL ->
  vmmap_lookup m vfn s = Ok (lookup_area vfn (vmm_list v)) s.
Proof.
  intros Hm Hn. unfold vmmap_lookup. rewrite kassert_bind by (by apply c_true_spec).
  unfold vmmap_of. rewrite bind_assoc, get_bind, (deref_bind _ v) by done. done.
Qed.

(** The size of a step: to the end of the page or of the range. *)
Lemma step_size a n : 0 < n -> let sz := Z.min n (4096 - a `mod` 4096) in
  0 < sz <= n /\ a `mod` 4096 + sz <= 4096 /\ (sz < n -> a `mod` 4096 + sz = 4096).
Proof. intros Hn sz. pose proof (Z.mod_pos_bound a 4096 ltac:(lia)). lia. Qed.

(** Addresses of one page. *)
Lemma same_page a k : 0 <= k -> a `mod` 4096 + k < 4096 ->
  (a + k) / 4096 = a / 4096 /\ (a + k) `mod` 4096 = a `mod` 4096 + k.
Proof.
  intros Hk Hm. pose proof (Z.div_mod a 4096 ltac:(lia)). pose proof (Z.mod_pos_bound a 4096 ltac:(lia)).
  pose proof (Z.div_unique (a + k) 4096 (a / 4096) (a `mod` 4096 + k)).
  pose proof (Z.mod_unique (a + k) 4096 (a / 4096) (a `mod` 4096 + k)). lia.
Qed.

Lemma area_page l v ar : areas_ok l -> lookup_area v l = Some ar ->
  0 <= v - vma_start ar /\ v - vma_start ar + vma_off ar < 4294967296 /\ 0 <= vma_off ar /\ 0 <= vma_start ar < 1048576 /\ ar ∈ l.
Proof.
  intros Hl [Hin [H1 H2]]%lookup_area_Some. pose proof (ao_each _ Hl) as He. rewrite Forall_forall in He.
  destruct (He ar Hin) as (? & ? & ? & ? & ?). pose proof user_pages as (? & ? & ?). split_and!; lia || done.
Qed.

(** The step of [vmmap_read] on one page. *)
Lemma read_page F R s v m a ar : vm_ok F R s -> vm_maps s !! m = Some v -> is_u32 a ->
  lookup_area (a / 4096) (vmm_list v) = Some ar -> vma_off ar = 0 -> backed (vm_mm s) ar ->
  let n := a / 4096 - vma_start ar in
  (exists pf mem, lift (MmIface.pframe_lookup (vm_maps s) (vma_obj ar) n false) s = Ok (0, pf) (Vm (vm_maps s) mem) /\
    pf <> NULL /\ length (page_bytes pf mem) = 4096%nat /\ vm_ok F R (Vm (vm_maps s) mem) /\
    (forall ar, backed (vm_mm s) ar -> backed mem ar) /\
    (forall ar a c, shows (vm_mm s) ar a c -> shows mem ar a c) /\
    (forall a' c, a' / 4096 = a / 4096 -> shows (vm_mm s) ar a' c -> page_bytes pf mem !! Z.to_nat (a' `mod` 4096) = Some c)) \/
  (exists mem, lift (MmIface.pframe_lookup (vm_maps s) (vma_obj ar) n false) s = Halt NullDeref (Vm (vm_maps s) mem) /\ no_frame mem).
Proof.
  intros Hok Hm Ha Har Hoff Hb n. pose proof (space_safe _ _ _ Hok) as Hs. destruct (bk_chain _ _ Hb) as [b Hc].
  destruct s as [maps mem0]. cbn [vm_maps vm_mm] in *.
  destruct (lookup_ok maps _ _ _ _ (vma_obj ar) n false b Hs Hc) as [(pf & mem & E & Hl)|(mem & E & Hnf)].
  - left. exists pf, mem. pose proof Hl as (Hs' & _ & Hv & (k & f & Hf & _) & _).
    split_and!; [by apply (lift_ok (MmIface.pframe_lookup _ _ _ _))|by eapply frame_nonnull|by eapply bk_full
      |by apply (space_mm _ _ _ _ Hok)|intros ar' Hb'; exact (looked_up_backed _ _ _ _ _ _ _ _ _ _ Hs Hl Hb')
      |intros ar' a' c; exact (looked_up_shows _ _ _ _ _ _ _ _ _ ar' a' c Hl)|].
    intros a' c Ea (pg & Hpg & Hcc). rewrite Ea, Hoff, Z.add_0_r in Hpg.
    by rewrite (view_det _ _ _ _ _ (mi_page _ _ _ _ _ _ _ Hs) Hv Hpg).
  - right. exists mem. split; [by apply (lift_halt (MmIface.pframe_lookup _ _ _ _))|done].
Qed.

Definition read_result F R s v (a n : Z) (bytes : list Z) s' : Prop :=
  vm_ok F R s' /\ vm_maps s' = vm_maps s /\ length bytes = Z.to_nat n /\
  (forall ar a' c, shows (vm_mm s) ar a' c -> shows (vm_mm s') ar a' c) /\
  (forall ar a' c, a <= a' < a + n -> lookup_area (a' / 4096) (vmm_list v) = Some ar -> shows (vm_mm s) ar a' c ->
    bytes !! Z.to_nat (a' - a) = Some c).

Lemma read_loop_ok fuel F R s v m a done_ count :
  vm_ok F R s -> vm_maps s !! m = Some v -> m <> NULL -> 0 <= a -> a + (count - done_) < 4294967296 ->
  0 <= done_ -> done_ <= count < 4294967296 -> count - done_ <= Z.of_nat fuel ->
  readable (vm_mm s) (vmm_list v) a (a + (count - done_)) ->
  (exists bytes s', vmmap_read_loop fuel m a done_ count s = Ok bytes s' /\ read_result F R s v a (count - done_) bytes s') \/
  (exists s', vmmap_read_loop fuel m a done_ count s = Halt NullDeref s' /\ no_frame (vm_mm s')).
Proof.
  revert s a done_. induction fuel as [|fuel IH]; intros s a done_ Hok Hm Hn Ha Hb Hd Hdc Hfuel Hr; cbn [vmmap_read_loop].
  { left. assert (done_ = count) as -> by lia. rewrite Z.leb_refl. exists [], s. split; [done|]. split_and!; [done..| |done|].
    { by rewrite Z.sub_diag. } intros; lia. }
  destruct (Z.leb_spec count done_) as [Hle|Hlt].
  { left. exists [], s. split; [done|]. assert (done_ = count) as -> by lia. rewrite Z.sub_diag. split_and!; [done..|]. intros; lia. }
  destruct (Hr a ltac:(lia)) as (ar & Har & Hoff & Hbk). assert (is_u32 a) as Hu by (unfold is_u32; lia).
  destruct (area_page _ _ _ (proj2 (vo_areas _ _ _ Hok _ _ Hm)) Har) as (Hp1 & Hp2 & Hp3 & Hp4 & _).
  rewrite addr_to_pn_eq by done. rewrite (bind_ok _ _ _ _ _ (vmmap_lookup_eq m _ s v Hm Hn)), Har, (deref_bind _ ar) by done.
  rewrite Hoff, Z.add_0_r, get_bind. rewrite Hoff in Hp2.
  rewrite (u32_small (vma_start ar)), (u32_small (a / 4096 - vma_start ar)), page_offset_eq, page_size_eq by (done || unfold is_u32; lia).
  pose proof (Z.mod_pos_bound a 4096 ltac:(lia)) as Hmod. rewrite (u32_small (count - done_)), (u32_small (4096 - a `mod` 4096)) by (unfold is_u32; lia).
  replace (min_uint32 _ _) with (Z.min (count - done_) (4096 - a `mod` 4096)).
  2: { unfold min_uint32. destruct (Z.ltb_spec (count - done_) (4096 - a `mod` 4096)); lia. }
  destruct (step_size a (count - done_) ltac:(lia)) as (Hsz & Hpg & Hnext). set (sz := Z.min _ _) in *.
  destruct (read_page F R s v m a ar Hok Hm Hu Har Hoff Hbk) as [(pf & mem & E & Hnn & Hlen & Hok1 & Hbk1 & Hsh1 & Hbytes)|(mem & E & Hnf)].
  2: { right. eexists. rewrite (bind_halt _ _ _ _ _ E). by split. }
  rewrite (bind_ok _ _ _ _ _ E). cbn [snd]. rewrite (proj2 (Z.eqb_neq _ _) Hnn), ret_bind, gets_bind. cbn [vm_mm].
  change (pf_bytes pf mem) with (page_bytes pf mem). rewrite !u32_small by (unfold is_u32; lia).
  destruct (IH (Vm (vm_maps s) mem) (a + sz) (done_ + sz)) as [(bytes & s' & E' & Hok' & Em' & Hl' & Hsh' & Hb')|(s' & E' & Hnf)]; try done; try lia.
  { intros a' Ha'. destruct (Hr a' ltac:(lia)) as (ar' & ? & ? & ?). exists ar'. split_and!; [done..|]. by apply Hbk1. }
  - left. eexists _, s'. rewrite (bind_ok _ _ _ _ _ E'). split; [reflexivity|].
    assert (length (take (Z.to_nat sz) (drop (Z.to_nat (a `mod` 4096)) (page_bytes pf mem))) = Z.to_nat sz) as Hlc.
    { rewrite length_take, length_drop, Hlen. lia. }
    split_and!; [done|done|rewrite length_app, Hlc, Hl'; lia|by auto|].
    intros ar' a' c Ha' Har' Hc. destruct (Z.lt_ge_cases a' (a + sz)) as [Hin|Hout].
    + destruct (same_page a (a' - a) ltac:(lia) ltac:(lia)) as [Eq Em]. replace (a + (a' - a)) with a' in * by lia.
      rewrite Eq, Har in Har'. simplify_eq. specialize (Hbytes a' c Eq Hc).
      rewrite lookup_app_l by (rewrite Hlc; lia). rewrite lookup_take_lt, lookup_drop by lia. rewrite <- Hbytes. f_equal. lia.
    + rewrite lookup_app_r by (rewrite Hlc; lia). rewrite Hlc. rewrite <- (Hb' ar' a' c) by (auto || lia). f_equal. lia.
  - right. exists s'. by rewrite (bind_halt _ _ _ _ _ E').
Qed.

(** vmmap_read returns the bytes the areas show at each address of the range, and
    changes none. *)
Theorem vmmap_read_reads m vaddr count s v F R :
  vm_ok F R s -> vm_maps s !! m = Some v -> 0 <= vaddr -> 0 <= count -> vaddr + count < 4294967296 ->
  readable (vm_mm s) (vmm_list v) vaddr (vaddr + count) ->
  (exists bytes s', vmmap_read m vaddr count s = Ok (0, bytes) s' /\ read_result F R s v vaddr count bytes s') \/
  (exists s', vmmap_read m vaddr count s = Halt NullDeref s' /\ no_frame (vm_mm s')).
Proof.
  intros Hok Hm H1 H2 H3 Hr. destruct (vo_areas _ _ _ Hok _ _ Hm) as [Hn _]. unfold vmmap_read.
  replace (vaddr + count) with (vaddr + (count - 0)) in Hr by lia.
  destruct (read_loop_ok (Z.to_nat count) F R s v m vaddr 0 count Hok Hm Hn) as [(bytes & s' & E & H)|(s' & E & H)]; try lia; try done.
  - left. exists bytes, s'. rewrite (bind_ok _ _ _ _ _ E). rewrite Z.sub_0_r in H. done.
  - right. exists s'. by rewrite (bind_halt _ _ _ _ _ E).
Qed.

(** ** Writing *)

(** Views depend on the objects and the pages only. *)
Lemma view_same (mem mem' : mm LM) o n b :
  mmobjs mem' = mmobjs mem -> (forall k o n, holds mem' k o n <-> holds mem k o n) ->
  (forall k, page_bytes k mem' = page_bytes k mem) -> view mem o n b -> view mem' o n b.
Proof.
  intros Eo Hh Hb. induction 1 as [k o n Hk|o n x b Ha Hx Hk _ IH|o n x Ha Hx Hk].
  - rewrite <- Hb. apply view_here. by apply Hh.
  - apply (view_below mem' o n x); [|by rewrite Eo|done|done]. intros k Hk'. by apply (Ha k), Hh.
  - apply (view_zero mem' o n x); [|by rewrite Eo|done]. intros k Hk'. by apply (Ha k), Hh.
Qed.

(** The end of [pframe_dirty]: the frame is no longer busy, and who waits for it wakes up. *)
Lemma dirty_tail (mem : mm LM) pf h r :
  (upd_frame pf (set_busy false);; broadcast_on pf;; mret (r : Z)) (set_pframes (insert pf h) mem) =
  Ok r (add_woken (reverse (pf_waitq h)) (set_pframes (insert pf (set_waitq [] (set_busy false h))) mem)).
Proof.
  rewrite (upd_frame_bind pf h) by apply (lookup_insert_eq (pframes mem)). unfold broadcast_on.
  rewrite bind_assoc, (frame_bind pf (set_busy false h)) by apply (lookup_insert_eq (<[pf:=h]> (pframes mem))).
  rewrite bind_assoc, modify_bind.
  rewrite (upd_frame_bind pf (set_busy false h)) by apply (lookup_insert_eq (<[pf:=h]> (pframes mem))).
  unfold mret, M_ret. f_equal. apply mm_ext; try reflexivity. cbn. by rewrite !insert_insert_eq.
Qed.
Lemma set_twice (mem : mm LM) pf g h : set_pframes (insert pf h) (set_pframes (insert pf g) mem) = set_pframes (insert pf h) mem.
Proof. apply mm_ext; try reflexivity. cbn. by rewrite insert_insert_eq. Qed.

(** [pframe_dirty] changes no page. *)
Lemma dirty_ok L I R (mem : mm LM) pf f x :
  safe L I R mem -> pframes mem !! pf = Some f -> mmobjs mem !! pf_obj f = Some x -> mmo_ops x <> file_mmobj_ops ->
  exists r mem', MmIface.pframe_dirty pf mem = Ok r mem' /\ safe L I R mem' /\ mmobjs mem' = mmobjs mem /\
    (forall k o n, holds mem' k o n <-> holds mem k o n) /\ (forall k, page_bytes k mem' = page_bytes k mem).
Proof.
  intros Hs Hf Hx Hk. assert (pf_busy f = false) as Eb.
  { destruct (pf_busy f) eqn:E; [|done]. by apply (mi_busy _ _ _ _ _ _ _ Hs pf f) in E. }
  assert (forall g w, same_frame f g -> pf_busy g = false ->
    let mem' := add_woken w (set_pframes (insert pf g) mem) in
    safe L I R mem' /\ mmobjs mem' = mmobjs mem /\
    (forall k o n, holds mem' k o n <-> holds mem k o n) /\ (forall k, page_bytes k mem' = page_bytes k mem)) as Hg.
  { intros g w Hsf Hgb mem'. destruct Hsf as (E1 & E2 & E3 & E4). split_and!; [|done| |].
    - assert (safe L I R (set_pframes (insert pf g) mem)) as [[A1 A2 A3 A4 A5 A6] H2 H3 H4 H5 [C1 C2] [D1 D2 D3]].
      { apply (mm_inv_frame ∅ ∅ ∅ ∅ L I R mem pf f); [done|done|by split_and!|done|congruence]. }
      by split; [split| | | | |split|split].
    - intros k o n. unfold holds. cbn. destruct (decide (k = pf)) as [->|]; [|by rewrite lookup_insert_ne].
      rewrite lookup_insert_eq. split; intros (h & ? & ? & ?); simplify_eq; [exists f|exists g]; split_and!; congruence.
    - intros k. unfold page_bytes. cbn. destruct (decide (k = pf)) as [->|]; [|by rewrite lookup_insert_ne].
      by rewrite lookup_insert_eq, Hf, E1. }
  change (MmIface.pframe_dirty pf mem) with (pframe_dirty pf mem). unfold pframe_dirty.
  rewrite (frame_bind _ _ _ _ Hf), kassert_bind, (upd_frame_bind _ _ _ _ _ Hf) by (by rewrite Eb).
  rewrite (obj_bind _ x) by done.
  destruct (mmo_ops x); [| |done]; unfold anon_dirtypage, shadow_dirtypage.
  - rewrite ret_bind. cbn [when Z.eqb]. rewrite ret_bind, dirty_tail. eexists _, _. split; [reflexivity|]. by apply Hg.
  - rewrite bind_assoc, (upd_frame_bind pf _ _ _ _ (lookup_insert_eq (pframes mem) _ _)), ret_bind, set_twice. cbn [when Z.eqb].
    rewrite (upd_frame_bind pf _ _ _ _ (lookup_insert_eq (pframes mem) _ _)), set_twice, dirty_tail.
    eexists _, _. split; [reflexivity|]. by apply Hg.
Qed.

Lemma splice_length k (new old : list Z) : (k + length new <= length old)%nat -> length (splice k new old) = length old.
Proof. intros H. unfold splice. rewrite !length_app, length_take, length_drop. lia. Qed.
Lemma splice_in k (new old : list Z) i c : (k <= length old)%nat -> new !! i = Some c -> splice k new old !! (k + i)%nat = Some c.
Proof.
  intros Hk Hi. unfold splice. pose proof (lookup_lt_Some _ _ _ Hi). rewrite lookup_app_r by (rewrite length_take; lia).
  rewrite lookup_app_l by (rewrite length_take; lia). rewrite length_take. by replace (k + i - k `min` length old)%nat with i by lia.
Qed.
Lemma splice_out k (new old : list Z) i : (k + length new <= length old)%nat -> ~ (k <= i < k + length new)%nat ->
  splice k new old !! i = old !! i.
Proof.
  intros Hk Hi. unfold splice. destruct (Nat.lt_ge_cases i k).
  - rewrite lookup_app_l by (rewrite length_take; lia). by apply lookup_take_lt.
  - rewrite lookup_app_r by (rewrite length_take; lia). rewrite lookup_app_r by (rewrite length_take; lia).
    rewrite lookup_drop, length_take. f_equal. lia.
Qed.

Lemma chain_same (mem mem' : mm LM) o b : mmobjs mem' = mmobjs mem -> anon_chain mem o b -> anon_chain mem' o b.
Proof.
  intros E. induction 1 as [o x Hx Hk|o x b Hx Hk _ IH].
  - apply (chain_anon mem' o x); [by rewrite E|done].
  - apply (chain_shadow mem' o x); [by rewrite E|done|done].
Qed.
Lemma chain_notfile (mem : mm LM) o b : anon_chain mem o b -> exists x, mmobjs mem !! o = Some x /\ mmo_ops x <> file_mmobj_ops.
Proof. intros [? x Hx Hk|? x ? Hx Hk _]; exists x; split; [done|congruence|done|congruence]. Qed.
Lemma set_page_bytes_inv pf bytes (mem mem' : mm LM) :
  set_page_bytes pf bytes mem = Ok tt mem' -> mmobjs mem' = mmobjs mem /\ pframes mem' = pframes mem.
Proof.
  unfold set_page_bytes. intros (f & m1 & E & E')%bind_Ok_inv. unfold frame in E.
  apply bind_Ok_inv in E as (s1 & m2 & E1 & E2). cbv in E1. simplify_eq. apply deref_Ok_inv in E2 as [_ ->].
  cbv in E'. by simplify_eq.
Qed.

(** What a page written at [a] shows. *)
Definition wrote (mem : mm LM) (ar : vmarea) (a : Z) (chunk : list Z) (mem' : mm LM) : Prop :=
  backed mem' ar /\ (forall k c, chunk !! k = Some c -> shows mem' ar (a + Z.of_nat k) c) /\
  (forall a' c, 0 <= a' -> ~ (a <= a' < a + Z.of_nat (length chunk)) -> shows mem ar a' c -> shows mem' ar a' c).

Lemma page_written L I R mem ar a chunk pf mem1 mem2 mem3 :
  let n := a / 4096 - vma_start ar + vma_off ar in
  let new := splice (Z.to_nat (a `mod` 4096)) chunk (page_bytes pf mem1) in
  0 <= a -> a `mod` 4096 + Z.of_nat (length chunk) <= 4096 -> backed mem ar ->
  safe L I R mem -> looked_up L I R mem (vma_obj ar) n true pf mem1 ->
  safe L I R mem2 -> mmobjs mem2 = mmobjs mem1 -> view mem2 (vma_obj ar) n new ->
  (forall n' b, n' <> n -> view mem1 (vma_obj ar) n' b -> view mem2 (vma_obj ar) n' b) ->
  mmobjs mem3 = mmobjs mem2 -> safe L I R mem3 ->
  (forall o n b, view mem2 o n b -> view mem3 o n b) ->
  wrote mem ar a chunk mem3.
Proof.
  intros n new Ha Hc [[b Hb] Hfull] Hs (Hs1 & He & Hv & _ & _ & Hvs) Hs2 Eo2 Hnew Hother Eo3 Hs3 Hv3.
  pose proof (Z.mod_pos_bound a 4096 ltac:(lia)) as Hmod. pose proof (Hfull _ _ Hv) as Hlen.
  assert (length new = 4096%nat) as Hnl by (unfold new; rewrite splice_length; lia).
  split_and!.
  - split; [exists b; apply (chain_same mem2); [done|]; apply (chain_same mem1); [done|]; by eapply extends_chain|].
    intros n' pg Hpg. destruct (Z.eq_dec n' n) as [->|Hne].
    + by rewrite (view_det _ _ _ _ _ (mi_page _ _ _ _ _ _ _ Hs3) Hpg (Hv3 _ _ _ Hnew)).
    + destruct (view_total _ _ _ _ _ _ _ _ _ n' Hs Hb) as [pg0 H0].
      rewrite (view_det _ _ _ _ _ (mi_page _ _ _ _ _ _ _ Hs3) Hpg (Hv3 _ _ _ (Hother _ _ Hne (Hvs _ _ _ H0)))). by eapply Hfull.
  - intros k c Hk. pose proof (lookup_lt_Some _ _ _ Hk). destruct (same_page a (Z.of_nat k) ltac:(lia) ltac:(lia)) as [E1 E2].
    exists new. unfold shows. rewrite E1, E2. split; [by apply Hv3|]. unfold new.
    replace (Z.to_nat (a `mod` 4096 + Z.of_nat k)) with (Z.to_nat (a `mod` 4096) + k)%nat by lia. apply splice_in; [lia|done].
  - intros a' c Ha' Hout (pg & Hpg & Hc'). pose proof (Z.mod_pos_bound a' 4096 ltac:(lia)).
    destruct (Z.eq_dec (a' / 4096) (a / 4096)) as [E|E].
    + rewrite E in Hpg. exists new. rewrite E. split; [by apply Hv3|]. unfold new.
      pose proof (Z.div_mod a 4096 ltac:(lia)). pose proof (Z.div_mod a' 4096 ltac:(lia)). rewrite splice_out by lia.
      by rewrite (view_det _ _ _ _ _ (mi_page _ _ _ _ _ _ _ Hs) Hv Hpg).
    + exists pg. split; [|done]. apply Hv3, Hother; [unfold n; lia|]. by apply Hvs.
Qed.

(** The step of [vmmap_write] on one page. *)
Lemma write_page F R s a ar chunk : vm_ok F R s -> 0 <= a -> a `mod` 4096 + Z.of_nat (length chunk) <= 4096 ->
  backed (vm_mm s) ar ->
  let n := a / 4096 - vma_start ar + vma_off ar in
  (exists pf s1 s2 r s3, lift (MmIface.pframe_lookup (vm_maps s) (vma_obj ar) n true) s = Ok (0, pf) s1 /\ pf <> NULL /\
    lift (pf_write pf (splice (Z.to_nat (a `mod` 4096)) chunk (pf_bytes pf (vm_mm s1)))) s1 = Ok tt s2 /\
    lift (MmIface.pframe_dirty pf) s2 = Ok r s3 /\ vm_ok F R s3 /\ vm_maps s3 = vm_maps s /\
    wrote (vm_mm s) ar a chunk (vm_mm s3)) \/
  (exists s', lift (MmIface.pframe_lookup (vm_maps s) (vma_obj ar) n true) s = Halt NullDeref s' /\ no_frame (vm_mm s')).
Proof.
  intros Hok Ha Hc Hb n. pose proof (space_safe _ _ _ Hok) as Hs. destruct (bk_chain _ _ Hb) as [b Hch].
  destruct s as [maps mem]. cbn [vm_maps vm_mm] in *.
  destruct (lookup_ok maps _ _ _ _ (vma_obj ar) n true b Hs Hch) as [(pf & mem1 & E1 & Hl)|(mem1 & E1 & Hnf)].
  2: { right. eexists. split; [by apply (lift_halt (MmIface.pframe_lookup _ _ _ _))|done]. }
  left. pose proof Hl as (Hs1 & He & _ & (k & f & Hf & _) & Hh & _). specialize (Hh eq_refl).
  set (new := splice (Z.to_nat (a `mod` 4096)) chunk (page_bytes pf mem1)).
  destruct (write_seen _ _ _ mem1 pf (vma_obj ar) n new Hs1 Hh) as (mem2 & E2 & Hs2 & Hv2 & Hv2').
  destruct (set_page_bytes_inv _ _ _ _ E2) as [Eo2 Ef2].
  destruct (chain_notfile mem2 (vma_obj ar) b) as (x & Hx & Hk).
  { apply (chain_same mem1); [done|]. by eapply extends_chain. }
  assert (pf_obj f = vma_obj ar) as Efo by (destruct Hh as (f' & ? & ? & ?); by simplify_eq).
  destruct (dirty_ok _ _ _ mem2 pf f x Hs2) as (r & mem3 & E3 & Hs3 & Eo3 & Hh3 & Hb3); [by rewrite Ef2|by rewrite Efo|done|].
  exists pf, (Vm maps mem1), (Vm maps mem2), r, (Vm maps mem3).
  split_and!; [by apply (lift_ok (MmIface.pframe_lookup _ _ _ _))|exact (frame_nonnull _ _ _ _ _ _ _ _ _ Hs1 Hf)|by apply (lift_ok (pf_write _ _))
    |by apply (lift_ok (MmIface.pframe_dirty _))|by apply (space_mm _ _ _ _ Hok)|done|].
  eapply (page_written _ _ _ mem ar a chunk pf mem1 mem2 mem3 Ha Hc Hb Hs Hl Hs2 Eo2 Hv2); [|done|exact Hs3|].
  - intros n' b' Hne Hb'. apply Hv2'; [done|by left].
  - intros o' n' b' Hb'. by eapply view_same.
Qed.

(** The bytes of area [ar] after writing [n] bytes of [buf] from [done_] on at [a]. *)
Definition write_result F R s (ar : vmarea) (a n : Z) (data : list Z) s' : Prop :=
  vm_ok F R s' /\ vm_maps s' = vm_maps s /\ backed (vm_mm s') ar /\
  (forall a' c, a <= a' < a + n -> data !! Z.to_nat (a' - a) = Some c -> shows (vm_mm s') ar a' c) /\
  (forall a' c, 0 <= a' -> ~ (a <= a' < a + n) -> shows (vm_mm s) ar a' c -> shows (vm_mm s') ar a' c).

Lemma lookup_in_area l ar a : areas_ok l -> ar ∈ l -> vma_start ar * 4096 <= a < vma_end ar * 4096 ->
  lookup_area (a / 4096) l = Some ar.
Proof.
  intros Hl Hin Ha. apply lookup_area_iff; [done|]. split; [done|]. unfold covers.
  pose proof (Z.div_mod a 4096 ltac:(lia)). pose proof (Z.mod_pos_bound a 4096 ltac:(lia)). lia.
Qed.

Lemma write_loop_ok fuel F R s v m ar a buf done_ count :
  vm_ok F R s -> vm_maps s !! m = Some v -> m <> NULL -> ar ∈ vmm_list v -> backed (vm_mm s) ar ->
  vma_start ar * 4096 <= a -> a + (count - done_) <= vma_end ar * 4096 ->
  0 <= done_ -> done_ <= count < 4294967296 -> Z.of_nat (length buf) = count -> count - done_ <= Z.of_nat fuel ->
  (exists s', vmmap_write_loop fuel m a buf done_ count s = Ok tt s' /\
    write_result F R s ar a (count - done_) (drop (Z.to_nat done_) buf) s') \/
  (exists s', vmmap_write_loop fuel m a buf done_ count s = Halt NullDeref s' /\ no_frame (vm_mm s')).
Proof.
  intros Hok Hm Hn Hin Hbk Ha1 Ha2 Hd Hdc Hbuf. revert s a done_ Hok Hm Hbk Ha1 Ha2 Hd Hdc.
  induction fuel as [|fuel IH]; intros s a done_ Hok Hm Hbk Ha1 Ha2 Hd Hdc Hfuel; cbn [vmmap_write_loop].
  { left. assert (done_ = count) as -> by lia. rewrite Z.leb_refl, Z.sub_diag. exists s. split; [done|]. split_and!; try done. intros; lia. }
  destruct (Z.leb_spec count done_) as [Hle|Hlt].
  { left. assert (done_ = count) as -> by lia. rewrite Z.sub_diag. exists s. split; [done|]. split_and!; try done. intros; lia. }
  pose proof (proj2 (vo_areas _ _ _ Hok _ _ Hm)) as Hl.
  pose proof (lookup_in_area _ ar a Hl Hin ltac:(lia)) as Har. destruct (area_page _ _ _ Hl Har) as (Hp1 & Hp2 & Hp3 & Hp4 & _).
  assert (is_u32 (a + (count - done_))) as Hu.
  { pose proof (ao_each _ Hl) as He. rewrite Forall_forall in He. destruct (He ar Hin) as (? & ? & Hh & _).
    pose proof user_pages as (? & ? & ?). unfold is_u32. split; [lia|].
    pose proof user_mem as (? & ? & ?). rewrite addr_to_pn_eq in Hh by (unfold is_u32; lia).
    pose proof (Z.div_mod USER_MEM_HIGH 4096 ltac:(lia)). pose proof (Z.mod_pos_bound USER_MEM_HIGH 4096 ltac:(lia)). lia. }
  unfold is_u32 in Hu. rewrite addr_to_pn_eq by (unfold is_u32; lia).
  rewrite (bind_ok _ _ _ _ _ (vmmap_lookup_eq m _ s v Hm Hn)), Har, (deref_bind _ ar), get_bind by done.
  rewrite (u32_small (a / 4096 - vma_start ar)), (u32_small (a / 4096 - vma_start ar + vma_off ar)), page_offset_eq, page_size_eq by (done || unfold is_u32; lia).
  pose proof (Z.mod_pos_bound a 4096 ltac:(lia)) as Hmod.
  rewrite (u32_small (count - done_)), (u32_small (4096 - a `mod` 4096)) by (unfold is_u32; lia).
  replace (if 4096 - a `mod` 4096 <? count - done_ then 4096 - a `mod` 4096 else count - done_) with (Z.min (count - done_) (4096 - a `mod` 4096)).
  2: { destruct (Z.ltb_spec (4096 - a `mod` 4096) (count - done_)); lia. }
  destruct (step_size a (count - done_) ltac:(lia)) as (Hsz & Hpg & Hnext). set (sz := Z.min _ _) in *.
  set (chunk := take (Z.to_nat sz) (drop (Z.to_nat done_) buf)).
  assert (length chunk = Z.to_nat sz) as Hcl by (unfold chunk; rewrite length_take, length_drop; lia).
  destruct (write_page F R s a ar chunk Hok ltac:(lia) ltac:(lia) Hbk) as [(pf & s1 & s2 & r & s3 & E1 & Hnn & E2 & E3 & Hok3 & Em3 & Hbk3 & Hw1 & Hw2)|(s' & E1 & Hnf)].
  2: { right. exists s'. by rewrite (bind_halt _ _ _ _ _ E1). }
  rewrite (bind_ok _ _ _ _ _ E1). cbn [snd]. rewrite (proj2 (Z.eqb_neq _ _) Hnn), ret_bind, get_bind.
  rewrite (bind_ok _ _ _ _ _ E2), (bind_ok _ _ _ _ _ E3), (u32_small (a + sz)), (u32_small (done_ + sz)) by (unfold is_u32; lia).
  destruct (IH s3 (a + sz) (done_ + sz)) as [(s' & E' & Hok' & Em' & Hbk' & Hr1 & Hr2)|(s' & E' & Hnf)]; try (lia || done || by rewrite Em3).
  - left. exists s'. split; [done|]. split_and!; [done|congruence|done| |].
    + intros a' c Ha' Hc. destruct (Z.lt_ge_cases a' (a + sz)) as [Hlo|Hhi].
      * apply Hr2; [lia|lia|]. replace a' with (a + Z.of_nat (Z.to_nat (a' - a))) by lia. apply Hw1. unfold chunk.
        rewrite lookup_take_lt by lia. done.
      * apply Hr1; [lia|]. rewrite <- Hc, !lookup_drop. f_equal. lia.
    + intros a' c Ha' Hout Hc. apply Hr2; [done|lia|]. apply Hw2; [done|lia|done].
  - right. by exists s'.
Qed.

End ReadWrite.
