(* ===== verification/UserRun.v ===== *)
(** The memory calls of a process at work on the small machine: the process has the
    address space of [VmmapRun], its heap starts behind the private area. *)
From S2P Require Import Prelude.
From S2P Require Import Platform.
From S2P Require Import MmIface.
From S2P Require Import Mm.
From S2P Require Import MmInv.
From S2P Require Import MmPut.
From S2P Require Import MmSafe.
From S2P Require Import MmLookup.
From S2P Require Import MmCow.
From S2P Require Import Demo.
From S2P Require Import Vmmap.
From S2P Require Import Areas.
From S2P Require Import VmmapFacts.
From S2P Require Import VmmapThms.
From S2P Require Import VmmapRun.
From S2P Require Import UserMem.
From S2P Require Import UserThms.
From S2P Require Import BrkThms.
From S2P Require Import FaultThms.
From S2P Require Import ReadWrite.
Open Scope Z_scope.

#[export] Instance demo_const : UserConst := {|
  FAULT_WRITE := 2; PD_PRESENT := 1; PD_USER := 4; PD_WRITE := 2;
  PT_PRESENT := 1; PT_USER := 4; PT_WRITE := 2;
  PAGE_ALIGN_DOWN a := a - a `mod` 4096; pt_virt_to_phys a := a; FILE_MODE_WRITE := 2
|}.

(** No files are open. *)
#[export] Instance demo_user : UserOps (mm machine) := {|
  frame_addr pf s := pf_addr <$> pframes s !! pf;
  pt_map pd va pa _ flags := modify (set_lowmem (fun lm =>
    Machine (next lm) (limit lm) (used lm) (next_page lm) (<[(pd, va) := (pa, flags)]> (ptes lm))));; mret 0;
  tlb_flush_all := mret tt;
  mm_fget _ := mret NULL; mm_fput _ := mret tt; mm_p_files _ _ := NULL; mm_f_mode _ _ := 0; mm_f_vnode _ _ := NULL
|}.
#[export] Instance demo_user_ok : UserLaws (mm machine).
Proof. intros L I R s Hs. by exists s. Qed.
#[export] Instance demo_pt_ok : PtLaws machine.
Proof.
  refine {| pte pd va lm := ptes lm !! (pd, va) |}; [done|]. intros pd va pa pdf ptf s. eexists 0, _.
  split_and!; [reflexivity|done| |].
  - intros _. apply lookup_insert_eq.
  - intros pd' va' [?|Hne]; [done|]. by apply lookup_insert_ne.
Defined.

Definition us : user (mm machine) := User vm3 1 7 8232860 8232860.

(** Unmapping two bytes across a page boundary of the private area unmaps both pages. *)
Lemma do_munmap_unmaps_witness : exists l' vm',
  do_munmap 8200192 4097 us = Ok 0 (set_vm vm' us) /\ vm_ok [] ∅ vm' /\ vm_maps vm' !! 1 = Some (Vmmap l' NULL) /\
  maps_to l' 2002 = None /\ maps_to l' 2003 = None /\ maps_to l' 2004 = Some (4, 4, 3, MAP_PRIVATE).
Proof.
  destruct (do_munmap_unmaps 8200192 4097 us (Vmmap areas3 NULL) [] ∅ vm3_ok vm3_map ltac:(split; lia) ltac:(split; lia) ltac:(cbn; lia)) as [_ H].
  destruct H as [(l' & vm' & E & Hok & Em & Hmap)|(mm1 & s' & _ & E)].
  - split_and!; cbn; (lia || reflexivity).
  - exists l', vm'. split_and!; [exact E|exact Hok|rewrite Em; apply lookup_insert_eq|rewrite Hmap; reflexivity..].
  - vm_compute in E. discriminate E.
Defined.

(** Three pages wherever there is room. *)
Lemma mmap_demo addr : ((addr `mod` 4096 =? 0) && (0 <=? addr) && (addr <? 4294967296)) = true ->
  mmap_args addr 10000 (Z.lor MAP_PRIVATE MAP_ANON) 0.
Proof.
  intros H. zify_bool. split; [split; split; lia|cbn; lia|lia|done|by right|done|by split].
Qed.

Lemma do_mmap_panics_witness : do_mmap 4096 10000 3 (Z.lor MAP_PRIVATE MAP_ANON) (-1) 0 us = Halt KAssert us.
Proof. apply (do_mmap_panics 4096 10000 3 _ (-1) 0 us (mmap_demo 4096 eq_refl)); [done|cbn; lia]. Defined.


(** ** The heap *)

Lemma heap0 addr : ((8232860 <? addr) && (addr <? 4294967296)) = true ->
  heap_call addr us (Vmmap areas3 NULL) (Vmarea 2 2000 2010 0 3 MAP_PRIVATE 1 4) [] ∅.
Proof.
  intros H. zify_bool. split; cbn; [exact vm3_ok|exact vm3_map|lia|lia|lia|reflexivity].
Qed.

Lemma do_brk_first_witness : heap_started 8242860 (Vmarea 2 2000 2010 0 3 MAP_PRIVATE 1 4) us (Vmmap areas3 NULL) [] ∅.
Proof.
  destruct (do_brk_first 8242860 us (Vmmap areas3 NULL) (Vmarea 2 2000 2010 0 3 MAP_PRIVATE 1 4) [] ∅ (heap0 8242860 eq_refl)
    ltac:(cbn; lia) ltac:(cbn; lia)) as (_ & _ & H).
  apply H; [cbn; lia|]. intros a v Ha Hv [H1 H2].
  assert (up 8242860 = 2013) as Hup by reflexivity. rewrite Hup in Hv. cbn in Hv.
  repeat (apply elem_of_cons in Ha as [->|Ha]; [cbn in H1, H2; lia|]). by apply elem_of_nil in Ha.
Defined.

(** The process with a heap of two pages. *)
Definition vm4 : vm := Eval vm_compute in out_state
  (vmmap_map 7 1 NULL 2010 2 3 MAP_PRIVATE 0 VMMAP_DIR_HILO vm3).
Definition heap4 : vmarea := Vmarea 7 2010 2012 0 3 MAP_PRIVATE 1 9.
Definition areas4 : list vmarea :=
  [Vmarea 2 2000 2010 0 3 MAP_PRIVATE 1 4; heap4; Vmarea 5 3000 3005 0 3 MAP_SHARED 1 6].
Lemma vm4_map : vm_maps vm4 !! 1 = Some (Vmmap areas4 NULL).
Proof. vm_compute. reflexivity. Qed.
Lemma vm4_ok : vm_ok [] ∅ vm4.
Proof.
  apply (map_keeps_ok 7 1 NULL 2010 2 3 MAP_PRIVATE 0 vm3 (Vmmap areas3 NULL) [] ∅ 7); try done.
  - exact vm3_ok.
  - by right.
  - right. by apply in_user.
Qed.
(** Its break at the end of the second page, and in the middle of it. *)
Definition us4 (brk : Z) : user (mm machine) := User vm4 1 7 brk 8232860.

Lemma heap_call4 brk addr : ((8232860 <? addr) && (addr <? 4294967296) && (8232860 <=? brk) && (brk <=? 8300000)) = true ->
  heap_call addr (us4 brk) (Vmmap areas4 NULL) (Vmarea 2 2000 2010 0 3 MAP_PRIVATE 1 4) [] ∅.
Proof. intros H. zify_bool. split; cbn; [exact vm4_ok|exact vm4_map|lia|lia|lia|reflexivity]. Qed.


Lemma do_brk_unaligned_witness : do_brk 8245250 (us4 8240000) = Ok (-12, None) (us4 8240000).
Proof.
  apply (do_brk_unaligned 8245250 (us4 8240000) (Vmmap areas4 NULL) (Vmarea 2 2000 2010 0 3 MAP_PRIVATE 1 4) [] ∅
    (heap_call4 8240000 8245250 eq_refl)); by vm_compute.
Defined.

Lemma do_brk_panics_witness : do_brk 4000000000 us = Halt KAssert us.
Proof.
  apply (do_brk_panics 4000000000 us (Vmmap areas3 NULL) (Vmarea 2 2000 2010 0 3 MAP_PRIVATE 1 4) [] ∅ (heap0 4000000000 eq_refl));
    [left; cbn; lia|cbn; lia].
Defined.

(** ** Page faults, reading and writing *)

Lemma chain4 : anon_chain (vm_mm vm3) 4 3.
Proof.
  eapply chain_shadow; [vm_compute; reflexivity|reflexivity|]. cbn.
  eapply chain_anon; [vm_compute; reflexivity|reflexivity].
Qed.


(** Nothing is in memory yet: every page shows zeros. *)
Lemma full3 o n pg : view (vm_mm vm3) o n pg -> length pg = 4096%nat.
Proof.
  induction 1 as [pf o n (f & Hf & _)|o n x b Ha Hx Hk Hb IH|o n x Ha Hx Hk]; [|done|].
  - exfalso. change (pframes (vm_mm vm3)) with (∅ : gmap Z pframe) in Hf. by rewrite lookup_empty in Hf.
  - unfold zero_page. by rewrite length_replicate.
Qed.
Lemma backed3 i st_ en : backed (vm_mm vm3) (Vmarea i st_ en 0 3 MAP_PRIVATE 1 4).
Proof. split; [exists 3; exact chain4|]. intros n pg. apply full3. Qed.

Lemma vmmap_read_reads_witness : exists bytes s',
  vmmap_read 1 8196090 20 vm3 = Ok (0, bytes) s' /\ read_result [] ∅ vm3 (Vmmap areas3 NULL) 8196090 20 bytes s'.
Proof.
  destruct (vmmap_read_reads 1 8196090 20 vm3 (Vmmap areas3 NULL) [] ∅ vm3_ok vm3_map ltac:(lia) ltac:(lia) ltac:(lia)) as [H|(s' & E & _)].
  - intros a Ha. exists (Vmarea 2 2000 2010 0 3 MAP_PRIVATE 1 4). split_and!; [|reflexivity|apply backed3].
    apply (lookup_in_area areas3 (Vmarea 2 2000 2010 0 3 MAP_PRIVATE 1 4)); [exact areas3_ok|by left|cbn; lia].
  - exact H.
  - vm_compute in E. discriminate E.
Defined.

