(* ===== verification/ForkVm.v ===== *)
(** The address space of a child: the loop of [do_fork] ([proc/fork.c]) over the
    areas of parent and child, after [vmmap_clone].

    [MmGrow] adds to the contract of the memory objects what their operations do
    to the contents: [mm_grows] says that nothing anybody sees has changed, and
    [mm_shadows sh o] that [sh] is a shadow of [o] without pages of its own. *)
From S2P Require Import Prelude.
From S2P Require Import Platform.
From S2P Require Import MmIface.
From S2P Require Import Vmmap.
From S2P Require Import Areas.
From S2P Require Import VmmapFacts.
From S2P Require Import VmmapThms.
Open Scope Z_scope.

Section ForkVm.
Context `{P : Platform} {MM : Type} `{!MmOps MM}.

(** [vma->vma_obj = o] *)
Definition set_vma_obj (m i o : Z) : M (vm (MM := MM)) unit := upd_list m (area_upd i (set_obj o)).

(** A private area: two shadows of its object, one for each. *)
Definition fork_private (c ci m pi o : Z) : M (vm (MM := MM)) unit :=
  sh_c ← lift shadow_create;
  lift (shadow_over sh_c o);;
  lift (olink_insert o ci);;
  set_vma_obj c ci sh_c;;
  sh_p ← lift shadow_create;
  lift (shadow_over sh_p o);;
  linked ← gets (fun s => olink_is_linked pi (vm_mm s));
  when linked (lift (olink_remove pi));;
  lift (olink_insert o pi);;
  set_vma_obj m pi sh_p.

Definition fork_area (c ci m pi : Z) : M (vm (MM := MM)) unit :=
  vma_p ← area m pi;
  set_vma_obj c ci (vma_obj vma_p);;
  obj_ref (vma_obj vma_p);;
  when (Z.land (vma_flags vma_p) MAP_TYPE =? MAP_PRIVATE) (fork_private c ci m pi (vma_obj vma_p)).

(** The areas of the child, with the areas of the parent alongside. *)
Fixpoint fork_areas (c m : Z) (cis pis : list Z) : M (vm (MM := MM)) unit :=
  match cis with
  | [] => mret tt
  | ci :: cis =>
      match pis with
      | [] => stop NullDeref
      | pi :: pis => fork_area c ci m pi;; fork_areas c m cis pis
      end
  end.

(** The loop over the areas of the child [c] and its parent [m]. *)
Definition fork_vmas (c m : Z) : M (vm (MM := MM)) unit :=
  vp ← vmmap_of m;
  vc ← vmmap_of c;
  fork_areas c m (vma_id <$> vmm_list vc) (vma_id <$> vmm_list vp).

Definition fork_vmmap (m : Z) : M (vm (MM := MM)) Z :=
  c ← vmmap_clone m;
  fork_vmas c m;;
  mret c.

End ForkVm.

(** ** What the memory objects promise about contents *)

Class MmGrow (MM : Type) `{!MmOps MM} `{!MmLaws MM} := {
  mm_grows : MM -> MM -> Prop;
  mm_shadows : Z -> Z -> MM -> Prop;
  mm_grows_preorder :: PreOrder mm_grows;
  mm_grows_obj mm mm' o : mm_grows mm mm' -> mm_obj o mm -> mm_obj o mm';
  mm_grows_shadows mm mm' sh o : mm_grows mm mm' -> mm_shadows sh o mm -> mm_shadows sh o mm';
  mm_grows_ref mm mm' o : mmobj_ref o mm = Ok tt mm' -> mm_grows mm mm';
  mm_grows_vmarea mm mm' i : vmarea_slab_alloc mm = Ok i mm' -> mm_grows mm mm';
  mm_grows_vmmap mm mm' i : vmmap_slab_alloc mm = Ok i mm' -> mm_grows mm mm';
  mm_grows_insert mm mm' o i : olink_insert o i mm = Ok tt mm' -> mm_grows mm mm';
  mm_grows_remove mm mm' i : olink_remove i mm = Ok tt mm' -> mm_grows mm mm';
  mm_grows_shadow L I R mm mm1 mm2 sh o : mm_safe L I R mm -> shadow_create mm = Ok sh mm1 ->
    shadow_over sh o mm1 = Ok tt mm2 -> ~ mm_obj sh mm /\ mm_grows mm mm2 /\ mm_shadows sh o mm2
}.

Section Thms.
Context `{P : Platform} `{!PlatformOk P} {MM : Type} `{!MmOps MM} `{!MmLaws MM} `{!MmGrow MM}.
Implicit Types (mm : MM) (s : vm (MM:=MM)) (R T : gmultiset Z) (F : list Z).

(** Parent [m] and child [c] side by side; [maps0] are the other address spaces. *)
Context (maps0 : vmmaps) (m c p : Z) (Hm0 : maps0 !! m = None) (Hc0 : maps0 !! c = None) (Hmc : m <> c).

Definition st2 (lp lc : list vmarea) (mm : MM) : vm :=
  Vm (<[c := Vmmap lc NULL]> (<[m := Vmmap lp p]> maps0)) mm.

Lemma st2_child lp lc mm : st2 lp lc mm = st (<[m := Vmmap lp p]> maps0) c NULL lc mm.
Proof. done. Qed.
Lemma st2_parent lp lc mm : st2 lp lc mm = st (<[c := Vmmap lc NULL]> maps0) m p lp mm.
Proof. unfold st2, st. by rewrite insert_insert_ne by done. Qed.
Lemma child_new lp : <[m := Vmmap lp p]> maps0 !! c = None.
Proof. by rewrite lookup_insert_ne. Qed.
Lemma parent_new lc : <[c := Vmmap lc NULL]> maps0 !! m = None.
Proof. by rewrite lookup_insert_ne. Qed.

Lemma set_child_obj F T lp l1 b l2 mm o :
  vm_inv F T (st2 lp (l1 ++ b :: l2) mm) ->
  set_vma_obj c (vma_id b) o (st2 lp (l1 ++ b :: l2) mm) = Ok tt (st2 lp (l1 ++ set_obj o b :: l2) mm) /\
  vm_inv F T (st2 lp (l1 ++ set_obj o b :: l2) mm).
Proof. rewrite !st2_child. intros Hi. by apply (area_upd_ok _ c NULL (child_new lp) (set_obj o)). Qed.
Lemma set_parent_obj F T lc l1 a l2 mm o :
  vm_inv F T (st2 (l1 ++ a :: l2) lc mm) ->
  set_vma_obj m (vma_id a) o (st2 (l1 ++ a :: l2) lc mm) = Ok tt (st2 (l1 ++ set_obj o a :: l2) lc mm) /\
  vm_inv F T (st2 (l1 ++ set_obj o a :: l2) lc mm).
Proof. rewrite !st2_parent. intros Hi. by apply (area_upd_ok _ m p (parent_new lc) (set_obj o)). Qed.

Lemma parent_area F T l1 a l2 lc mm :
  vm_inv F T (st2 (l1 ++ a :: l2) lc mm) -> area m (vma_id a) (st2 (l1 ++ a :: l2) lc mm) = Ok a (st2 (l1 ++ a :: l2) lc mm).
Proof. rewrite st2_parent. apply (st_area _ m p (parent_new lc)). Qed.

Lemma st2_ids lp lc mm : area_ids (vm_maps (st2 lp lc mm)) ≡ₚ (vma_id <$> lc) ++ (vma_id <$> lp) ++ area_ids maps0.
Proof. rewrite st2_child. cbn. by rewrite (st_ids _ c NULL (child_new lp)), (st_ids _ m p Hm0). Qed.

(** The links of [st2] in terms of the areas. *)
Lemma st2_in_child F T lp l1 b l2 mm : vm_inv F T (st2 lp (l1 ++ b :: l2) mm) ->
  vma_id b ∈ area_ids (vm_maps (st2 lp (l1 ++ b :: l2) mm)).
Proof. intros _. rewrite st2_ids. set_solver. Qed.
Lemma st2_in_parent F T l1 a l2 lc mm : vm_inv F T (st2 (l1 ++ a :: l2) lc mm) ->
  vma_id a ∈ area_ids (vm_maps (st2 (l1 ++ a :: l2) lc mm)).
Proof. intros _. rewrite st2_ids. set_solver. Qed.

(** ** The operations on the memory, in a state with both address spaces *)

Lemma lift_st2 {A} (k : M MM A) lp lc mm a mm' : k mm = Ok a mm' -> lift k (st2 lp lc mm) = Ok a (st2 lp lc mm').
Proof. apply lift_ok. Qed.

Lemma ref_st2 F T lp lc mm o : vm_inv F T (st2 lp lc mm) -> o ∈ T ->
  exists mm', obj_ref o (st2 lp lc mm) = Ok tt (st2 lp lc mm') /\ vm_inv F (T ⊎ {[+ o +]}) (st2 lp lc mm') /\
    same_links [] mm mm' /\ mm_grows mm mm'.
Proof.
  intros [Hok Hs] Ho. destruct (mm_ref _ _ _ _ _ Hs Ho) as (mm' & E & Hs' & Hl).
  exists mm'. split_and!; [by apply lift_ok|by split|done|by eapply mm_grows_ref].
Qed.

Lemma shadow_st2 F T lp lc mm o : vm_inv F (T ⊎ {[+ o +]}) (st2 lp lc mm) ->
  (exists mm', lift shadow_create (st2 lp lc mm) = Halt NullDeref (st2 lp lc mm') /\ alloc_failed mm') \/
  exists sh mm1 mm2, lift shadow_create (st2 lp lc mm) = Ok sh (st2 lp lc mm1) /\
    lift (shadow_over sh o) (st2 lp lc mm1) = Ok tt (st2 lp lc mm2) /\
    vm_inv F (T ⊎ {[+ sh +]}) (st2 lp lc mm2) /\ mm_obj o mm2 /\ same_links [] mm mm2 /\
    ~ mm_obj sh mm /\ mm_grows mm mm2 /\ mm_shadows sh o mm2.
Proof.
  intros [Hok Hs]. destruct (mm_shadow _ _ _ _ _ Hs) as [(mm' & E)|(sh & mm1 & mm2 & E1 & _ & E2 & Hs2 & Ho & Hl)].
  - left. exists mm'. split; [by apply lift_halt|]. exists mm. tauto.
  - right. exists sh, mm1, mm2. destruct (mm_grows_shadow _ _ _ _ _ _ _ _ Hs E1 E2) as (? & ? & ?).
    split_and!; [by apply lift_ok|by apply lift_ok|by split|done..].
Qed.

Lemma insert_st2 F T lp lc mm o i : vm_inv F T (st2 lp lc mm) -> mm_obj o mm ->
  i ∈ area_ids (vm_maps (st2 lp lc mm)) -> olink_is_linked i mm = false ->
  exists mm', lift (olink_insert o i) (st2 lp lc mm) = Ok tt (st2 lp lc mm') /\ vm_inv F T (st2 lp lc mm') /\
    same_links [i] mm mm' /\ mm_grows mm mm'.
Proof.
  intros [Hok Hs] Ho Hi Hl. destruct (mm_olink_insert _ _ _ _ o i Hs Ho) as (mm' & E & Hs' & Hsl); [|done|].
  { apply elem_of_app. right. unfold live. apply elem_of_app. by right. }
  exists mm'. split_and!; [by apply lift_ok| |done|by eapply mm_grows_insert]. split; [done|].
  eapply mm_safe_weaken; [exact Hs'|done|]. intros j _ [->|?]%elem_of_cons; done.
Qed.

Lemma unlink_st2 F T lp lc mm i : vm_inv F T (st2 lp lc mm) ->
  exists mm', (forall k : M vm unit, (linked ← gets (fun s => olink_is_linked i (vm_mm s));
      when linked (lift (olink_remove i));; k) (st2 lp lc mm) = k (st2 lp lc mm')) /\ vm_inv F T (st2 lp lc mm') /\
    olink_is_linked i mm' = false /\ same_links [i] mm mm' /\ mm_grows mm mm'.
Proof.
  intros [Hok Hs]. destruct (olink_is_linked i mm) eqn:El.
  - destruct (mm_olink_remove _ _ _ _ _ Hs El) as (mm' & E & Hs' & Hl' & Hsl & _).
    exists mm'. split_and!; [|by split|done|done|by eapply mm_grows_remove].
    intros k. rewrite gets_bind. cbn [vm_mm st2]. rewrite El. cbn [when]. by rewrite (bind_ok _ _ _ _ _ (lift_st2 _ lp lc _ _ _ E)).
  - exists mm. split_and!; [|by split|done|by intros j|done]. intros k. rewrite gets_bind. cbn [vm_mm st2]. by rewrite El.
Qed.

Lemma same_links_trans I1 I2 mm1 mm2 mm3 :
  same_links I1 mm1 mm2 -> same_links I2 mm2 mm3 -> same_links (I1 ++ I2) mm1 mm3.
Proof. intros H1 H2 j Hj. rewrite H2, H1 by set_solver. done. Qed.

(** ** One area *)

(** What becomes of the object of area [a]: a private area gets a shadow of it for
    each of the two, any other area is shared. *)
Definition forked_obj (mm : MM) (a : vmarea) (op oc : Z) : Prop :=
  if Z.land (vma_flags a) MAP_TYPE =? MAP_PRIVATE
  then op <> oc /\ mm_shadows op (vma_obj a) mm /\ mm_shadows oc (vma_obj a) mm
  else op = vma_obj a /\ oc = vma_obj a.

Lemma forked_grows mm mm' a op oc : mm_grows mm mm' -> forked_obj mm a op oc -> forked_obj mm' a op oc.
Proof. intros Hg. unfold forked_obj. destruct (_ =? _); [|done]. intros (? & ? & ?). split_and!; [done|by eapply mm_grows_shadows..]. Qed.

Lemma set_obj_id a : set_obj (vma_obj a) a = a.
Proof. by destruct a. Qed.

Lemma fork_private_ok F T pd a pr cd b cr mm :
  let o := vma_obj a in
  vm_inv F (T ⊎ {[+ o +]} ⊎ {[+ o +]}) (st2 (pd ++ a :: pr) (cd ++ b :: cr) mm) -> olink_is_linked (vma_id b) mm = false ->
  vma_id a <> vma_id b ->
  (exists op oc mm', fork_private c (vma_id b) m (vma_id a) o (st2 (pd ++ a :: pr) (cd ++ b :: cr) mm) =
      Ok tt (st2 (pd ++ set_obj op a :: pr) (cd ++ set_obj oc b :: cr) mm') /\
    vm_inv F (T ⊎ {[+ op +]} ⊎ {[+ oc +]}) (st2 (pd ++ set_obj op a :: pr) (cd ++ set_obj oc b :: cr) mm') /\
    (op <> oc /\ mm_shadows op o mm' /\ mm_shadows oc o mm') /\ mm_grows mm mm' /\ same_links [vma_id b; vma_id a] mm mm') \/
  (exists s', fork_private c (vma_id b) m (vma_id a) o (st2 (pd ++ a :: pr) (cd ++ b :: cr) mm) = Halt NullDeref s' /\
    alloc_failed (vm_mm s')).
Proof.
  intros o Hi Hul Hab. unfold fork_private.
  destruct (shadow_st2 _ _ _ _ _ _ Hi) as [(mm1 & E1 & Hf)|(oc & mm1 & mm2 & E1 & E2 & Hi2 & Ho2 & Hl2 & _ & Hg2 & Hs2)].
  { right. eexists. by rewrite (bind_halt _ _ _ _ _ E1). }
  rewrite (bind_ok _ _ _ _ _ E1), (bind_ok _ _ _ _ _ E2).
  destruct (insert_st2 _ _ _ _ _ o (vma_id b) Hi2 Ho2 (st2_in_child _ _ _ _ _ _ _ Hi2)) as (mm3 & E3 & Hi3 & Hl3 & Hg3).
  { by rewrite (Hl2 (vma_id b)) by apply not_elem_of_nil. }
  rewrite (bind_ok _ _ _ _ _ E3). destruct (set_child_obj _ _ _ _ _ _ _ oc Hi3) as [E4 Hi4].
  rewrite (bind_ok _ _ _ _ _ E4).
  replace (T ⊎ {[+ o +]} ⊎ {[+ oc +]}) with (T ⊎ {[+ oc +]} ⊎ {[+ o +]}) in Hi4 by multiset_solver.
  destruct (shadow_st2 _ _ _ _ _ _ Hi4) as [(mm5 & E5 & Hf)|(op & mm5 & mm6 & E5 & E6 & Hi6 & Ho6 & Hl6 & Hn6 & Hg6 & Hs6)].
  { right. eexists. by rewrite (bind_halt _ _ _ _ _ E5). }
  rewrite (bind_ok _ _ _ _ _ E5), (bind_ok _ _ _ _ _ E6).
  destruct (unlink_st2 _ _ _ _ _ (vma_id a) Hi6) as (mm7 & E7 & Hi7 & Hul7 & Hl7 & Hg7). rewrite E7.
  destruct (insert_st2 _ _ _ _ _ o (vma_id a) Hi7 (mm_grows_obj _ _ _ Hg7 Ho6) (st2_in_parent _ _ _ _ _ _ _ Hi7) Hul7)
    as (mm8 & E8 & Hi8 & Hl8 & Hg8). rewrite (bind_ok _ _ _ _ _ E8).
  destruct (set_parent_obj _ _ _ _ _ _ _ op Hi8) as [E9 Hi9]. left. exists op, oc, mm8. split_and!.
  - exact E9.
  - by replace (T ⊎ {[+ op +]} ⊎ {[+ oc +]}) with (T ⊎ {[+ oc +]} ⊎ {[+ op +]}) by multiset_solver.
  - intros ->. apply Hn6. destruct Hi4 as [_ Hs4]. eapply mm_obj_held; [exact Hs4|multiset_solver].
  - eapply mm_grows_shadows; [|exact Hs6]. by etransitivity.
  - eapply mm_grows_shadows; [|exact Hs2]. repeat (etransitivity; [eassumption|]). done.
  - repeat (etransitivity; [eassumption|]). done.
  - intros j Hj. rewrite Hl8, Hl7, Hl6, Hl3, Hl2 by set_solver. done.
Qed.

Lemma fork_area_ok F T pd a pr cd b cr mm :
  vm_inv F (T ⊎ {[+ vma_obj a +]}) (st2 (pd ++ a :: pr) (cd ++ b :: cr) mm) -> olink_is_linked (vma_id b) mm = false ->
  (exists op oc mm', fork_area c (vma_id b) m (vma_id a) (st2 (pd ++ a :: pr) (cd ++ b :: cr) mm) =
      Ok tt (st2 (pd ++ set_obj op a :: pr) (cd ++ set_obj oc b :: cr) mm') /\
    vm_inv F (T ⊎ {[+ op +]} ⊎ {[+ oc +]}) (st2 (pd ++ set_obj op a :: pr) (cd ++ set_obj oc b :: cr) mm') /\
    forked_obj mm' a op oc /\ mm_grows mm mm' /\ same_links [vma_id b; vma_id a] mm mm') \/
  (exists s', fork_area c (vma_id b) m (vma_id a) (st2 (pd ++ a :: pr) (cd ++ b :: cr) mm) = Halt NullDeref s' /\
    alloc_failed (vm_mm s')).
Proof.
  intros Hi Hul. unfold fork_area. rewrite (bind_ok _ _ _ _ _ (parent_area _ _ _ _ _ _ _ Hi)).
  destruct (set_child_obj _ _ _ _ _ _ _ (vma_obj a) Hi) as [E1 Hi1]. rewrite (bind_ok _ _ _ _ _ E1).
  destruct (ref_st2 _ _ _ _ _ (vma_obj a) Hi1 ltac:(multiset_solver)) as (mm2 & E2 & Hi2 & Hl2 & Hg2).
  rewrite (bind_ok _ _ _ _ _ E2). unfold forked_obj.
  assert (vma_id a <> vma_id b) as Hab.
  { destruct Hi as [(Hnd & _) _]. rewrite st2_ids in Hnd. apply NoDup_app in Hnd as (_ & Hd & _).
    intros E. apply (Hd (vma_id b)); [set_solver|]. rewrite <- E. set_solver. }
  destruct (_ =? MAP_PRIVATE); cbn [when].
  - destruct (fork_private_ok F T pd a pr cd (set_obj (vma_obj a) b) cr mm2 Hi2) as [(op & oc & mm' & E & Hi' & Hs & Hg & Hl)|?].
    { cbn. by rewrite (Hl2 (vma_id b)) by apply not_elem_of_nil. } { done. }
    + left. exists op, oc, mm'. split_and!; [exact E|exact Hi'|apply Hs..|by etransitivity|].
      intros j Hj. rewrite (Hl j Hj). apply (Hl2 j), not_elem_of_nil.
    + by right.
  - left. exists (vma_obj a), (vma_obj a), mm2. rewrite set_obj_id. split_and!; [done|done|done|done|done|].
    intros j _. apply (Hl2 j), not_elem_of_nil.
Qed.

(** ** All areas *)

Lemma fork_areas_ok F T pd pr cd cr mm :
  Forall2 (fun _ b => olink_is_linked (vma_id b) mm = false) pr cr ->
  vm_inv F (T ⊎ objs pr) (st2 (pd ++ pr) (cd ++ cr) mm) ->
  (exists ops ocs mm', fork_areas c m (vma_id <$> cr) (vma_id <$> pr) (st2 (pd ++ pr) (cd ++ cr) mm) =
      Ok tt (st2 (pd ++ zip_with set_obj ops pr) (cd ++ zip_with set_obj ocs cr) mm') /\
    length ops = length pr /\ length ocs = length pr /\
    vm_inv F (T ⊎ objs (zip_with set_obj ops pr) ⊎ objs (zip_with set_obj ocs cr))
      (st2 (pd ++ zip_with set_obj ops pr) (cd ++ zip_with set_obj ocs cr) mm') /\
    Forall2 (fun a x => forked_obj mm' a x.1 x.2) pr (zip ops ocs) /\ mm_grows mm mm') \/
  (exists s', fork_areas c m (vma_id <$> cr) (vma_id <$> pr) (st2 (pd ++ pr) (cd ++ cr) mm) = Halt NullDeref s' /\
    alloc_failed (vm_mm s')).
Proof.
  intros H2. revert T pd cd mm H2.
  induction pr as [|a pr IH] in cr |- *; intros T pd cd mm H2 Hi; inversion H2 as [|? b ? cr' Hul H2']; subst.
  { left. exists [], [], mm. cbn. rewrite !objs_nil, !(right_id_L ∅ (⊎)) in *. split_and!; [done..|constructor|done]. }
  rewrite !fmap_cons. cbn [fork_areas]. rewrite objs_cons, (comm_L (⊎) {[+ _ +]}), (assoc_L (⊎)) in Hi.
  destruct (fork_area_ok F _ pd a pr cd b cr' mm Hi Hul) as [(op & oc & mm1 & E1 & Hi1 & Hf1 & Hg1 & Hl1)|(s' & E1 & Hf)].
  2: { right. exists s'. by rewrite (bind_halt _ _ _ _ _ E1). }
  rewrite (bind_ok _ _ _ _ _ E1).
  destruct (IH cr' (T ⊎ {[+ op +]} ⊎ {[+ oc +]}) (pd ++ [set_obj op a]) (cd ++ [set_obj oc b]) mm1)
    as [(ops & ocs & mm' & E & Hlp & Hlc & Hi' & Hf & Hg)|(s' & E & Hf)].
  - destruct Hi as [(Hnd & _) _]. rewrite st2_ids, !fmap_app, !fmap_cons in Hnd.
    rewrite Forall2_same_length_lookup in H2' |- *. destruct H2' as [Hlen H2']. split; [done|]. intros i x y Hx Hy.
    rewrite Hl1; [by eapply H2'|]. apply list_elem_of_lookup_2 in Hy.
    rewrite <- !app_assoc in Hnd. apply NoDup_app in Hnd as (_ & _ & Hnd). cbn in Hnd. apply NoDup_cons in Hnd as [Hb Hnd].
    apply NoDup_app in Hnd as (_ & Hd & _). assert (vma_id y ∈ vma_id <$> cr') as Hy' by (apply list_elem_of_fmap; eauto).
    intros [E|[E|[]%elem_of_nil]%elem_of_cons]%elem_of_cons; [|apply (Hd _ Hy'); rewrite E; set_solver].
    apply Hb, elem_of_app. left. by rewrite <- E.
  - rewrite <- !app_assoc. cbn. by replace (T ⊎ {[+ op +]} ⊎ {[+ oc +]} ⊎ objs pr) with (T ⊎ objs pr ⊎ {[+ op +]} ⊎ {[+ oc +]}) by multiset_solver.
  - left. exists (op :: ops), (oc :: ocs), mm'. rewrite <- !app_assoc in *. cbn [zip_with app length zip] in *. rewrite !objs_cons.
    split_and!; [exact E|lia|lia| |constructor; [by eapply forked_grows|done]|by etransitivity].
    cbn [vma_obj set_obj]. match goal with |- vm_inv _ ?T _ => match type of Hi' with vm_inv _ ?T' _ => replace T with T' by multiset_solver end end. done.
  - right. exists s'. rewrite <- !app_assoc in E. done.
Qed.
End Thms.

Section Fork.
Context `{P : Platform} `{!PlatformOk P} {MM : Type} `{!MmOps MM} `{!MmLaws MM} `{!MmGrow MM}.
Implicit Types (mm : MM) (s : vm (MM:=MM)) (R T : gmultiset Z) (F : list Z).

(** Areas with other objects and addresses are still in order. *)
Lemma areas_ok_copy l l' :
  areas_ok l -> NoDup (vma_id <$> l') ->
  Forall2 (fun a b => vma_start b = vma_start a /\ vma_end b = vma_end a /\ vma_off b = vma_off a) l l' -> areas_ok l'.
Proof.
  intros [Hs Ho _] Hnd H2. split; [| |done].
  - clear Ho Hnd. revert Hs. induction H2 as [|a b l l' (E1 & E2 & _) H2 IH]; intros Hs; [constructor|].
    apply Sorted.StronglySorted_inv in Hs as [Hs Ha]. constructor; [by apply IH|].
    clear IH Hs. revert Ha. induction H2 as [|a' b' l l' (E1' & E2' & _) H2 IH]; intros Ha; [constructor|].
    apply Forall_cons in Ha as [Ha1 Ha2]. constructor; [|by apply IH]. unfold before in *. congruence.
  - clear Hs Hnd. revert Ho. induction H2 as [|a b l l' (E1 & E2 & E3) H2 IH]; intros Ho; [constructor|].
    apply Forall_cons in Ho as [Ha Ho]. constructor; [|by apply IH]. unfold area_ok in *. by rewrite E1, E2, E3.
Qed.

Lemma clone_grows m s c s' : vmmap_clone m s = Ok c s' -> mm_grows (vm_mm s) (vm_mm s').
Proof.
  assert (forall A (k : M MM A) s a s', lift k s = Ok a s' -> k (vm_mm s) = Ok a (vm_mm s')) as Hlift.
  { intros A k [maps mm] a s1. unfold lift. cbn. by destruct (k mm) as [|] eqn:E; intros [= -> <-]. }
  unfold vmmap_clone, vmmap_create. intros (c1 & s1 & E1 & E2)%bind_Ok_inv.
  apply bind_Ok_inv in E1 as (c2 & s2 & E1 & E3). apply Hlift, mm_grows_vmmap in E1. etransitivity; [exact E1|]. clear E1.
  assert (vm_mm s1 = vm_mm s2) as <-.
  { apply bind_Ok_inv in E3 as ([] & s3 & E3 & E4). destruct (c_true c2); cbv in E3, E4; by simplify_eq. }
  clear E3. apply bind_Ok_inv in E2 as (v & s4 & E2 & E3). unfold vmmap_of in E2.
  apply bind_Ok_inv in E2 as (x & s5 & E2 & E4). cbv in E2. simplify_eq. apply deref_Ok_inv in E4 as [_ ->].
  apply bind_Ok_inv in E3 as ([] & s6 & E3 & E4). cbv in E4. simplify_eq.
  revert s5 E3. induction (vmm_list v) as [|a l IH]; intros s5 E3; [cbv in E3; by simplify_eq|].
  cbn in E3. apply bind_Ok_inv in E3 as ([] & s7 & E & E3). etransitivity; [|by eapply IH]. clear E3 IH.
  apply bind_Ok_inv in E as (i & s8 & E & E'). apply Hlift, mm_grows_vmarea in E. etransitivity; [exact E|]. clear E.
  apply bind_Ok_inv in E' as ([] & s9 & E & E'). destruct (i =? NULL); [done|]. cbv in E. simplify_eq.
  unfold vmmap_insert in E'.
  do 4 (apply bind_Ok_inv in E' as ([] & ? & [_ ->]%kassert_Ok_inv & E')).
  unfold upd_list, vmmap_of in E'. apply bind_Ok_inv in E' as (w & s10 & E & E').
  apply bind_Ok_inv in E as (? & ? & E & [_ ->]%deref_Ok_inv). cbv in E. simplify_eq. cbv in E'. by simplify_eq.
Qed.

(** Area [b] of the child and area [p] of the parent come from area [a]. *)
Definition forked (mm : MM) (c : Z) (a p b : vmarea) : Prop :=
  p = set_obj (vma_obj p) a /\ clone_of c a (set_obj NULL b) /\ forked_obj mm a (vma_obj p) (vma_obj b).

Lemma zip_areas l (os : list Z) : length os = length l ->
  Forall2 (fun a b => b = set_obj (vma_obj b) a) l (zip_with set_obj os l).
Proof.
  revert os. induction l as [|a l IH]; intros [|o os] [=]; cbn; constructor; [done|by apply IH].
Qed.

Lemma set_objs_ids l (os : list Z) : length os = length l -> vma_id <$> zip_with set_obj os l = vma_id <$> l.
Proof. revert os. induction l as [|a l IH]; intros [|o os] [=]; cbn; [done|]. f_equal. by apply IH. Qed.

Lemma forked_all mm c l lc ops ocs :
  length ops = length l -> length ocs = length l -> Forall2 (clone_of c) l lc ->
  Forall2 (fun a x => forked_obj mm a x.1 x.2) l (zip ops ocs) ->
  forall i a, l !! i = Some a -> exists p b, zip_with set_obj ops l !! i = Some p /\
    zip_with set_obj ocs lc !! i = Some b /\ forked mm c a p b.
Proof.
  intros H1 H2 Hc Hf i a Ha. destruct (Forall2_lookup_l _ _ _ _ _ Hc Ha) as (b & Hb & Hcl).
  destruct (Forall2_lookup_l _ _ _ _ _ Hf Ha) as (x & Hz & Hfo). apply lookup_zip_with_Some in Hz as (op & oc & -> & Ho & Hoc).
  cbn in Hfo. exists (set_obj op a), (set_obj oc b). split_and!.
  - apply lookup_zip_with_Some. eauto.
  - apply lookup_zip_with_Some. eauto.
  - split_and!; [done| |done]. destruct Hcl as (? & ? & ? & ? & ? & ? & ?). by split_and!.
Qed.

Lemma fork_vm_ok m s v F R :
  vm_ok F R s -> vm_maps s !! m = Some v ->
  (exists c lp lc s', fork_vmmap m s = Ok c s' /\ vm_ok F R s' /\ vm_maps s !! c = None /\ c <> NULL /\
    vm_maps s' = <[c := Vmmap lc NULL]> (<[m := Vmmap lp (vmm_proc v)]> (vm_maps s)) /\
    length lp = length (vmm_list v) /\ length lc = length (vmm_list v) /\ mm_grows (vm_mm s) (vm_mm s') /\
    forall i a, vmm_list v !! i = Some a -> exists p b, lp !! i = Some p /\ lc !! i = Some b /\ forked (vm_mm s') c a p b) \/
  (exists s', fork_vmmap m s = Halt NullDeref s' /\ alloc_failed (vm_mm s')) \/
  (exists s', vmmap_create s = Ok NULL s').
Proof.
  intros Hok Hm. destruct (vo_areas _ _ _ Hok _ _ Hm) as [Hmn Hl].
  destruct (clone_ok m s v F R Hok Hm) as [(c & lc & s1 & E1 & Hcd & Hcn & Em1 & Hcl & Hul & Hi1)|[(s1 & E1 & Hf)|?]]; [| |by right; right].
  2: { right. left. exists s1. unfold fork_vmmap. by rewrite (bind_halt _ _ _ _ _ E1). }
  pose proof (clone_grows _ _ _ _ E1) as Hg1. apply not_elem_of_dom in Hcd.
  assert (m <> c) as Hmc by congruence. destruct (st_of s m v Hm) as (Es & Hm0 & Hobjs).
  set (maps0 := delete m (vm_maps s)) in *.
  assert (maps0 !! c = None) as Hc0 by (unfold maps0; by rewrite lookup_delete_ne).
  assert (vm_maps s = <[m := Vmmap (vmm_list v) (vmm_proc v)]> maps0) as Ems by (by rewrite Es).
  assert (s1 = st2 maps0 m c (vmm_proc v) (vmm_list v) lc (vm_mm s1)) as Es1.
  { destruct s1 as [maps1 mm1]. cbn in *. unfold st2. by rewrite Em1, Ems. }
  unfold fork_vmmap. rewrite (bind_ok _ _ _ _ _ E1). rewrite Es1 in Hi1 |- *.
  set (S1 := st2 _ _ _ _ _ _ _) in *.
  assert (vmmap_of m S1 = Ok (Vmmap (vmm_list v) (vmm_proc v)) S1) as Ep by (unfold S1; rewrite st2_parent by done; apply st_lookup).
  assert (vmmap_of c S1 = Ok (Vmmap lc NULL) S1) as Ec by (unfold S1; rewrite st2_child; apply st_lookup).
  unfold fork_vmas. rewrite bind_assoc, (bind_ok _ _ _ _ _ Ep), bind_assoc, (bind_ok _ _ _ _ _ Ec). cbn [vmm_list].
  rewrite Hobjs, <- (assoc_L (⊎)), (comm_L (⊎) (objs _)) in Hi1.
  destruct (fork_areas_ok maps0 m c (vmm_proc v) Hm0 Hc0 Hmc F (all_objs maps0 ⊎ R) [] (vmm_list v) [] lc (vm_mm s1))
    as [(ops & ocs & mm' & E & Hlp & Hlc & Hi & Hf & Hg)|(s' & E & Hf)]; [| | |by right; left; exists s'; rewrite (bind_halt _ _ _ _ _ E)].
  { rewrite Forall2_same_length_lookup. split; [by eapply Forall2_length|]. intros i a b _ Hb. rewrite Forall_lookup in Hul. by eapply Hul. }
  { exact Hi1. }
  cbn [app] in *. left. exists c, (zip_with set_obj ops (vmm_list v)), (zip_with set_obj ocs lc). eexists.
  rewrite (bind_ok _ _ _ _ _ E). pose proof (Forall2_length _ _ _ Hcl) as Hcll.
  split_and!; [reflexivity| |done|done| |rewrite length_zip_with; lia|rewrite length_zip_with; lia|by etransitivity|by apply forked_all].
  - split; cbn [vm_maps st2].
    + rewrite !all_objs_insert by (done || by rewrite lookup_insert_ne). cbn [vmm_list].
      match goal with |- vm_inv _ ?T _ => match type of Hi with vm_inv _ ?T' _ => replace T with T' by multiset_solver end end. done.
    + apply map_Forall_insert; [by rewrite lookup_insert_ne|]. cbn [vmm_list]. split.
      * split; [done|]. apply (areas_ok_copy (vmm_list v)); [done| |].
        { destruct Hi as [(Hnd & _) _]. rewrite st2_ids in Hnd by done. by apply NoDup_app in Hnd as [? _]. }
        rewrite Forall2_same_length_lookup. split; [rewrite length_zip_with; lia|].
        intros i a b Ha Hb. apply lookup_zip_with_Some in Hb as (oc & b0 & -> & _ & Hb0).
        destruct (Forall2_lookup_lr _ _ _ _ _ _ Hcl Ha Hb0) as (? & ? & ? & _). done.
      * apply map_Forall_insert; [done|]. cbn [vmm_list]. split.
        { split; [done|]. apply (areas_ok_copy (vmm_list v)); [done|rewrite set_objs_ids by done; apply (ao_ids _ Hl)|].
          eapply Forall2_impl; [by apply zip_areas|]. intros a b Hb. by rewrite Hb. }
        apply map_Forall_delete, (vo_areas _ _ _ Hok).
  - cbn. rewrite Ems. by rewrite insert_insert_eq.
Qed.
End Fork.
