(* ===== verification/ForkCow.v ===== *)
(** After a fork, parent and child see the same memory, and private memory does
    not stay shared: the contract [MmGrow] for the memory objects of [Mm]. *)
From S2P Require Import Prelude.
From S2P Require Import Platform.
From S2P Require Import MmIface.
From S2P Require Import Mm.
From S2P Require Import MmInv.
From S2P Require Import MmPut.
From S2P Require Import MmSafe.
From S2P Require Import MmLookup.
From S2P Require Import MmCow.
From S2P Require Import Vmmap.
From S2P Require Import Areas.
From S2P Require Import VmmapFacts.
From S2P Require Import VmmapThms.
From S2P Require Import ForkVm.
Open Scope Z_scope.

Section ForkCow.
Context {LM : Type} `{P : Platform} `{!PlatformOk P} `{!LowMem LM} {HHdr0 : MmobjHeader}.
Context {HLow : LowMemOk (LM:=LM)} {HHdr : MmobjHeaderOk} {HFile : FileOps (LM:=LM)} {HFileOk : FileOpsOk}.
Implicit Types (s : mm LM) (x y : mmobj) (R : gmultiset Z) (F : list Z).

(** The pages are the same, and every object is there and shadows what it did. *)
Definition grows s s' : Prop :=
  pframes s' = pframes s /\ phys s' = phys s /\
  forall o x, mmobjs s !! o = Some x ->
    exists x', mmobjs s' !! o = Some x' /\ mmo_ops x' = mmo_ops x /\ mmo_shadowed x' = mmo_shadowed x.

(** [sh] is a shadow of [o] without pages. *)
Definition shadows (sh o : Z) s : Prop :=
  exists x, mmobjs s !! sh = Some x /\ mmo_ops x = shadow_mmobj_ops /\ mmo_shadowed x = o /\ forall n, absent s sh n.

#[local] Instance grows_preorder : PreOrder grows.
Proof.
  split.
  - intros s. split_and!; [done..|]. eauto.
  - intros s1 s2 s3 (A1 & A2 & A3) (B1 & B2 & B3). split_and!; [congruence..|]. intros o x Hx.
    destruct (A3 o x Hx) as (x2 & Hx2 & ? & ?). destruct (B3 o x2 Hx2) as (x3 & ? & ? & ?). exists x3. split_and!; congruence.
Qed.

Lemma grows_holds s s' k o n : grows s s' -> holds s' k o n <-> holds s k o n.
Proof. intros (E & _). unfold holds. by rewrite E. Qed.
Lemma grows_absent s s' o n : grows s s' -> absent s o n -> absent s' o n.
Proof. intros Hg Ha k Hk. apply (Ha k). by apply (grows_holds _ _ _ _ _ Hg). Qed.
Lemma grows_view s s' o n b : grows s s' -> view s o n b -> view s' o n b.
Proof.
  intros Hg. pose proof Hg as (E1 & E2 & E3). induction 1 as [k o n Hk|o n x b Ha Hx Hk _ IH|o n x Ha Hx Hk].
  - replace (page_bytes k s) with (page_bytes k s') by (unfold page_bytes; by rewrite E1, E2).
    apply view_here. by apply (grows_holds s).
  - destruct (E3 o x Hx) as (x' & Hx' & Eo & Es). apply (view_below s' o n x'); [by eapply grows_absent|done|congruence|by rewrite Es].
  - destruct (E3 o x Hx) as (x' & Hx' & Eo & Es). apply (view_zero s' o n x'); [by eapply grows_absent|done|congruence].
Qed.
Lemma shadows_view s sh o n b : shadows sh o s -> view s o n b -> view s sh n b.
Proof. intros (x & Hx & Hk & <- & Ha) Hv. by apply (view_below s sh n x). Qed.

Lemma obj_inv o s x s' : obj o s = Ok x s' -> mmobjs s !! o = Some x /\ s' = s.
Proof. unfold obj. intros (z & s1 & E & [? ->]%deref_Ok_inv)%bind_Ok_inv. cbv in E. by simplify_eq. Qed.
Lemma upd_obj_inv o g s u s' : upd_obj o g s = Ok u s' -> exists x, mmobjs s !! o = Some x /\ s' = set_mmobjs (insert o (g x)) s.
Proof. unfold upd_obj. intros (x & s1 & [? ->]%obj_inv & E)%bind_Ok_inv. unfold modify in E. exists x. by simplify_eq. Qed.

(** Changing an object in anything but its operations and what it shadows. *)
Lemma grows_upd o x x' s : mmobjs s !! o = Some x -> mmo_ops x' = mmo_ops x -> mmo_shadowed x' = mmo_shadowed x ->
  grows s (set_mmobjs (insert o x') s).
Proof.
  intros Hx E1 E2. split_and!; [done..|]. intros k y Hy. cbn. destruct (decide (k = o)) as [->|]; [|rewrite lookup_insert_ne; eauto].
  rewrite lookup_insert_eq. exists x'. by simplify_eq.
Qed.
Lemma grows_lowmem s lm : grows s (set_lowmem (fun _ => lm) s).
Proof. split_and!; eauto. Qed.

Lemma grows_ref s s' o : ref o s = Ok tt s' -> grows s s'.
Proof.
  unfold ref. intros (x & s1 & [Hx ->]%obj_inv & E)%bind_Ok_inv.
  assert (forall k, (x ← obj o; kassert (k x);; upd_obj o (fun x => set_refcount (mmo_refcount x + 1) x)) s = Ok tt s' -> grows s s') as Hr.
  { intros k (y & s2 & [Hy ->]%obj_inv & (u & s3 & [_ ->]%kassert_Ok_inv & (z & Hz & ->)%upd_obj_inv)%bind_Ok_inv)%bind_Ok_inv. by apply (grows_upd o z). }
  destruct (mmo_ops x) eqn:Ek.
  - by apply (Hr (fun x => c_true o && (0 <? mmo_refcount x) && bool_decide (mmo_ops x = anon_mmobj_ops))).
  - by apply (Hr (fun x => c_true o && (0 <? mmo_refcount x) && bool_decide (mmo_ops x = shadow_mmobj_ops))).
  - destruct (file_ref_ok s o x Hx Ek) as [n E']. rewrite E in E'. simplify_eq. by apply (grows_upd o x).
Qed.

Lemma grows_slab k s i s' : slab_alloc k s = Ok i s' -> grows s s'.
Proof.
  unfold slab_alloc. intros (z & s1 & E & E')%bind_Ok_inv. cbv in E. simplify_eq.
  destruct (slab_obj_alloc k (lowmem s1)) as [p lm]. rewrite modify_bind in E'. cbv [mret M_ret] in E'. simplify_eq. apply grows_lowmem.
Qed.

Lemma grows_olink_insert s s' o i : olink_insert o i s = Ok tt s' -> grows s s'.
Proof.
  unfold olink_insert. intros (x & s1 & [Hx ->]%obj_inv & ([] & s2 & (y & Hy & ->)%upd_obj_inv & E)%bind_Ok_inv)%bind_Ok_inv.
  unfold modify in E. simplify_eq. etransitivity; [by apply (grows_upd (mmobj_bottom o x) y (set_vmas (mmo_vmas y ++ [i]) y))|]. split_and!; eauto.
Qed.

Lemma grows_olink_remove s s' i : olink_remove i s = Ok tt s' -> grows s s'.
Proof.
  unfold olink_remove. intros (z & s1 & E & E')%bind_Ok_inv. cbv in E. simplify_eq.
  apply bind_Ok_inv in E' as (b & s2 & [_ ->]%deref_Ok_inv & E'). rewrite modify_bind in E'.
  destruct (mmobjs s1 !! b) as [x|] eqn:Hx; unfold modify in E'; simplify_eq; [|split_and!; eauto].
  transitivity (set_mmobjs (insert b (set_vmas (unlink i (mmo_vmas x)) x)) s1); [by apply (grows_upd b x)|]. split_and!; eauto.
Qed.

Lemma grows_shadow L I R s s1 s2 sh o : safe L I R s -> shadow_create s = Ok sh s1 -> shadow_over sh o s1 = Ok tt s2 ->
  ~ is_Some (mmobjs s !! sh) /\ grows s s2 /\ shadows sh o s2.
Proof.
  intros Hi. unfold shadow_create. rewrite get_bind. destruct (slab_obj_alloc ShadowSlab (lowmem s)) as [p lm] eqn:E.
  rewrite modify_bind. destruct (Z.eqb_spec p NULL) as [->|Hn]; [done|]. rewrite modify_bind. intros [= <- <-].
  apply slab_alloc_spec in E as [[? _]|(_ & Hni & _)]; [done|].
  assert (mmobjs s !! p = None) as Hp. { apply eq_None_not_Some. intros [z Hz]. by eapply fresh_obj. }
  unfold shadow_over. intros ([] & s3 & (x1 & Hx1 & ->)%upd_obj_inv & E)%bind_Ok_inv.
  apply bind_Ok_inv in E as (y & s4 & [Hy ->]%obj_inv & (x2 & Hx2 & ->)%upd_obj_inv).
  cbn in Hx1, Hx2. rewrite !lookup_insert_eq in *. simplify_eq.
  destruct (mmobj_init_spec shadow_mmobj_ops) as (K1 & _). split_and!.
  - rewrite Hp. by intros [? ?].
  - split_and!; [done..|]. intros k x Hx. cbn. rewrite !lookup_insert_ne by congruence. eauto.
  - eexists. split_and!; [apply (lookup_insert_eq (<[p:=_]> (<[p:=_]> (mmobjs s))))|cbn; congruence|done|].
    intros n k (f & Hf & Ef & _). destruct (pg_frames _ (mi_page _ _ _ _ _ _ _ Hi) k f Hf) as (_ & _ & _ & _ & _ & z & Hz & _). congruence.
Qed.

#[export] Instance mm_grow : MmGrow (mm LM).
Proof.
  refine {| mm_grows := grows; mm_shadows := shadows |}.
  - intros s s' o (_ & _ & H) [x Hx]. destruct (H o x Hx) as (x' & ? & _). by exists x'.
  - intros s s' sh o Hg (x & Hx & Hk & Hs & Ha). pose proof Hg as (_ & _ & H). destruct (H sh x Hx) as (x' & Hx' & ? & ?).
    exists x'. split_and!; [done|congruence..|]. intros n. by eapply grows_absent.
  - apply grows_ref.
  - intros s s' i. apply grows_slab.
  - intros s s' i. apply grows_slab.
  - apply grows_olink_insert.
  - apply grows_olink_remove.
  - apply grows_shadow.
Defined.

Lemma grows_chain s s' o b : grows s s' -> anon_chain s o b -> anon_chain s' o b.
Proof.
  intros (_ & _ & H). induction 1 as [o x Hx Hk|o x b Hx Hk _ IH]; destruct (H o x Hx) as (x' & Hx' & Ek & Es).
  - apply (chain_anon s' o x'); congruence.
  - apply (chain_shadow s' o x'); [done|congruence|by rewrite Es].
Qed.
End ForkCow.

(** ** What parent and child see *)

Section Views.
Context {LM : Type} `{P : Platform} `{!PlatformOk P} `{!LowMem LM} {HHdr0 : MmobjHeader}.
Context {HLow : LowMemOk (LM:=LM)} {HHdr : MmobjHeaderOk} {HFile : FileOps (LM:=LM)} {HFileOk : FileOpsOk}.
Implicit Types (s : vm (MM := mm LM)) (R : gmultiset Z) (F : list Z).

(** C22. The address space fork makes has the areas of the parent's, in order and
    with the same bounds, offsets, protections and flags, and both show through
    every area the pages the parent saw before; the invariants of address spaces
    and of reference counts hold again. It fails only when an allocation fails. *)
Theorem fork_shows m s v F R :
  vm_ok F R s -> vm_maps s !! m = Some v ->
  (exists c lp lc s', fork_vmmap m s = Ok c s' /\ vm_ok F R s' /\ vm_maps s !! c = None /\
    vm_maps s' = <[c := Vmmap lc NULL]> (<[m := Vmmap lp (vmm_proc v)]> (vm_maps s)) /\
    length lp = length (vmm_list v) /\ length lc = length (vmm_list v) /\
    forall i a, vmm_list v !! i = Some a -> exists p b, lp !! i = Some p /\ lc !! i = Some b /\
      p = set_obj (vma_obj p) a /\ clone_of c a (set_obj NULL b) /\
      forall n bytes, view (vm_mm s) (vma_obj a) n bytes ->
        view (vm_mm s') (vma_obj p) n bytes /\ view (vm_mm s') (vma_obj b) n bytes) \/
  (exists s', fork_vmmap m s = Halt NullDeref s' /\ alloc_failed (vm_mm s')) \/
  (exists s', vmmap_create s = Ok NULL s').
Proof.
  intros Hok Hm. destruct (fork_vm_ok m s v F R Hok Hm) as [(c & lp & lc & s' & E & Hok' & Hc & _ & Em & Hlp & Hlc & Hg & Hf)|?]; [left|by right].
  exists c, lp, lc, s'. split_and!; [done..|]. intros i a Ha. destruct (Hf i a Ha) as (p & b & Hp & Hb & E1 & E2 & E3).
  exists p, b. split_and!; [done..|]. intros n bytes Hv. apply (grows_view _ _ _ _ _ Hg) in Hv. unfold forked_obj in E3.
  destruct (_ =? _); [destruct E3 as (_ & Sp & Sb)|by destruct E3 as [-> ->]].
  split; [exact (shadows_view _ _ _ _ _ Sp Hv)|exact (shadows_view _ _ _ _ _ Sb Hv)].
Qed.

Lemma fork_returns m s c c' s' s1 : fork_vmmap m s = Ok c s' -> vmmap_create s = Ok c' s1 -> c = c'.
Proof.
  unfold fork_vmmap, vmmap_clone. intros E E1. rewrite bind_assoc, (bind_ok _ _ _ _ _ E1), bind_assoc in E.
  apply bind_Ok_inv in E as (w & s2 & _ & E). rewrite bind_assoc in E. apply bind_Ok_inv in E as (u & s3 & _ & E).
  rewrite ret_bind in E. do 1 (apply bind_Ok_inv in E as (? & ? & _ & E)). cbv in E. by simplify_eq.
Qed.

End Views.
