(* ===== verification/ForkRun.v ===== *)
(** The address space of [VmmapRun] forked: its private areas are shadowed. *)
From S2P Require Import Prelude.
From S2P Require Import Platform.
From S2P Require Import MmIface.
From S2P Require Import Mm.
From S2P Require Import MmInv.
From S2P Require Import MmPut.
From S2P Require Import MmSafe.
From S2P Require Import MmLookup.
From S2P Require Import MmCow.
From S2P Require Import Demo.
From S2P Require Import Vmmap.
From S2P Require Import Areas.
From S2P Require Import VmmapFacts.
From S2P Require Import VmmapThms.
From S2P Require Import VmmapRun.
From S2P Require Import UserRun.
From S2P Require Import ForkVm.
From S2P Require Import ForkCow.
Open Scope Z_scope.

Lemma fork_shows_witness : exists c lc s', fork_vmmap 1 vm3 = Ok c s' /\ vm_ok [] ∅ s' /\
  vm_maps s' !! c = Some (Vmmap lc NULL) /\ length lc = length areas3.
Proof.
  destruct (fork_shows 1 vm3 (Vmmap areas3 NULL) [] ∅ vm3_ok vm3_map) as [(c & lp & lc & s' & E & Hok & _ & Em & _ & Hl & _)|[(s' & E & _)|(s' & E)]].
  - exists c, lc, s'. split_and!; [exact E|exact Hok|rewrite Em; apply lookup_insert_eq|exact Hl].
  - vm_compute in E. discriminate E.
  - vm_compute in E. discriminate E.
Defined.

(** Parent and child after the fork. *)
Definition forked_vm : vm (MM := mm machine) := Eval vm_compute in out_state (fork_vmmap 1 vm3).

Lemma fork_returned : fork_vmmap 1 vm3 = Ok 7 forked_vm.
Proof. vm_compute. reflexivity. Qed.

