(* ===== verification/Vfs.v ===== *)
(** Paths, open files and the file system calls: [fs/namev.c], [fs/open.c],
    [fs/vfs_syscall.c].

    The file table ([fget], [fput]), the vnode table ([vref], [vput]) and the
    operations of the file systems are not in the repository and are parameters
    ([VfsOps]), as are the constants of the headers ([VfsConst]).

    A C string is the list of its bytes without the final NUL; a [char *] into a
    string is the rest of the string from there, so [take namelen name] is what a
    pair of [name] and [namelen] stands for. *)
From S2P Require Import Prelude.
From S2P Require Import Platform.
Open Scope Z_scope.

Definition NULLP : Z := 0.
Notation cstring := (list Z).
Definition slash : Z := 47.
Definition dot : Z := 46.

Class VfsConst := {
  FMODE_READ : Z; FMODE_WRITE : Z; FMODE_APPEND : Z;
  O_RDONLY : Z; O_WRONLY : Z; O_RDWR : Z; O_CREAT : Z; O_APPEND : Z;
  SEEK_SET : Z; SEEK_CUR : Z; SEEK_END : Z;
  NAME_LEN : Z; sizeof_dirent : Z;
  S_ISDIR : Z -> bool; S_ISCHR : Z -> bool; S_ISBLK : Z -> bool; S_ISREG : Z -> bool
}.

(** Which entries of [vn_ops] are there. *)
Inductive vop := Vread | Vwrite | Vcreate | Vmknod | Vlookup | Vlink | Vunlink | Vmkdir | Vrmdir | Vreaddir | Vstat.
#[global] Instance vop_eq_dec : EqDecision vop.
Proof. solve_decision. Defined.

Record vnode := Vnode { vn_mode : Z; vn_len : Z; vn_refcount : Z; vn_ops : list vop }.
Record file := File { f_mode : Z; f_pos : Z; f_refcount : Z; f_vnode : Z }.

Section Vfs.
Context {FS : Type}.

Record vfs := Vfs {
  files : gmap Z file;
  vnodes : gmap Z vnode;
  p_files : list Z;      (* of the current process *)
  p_cwd : Z;
  vfs_root_vn : Z;
  fs_state : FS
}.

Definition set_files (f : gmap Z file -> gmap Z file) (s : vfs) : vfs :=
  Vfs (f (files s)) (vnodes s) (p_files s) (p_cwd s) (vfs_root_vn s) (fs_state s).
Definition set_vnodes (f : gmap Z vnode -> gmap Z vnode) (s : vfs) : vfs :=
  Vfs (files s) (f (vnodes s)) (p_files s) (p_cwd s) (vfs_root_vn s) (fs_state s).
Definition set_p_files (l : list Z) (s : vfs) : vfs :=
  Vfs (files s) (vnodes s) l (p_cwd s) (vfs_root_vn s) (fs_state s).
Definition set_p_cwd (v : Z) (s : vfs) : vfs :=
  Vfs (files s) (vnodes s) (p_files s) v (vfs_root_vn s) (fs_state s).

(** fs/file.h, fs/vnode.h and the file systems; [name_match] is in util/string.h. *)
Class VfsOps := {
  fget : Z -> M vfs Z;
  fput : Z -> M vfs unit;
  vref : Z -> M vfs unit;
  vput : Z -> M vfs unit;
  vn_read : Z -> Z -> Z -> M vfs (Z * list Z);
  vn_write : Z -> Z -> list Z -> Z -> M vfs Z;
  vn_create : Z -> cstring -> M vfs (Z * Z);
  vn_mknod : Z -> cstring -> Z -> Z -> M vfs Z;
  vn_lookup : Z -> cstring -> M vfs (Z * Z);
  vn_link : Z -> Z -> cstring -> M vfs Z;
  vn_unlink : Z -> cstring -> M vfs Z;
  vn_mkdir : Z -> cstring -> M vfs Z;
  vn_rmdir : Z -> cstring -> M vfs Z;
  vn_readdir : Z -> Z -> M vfs (Z * list Z);
  vn_stat : Z -> M vfs (Z * list Z);
  name_match : cstring -> cstring -> bool
}.

Context `{P : Platform} {K : VfsConst} {V : VfsOps}.

Definition file_at (f : Z) : M vfs file := s ← get; deref (files s !! f).
Definition vnode_at (v : Z) : M vfs vnode := s ← get; deref (vnodes s !! v).
Definition set_f_pos (p : Z) (x : file) : file := File (f_mode x) p (f_refcount x) (f_vnode x).
Definition set_f_mode (m : Z) (x : file) : file := File m (f_pos x) (f_refcount x) (f_vnode x).
Definition set_f_vnode (v : Z) (x : file) : file := File (f_mode x) (f_pos x) (f_refcount x) v.
Definition set_f_refcount (n : Z) (x : file) : file := File (f_mode x) (f_pos x) n (f_vnode x).
Definition upd_file (f : Z) (g : file -> file) : M vfs unit :=
  x ← file_at f; modify (set_files (insert f (g x))).
(** A call through an entry of [vn_ops] that may be NULL. *)
Definition vcall {A} (v : Z) (op : vop) (m : M vfs A) : M vfs A :=
  x ← vnode_at v; if decide (op ∈ vn_ops x) then m else stop NullDeref.
(** [curproc->p_files[fd]] *)
Definition p_file (fd : Z) : M vfs Z :=
  s ← get;
  if 0 <=? fd then match p_files s !! Z.to_nat fd with Some f => mret f | None => stop BadIndex end
  else stop BadIndex.
Definition set_p_file (fd f : Z) : M vfs unit :=
  p_file fd;; modify (fun s => set_p_files (<[Z.to_nat fd := f]> (p_files s)) s).

(** ** fs/namev.c *)

(** The result and the vnode, [NULLP] when there is none; [name] is [Some] of the
    bytes, or [None] for a NULL pointer. *)
Definition lookup (dir : Z) (name : option cstring) (len : Z) : M vfs (Z * Z) :=
  kassert (c_true dir);;
  match name with
  | None => stop KAssert
  | Some nm =>
      d ← vnode_at dir;
      if decide (Vlookup ∈ vn_ops d) then vn_lookup dir (take (Z.to_nat len) nm)
      else mret (- ENOTDIR, NULLP)
  end.

(** The pieces between the slashes. *)
Fixpoint split_path (l : cstring) : cstring * list cstring :=
  match l with
  | [] => ([], [])
  | c :: l =>
      let (h, t) := split_path l in
      if c =? slash then ([], h :: t) else (c :: h, t)
  end.

(** The bytes up to the first NUL. *)
Fixpoint until_nul (l : list Z) : cstring :=
  match l with
  | [] => []
  | c :: l => if c =? 0 then [] else c :: until_nul l
  end.

(** [components] of [dir_namev]: the loop looks for slashes from index 1 on.  For
    an empty path that is behind the end of the copy; [tail] is what memory holds
    there. *)
Definition components (path tail : cstring) : list cstring :=
  match path with
  | [] => [] :: (split_path (until_nul tail)).2
  | c :: rest => let (h, t) := split_path rest in (c :: h) :: t
  end.

Fixpoint is_prefix (a b : cstring) : bool :=
  match a, b with
  | [], _ => true
  | x :: a, y :: b => (x =? y) && is_prefix a b
  | _ :: _, [] => false
  end.
(** [strstr(s, t)] *)
Fixpoint strstr (s t : cstring) : option cstring :=
  if is_prefix t s then Some s
  else match s with [] => None | _ :: s => strstr s t end.

(** The loop of [dir_namev] over the components but the last: the vnode reached,
    or the error. *)
Fixpoint resolve (curr_base prev : Z) (comps : list cstring) : M vfs (Z + Z) :=
  match comps with
  | [] => mret (inr curr_base)
  | c :: comps =>
      match c with
      | [] => resolve curr_base prev comps
      | _ =>
          r ← lookup curr_base (Some c) (Z.of_nat (length c));
          if r.1 <? 0 then
            when (c_true prev) (vput prev);;
            mret (inl r.1)
          else
            when (c_true prev) (vput prev);;
            x ← vnode_at r.2;
            if negb (S_ISDIR (vn_mode x)) then vput r.2;; mret (inl (- ENOTDIR))
            else resolve r.2 r.2 comps
      end
  end.

Record namev := Namev { nv_ret : Z; nv_len : Z; nv_name : option cstring; nv_vnode : Z }.

Definition dir_namev (tail pathname : cstring) (base : Z) : M vfs namev :=
  s ← get;
  let absolute := match pathname with c :: _ => c =? slash | [] => false end in
  let path_to_resolve := if absolute then tl pathname else pathname in
  let curr_base := if absolute then vfs_root_vn s else if c_true base then base else p_cwd s in
  kassert (c_true curr_base);;
  let comps := components path_to_resolve tail in
  (if (50 <? length comps)%nat then stop BadIndex else mret tt);;
  match reverse comps with
  | [] => stop BadIndex
  | last :: init =>
      let name := strstr pathname last in
      match init with
      | [] => vref curr_base;; mret (Namev 0 (Z.of_nat (length last)) name curr_base)
      | _ =>
          r ← resolve curr_base NULLP (reverse init);
          match r with
          | inl err => mret (Namev err 0 None NULLP)
          | inr v => mret (Namev 0 (Z.of_nat (length last)) name v)
          end
      end
  end.

(** The byte [name[i]] of a string that goes on to the final NUL. *)
Definition byte_at (s : cstring) (i : Z) : Z := default 0 (s !! Z.to_nat i).

Definition open_namev (tail pathname : cstring) (flag base : Z) : M vfs (Z * Z) :=
  d ← dir_namev tail pathname base;
  if c_true (nv_ret d) then mret (nv_ret d, NULLP) else
  name ← deref (nv_name d);
  if (nv_len d =? 0) || (byte_at name 0 =? 0) then mret (0, nv_vnode d) (* strncmp(file_name, "", file_len) *)
  else
    r ← lookup (nv_vnode d) (Some name) (nv_len d);
    if c_true r.1 then
      if c_true (Z.land flag O_CREAT) && (r.1 =? - ENOENT) then
        x ← vnode_at (nv_vnode d);
        kassert (bool_decide (Vcreate ∈ vn_ops x));;
        q ← vn_create (nv_vnode d) (take (Z.to_nat (nv_len d)) name);
        vput (nv_vnode d);;
        mret (if c_true q.1 then (q.1, NULLP) else (0, q.2))
      else vput (nv_vnode d);; mret (r.1, r.2)
    else if byte_at name (nv_len d) =? slash then
      x ← vnode_at r.2;
      if negb (S_ISDIR (vn_mode x)) then
        vput (nv_vnode d);; vput r.2;; mret (- ENOTDIR, r.2)
      else vput (nv_vnode d);; mret (0, r.2)
    else vput (nv_vnode d);; mret (0, r.2).

(** ** fs/open.c *)

Fixpoint first_empty (fd : Z) (l : list Z) : option Z :=
  match l with
  | [] => None
  | f :: l => if f =? NULLP then Some fd else first_empty (fd + 1) l
  end.
Definition get_empty_fd : M vfs Z :=
  s ← get; mret (match first_empty 0 (p_files s) with Some fd => fd | None => - EMFILE end).

Definition mode_of (oflags : Z) : Z :=
  let rw := Z.land oflags 3 in
  let m := 0 in
  let m := if rw =? O_RDONLY then Z.lor m FMODE_READ else m in
  let m := if rw =? O_WRONLY then Z.lor m FMODE_WRITE else m in
  let m := if rw =? O_RDWR then Z.lor (Z.lor m FMODE_READ) FMODE_WRITE else m in
  if c_true (Z.land oflags O_APPEND) then Z.lor m FMODE_APPEND else m.

Definition do_open (tail filename : cstring) (oflags : Z) : M vfs Z :=
  if c_true (Z.land oflags O_WRONLY) && c_true (Z.land oflags O_RDWR) then mret (- EINVAL)
  else if NAME_LEN <? Z.of_nat (length filename) then mret (- ENAMETOOLONG)
  else
    fd ← get_empty_fd;
    file ← fget (-1);
    set_p_file fd file;;
    upd_file file (set_f_mode (mode_of oflags));;
    r ← open_namev tail filename oflags NULLP;
    if c_true r.1 then fput file;; set_p_file fd NULLP;; mret r.1
    else
      upd_file file (set_f_vnode r.2);;
      x ← vnode_at r.2;
      if S_ISDIR (vn_mode x) && ((Z.land oflags 3 =? O_WRONLY) || (Z.land oflags 3 =? O_RDWR)) then
        fput file;; set_p_file fd NULLP;; mret (- EISDIR)
      else
        upd_file file (set_f_refcount 1);;
        upd_file file (set_f_pos 0);;
        mret fd.

(** ** fs/vfs_syscall.c: calls on open files *)

Definition do_read (fd nbytes : Z) : M vfs (Z * list Z) :=
  f ← fget fd;
  if c_true f then
    x ← file_at f;
    if f_mode x =? 0 then fput f;; mret (- EBADF, [])
    else if (f_mode x =? FMODE_WRITE) || (f_mode x =? Z.land FMODE_WRITE FMODE_APPEND) then
      fput f;; mret (- EBADF, [])
    else
      v ← vnode_at (f_vnode x);
      if S_ISDIR (vn_mode v) then fput f;; mret (- EISDIR, [])
      else
        res ← vcall (f_vnode x) Vread (vn_read (f_vnode x) (f_pos x) nbytes);
        when (0 <? res.1) (upd_file f (fun x => set_f_pos (s32 (f_pos x + res.1)) x));;
        fput f;;
        mret res
  else mret (- EBADF, []).

Definition do_lseek (fd offset whence : Z) : M vfs Z :=
  if negb (whence =? SEEK_SET) && negb (whence =? SEEK_CUR) && negb (whence =? SEEK_END) then mret (- EINVAL)
  else
    f ← fget fd;
    if c_true f then
      x ← file_at f;
      if f_mode x =? 0 then fput f;; mret (- EBADF)
      else
        v ← (if whence =? SEEK_END then vnode_at (f_vnode x) else mret (Vnode 0 0 0 []));
        let pos :=
          if whence =? SEEK_SET then offset
          else if whence =? SEEK_CUR then s32 (f_pos x + offset)
          else s32 (vn_len v + offset) in
        if pos <? 0 then fput f;; mret (- EINVAL)
        else
          upd_file f (set_f_pos pos);;
          fput f;;
          y ← file_at f;
          mret (f_pos y)
    else mret (- EBADF).

Definition do_write (fd : Z) (buf : list Z) (nbytes : Z) : M vfs Z :=
  f ← fget fd;
  if c_true f then
    x ← file_at f;
    if f_mode x =? 0 then fput f;; mret (- EBADF)
    else if negb (c_true (Z.land (f_mode x) FMODE_APPEND)) && negb (c_true (Z.land (f_mode x) FMODE_WRITE)) then
      fput f;; mret (- EBADF)
    else
      (if c_true (Z.land (f_mode x) FMODE_APPEND) then do_lseek fd 0 SEEK_END else do_lseek fd 0 SEEK_CUR);;
      x ← file_at f;
      res ← vcall (f_vnode x) Vwrite (vn_write (f_vnode x) (f_pos x) buf nbytes);
      when (0 <? res)
        (upd_file f (fun x => set_f_pos (s32 (f_pos x + res)) x);;
         y ← file_at f;
         v ← vnode_at (f_vnode y);
         kassert (S_ISCHR (vn_mode v) || S_ISBLK (vn_mode v) ||
                  (S_ISREG (vn_mode v) && (f_pos y <=? vn_len v))));;
      fput f;;
      mret res
  else mret (- EBADF).

Definition do_close (fd : Z) : M vfs Z :=
  f ← fget fd;
  if f =? NULLP then mret (- EBADF)
  else
    x ← file_at f;
    if f_mode x =? 0 then fput f;; mret (- EBADF)
    else
      fput f;;
      set_p_file fd NULLP;;
      fput f;;
      mret 0.

Definition do_dup (fd : Z) : M vfs Z :=
  f ← fget fd;
  if f =? NULLP then mret (- EBADF)
  else
    x ← file_at f;
    if f_mode x =? 0 then fput f;; mret (- EBADF)
    else
      nfd ← get_empty_fd;
      set_p_file nfd f;;
      mret nfd.

Definition do_dup2 (ofd nfd : Z) : M vfs Z :=
  if (ofd <? 0) || (MAX_FILES <=? ofd) || (nfd <? 0) || (MAX_FILES <=? nfd) then mret (- EBADF)
  else
    f ← fget ofd;
    if f =? NULLP then mret (- EBADF)
    else
      x ← file_at f;
      if f_mode x =? 0 then fput f;; mret (- EBADF)
      else
        g ← p_file nfd;
        if c_true g && (nfd =? ofd) then fput f;; mret nfd
        else if g =? NULLP then set_p_file nfd f;; mret nfd
        else mret nfd.

(** The result and the directory entry read. *)
Definition do_getdent (fd : Z) : M vfs (Z * list Z) :=
  f ← fget fd;
  if f =? NULLP then mret (- EBADF, [])
  else
    x ← file_at f;
    if f_mode x =? 0 then fput f;; mret (- EBADF, [])
    else
      v ← vnode_at (f_vnode x);
      if decide (Vreaddir ∉ vn_ops v) then fput f;; mret (- ENOTDIR, [])
      else
        r ← vn_readdir (f_vnode x) (f_pos x);
        if c_true r.1 then
          upd_file f (fun x => set_f_pos (s32 (f_pos x + r.1)) x);;
          fput f;;
          mret (sizeof_dirent, r.2)
        else fput f;; mret (0, []).

(** ** fs/vfs_syscall.c: calls on paths *)

Definition do_mknod (tail path : cstring) (mode devid : Z) : M vfs Z :=
  d ← dir_namev tail path NULLP;
  x ← vnode_at (nv_vnode d);
  kassert (bool_decide (Vmknod ∈ vn_ops x));;
  r ← lookup (nv_vnode d) (nv_name d) (nv_len d);
  if r.1 =? - ENOENT then
    name ← deref (nv_name d);
    ret ← vn_mknod (nv_vnode d) (take (Z.to_nat (nv_len d)) name) mode devid;
    vput (nv_vnode d);;
    mret ret
  else stop PanicCall.

Definition do_mkdir (tail path : cstring) : M vfs Z :=
  d ← dir_namev tail path NULLP;
  if nv_ret d <? 0 then mret (nv_ret d)
  else if NAME_LEN <? nv_len d then vput (nv_vnode d);; mret (- ENAMETOOLONG)
  else if nv_len d =? 0 then vput (nv_vnode d);; mret (- EEXIST)
  else
    x ← vnode_at (nv_vnode d);
    if negb (S_ISDIR (vn_mode x)) then vput (nv_vnode d);; mret (- ENOTDIR)
    else
      kassert (bool_decide (Vmkdir ∈ vn_ops x));;
      r ← lookup (nv_vnode d) (nv_name d) (nv_len d);
      if 0 <=? r.1 then vput r.2;; vput (nv_vnode d);; mret (- EEXIST)
      else if r.1 =? - ENOENT then
        name ← deref (nv_name d);
        ret ← vn_mkdir (nv_vnode d) (take (Z.to_nat (nv_len d)) name);
        vput (nv_vnode d);;
        mret ret
      else stop PanicCall.

Definition do_rmdir (tail path : cstring) : M vfs Z :=
  d ← dir_namev tail path NULLP;
  if nv_ret d <? 0 then mret (nv_ret d)
  else
    x ← vnode_at (nv_vnode d);
    if negb (S_ISDIR (vn_mode x)) then vput (nv_vnode d);; mret (- ENOTDIR)
    else
      name ← deref (nv_name d);
      let nm := take (Z.to_nat (nv_len d)) name in
      if name_match [dot] nm then vput (nv_vnode d);; mret (- EINVAL)
      else if name_match [dot; dot] nm then vput (nv_vnode d);; mret (- ENOTEMPTY)
      else
        kassert (bool_decide (Vrmdir ∈ vn_ops x));;
        ret ← vn_rmdir (nv_vnode d) nm;
        vput (nv_vnode d);;
        mret ret.

Definition do_unlink (tail path : cstring) : M vfs Z :=
  d ← dir_namev tail path NULLP;
  if c_true (nv_ret d) then mret (nv_ret d)
  else
    r ← lookup (nv_vnode d) (nv_name d) (nv_len d);
    if r.1 <? 0 then vput (nv_vnode d);; mret r.1
    else
      y ← vnode_at r.2;
      if S_ISDIR (vn_mode y) then vput (nv_vnode d);; vput r.2;; mret (- EPERM)
      else
        x ← vnode_at (nv_vnode d);
        kassert (bool_decide (Vunlink ∈ vn_ops x));;
        name ← deref (nv_name d);
        ret ← vn_unlink (nv_vnode d) (take (Z.to_nat (nv_len d)) name);
        vput (nv_vnode d);;
        vput r.2;;
        mret ret.

Definition do_link (tail from to : cstring) : M vfs Z :=
  r ← open_namev tail from O_CREAT NULLP;
  if c_true r.1 then mret r.1
  else
    x ← vnode_at r.2;
    if S_ISDIR (vn_mode x) then vput r.2;; mret (- EPERM)
    else
      d ← dir_namev tail to NULLP;
      if c_true (nv_ret d) then vput r.2;; mret (nv_ret d)
      else if NAME_LEN <? nv_len d then vput r.2;; vput (nv_vnode d);; mret (- ENAMETOOLONG)
      else
        q ← lookup (nv_vnode d) (nv_name d) (nv_len d);
        if c_true q.2 && (q.1 =? 0) then
          vput r.2;; vput (nv_vnode d);; vput q.2;; mret (- EEXIST)
        else
          name ← deref (nv_name d);
          ret ← vcall (nv_vnode d) Vlink (vn_link r.2 (nv_vnode d) (take (Z.to_nat (nv_len d)) name));
          vput r.2;;
          vput (nv_vnode d);;
          mret ret.

Definition do_rename (tail oldname newname : cstring) : M vfs Z := do_link tail oldname newname.

Definition do_chdir (tail path : cstring) : M vfs Z :=
  d ← dir_namev tail path NULLP;
  r ← lookup (nv_vnode d) (nv_name d) (nv_len d);
  if r.1 <? 0 then vput (nv_vnode d);; mret r.1
  else
    y ← vnode_at r.2;
    if negb (S_ISDIR (vn_mode y)) then vput r.2;; vput (nv_vnode d);; mret (- ENOTDIR)
    else
      vput (nv_vnode d);;
      s ← get;
      vput (p_cwd s);;
      modify (set_p_cwd r.2);;
      mret 0.

(** The result and the contents of [buf]; the path is not NULL. *)
Definition do_stat (tail path : cstring) : M vfs (Z * list Z) :=
  match path with
  | [] => mret (- EINVAL, [])
  | _ =>
      d ← dir_namev tail path NULLP;
      if nv_ret d <? 0 then mret (nv_ret d, [])
      else
        let name := if nv_len d =? 0 then Some [dot] else nv_name d in
        let len := if nv_len d =? 0 then 1 else nv_len d in
        r ← lookup (nv_vnode d) name len;
        if (r.1 =? - ENOTDIR) || (r.1 =? - ENOENT) then vput (nv_vnode d);; mret (r.1, [])
        else
          y ← vnode_at r.2;
          kassert (bool_decide (Vstat ∈ vn_ops y));;
          st ← vn_stat r.2;
          when (c_true (nv_vnode d)) (vput (nv_vnode d));;
          when (c_true r.2) (vput r.2);;
          mret (0, st.2)
  end.

(** [__MOUNTING__] *)
Definition do_mount (source target type : cstring) : M vfs Z := mret (- EINVAL).
Definition do_umount (target : cstring) : M vfs Z := mret (- EINVAL).
Definition lookup_name (dir entry : Z) : M vfs Z := mret (- ENOENT).
Definition lookup_dirpath (dir : Z) : M vfs Z := mret (- ENOENT).

End Vfs.
Arguments vfs : clear implicits.
