(* ===== verification/VnSpecial.v ===== *)
(** Device files: [fs/vn_special.c].

    A vnode of a device has one of two tables of operations, and the device behind it:
    the operations of a byte device pass the call on to its driver, a block device has
    only [stat].  Drivers, their tables and the file systems are not in the repository
    ([DevOps]). *)
From S2P Require Import Prelude.
From S2P Require Import Platform.
From S2P Require Import Vfs.
Open Scope Z_scope.

(** The functions the two tables point to. *)
Inductive special_fn :=
| special_read_fn | special_write_fn | special_mmap_fn | special_stat_fn | special_fillpage_fn | special_dirtypage_fn | special_cleanpage_fn.

(** vnode_ops_t: [None] is a NULL entry. *)
Record vnode_ops := VnodeOps {
  op_read : option special_fn; op_write : option special_fn; op_mmap : option special_fn;
  op_create : option special_fn; op_mknod : option special_fn; op_lookup : option special_fn; op_link : option special_fn;
  op_unlink : option special_fn; op_mkdir : option special_fn; op_rmdir : option special_fn; op_readdir : option special_fn;
  op_stat : option special_fn;
  op_fillpage : option special_fn; op_dirtypage : option special_fn; op_cleanpage : option special_fn
}.

Definition bytedev_spec_vops : vnode_ops := {|
  op_read := Some special_read_fn; op_write := Some special_write_fn; op_mmap := Some special_mmap_fn;
  op_create := None; op_mknod := None; op_lookup := None; op_link := None; op_unlink := None; op_mkdir := None; op_rmdir := None;
  op_readdir := None; op_stat := Some special_stat_fn;
  op_fillpage := Some special_fillpage_fn; op_dirtypage := Some special_dirtypage_fn; op_cleanpage := Some special_cleanpage_fn
|}.
Definition blockdev_spec_vops : vnode_ops := {|
  op_read := None; op_write := None; op_mmap := None;
  op_create := None; op_mknod := None; op_lookup := None; op_link := None; op_unlink := None; op_mkdir := None; op_rmdir := None;
  op_readdir := None; op_stat := Some special_stat_fn;
  op_fillpage := None; op_dirtypage := None; op_cleanpage := None
|}.

(** A vnode of a device, and the vnode of the root of the file system it is in. *)
Record dev_vnode := DevVnode { dv_mode : Z; dv_devid : Z; dv_ops : vnode_ops; dv_cdev : Z; dv_bdev : Z; dv_fs_root : Z }.
Definition set_byte (d : Z) (v : dev_vnode) : dev_vnode := DevVnode (dv_mode v) (dv_devid v) bytedev_spec_vops d (dv_bdev v) (dv_fs_root v).
Definition set_block (d : Z) (v : dev_vnode) : dev_vnode := DevVnode (dv_mode v) (dv_devid v) blockdev_spec_vops (dv_cdev v) d (dv_fs_root v).

(** drivers/bytedev.h, drivers/blockdev.h; a driver's table and each of its entries may
    be NULL, and so may the [stat] of a file system. *)
Class DevOps (S : Type) := {
  dev_vnodes : S -> gmap Z dev_vnode;
  set_dev_vnode : Z -> dev_vnode -> S -> S;
  bytedev_lookup : Z -> S -> Z;
  blockdev_lookup : Z -> S -> Z;
  has_cd_read : Z -> S -> bool;        (* cd_ops and cd_ops->read *)
  has_cd_write : Z -> S -> bool;
  cd_read : Z -> Z -> Z -> M S (Z * list Z);            (* device, offset, count; the bytes read *)
  cd_write : Z -> Z -> list Z -> Z -> M S Z;
  cd_mmap : Z -> Z -> Z -> M S (Z * Z);                 (* device, vnode, area; the object *)
  has_root_stat : Z -> S -> bool;
  root_stat : Z -> Z -> M S (Z * list Z)                (* root, vnode; the struct stat *)
}.

Section VnSpecial.
Context {C : VfsConst} {S : Type} `{!DevOps S}.

Definition dev_vnode_at (vn : Z) : M S dev_vnode := s ← get; deref (dev_vnodes s !! vn).

Definition init_special_vnode (vn : Z) : M S unit :=
  v ← dev_vnode_at vn;
  s ← get;
  if S_ISCHR (dv_mode v) then modify (set_dev_vnode vn (set_byte (bytedev_lookup (dv_devid v) s) v))
  else
    kassert (S_ISBLK (dv_mode v));;
    modify (set_dev_vnode vn (set_block (blockdev_lookup (dv_devid v) s) v)).

Definition special_file_stat (vn : Z) : M S (Z * list Z) :=
  v ← dev_vnode_at vn;
  s ← get;
  kassert (has_root_stat (dv_fs_root v) s);;
  root_stat (dv_fs_root v) vn.

Definition special_file_read (file offset count : Z) : M S (Z * list Z) :=
  kassert (c_true file);;
  v ← dev_vnode_at file;
  kassert (S_ISCHR (dv_mode v) || S_ISBLK (dv_mode v));;
  s ← get;
  kassert (c_true (dv_cdev v) && has_cd_read (dv_cdev v) s);;
  cd_read (dv_cdev v) (s32 offset) (s32 count).

Definition special_file_write (file offset : Z) (buf : list Z) (count : Z) : M S Z :=
  kassert (c_true file);;
  v ← dev_vnode_at file;
  kassert (S_ISCHR (dv_mode v) || S_ISBLK (dv_mode v));;
  s ← get;
  kassert (c_true (dv_cdev v) && has_cd_write (dv_cdev v) s);;
  cd_write (dv_cdev v) (s32 offset) buf (s32 count).

Definition special_file_mmap (file vma : Z) : M S (Z * Z) :=
  v ← dev_vnode_at file;
  cd_mmap (dv_cdev v) file vma.

(** NOT_YET_IMPLEMENTED, which prints. *)
Definition special_file_fillpage (file offset : Z) : M S Z := mret 0.
Definition special_file_dirtypage (file offset : Z) : M S Z := mret 0.
Definition special_file_cleanpage (file offset : Z) : M S Z := mret 0.

(** ** Calls through the tables *)

(** [vn->vn_ops->read(vn, offset, buf, count)], as [do_read] makes it *)
Definition call_read (vn offset count : Z) : M S (Z * list Z) :=
  v ← dev_vnode_at vn;
  match op_read (dv_ops v) with Some special_read_fn => special_file_read vn offset count | _ => stop NullDeref end.
Definition call_write (vn offset : Z) (buf : list Z) (count : Z) : M S Z :=
  v ← dev_vnode_at vn;
  match op_write (dv_ops v) with Some special_write_fn => special_file_write vn offset buf count | _ => stop NullDeref end.
Definition call_stat (vn : Z) : M S (Z * list Z) :=
  v ← dev_vnode_at vn;
  match op_stat (dv_ops v) with Some special_stat_fn => special_file_stat vn | _ => stop NullDeref end.

(** What the vnode table does with a changed vnode; looking up a driver does not depend
    on vnodes. *)
Class DevLaws := {
  dev_get vn v s : dev_vnodes (set_dev_vnode vn v s) = <[vn := v]> (dev_vnodes s);
  dev_read_kept vn v s d : has_cd_read d (set_dev_vnode vn v s) = has_cd_read d s /\ has_cd_write d (set_dev_vnode vn v s) = has_cd_write d s
}.
Context `{!DevLaws}.
Implicit Types (s : S).

Lemma dev_vnode_run {A} vn v s (f : dev_vnode -> M S A) : dev_vnodes s !! vn = Some v -> (dev_vnode_at vn ≫= f) s = f v s.
Proof. intros E. unfold dev_vnode_at, mbind, M_bind, get. by rewrite E. Qed.

(** The vnode of a byte device, once it is set up, reads and writes by its driver, with
    offset and count as 32-bit integers. *)
Theorem byte_device_calls vn v s : vn <> NULL -> dev_vnodes s !! vn = Some v -> S_ISCHR (dv_mode v) = true ->
  let d := bytedev_lookup (dv_devid v) s in
  d <> NULL -> has_cd_read d s = true -> has_cd_write d s = true ->
  exists s', init_special_vnode vn s = Ok tt s' /\ dev_vnodes s' = <[vn := set_byte d v]> (dev_vnodes s) /\
    (forall offset count, call_read vn offset count s' = cd_read d (s32 offset) (s32 count) s') /\
    (forall offset buf count, call_write vn offset buf count s' = cd_write d (s32 offset) buf (s32 count) s').
Proof.
  intros Hn Hv Hc d Hd Hr Hw. exists (set_dev_vnode vn (set_byte d v) s). set (s' := set_dev_vnode vn _ s).
  assert (dev_vnodes s' = <[vn := set_byte d v]> (dev_vnodes s)) as Es by apply dev_get.
  assert (dev_vnodes s' !! vn = Some (set_byte d v)) as Hv' by (rewrite Es; apply lookup_insert_eq).
  assert (c_true vn = true /\ c_true d = true) as [Cn Cd] by (unfold c_true; split; by apply negb_true_iff, Z.eqb_neq).
  destruct (dev_read_kept vn (set_byte d v) s d) as [Kr Kw]. rewrite Hr in Kr. rewrite Hw in Kw. split_and!; [|done| |].
  - unfold init_special_vnode. rewrite (dev_vnode_run _ _ _ _ Hv). unfold mbind, M_bind, get. rewrite Hc. done.
  - intros offset count. unfold call_read. rewrite (dev_vnode_run _ _ _ _ Hv'). cbn. unfold special_file_read.
    rewrite kassert_bind, (dev_vnode_run _ _ _ _ Hv'), kassert_bind, get_bind, kassert_bind by (cbn; by rewrite ?Cn, ?Hc, ?Cd, ?Kr). done.
  - intros offset buf count. unfold call_write. rewrite (dev_vnode_run _ _ _ _ Hv'). cbn. unfold special_file_write.
    rewrite kassert_bind, (dev_vnode_run _ _ _ _ Hv'), kassert_bind, get_bind, kassert_bind by (cbn; by rewrite ?Cn, ?Hc, ?Cd, ?Kw). done.
Qed.

(** A block device has no [read] in its table; called directly, [special_file_read] stops
    the kernel, although it is documented to return -ENOTSUP. *)
Theorem block_device_read_stops vn v s offset count : dev_vnodes s !! vn = Some v -> vn <> NULL ->
  S_ISCHR (dv_mode v) = false -> S_ISBLK (dv_mode v) = true -> dv_cdev v = NULL ->
  special_file_read vn offset count s = Halt KAssert s /\
  exists s', init_special_vnode vn s = Ok tt s' /\ call_read vn offset count s' = Halt NullDeref s'.
Proof.
  intros Hv Hn Hc Hb Hd. assert (c_true vn = true) as Cn by (by apply negb_true_iff, Z.eqb_neq). split.
  - unfold special_file_read.
    rewrite kassert_bind, (dev_vnode_run _ _ _ _ Hv), kassert_bind, get_bind by (by rewrite ?Cn, ?Hc, ?Hb). by rewrite Hd.
  - eexists. split.
    + unfold init_special_vnode. rewrite (dev_vnode_run _ _ _ _ Hv). unfold mbind, M_bind, get. rewrite Hc, Hb. reflexivity.
    + unfold call_read. erewrite dev_vnode_run; [|rewrite dev_get; apply lookup_insert_eq]. done.
Qed.
End VnSpecial.
