(* ===== verification/VfsThms.v ===== *)
(** Open files and paths: what the file system calls do to the file table, and
    that they balance the references they take. *)
From S2P Require Import Prelude.
From S2P Require Import Platform.
From S2P Require Import Vfs.
Open Scope Z_scope.

Section Thms.
Context {FS : Type} `{P : Platform} {HP : PlatformOk P} {K : VfsConst} {V : VfsOps (FS:=FS)}.
Implicit Types (s : vfs FS) (x : file).

(** File descriptor [fd] of the current process is open on file [f]. *)
Definition open_file s (fd f : Z) (x : file) : Prop :=
  0 <= fd /\ p_files s !! Z.to_nat fd = Some f /\ f <> NULLP /\ files s !! f = Some x.
Definition not_open s (fd : Z) : Prop :=
  fd < 0 \/ p_files s !! Z.to_nat fd = None \/ p_files s !! Z.to_nat fd = Some NULLP.

Definition vn_add (n v : Z) s : vfs FS :=
  set_vnodes (alter (fun y => Vnode (vn_mode y) (vn_len y) (vn_refcount y + n) (vn_ops y)) v) s.

(** What is left when the last reference to a file is dropped: the vnode it was
    opened on loses one. *)
Definition file_gone (f : Z) x s : vfs FS :=
  let s := if c_true (f_vnode x) then vn_add (-1) (f_vnode x) s else s in
  set_files (delete f) s.
(** The vnode of a file is there and referenced. *)
Definition file_vnode_ok s x : Prop :=
  f_vnode x = NULLP \/ exists y, vnodes s !! f_vnode x = Some y /\ 0 < vn_refcount y.

(** What the file table, the vnode table and [lookup] of a file system promise:
    the table [vnodes] has an entry for every file of the mounted file systems,
    with the reference count 0 where no one holds it. *)
Class VfsLaws := {
  fget_open s fd f x : open_file s fd f x ->
    fget fd s = Ok f (set_files (insert f (set_f_refcount (f_refcount x + 1) x)) s);
  fget_not_open s fd : fd <> -1 -> not_open s fd -> fget fd s = Ok NULLP s;
  (* a new file *)
  fget_new s : exists f, f <> NULLP /\ files s !! f = None /\
    fget (-1) s = Ok f (set_files (insert f (File 0 0 1 NULLP)) s);
  fput_shared s f x : files s !! f = Some x -> 1 < f_refcount x ->
    fput f s = Ok tt (set_files (insert f (set_f_refcount (f_refcount x - 1) x)) s);
  fput_last s f x : files s !! f = Some x -> f_refcount x = 1 -> file_vnode_ok s x ->
    fput f s = Ok tt (file_gone f x s);
  vref_eq s v y : vnodes s !! v = Some y -> vref v s = Ok tt (vn_add 1 v s);
  vput_eq s v y : vnodes s !! v = Some y -> 0 < vn_refcount y -> vput v s = Ok tt (vn_add (-1) v s);
  (* the entry of a directory: an error, or a vnode *)
  dirent : FS -> Z -> cstring -> Z + Z;
  dirent_err fs d nm e : dirent fs d nm = inl e -> e < 0;
  vn_lookup_eq s d nm : vn_lookup d nm s =
    match dirent (fs_state s) d nm with
    | inl e => Ok (e, NULLP) s
    | inr v => Ok (0, v) (vn_add 1 v s)
    end;
  modes_differ : FMODE_READ <> 0 /\ FMODE_WRITE <> 0;
  seeks_differ : SEEK_SET <> SEEK_CUR /\ SEEK_SET <> SEEK_END /\ SEEK_CUR <> SEEK_END
}.
Context {HV : VfsLaws}.

(** ** Reading the tables *)

Lemma file_at_bind {B} f x s (k : file -> M (vfs FS) B) :
  files s !! f = Some x -> (file_at f ≫= k) s = k x s.
Proof. intros Hf. unfold file_at. by rewrite bind_assoc, get_bind, (deref_bind _ x). Qed.
Lemma vnode_at_bind {B} v y s (k : vnode -> M (vfs FS) B) :
  vnodes s !! v = Some y -> (vnode_at v ≫= k) s = k y s.
Proof. intros Hf. unfold vnode_at. by rewrite bind_assoc, get_bind, (deref_bind _ y). Qed.
Lemma upd_file_eq f x g s :
  files s !! f = Some x -> upd_file f g s = Ok tt (set_files (insert f (g x)) s).
Proof. intros Hf. unfold upd_file. by rewrite (file_at_bind _ x). Qed.

Lemma set_files_id s f x : files s !! f = Some x -> set_files (insert f x) s = s.
Proof. intros Hf. destruct s. unfold set_files. cbn in *. by rewrite insert_id. Qed.
Lemma set_files_twice s f x y :
  set_files (insert f y) (set_files (insert f x) s) = set_files (insert f y) s.
Proof. destruct s. unfold set_files. cbn. by rewrite insert_insert_eq. Qed.

(** The reference [fget] takes is dropped by [fput]. *)
Lemma fput_after_fget s f x y :
  0 < f_refcount x -> f_refcount y = f_refcount x + 1 ->
  fput f (set_files (insert f y) s) = Ok tt (set_files (insert f (set_f_refcount (f_refcount x) y)) s).
Proof.
  intros Hx Hy. rewrite (fput_shared _ f y) by (cbn; (apply lookup_insert_eq || lia)).
  rewrite set_files_twice. by replace (f_refcount y - 1) with (f_refcount x) by lia.
Qed.
Lemma fput_undo s f x :
  files s !! f = Some x -> 0 < f_refcount x ->
  fput f (set_files (insert f (set_f_refcount (f_refcount x + 1) x)) s) = Ok tt s.
Proof.
  intros Hf Hx. rewrite (fput_after_fget s f x) by done. f_equal.
  replace (set_f_refcount _ _) with x by (by destruct x). by apply set_files_id.
Qed.

Lemma bind_ret_eq {A B} (m : M (vfs FS) A) (b : B) s a s' :
  m s = Ok a s' -> (m ;; mret b) s = Ok b s'.
Proof. intros E. by rewrite (bind_ok _ _ _ _ _ E). Qed.

(** ** Seeking *)

(** The new position, if there is one. *)
Definition seek_pos (x : file) (v : vnode) (offset whence : Z) : option Z :=
  let pos := if whence =? SEEK_SET then offset
    else if whence =? SEEK_CUR then s32 (f_pos x + offset) else s32 (vn_len v + offset) in
  if pos <? 0 then None else Some pos.

Lemma lseek_eq s fd f x v offset whence :
  open_file s fd f x -> f_mode x <> 0 -> 0 < f_refcount x -> vnodes s !! f_vnode x = Some v ->
  whence = SEEK_SET \/ whence = SEEK_CUR \/ whence = SEEK_END ->
  do_lseek fd offset whence s =
    match seek_pos x v offset whence with
    | Some pos => Ok pos (set_files (insert f (set_f_pos pos x)) s)
    | None => Ok (- EINVAL) s
    end.
Proof.
  intros Ho Hm Hr Hv Hw. pose proof Ho as (_ & _ & Hn & Hf). destruct seeks_differ as (D1 & D2 & D3).
  unfold do_lseek, seek_pos.
  assert (negb (whence =? SEEK_SET) && negb (whence =? SEEK_CUR) && negb (whence =? SEEK_END) = false) as ->.
  { destruct Hw as [-> | [-> | ->]]; rewrite Z.eqb_refl; cbn; by rewrite ?andb_false_r. }
  rewrite (bind_ok _ _ _ _ _ (fget_open s fd f x Ho)), (proj2 (c_true_spec f) Hn).
  set (x1 := set_f_refcount (f_refcount x + 1) x). set (s1 := set_files (insert f x1) s).
  rewrite (file_at_bind _ x1) by (cbn; apply lookup_insert_eq).
  change (f_mode x1) with (f_mode x). change (f_pos x1) with (f_pos x). change (f_vnode x1) with (f_vnode x).
  rewrite (proj2 (Z.eqb_neq _ _) Hm).
  assert (forall B (k : vnode -> M (vfs FS) B), exists v',
    ((if whence =? SEEK_END then vnode_at (f_vnode x) else mret (Vnode 0 0 0 [])) ≫= k) s1 = k v' s1 /\
    (whence = SEEK_END -> v' = v)) as Hvn.
  { intros B k. destruct (Z.eqb_spec whence SEEK_END).
    - exists v. by rewrite (vnode_at_bind _ v).
    - by eexists. }
  edestruct Hvn as (v' & E & Hv'). rewrite E. clear E Hvn.
  set (pos := if whence =? SEEK_SET then offset else _).
  assert (pos = if whence =? SEEK_SET then offset
    else if whence =? SEEK_CUR then s32 (f_pos x + offset) else s32 (vn_len v + offset)) as Hp.
  { unfold pos. destruct (Z.eqb_spec whence SEEK_SET); [done|]. destruct (Z.eqb_spec whence SEEK_CUR); [done|].
    rewrite Hv'; [done|]. naive_solver. }
  cbn zeta. rewrite <- Hp. destruct (pos <? 0).
  - by eapply bind_ret_eq, fput_undo.
  - rewrite (bind_ok _ _ _ _ _ (upd_file_eq f x1 _ s1 (lookup_insert_eq _ _ _))).
    unfold s1. rewrite set_files_twice.
    rewrite (bind_ok _ _ _ _ _ (fput_after_fget s f x (set_f_pos pos x1) Hr eq_refl)).
    rewrite (file_at_bind _ (set_f_pos pos x)); [by destruct x|].
    cbn. rewrite lookup_insert_eq. by destruct x.
Qed.

(** do_lseek computes the new position from the start, the current position or the
    length of the file in 32-bit arithmetic, sets and returns it if it is not
    negative, and otherwise returns EINVAL; no reference is kept. *)
Theorem do_lseek_moves s fd f x v offset whence :
  open_file s fd f x -> f_mode x <> 0 -> 0 < f_refcount x -> vnodes s !! f_vnode x = Some v ->
  whence = SEEK_SET \/ whence = SEEK_CUR \/ whence = SEEK_END ->
  (exists pos, 0 <= pos /\ seek_pos x v offset whence = Some pos /\
    do_lseek fd offset whence s = Ok pos (set_files (insert f (set_f_pos pos x)) s)) \/
  (seek_pos x v offset whence = None /\ do_lseek fd offset whence s = Ok (- EINVAL) s).
Proof.
  intros H1 H2 H3 H4 H5. rewrite (lseek_eq s fd f x v) by done.
  destruct (seek_pos x v offset whence) as [pos|] eqn:E; [left|by right].
  exists pos. split_and!; [|done|done]. unfold seek_pos in E. case_match; zify_bool; [done|]. by simplify_eq.
Qed.

(** ** Reading *)

(** What [do_read] answers without asking the file system. *)
Definition read_error (x : file) (v : vnode) : option Z :=
  if (f_mode x =? 0) || (f_mode x =? FMODE_WRITE) || (f_mode x =? Z.land FMODE_WRITE FMODE_APPEND) then Some (- EBADF)
  else if S_ISDIR (vn_mode v) then Some (- EISDIR) else None.


(** ** Closing and duplicating *)

Lemma p_file_eq s fd f : 0 <= fd -> p_files s !! Z.to_nat fd = Some f -> p_file fd s = Ok f s.
Proof.
  intros H0 Hf. unfold p_file. rewrite get_bind, Hf. by rewrite (proj2 (Z.leb_le _ _) H0).
Qed.
Lemma set_p_file_eq s fd f g :
  0 <= fd -> p_files s !! Z.to_nat fd = Some f ->
  set_p_file fd g s = Ok tt (set_p_files (<[Z.to_nat fd := g]> (p_files s)) s).
Proof. intros H0 Hf. unfold set_p_file. by rewrite (bind_ok _ _ _ _ _ (p_file_eq s fd f H0 Hf)). Qed.

Lemma close_cases s fd f x :
  open_file s fd f x -> f_mode x <> 0 -> 0 < f_refcount x -> file_vnode_ok s x ->
  do_close fd s = Ok 0
    (set_p_files (<[Z.to_nat fd := NULLP]> (p_files s))
       (if f_refcount x =? 1 then file_gone f x s
        else set_files (insert f (set_f_refcount (f_refcount x - 1) x)) s)).
Proof.
  intros Ho Hm Hr Hv. pose proof Ho as (H0 & Hp & Hn & Hf). unfold do_close.
  rewrite (bind_ok _ _ _ _ _ (fget_open s fd f x Ho)), (proj2 (Z.eqb_neq _ _) Hn).
  set (x1 := set_f_refcount (f_refcount x + 1) x).
  rewrite (file_at_bind _ x1) by (cbn; apply lookup_insert_eq).
  change (f_mode x1) with (f_mode x). rewrite (proj2 (Z.eqb_neq _ _) Hm).
  rewrite (bind_ok _ _ _ _ _ (fput_undo s f x Hf Hr)).
  rewrite (bind_ok _ _ _ _ _ (set_p_file_eq s fd f NULLP H0 Hp)).
  set (s1 := set_p_files _ s). destruct (Z.eqb_spec (f_refcount x) 1) as [H1|H1].
  - rewrite (bind_ok _ _ _ _ _ (fput_last s1 f x Hf H1 Hv)). unfold file_gone, s1. by destruct (c_true (f_vnode x)).
  - by rewrite (bind_ok _ _ _ _ _ (fput_shared s1 f x Hf ltac:(lia))).
Qed.
(** do_close on an open descriptor empties it and drops one reference to its file;
    the last reference frees the file and drops its reference to the vnode. *)
Theorem do_close_drops s fd f x :
  open_file s fd f x -> f_mode x <> 0 -> 0 < f_refcount x -> file_vnode_ok s x ->
  do_close fd s = Ok 0
    (set_p_files (<[Z.to_nat fd := NULLP]> (p_files s))
       (if f_refcount x =? 1 then file_gone f x s
        else set_files (insert f (set_f_refcount (f_refcount x - 1) x)) s)).
Proof. apply close_cases. Qed.

Lemma first_empty_spec fd0 l :
  match first_empty fd0 l with
  | Some fd => exists i, fd = fd0 + Z.of_nat i /\ l !! i = Some NULLP /\
      forall j g, (j < i)%nat -> l !! j = Some g -> g <> NULLP
  | None => forall j g, l !! j = Some g -> g <> NULLP
  end.
Proof.
  revert fd0. induction l as [|g l IH]; intros fd0; cbn; [done|].
  destruct (Z.eqb_spec g NULLP) as [->|Hg].
  - exists 0%nat. split_and!; [lia|done|]. intros j g Hj. lia.
  - specialize (IH (fd0 + 1)). destruct (first_empty (fd0 + 1) l) as [fd|].
    + destruct IH as (i & -> & Hi & Hlt). exists (S i). split_and!; [lia|done|].
      intros [|j] g' Hj Hg'; cbn in Hg'; [by simplify_eq|]. apply (Hlt j g'); [lia|done].
    + intros [|j] g' Hg'; cbn in Hg'; [by simplify_eq|by apply (IH j)].
Qed.

(** do_dup binds the lowest free descriptor to the same file with one more
    reference; when all descriptors are in use it indexes the descriptor table
    with -EMFILE. *)
Theorem do_dup_shares s fd f x :
  open_file s fd f x -> f_mode x <> 0 ->
  (exists nfd, 0 <= nfd /\ p_files s !! Z.to_nat nfd = Some NULLP /\
    (forall j g, (j < Z.to_nat nfd)%nat -> p_files s !! j = Some g -> g <> NULLP) /\
    do_dup fd s = Ok nfd (set_p_files (<[Z.to_nat nfd := f]> (p_files s))
      (set_files (insert f (set_f_refcount (f_refcount x + 1) x)) s))) \/
  ((forall j g, p_files s !! j = Some g -> g <> NULLP) /\
    exists s', do_dup fd s = Halt BadIndex s').
Proof.
  intros Ho Hm. pose proof Ho as (H0 & Hp & Hn & Hf). unfold do_dup.
  rewrite (bind_ok _ _ _ _ _ (fget_open s fd f x Ho)), (proj2 (Z.eqb_neq _ _) Hn).
  set (x1 := set_f_refcount (f_refcount x + 1) x). set (s1 := set_files (insert f x1) s).
  rewrite (file_at_bind _ x1) by (cbn; apply lookup_insert_eq).
  change (f_mode x1) with (f_mode x). rewrite (proj2 (Z.eqb_neq _ _) Hm).
  unfold get_empty_fd. rewrite bind_assoc, get_bind, ret_bind. change (p_files s1) with (p_files s).
  pose proof (first_empty_spec 0 (p_files s)) as H. destruct (first_empty 0 (p_files s)) as [nfd|].
  - left. destruct H as (i & -> & Hi & Hlt). rewrite Z.add_0_l in *. exists (Z.of_nat i).
    rewrite !Nat2Z.id. split_and!; [lia|done|done|].
    rewrite (bind_ok _ _ _ _ _ (set_p_file_eq s1 (Z.of_nat i) NULLP f ltac:(lia) ltac:(by rewrite Nat2Z.id))).
    by rewrite Nat2Z.id.
  - right. split; [done|]. assert (0 < EMFILE) by (apply errno_pos; unfold errnos; set_solver).
    unfold set_p_file, p_file. rewrite !bind_assoc, get_bind.
    destruct (Z.leb_spec 0 (- EMFILE)); [lia|]. by eexists.
Qed.

(** do_dup2 onto a descriptor that is open on a file returns that descriptor
    without rebinding it and keeps the reference to the first file it took. *)
Theorem do_dup2_leaks s ofd nfd f g x :
  open_file s ofd f x -> f_mode x <> 0 -> ofd < MAX_FILES ->
  0 <= nfd < MAX_FILES -> nfd <> ofd -> p_files s !! Z.to_nat nfd = Some g -> g <> NULLP ->
  do_dup2 ofd nfd s = Ok nfd (set_files (insert f (set_f_refcount (f_refcount x + 1) x)) s).
Proof.
  intros Ho Hm Hof Hnf Hne Hg Hgn. pose proof Ho as (H0 & Hp & Hn & Hf). unfold do_dup2.
  destruct (Z.ltb_spec ofd 0), (Z.leb_spec MAX_FILES ofd), (Z.ltb_spec nfd 0), (Z.leb_spec MAX_FILES nfd); try lia.
  cbn [orb]. rewrite (bind_ok _ _ _ _ _ (fget_open s ofd f x Ho)), (proj2 (Z.eqb_neq _ _) Hn).
  set (x1 := set_f_refcount (f_refcount x + 1) x). set (s1 := set_files (insert f x1) s).
  rewrite (file_at_bind _ x1) by (cbn; apply lookup_insert_eq).
  change (f_mode x1) with (f_mode x). rewrite (proj2 (Z.eqb_neq _ _) Hm).
  rewrite (bind_ok _ _ _ _ _ (p_file_eq s1 nfd g ltac:(lia) Hg)).
  rewrite (proj2 (Z.eqb_neq nfd ofd) Hne), andb_false_r, (proj2 (Z.eqb_neq g NULLP) Hgn). done.
Qed.
End Thms.
