(* ===== verification/Namev.v ===== *)
(** Path resolution: [dir_namev] follows the directories of a path, returns with
    one reference to the last of them and with no other, and names the rest. *)
From S2P Require Import Prelude.
From S2P Require Import Platform.
From S2P Require Import Vfs.
From S2P Require Import VfsThms.
Open Scope Z_scope.

(** ** Strings *)

Lemma is_prefix_app a b : is_prefix a (a ++ b) = true.
Proof. induction a as [|x a IH]; [done|]. cbn. by rewrite Z.eqb_refl. Qed.
Lemma is_prefix_take a b : is_prefix a b = true -> take (length a) b = a.
Proof.
  revert b. induction a as [|x a IH]; intros [|y b]; cbn; try done.
  intros H. apply andb_true_iff in H as [?%Z.eqb_eq ?]. subst. by rewrite IH.
Qed.

(** [strstr] finds what is there. *)
Lemma strstr_here s t : is_prefix t s = true -> strstr s t = Some s.
Proof. destruct s; cbn; by intros ->. Qed.
Lemma strstr_infix l1 t l2 :
  exists nm, strstr (l1 ++ t ++ l2) t = Some nm /\ take (length t) nm = t.
Proof.
  induction l1 as [|c l1 IH].
  - exists (t ++ l2). split; [|by rewrite take_app_length]. apply strstr_here, is_prefix_app.
  - cbn [app strstr]. destruct (is_prefix t (c :: l1 ++ t ++ l2)) eqn:E; [|done].
    eexists. split; [done|]. by apply is_prefix_take.
Qed.

Lemma strstr_suffix s t nm : strstr s t = Some nm -> exists a, s = a ++ nm.
Proof.
  induction s as [|c s IH]; cbn; case_match; intros E; simplify_eq; try (by exists []).
  destruct (IH E) as [a ->]. by exists (c :: a).
Qed.

(** The pieces put together again. *)
Fixpoint join (h : cstring) (t : list cstring) : cstring :=
  match t with [] => h | c :: t => h ++ slash :: join c t end.

Lemma split_join l : join (split_path l).1 (split_path l).2 = l.
Proof.
  induction l as [|c l IH]; [done|]. cbn. destruct (split_path l) as [h t]. cbn in IH.
  destruct (Z.eqb_spec c slash) as [->|]; cbn; [by rewrite IH|].
  destruct t; cbn in *; by rewrite IH.
Qed.

Lemma split_no_slash l : slash ∉ l -> split_path l = (l, []).
Proof.
  induction l as [|c l IH]; [done|]. intros [? ?]%not_elem_of_cons. cbn. rewrite IH by done.
  by destruct (Z.eqb_spec c slash).
Qed.

Lemma split_app_slash l r :
  slash ∉ l -> split_path (l ++ slash :: r) = (l, (split_path r).1 :: (split_path r).2).
Proof.
  induction l as [|c l IH]; cbn.
  - intros _. by destruct (split_path r).
  - intros [? ?]%not_elem_of_cons. rewrite IH by done. by destruct (Z.eqb_spec c slash).
Qed.

Lemma join_last h t d : exists pre, join h t = pre ++ List.last (h :: t) d.
Proof.
  revert h. induction t as [|c t IH]; intros h; [by exists []|].
  destruct (IH c) as [pre Hp]. exists (h ++ slash :: pre). cbn [join]. rewrite Hp, <- app_assoc. done.
Qed.

(** What [components] returns for a path that is not empty: its pieces, and the
    last of them ends the path. *)
Lemma components_last path tail c rest :
  path = c :: rest -> exists init last pre,
    components path tail = init ++ [last] /\ path = pre ++ last /\
    (forall d, head init = Some d -> d <> []).
Proof.
  intros ->. cbn. destruct (split_path rest) as [h t] eqn:E.
  pose proof (split_join rest) as Hj. rewrite E in Hj. cbn in Hj.
  destruct (exists_last (l := (c :: h) :: t) ltac:(done)) as (init & last & El). exists init, last.
  destruct (join_last (c :: h) t []) as [pre Hp].
  assert (List.last ((c :: h) :: t) [] = last) as Hl by (rewrite El; apply List.last_last).
  rewrite Hl in Hp. exists pre. split_and!; [done| |].
  - rewrite <- Hp, <- Hj. by destruct t.
  - intros d Hd. destruct init as [|d' init]; [done|]. cbn in El, Hd. by simplify_eq.
Qed.

(** [comps] are the pieces of [path] between its slashes; a slash in front is not
    looked at. *)
Definition pieces_of (path : cstring) (comps : list cstring) : Prop :=
  exists h t, comps = h :: t /\ join h t = path /\ slash ∉ List.tl h /\ Forall (fun c => slash ∉ c) t.

Lemma split_path_no_slash l : slash ∉ (split_path l).1 /\ Forall (fun c => slash ∉ c) (split_path l).2.
Proof.
  induction l as [|c l [IH1 IH2]]; cbn; [by split; [apply not_elem_of_nil|]|].
  destruct (split_path l) as [h t]. cbn in *. destruct (Z.eqb_spec c slash); cbn.
  - split; [apply not_elem_of_nil|by constructor].
  - split; [|done]. apply not_elem_of_cons. naive_solver.
Qed.

Lemma components_pieces path tail : path <> [] -> pieces_of path (components path tail).
Proof.
  destruct path as [|c rest]; [done|]. intros _. cbn.
  pose proof (split_path_no_slash rest) as [H1 H2]. pose proof (split_join rest) as Hj.
  destruct (split_path rest) as [h t]. cbn in *. exists (c :: h), t. split_and!; try done.
  rewrite <- Hj. by destruct t.
Qed.

Section Resolve.
Context {FS : Type} `{P : Platform} {HP : PlatformOk P} {K : VfsConst} {V : VfsOps (FS:=FS)} {HV : VfsLaws}.
Implicit Types (s : vfs FS).

(** ** The directory a path leads to *)

(** Every entry names a vnode, and directories can be searched. *)
Definition tree_ok s : Prop :=
  (forall d nm v, dirent (fs_state s) d nm = inr v -> v <> NULLP /\ is_Some (vnodes s !! v)) /\
  (forall d y, vnodes s !! d = Some y -> S_ISDIR (vn_mode y) = true -> Vlookup ∈ vn_ops y) /\
  (forall d y, vnodes s !! d = Some y -> 0 <= vn_refcount y).

(** The specification: follow the entries one by one. *)
Fixpoint walk s (d : Z) (comps : list cstring) : Z + Z :=
  match comps with
  | [] => inr d
  | [] :: comps => walk s d comps
  | c :: comps =>
      match dirent (fs_state s) d c with
      | inl e => inl e
      | inr v =>
          match vnodes s !! v with
          | Some y => if S_ISDIR (vn_mode y) then walk s v comps else inl (- ENOTDIR)
          | None => inl (- ENOENT)
          end
      end
  end.

(** ** References *)

Lemma vn_add_lookup n v w s :
  vnodes (vn_add n v s) !! w = (fun y => if decide (v = w)
    then Vnode (vn_mode y) (vn_len y) (vn_refcount y + n) (vn_ops y) else y) <$> vnodes s !! w.
Proof.
  cbn. destruct (decide (v = w)) as [->|].
  - rewrite lookup_alter_eq. by destruct (vnodes s !! w).
  - rewrite lookup_alter_ne by done. by destruct (vnodes s !! w).
Qed.

(** A vnode keeps its mode and operations when references to it are taken. *)
Lemma vn_add_at n v s w y :
  vnodes s !! w = Some y ->
  exists y', vnodes (vn_add n v s) !! w = Some y' /\ vn_mode y' = vn_mode y /\ vn_ops y' = vn_ops y.
Proof. intros Hy. rewrite vn_add_lookup, Hy. cbn. case_decide; by eexists. Qed.

Lemma vn_add_0 v s : vn_add 0 v s = s.
Proof.
  destruct s. unfold vn_add, set_vnodes. cbn. f_equal. apply map_eq. intros w.
  destruct (decide (v = w)) as [->|]; [rewrite lookup_alter_eq|by rewrite lookup_alter_ne].
  destruct (_ !! w) as [[]|]; [|done]. cbn. by rewrite Z.add_0_r.
Qed.
Lemma vn_add_add a b v s : vn_add a v (vn_add b v s) = vn_add (a + b) v s.
Proof.
  destruct s. unfold vn_add, set_vnodes. cbn. f_equal. apply map_eq. intros w. destruct (decide (v = w)) as [->|].
  - rewrite !lookup_alter_eq. destruct (_ !! w) as [[]|]; [|done]. cbn. do 2 f_equal. lia.
  - by rewrite !lookup_alter_ne.
Qed.
Lemma vn_add_comm a b v w s : vn_add a v (vn_add b w s) = vn_add b w (vn_add a v s).
Proof.
  destruct (decide (v = w)) as [->|Hne]; [rewrite !vn_add_add; f_equal; lia|].
  destruct s. unfold vn_add, set_vnodes. cbn. f_equal. apply map_eq. intros k.
  destruct (decide (v = k)) as [->|], (decide (w = k)) as [->|]; try done;
    repeat (rewrite lookup_alter_eq || rewrite lookup_alter_ne by done); done.
Qed.

(** The vnode held: none at the start of a path, then the one reached. *)
Definition holding (prev : Z) s : vfs FS := if c_true prev then vn_add 1 prev s else s.

Lemma holding_fs prev s : fs_state (holding prev s) = fs_state s.
Proof. unfold holding. by destruct (c_true prev). Qed.
Lemma holding_vnode prev s d y :
  vnodes s !! d = Some y ->
  exists y', vnodes (holding prev s) !! d = Some y' /\ vn_mode y' = vn_mode y /\ vn_ops y' = vn_ops y /\
    vn_refcount y <= vn_refcount y'.
Proof.
  intros Hy. unfold holding. destruct (c_true prev); [|by exists y].
  rewrite vn_add_lookup, Hy. cbn. case_decide; eexists; (split; [reflexivity|]); cbn; split_and!; try done; lia.
Qed.

(** Dropping the vnode held. *)
Lemma release_prev prev v s :
  tree_ok s -> (prev <> NULLP -> is_Some (vnodes s !! prev)) ->
  when (c_true prev) (vput prev) (vn_add 1 v (holding prev s)) = Ok tt (vn_add 1 v s).
Proof.
  intros (_ & _ & Hr) Hp. unfold holding. destruct (c_true prev) eqn:E; [|done]. cbn [when].
  apply c_true_spec in E. destruct (Hp E) as [y Hy]. specialize (Hr prev y Hy).
  destruct (vnodes (vn_add 1 v (vn_add 1 prev s)) !! prev) as [y'|] eqn:Hy'.
  2: { rewrite !vn_add_lookup, Hy in Hy'. done. }
  rewrite (vput_eq _ prev y'); [|done|].
  - by rewrite (vn_add_comm (-1) 1 prev v), vn_add_add, vn_add_0.
  - rewrite !vn_add_lookup, Hy in Hy'. cbn in Hy'. rewrite (decide_True (P := prev = prev)) in Hy' by done.
    case_decide; simplify_eq; cbn; lia.
Qed.
Lemma release_only prev s :
  tree_ok s -> (prev <> NULLP -> is_Some (vnodes s !! prev)) ->
  when (c_true prev) (vput prev) (holding prev s) = Ok tt s.
Proof.
  intros (_ & _ & Hr) Hp. unfold holding. destruct (c_true prev) eqn:E; [|done]. cbn [when].
  apply c_true_spec in E. destruct (Hp E) as [y Hy]. specialize (Hr prev y Hy).
  rewrite (vput_eq _ prev (Vnode (vn_mode y) (vn_len y) (vn_refcount y + 1) (vn_ops y))); cbn; [| |lia].
  - by rewrite vn_add_add, vn_add_0.
  - rewrite lookup_alter_eq, Hy. done.
Qed.

Lemma lookup_eq prev s d y c :
  d <> NULLP -> vnodes s !! d = Some y -> Vlookup ∈ vn_ops y ->
  lookup d (Some c) (Z.of_nat (length c)) (holding prev s) =
    match dirent (fs_state s) d c with
    | inl e => Ok (e, NULLP) (holding prev s)
    | inr v => Ok (0, v) (vn_add 1 v (holding prev s))
    end.
Proof.
  intros Hn Hy Hop. unfold lookup. rewrite kassert_bind by (by apply c_true_spec).
  destruct (holding_vnode prev s d y Hy) as (y' & Hy' & _ & Ho & _).
  rewrite (vnode_at_bind _ y') by done. rewrite decide_True by (by rewrite Ho).
  rewrite vn_lookup_eq, holding_fs, Nat2Z.id, firstn_all. done.
Qed.

(** The loop of [dir_namev] computes [walk] and holds one reference, to where it
    has got. *)
Lemma resolve_walk s d y prev comps :
  tree_ok s -> d <> NULLP -> vnodes s !! d = Some y -> Vlookup ∈ vn_ops y ->
  (prev = NULLP \/ prev = d) ->
  (comps = [] \/ (exists c t, comps = c :: t /\ c <> []) \/ prev = d) ->
  match walk s d comps with
  | inl e => resolve d prev comps (holding prev s) = Ok (inl e) s
  | inr v => resolve d prev comps (holding prev s) = Ok (inr v) (if decide (comps = []) then holding prev s else holding v s) /\
      v <> NULLP /\ is_Some (vnodes s !! v)
  end.
Proof.
  intros Ht. revert d y prev. induction comps as [|c comps IH]; intros d y prev Hn Hy Hop Hp Hc; [by eauto|].
  assert (prev <> NULLP -> is_Some (vnodes s !! prev)) as Hpv by (destruct Hp as [->| ->]; [done|eauto]).
  destruct c as [|b c].
  - destruct Hc as [?|[(? & ? & ? & ?)| ->]]; [done|by simplify_eq|]. cbn [walk resolve].
    specialize (IH d y d Hn Hy Hop (or_intror eq_refl) (or_intror (or_intror eq_refl))).
    destruct (walk s d comps) as [e|v] eqn:E; [done|]. destruct IH as (E1 & ? & ?). rewrite E1.
    split_and!; [|done|done]. f_equal. rewrite (decide_False (P := [] :: comps = [])) by done.
    case_decide; [|done]. subst comps. cbn in E. by simplify_eq.
  - cbn [walk resolve].
    pose proof (lookup_eq prev s d y (b :: c) Hn Hy Hop) as El.
    destruct (dirent (fs_state s) d (b :: c)) as [e|v] eqn:Ed.
    + rewrite (bind_ok _ _ _ _ _ El). cbn [fst]. pose proof (dirent_err _ _ _ _ Ed) as He.
      rewrite (proj2 (Z.ltb_lt _ _) He). by rewrite (bind_ok _ _ _ _ _ (release_only prev s Ht Hpv)).
    + rewrite (bind_ok _ _ _ _ _ El). cbn [fst snd].
      rewrite Z.ltb_irrefl, (bind_ok _ _ _ _ _ (release_prev prev v s Ht Hpv)).
      destruct Ht as (T1 & T2 & T3). destruct (T1 _ _ _ Ed) as [Hvn [z Hz]]. rewrite Hz.
      assert (vnodes (vn_add 1 v s) !! v = Some (Vnode (vn_mode z) (vn_len z) (vn_refcount z + 1) (vn_ops z))) as Hz'
        by (rewrite vn_add_lookup, Hz; cbn; by rewrite decide_True).
      rewrite (vnode_at_bind _ _ _ _ Hz').
      cbn [vn_mode]. assert (vn_add 1 v s = holding v s) as Eh by (unfold holding; by rewrite (proj2 (c_true_spec v) Hvn)).
      destruct (S_ISDIR (vn_mode z)) eqn:Es; cbn [negb].
      * specialize (IH v z v Hvn Hz (T2 v z Hz Es) (or_intror eq_refl) (or_intror (or_intror eq_refl))).
        rewrite Eh. destruct (walk s v comps) as [e|w] eqn:E; [done|]. destruct IH as (E1 & ? & ?). rewrite E1.
        split_and!; [|done|done]. f_equal. rewrite (decide_False (P := (b :: c) :: comps = [])) by done.
        case_decide; [|done]. subst comps. cbn in E. by simplify_eq.
      * specialize (T3 v z Hz).
        rewrite (bind_ok _ _ _ _ _ (vput_eq _ v _ Hz' ltac:(cbn; lia))). by rewrite vn_add_add, vn_add_0.
Qed.

(** ** [dir_namev] *)

(** Where the resolution starts, and the path from there. *)
Definition is_absolute (pathname : cstring) : bool :=
  match pathname with c :: _ => c =? slash | [] => false end.
Definition start s (pathname : cstring) (base : Z) : Z :=
  if is_absolute pathname then vfs_root_vn s else if c_true base then base else p_cwd s.
Definition rel (pathname : cstring) : cstring := if is_absolute pathname then List.tl pathname else pathname.

(** The path can be resolved from [base]: it is not empty, its pieces fit into the
    array of 50 pointers, and it starts at a directory. *)
Record resolvable s (pathname : cstring) (base : Z) : Prop := {
  rs_tree : tree_ok s;
  rs_start : start s pathname base <> NULLP;
  rs_dir : exists y, vnodes s !! start s pathname base = Some y /\ Vlookup ∈ vn_ops y;
  rs_path : rel pathname <> [];
  rs_fits : (length (components (rel pathname) []) <= 50)%nat
}.

Lemma rel_suffix pathname : exists pre, pathname = pre ++ rel pathname.
Proof. unfold rel. destruct pathname as [|c p]; [by exists []|]. destruct (is_absolute _); [by exists [c]|by exists []]. Qed.

Lemma dir_namev_eq s tail pathname base :
  resolvable s pathname base ->
  exists init last, components (rel pathname) tail = init ++ [last] /\
    match walk s (start s pathname base) init with
    | inl e => dir_namev tail pathname base s = Ok (Namev e 0 None NULLP) s
    | inr d => exists nm, strstr pathname last = Some nm /\ take (length last) nm = last /\
        d <> NULLP /\ is_Some (vnodes s !! d) /\
        dir_namev tail pathname base s = Ok (Namev 0 (Z.of_nat (length last)) (Some nm) d) (vn_add 1 d s)
    end.
Proof.
  intros [Ht Hs (y & Hy & Hop) Hp Hf]. destruct (rel pathname) as [|c rest] eqn:Er; [done|].
  destruct (components_last (c :: rest) tail c rest eq_refl) as (init & last & pre & Ec & El & Hh).
  exists init, last. split; [done|]. rewrite <- Er in *. destruct (rel_suffix pathname) as [pre' Ep].
  destruct (strstr_infix (pre' ++ pre) last []) as (nm & Enm & Etk).
  rewrite app_nil_r, <- app_assoc, <- El, <- Ep in Enm.
  unfold dir_namev. rewrite get_bind.
  change (match pathname with [] => false | c :: _ => c =? slash end) with (is_absolute pathname).
  change (if is_absolute pathname then vfs_root_vn s else _) with (start s pathname base).
  change (if is_absolute pathname then List.tl pathname else pathname) with (rel pathname).
  rewrite kassert_bind by (by apply c_true_spec).
  assert (components (rel pathname) tail = components (rel pathname) []) as Et by (by rewrite Er).
  rewrite <- Et in Hf. rewrite (proj2 (Nat.ltb_ge _ _) Hf), ret_bind.
  rewrite Ec, reverse_app. change (reverse [last] ++ reverse init) with (last :: reverse init).
  cbn zeta. destruct (reverse init) as [|c0 init'] eqn:Ei.
  - apply (f_equal reverse) in Ei. rewrite reverse_involutive in Ei. cbn in Ei. subst init. cbn [walk].
    exists nm. split_and!; try done. by rewrite (bind_ok _ _ _ _ _ (vref_eq s _ y Hy)), Enm.
  - apply (f_equal reverse) in Ei. rewrite reverse_involutive in Ei. rewrite <- Ei.
    assert (init <> []) as Hne by (intros ->; rewrite reverse_cons in Ei; by destruct (reverse init')).
    pose proof (resolve_walk s (start s pathname base) y NULLP init Ht Hs Hy Hop (or_introl eq_refl)) as R.
    change (holding NULLP s) with s in R.
    assert (init = [] \/ (exists c t, init = c :: t /\ c <> []) \/ NULLP = start s pathname base) as Hc.
    { right. left. destruct init as [|c1 t1]; [done|]. exists c1, t1. split; [done|]. by apply Hh. }
    specialize (R Hc). destruct (walk s (start s pathname base) init) as [e|d].
    + by rewrite (bind_ok _ _ _ _ _ R).
    + destruct R as (R & Hd & Hv). exists nm. split_and!; try done. rewrite (bind_ok _ _ _ _ _ R).
      rewrite decide_False by done. unfold holding. by rewrite (proj2 (c_true_spec d) Hd), Enm.
Qed.


(** ** [open_namev] *)

Lemma walk_err s d comps e : walk s d comps = inl e -> e < 0.
Proof.
  assert (0 < ENOTDIR /\ 0 < ENOENT) as [] by (split; apply errno_pos; unfold errnos; set_solver).
  revert d. induction comps as [|[|b c] comps IH]; intros d; cbn; [done|by apply IH|].
  destruct (dirent _ d (b :: c)) eqn:Ed; [intros ?; simplify_eq; by eapply dirent_err|].
  destruct (vnodes s !! _); [|intros; simplify_eq; lia]. destruct (S_ISDIR _); [apply IH|intros; simplify_eq; lia].
Qed.

(** What a path leads to can be searched. *)
Lemma walk_dir s d y comps v :
  tree_ok s -> vnodes s !! d = Some y -> Vlookup ∈ vn_ops y -> walk s d comps = inr v ->
  exists z, vnodes s !! v = Some z /\ Vlookup ∈ vn_ops z.
Proof.
  intros (_ & T2 & _). revert d y. induction comps as [|[|b c] comps IH]; intros d y Hy Ho; cbn.
  - intros; simplify_eq. by exists y.
  - by apply (IH d y).
  - destruct (dirent _ d (b :: c)) as [|w]; [done|]. destruct (vnodes s !! w) as [z|] eqn:Ez; [|done].
    destruct (S_ISDIR (vn_mode z)) eqn:Es; [|done]. apply (IH w z Ez). by apply (T2 w).
Qed.

Lemma vput_held s d : tree_ok s -> d <> NULLP -> is_Some (vnodes s !! d) -> vput d (vn_add 1 d s) = Ok tt s.
Proof.
  intros Ht Hd Hv. pose proof (release_only d s Ht (fun _ => Hv)) as R.
  unfold holding in R. by rewrite (proj2 (c_true_spec d) Hd) in R.
Qed.
Lemma vput_held2 s d v :
  tree_ok s -> d <> NULLP -> is_Some (vnodes s !! d) ->
  vput d (vn_add 1 v (vn_add 1 d s)) = Ok tt (vn_add 1 v s).
Proof.
  intros Ht Hd Hv. pose proof (release_prev d v s Ht (fun _ => Hv)) as R.
  unfold holding in R. by rewrite (proj2 (c_true_spec d) Hd) in R.
Qed.

Lemma lookup_held s d nm last :
  tree_ok s -> d <> NULLP -> (exists z, vnodes s !! d = Some z /\ Vlookup ∈ vn_ops z) ->
  take (length last) nm = last ->
  lookup d (Some nm) (Z.of_nat (length last)) (vn_add 1 d s) =
    match dirent (fs_state s) d last with
    | inl e => Ok (e, NULLP) (vn_add 1 d s)
    | inr v => Ok (0, v) (vn_add 1 v (vn_add 1 d s))
    end.
Proof.
  intros Ht Hd (z & Hz & Ho) Hl. pose proof (lookup_eq d s d z last Hd Hz Ho) as L.
  unfold holding in L. rewrite (proj2 (c_true_spec d) Hd) in L. rewrite <- L. unfold lookup.
  rewrite Nat2Z.id, Hl, firstn_all. done.
Qed.

(** The name does not occur in the path right before a slash. *)
Definition last_only (pathname last : cstring) : Prop := forall a b, pathname <> a ++ last ++ slash :: b.

Lemma after_last pathname last nm :
  strstr pathname last = Some nm -> take (length last) nm = last -> last_only pathname last ->
  byte_at nm (Z.of_nat (length last)) <> slash.
Proof.
  intros Es Et Hl E. unfold byte_at in E. rewrite Nat2Z.id in E.
  destruct (nm !! length last) as [b|] eqn:Eb; [|done]. cbn in E. subst b.
  destruct (strstr_suffix _ _ _ Es) as [a ->]. apply (Hl a (drop (S (length last)) nm)).
  f_equal. rewrite <- Et at 1. rewrite <- (drop_S _ _ _ Eb). by rewrite firstn_skipn.
Qed.

Lemma name_first pathname last nm :
  0 ∉ pathname -> last <> [] -> strstr pathname last = Some nm -> take (length last) nm = last ->
  (Z.of_nat (length last) =? 0) || (byte_at nm 0 =? 0) = false.
Proof.
  intros H0 Hl Es Et. destruct last as [|b last]; [done|]. cbn in Et. destruct nm as [|b' nm]; [done|].
  destruct (strstr_suffix _ _ _ Es) as [a ->]. simplify_eq. cbn. apply Z.eqb_neq. set_solver.
Qed.

(** [dir_namev] as its callers use it. *)
Lemma dir_namev_cases s tail pathname base :
  resolvable s pathname base ->
  exists init last, pieces_of (rel pathname) (init ++ [last]) /\
    match walk s (start s pathname base) init with
    | inl e => e < 0 /\ dir_namev tail pathname base s = Ok (Namev e 0 None NULLP) s
    | inr d => d <> NULLP /\ (exists z, vnodes s !! d = Some z /\ Vlookup ∈ vn_ops z) /\
        exists nm, strstr pathname last = Some nm /\ take (length last) nm = last /\
        dir_namev tail pathname base s = Ok (Namev 0 (Z.of_nat (length last)) (Some nm) d) (vn_add 1 d s)
    end.
Proof.
  intros Hr. destruct (dir_namev_eq s tail pathname base Hr) as (init & last & Ec & H).
  exists init, last. split; [rewrite <- Ec; by apply components_pieces, Hr|].
  destruct (walk s _ init) as [e|d] eqn:E.
  - split; [by eapply walk_err|done].
  - destruct H as (nm & ? & ? & Hd & _ & ?). destruct (rs_dir _ _ _ Hr) as (y & Hy & Ho).
    split_and!; [done| |by exists nm]. apply (walk_dir s (start s pathname base) y init); try done. apply Hr.
Qed.

Lemma Zeqb_false (a b : Z) : a <> b -> (a =? b) = false.
Proof. by rewrite Z.eqb_neq. Qed.

(** What a path names: its last piece in the directory of the others, or that
    directory if the path ends with a slash. *)
Definition path_target s (base : Z) (init : list cstring) (last : cstring) : Z + Z :=
  match walk s base init with
  | inl e => inl e
  | inr d => if decide (last = []) then inr d else dirent (fs_state s) d last
  end.

Lemma open_namev_eq s tail pathname flag base :
  resolvable s pathname base -> 0 ∉ pathname -> Z.land flag O_CREAT = 0 ->
  exists init last, pieces_of (rel pathname) (init ++ [last]) /\
    match path_target s (start s pathname base) init last with
    | inl e => e < 0 /\ open_namev tail pathname flag base s = Ok (e, NULLP) s
    | inr v => v <> NULLP /\ is_Some (vnodes s !! v) /\ (last = [] \/ last_only pathname last ->
        open_namev tail pathname flag base s = Ok (0, v) (vn_add 1 v s))
    end.
Proof.
  intros Hr H0 Hc. destruct (dir_namev_cases s tail pathname base Hr) as (init & last & Hp & H).
  exists init, last. split; [done|]. unfold open_namev, path_target. destruct (walk s _ init) as [e|d].
  - destruct H as [He H]. split; [done|]. rewrite (bind_ok _ _ _ _ _ H). cbn [nv_ret].
    by rewrite (proj2 (c_true_spec e) ltac:(lia)).
  - destruct H as (Hd & Hz & nm & Es & Et & H). rewrite (bind_ok _ _ _ _ _ H). cbn [nv_ret nv_name nv_len nv_vnode].
    change (c_true 0) with false. cbn match. rewrite (deref_bind _ nm) by done.
    assert (is_Some (vnodes s !! d)) as Hv by (destruct Hz as (z & ? & _); by exists z).
    case_decide as Hl; [subst last; by rewrite ?Z.eqb_refl|]. rewrite (name_first pathname last nm) by done.
    pose proof (rs_tree _ _ _ Hr) as Ht. pose proof (lookup_held s d nm last Ht Hd Hz Et) as L.
    destruct (dirent (fs_state s) d last) as [e|v] eqn:Ed; rewrite (bind_ok _ _ _ _ _ L); cbn [fst snd].
    + pose proof (dirent_err _ _ _ _ Ed). split; [done|]. rewrite (proj2 (c_true_spec e) ltac:(lia)), Hc.
      change (c_true 0) with false. cbn [andb]. by rewrite (bind_ok _ _ _ _ _ (vput_held s d Ht Hd Hv)).
    + pose proof Ht as (T1 & _). destruct (T1 _ _ _ Ed). split_and!; [done|done|]. intros [?|Hlo]; [done|].
      change (c_true 0) with false. cbn match. rewrite (Zeqb_false _ slash (after_last pathname last nm Es Et Hlo)).
      by rewrite (bind_ok _ _ _ _ _ (vput_held2 s d v Ht Hd Hv)).
Qed.

(** open_namev without O_CREAT returns the vnode the path names with one more
    reference to it and no other change, or the error of the walk or of the last
    lookup with no reference kept, provided the last name does not also occur
    earlier in the path right before a slash. *)
Theorem open_namev_opens s tail pathname flag base :
  resolvable s pathname base -> 0 ∉ pathname -> Z.land flag O_CREAT = 0 ->
  exists init last, pieces_of (rel pathname) (init ++ [last]) /\
    match path_target s (start s pathname base) init last with
    | inl e => open_namev tail pathname flag base s = Ok (e, NULLP) s
    | inr v => last = [] \/ last_only pathname last ->
        open_namev tail pathname flag base s = Ok (0, v) (vn_add 1 v s)
    end.
Proof.
  intros Hr H0 Hc. destruct (open_namev_eq s tail pathname flag base Hr H0 Hc) as (init & last & Hp & H).
  exists init, last. split; [done|]. destruct (path_target _ _ _ _); naive_solver.
Qed.

(** open_namev with O_CREAT asks the parent directory to create the last name
    exactly when the lookup says ENOENT, returns the new vnode or the error of
    create, and drops its reference to the directory. *)
Theorem open_namev_creates s tail pathname flag base :
  resolvable s pathname base -> 0 ∉ pathname -> Z.land flag O_CREAT <> 0 ->
  exists init last, pieces_of (rel pathname) (init ++ [last]) /\
    forall d z q v s1, walk s (start s pathname base) init = inr d -> last <> [] ->
      dirent (fs_state s) d last = inl (- ENOENT) ->
      vnodes s !! d = Some z -> Vcreate ∈ vn_ops z ->
      vn_create d last (vn_add 1 d s) = Ok (q, v) (vn_add 1 d s1) ->
      tree_ok s1 -> is_Some (vnodes s1 !! d) ->
      open_namev tail pathname flag base s = Ok (if q =? 0 then (0, v) else (q, NULLP)) s1.
Proof.
  intros Hr H0 Hc. destruct (dir_namev_cases s tail pathname base Hr) as (init & last & Hp & H).
  exists init, last. split; [done|]. intros d z q v s1 Ew Hl Ed Hdz Hcr Ecr Ht1 Hv1.
  rewrite Ew in H. destruct H as (Hd & Hz & nm & Es & Et & H).
  unfold open_namev. rewrite (bind_ok _ _ _ _ _ H). cbn [nv_ret nv_name nv_len nv_vnode].
  change (c_true 0) with false. cbn match. rewrite (deref_bind _ nm) by done.
  rewrite (name_first pathname last nm) by done.
  pose proof (lookup_held s d nm last (rs_tree _ _ _ Hr) Hd Hz Et) as L. rewrite Ed in L.
  rewrite (bind_ok _ _ _ _ _ L). cbn [fst snd]. pose proof (dirent_err _ _ _ _ Ed) as He.
  assert (c_true (- ENOENT) = true) as -> by (apply c_true_spec; lia).
  rewrite (proj2 (c_true_spec _) Hc), Z.eqb_refl. cbn [andb].
  assert (vnodes (vn_add 1 d s) !! d = Some (Vnode (vn_mode z) (vn_len z) (vn_refcount z + 1) (vn_ops z))) as Hz'
    by (rewrite vn_add_lookup, Hdz; cbn; by rewrite decide_True).
  rewrite (vnode_at_bind _ _ _ _ Hz'), kassert_bind by (by apply bool_decide_eq_true).
  rewrite Nat2Z.id, Et, (bind_ok _ _ _ _ _ Ecr), (bind_ok _ _ _ _ _ (vput_held s1 d Ht1 Hd Hv1)).
  cbn [fst snd]. unfold c_true. by destruct (q =? 0).
Qed.

Lemma twice_components c nm tail :
  slash ∉ c :: nm ->
  is_absolute ((c :: nm) ++ slash :: c :: nm) = false /\
  components ((c :: nm) ++ slash :: c :: nm) tail = [c :: nm; c :: nm].
Proof.
  intros Hs. pose proof Hs as [H1 H2]%not_elem_of_cons. split; [cbn; by apply Zeqb_false|].
  cbn [app components]. rewrite split_app_slash by done. by rewrite split_no_slash.
Qed.

(** open_namev of a path "x/x" that names a regular file x in a directory x
    returns ENOTDIR, because the name is searched for from the start of the path
    and the byte behind its first occurrence is a slash. *)
Theorem open_namev_same_name s tail nm flag base d v y z :
  resolvable s (nm ++ slash :: nm) base -> nm <> [] -> 0 ∉ nm -> slash ∉ nm ->
  dirent (fs_state s) (start s (nm ++ slash :: nm) base) nm = inr d ->
  vnodes s !! d = Some y -> S_ISDIR (vn_mode y) = true ->
  dirent (fs_state s) d nm = inr v -> vnodes s !! v = Some z -> S_ISDIR (vn_mode z) = false ->
  open_namev tail (nm ++ slash :: nm) flag base s = Ok (- ENOTDIR, v) s.
Proof.
  intros Hr Hn H0 Hs Ed Hy Hyd Ev Hz Hzd. pose proof (rs_tree _ _ _ Hr) as Ht.
  destruct (dir_namev_eq s tail _ base Hr) as (init & last & Ec & H).
  destruct nm as [|c nm]; [done|]. destruct (twice_components c nm tail Hs) as [Ea Ec'].
  unfold rel in Ec. rewrite Ea, Ec' in Ec. change [c :: nm; c :: nm] with ([c :: nm] ++ [c :: nm]) in Ec.
  apply app_inj_tail in Ec as [<- <-]. cbn [walk] in H. rewrite Ed, Hy, Hyd in H.
  destruct H as (nm' & Es & Et & Hd & Hv & H).
  rewrite (strstr_here _ _ (is_prefix_app _ _)) in Es. apply (inj Some) in Es. subst nm'.
  unfold open_namev. rewrite (bind_ok _ _ _ _ _ H). cbn [nv_ret nv_name nv_len nv_vnode].
  change (c_true 0) with false. cbn match. rewrite (deref_bind _ ((c :: nm) ++ slash :: c :: nm)) by done.
  rewrite (name_first ((c :: nm) ++ slash :: c :: nm) (c :: nm)); [|set_solver|done|by apply strstr_here, is_prefix_app|done].
  assert (exists z, vnodes s !! d = Some z /\ Vlookup ∈ vn_ops z) as Hvd
    by (exists y; split; [done|]; destruct Ht as (_ & T2 & _); by apply (T2 d)).
  pose proof (lookup_held s d _ (c :: nm) Ht Hd Hvd Et) as L. rewrite Ev in L.
  rewrite (bind_ok _ _ _ _ _ L). cbn [fst snd]. change (c_true 0) with false. cbn match.
  assert (byte_at ((c :: nm) ++ slash :: c :: nm) (Z.of_nat (length (c :: nm))) = slash) as ->.
  { unfold byte_at. rewrite Nat2Z.id, lookup_app_r, Nat.sub_diag by done. done. }
  rewrite Z.eqb_refl.
  assert (exists z', vnodes (vn_add 1 v (vn_add 1 d s)) !! v = Some z' /\ vn_mode z' = vn_mode z) as (z' & Hz' & Em).
  { rewrite !vn_add_lookup, Hz. cbn. rewrite decide_True by done. case_decide; by eexists. }
  rewrite (vnode_at_bind _ _ _ _ Hz'), Em, Hzd. cbn [negb].
  rewrite (bind_ok _ _ _ _ _ (vput_held2 s d v Ht Hd Hv)).
  destruct Ht as (T1 & T2 & T3). destruct (T1 _ _ _ Ev) as [Hvn Hvs].
  by rewrite (bind_ok _ _ _ _ _ (vput_held s v (conj T1 (conj T2 T3)) Hvn Hvs)).
Qed.
End Resolve.
