(* ===== verification/OpenThms.v ===== *)
(** [do_open]: the lowest free descriptor, a new file on the vnode of the path,
    and nothing left behind when it fails. *)
From S2P Require Import Prelude.
From S2P Require Import Platform.
From S2P Require Import Vfs.
From S2P Require Import VfsThms.
From S2P Require Import Namev.
Open Scope Z_scope.

Section Open.
Context {FS : Type} `{P : Platform} {HP : PlatformOk P} {K : VfsConst} {V : VfsOps (FS:=FS)} {HV : VfsLaws}.
Implicit Types (s : vfs FS).

(** The descriptor [fd] is the lowest one that is free. *)
Definition lowest_free s (fd : Z) : Prop :=
  0 <= fd /\ p_files s !! Z.to_nat fd = Some NULLP /\
  forall j g, (j < Z.to_nat fd)%nat -> p_files s !! j = Some g -> g <> NULLP.

Lemma get_empty_fd_eq s fd : lowest_free s fd -> get_empty_fd s = Ok fd s.
Proof.
  intros (H0 & Hp & Hlt). unfold get_empty_fd. rewrite get_bind.
  pose proof (first_empty_spec 0 (p_files s)) as H. destruct (first_empty 0 (p_files s)) as [fd'|].
  - destruct H as (i & -> & Hi & Hi'). rewrite Z.add_0_l. assert (i = Z.to_nat fd) as ->; [|by rewrite Z2Nat.id].
    destruct (lt_eq_lt_dec i (Z.to_nat fd)) as [[Hc|Hc]|Hc]; [|done|]; exfalso.
    + by apply (Hlt i NULLP).
    + by apply (Hi' _ NULLP Hc).
  - exfalso. by apply (H (Z.to_nat fd) NULLP).
Qed.

(** A state whose file tables have changed. *)
Definition with_files (F : gmap Z file) (l : list Z) s : vfs FS := set_p_files l (set_files (fun _ => F) s).

Lemma resolvable_with F l s path base : resolvable s path base -> resolvable (with_files F l s) path base.
Proof. by intros [??? ? ?]; split. Qed.
Lemma walk_with F l s d comps : walk (with_files F l s) d comps = walk s d comps.
Proof.
  revert d. induction comps as [|[|b c] comps IH]; intros d; cbn; [done|apply IH|].
  destruct (dirent _ d (b :: c)); [done|]. destruct (vnodes s !! _); [|done]. destruct (S_ISDIR _); [apply IH|done].
Qed.
Lemma with_files_same s : with_files (files s) (p_files s) s = s.
Proof. by destruct s. Qed.

(** Access to a directory that needs writing. *)
Definition wants_write (oflags : Z) : bool := (Z.land oflags 3 =? O_WRONLY) || (Z.land oflags 3 =? O_RDWR).

(** The start of [do_open]: a new file of the mode asked for at the descriptor. *)
Lemma open_start {B} s fd oflags (k : Z -> Z -> M (vfs FS) B) :
  lowest_free s fd -> exists f, f <> NULLP /\ files s !! f = None /\
  (fd ← get_empty_fd; file ← fget (-1); set_p_file fd file;; upd_file file (set_f_mode (mode_of oflags));; k fd file) s =
  k fd f (with_files (<[f := File (mode_of oflags) 0 1 NULLP]> (files s)) (<[Z.to_nat fd := f]> (p_files s)) s).
Proof.
  intros Hl. pose proof Hl as (H0 & Hp & _). destruct (fget_new s) as (f & Hf & Hn & E). exists f. split_and!; [done|done|].
  rewrite (bind_ok _ _ _ _ _ (get_empty_fd_eq s fd Hl)), (bind_ok _ _ _ _ _ E).
  rewrite (bind_ok _ _ _ _ _ (set_p_file_eq (set_files _ s) fd NULLP f H0 Hp)).
  rewrite (bind_ok _ _ _ _ _ (upd_file_eq f (File 0 0 1 NULLP) _ _ (lookup_insert_eq _ _ _))).
  f_equal. unfold with_files, set_p_files, set_files. cbn. by rewrite insert_insert_eq.
Qed.

(** The end of a call that failed. *)
Lemma open_undo s fd f x (r : Z) :
  0 <= fd -> p_files s !! Z.to_nat fd = Some NULLP -> files s !! f = None ->
  f_refcount x = 1 -> (f_vnode x <> NULLP -> exists y, vnodes s !! f_vnode x = Some y /\ 0 <= vn_refcount y) ->
  (fput f;; set_p_file fd NULLP;; mret r)
    (with_files (<[f := x]> (files s)) (<[Z.to_nat fd := f]> (p_files s))
      (if c_true (f_vnode x) then vn_add 1 (f_vnode x) s else s)) = Ok r s.
Proof.
  intros H0 Hp Hf Hx Hv.
  assert (delete f (<[f := x]> (files s)) = files s) as Ed by (by apply delete_insert_id).
  assert (<[Z.to_nat fd := NULLP]> (<[Z.to_nat fd := f]> (p_files s)) = p_files s) as Ep
    by (by rewrite list_insert_insert_eq, list_insert_id).
  assert (forall f', <[Z.to_nat fd := f']> (p_files s) !! Z.to_nat fd = Some f') as El
    by (intros; apply list_lookup_insert_eq; by eapply lookup_lt_Some).
  assert (file_gone f x (with_files (<[f := x]> (files s)) (<[Z.to_nat fd := f]> (p_files s))
    (if c_true (f_vnode x) then vn_add 1 (f_vnode x) s else s)) =
    with_files (files s) (<[Z.to_nat fd := f]> (p_files s)) s) as Eg.
  { unfold file_gone. destruct (c_true (f_vnode x)).
    - trans (with_files (files s) (<[Z.to_nat fd := f]> (p_files s)) (vn_add (-1) (f_vnode x) (vn_add 1 (f_vnode x) s)));
        [|by rewrite vn_add_add, vn_add_0].
      unfold with_files, set_p_files, set_files. cbn. by rewrite Ed.
    - unfold with_files, set_p_files, set_files. cbn. by rewrite Ed. }
  assert (file_vnode_ok (with_files (<[f := x]> (files s)) (<[Z.to_nat fd := f]> (p_files s))
    (if c_true (f_vnode x) then vn_add 1 (f_vnode x) s else s)) x) as Hok.
  { unfold file_vnode_ok. destruct (decide (f_vnode x = NULLP)) as [|Hn]; [by left|right].
    destruct (Hv Hn) as (y & Hy & Hr). rewrite (proj2 (c_true_spec _) Hn). cbn. rewrite lookup_alter_eq, Hy.
    eexists. split; [done|]. cbn. lia. }
  set (s1 := with_files _ _ _) in Hok, Eg |- *.
  rewrite (bind_ok _ _ _ _ _ (fput_last s1 f x ltac:(destruct (c_true (f_vnode x)); apply lookup_insert_eq) Hx Hok)), Eg.
  rewrite (bind_ok _ _ _ _ _ (set_p_file_eq (with_files _ _ s) fd f NULLP H0 (El f))).
  unfold with_files, set_p_files, set_files. cbn. rewrite Ep. by destruct s.
Qed.

Lemma open_cases s tail filename oflags fd :
  resolvable s filename NULLP -> 0 ∉ filename -> Z.land oflags O_CREAT = 0 ->
  c_true (Z.land oflags O_WRONLY) && c_true (Z.land oflags O_RDWR) = false ->
  Z.of_nat (length filename) <= NAME_LEN -> lowest_free s fd ->
  exists init last f, pieces_of (rel filename) (init ++ [last]) /\ f <> NULLP /\ files s !! f = None /\
    match path_target s (start s filename NULLP) init last with
    | inl e => do_open tail filename oflags s = Ok e s
    | inr v => last = [] \/ last_only filename last -> forall y, vnodes s !! v = Some y ->
        do_open tail filename oflags s =
          if S_ISDIR (vn_mode y) && wants_write oflags then Ok (- EISDIR) s
          else Ok fd (with_files (<[f := File (mode_of oflags) 0 1 v]> (files s))
                        (<[Z.to_nat fd := f]> (p_files s)) (vn_add 1 v s))
    end.
Proof.
  intros Hr H0 Hc Hw Hlen Hl. pose proof Hl as (Hfd & Hp & _).
  unfold do_open. rewrite Hw. rewrite (proj2 (Z.ltb_ge _ _) Hlen).
  edestruct (open_start (B := Z) s fd oflags) as (f & Hf & Hn & E); [done|].
  rewrite E. clear E.
  set (F := <[f := _]> (files s)). set (L := <[Z.to_nat fd := f]> (p_files s)).
  destruct (open_namev_eq (with_files F L s) tail filename oflags NULLP (resolvable_with F L s _ _ Hr) H0 Hc)
    as (init & last & Hpc & H).
  exists init, last, f. split_and!; [done..|]. unfold path_target in H |- *. rewrite walk_with in H.
  change (start (with_files F L s)) with (start s) in H. change (fs_state (with_files F L s)) with (fs_state s) in H.
  change (vnodes (with_files F L s)) with (vnodes s) in H.
  destruct (match walk s (start s filename NULLP) init with inl e => _ | inr d => _ end) as [e|v].
  - destruct H as [He H]. rewrite (bind_ok _ _ _ _ _ H). cbn [fst]. rewrite (proj2 (c_true_spec e) ltac:(lia)).
    by apply (open_undo s fd f (File (mode_of oflags) 0 1 NULLP)).
  - destruct H as (Hv & _ & H). intros Hlo y Hy. rewrite (bind_ok _ _ _ _ _ (H Hlo)). cbn [fst snd].
    change (c_true 0) with false. cbn match.
    assert (vn_add 1 v (with_files F L s) = with_files F L (vn_add 1 v s)) as -> by done.
    rewrite (bind_ok _ _ _ _ _ (upd_file_eq f (File (mode_of oflags) 0 1 NULLP) _ _ (lookup_insert_eq _ _ _))).
    set (x := set_f_vnode v _).
    assert (set_files (insert f x) (with_files F L (vn_add 1 v s)) =
      with_files (<[f := x]> (files s)) L (vn_add 1 v s)) as ->
      by (unfold F, with_files, set_p_files, set_files; cbn; by rewrite insert_insert_eq).
    destruct (vn_add_at 1 v s v y Hy) as (y' & Hy' & Em & _).
    rewrite (vnode_at_bind (FS := FS) v y'), Em by done. fold (wants_write oflags). destruct (S_ISDIR (vn_mode y) && wants_write oflags).
    + pose proof (open_undo s fd f x (- EISDIR) Hfd Hp Hn eq_refl) as U.
      change (f_vnode x) with v in U. rewrite (proj2 (c_true_spec v) Hv) in U. apply U.
      intros _. exists y. split; [done|]. pose proof (rs_tree _ _ _ Hr) as (_ & _ & T3). by apply (T3 v).
    + rewrite (bind_ok _ _ _ _ _ (upd_file_eq f x _ _ (lookup_insert_eq _ _ _))).
      rewrite (bind_ok _ _ _ _ _ (upd_file_eq f (set_f_refcount 1 x) _ _ (lookup_insert_eq _ _ _))).
      unfold with_files, set_p_files, set_files. cbn. by rewrite !insert_insert_eq.
Qed.
End Open.
