(* ===== verification/VfsDemo.v ===== *)
(** A small tree of directories, with a file table and a vnode table that keep the
    promises of [VfsLaws]. *)
From S2P Require Import Prelude.
From S2P Require Import Platform.
From S2P Require Import Demo.
From S2P Require Import Vfs.
From S2P Require Import VfsThms.
From S2P Require Import Namev.
Open Scope Z_scope.

#[export] Instance vfs_const : VfsConst := {|
  FMODE_READ := 1; FMODE_WRITE := 2; FMODE_APPEND := 4;
  O_RDONLY := 0; O_WRONLY := 1; O_RDWR := 2; O_CREAT := 256; O_APPEND := 1024;
  SEEK_SET := 0; SEEK_CUR := 1; SEEK_END := 2;
  NAME_LEN := 28; sizeof_dirent := 40;
  S_ISDIR m := m =? 1; S_ISCHR m := m =? 2; S_ISBLK m := m =? 3; S_ISREG m := m =? 4
|}.

(** The entries of all directories. *)
Definition entries : Type := list (Z * cstring * Z).
Notation dfs := (vfs entries).

Definition entry_of (es : entries) (d : Z) (nm : cstring) : option Z :=
  snd <$> List.find (fun e => bool_decide (e.1 = (d, nm))) es.
Definition all_ops : list vop := [Vread; Vwrite; Vcreate; Vmknod; Vlookup; Vlink; Vunlink; Vmkdir; Vrmdir; Vreaddir; Vstat].
Definition new_key {A} (m : gmap Z A) : Z := 1 + foldr Z.max 0 (fst <$> map_to_list m).
(** A new vnode of the mode, entered in a directory. *)
Definition add_entry (d : Z) (nm : cstring) (mode refs : Z) (s : dfs) : Z * dfs :=
  let v := new_key (vnodes s) in
  (v, Vfs (files s) (<[v := Vnode mode 0 refs all_ops]> (vnodes s)) (p_files s) (p_cwd s) (vfs_root_vn s)
        ((d, nm, v) :: fs_state s)).

#[export] Instance demo_vfs : VfsOps (FS := entries) := {|
  fget fd s :=
    if fd =? -1 then let f := new_key (files s) in Ok f (set_files (insert f (File 0 0 1 NULLP)) s)
    else if fd <? 0 then Ok NULLP s
    else match p_files s !! Z.to_nat fd with
    | Some f =>
        if f =? NULLP then Ok NULLP s
        else match files s !! f with
        | Some x => Ok f (set_files (insert f (set_f_refcount (f_refcount x + 1) x)) s)
        | None => Halt NullDeref s
        end
    | None => Ok NULLP s
    end;
  fput f s :=
    match files s !! f with
    | Some x =>
        if 1 <? f_refcount x then Ok tt (set_files (insert f (set_f_refcount (f_refcount x - 1) x)) s)
        else Ok tt (file_gone f x s)
    | None => Halt NullDeref s
    end;
  vref v s := Ok tt (vn_add 1 v s);
  vput v s := Ok tt (vn_add (-1) v s);
  vn_read v off n s :=
    let len := from_option vn_len 0 (vnodes s !! v) in
    let r := Z.max 0 (Z.min n (len - off)) in Ok (r, repeat 65 (Z.to_nat r)) s;
  vn_write _ _ _ n s := Ok n s;
  vn_create d nm s := let (v, s) := add_entry d nm 4 1 s in Ok (0, v) s;
  vn_mknod d nm mode _ s := Ok 0 (add_entry d nm mode 0 s).2;
  vn_lookup d nm s :=
    match entry_of (fs_state s) d nm with
    | Some v => Ok (0, v) (vn_add 1 v s)
    | None => Ok (- ENOENT, NULLP) s
    end;
  vn_link _ _ _ s := Ok (- EPERM) s;
  vn_unlink _ _ s := Ok (- EPERM) s;
  vn_mkdir d nm s := Ok 0 (add_entry d nm 1 0 s).2;
  vn_rmdir _ _ s := Ok (- EPERM) s;
  vn_readdir _ _ s := Ok (0, []) s;
  vn_stat _ s := Ok (0, []) s;
  name_match a b := bool_decide (a = b)
|}.

Lemma new_key_fresh {A} (m : gmap Z A) : 0 < new_key m /\ m !! new_key m = None.
Proof.
  assert (forall l k, k ∈ l -> k <= foldr Z.max 0 l) as Hm.
  { induction l as [|a l IH]; intros k; [by intros ?%elem_of_nil|].
    intros [->|H]%elem_of_cons; cbn; [lia|]. specialize (IH k H). lia. }
  assert (forall l : list Z, 0 <= foldr Z.max 0 l) as Hp by (induction l; cbn; lia).
  unfold new_key. split; [specialize (Hp (fst <$> map_to_list m)); lia|].
  apply eq_None_not_Some. intros [x Hx%elem_of_map_to_list].
  assert (1 + foldr Z.max 0 (fst <$> map_to_list m) ∈ fst <$> map_to_list m) as H
    by (apply list_elem_of_fmap; by eexists (_, x)).
  apply Hm in H. lia.
Qed.

#[export] Instance vfs_laws : VfsLaws (FS := entries).
Proof.
  refine {| dirent es d nm := match entry_of es d nm with Some v => inr v | None => inl (- ENOENT) end |}.
  - intros s fd f x (H0 & Hp & Hn & Hf). cbn. rewrite Hp, Hf.
    destruct (Z.eqb_spec fd (-1)), (Z.ltb_spec fd 0), (Z.eqb_spec f NULLP); done || lia.
  - intros s fd Hfd H. cbn. rewrite (proj2 (Z.eqb_neq fd (-1)) Hfd).
    destruct (Z.ltb_spec fd 0); [done|]. destruct H as [?|[-> | ->]]; [lia|done|done].
  - intros s. exists (new_key (files s)). destruct (new_key_fresh (files s)). split_and!; [|done|done].
    unfold NULLP. lia.
  - intros s f x Hf Hr. cbn. rewrite Hf. by rewrite (proj2 (Z.ltb_lt 1 _) Hr).
  - intros s f x Hf Hr _. cbn. by rewrite Hf, Hr.
  - done.
  - done.
  - intros es d nm e. destruct (entry_of es d nm); intros; simplify_eq. cbn. lia.
  - intros s d nm. cbn. by destruct (entry_of _ d nm).
  - done.
  - done.
Defined.

(** The root with the directories [bin] (which has [ls]) and [c] (which has a file
    [c]); descriptors 0 and 1 are open, 1 and 2 on the same file. *)
Definition bin : cstring := [98; 105; 110].
Definition ls : cstring := [108; 115].
Definition c_name : cstring := [99].
Definition tree : entries := [(1, bin, 2); (2, ls, 3); (1, c_name, 4); (4, c_name, 5)].
Definition fs0 : dfs :=
  Vfs {[10 := File 1 20 1 3; 11 := File 3 0 2 5]}
    {[1 := Vnode 1 0 2 all_ops; 2 := Vnode 1 0 0 all_ops; 3 := Vnode 4 100 1 all_ops;
      4 := Vnode 1 0 0 all_ops; 5 := Vnode 4 7 1 all_ops]}
    [10; 11; 11; 0; 0] 1 1 tree.

Lemma tree_ok_check (s : dfs) :
  forallb (fun e => negb (e.2 =? 0) && bool_decide (is_Some (vnodes s !! e.2))) (fs_state s) = true ->
  bool_decide (map_Forall (fun _ y => Vlookup ∈ vn_ops y /\ 0 <= vn_refcount y) (vnodes s)) = true ->
  tree_ok s.
Proof.
  intros He Hv. apply bool_decide_eq_true in Hv. split_and!.
  - intros d nm v. cbn. unfold entry_of. destruct (List.find _ _) as [e|] eqn:E; cbn; intros; simplify_eq.
    apply List.find_some in E as [Hin _]. rewrite forallb_forall in He. specialize (He e Hin).
    apply andb_true_iff in He as [H1 H2]. split; [|by apply bool_decide_eq_true in H2].
    apply negb_true_iff, Z.eqb_neq in H1. done.
  - intros d y Hy _. by apply (Hv d y).
  - intros d y Hy. by apply (Hv d y).
Qed.
Lemma fs0_ok : tree_ok fs0.
Proof. apply tree_ok_check; vm_compute; reflexivity. Qed.

Lemma fs0_resolvable path base :
  (base = NULLP) -> rel path <> [] -> (length (components (rel path) []) <= 50)%nat -> resolvable fs0 path base.
Proof.
  intros -> Hp Hl. assert (start fs0 path NULLP = 1) as E by (unfold start; by destruct (is_absolute path)).
  split; try done; rewrite ?E; [exact fs0_ok|done|].
  exists (Vnode 1 0 2 all_ops). split; [reflexivity|]. cbn. set_solver.
Qed.

Lemma fd0_open : open_file fs0 0 10 (File 1 20 1 3).
Proof. by split_and!. Qed.
Lemma fd1_open : open_file fs0 1 11 (File 3 0 2 5).
Proof. by split_and!. Qed.
