(* ===== verification/VfsRun.v ===== *)
(** The theorems about files and paths at work on the tree of [VfsDemo]. *)
From S2P Require Import Prelude.
From S2P Require Import Platform.
From S2P Require Import Demo.
From S2P Require Import Vfs.
From S2P Require Import VfsThms.
From S2P Require Import Namev.
From S2P Require Import PathCalls.
From S2P Require Import OpenThms.
From S2P Require Import VfsDemo.
Open Scope Z_scope.

(** Seeking 30 bytes before the end of [ls]. *)
Lemma do_lseek_moves_witness :
  do_lseek 0 (-30) SEEK_END fs0 = Ok 70 (set_files (insert 10 (File 1 70 1 3)) fs0).
Proof.
  destruct (do_lseek_moves fs0 0 10 (File 1 20 1 3) (Vnode 4 100 1 all_ops) (-30) SEEK_END fd0_open
    ltac:(done) ltac:(done) ltac:(reflexivity) ltac:(by right; right)) as [(pos & _ & E & H)|[E _]];
    vm_compute in E; [|discriminate E].
  injection E as <-. exact H.
Defined.


Lemma do_close_drops_witness :
  do_close 0 fs0 = Ok 0 (set_p_files [0; 11; 11; 0; 0] (file_gone 10 (File 1 20 1 3) fs0)) /\
  do_close 1 fs0 = Ok 0 (set_p_files [10; 0; 11; 0; 0] (set_files (insert 11 (File 3 0 1 5)) fs0)).
Proof.
  split.
  - apply (do_close_drops fs0 0 10 (File 1 20 1 3) fd0_open ltac:(done) ltac:(done)). right. by eexists.
  - apply (do_close_drops fs0 1 11 (File 3 0 2 5) fd1_open ltac:(done) ltac:(done)). right. by eexists.
Defined.

Lemma do_dup_shares_witness :
  do_dup 0 fs0 = Ok 3 (set_p_files [10; 11; 11; 10; 0] (set_files (insert 10 (File 1 20 2 3)) fs0)).
Proof.
  destruct (do_dup_shares fs0 0 10 (File 1 20 1 3) fd0_open ltac:(done)) as [(nfd & _ & _ & _ & E)|(H & _)].
  - pose proof E as E'. vm_compute in E'. injection E' as <-. exact E.
  - exfalso. by apply (H 3%nat 0).
Defined.

(** [dup2] onto the open descriptor 1: the reference count of file 10 is raised,
    and the descriptor stays as it was. *)
Lemma do_dup2_leaks_witness :
  do_dup2 0 1 fs0 = Ok 1 (set_files (insert 10 (File 1 20 2 3)) fs0).
Proof.
  apply (do_dup2_leaks fs0 0 1 10 11 (File 1 20 1 3) fd0_open); done.
Defined.

(** ["/bin/ls"], ["c/c"] and ["bin/new"] *)
Definition bin_ls : cstring := slash :: bin ++ slash :: ls.
Definition c_c : cstring := c_name ++ slash :: c_name.
Definition bin_c : cstring := bin ++ slash :: c_name.

Lemma bin_ls_resolvable : resolvable fs0 bin_ls NULLP.
Proof. apply fs0_resolvable; [done|done|vm_compute; lia]. Qed.
Lemma c_c_resolvable : resolvable fs0 c_c NULLP.
Proof. apply fs0_resolvable; [done|done|vm_compute; lia]. Qed.
Lemma bin_c_resolvable : resolvable fs0 bin_c NULLP.
Proof. apply fs0_resolvable; [done|done|vm_compute; lia]. Qed.


Lemma open_namev_opens_witness :
  (exists init last, pieces_of (rel bin_ls) (init ++ [last]) /\
    match path_target fs0 1 init last with
    | inl e => open_namev [] bin_ls O_RDONLY NULLP fs0 = Ok (e, NULLP) fs0
    | inr v => last = [] \/ last_only bin_ls last ->
        open_namev [] bin_ls O_RDONLY NULLP fs0 = Ok (0, v) (vn_add 1 v fs0)
    end) /\
  open_namev [] bin_ls O_RDONLY NULLP fs0 = Ok (0, 3) (vn_add 1 3 fs0).
Proof.
  split; [|vm_compute; reflexivity].
  apply (open_namev_opens fs0 [] bin_ls O_RDONLY NULLP bin_ls_resolvable); [|reflexivity].
  apply (bool_decide_unpack (0 ∉ bin_ls)). vm_compute. exact I.
Defined.

(** The file [c] of the directory [c]: ["c/c"] is refused, although it is there. *)
Lemma open_namev_same_name_witness :
  open_namev [] c_c O_RDONLY NULLP fs0 = Ok (- ENOTDIR, 5) fs0 /\
  dirent tree 4 c_name = inr 5.
Proof.
  split; [|reflexivity].
  apply (open_namev_same_name fs0 [] c_name O_RDONLY NULLP 4 5 (Vnode 1 0 0 all_ops) (Vnode 4 7 1 all_ops) c_c_resolvable);
    try reflexivity; unfold c_name; [done|by rewrite not_elem_of_cons; split; [|apply not_elem_of_nil]..].
Defined.

Lemma do_chdir_moves_witness :
  (exists init last, pieces_of (rel bin) (init ++ [last]) /\
    match walk fs0 1 init with
    | inl e => do_chdir [] bin fs0 = Halt KAssert fs0
    | inr d => match dirent (fs_state fs0) d last with
        | inl e => do_chdir [] bin fs0 = Ok e fs0
        | inr v => forall y, vnodes fs0 !! v = Some y ->
            do_chdir [] bin fs0 =
              if S_ISDIR (vn_mode y) then Ok 0 (set_p_cwd v (vn_add (-1) (p_cwd fs0) (vn_add 1 v fs0)))
              else Ok (- ENOTDIR) fs0
        end
    end) /\
  do_chdir [] bin fs0 = Ok 0 (set_p_cwd 2 (vn_add (-1) 1 (vn_add 1 2 fs0))).
Proof.
  split; [|vm_compute; reflexivity].
  apply (do_chdir_moves fs0 [] bin (Vnode 1 0 2 all_ops)); [|reflexivity|done].
  apply fs0_resolvable; [done|done|vm_compute; lia].
Defined.



Lemma open_namev_creates_witness :
  (exists init last, pieces_of (rel bin_c) (init ++ [last]) /\
    forall d z q v s1, walk fs0 1 init = inr d -> last <> [] ->
      dirent (fs_state fs0) d last = inl (- ENOENT) ->
      vnodes fs0 !! d = Some z -> Vcreate ∈ vn_ops z ->
      vn_create d last (vn_add 1 d fs0) = Ok (q, v) (vn_add 1 d s1) ->
      tree_ok s1 -> is_Some (vnodes s1 !! d) ->
      open_namev [] bin_c O_CREAT NULLP fs0 = Ok (if q =? 0 then (0, v) else (q, NULLP)) s1) /\
  open_namev [] bin_c O_CREAT NULLP fs0 = Ok (0, 6) (add_entry 2 c_name 4 1 fs0).2.
Proof.
  split; [|vm_compute; reflexivity].
  apply (open_namev_creates fs0 [] bin_c O_CREAT NULLP bin_c_resolvable); [|done].
  apply (bool_decide_unpack (0 ∉ bin_c)). vm_compute. exact I.
Defined.
