(* ===== verification/ProcSched.v ===== *)
(** What scheduling leaves alone: the process and the stack of every thread,
    whether it has exited, and which wait queue it is on unless it is woken. *)
From S2P Require Import Prelude.
From S2P Require Import Platform.
From S2P Require Import Sched.
From S2P Require Import SchedInv.
Open Scope Z_scope.

Definition keeps_thread (k k' : kthread) : Prop :=
  kt_proc k' = kt_proc k /\ kt_kstack k' = kt_kstack k /\
  (kt_state k' = KT_EXITED <-> kt_state k = KT_EXITED) /\
  (forall a, kt_wchan k' = Some (waitq a) -> kt_wchan k = Some (waitq a)).
#[export] Instance keeps_thread_preorder : PreOrder keeps_thread.
Proof. split; [intros k; by split_and!|]. intros k1 k2 k3 (? & ? & ? & ?) (? & ? & ? & ?). split_and!; [congruence|congruence|tauto|auto]. Qed.

(** The same threads exist. *)
Definition keeps_threads (s s' : sched) : Prop :=
  forall t, option_relation keeps_thread (fun _ => False) (fun _ => False) (threads s !! t) (threads s' !! t).
#[export] Instance keeps_threads_preorder : PreOrder keeps_threads.
Proof.
  split.
  - intros s t. destruct (threads s !! t); cbn; reflexivity.
  - intros s1 s2 s3 H1 H2 t. specialize (H1 t). specialize (H2 t).
    destruct (threads s1 !! t), (threads s2 !! t), (threads s3 !! t); cbn in *; try done. by etransitivity.
Qed.

Lemma keeps_threads_fwd s s' t k : keeps_threads s s' -> threads s !! t = Some k -> exists k', threads s' !! t = Some k' /\ keeps_thread k k'.
Proof. intros H Hk. specialize (H t). rewrite Hk in H. destruct (threads s' !! t) as [k'|]; [|done]. by exists k'. Qed.
Lemma keeps_threads_bwd s s' t k' : keeps_threads s s' -> threads s' !! t = Some k' -> exists k, threads s !! t = Some k /\ keeps_thread k k'.
Proof. intros H Hk. specialize (H t). rewrite Hk in H. destruct (threads s !! t) as [k|]; [|done]. by exists k. Qed.

Lemma same_threads_keep s s' : threads s' = threads s -> keeps_threads s s'.
Proof. intros E t. rewrite E. destruct (threads s !! t); cbn; reflexivity. Qed.
Lemma set_thr_keeps t k k' s : threads s !! t = Some k -> keeps_thread k k' -> keeps_threads s (set_thr t k' s).
Proof.
  intros Ht Hk u. rewrite lookup_set_thr. case_decide as E; [subst; by rewrite Ht|]. destruct (threads s !! u); cbn; reflexivity.
Qed.
Lemma deq_keeps q t k s : threads s !! t = Some k -> keeps_threads s (deq q t k s).
Proof. intros Ht. apply (set_thr_keeps t k); [done|]. by split_and!. Qed.

Lemma make_runnable_keeps t k s : threads s !! t = Some k -> kt_state k <> KT_EXITED ->
  keeps_threads s (enq kt_runq t (with_state KT_RUN k) s).
Proof. intros Ht Hk. apply (set_thr_keeps t k); [done|]. split_and!; done. Qed.
Lemma wake_keeps q t k s : threads s !! t = Some k -> kt_state k <> KT_EXITED -> keeps_threads s (wake q t k s).
Proof.
  intros Ht Hk. etransitivity; [by apply (deq_keeps q t k)|]. apply (set_thr_keeps t (unlinked k)); [cbn; apply lookup_insert_eq|]. by split_and!.
Qed.

(** As [keeps_thread], but the thread may now sleep on a wait queue at one of [G]. *)
Definition keeps_thread_in (G : list Z) (k k' : kthread) : Prop :=
  kt_proc k' = kt_proc k /\ kt_kstack k' = kt_kstack k /\ (kt_state k' = KT_EXITED <-> kt_state k = KT_EXITED) /\
  (forall a, kt_wchan k' = Some (waitq a) -> kt_wchan k = Some (waitq a) \/ a ∈ G).
Definition keeps_in (G : list Z) (s s' : sched) : Prop :=
  forall t, option_relation (keeps_thread_in G) (fun _ => False) (fun _ => False) (threads s !! t) (threads s' !! t).

#[export] Instance keeps_thread_in_preorder G : PreOrder (keeps_thread_in G).
Proof.
  split; [intros k; split_and!; try done; by left|]. intros k1 k2 k3 (? & ? & ? & Hw1) (? & ? & ? & Hw2). split_and!; [congruence|congruence|tauto|].
  intros a Ha. destruct (Hw2 a Ha); [by apply Hw1|by right].
Qed.
#[export] Instance keeps_in_preorder G : PreOrder (keeps_in G).
Proof.
  split.
  - intros s t. destruct (threads s !! t); cbn; reflexivity.
  - intros s1 s2 s3 H1 H2 t. specialize (H1 t). specialize (H2 t).
    destruct (threads s1 !! t), (threads s2 !! t), (threads s3 !! t); cbn in *; try done. by etransitivity.
Qed.
Lemma keeps_threads_in G s s' : keeps_threads s s' -> keeps_in G s s'.
Proof.
  intros H t. specialize (H t). destruct (threads s !! t), (threads s' !! t); try done. cbn in *. destruct H as (? & ? & ? & H). split_and!; [done..|]. intros a Ha. left. by apply H.
Qed.
Lemma set_thr_keeps_in G t k k' s : threads s !! t = Some k -> keeps_thread_in G k k' -> keeps_in G s (set_thr t k' s).
Proof. intros Ht Hk u. rewrite lookup_set_thr. case_decide as E; [subst; by rewrite Ht|]. destruct (threads s !! u); cbn; reflexivity. Qed.
Lemma keeps_in_fwd G s s' t k : keeps_in G s s' -> threads s !! t = Some k -> exists k', threads s' !! t = Some k' /\ keeps_thread_in G k k'.
Proof. intros H Hk. specialize (H t). rewrite Hk in H. destruct (threads s' !! t) as [k'|]; [|done]. by exists k'. Qed.
Lemma keeps_in_bwd G s s' t k' : keeps_in G s s' -> threads s' !! t = Some k' -> exists k, threads s !! t = Some k /\ keeps_thread_in G k k'.
Proof. intros H Hk. specialize (H t). rewrite Hk in H. destruct (threads s !! t) as [k|]; [|done]. by exists k. Qed.

Section Switch.
Context `{P : Platform} (intr_wait : sched -> sched) (irqs : nat).
Context (Hintr : intr_pres intr_wait) (Hkeep : forall s, idle_ok s -> keeps_threads s (intr_wait s)).

Lemma idle_loop_keeps n s s' : sched_idle intr_wait n s = Ok tt s' -> idle_ok s -> keeps_threads s s'.
Proof.
  revert s. induction n as [|n IH]; intros s; [done|]. cbn [sched_idle]. rewrite gets_bind.
  destruct (sched_queue_empty kt_runq s); [|intros [= <-] _; reflexivity]. unfold intr_disable, intr_setipl. rewrite !modify_bind. intros E Hs.
  assert (idle_ok (set_ipl IPL_LOW (set_intr false s))) as H1 by (eapply idle_ok_core; [|exact Hs]; done).
  destruct (Hintr _ H1) as (H2 & _). apply IH in E; [|by eapply idle_ok_core; [apply set_ipl_core|]].
  etransitivity; [|exact E]. etransitivity; [by apply (same_threads_keep s (set_ipl IPL_LOW (set_intr false s)))|].
  etransitivity; [by apply Hkeep|]. by apply same_threads_keep.
Qed.

(** After a switch the current process is that of the current thread. *)
Lemma switch_keeps s s' : sched_switch intr_wait irqs s = Ok tt s' -> idle_ok s -> is_Some (threads s !! curthr s) ->
  keeps_threads s s' /\ sched_ok s' /\ exists k, threads s' !! curthr s' = Some k /\ curproc s' = kt_proc k.
Proof.
  intros Hr Hs Hc. destruct (switch_pres _ _ Hintr _ _ Hr Hs Hc) as (Hok & _). unfold sched_switch in Hr.
  rewrite (bind_ok intr_getipl _ s (ipl s) s eq_refl), (bind_ok (intr_setipl IPL_HIGH) _ s tt (set_ipl IPL_HIGH s) eq_refl) in Hr.
  apply bind_Ok_inv in Hr as ([] & s1 & Hi & Hr).
  assert (idle_ok (set_ipl IPL_HIGH s)) as Hs0 by (by eapply idle_ok_core; [apply set_ipl_core|]).
  destruct (idle_loop_pres _ Hintr _ _ _ Hi Hs0) as (I1 & _ & _ & I4 & I5).
  assert (keeps_threads s s1) as K1. { etransitivity; [|exact (idle_loop_keeps _ _ _ Hi Hs0)]. by apply same_threads_keep. }
  destruct (tq_list (queues s1 kt_runq)) as [|t l _] eqn:Hl using rev_ind; [done|].
  destruct (dequeue_oldest _ _ _ _ (io_queue _ I1) Hl) as (k & Hk & Hw & Hd & _).
  rewrite (bind_ok _ _ _ _ _ Hd), gets_bind in Hr. set (s2 := deq kt_runq t k s1) in *.
  assert (keeps_threads s s2) as K2 by (etransitivity; [exact K1|by apply deq_keeps]).
  assert (threads s2 !! t = Some (unlinked k)) as Ht2 by apply lookup_insert_eq.
  rewrite (bind_ok _ _ _ _ _ (thr_ok _ _ _ Ht2)), modify_bind in Hr. cbn [kt_proc unlinked with_wchan with_qlink] in Hr.
  assert (exists kp, threads s2 !! curthr s2 = Some kp) as [kp Hp].
  { destruct Hc as [kc Hc]. destruct (keeps_threads_fwd _ _ _ _ K2 Hc) as (kp & Hp & _). exists kp. change (curthr s2) with (curthr s1). by rewrite I4. }
  rewrite (bind_ok _ _ _ _ _ (upd_thr_ok (curthr s2) (with_frame (Some (ipl s))) kp (set_cur t (kt_proc k) s2) Hp)) in Hr.
  set (s3 := set_thr _ _ _) in Hr. assert (keeps_threads s s3) as K3.
  { etransitivity; [exact K2|]. etransitivity; [|apply (set_thr_keeps (curthr s2) kp); [exact Hp|by split_and!]]. by apply same_threads_keep. }
  unfold sched_switch_resume in Hr. apply bind_Ok_inv in Hr as (k3 & s3' & E3 & Hr).
  unfold thr in E3. rewrite get_bind in E3. apply deref_Ok_inv in E3 as [Hk3 ->].
  assert (kt_proc k3 = kt_proc k) as Hp3.
  { unfold s3 in Hk3. rewrite lookup_set_thr in Hk3. cbn [set_cur threads] in Hk3. case_decide as E.
    - injection Hk3 as <-. rewrite E, Ht2 in Hp. by injection Hp as <-.
    - rewrite Ht2 in Hk3. by injection Hk3 as <-. }
  destruct (kt_frame k3) as [x|].
  - rewrite (bind_ok _ _ _ _ _ (upd_thr_ok t _ k3 s3 Hk3)) in Hr. unfold intr_setipl, modify in Hr. injection Hr as <-. split_and!; [|done|].
    + etransitivity; [exact K3|]. apply (set_thr_keeps t k3 (with_frame None k3)); [done|by split_and!].
    + exists (with_frame None k3). split; [apply lookup_insert_eq|symmetry; exact Hp3].
  - unfold mret, M_ret in Hr. injection Hr as <-. split_and!; [done|done|]. exists k3. split; [done|symmetry; exact Hp3].
Qed.

(** A sleep on wait queue [q] adds only the sleeper to [q]. *)
Lemma sleep_on_keeps q k s s' : sched_sleep_on intr_wait irqs q s = Ok tt s' -> sched_ok s -> is_mutexq q = false -> q <> kt_runq ->
  threads s !! curthr s = Some k ->
  keeps_threads (enq q (curthr s) (with_state KT_SLEEP k) s) s' /\ sched_ok s' /\
  exists k', threads s' !! curthr s' = Some k' /\ curproc s' = kt_proc k'.
Proof.
  intros E Hs Hq Hr Hk. destruct (so_cur _ Hs) as (k' & Hk' & Hw & Hst). simplify_eq.
  unfold sched_sleep_on in E. rewrite gets_bind, (bind_ok _ _ _ _ _ (upd_thr_ok _ _ _ _ Hk)) in E.
  rewrite (bind_ok _ _ _ _ _ (ktqueue_enqueue_ok q _ (with_state KT_SLEEP k) _ (lookup_insert_eq _ _ _) Hw)), enq_set_thr in E.
  apply switch_keeps in E; [done| |].
  - apply sleep_enq_idle_ok; [done|done|done|destruct q; try done; by left|]. by intros m ->.
  - cbn. rewrite lookup_insert_eq. eauto.
Qed.
End Switch.
