(* ===== verification/Proc.v ===== *)
(** Processes and threads: [proc/proc.c], [proc/kthread.c] and [proc/fork.c].

    The state of the kernel is the scheduler's ([Sched]), the address spaces with
    the memory below them ([Vmmap]), the table of open files and vnodes, and the
    process table.  Slab allocators, page tables, kernel stacks, the file table
    and the vnode table are not in the repository and are parameters ([ProcOps],
    [FsOps]).

    A list with its links inside the objects is the sequence of its objects, head
    first; [p_child_link] and [kt_plinks] say in which list the link of a process
    or thread is.  An object that is inserted into a second list without being
    removed from the first one stays in the sequence of the first, whose head
    still points to it. *)
From S2P Require Import Prelude.
From S2P Require Import Platform.
From S2P Require Import Sched.
From S2P Require Import MmIface.
From S2P Require Import Vmmap.
From S2P Require Import ForkVm.
Open Scope Z_scope.

(** proc/proc.h, config.h *)
Class ProcConst := {
  PID_IDLE : Z; PID_INIT : Z;
  PROC_NAME_LEN : Z;
  DEFAULT_STACK_SIZE : Z; PAGE_SHIFT : Z;
  userland_entry : Z;
  sizeof_regs : Z; r_eax : nat    (* regs_t: its size, and which word of it is r_eax *)
}.

(** api/context.h: what a thread starts or resumes with *)
Record context := Context {
  c_pdptr : Z; c_eip : Z; c_esp : Z; c_ebp : Z; c_kstack : Z; c_kstacksz : Z
}.

(** A struct comes out of its slab with the contents [slab_kthread], [slab_ctx]. *)
Class ProcOps (MM : Type) := {
  proc_slab_alloc : M MM Z;
  proc_slab_free : Z -> M MM unit;
  kthread_slab_alloc : M MM Z;
  kthread_slab_free : Z -> M MM unit;
  slab_kthread : Z -> MM -> kthread;
  slab_ctx : Z -> MM -> context;
  page_alloc_n : Z -> M MM Z;
  page_free_n : Z -> Z -> M MM unit;
  pt_create_pagedir : M MM Z;
  pt_destroy_pagedir : Z -> M MM unit;
  proc_tlb_flush_all : M MM unit;
  (* context_setup(c, func, arg1, arg2, kstack, kstacksz, pdptr): the context *)
  context_setup : Z -> Z -> Z -> Z -> Z -> Z -> M MM context
}.

(** fs/file.h, fs/vnode.h; [vget] is called for the root only. *)
Class FsOps (FS : Type) := {
  fref : Z -> M FS unit;
  fput : Z -> M FS unit;
  vref : Z -> M FS unit;
  vput : Z -> M FS unit;
  vget_root : M FS unit;
  vfs_root_vn : FS -> Z
}.

(** ** Data *)

Inductive proc_state := PROC_RUNNING | PROC_DEAD.
#[global] Instance proc_state_eq_dec : EqDecision proc_state.
Proof. solve_decision. Defined.

Record proc := Proc {
  p_pid : Z;
  p_comm : list Z;               (* the bytes of the name *)
  p_threads : list Z;
  p_children : list Z;
  p_child_link : option Z;       (* the process in whose p_children it is linked *)
  p_pproc : Z;
  p_status : Z;
  p_state : proc_state;
  p_pagedir : Z;
  p_files : list Z;
  p_cwd : Z;
  p_brk : Z; p_start_brk : Z;
  p_vmmap : Z
}.

Definition pset_pid (x : Z) (p : proc) : proc :=
  Proc x (p_comm p) (p_threads p) (p_children p) (p_child_link p) (p_pproc p) (p_status p) (p_state p) (p_pagedir p) (p_files p) (p_cwd p) (p_brk p) (p_start_brk p) (p_vmmap p).
Definition pset_comm (x : list Z) (p : proc) : proc :=
  Proc (p_pid p) x (p_threads p) (p_children p) (p_child_link p) (p_pproc p) (p_status p) (p_state p) (p_pagedir p) (p_files p) (p_cwd p) (p_brk p) (p_start_brk p) (p_vmmap p).
Definition pset_threads (x : list Z) (p : proc) : proc :=
  Proc (p_pid p) (p_comm p) x (p_children p) (p_child_link p) (p_pproc p) (p_status p) (p_state p) (p_pagedir p) (p_files p) (p_cwd p) (p_brk p) (p_start_brk p) (p_vmmap p).
Definition pset_children (x : list Z) (p : proc) : proc :=
  Proc (p_pid p) (p_comm p) (p_threads p) x (p_child_link p) (p_pproc p) (p_status p) (p_state p) (p_pagedir p) (p_files p) (p_cwd p) (p_brk p) (p_start_brk p) (p_vmmap p).
Definition pset_child_link (x : option Z) (p : proc) : proc :=
  Proc (p_pid p) (p_comm p) (p_threads p) (p_children p) x (p_pproc p) (p_status p) (p_state p) (p_pagedir p) (p_files p) (p_cwd p) (p_brk p) (p_start_brk p) (p_vmmap p).
Definition pset_pproc (x : Z) (p : proc) : proc :=
  Proc (p_pid p) (p_comm p) (p_threads p) (p_children p) (p_child_link p) x (p_status p) (p_state p) (p_pagedir p) (p_files p) (p_cwd p) (p_brk p) (p_start_brk p) (p_vmmap p).
Definition pset_status (x : Z) (p : proc) : proc :=
  Proc (p_pid p) (p_comm p) (p_threads p) (p_children p) (p_child_link p) (p_pproc p) x (p_state p) (p_pagedir p) (p_files p) (p_cwd p) (p_brk p) (p_start_brk p) (p_vmmap p).
Definition pset_state (x : proc_state) (p : proc) : proc :=
  Proc (p_pid p) (p_comm p) (p_threads p) (p_children p) (p_child_link p) (p_pproc p) (p_status p) x (p_pagedir p) (p_files p) (p_cwd p) (p_brk p) (p_start_brk p) (p_vmmap p).
Definition pset_pagedir (x : Z) (p : proc) : proc :=
  Proc (p_pid p) (p_comm p) (p_threads p) (p_children p) (p_child_link p) (p_pproc p) (p_status p) (p_state p) x (p_files p) (p_cwd p) (p_brk p) (p_start_brk p) (p_vmmap p).
Definition pset_files (x : list Z) (p : proc) : proc :=
  Proc (p_pid p) (p_comm p) (p_threads p) (p_children p) (p_child_link p) (p_pproc p) (p_status p) (p_state p) (p_pagedir p) x (p_cwd p) (p_brk p) (p_start_brk p) (p_vmmap p).
Definition pset_cwd (x : Z) (p : proc) : proc :=
  Proc (p_pid p) (p_comm p) (p_threads p) (p_children p) (p_child_link p) (p_pproc p) (p_status p) (p_state p) (p_pagedir p) (p_files p) x (p_brk p) (p_start_brk p) (p_vmmap p).
Definition pset_brk (x : Z) (p : proc) : proc :=
  Proc (p_pid p) (p_comm p) (p_threads p) (p_children p) (p_child_link p) (p_pproc p) (p_status p) (p_state p) (p_pagedir p) (p_files p) (p_cwd p) x (p_start_brk p) (p_vmmap p).
Definition pset_start_brk (x : Z) (p : proc) : proc :=
  Proc (p_pid p) (p_comm p) (p_threads p) (p_children p) (p_child_link p) (p_pproc p) (p_status p) (p_state p) (p_pagedir p) (p_files p) (p_cwd p) (p_brk p) x (p_vmmap p).
Definition pset_vmmap (x : Z) (p : proc) : proc :=
  Proc (p_pid p) (p_comm p) (p_threads p) (p_children p) (p_child_link p) (p_pproc p) (p_status p) (p_state p) (p_pagedir p) (p_files p) (p_cwd p) (p_brk p) (p_start_brk p) x.

Section Proc.
Context `{P : Platform} {C : ProcConst} {MM FS : Type} `{!MmOps MM} `{!ProcOps MM} `{!FsOps FS}.
Context (intr_wait : sched -> sched) (irqs : nat).

Record kern := Kern {
  ks : sched;
  kvm : vm (MM := MM);
  kfs : FS;
  procs : gmap Z proc;
  proc_list : list Z;            (* _proc_list *)
  next_pid : Z;
  proc_initproc : Z;
  kt_plinks : gmap Z Z;          (* thread, and the process in whose p_threads it is linked *)
  kt_ctxs : gmap Z context;      (* kt_ctx *)
  kstack_mem : gmap Z Z          (* the words of the kernel stacks *)
}.

Definition set_ks (x : sched) (k : kern) : kern :=
  Kern x (kvm k) (kfs k) (procs k) (proc_list k) (next_pid k) (proc_initproc k) (kt_plinks k) (kt_ctxs k) (kstack_mem k).
Definition set_kvm (x : vm) (k : kern) : kern :=
  Kern (ks k) x (kfs k) (procs k) (proc_list k) (next_pid k) (proc_initproc k) (kt_plinks k) (kt_ctxs k) (kstack_mem k).
Definition set_kfs (x : FS) (k : kern) : kern :=
  Kern (ks k) (kvm k) x (procs k) (proc_list k) (next_pid k) (proc_initproc k) (kt_plinks k) (kt_ctxs k) (kstack_mem k).
Definition set_procs (f : gmap Z proc -> gmap Z proc) (k : kern) : kern :=
  Kern (ks k) (kvm k) (kfs k) (f (procs k)) (proc_list k) (next_pid k) (proc_initproc k) (kt_plinks k) (kt_ctxs k) (kstack_mem k).
Definition set_proc_list (f : list Z -> list Z) (k : kern) : kern :=
  Kern (ks k) (kvm k) (kfs k) (procs k) (f (proc_list k)) (next_pid k) (proc_initproc k) (kt_plinks k) (kt_ctxs k) (kstack_mem k).
Definition set_next_pid (x : Z) (k : kern) : kern :=
  Kern (ks k) (kvm k) (kfs k) (procs k) (proc_list k) x (proc_initproc k) (kt_plinks k) (kt_ctxs k) (kstack_mem k).
Definition set_initproc (x : Z) (k : kern) : kern :=
  Kern (ks k) (kvm k) (kfs k) (procs k) (proc_list k) (next_pid k) x (kt_plinks k) (kt_ctxs k) (kstack_mem k).
Definition set_plinks (f : gmap Z Z -> gmap Z Z) (k : kern) : kern :=
  Kern (ks k) (kvm k) (kfs k) (procs k) (proc_list k) (next_pid k) (proc_initproc k) (f (kt_plinks k)) (kt_ctxs k) (kstack_mem k).
Definition set_ctxs (f : gmap Z context -> gmap Z context) (k : kern) : kern :=
  Kern (ks k) (kvm k) (kfs k) (procs k) (proc_list k) (next_pid k) (proc_initproc k) (kt_plinks k) (f (kt_ctxs k)) (kstack_mem k).
Definition set_kstack_mem (f : gmap Z Z -> gmap Z Z) (k : kern) : kern :=
  Kern (ks k) (kvm k) (kfs k) (procs k) (proc_list k) (next_pid k) (proc_initproc k) (kt_plinks k) (kt_ctxs k) (f (kstack_mem k)).

(** An operation of a component, on the kernel's state. *)
Definition on_sched {A} (m : M sched A) : M kern A := fun k =>
  match m (ks k) with Ok a x => Ok a (set_ks x k) | Halt h x => Halt h (set_ks x k) end.
Definition on_vm {A} (m : M vm A) : M kern A := fun k =>
  match m (kvm k) with Ok a x => Ok a (set_kvm x k) | Halt h x => Halt h (set_kvm x k) end.
Definition on_mm {A} (m : M MM A) : M kern A := on_vm (lift m).
Definition on_fs {A} (m : M FS A) : M kern A := fun k =>
  match m (kfs k) with Ok a x => Ok a (set_kfs x k) | Halt h x => Halt h (set_kfs x k) end.

(** [p->...], [p->field = ...] *)
Definition prc (p : Z) : M kern proc := k ← get; deref (procs k !! p).
Definition upd_prc (p : Z) (f : proc -> proc) : M kern unit :=
  x ← prc p; modify (set_procs (insert p (f x))).
Definition get_curproc : M kern Z := gets (fun k => curproc (ks k)).
Definition get_curthr : M kern Z := gets (fun k => curthr (ks k)).

(** [list_insert_head(&q->p_children, &p->p_child_link)] and [list_remove(&p->p_child_link)] *)
Definition insert_child (q p : Z) : M kern unit :=
  x ← prc q;
  upd_prc q (pset_children (p :: p_children x));;
  upd_prc p (pset_child_link (Some q)).
Definition remove_child (p : Z) : M kern unit :=
  x ← prc p;
  q ← deref (p_child_link x);
  y ← prc q;
  upd_prc q (pset_children (filter (fun c => c <> p) (p_children y)));;
  upd_prc p (pset_child_link None).

(** ** Looking up processes *)

Fixpoint find_pid (pid : Z) (l : list Z) : M kern (option Z) :=
  match l with
  | [] => mret None
  | p :: l => x ← prc p; if p_pid x =? pid then mret (Some p) else find_pid pid l
  end.

Definition proc_lookup (pid : Z) : M kern Z :=
  k ← get; r ← find_pid pid (proc_list k); mret (default NULL r).

(** The loop of [_proc_getid]: try [pid], then the numbers after it. *)
Fixpoint proc_getid_loop (fuel : nat) (pid : Z) : M kern Z :=
  match fuel with
  | O => stop OutOfFuel
  | S fuel =>
      k ← get;
      used ← find_pid pid (proc_list k);
      match used with
      | Some _ =>
          let pid := (pid + 1) `mod` PROC_MAX_COUNT in
          if pid =? next_pid k then mret (-1) else proc_getid_loop fuel pid
      | None => modify (set_next_pid ((pid + 1) `mod` PROC_MAX_COUNT));; mret pid
      end
  end.
Definition proc_getid : M kern Z :=
  k ← get; proc_getid_loop (Z.to_nat PROC_MAX_COUNT) (next_pid k).

(** ** Creating a process *)

Definition zero_proc : proc := Proc 0 [] [] [] None NULL 0 PROC_RUNNING NULL [] NULL 0 0 NULL.

(** The working directory of a new process. *)
Definition create_cwd (p pid : Z) : M kern unit :=
  k ← get;
  when ((1 <? pid) && c_true (vfs_root_vn (kfs k)))
    (upd_prc p (pset_cwd (vfs_root_vn (kfs k)));; on_fs vget_root).

(** Its address space and heap. *)
Definition create_vm (p pid : Z) : M kern unit :=
  m ← on_vm vmmap_create;
  upd_prc p (pset_vmmap m);;
  v ← on_vm (vmmap_of m);
  on_vm (modify (set_map m (Vmmap (vmm_list v) p)));;
  when (negb (pid =? PID_IDLE))
    (cur ← get_curproc;
     x ← prc cur;
     upd_prc p (pset_brk (p_brk x));;
     upd_prc p (pset_start_brk (p_start_brk x))).

(** The fields of the new process [p], and the lists it goes into. *)
Definition create_fill (name : list Z) (p pid : Z) : M kern unit :=
  cur ← get_curproc;
  upd_prc p (pset_pid pid);;
  when (pid =? 1) (modify (set_initproc p));;
  (* strcpy into p_comm *)
  (if Z.of_nat (length name) <? PROC_NAME_LEN then mret tt else stop BadIndex);;
  upd_prc p (pset_comm name);;
  upd_prc p (pset_status 0);;
  upd_prc p (pset_threads []);;
  upd_prc p (pset_children []);;
  when (negb (cur =? NULL)) (insert_child cur p);;
  upd_prc p (pset_pproc cur);;
  upd_prc p (pset_state PROC_RUNNING);;
  on_sched (sched_queue_init (waitq p));;
  pd ← on_mm pt_create_pagedir;
  upd_prc p (pset_pagedir pd);;
  modify (set_proc_list (cons p));;
  upd_prc p (pset_files (replicate (Z.to_nat NFILES) NULL));;
  create_cwd p pid;;
  create_vm p pid.

Definition proc_create (name : list Z) : M kern Z :=
  p ← on_mm proc_slab_alloc;
  kassert (c_true p);;
  modify (set_procs (insert p zero_proc));;
  pid ← proc_getid;
  k ← get;
  kassert (negb (PID_IDLE =? pid) || bool_decide (proc_list k = []));;
  when (PID_INIT =? pid) (cur ← get_curproc; x ← prc cur; kassert (PID_IDLE =? p_pid x));;
  create_fill name p pid;;
  mret p.

(** ** Threads: proc/kthread.c *)

Definition stack_pages : Z := 1 + Z.shiftr DEFAULT_STACK_SIZE PAGE_SHIFT.
Definition alloc_stack : M kern Z := on_mm (page_alloc_n stack_pages).
Definition free_stack (stack : Z) : M kern unit := on_mm (page_free_n stack stack_pages).

(** [list_remove(&t->kt_plink)] *)
Definition remove_plink (t : Z) : M kern unit :=
  k ← get;
  q ← deref (kt_plinks k !! t);
  x ← prc q;
  upd_prc q (pset_threads (filter (fun u => u <> t) (p_threads x)));;
  modify (set_plinks (delete t)).

Definition forget_thr (t : Z) (s : sched) : sched :=
  Sched (delete t (threads s)) (queues_of s) (holders s) (curthr s) (curproc s) (ipl s) (intr_on s).

Definition kthread_destroy (t : Z) : M kern unit :=
  (if t =? NULL then stop KAssert else mret tt);;
  x ← on_sched (thr t);
  kassert (c_true (kt_kstack x));;
  free_stack (kt_kstack x);;
  k ← get;
  when (bool_decide (is_Some (kt_plinks k !! t))) (remove_plink t);;
  on_mm (kthread_slab_free t);;
  on_sched (modify (forget_thr t));;
  modify (set_ctxs (delete t)).

Definition with_kstack (x : Z) (k : kthread) : kthread :=
  Kthread (kt_state k) (kt_wchan k) (kt_qlink k) (kt_cancelled k) (kt_retval k) (kt_errno k)
    (kt_proc k) x (kt_frame k).
Definition with_proc (x : Z) (k : kthread) : kthread :=
  Kthread (kt_state k) (kt_wchan k) (kt_qlink k) (kt_cancelled k) (kt_retval k) (kt_errno k)
    x (kt_kstack k) (kt_frame k).
Definition with_errno (x : Z) (k : kthread) : kthread :=
  Kthread (kt_state k) (kt_wchan k) (kt_qlink k) (kt_cancelled k) (kt_retval k) x
    (kt_proc k) (kt_kstack k) (kt_frame k).
Definition zero_thread : kthread := Kthread KT_NO_STATE None None 0 0 0 NULL NULL None.

(** A struct that memory was found for. *)
Definition not_null (p : Z) : M kern unit := if p =? NULL then stop NullDeref else mret tt.

Definition kthread_create (p func arg1 arg2 : Z) : M kern Z :=
  kassert (c_true p);;
  t ← on_mm kthread_slab_alloc;
  not_null t;;
  on_sched (modify (set_thr t zero_thread));;
  stack ← alloc_stack;
  on_sched (upd_thr t (with_kstack stack));;
  on_sched (upd_thr t (with_proc p));;
  on_sched (upd_thr t (with_cancelled 0));;
  on_sched (upd_thr t (with_state KT_NO_STATE));;
  x ← prc p;
  when (p_pid x =? 0) (on_sched (upd_thr t (with_state KT_RUN)));;
  on_sched (upd_thr t (with_qlink None));;
  modify (set_plinks (delete t));;
  (* list_insert_head(&p->p_threads, &k->kt_plink) *)
  upd_prc p (pset_threads (t :: p_threads x));;
  modify (set_plinks (insert t p));;
  c ← on_mm (context_setup func arg1 arg2 stack DEFAULT_STACK_SIZE (p_pagedir x));
  modify (set_ctxs (insert t c));;
  mret t.

Definition kthread_clone (t : Z) : M kern Z :=
  x ← on_sched (thr t);
  kassert (bool_decide (kt_state x = KT_RUN));;
  n ← on_mm kthread_slab_alloc;
  stack ← alloc_stack;
  not_null n;;
  k ← get;
  let raw := slab_kthread n (vm_mm (kvm k)) in
  on_sched (modify (set_thr n (with_frame None raw)));;
  on_sched (upd_thr n (with_kstack stack));;
  let c := slab_ctx n (vm_mm (kvm k)) in
  modify (set_ctxs (insert n (Context (c_pdptr c) (c_eip c) (c_esp c) (c_ebp c) stack (c_kstacksz c))));;
  on_sched (upd_thr n (with_wchan None));;
  x ← on_sched (thr t);
  on_sched (upd_thr n (with_retval (kt_retval x)));;
  on_sched (upd_thr n (with_errno (kt_errno x)));;
  on_sched (upd_thr n (with_cancelled (kt_cancelled x)));;
  on_sched (upd_thr n (with_state (kt_state x)));;
  on_sched (upd_thr n (with_qlink None));;
  modify (set_plinks (delete n));;
  y ← on_sched (thr n);
  kassert (bool_decide (kt_state y = KT_RUN));;
  mret n.

(** ** Exiting *)

Definition cleanup_children (l : list Z) : M kern unit :=
  mfor l (fun child =>
    k ← get;
    insert_child (proc_initproc k) child;;
    upd_prc child (pset_pproc (proc_initproc k))).

Definition cleanup_files (p : Z) (n : Z) : M kern unit :=
  mfor (seq 0 (Z.to_nat n)) (fun i =>
    x ← prc p;
    match p_files x !! i with
    | None => stop BadIndex
    | Some f =>
        when (c_true f) (on_fs (fput f));;
        upd_prc p (fun x => pset_files (<[i := NULL]> (p_files x)) x)
    end).

Definition proc_cleanup (status : Z) : M kern unit :=
  k ← get;
  kassert (negb (NULL =? proc_initproc k));;
  cur ← get_curproc;
  x ← prc cur;
  kassert (1 <=? p_pid x);;
  kassert (negb (NULL =? p_pproc x));;
  t ← get_curthr;
  y ← on_sched (thr t);
  z ← prc (kt_proc y);
  let parent_process := p_pproc z in
  empty ← gets (fun k => sched_queue_empty (waitq parent_process) (ks k));
  when (negb empty) (on_sched (sched_wakeup_on (waitq parent_process));; mret tt);;
  cleanup_children (p_children x);;
  upd_prc cur (pset_status status);;
  upd_prc cur (pset_state PROC_DEAD);;
  cleanup_files cur NFILES;;
  x ← prc cur;
  when (c_true (p_cwd x)) (on_fs (vput (p_cwd x)));;
  on_vm (vmmap_destroy (p_vmmap x));;
  x ← prc cur;
  kassert (negb (NULL =? p_pproc x));;
  y ← on_sched (thr t);
  kassert (bool_decide (KT_EXITED = kt_state y)).

Definition proc_thread_exited (retval : Z) : M kern unit :=
  proc_cleanup retval;;
  on_sched (sched_switch intr_wait irqs).

Definition kthread_exit (retval : Z) : M kern unit :=
  t ← get_curthr;
  on_sched (upd_thr t (with_retval retval));;
  on_sched (upd_thr t (with_state KT_EXITED));;
  x ← on_sched (thr t);
  kassert (bool_decide (kt_wchan x = None));;
  kassert (bool_decide (kt_qlink x = None));;
  cur ← get_curproc;
  kassert (kt_proc x =? cur);;
  proc_thread_exited retval.

Definition do_exit (status : Z) : M kern unit := kthread_exit status.

(** A call that does not come back ends [Switched]. *)
Definition kthread_cancel (t retval : Z) : M kern called :=
  kassert (negb (NULL =? t));;
  cur ← get_curthr;
  if t =? cur then kthread_exit retval;; mret Switched
  else on_sched (kthread_cancel_other t retval);; mret (Returned 0).

Definition proc_kill (p status : Z) : M kern called :=
  cur ← get_curproc;
  if cur =? p then do_exit status;; mret Switched
  else
    x ← prc p;
    proc_thread ← deref (head (p_threads x));
    kthread_cancel proc_thread NULL.

Fixpoint proc_kill_loop (l : list Z) : M kern called :=
  match l with
  | [] => mret (Returned 0)
  | p :: l =>
      x ← prc p;
      cur ← get_curproc;
      if negb (p_pid x =? 0) && negb (p_pid x =? 1) && negb (p_pid x =? 2) && negb (cur =? p) then
        r ← proc_kill p 0;
        match r with Switched => mret Switched | Returned _ => proc_kill_loop l end
      else proc_kill_loop l
  end.
Definition proc_kill_all : M kern called := k ← get; proc_kill_loop (proc_list k).

(** ** Waiting *)

(** The result and [*status], when it is set; or the caller went to sleep. *)
Inductive waited := WaitReturned (ret : Z) (status : option Z) | WaitSwitched.

(** The end of both branches, for a dead child: they unlink and free the thread
    and the process in a different order. *)
Definition reap_any (child pid : Z) : M kern waited :=
  x ← prc child;
  kassert (negb (NULL =? child));;
  kassert ((-1 =? pid) || (p_pid x =? pid));;
  kassert (negb (NULL =? p_pagedir x));;
  t ← deref (head (p_threads x));
  kthread_destroy t;;
  modify (set_proc_list (filter (fun p => p <> child)));;
  remove_child child;;
  on_mm (pt_destroy_pagedir (p_pagedir x));;
  on_mm (proc_slab_free child);;
  modify (set_procs (delete child));;
  mret (WaitReturned (p_pid x) (Some (p_status x))).
Definition reap_pid (child pid : Z) : M kern waited :=
  x ← prc child;
  kassert (negb (NULL =? child));;
  kassert ((-1 =? pid) || (p_pid x =? pid));;
  kassert (negb (NULL =? p_pagedir x));;
  t ← deref (head (p_threads x));
  remove_child child;;
  modify (set_proc_list (filter (fun p => p <> child)));;
  kthread_destroy t;;
  on_mm (pt_destroy_pagedir (p_pagedir x));;
  on_mm (proc_slab_free child);;
  modify (set_procs (delete child));;
  mret (WaitReturned (p_pid x) (Some (p_status x))).

Fixpoint find_dead (l : list Z) : M kern (option Z) :=
  match l with
  | [] => mret None
  | c :: l => x ← prc c; if bool_decide (p_state x = PROC_DEAD) then mret (Some c) else find_dead l
  end.

(** One round of [while (!is_dead_child)]. *)
Definition wait_any : M kern waited :=
  cur ← get_curproc;
  x ← prc cur;
  r ← find_dead (p_children x);
  match r with
  | Some child => reap_any child (-1)
  | None => on_sched (sched_sleep_on intr_wait irqs (waitq cur));; mret WaitSwitched
  end.
(** One round of [while (1)] for the child with number [pid]. *)
Definition wait_pid (child pid : Z) : M kern waited :=
  cur ← get_curproc;
  x ← prc child;
  if bool_decide (p_state x = PROC_DEAD) then reap_pid child pid
  else on_sched (sched_sleep_on intr_wait irqs (waitq cur));; mret WaitSwitched.

Definition do_waitpid (pid options : Z) : M kern waited :=
  if negb (options =? 0) then mret (WaitReturned (- EINVAL) None)
  else if pid =? -1 then
    cur ← get_curproc;
    x ← prc cur;
    if bool_decide (p_children x = []) then mret (WaitReturned (- ECHILD) None)
    else wait_any
  else if 0 <? pid then
    cur ← get_curproc;
    x ← prc cur;
    if bool_decide (p_children x = []) then mret (WaitReturned (- ECHILD) None)
    else
      r ← find_pid pid (p_children x);
      match r with
      | Some child => wait_pid child pid
      | None => mret (WaitReturned (- ECHILD) None)
      end
  else mret (WaitReturned (- EINVAL) None).

(** ** fork *)

(** The words [regs] stored from address [a] on. *)
Fixpoint store_words (a : Z) (regs : list Z) (mem : gmap Z Z) : gmap Z Z :=
  match regs with
  | [] => mem
  | w :: regs => store_words (a + 4) regs (<[a := w]> mem)
  end.

Definition fork_setup_stack (regs : list Z) (kstack : Z) : M kern Z :=
  let esp := kstack +u DEFAULT_STACK_SIZE -u (sizeof_regs + 12) in
  modify (set_kstack_mem (insert (esp + 4) (esp + 8)));;
  modify (set_kstack_mem (store_words (esp + 8) regs));;
  mret esp.

Definition fork_files (newproc cur : Z) (n : Z) : M kern unit :=
  mfor (seq 0 (Z.to_nat n)) (fun i =>
    y ← prc cur;
    f ← match p_files y !! i with None => stop BadIndex | Some f => mret f end;
    upd_prc newproc (fun x => pset_files (<[i := f]> (p_files x)) x);;
    when (negb (f =? NULL)) (on_fs (fref f))).

(** The result and the registers, in which [r_eax] has been cleared. *)
Definition do_fork (regs : list Z) : M kern (Z * list Z) :=
  cur ← get_curproc;
  kassert (negb (cur =? NULL));;
  x ← prc cur;
  kassert (bool_decide (p_state x = PROC_RUNNING));;
  newproc ← proc_create [110; 101; 119; 112; 114; 111; 99];   (* "newproc" *)
  x ← prc cur;
  m ← on_vm (vmmap_clone (p_vmmap x));
  upd_prc newproc (pset_vmmap m);;
  y ← prc newproc;
  kassert (bool_decide (p_state y = PROC_RUNNING));;
  kassert (negb (p_pagedir y =? NULL));;
  on_vm (fork_vmas m (p_vmmap x));;
  t ← get_curthr;
  newthr ← kthread_clone t;
  z ← on_sched (thr newthr);
  kassert (negb (kt_kstack z =? NULL));;
  x ← prc cur;
  upd_prc newproc (pset_brk (p_brk x));;
  upd_prc newproc (pset_start_brk (p_start_brk x));;
  on_mm (pt_unmap_range (p_pagedir x) USER_MEM_LOW USER_MEM_HIGH);;
  on_mm proc_tlb_flush_all;;
  fork_files newproc cur NFILES;;
  y ← prc newproc;
  on_fs (vput (p_cwd y));;
  let regs := <[r_eax := 0]> regs in
  on_sched (upd_thr newthr (with_proc newproc));;
  (* list_insert_tail(&newproc->p_threads, &newthr->kt_plink) *)
  upd_prc newproc (fun y => pset_threads (p_threads y ++ [newthr]) y);;
  modify (set_plinks (insert newthr newproc));;
  z ← on_sched (thr newthr);
  esp ← fork_setup_stack regs (kt_kstack z);
  k ← get;
  c ← deref (kt_ctxs k !! newthr);
  y ← prc newproc;
  modify (set_ctxs (insert newthr
    (Context (p_pagedir y) userland_entry esp (c_ebp c) (kt_kstack z) DEFAULT_STACK_SIZE)));;
  on_sched (sched_make_runnable newthr);;
  x ← prc cur;
  upd_prc newproc (pset_cwd (p_cwd x));;
  on_fs (vref (p_cwd x));;
  y ← prc newproc;
  mret (p_pid y, regs).

End Proc.
