(* ===== verification/ProcInv.v ===== *)
(** The invariant of the process table, and what the parameters of [Proc] promise.

    [fam_ok] is the family tree: process numbers are unique, every process is in
    the list of its parent and of no other running process, and parents run.
    [threads_ok] ties threads to processes, [spaces_ok] processes to address spaces,
    [waits_ok] sleeping threads to the wait queues inside the processes. *)
From S2P Require Import Prelude.
From S2P Require Import Platform.
From S2P Require Import Sched.
From S2P Require Import SchedInv.
From S2P Require Import ProcSched.
From S2P Require Import MmIface.
From S2P Require Import Vmmap.
From S2P Require Import Areas.
From S2P Require Import VmmapFacts.
From S2P Require Import VmmapThms.
From S2P Require Import Proc.
Open Scope Z_scope.

(** ** The parameters *)

Section MemLaws.
Context {MM : Type} `{!MmOps MM} `{!MmLaws MM}.

(** An allocation gives NULL or a struct nobody has; freeing takes one back. *)
Definition allocates (m : M MM Z) : Prop := forall L I R mm, mm_safe L I R mm ->
  exists a mm', m mm = Ok a mm' /\ (a = NULL -> mm_safe L I R mm') /\ (a <> NULL -> mm_safe (a :: L) I R mm').
Definition releases (m : Z -> M MM unit) : Prop := forall L I R mm a, mm_safe (a :: L) I R mm ->
  exists mm', m a mm = Ok tt mm' /\ mm_safe L I R mm'.

Class ProcLaws `{!ProcOps MM} := {
  pl_proc : allocates proc_slab_alloc;
  pl_proc_free : releases proc_slab_free;
  pl_thread : allocates kthread_slab_alloc;
  pl_thread_free : releases kthread_slab_free;
  pl_stack n : allocates (page_alloc_n n);
  pl_stack_free n : releases (fun a => page_free_n a n);
  pl_pagedir : allocates pt_create_pagedir;
  pl_pagedir_free : releases pt_destroy_pagedir;
  pl_tlb L I R mm : mm_safe L I R mm -> exists mm', proc_tlb_flush_all mm = Ok tt mm' /\ mm_safe L I R mm';
  pl_context func a1 a2 st sz pd L I R mm : mm_safe L I R mm ->
    exists c mm', context_setup func a1 a2 st sz pd mm = Ok c mm' /\ mm_safe L I R mm' /\ c_pdptr c = pd
}.

Lemma mm_safe_perm L L' I R mm : L ≡ₚ L' -> mm_safe L I R mm -> mm_safe L' I R mm.
Proof. intros E H. eapply mm_safe_weaken; [exact H|by rewrite E|done]. Qed.
End MemLaws.
Arguments ProcLaws MM {_ _ _}.

(** References to vnodes and open files, counted: [fs_safe V O fs] says that the
    references [V] to vnodes and [O] to open files are held. *)
Class FsLaws (FS : Type) `{!FsOps FS} := {
  fs_safe : gmultiset Z -> gmultiset Z -> FS -> Prop;
  fs_live V O fs : fs_safe V O fs -> NULL ∉ V /\ NULL ∉ O;
  fs_vref V O fs v : fs_safe V O fs -> v ∈ V ->
    exists fs', vref v fs = Ok tt fs' /\ fs_safe (V ⊎ {[+ v +]}) O fs' /\ vfs_root_vn fs' = vfs_root_vn fs;
  fs_vput V O fs v : fs_safe (V ⊎ {[+ v +]}) O fs ->
    exists fs', vput v fs = Ok tt fs' /\ fs_safe V O fs' /\ vfs_root_vn fs' = vfs_root_vn fs;
  fs_vget V O fs : fs_safe V O fs -> vfs_root_vn fs <> NULL ->
    exists fs', vget_root fs = Ok tt fs' /\ fs_safe (V ⊎ {[+ vfs_root_vn fs +]}) O fs' /\ vfs_root_vn fs' = vfs_root_vn fs;
  fs_fref V O fs f : fs_safe V O fs -> f ∈ O ->
    exists fs', fref f fs = Ok tt fs' /\ fs_safe V (O ⊎ {[+ f +]}) fs' /\ vfs_root_vn fs' = vfs_root_vn fs;
  fs_fput V O fs f : fs_safe V (O ⊎ {[+ f +]}) fs ->
    exists fs', fput f fs = Ok tt fs' /\ fs_safe V O fs' /\ vfs_root_vn fs' = vfs_root_vn fs
}.

Section VmLaws.
Context `{P : Platform} {MM : Type} `{!MmOps MM} `{!MmLaws MM}.
Implicit Types (v : vm (MM := MM)) (F : list Z) (R : gmultiset Z).

Lemma vm_ok_mm F F' R v mm' : vm_ok F R v ->
  mm_safe (F' ++ live (vm_maps v)) (area_ids (vm_maps v)) (all_objs (vm_maps v) ⊎ R) mm' -> vm_ok F' R (Vm (vm_maps v) mm').
Proof. intros [[Hm _] Ha] Hs. split; [by split|done]. Qed.
Lemma vm_ok_perm F F' R v : F ≡ₚ F' -> vm_ok F R v -> vm_ok F' R v.
Proof. intros E [[Hm Hs] Ha]. split; [|done]. split; [done|]. eapply mm_safe_perm; [|exact Hs]. by rewrite E. Qed.
Lemma vm_ok_safe F R v : vm_ok F R v ->
  mm_safe (F ++ live (vm_maps v)) (area_ids (vm_maps v)) (all_objs (vm_maps v) ⊎ R) (vm_mm v).
Proof. by intros [[_ ?] _]. Qed.
Lemma vm_ok_live F R v : vm_ok F R v -> NoDup (F ++ live (vm_maps v)) /\ NULL ∉ F ++ live (vm_maps v).
Proof. intros H%vm_ok_safe. by apply mm_live in H. Qed.

Lemma lift_run {A} (m : M MM A) v a mm' : m (vm_mm v) = Ok a mm' -> lift m v = Ok a (Vm (vm_maps v) mm').
Proof. unfold lift. by intros ->. Qed.

Lemma vm_allocates m F R v : allocates m -> vm_ok F R v ->
  exists a v', lift m v = Ok a v' /\ vm_maps v' = vm_maps v /\
    (a = NULL /\ vm_ok F R v' \/ a <> NULL /\ vm_ok (a :: F) R v' /\ a ∉ F ++ live (vm_maps v)).
Proof.
  intros Hm Hok. destruct (Hm _ _ _ _ (vm_ok_safe _ _ _ Hok)) as (a & mm' & E & H0 & H1).
  exists a, (Vm (vm_maps v) mm'). split_and!; [by apply lift_run|done|].
  destruct (decide (a = NULL)) as [->|Hn]; [left|right]; split; [done|by eapply vm_ok_mm; eauto|done|].
  specialize (H1 Hn). split; [by eapply vm_ok_mm|]. apply mm_live in H1 as [[? _]%NoDup_cons _]. done.
Qed.
Lemma vm_releases m F R v a : releases m -> vm_ok (a :: F) R v ->
  exists v', lift (m a) v = Ok tt v' /\ vm_maps v' = vm_maps v /\ vm_ok F R v'.
Proof.
  intros Hm Hok. destruct (Hm _ _ _ _ _ (vm_ok_safe _ _ _ Hok)) as (mm' & E & Hs).
  exists (Vm (vm_maps v) mm'). split_and!; [by apply lift_run|done|by eapply vm_ok_mm].
Qed.
End VmLaws.

Class ProcConstOk `(C : ProcConst) : Prop := { pid_idle : PID_IDLE = 0; pid_init : PID_INIT = 1 }.

(** ** The invariant *)

Definition proc_owns (p : Z) (x : proc) : list Z := [p; p_pagedir x].
Definition thread_owns (t : Z) (kt : kthread) : list Z := [t; kt_kstack kt].
(** The structs of processes and threads. *)
Definition owned (ps : gmap Z proc) (ths : gmap Z kthread) : list Z := gather proc_owns ps ++ gather thread_owns ths.

Definition nonnull (l : list Z) : list Z := filter (fun a => a <> NULL) l.
Definition cwd_ref (_ : Z) (x : proc) : list Z :=
  if bool_decide (p_state x = PROC_RUNNING) then nonnull [p_cwd x] else [].
Definition file_refs (_ : Z) (x : proc) : list Z :=
  if bool_decide (p_state x = PROC_RUNNING) then nonnull (p_files x) else [].
(** The references of the processes to their working directories and open files. *)
Definition cwds (ps : gmap Z proc) : gmultiset Z := list_to_set_disj (gather cwd_ref ps).
Definition opens (ps : gmap Z proc) : gmultiset Z := list_to_set_disj (gather file_refs ps).

(** A process knows its parent, and the parent runs and has it in its list. *)
Definition has_parent (ps : gmap Z proc) (p : Z) (x : proc) : Prop :=
  p_child_link x = Some (p_pproc x) /\ p_pproc x <> p /\
  exists y, ps !! p_pproc x = Some y /\ p_state y = PROC_RUNNING /\ p ∈ p_children y.
Definition has_children (ps : gmap Z proc) (q : Z) (y : proc) : Prop :=
  NoDup (p_children y) /\ forall c, c ∈ p_children y -> exists x, ps !! c = Some x /\ p_pproc x = q.

Record fam_ok `{P : Platform} {C : ProcConst} (ps : gmap Z proc) (l : list Z) (init : Z) : Prop := {
  fo_nodup : NoDup l;
  fo_list : forall p, p ∈ l <-> is_Some (ps !! p);
  fo_null : ps !! NULL = None;
  fo_pid_inj : forall p q x y, ps !! p = Some x -> ps !! q = Some y -> p_pid x = p_pid y -> p = q;
  fo_pid_range : map_Forall (fun _ x => 0 <= p_pid x < PROC_MAX_COUNT) ps;
  fo_parent : forall p x, ps !! p = Some x -> p_pid x <> PID_IDLE -> has_parent ps p x;
  fo_idle : forall p x, ps !! p = Some x -> p_pid x = PID_IDLE -> p_pproc x = NULL /\ p_state x = PROC_RUNNING;
  fo_has_idle : exists p x, ps !! p = Some x /\ p_pid x = PID_IDLE;
  fo_children : forall q y, ps !! q = Some y -> p_state y = PROC_RUNNING -> has_children ps q y;
  fo_init : init = NULL \/ exists y z, ps !! init = Some y /\ p_pid y = PID_INIT /\ p_state y = PROC_RUNNING /\
    ps !! p_pproc y = Some z /\ p_pid z = PID_IDLE;
  fo_files : map_Forall (fun _ x => length (p_files x) = Z.to_nat NFILES) ps;
  fo_pagedir : map_Forall (fun _ x => p_pagedir x <> NULL) ps
}.

Definition thread_of (ps : gmap Z proc) (plinks : gmap Z Z) (t : Z) (kt : kthread) : Prop :=
  plinks !! t = Some (kt_proc kt) /\ kt_kstack kt <> NULL /\
  exists x, ps !! kt_proc kt = Some x /\ p_threads x = [t] /\ (p_state x = PROC_DEAD <-> kt_state kt = KT_EXITED).
(** A process without a thread is new: it has not run, let alone died. *)
Definition proc_thread (ths : gmap Z kthread) (p : Z) (x : proc) : Prop :=
  p_threads x = [] /\ p_state x = PROC_RUNNING \/
  exists t kt, p_threads x = [t] /\ ths !! t = Some kt /\ kt_proc kt = p.
Record threads_ok (ps : gmap Z proc) (plinks : gmap Z Z) (ths : gmap Z kthread) : Prop := {
  to_thread : map_Forall (thread_of ps plinks) ths;
  to_proc : map_Forall (proc_thread ths) ps
}.

(** Running processes have address spaces, each its own. *)
Definition spaces_ok (ps : gmap Z proc) (maps : vmmaps) : Prop :=
  (forall p x, ps !! p = Some x -> p_state x = PROC_RUNNING -> is_Some (maps !! p_vmmap x)) /\
  (forall p q x y, ps !! p = Some x -> ps !! q = Some y -> p_state x = PROC_RUNNING -> p_state y = PROC_RUNNING ->
    p_vmmap x = p_vmmap y -> p = q).

(** On the wait queue inside a process only its own thread sleeps; the other wait
    queues are in structs of [F]. *)
Definition waits_ok (F : list Z) (ps : gmap Z proc) (ths : gmap Z kthread) : Prop :=
  forall t kt a, ths !! t = Some kt -> kt_wchan kt = Some (waitq a) -> kt_proc kt = a /\ is_Some (ps !! a) \/ a ∈ F.

Section Inv.
Context `{P : Platform} {C : ProcConst} {MM FS : Type} `{!MmOps MM} `{!MmLaws MM} `{!ProcOps MM} `{!ProcLaws MM} `{!FsOps FS} `{!FsLaws FS}.
Implicit Types (k : kern (MM := MM) (FS := FS)) (F : list Z) (R V O : gmultiset Z).

(** [F] are structs of other parts of the kernel, [R], [V] and [O] the references to
    memory objects, vnodes and open files that are not those of address spaces and
    processes. *)
Record kern_ok F R V O k : Prop := {
  ko_sched : sched_ok (ks k);
  ko_vm : vm_ok (owned (procs k) (threads (ks k)) ++ F) R (kvm k);
  ko_fs : fs_safe (cwds (procs k) ⊎ V) (opens (procs k) ⊎ O) (kfs k);
  ko_fam : fam_ok (procs k) (proc_list k) (proc_initproc k);
  ko_thr : threads_ok (procs k) (kt_plinks k) (threads (ks k));
  ko_spaces : spaces_ok (procs k) (vm_maps (kvm k));
  ko_waits : waits_ok F (procs k) (threads (ks k));
  ko_cur : exists kt, threads (ks k) !! curthr (ks k) = Some kt /\ curproc (ks k) = kt_proc kt;
  ko_next : 0 <= next_pid k < PROC_MAX_COUNT
}.

(** ** Running the code *)

Lemma prc_ok p x k : procs k !! p = Some x -> prc p k = Ok x k.
Proof. intros H. unfold prc. rewrite get_bind. by rewrite H. Qed.
Lemma upd_prc_ok p f x k : procs k !! p = Some x -> upd_prc p f k = Ok tt (set_procs (insert p (f x)) k).
Proof. intros H. unfold upd_prc. by rewrite (bind_ok _ _ _ _ _ (prc_ok _ _ _ H)). Qed.
Lemma on_sched_ok {A} (m : M sched A) k a s : m (ks k) = Ok a s -> on_sched m k = Ok a (set_ks s k).
Proof. unfold on_sched. by intros ->. Qed.
Lemma on_vm_ok {A} (m : M vm A) k a v : m (kvm k) = Ok a v -> on_vm m k = Ok a (set_kvm v k).
Proof. unfold on_vm. by intros ->. Qed.
Lemma on_fs_ok {A} (m : M FS A) k a fs : m (kfs k) = Ok a fs -> on_fs m k = Ok a (set_kfs fs k).
Proof. unfold on_fs. by intros ->. Qed.

Lemma on_sched_modify f k : on_sched (modify f) k = Ok tt (set_ks (f (ks k)) k).
Proof. done. Qed.
Lemma on_vm_modify f k : on_vm (modify f) k = Ok tt (set_kvm (f (kvm k)) k).
Proof. done. Qed.

(** The current process runs, and its thread is the current one. *)
Lemma cur_running F R V O k : kern_ok F R V O k ->
  exists x kt, procs k !! curproc (ks k) = Some x /\ p_state x = PROC_RUNNING /\ p_threads x = [curthr (ks k)] /\
    threads (ks k) !! curthr (ks k) = Some kt /\ kt_proc kt = curproc (ks k) /\ kt_wchan kt = None /\ kt_state kt = KT_RUN.
Proof.
  intros Hk. destruct (ko_cur _ _ _ _ _ Hk) as (kt & Hkt & Hc). destruct (so_cur _ (ko_sched _ _ _ _ _ Hk)) as (kt' & Hkt' & Hw & Hst).
  simplify_eq. destruct (to_thread _ _ _ (ko_thr _ _ _ _ _ Hk) _ _ Hkt) as (_ & _ & x & Hx & Ht & Hd).
  exists x, kt. rewrite Hc. split_and!; try done. destruct (p_state x); [done|]. assert (kt_state kt = KT_EXITED) by tauto. congruence.
Qed.
End Inv.
