(* ===== verification/ProcIds.v ===== *)
(** Process numbers: [proc_lookup] and [_proc_getid]. *)
From S2P Require Import Prelude.
From S2P Require Import Platform.
From S2P Require Import MmIface.
From S2P Require Import Proc.
From S2P Require Import ProcInv.
Open Scope Z_scope.

Section Ids.
Context `{P : Platform} `{!PlatformOk P} {C : ProcConst} {MM FS : Type} `{!MmOps MM} `{!ProcOps MM} `{!FsOps FS}.
Implicit Types (k : kern (MM := MM) (FS := FS)).

(** [l] are processes. *)
Definition all_procs k (l : list Z) : Prop := forall p, p ∈ l -> is_Some (procs k !! p).

(** [p] is the first process of [l] with number [pid]. *)
Definition first_with k (pid : Z) (l : list Z) (r : option Z) : Prop :=
  match r with
  | Some p => exists x, p ∈ l /\ procs k !! p = Some x /\ p_pid x = pid
  | None => forall p x, p ∈ l -> procs k !! p = Some x -> p_pid x <> pid
  end.

Lemma find_pid_ok pid l k : all_procs k l -> exists r, find_pid pid l k = Ok r k /\ first_with k pid l r.
Proof.
  induction l as [|p l IH]; intros Hl; [exists None; split; [done|]; by intros p x ?%elem_of_nil|].
  destruct (Hl p) as [x Hx]; [set_solver|]. cbn [find_pid]. rewrite (bind_ok _ _ _ _ _ (prc_ok _ _ _ Hx)).
  destruct (Z.eqb_spec (p_pid x) pid) as [E|E].
  - exists (Some p). split; [done|]. exists x. split_and!; [set_solver|done|done].
  - destruct IH as (r & Er & Hr); [intros q Hq; apply Hl; set_solver|]. exists r. split; [done|]. destruct r as [q|]; cbn in *.
    + destruct Hr as (y & ? & ? & ?). exists y. split_and!; [set_solver|done|done].
    + intros q y [->|?]%elem_of_cons Hy; [congruence|eauto].
Qed.

(** The process numbers in use. *)
Definition pid_used k (pid : Z) : Prop := exists p x, p ∈ proc_list k /\ procs k !! p = Some x /\ p_pid x = pid.

Lemma find_pid_used pid k : all_procs k (proc_list k) ->
  exists r, find_pid pid (proc_list k) k = Ok r k /\ (is_Some r <-> pid_used k pid).
Proof.
  intros Hl. destruct (find_pid_ok pid _ _ Hl) as (r & E & Hr). exists r. split; [done|]. destruct r as [p|]; cbn in Hr.
  - destruct Hr as (x & ? & ? & ?). split; [intros _; by exists p, x|done].
  - split; [by intros [? ?]|]. intros (p & x & ? & ? & ?). by destruct (Hr p x).
Qed.

(** The loop looks at [pid], [pid + 1], ... around the end up to [next_pid], of which
    there are [n]. *)
Lemma getid_loop_ok n pid k : all_procs k (proc_list k) -> 0 <= next_pid k < PROC_MAX_COUNT -> 0 <= pid < PROC_MAX_COUNT ->
  (next_pid k - pid - 1) `mod` PROC_MAX_COUNT + 1 = Z.of_nat n ->
  (exists i, 0 <= i < Z.of_nat n /\ let r := (pid + i) `mod` PROC_MAX_COUNT in
    proc_getid_loop n pid k = Ok r (set_next_pid ((r + 1) `mod` PROC_MAX_COUNT) k) /\ ~ pid_used k r /\
    forall j, 0 <= j < i -> pid_used k ((pid + j) `mod` PROC_MAX_COUNT)) \/
  (proc_getid_loop n pid k = Ok (-1) k /\ forall j, 0 <= j < Z.of_nat n -> pid_used k ((pid + j) `mod` PROC_MAX_COUNT)).
Proof.
  intros Hl Hn. pose proof proc_max_pos as Hmax. assert (0 < PROC_MAX_COUNT) as Hpos by lia. induction n as [|n IH] in pid |- *; intros Hp Hd.
  { pose proof (Z.mod_pos_bound (next_pid k - pid - 1) PROC_MAX_COUNT Hpos). lia. }
  cbn [proc_getid_loop]. rewrite get_bind. destruct (find_pid_used pid k Hl) as (r & E & Hr). rewrite (bind_ok _ _ _ _ _ E).
  destruct r as [q|].
  2: { left. exists 0. rewrite Z.add_0_r, (Z.mod_small pid) by lia. split_and!; [lia|lia|done| |intros j ?; lia].
       intros Hu. apply Hr in Hu as [? ?]. done. }
  assert (pid_used k pid) as Hu by (apply Hr; eauto). set (pid' := (pid + 1) `mod` PROC_MAX_COUNT).
  assert (0 <= pid' < PROC_MAX_COUNT) as Hp' by (apply Z.mod_pos_bound; lia).
  assert (forall j, (pid' + j) `mod` PROC_MAX_COUNT = (pid + (j + 1)) `mod` PROC_MAX_COUNT) as Hj.
  { intros j. unfold pid'. rewrite Z.add_mod_idemp_l by lia. f_equal. lia. }
  assert (forall j, 0 <= j < Z.of_nat (S n) -> j = 0 \/ 0 <= j - 1 < Z.of_nat n) as Hcase by (intros; lia).
  destruct (Z.eqb_spec pid' (next_pid k)) as [En|En].
  - right. split; [done|]. assert (n = 0)%nat as ->.
    { replace ((next_pid k - pid - 1) `mod` PROC_MAX_COUNT) with 0 in Hd; [lia|]. rewrite <- En. unfold pid'.
      rewrite <- (Z.sub_add_distr _ pid 1), Zminus_mod_idemp_l, Z.sub_diag. by rewrite Z.mod_0_l by lia. }
    intros j ?. replace j with 0 by lia. by rewrite Z.add_0_r, Z.mod_small by lia.
  - destruct (IH pid' Hp') as [(i & Hi & E' & Hfree & Hused)|[E' Hused]].
    + assert ((next_pid k - pid - 1) `mod` PROC_MAX_COUNT = (next_pid k - pid') `mod` PROC_MAX_COUNT) as Ed.
      { unfold pid'. rewrite Zminus_mod_idemp_r. f_equal. lia. }
      assert ((next_pid k - pid') `mod` PROC_MAX_COUNT <> 0) as Hne.
      { intros E0. apply En. apply Z.mod_divide in E0 as [z Ez]; [|lia]. assert (z = 0) by nia. nia. }
      rewrite Ed in Hd. pose proof (Z.mod_pos_bound (next_pid k - pid') PROC_MAX_COUNT Hpos).
      rewrite <- Zminus_mod_idemp_l, Z.mod_small by lia. lia.
    + left. exists (i + 1). cbn zeta in *. rewrite <- Hj. split_and!; [lia|lia|exact E'|done|].
      intros j Hj'. destruct (Hcase j ltac:(lia)) as [->|Hj1]; [by rewrite Z.add_0_r, Z.mod_small by lia|].
      replace j with (j - 1 + 1) by lia. rewrite <- Hj. apply Hused. lia.
    + right. split; [exact E'|]. intros j Hj'. destruct (Hcase j Hj') as [->|Hj1]; [by rewrite Z.add_0_r, Z.mod_small by lia|].
      replace j with (j - 1 + 1) by lia. rewrite <- Hj. by apply Hused.
Qed.

(** [pid] is the first free number from [next_pid] on, counting around the end. *)
Definition next_free k (pid : Z) : Prop :=
  exists i, 0 <= i < PROC_MAX_COUNT /\ pid = (next_pid k + i) `mod` PROC_MAX_COUNT /\ ~ pid_used k pid /\
    forall j, 0 <= j < i -> pid_used k ((next_pid k + j) `mod` PROC_MAX_COUNT).

Lemma getid_ok k : all_procs k (proc_list k) -> 0 <= next_pid k < PROC_MAX_COUNT ->
  (exists pid, proc_getid k = Ok pid (set_next_pid ((pid + 1) `mod` PROC_MAX_COUNT) k) /\ next_free k pid) \/
  (proc_getid k = Ok (-1) k /\ forall pid, 0 <= pid < PROC_MAX_COUNT -> pid_used k pid).
Proof.
  intros Hl Hn. pose proof proc_max_pos as Hmax. unfold proc_getid. rewrite get_bind.
  destruct (getid_loop_ok (Z.to_nat PROC_MAX_COUNT) (next_pid k) k Hl Hn Hn) as [(i & Hi & E & Hf & Hu)|[E Hu]].
  - rewrite Z2Nat.id by lia. replace (next_pid k - next_pid k - 1) with (PROC_MAX_COUNT - 1 + (-1) * PROC_MAX_COUNT) by lia.
    rewrite Z.mod_add, Z.mod_small by lia. lia.
  - left. exists ((next_pid k + i) `mod` PROC_MAX_COUNT). split; [exact E|]. exists i. rewrite Z2Nat.id in Hi by lia. split_and!; [lia|lia|done|exact Hf|exact Hu].
  - right. split; [done|]. rewrite Z2Nat.id in Hu by lia. intros pid Hp.
    replace pid with ((next_pid k + (pid - next_pid k) `mod` PROC_MAX_COUNT) `mod` PROC_MAX_COUNT).
    + apply Hu. apply Z.mod_pos_bound. lia.
    + rewrite Zplus_mod_idemp_r. replace (next_pid k + (pid - next_pid k)) with pid by lia. by apply Z.mod_small.
Qed.

(** C29. The search for a process identifier terminates: it returns the first
    identifier, from the last one given out onwards and around, that no process
    has, or -1 exactly when all of them are used. *)
Theorem proc_getid_fresh k : all_procs k (proc_list k) -> 0 <= next_pid k < PROC_MAX_COUNT ->
  (exists pid, proc_getid k = Ok pid (set_next_pid ((pid + 1) `mod` PROC_MAX_COUNT) k) /\ next_free k pid) \/
  (proc_getid k = Ok (-1) k /\ forall pid, 0 <= pid < PROC_MAX_COUNT -> pid_used k pid).
Proof. apply getid_ok. Qed.

(** proc_lookup returns a process with the identifier, or NULL exactly when there
    is none. *)
Theorem proc_lookup_finds pid k : all_procs k (proc_list k) -> procs k !! NULL = None ->
  exists p, proc_lookup pid k = Ok p k /\
    (p <> NULL -> p ∈ proc_list k /\ exists x, procs k !! p = Some x /\ p_pid x = pid) /\ (p = NULL <-> ~ pid_used k pid).
Proof.
  intros Hl Hnull. unfold proc_lookup. rewrite get_bind. destruct (find_pid_ok pid _ _ Hl) as (r & E & Hr).
  rewrite (bind_ok _ _ _ _ _ E). exists (default NULL r). split; [done|]. destruct r as [p|]; cbn in *.
  - destruct Hr as (x & Hp & Hx & Hpid). split; [eauto|]. split; [intros ->; congruence|]. intros Hn. destruct Hn. by exists p, x.
  - split; [done|]. split; [|done]. intros _ (p & x & Hp & Hx & Hpid). by destruct (Hr p x).
Qed.
End Ids.
