(* ===== verification/ProcCreate.v ===== *)
(** Creating processes and threads: [proc_create] and [kthread_create]. *)
From S2P Require Import Prelude.
From S2P Require Import Platform.
From S2P Require Import Sched.
From S2P Require Import SchedInv.
From S2P Require Import ProcSched.
From S2P Require Import MmIface.
From S2P Require Import Vmmap.
From S2P Require Import Areas.
From S2P Require Import VmmapFacts.
From S2P Require Import VmmapThms.
From S2P Require Import Proc.
From S2P Require Import ProcInv.
From S2P Require Import ProcIds.
Open Scope Z_scope.

(** Run the steps of a computation on an explicit state. *)
Ltac kgo := repeat (rewrite get_bind || rewrite gets_bind || rewrite modify_bind || rewrite ret_bind || rewrite bind_assoc);
  cbv beta iota delta [ks kvm kfs procs proc_list next_pid proc_initproc kt_plinks kt_ctxs kstack_mem
    set_ks set_kvm set_kfs set_procs set_proc_list set_next_pid set_initproc set_plinks set_ctxs set_kstack_mem].

Section Create.
Context `{P : Platform} `{!PlatformOk P} {C : ProcConst} `{!ProcConstOk C} {MM FS : Type}.
Context `{!MmOps MM} `{!MmLaws MM} `{!ProcOps MM} `{!ProcLaws MM} `{!FsOps FS} `{!FsLaws FS}.
Implicit Types (k : kern (MM := MM) (FS := FS)) (F : list Z) (R V O : gmultiset Z) (v : vm (MM := MM)).

Lemma upd_here p f (x : proc) s v fs ps l np ini pl cx km :
  upd_prc p f (Kern (MM:=MM) (FS:=FS) s v fs (<[p := x]> ps) l np ini pl cx km) = Ok tt (Kern s v fs (<[p := f x]> ps) l np ini pl cx km).
Proof. rewrite (upd_prc_ok p f x) by apply lookup_insert_eq. unfold set_procs. cbn. by rewrite insert_insert_eq. Qed.
Lemma upd_next p q f (x y : proc) s v fs ps l np ini pl cx km : p <> q -> ps !! q = Some y ->
  upd_prc q f (Kern (MM:=MM) (FS:=FS) s v fs (<[p := x]> ps) l np ini pl cx km) = Ok tt (Kern s v fs (<[p := x]> (<[q := f y]> ps)) l np ini pl cx km).
Proof.
  intros Hn Hq. rewrite (upd_prc_ok q f y) by (cbn; by rewrite lookup_insert_ne). unfold set_procs. cbn. by rewrite insert_insert_ne.
Qed.
Lemma prc_here p (x : proc) s v fs ps l np ini pl cx km :
  prc p (Kern (MM:=MM) (FS:=FS) s v fs (<[p := x]> ps) l np ini pl cx km) = Ok x (Kern s v fs (<[p := x]> ps) l np ini pl cx km).
Proof. apply prc_ok, lookup_insert_eq. Qed.
Lemma prc_next p q (x y : proc) s v fs ps l np ini pl cx km : p <> q -> ps !! q = Some y ->
  prc q (Kern (MM:=MM) (FS:=FS) s v fs (<[p := x]> ps) l np ini pl cx km) = Ok y (Kern s v fs (<[p := x]> ps) l np ini pl cx km).
Proof. intros Hn Hq. apply prc_ok. cbn. by rewrite lookup_insert_ne. Qed.
Lemma prc_at p (x : proc) s v fs ps l np ini pl cx km : ps !! p = Some x ->
  prc p (Kern (MM:=MM) (FS:=FS) s v fs ps l np ini pl cx km) = Ok x (Kern s v fs ps l np ini pl cx km).
Proof. intros H. by apply prc_ok. Qed.
Lemma upd_at p f (x : proc) s v fs ps l np ini pl cx km : ps !! p = Some x ->
  upd_prc p f (Kern (MM:=MM) (FS:=FS) s v fs ps l np ini pl cx km) = Ok tt (Kern s v fs (<[p := f x]> ps) l np ini pl cx km).
Proof. intros H. by rewrite (upd_prc_ok p f x). Qed.
Lemma on_vm_run {A} (m : M vm A) a v' s v fs ps l np ini pl cx km : m v = Ok a v' ->
  on_vm m (Kern (MM:=MM) (FS:=FS) s v fs ps l np ini pl cx km) = Ok a (Kern s v' fs ps l np ini pl cx km).
Proof. unfold on_vm. cbn. by intros ->. Qed.
Lemma on_fs_run {A} (m : M FS A) a fs' s v fs ps l np ini pl cx km : m fs = Ok a fs' ->
  on_fs m (Kern (MM:=MM) (FS:=FS) s v fs ps l np ini pl cx km) = Ok a (Kern s v fs' ps l np ini pl cx km).
Proof. unfold on_fs. cbn. by intros ->. Qed.
Lemma on_sched_run {A} (m : M sched A) a s' s v fs ps l np ini pl cx km : m s = Ok a s' ->
  on_sched m (Kern (MM:=MM) (FS:=FS) s v fs ps l np ini pl cx km) = Ok a (Kern s' v fs ps l np ini pl cx km).
Proof. unfold on_sched. cbn. by intros ->. Qed.
End Create.

Ltac upd_p := rewrite (bind_ok _ _ _ _ _ (upd_here _ _ _ _ _ _ _ _ _ _ _ _ _)).
Ltac upd_q H1 H2 := rewrite (bind_ok _ _ _ _ _ (upd_next _ _ _ _ _ _ _ _ _ _ _ _ _ _ _ H1 H2)).
Ltac prc_p := rewrite (bind_ok _ _ _ _ _ (prc_here _ _ _ _ _ _ _ _ _ _ _ _)).
Ltac prc_q H1 H2 := rewrite (bind_ok _ _ _ _ _ (prc_next _ _ _ _ _ _ _ _ _ _ _ _ _ _ H1 H2)).

Ltac prc_a H := rewrite (bind_ok _ _ _ _ _ (prc_at _ _ _ _ _ _ _ _ _ _ _ _ H)).
Ltac upd_a H := rewrite (bind_ok _ _ _ _ _ (upd_at _ _ _ _ _ _ _ _ _ _ _ _ _ H)).
Ltac vm_go H := rewrite (bind_ok _ _ _ _ _ (on_vm_run _ _ _ _ _ _ _ _ _ _ _ _ _ H)).
Ltac fs_go H := rewrite (bind_ok _ _ _ _ _ (on_fs_run _ _ _ _ _ _ _ _ _ _ _ _ _ H)).
Ltac sched_go H := rewrite (bind_ok _ _ _ _ _ (on_sched_run _ _ _ _ _ _ _ _ _ _ _ _ _ H)).

Section CreateRun.
Context `{P : Platform} `{!PlatformOk P} {C : ProcConst} `{!ProcConstOk C} {MM FS : Type}.
Context `{!MmOps MM} `{!MmLaws MM} `{!ProcOps MM} `{!ProcLaws MM} `{!FsOps FS} `{!FsLaws FS}.
Implicit Types (k : kern (MM := MM) (FS := FS)) (F : list Z) (R V O : gmultiset Z) (v : vm (MM := MM)).

(** The process [proc_create] makes. *)
Definition new_proc (name : list Z) (pid cur pd cwd m brk start_brk : Z) : proc :=
  Proc pid name [] [] (Some cur) cur 0 PROC_RUNNING pd (replicate (Z.to_nat NFILES) NULL) cwd brk start_brk m.

(** The working directory of a new process: the root, once there is one. *)
Definition root_got (fs : FS) (cwd : Z) (fs' : FS) : Prop :=
  cwd = vfs_root_vn fs /\ (cwd = NULL /\ fs' = fs \/ cwd <> NULL /\ vget_root fs = Ok tt fs').

Lemma fill_run name p pid pd y s v1 v2 v3 fs cwd fs' ps l np ini pl cx km m :
  let cur := curproc s in
  lift pt_create_pagedir v1 = Ok pd v2 -> vmmap_create v2 = Ok m v3 -> vm_maps v3 !! m = Some (Vmmap [] NULL) ->
  cur <> NULL -> p <> cur -> ps !! cur = Some y -> 0 < pid -> (pid = 1 -> cwd = NULL) -> Z.of_nat (length name) < PROC_NAME_LEN -> root_got fs cwd fs' ->
  create_fill name p pid (Kern s v1 fs (<[p := zero_proc]> ps) l np ini pl cx km) =
    Ok tt (Kern (set_queue (waitq p) (Ktqueue [] 0) s) (set_map m (Vmmap [] p) v3) fs'
      (<[p := new_proc name pid cur pd cwd m (p_brk y) (p_start_brk y)]> (<[cur := pset_children (p :: p_children y) y]> ps))
      (p :: l) np (if pid =? 1 then p else ini) pl cx km).
Proof.
  intros cur E1 E2 Hm Hcur Hp Hy Hpid Hinit Hname [-> Hroot]. unfold create_fill, get_curproc. kgo. fold cur. upd_p.
  match goal with |- (_ ≫= ?K) ?S = _ => transitivity (K tt (Kern s v1 fs (<[p := pset_pid pid zero_proc]> ps) l np (if pid =? 1 then p else ini) pl cx km)) end.
  { by destruct (pid =? 1). }
  set (ini' := if pid =? 1 then p else ini). cbv beta. kgo. destruct (Z.ltb_spec (Z.of_nat (length name)) PROC_NAME_LEN); [|lia].
  kgo. do 4 upd_p. destruct (Z.eqb_spec cur NULL) as [?|_]; [done|]. cbn [negb when].
  unfold insert_child. kgo. prc_q Hp Hy. kgo. upd_q Hp Hy. upd_p. do 2 upd_p.
  unfold sched_queue_init. rewrite (bind_ok _ _ _ _ _ (on_sched_modify _ _)). kgo.
  unfold on_mm. vm_go E1. kgo. upd_p. kgo. upd_p.
  unfold create_cwd. kgo.
  assert (exists x, x = Proc pid name [] [] (Some cur) cur 0 PROC_RUNNING pd (replicate (Z.to_nat NFILES) NULL) (vfs_root_vn fs) 0 0 NULL) as [x Hx] by eauto.
  match goal with |- (_ ≫= ?K) ?S = _ => transitivity (K tt (Kern (set_queue (waitq p) (Ktqueue [] 0) s) v2 fs'
    (<[p := x]> (<[cur := pset_children (p :: p_children y) y]> ps)) (p :: l) np ini' pl cx km)) end.
  { destruct Hroot as [[E0 ->]|[Hn E0]].
    - rewrite E0. cbn [c_true Z.eqb negb NULL]. rewrite andb_false_r. cbn [when]. kgo. subst x. by rewrite E0.
    - rewrite (proj2 (c_true_spec _) Hn). replace (1 <? pid) with true by lia. cbn [andb when]. kgo. upd_p. fs_go E0. kgo. by subst x. }
  cbv beta. unfold create_vm. vm_go E2. kgo. upd_p.
  assert (vmmap_of m v3 = Ok (Vmmap [] NULL) v3) as E3. { unfold vmmap_of. rewrite get_bind. by rewrite Hm. }
  vm_go E3. kgo.
  rewrite (bind_ok _ _ _ _ _ (on_vm_modify _ _)). kgo.
  destruct (Z.eqb_spec pid PID_IDLE) as [E|_]; [rewrite pid_idle in E; lia|]. cbn [negb when]. unfold get_curproc. kgo.
  change (curproc (set_queue _ _ s)) with cur.
  rewrite (bind_ok _ _ _ _ _ (prc_next _ _ _ (pset_children (p :: p_children y) y) _ _ _ _ _ _ _ _ _ _ Hp (lookup_insert_eq _ _ _))).
  upd_p. rewrite upd_here. by subst x.
Qed.

(** ** The invariant with a new process *)

Section Insert.
Variables (ps : gmap Z proc) (p cur : Z) (np y : proc).
Hypotheses (Hp : ps !! p = None) (Hy : ps !! cur = Some y).

Definition with_child : gmap Z proc := <[p := np]> (<[cur := pset_children (p :: p_children y) y]> ps).

Lemma parent_not_new : p <> cur.
Proof. congruence. Qed.

Lemma with_child_inv q x : with_child !! q = Some x ->
  q = p /\ x = np \/ q <> p /\ q = cur /\ x = pset_children (p :: p_children y) y \/ q <> p /\ q <> cur /\ ps !! q = Some x.
Proof.
  pose proof parent_not_new as Hpc. unfold with_child. intros [[-> <-]|[Hn Hx]]%lookup_insert_Some; [by left|right].
  apply lookup_insert_Some in Hx as [[-> <-]|[Hn' Hx]]; [left|right]; by split_and!.
Qed.
(** The old processes are there with everything but the list of children. *)
Lemma with_child_old q x : ps !! q = Some x -> exists l, with_child !! q = Some (pset_children l x) /\ p_children x ⊆ l.
Proof.
  pose proof parent_not_new. intros Hx. unfold with_child. rewrite lookup_insert_ne by congruence. destruct (decide (q = cur)) as [->|Hn].
  - rewrite lookup_insert_eq. simplify_eq. exists (p :: p_children y). split; [done|set_solver].
  - rewrite lookup_insert_ne by done. exists (p_children x). rewrite Hx. by destruct x.
Qed.
Lemma with_child_new : with_child !! p = Some np.
Proof. apply lookup_insert_eq. Qed.
Lemma with_child_dom q : is_Some (with_child !! q) <-> q = p \/ is_Some (ps !! q).
Proof.
  split.
  - intros [x [[-> _]|[(_ & -> & _)|(_ & _ & Hx)]]%with_child_inv]; [by left|right; eauto..].
  - intros [->|[x Hx]]; [rewrite with_child_new; eauto|]. destruct (with_child_old _ _ Hx) as (l & -> & _). eauto.
Qed.

(** What a process has that does not change with its children. *)
Lemma with_child_cases (Q : Z -> proc -> Prop) : (forall q x l, Q q x -> Q q (pset_children l x)) ->
  Q p np -> map_Forall Q ps -> map_Forall Q with_child.
Proof.
  intros HQ Hn Hall q x [[-> ->]|[(_ & -> & ->)|(_ & _ & Hx)]]%with_child_inv; [done|by apply HQ, Hall|by apply Hall].
Qed.

Lemma gather_child f : (forall q x l, f q (pset_children l x) = f q x) -> gather f with_child ≡ₚ f p np ++ gather f ps.
Proof.
  intros Hf. unfold with_child. rewrite gather_insert by (rewrite lookup_insert_ne; [done|intros E; apply parent_not_new; done]).
  by rewrite (gather_update _ ps cur y) by (done || by rewrite Hf).
Qed.

Lemma fam_create l init :
  fam_ok ps l init -> p <> NULL -> p_state y = PROC_RUNNING ->
  (forall q x, ps !! q = Some x -> p_pid x <> p_pid np) -> 0 < p_pid np < PROC_MAX_COUNT ->
  p_pproc np = cur -> p_child_link np = Some cur -> p_children np = [] -> p_state np = PROC_RUNNING ->
  length (p_files np) = Z.to_nat NFILES -> p_pagedir np <> NULL ->
  fam_ok with_child (p :: l) init.
Proof.
  intros Hf Hnull Hst Hfresh Hrange Hpp Hcl Hch Hns Hfl Hpd. pose proof parent_not_new as Hpc. split.
  - constructor; [|apply Hf]. rewrite (fo_list _ _ _ Hf), Hp. by intros [? ?].
  - intros q. by rewrite with_child_dom, elem_of_cons, (fo_list _ _ _ Hf).
  - apply eq_None_not_Some. rewrite with_child_dom, (fo_null _ _ _ Hf). intros [?|[? ?]]; done.
  - intros a b x z Ha Hb. apply with_child_inv in Ha as [[-> ->]|[(_ & -> & ->)|(_ & _ & Ha)]], Hb as [[-> ->]|[(_ & -> & ->)|(_ & _ & Hb)]];
      cbn [p_pid pset_children]; intros E; try done; try (by destruct (Hfresh _ _ Hy)); try (by destruct (Hfresh _ _ Ha)); try (by destruct (Hfresh _ _ Hb));
      by eapply (fo_pid_inj _ _ _ Hf).
  - apply with_child_cases; [done|lia|apply Hf].
  - intros a x Ha Hid. assert (forall q z, ps !! q = Some z -> p_pid z <> PID_IDLE -> p_pproc z <> q /\ exists l', with_child !! p_pproc z = Some l' /\ p_state l' = PROC_RUNNING /\ q ∈ p_children l') as Hold.
    { intros q z Hz Hi. destruct (fo_parent _ _ _ Hf q z Hz Hi) as (_ & Hself & w & Hw & Hws & Hin).
      destruct (with_child_old _ _ Hw) as (l' & Hl' & Hsub). split; [done|]. exists (pset_children l' w). split_and!; [done|done|by apply Hsub]. }
    apply with_child_inv in Ha as [[-> ->]|[(_ & -> & ->)|(_ & _ & Ha)]].
    + split; [by rewrite Hpp|]. rewrite Hpp. split; [congruence|]. exists (pset_children (p :: p_children y) y). split_and!; [|done|cbn; set_solver].
      unfold with_child. by rewrite lookup_insert_ne, lookup_insert_eq by done.
    + split; [|exact (Hold cur y Hy Hid)]. by destruct (fo_parent _ _ _ Hf _ _ Hy Hid).
    + split; [|exact (Hold _ _ Ha Hid)]. by destruct (fo_parent _ _ _ Hf _ _ Ha Hid).
  - intros a x Ha. apply with_child_inv in Ha as [[-> ->]|[(_ & -> & ->)|(_ & _ & Ha)]]; cbn [p_pid pset_children p_pproc p_state]; intros E.
    + rewrite pid_idle in E. lia.
    + by apply (fo_idle _ _ _ Hf _ _ Hy).
    + by apply (fo_idle _ _ _ Hf _ _ Ha).
  - destruct (fo_has_idle _ _ _ Hf) as (q & x & Hx & E). destruct (with_child_old _ _ Hx) as (l' & Hl' & _). by eexists _, _.
  - assert (forall c q, (exists x, ps !! c = Some x /\ p_pproc x = q) -> exists x, with_child !! c = Some x /\ p_pproc x = q) as Hold.
    { intros c q (x & Hx & E). destruct (with_child_old _ _ Hx) as (l' & Hl' & _). by eexists. }
    intros q x Hq. apply with_child_inv in Hq as [[-> ->]|[(_ & -> & ->)|(_ & _ & Hq)]]; intros Hr.
    + split; rewrite Hch; [constructor|]. by intros c ?%elem_of_nil.
    + destruct (fo_children _ _ _ Hf _ _ Hy Hst) as [Hnd Hc]. split.
      * constructor; [|done]. intros Hin. destruct (Hc _ Hin) as (x & Hx & _). congruence.
      * intros c [->|Hin]%elem_of_cons; [exists np; split; [apply with_child_new|done]|]. by apply Hold, Hc.
    + destruct (fo_children _ _ _ Hf _ _ Hq Hr) as [Hnd Hc]. split; [done|]. intros c Hin. by apply Hold, Hc.
  - destruct (fo_init _ _ _ Hf) as [?|(z & w & Hz & E1 & E2 & Hw & E3)]; [by left|right].
    destruct (with_child_old _ _ Hz) as (l' & Hl' & _), (with_child_old _ _ Hw) as (l2 & Hl2 & _). by eexists _, _.
  - apply with_child_cases; [done|done|apply Hf].
  - apply with_child_cases; [done|done|apply Hf].
Qed.

Lemma thr_create plinks ths : threads_ok ps plinks ths -> p_threads np = [] -> p_state np = PROC_RUNNING -> threads_ok with_child plinks ths.
Proof.
  intros [Ht Hpr] Hth Hst. split.
  - intros t kt Hkt. destruct (Ht t kt Hkt) as (H1 & H2 & x & Hx & H4 & H5). split_and!; [done..|].
    destruct (with_child_old _ _ Hx) as (l & Hl & _). by exists (pset_children l x).
  - apply with_child_cases; [done|by left|done].
Qed.

Lemma spaces_create maps m : spaces_ok ps maps -> maps !! m = None -> p_vmmap np = m ->
  forall w, spaces_ok with_child (<[m := w]> maps).
Proof.
  intros [H1 H2] Hm Hnm w.
  assert (forall q x, ps !! q = Some x -> p_state x = PROC_RUNNING -> p_vmmap x <> m) as Hne.
  { intros q x Hx Hr E. destruct (H1 q x Hx Hr). congruence. }
  assert (forall q x, with_child !! q = Some x -> p_state x = PROC_RUNNING ->
    q = p /\ p_vmmap x = m \/ exists x0, ps !! q = Some x0 /\ p_state x0 = PROC_RUNNING /\ p_vmmap x0 = p_vmmap x) as Hinv.
  { intros q x [[-> ->]|[(_ & -> & ->)|(_ & _ & Hx)]]%with_child_inv Hr; [by left|right..]; [by exists y|by exists x]. }
  split.
  - intros q x Hq Hr. destruct (Hinv q x Hq Hr) as [[-> ->]|(x0 & Hx0 & Hr0 & <-)]; [rewrite lookup_insert_eq; eauto|].
    rewrite lookup_insert_ne by (intros E; exact (Hne _ _ Hx0 Hr0 (eq_sym E))). eauto.
  - intros a b x z Ha Hb Hx Hz E.
    destruct (Hinv a x Ha Hx) as [[-> Ex]|(x0 & Hx0 & Hr0 & Ex)], (Hinv b z Hb Hz) as [[-> Ez]|(z0 & Hz0 & Hs0 & Ez)]; [done| | |].
    + destruct (Hne _ _ Hz0 Hs0). congruence.
    + destruct (Hne _ _ Hx0 Hr0). congruence.
    + eapply H2; [exact Hx0|exact Hz0|done|done|congruence].
Qed.

Lemma waits_create F ths : waits_ok F ps ths -> waits_ok F with_child ths.
Proof.
  intros H t kt a Hkt Hw. destruct (H t kt a Hkt Hw) as [[? Ha]|?]; [left|by right]. split; [done|]. apply with_child_dom. by right.
Qed.
End Insert.

(** ** The pieces of the state around it *)

Lemma queue_init_idle_ok s q : idle_ok s -> tq_list (queues s q) = [] -> idle_ok (set_queue q (Ktqueue [] 0) s).
Proof.
  intros [[H1 H2 H3 H4 H5] Hst Hm] Hq.
  assert (forall q', queues (set_queue q (Ktqueue [] 0) s) q' = queues s q') as E.
  { intros q'. destruct (decide (q = q')) as [<-|Hn]; [|by apply queues_set_queue_ne]. rewrite queues_set_queue.
    destruct (queues s q) as [l n] eqn:El. cbn in Hq. subst l. specialize (H1 q). rewrite El in H1. cbn in H1. by subst. }
  split; [split| |]; try done; try (intros *; rewrite ?E; done).
  intros m. rewrite E. apply Hm.
Qed.
Lemma queue_init_ok s q : sched_ok s -> tq_list (queues s q) = [] -> sched_ok (set_queue q (Ktqueue [] 0) s).
Proof. intros [Hi Hc] Hq. split; [by apply queue_init_idle_ok|done]. Qed.

Lemma vm_ok_set_proc F R v m w p : vm_ok F R v -> vm_maps v !! m = Some w -> vm_ok F R (set_map m (Vmmap (vmm_list w) p) v).
Proof.
  intros Hok Hm. destruct (vm_ok_inv _ _ _ _ _ Hok Hm) as (E & H0 & Hnn & Hl & Hms & Hi).
  assert (set_map m (Vmmap (vmm_list w) p) v = st (delete m (vm_maps v)) m p (vmm_list w) (vm_mm v)) as ->.
  { unfold set_map, st. by rewrite insert_delete_eq. }
  apply vm_ok_st; [done|done|done|done|]. destruct Hi as [Hmo Hs]. split; cbn in *.
  - apply st_maps_ok in Hmo; [|done]. by apply st_maps_ok.
  - eapply mm_safe_weaken; [exact Hs| |].
    + rewrite !st_live by done. done.
    + intros i _. by rewrite !st_ids by done.
Qed.

(** ** proc_create *)

(** Where memory for the parts of a process ran out. *)
Inductive create_short k : Prop :=
| short_proc v1 : lift proc_slab_alloc (kvm k) = Ok NULL v1 -> create_short k
| short_pagedir p v1 v2 : lift proc_slab_alloc (kvm k) = Ok p v1 -> lift pt_create_pagedir v1 = Ok NULL v2 -> create_short k
| short_vmmap p pd v1 v2 v3 : lift proc_slab_alloc (kvm k) = Ok p v1 -> lift pt_create_pagedir v1 = Ok pd v2 ->
    vmmap_create v2 = Ok NULL v3 -> create_short k.

(** [k'] is [k] with the new process [p], a child of the current process. *)
Definition created (name : list Z) k (p : Z) k' : Prop :=
  exists pid pd cwd m y v' fs', let s := ks k in let np := new_proc name pid (curproc s) pd cwd m (p_brk y) (p_start_brk y) in
    next_free k pid /\ procs k !! curproc s = Some y /\ procs k !! p = None /\ p <> NULL /\
    vm_maps (kvm k) !! m = None /\ vm_maps v' = <[m := Vmmap [] p]> (vm_maps (kvm k)) /\ cwd = vfs_root_vn (kfs k) /\
    k' = Kern (set_queue (waitq p) (Ktqueue [] 0) s) v' fs' (with_child (procs k) p (curproc s) np y) (p :: proc_list k)
      ((pid + 1) `mod` PROC_MAX_COUNT) (proc_initproc k) (kt_plinks k) (kt_ctxs k) (kstack_mem k).

Lemma kern_all_procs F R V O k : kern_ok F R V O k -> all_procs k (proc_list k).
Proof. intros Hk p. by rewrite (fo_list _ _ _ (ko_fam _ _ _ _ _ Hk)). Qed.
Lemma kern_pid_used F R V O k pid : kern_ok F R V O k -> pid_used k pid <-> exists p x, procs k !! p = Some x /\ p_pid x = pid.
Proof.
  intros Hk. split; [intros (p & x & _ & ? & ?); eauto|]. intros (p & x & Hx & E). exists p, x. split_and!; [|done|done].
  rewrite (fo_list _ _ _ (ko_fam _ _ _ _ _ Hk)). eauto.
Qed.
Lemma next_free_range F R V O k pid : kern_ok F R V O k -> proc_initproc k <> NULL -> next_free k pid -> 1 < pid < PROC_MAX_COUNT.
Proof.
  intros Hk Hi (i & _ & -> & Hn & _). pose proof proc_max_pos. pose proof (ko_fam _ _ _ _ _ Hk) as Hf.
  pose proof (Z.mod_pos_bound (next_pid k + i) PROC_MAX_COUNT). set (pid := (next_pid k + i) `mod` PROC_MAX_COUNT) in *.
  rewrite kern_pid_used in Hn by done.
  assert (pid <> 0). { intros E. apply Hn. destruct (fo_has_idle _ _ _ Hf) as (p & x & Hx & Ex). exists p, x. split; [done|]. rewrite Ex, pid_idle. done. }
  assert (pid <> 1). { intros E. apply Hn. destruct (fo_init _ _ _ Hf) as [?|(x & _ & Hx & Ex & _)]; [done|]. exists (proc_initproc k), x. split; [done|]. by rewrite Ex, pid_init. }
  lia.
Qed.

Lemma fresh_struct F R V O k a : kern_ok F R V O k -> a ∉ (owned (procs k) (threads (ks k)) ++ F) ++ live (vm_maps (kvm k)) ->
  procs k !! a = None /\ threads (ks k) !! a = None /\ a ∉ F /\ vm_maps (kvm k) !! a = None.
Proof.
  intros Hk Ha. unfold owned in Ha. rewrite !elem_of_app, !elem_of_gather in Ha. split_and!.
  - apply eq_None_not_Some. intros [x Hx]. apply Ha. left. left. left. exists a, x. split; [done|]. unfold proc_owns. set_solver.
  - apply eq_None_not_Some. intros [x Hx]. apply Ha. left. left. right. exists a, x. split; [done|]. unfold thread_owns. set_solver.
  - tauto.
  - apply eq_None_not_Some. intros [x Hx]. apply Ha. right. unfold live. apply elem_of_app. left. apply list_elem_of_fmap.
    exists (a, x). split; [done|]. by apply elem_of_map_to_list.
Qed.

Lemma pid_used_ext k k' pid : proc_list k' = proc_list k -> (forall q, q ∈ proc_list k -> procs k' !! q = procs k !! q) ->
  pid_used k' pid <-> pid_used k pid.
Proof.
  intros E1 E2. split; intros (p & x & Hp & Hx & Hpid); exists p, x; rewrite E1 in *; (split_and!; [done| |done]); [by rewrite <- E2|by rewrite E2].
Qed.

Lemma fs_root V O fs : fs_safe V O fs ->
  exists fs', root_got fs (vfs_root_vn fs) fs' /\ fs_safe (list_to_set_disj (nonnull [vfs_root_vn fs]) ⊎ V) O fs'.
Proof.
  intros Hs. destruct (decide (vfs_root_vn fs = NULL)) as [E|Hn].
  - exists fs. split; [split; [done|by left]|]. rewrite E. unfold nonnull. rewrite filter_cons_False by naive_solver.
    by rewrite filter_nil, list_to_set_disj_nil, (left_id_L ∅ (⊎)).
  - destruct (fs_vget _ _ _ Hs Hn) as (fs' & E & Hs' & _). exists fs'. split; [split; [done|by right]|].
    unfold nonnull. rewrite filter_cons_True, filter_nil by done.
    by rewrite list_to_set_disj_cons, list_to_set_disj_nil, (right_id_L ∅ (⊎)), (comm_L (⊎)).
Qed.

Lemma nonnull_replicate n : nonnull (replicate n NULL) = [].
Proof. unfold nonnull. induction n as [|n IH]; [done|]. cbn [replicate]. rewrite filter_cons_False by naive_solver. done. Qed.

Lemma created_ok F R V O k name pid pd m v3 fs' p y :
  let cwd := vfs_root_vn (kfs k) in let s := ks k in
  let np := new_proc name pid (curproc s) pd cwd m (p_brk y) (p_start_brk y) in
  kern_ok F R V O k -> 0 < pid < PROC_MAX_COUNT -> next_free k pid -> procs k !! curproc s = Some y -> p_state y = PROC_RUNNING ->
  p <> NULL -> procs k !! p = None -> p ∉ F -> pd <> NULL -> vm_maps (kvm k) !! m = None ->
  vm_maps v3 = <[m := Vmmap [] NULL]> (vm_maps (kvm k)) -> vm_ok (pd :: p :: owned (procs k) (threads s) ++ F) R v3 ->
  fs_safe (list_to_set_disj (nonnull [cwd]) ⊎ (cwds (procs k) ⊎ V)) (opens (procs k) ⊎ O) fs' ->
  kern_ok F R V O (Kern (set_queue (waitq p) (Ktqueue [] 0) s) (set_map m (Vmmap [] p) v3) fs'
    (with_child (procs k) p (curproc s) np y) (p :: proc_list k) ((pid + 1) `mod` PROC_MAX_COUNT) (proc_initproc k) (kt_plinks k) (kt_ctxs k) (kstack_mem k)).
Proof.
  intros cwd s np Hk Hpid Hfree Hy Hyr Hpn Hp HpF Hpd Hm Ev3 Hvm Hfs. pose proof proc_max_pos.
  assert (forall q x, procs k !! q = Some x -> p_pid x <> pid) as Hfresh.
  { intros q x Hx E. destruct Hfree as (_ & _ & _ & Hn & _). apply Hn. rewrite kern_pid_used by done. eauto. }
  split; cbn [ks kvm kfs procs proc_list next_pid proc_initproc kt_plinks].
  - apply queue_init_ok; [apply Hk|]. destruct (tq_list (queues s (waitq p))) as [|t l] eqn:El; [done|].
    destruct (proj1 (qo_mem _ (io_queue _ (so_idle _ (ko_sched _ _ _ _ _ Hk))) t (waitq p))) as (kt & Hkt & Hw); [fold s; rewrite El; set_solver|].
    destruct (ko_waits _ _ _ _ _ Hk t kt p Hkt Hw) as [[_ [z Hz]]|?]; [congruence|done].
  - apply (vm_ok_perm (pd :: p :: owned (procs k) (threads s) ++ F)).
    { unfold owned. cbn [threads set_queue]. rewrite (gather_child _ _ _ _ _ Hp Hy) by done. cbn. by rewrite Permutation_swap. }
    apply (vm_ok_set_proc _ _ v3 m (Vmmap [] NULL) p); [done|]. rewrite Ev3. apply lookup_insert_eq.
  - unfold cwds, opens. rewrite (list_to_set_disj_perm _ _ (gather_child _ _ _ np _ Hp Hy cwd_ref (fun _ _ _ => eq_refl))),
      (list_to_set_disj_perm _ _ (gather_child _ _ _ np _ Hp Hy file_refs (fun _ _ _ => eq_refl))).
    unfold cwd_ref at 1, file_refs at 1. cbn [p_state p_cwd p_files np new_proc]. rewrite !bool_decide_eq_true_2, nonnull_replicate by done.
    rewrite list_to_set_disj_app. cbn [app]. by rewrite <- (assoc_L (⊎)).
  - apply fam_create; try done; [apply Hk|cbn; apply length_replicate].
  - apply thr_create; try done. apply Hk.
  - cbn [vm_maps set_map]. rewrite Ev3, insert_insert_eq. apply spaces_create; try done. apply Hk.
  - apply waits_create; try done. apply Hk.
  - apply (ko_cur _ _ _ _ _ Hk).
  - apply Z.mod_pos_bound. lia.
Qed.

(** The numbers a process can be given here: 1 only for a child of the idle process,
    when no file system is mounted. *)
Definition pid_fits k (pid : Z) : Prop :=
  0 < pid < PROC_MAX_COUNT /\
  (pid = 1 -> vfs_root_vn (kfs k) = NULL /\ exists y, procs k !! curproc (ks k) = Some y /\ p_pid y = PID_IDLE).

Lemma proc_create_run F R V O k name :
  kern_ok F R V O k -> (forall pid, next_free k pid -> pid_fits k pid) -> Z.of_nat (length name) < PROC_NAME_LEN ->
  (exists pid p k', next_free k pid /\ proc_create name k = Ok p (if pid =? 1 then set_initproc p k' else k') /\ created name k p k' /\ kern_ok F R V O k') \/
  (forall pid, 0 <= pid < PROC_MAX_COUNT -> pid_used k pid) \/ create_short k.
Proof.
  intros Hk Hfits Hname. destruct (vm_allocates _ _ _ _ pl_proc (ko_vm _ _ _ _ _ Hk)) as (p & v1 & E1 & Em1 & [[-> _]|(Hpn & Hv1 & Hp)]).
  { right. right. by eapply short_proc. }
  destruct (fresh_struct _ _ _ _ _ _ Hk Hp) as (Hp1 & Hp2 & HpF & Hp4).
  destruct (cur_running _ _ _ _ _ Hk) as (y & kt & Hy & Hyr & _).
  set (k1 := Kern (ks k) v1 (kfs k) (<[p := zero_proc]> (procs k)) (proc_list k) (next_pid k) (proc_initproc k) (kt_plinks k) (kt_ctxs k) (kstack_mem k)).
  assert (forall q, q ∈ proc_list k -> procs k1 !! q = procs k !! q) as Hsame.
  { intros q [x Hx]%(kern_all_procs _ _ _ _ _ Hk). cbn. rewrite lookup_insert_ne; [done|congruence]. }
  assert (forall pid, pid_used k1 pid <-> pid_used k pid) as Hused by (intros pid; by apply pid_used_ext).
  destruct (getid_ok k1) as [(pid & E2 & i & Hi & Epid & Hnf & Hbelow)|[_ Hall]].
  { intros q Hq. rewrite Hsame by done. by apply (kern_all_procs _ _ _ _ _ Hk). } { apply (ko_next _ _ _ _ _ Hk). }
  2: { right. left. intros pid Hpid. apply Hused. by apply Hall. }
  assert (next_free k pid) as Hfree.
  { exists i. split_and!; [lia|lia|done|by rewrite <- Hused|]. intros j Hj. apply Hused. by apply Hbelow. }
  destruct (Hfits pid Hfree) as [Hpid Hone].
  destruct (vm_allocates _ _ _ _ pl_pagedir Hv1) as (pd & v2 & E3 & Em2 & [[-> _]|(Hpdn & Hv2 & _)]).
  { right. right. by eapply short_pagedir. }
  destruct (create_ok _ _ _ Hv2) as [(m & v3 & E4 & Hmn & Hm & Em3 & Hv3)|(v3 & E4 & _)].
  2: { right. right. by eapply short_vmmap. }
  destruct (fs_root _ _ _ (ko_fs _ _ _ _ _ Hk)) as (fs' & Hroot & Hfs). left.
  exists pid, p, (Kern (set_queue (waitq p) (Ktqueue [] 0) (ks k)) (set_map m (Vmmap [] p) v3) fs'
    (with_child (procs k) p (curproc (ks k)) (new_proc name pid (curproc (ks k)) pd (vfs_root_vn (kfs k)) m (p_brk y) (p_start_brk y)) y)
    (p :: proc_list k) ((pid + 1) `mod` PROC_MAX_COUNT) (proc_initproc k) (kt_plinks k) (kt_ctxs k) (kstack_mem k)).
  assert (vm_maps v2 = vm_maps (kvm k)) as Em by congruence. rewrite Em in Hm, Em3.
  assert (p <> curproc (ks k)) as Hpc by congruence.
  split; [done|split; [|split]].
  - unfold proc_create, on_mm. rewrite (bind_ok _ _ _ _ _ (on_vm_ok _ _ _ _ E1)), kassert_bind, modify_bind by (by apply c_true_spec).
    change (set_procs _ _) with k1. rewrite (bind_ok _ _ _ _ _ E2), get_bind.
    rewrite kassert_bind; [|rewrite pid_idle; by replace (0 =? pid) with false by lia].
    match goal with |- (_ ≫= ?K) ?S = _ => transitivity (K tt S) end.
    { rewrite pid_init. destruct (Z.eqb_spec 1 pid) as [E|_]; [|done]. cbn [when]. destruct (Hone (eq_sym E)) as (_ & z & Hz & Ez).
      unfold get_curproc, k1. kgo. rewrite (bind_ok _ _ _ _ _ (prc_next _ _ _ _ _ _ _ _ _ _ _ _ _ _ Hpc Hz)). rewrite kassert_bind; [done|]. by rewrite Ez, Z.eqb_refl. }
    cbv beta.
    pose proof (fill_run name p pid pd y (ks k) v1 v2 v3 (kfs k) (vfs_root_vn (kfs k)) fs' (procs k) (proc_list k)
      ((pid + 1) `mod` PROC_MAX_COUNT) (proc_initproc k) (kt_plinks k) (kt_ctxs k) (kstack_mem k) m) as Hfill.
    cbn zeta in Hfill. rewrite (bind_ok _ _ _ _ _ (Hfill E3 E4 ltac:(by rewrite Em3, lookup_insert_eq)
      ltac:(intros E; rewrite E in Hy; by rewrite (fo_null _ _ _ (ko_fam _ _ _ _ _ Hk)) in Hy) Hpc Hy ltac:(lia) ltac:(intros E; by apply Hone) Hname Hroot)).
    by destruct (pid =? 1).
  - eexists pid, pd, _, m, y, _, fs'. split_and!; try done. cbn. by rewrite Em3, insert_insert_eq.
  - apply (created_ok F R V O k name pid pd m v3 fs' p y); try done.
Qed.

Lemma proc_create_cases F R V O k name :
  kern_ok F R V O k -> proc_initproc k <> NULL -> Z.of_nat (length name) < PROC_NAME_LEN ->
  (exists p k', proc_create name k = Ok p k' /\ created name k p k' /\ kern_ok F R V O k') \/
  (forall pid, 0 <= pid < PROC_MAX_COUNT -> pid_used k pid) \/ create_short k.
Proof.
  intros Hk Hini Hname. destruct (proc_create_run F R V O k name Hk) as [(pid & p & k' & Hfree & E & H)|?]; [|done| |by right].
  - intros pid Hfree. pose proof (next_free_range _ _ _ _ _ _ Hk Hini Hfree). split; lia.
  - pose proof (next_free_range _ _ _ _ _ _ Hk Hini Hfree). replace (pid =? 1) with false in E by lia. left. eauto.
Qed.

(** proc_create makes a process with the next free identifier, the current process
    as parent, an empty address space, the root as working directory and no
    threads, adds it to the list of processes and to the children of the current
    process and changes no other process. It fails only when all identifiers are
    used or an allocation fails. *)
Theorem proc_create_adds F R V O k name :
  kern_ok F R V O k -> proc_initproc k <> NULL -> Z.of_nat (length name) < PROC_NAME_LEN ->
  (exists p k', proc_create name k = Ok p k' /\ created name k p k' /\ kern_ok F R V O k') \/
  (forall pid, 0 <= pid < PROC_MAX_COUNT -> pid_used k pid) \/ create_short k.
Proof. apply proc_create_cases. Qed.
End CreateRun.
