(* ===== verification/ProcThread.v ===== *)
(** Creating threads: [kthread_create], and a process that is ready to run. *)
From S2P Require Import Prelude.
From S2P Require Import Platform.
From S2P Require Import Sched.
From S2P Require Import SchedInv.
From S2P Require Import ProcSched.
From S2P Require Import MmIface.
From S2P Require Import Vmmap.
From S2P Require Import Areas.
From S2P Require Import VmmapFacts.
From S2P Require Import VmmapThms.
From S2P Require Import Proc.
From S2P Require Import ProcInv.
From S2P Require Import ProcIds.
From S2P Require Import ProcCreate.
Open Scope Z_scope.

Section Thread.
Context `{P : Platform} `{!PlatformOk P} {C : ProcConst} `{!ProcConstOk C} {MM FS : Type}.
Context `{!MmOps MM} `{!MmLaws MM} `{!ProcOps MM} `{!ProcLaws MM} `{!FsOps FS} `{!FsLaws FS}.
Implicit Types (k : kern (MM := MM) (FS := FS)) (F : list Z) (R V O : gmultiset Z) (v : vm (MM := MM)).

Lemma upd_thr_here t f kt s : upd_thr t f (set_thr t kt s) = Ok tt (set_thr t (f kt) s).
Proof. rewrite (upd_thr_ok t f kt) by apply lookup_insert_eq. by rewrite set_thr_twice. Qed.
Lemma thr_here t kt s : thr t (set_thr t kt s) = Ok kt (set_thr t kt s).
Proof. apply thr_ok, lookup_insert_eq. Qed.

Lemma new_thread_queue_ok t kt s : queue_ok s -> threads s !! t = None -> t <> NULL -> kt_wchan kt = None -> kt_qlink kt = None ->
  queue_ok (set_thr t kt s).
Proof.
  intros [H1 H2 H3 H4 H5] Ht Hn Hw Hq. split; [done|done| | |].
  - intros u q. change (queues (set_thr t kt s) q) with (queues s q). rewrite H3, lookup_set_thr. case_decide; [subst|done].
    rewrite Ht. split; intros (? & ? & ?); [done|congruence].
  - intros u x. rewrite lookup_set_thr. case_decide; [intros [= <-]; congruence|apply H4].
  - rewrite lookup_set_thr. case_decide; [congruence|done].
Qed.
Lemma new_thread_idle_ok t kt s : idle_ok s -> threads s !! t = None -> t <> NULL -> kt_wchan kt = None -> kt_qlink kt = None ->
  idle_ok (set_thr t kt s).
Proof. intros [Hq Hs Hm] Ht Hn Hw Hl. split; [by apply new_thread_queue_ok|apply set_thr_state_ok; [congruence|done]|done]. Qed.
Lemma new_thread_ok t kt s : sched_ok s -> threads s !! t = None -> t <> NULL -> kt_wchan kt = None -> kt_qlink kt = None ->
  sched_ok (set_thr t kt s).
Proof.
  intros [Hi (c & Hc & Hcw)] Ht Hn Hw Hl. split.
  - by apply new_thread_idle_ok.
  - exists c. change (curthr (set_thr t kt s)) with (curthr s). rewrite lookup_set_thr. case_decide; [congruence|done].
Qed.

(** ** The invariant with a new thread *)

Lemma gather_threads t kt s : threads s !! t = None -> gather thread_owns (threads (set_thr t kt s)) ≡ₚ t :: kt_kstack kt :: gather thread_owns (threads s).
Proof. intros Ht. cbn. by rewrite gather_insert. Qed.

Lemma thr_add ps plinks ths p x t kt :
  threads_ok ps plinks ths -> ps !! p = Some x -> p_threads x = [] -> ths !! t = None ->
  kt_proc kt = p -> kt_kstack kt <> NULL -> kt_state kt <> KT_EXITED ->
  threads_ok (<[p := pset_threads [t] x]> ps) (<[t := p]> plinks) (<[t := kt]> ths).
Proof.
  intros [Ht Hp] Hx Hth Hnew Hkp Hks Hst. pose proof (Hp p x Hx) as [[_ Hrun]|(u & ku & Hu & _)]; [|congruence]. split.
  - intros u ku. rewrite lookup_insert. case_decide as E.
    + intros [= <-]. subst u. split_and!; [by rewrite lookup_insert_eq, Hkp|done|].
      exists (pset_threads [t] x). rewrite Hkp, lookup_insert_eq. split_and!; [done|done|]. cbn. rewrite Hrun. by split.
    + intros Hu. destruct (Ht u ku Hu) as (H1 & H2 & z & Hz & H4 & H5). split_and!; [by rewrite lookup_insert_ne|done|].
      exists z. rewrite lookup_insert_ne; [done|]. intros E'. rewrite <- E', Hx in Hz. congruence.
  - intros q z. rewrite lookup_insert. case_decide as E.
    + intros [= <-]. subst q. right. exists t, kt. by rewrite lookup_insert_eq.
    + intros Hz. destruct (Hp q z Hz) as [?|(u & ku & H1 & H2 & H3)]; [by left|right]. exists u, ku. rewrite lookup_insert_ne by congruence. done.
Qed.

(** A process changed in nothing the family, the references and the spaces look at. *)
Definition same_family (x x' : proc) : Prop :=
  p_pid x' = p_pid x /\ p_children x' = p_children x /\ p_child_link x' = p_child_link x /\ p_pproc x' = p_pproc x /\
  p_state x' = p_state x /\ p_pagedir x' = p_pagedir x /\ length (p_files x') = length (p_files x).

Lemma fam_update ps l init p x x' : fam_ok ps l init -> ps !! p = Some x -> same_family x x' -> fam_ok (<[p := x']> ps) l init.
Proof.
  intros Hf Hx (E1 & E2 & E3 & E4 & E5 & E6 & E7).
  assert (forall q z', <[p := x']> ps !! q = Some z' -> exists z, ps !! q = Some z /\ same_family z z') as Hb.
  { intros q z'. rewrite lookup_insert. case_decide as E; [|exists z'; by split_and!]. intros [= <-]. subst q. exists x. by split_and!. }
  assert (forall q z, ps !! q = Some z -> exists z', <[p := x']> ps !! q = Some z' /\ same_family z z') as Hw.
  { intros q z Hz. rewrite lookup_insert. case_decide as E; [|exists z; by split_and!]. subst q. simplify_eq. exists x'. by split_and!. }
  split.
  - apply Hf.
  - intros q. rewrite (fo_list _ _ _ Hf). split; intros [z Hz]; [destruct (Hw q z Hz) as (z' & ? & _)|destruct (Hb q z Hz) as (z' & ? & _)]; eauto.
  - rewrite lookup_insert_ne; [apply Hf|]. intros ->. by rewrite (fo_null _ _ _ Hf) in Hx.
  - intros a b z1 z2 Ha Hb'. destruct (Hb _ _ Ha) as (y1 & Hy1 & S1 & _), (Hb _ _ Hb') as (y2 & Hy2 & S2 & _). rewrite S1, S2. by eapply (fo_pid_inj _ _ _ Hf).
  - intros q z' Hz. destruct (Hb _ _ Hz) as (z & Hz0 & S & _). rewrite S. by apply (fo_pid_range _ _ _ Hf q).
  - intros q z' Hz Hid. destruct (Hb _ _ Hz) as (z & Hz0 & S1 & _ & S3 & S4 & _). rewrite S1 in Hid.
    destruct (fo_parent _ _ _ Hf q z Hz0 Hid) as (L & Hself & y & Hy & Hys & Hin). split; [by rewrite S3, S4|]. split; [by rewrite S4|].
    destruct (Hw _ _ Hy) as (y' & Hy' & _ & T2 & _ & _ & T5 & _). exists y'. rewrite S4. split_and!; [done|congruence|by rewrite T2].
  - intros q z' Hz Hid. destruct (Hb _ _ Hz) as (z & Hz0 & S1 & _ & _ & S4 & S5 & _). rewrite S4, S5. rewrite S1 in Hid. by apply (fo_idle _ _ _ Hf q).
  - destruct (fo_has_idle _ _ _ Hf) as (q & z & Hz & E). destruct (Hw _ _ Hz) as (z' & ? & S & _). exists q, z'. split; [done|congruence].
  - intros q z' Hz Hr. destruct (Hb _ _ Hz) as (z & Hz0 & _ & S2 & _ & _ & S5 & _). rewrite S5 in Hr.
    destruct (fo_children _ _ _ Hf q z Hz0 Hr) as [Hnd Hc]. split; [by rewrite S2|]. intros c. rewrite S2. intros Hin.
    destruct (Hc c Hin) as (y & Hy & E). destruct (Hw _ _ Hy) as (y' & ? & _ & _ & _ & T4 & _). exists y'. split; [done|congruence].
  - destruct (fo_init _ _ _ Hf) as [?|(z & w & Hz & A & B & Hzw & D)]; [by left|right].
    destruct (Hw _ _ Hz) as (z' & ? & S1 & _ & _ & S4 & S5 & _), (Hw _ _ Hzw) as (w' & ? & T1 & _). exists z', w'. rewrite S4. split_and!; congruence.
  - intros q z' Hz. destruct (Hb _ _ Hz) as (z & Hz0 & _ & _ & _ & _ & _ & _ & S). rewrite S. by apply (fo_files _ _ _ Hf q).
  - intros q z' Hz. destruct (Hb _ _ Hz) as (z & Hz0 & _ & _ & _ & _ & _ & S & _). rewrite S. by apply (fo_pagedir _ _ _ Hf q).
Qed.

Lemma spaces_update ps maps p x x' : spaces_ok ps maps -> ps !! p = Some x -> p_state x' = p_state x -> p_vmmap x' = p_vmmap x ->
  spaces_ok (<[p := x']> ps) maps.
Proof.
  intros [H1 H2] Hx Es Em.
  assert (forall q z', <[p := x']> ps !! q = Some z' -> exists z, ps !! q = Some z /\ p_state z' = p_state z /\ p_vmmap z' = p_vmmap z) as Hb.
  { intros q z'. rewrite lookup_insert. case_decide as E; [|by exists z']. intros [= <-]. subst q. by exists x. }
  split.
  - intros q z' Hz Hr. destruct (Hb _ _ Hz) as (z & Hz0 & S1 & S2). rewrite S2. apply (H1 q z Hz0). congruence.
  - intros a b z1 z2 Ha Hb' R1 R2 E. destruct (Hb _ _ Ha) as (y1 & Hy1 & S1 & T1), (Hb _ _ Hb') as (y2 & Hy2 & S2 & T2).
    eapply H2; [exact Hy1|exact Hy2|congruence..].
Qed.

Lemma waits_update F ps ths p x x' : waits_ok F ps ths -> ps !! p = Some x -> waits_ok F (<[p := x']> ps) ths.
Proof.
  intros H Hx t kt a Hkt Hw. destruct (H t kt a Hkt Hw) as [[? Ha]|?]; [left|by right]. split; [done|]. rewrite lookup_insert. case_decide; eauto.
Qed.
Lemma waits_add F ps ths t kt : waits_ok F ps ths -> kt_wchan kt = None -> waits_ok F ps (<[t := kt]> ths).
Proof. intros H Hw u ku a. rewrite lookup_insert. case_decide; [intros [= <-]; congruence|apply H]. Qed.

Lemma cwds_update ps p x x' : ps !! p = Some x -> p_state x' = p_state x -> p_cwd x' = p_cwd x -> cwds (<[p := x']> ps) = cwds ps.
Proof. intros Hx E1 E2. apply list_to_set_disj_perm. apply (gather_update _ _ _ x); [done|]. unfold cwd_ref. by rewrite E1, E2. Qed.
Lemma opens_update ps p x x' : ps !! p = Some x -> p_state x' = p_state x -> p_files x' = p_files x -> opens (<[p := x']> ps) = opens ps.
Proof. intros Hx E1 E2. apply list_to_set_disj_perm. apply (gather_update _ _ _ x); [done|]. unfold file_refs. by rewrite E1, E2. Qed.
Lemma owned_update ps ths p x x' : ps !! p = Some x -> p_pagedir x' = p_pagedir x -> owned (<[p := x']> ps) ths ≡ₚ owned ps ths.
Proof. intros Hx E. unfold owned. rewrite (gather_update _ _ _ x) by (done || unfold proc_owns; by rewrite E). done. Qed.

(** ** kthread_create *)

(** The thread [kthread_create] makes for process [p]. *)
Definition new_thread (pid p stack : Z) : kthread :=
  Kthread (if pid =? 0 then KT_RUN else KT_NO_STATE) None None 0 0 0 p stack None.

Definition threaded (p : Z) k (t : Z) k' : Prop :=
  exists x stack c v', procs k !! p = Some x /\ threads (ks k) !! t = None /\ t <> NULL /\ c_pdptr c = p_pagedir x /\
    vm_maps v' = vm_maps (kvm k) /\
    k' = Kern (set_thr t (new_thread (p_pid x) p stack) (ks k)) v' (kfs k) (<[p := pset_threads [t] x]> (procs k)) (proc_list k)
      (next_pid k) (proc_initproc k) (<[t := p]> (kt_plinks k)) (<[t := c]> (kt_ctxs k)) (kstack_mem k).

Definition thread_short v : Prop :=
  (exists v1, lift kthread_slab_alloc v = Ok NULL v1) \/
  (exists t v1 v2, lift kthread_slab_alloc v = Ok t v1 /\ lift (page_alloc_n stack_pages) v1 = Ok NULL v2).

Lemma thread_run p x func a1 a2 t stack c s v v1 v2 v3 fs ps l np ini pl cx km :
  lift kthread_slab_alloc v = Ok t v1 -> lift (page_alloc_n stack_pages) v1 = Ok stack v2 ->
  lift (context_setup func a1 a2 stack DEFAULT_STACK_SIZE (p_pagedir x)) v2 = Ok c v3 ->
  t <> NULL -> p <> NULL -> ps !! p = Some x -> p_threads x = [] ->
  kthread_create p func a1 a2 (Kern (MM := MM) (FS := FS) s v fs ps l np ini pl cx km) =
    Ok t (Kern (set_thr t (new_thread (p_pid x) p stack) s) v3 fs (<[p := pset_threads [t] x]> ps) l np ini (<[t := p]> pl) (<[t := c]> cx) km).
Proof.
  intros E1 E2 E3 Ht Hp Hx Hth. unfold kthread_create, alloc_stack, on_mm, not_null.
  rewrite kassert_bind by (by apply c_true_spec). vm_go E1. destruct (Z.eqb_spec t NULL) as [?|_]; [done|]. kgo.
  rewrite (bind_ok _ _ _ _ _ (on_sched_modify _ _)). kgo. vm_go E2.
  do 4 (rewrite (bind_ok _ _ _ _ _ (on_sched_run _ _ _ _ _ _ _ _ _ _ _ _ _ (upd_thr_here _ _ _ _)))).
  prc_a Hx.
  match goal with |- (when ?b ?m ≫= ?K) ?S = _ => transitivity (K tt (Kern (set_thr t (new_thread (p_pid x) p stack) s) v2 fs ps l np ini pl cx km)) end.
  { unfold new_thread. destruct (p_pid x =? 0); cbn [when]; [|done].
    rewrite (bind_ok _ _ _ _ _ (on_sched_run _ _ _ _ _ _ _ _ _ _ _ _ _ (upd_thr_here _ _ _ _))). done. }
  cbv beta. rewrite (bind_ok _ _ _ _ _ (on_sched_run _ _ _ _ _ _ _ _ _ _ _ _ _ (upd_thr_here _ _ _ _))). kgo.
  upd_a Hx. rewrite Hth. kgo. vm_go E3. kgo. by rewrite insert_delete_eq.
Qed.

Lemma kthread_create_cases F R V O k p x func a1 a2 :
  kern_ok F R V O k -> procs k !! p = Some x -> p_threads x = [] ->
  (exists t k', kthread_create p func a1 a2 k = Ok t k' /\ threaded p k t k' /\ kern_ok F R V O k') \/ thread_short (kvm k).
Proof.
  intros Hk Hx Hth. pose proof (ko_fam _ _ _ _ _ Hk) as Hf.
  destruct (vm_allocates _ _ _ _ pl_thread (ko_vm _ _ _ _ _ Hk)) as (t & v1 & E1 & Em1 & [[-> _]|(Htn & Hv1 & Ht)]).
  { right. left. eauto. }
  destruct (fresh_struct _ _ _ _ _ _ Hk Ht) as (Ht1 & Ht2 & _).
  destruct (vm_allocates _ _ _ _ (pl_stack stack_pages) Hv1) as (stack & v2 & E2 & Em2 & [[-> _]|(Hsn & Hv2 & _)]).
  { right. right. eauto 6. }
  destruct (pl_context func a1 a2 stack DEFAULT_STACK_SIZE (p_pagedir x) _ _ _ _ (vm_ok_safe _ _ _ Hv2)) as (c & mm3 & E3 & Hs3 & Hc).
  pose proof (vm_ok_mm _ _ _ _ _ Hv2 Hs3) as Hv3. apply lift_run in E3. assert (p <> NULL) as Hp by (intros ->; by rewrite (fo_null _ _ _ Hf) in Hx).
  left. exists t. destruct k as [s v fs ps l np ini pl cx km]. cbn in *.
  eexists. split; [by eapply thread_run|]. split.
  { exists x, stack, c, (Vm (vm_maps v2) mm3). cbn. split_and!; try done. cbn. congruence. }
  assert (same_family x (pset_threads [t] x)) as Hsf by (by split_and!).
  split; cbn [ks kvm kfs procs proc_list next_pid proc_initproc kt_plinks].
  - apply new_thread_ok; try done. apply Hk.
  - eapply vm_ok_perm; [|exact Hv3]. rewrite (owned_update _ _ _ x) by done.
    unfold owned. cbn [threads set_thr]. rewrite gather_insert by done. unfold thread_owns at 2. cbn [kt_kstack new_thread app].
    rewrite <- !Permutation_middle. cbn. by rewrite Permutation_swap.
  - rewrite (cwds_update _ _ x), (opens_update _ _ x) by done. apply Hk.
  - by eapply fam_update.
  - cbn [threads set_thr]. apply thr_add; try done. { apply Hk. } cbn. by destruct (p_pid x =? 0).
  - rewrite Em2, Em1. apply (spaces_update _ _ _ x); try done. apply Hk.
  - cbn [threads set_thr]. apply waits_add; [|done]. apply (waits_update _ _ _ _ x); [apply Hk|done].
  - destruct (ko_cur _ _ _ _ _ Hk) as (kt & Hkt & Hcp). cbn in *. exists kt. rewrite lookup_insert_ne; [done|congruence].
  - apply Hk.
Qed.
End Thread.
