(* ===== verification/ProcFork.v ===== *)
(** [do_fork]: the process it makes. *)
From S2P Require Import Prelude.
From S2P Require Import Platform.
From S2P Require Import Sched.
From S2P Require Import SchedInv.
From S2P Require Import ProcSched.
From S2P Require Import MmIface.
From S2P Require Import Vmmap.
From S2P Require Import Areas.
From S2P Require Import VmmapFacts.
From S2P Require Import VmmapThms.
From S2P Require Import ForkVm.
From S2P Require Import Proc.
From S2P Require Import ProcInv.
From S2P Require Import ProcIds.
From S2P Require Import ProcCreate.
From S2P Require Import ProcThread.
Open Scope Z_scope.

Section Fork.
Context `{P : Platform} `{!PlatformOk P} {C : ProcConst} `{!ProcConstOk C} {MM FS : Type}.
Context `{!MmOps MM} `{!MmLaws MM} `{!MmGrow MM} `{!ProcOps MM} `{!ProcLaws MM} `{!FsOps FS} `{!FsLaws FS}.
Implicit Types (k : kern (MM := MM) (FS := FS)) (F : list Z) (R V O : gmultiset Z) (v : vm (MM := MM)).

(** ** kthread_clone *)

(** The clone, for process [p]. *)
Definition cloned (kt : kthread) (p stack : Z) : kthread :=
  Kthread (kt_state kt) None None (kt_cancelled kt) (kt_retval kt) (kt_errno kt) p stack None.

Lemma clone_run t kt n stack s v v1 v2 fs ps l np ini pl cx km :
  threads s !! t = Some kt -> kt_state kt = KT_RUN -> n <> t -> n <> NULL ->
  lift kthread_slab_alloc v = Ok n v1 -> lift (page_alloc_n stack_pages) v1 = Ok stack v2 ->
  let raw := slab_kthread n (vm_mm v2) in let c := slab_ctx n (vm_mm v2) in
  kthread_clone t (Kern (MM := MM) (FS := FS) s v fs ps l np ini pl cx km) =
    Ok n (Kern (set_thr n (cloned kt (kt_proc raw) stack) s) v2 fs ps l np ini (delete n pl)
      (<[n := Context (c_pdptr c) (c_eip c) (c_esp c) (c_ebp c) stack (c_kstacksz c)]> cx) km).
Proof.
  intros Ht Hr Hn Hnn E1 E2 raw c. unfold kthread_clone, alloc_stack, on_mm, not_null. sched_go (thr_ok _ _ _ Ht).
  rewrite kassert_bind by (by apply bool_decide_eq_true_2). vm_go E1. vm_go E2. destruct (Z.eqb_spec n NULL) as [?|_]; [done|]. kgo.
  rewrite (bind_ok _ _ _ _ _ (on_sched_modify _ _)). kgo. sched_go (upd_thr_here n (with_kstack stack) (with_frame None raw) s). kgo.
  fold raw c. sched_go (upd_thr_here n (with_wchan None) (with_kstack stack (with_frame None raw)) s).
  assert (forall kn, thr t (set_thr n kn s) = Ok kt (set_thr n kn s)) as Htn by (intros kn; apply thr_ok; cbn; by rewrite lookup_insert_ne).
  sched_go (Htn (with_wchan None (with_kstack stack (with_frame None raw)))).
  do 5 (rewrite (bind_ok _ _ _ _ _ (on_sched_run _ _ _ _ _ _ _ _ _ _ _ _ _ (upd_thr_here _ _ _ _)))). kgo.
  rewrite (bind_ok _ _ _ _ _ (on_sched_run _ _ _ _ _ _ _ _ _ _ _ _ _ (thr_here _ _ _))).
  rewrite kassert_bind by (by apply bool_decide_eq_true_2). done.
Qed.

(** ** The open files *)

Lemma fork_files_run p cur x (ls rest : list Z) np fs V O s v ps l nx ini pl cx km :
  p <> cur -> ps !! cur = Some x -> p_files x = ls ++ rest -> p_files np = ls ++ replicate (length rest) NULL ->
  fs_safe V O fs -> (forall f, f ∈ rest -> f <> NULL -> f ∈ O) ->
  exists fs', mfor (seq (length ls) (length rest)) (fun i =>
      y ← prc cur;
      f ← match p_files y !! i with None => stop BadIndex | Some f => mret f end;
      upd_prc p (fun x => pset_files (<[i := f]> (p_files x)) x);;
      when (negb (f =? NULL)) (on_fs (fref f))) (Kern (MM := MM) (FS := FS) s v fs (<[p := np]> ps) l nx ini pl cx km) =
    Ok tt (Kern s v fs' (<[p := pset_files (p_files x) np]> ps) l nx ini pl cx km) /\
    fs_safe V (list_to_set_disj (nonnull rest) ⊎ O) fs' /\ vfs_root_vn fs' = vfs_root_vn fs.
Proof.
  intros Hp Hx. induction rest as [|f rest IH] in ls, np, fs, O |- *; intros Hfx Hfn Hs Hin.
  { exists fs. cbn [length seq mfor]. rewrite app_nil_r in Hfx, Hfn. split_and!; [|unfold nonnull; by rewrite filter_nil, list_to_set_disj_nil, (left_id_L ∅ (⊎))|done].
    rewrite Hfx, <- Hfn. by destruct np. }
  cbn [length seq mfor]. rewrite bind_assoc. prc_q Hp Hx.
  assert (p_files x !! length ls = Some f) as ->. { rewrite Hfx, lookup_app_r, Nat.sub_diag by lia. done. }
  rewrite bind_assoc, ret_bind, bind_assoc. upd_p.
  set (np' := pset_files (<[length ls := f]> (p_files np)) np).
  assert (exists fs1, (when (negb (f =? NULL)) (on_fs (fref f))) (Kern (MM := MM) (FS := FS) s v fs (<[p := np']> ps) l nx ini pl cx km) =
      Ok tt (Kern s v fs1 (<[p := np']> ps) l nx ini pl cx km) /\ fs_safe V (list_to_set_disj (nonnull [f]) ⊎ O) fs1 /\ vfs_root_vn fs1 = vfs_root_vn fs)
    as (fs1 & E1 & Hs1 & Er1).
  { unfold nonnull. rewrite filter_cons. destruct (Z.eqb_spec f NULL) as [E|Hf]; case_decide as Hd; try done; cbn [negb when]; rewrite filter_nil.
    - exists fs. by rewrite list_to_set_disj_nil, (left_id_L ∅ (⊎)).
    - destruct (fs_fref V O fs f Hs) as (fs1 & E & Hs1 & Er); [apply Hin; [by left|done]|]. exists fs1. split_and!; [by apply on_fs_run| |done].
      by rewrite list_to_set_disj_cons, list_to_set_disj_nil, (right_id_L ∅ (⊎)), (comm_L (⊎)). }
  rewrite (bind_ok _ _ _ _ _ E1).
  destruct (IH (ls ++ [f]) np' fs1 (list_to_set_disj (nonnull [f]) ⊎ O)) as (fs' & E & Hs' & Er').
  { rewrite <- (assoc_L (++)). exact Hfx. }
  { cbn [p_files pset_files np']. rewrite Hfn. cbn [length replicate]. rewrite insert_app_r_alt, Nat.sub_diag by lia. rewrite <- (assoc_L (++)). done. }
  { done. } { intros g Hg Hgn. apply gmultiset_elem_of_disj_union. right. apply Hin; [by right|done]. }
  exists fs'. rewrite length_app, Nat.add_1_r in E. split_and!; [exact E| |congruence].
  assert (list_to_set_disj (nonnull (f :: rest)) = list_to_set_disj (nonnull [f]) ⊎ list_to_set_disj (nonnull rest) :> gmultiset Z) as ->.
  { rewrite <- list_to_set_disj_app. unfold nonnull. by rewrite <- filter_app. }
  by rewrite (comm_L (⊎) (list_to_set_disj (nonnull [f]))), <- (assoc_L (⊎)).
Qed.

(** ** The whole of do_fork after proc_create *)

(** The child as [do_fork] leaves it, made from what [proc_create] gave. *)
Definition forked_proc (np x : proc) (c t : Z) : proc :=
  Proc (p_pid np) (p_comm np) [t] [] (p_child_link np) (p_pproc np) (p_status np) PROC_RUNNING (p_pagedir np) (p_files x) (p_cwd x)
    (p_brk x) (p_start_brk x) c.
Definition fork_esp (stack : Z) : Z := stack +u DEFAULT_STACK_SIZE -u (sizeof_regs + 12).
Definition forked_ctx (np : proc) (stack ebp : Z) : context :=
  Context (p_pagedir np) userland_entry (fork_esp stack) ebp stack DEFAULT_STACK_SIZE.
Definition forked_stack (regs : list Z) (stack : Z) (km : gmap Z Z) : gmap Z Z :=
  store_words (fork_esp stack + 8) (<[r_eax := 0]> regs) (<[fork_esp stack + 4 := fork_esp stack + 8]> km).

(** What follows [proc_create]. *)
Definition fork_rest (cur newproc : Z) (regs : list Z) : M kern (Z * list Z) :=
  x ← prc cur;
  m ← on_vm (vmmap_clone (p_vmmap x));
  upd_prc newproc (pset_vmmap m);;
  y ← prc newproc;
  kassert (bool_decide (p_state y = PROC_RUNNING));;
  kassert (negb (p_pagedir y =? NULL));;
  on_vm (fork_vmas m (p_vmmap x));;
  t ← get_curthr;
  newthr ← kthread_clone t;
  z ← on_sched (thr newthr);
  kassert (negb (kt_kstack z =? NULL));;
  x ← prc cur;
  upd_prc newproc (pset_brk (p_brk x));;
  upd_prc newproc (pset_start_brk (p_start_brk x));;
  on_mm (pt_unmap_range (p_pagedir x) USER_MEM_LOW USER_MEM_HIGH);;
  on_mm proc_tlb_flush_all;;
  fork_files newproc cur NFILES;;
  y ← prc newproc;
  on_fs (vput (p_cwd y));;
  let regs := <[r_eax := 0]> regs in
  on_sched (upd_thr newthr (with_proc newproc));;
  upd_prc newproc (fun y => pset_threads (p_threads y ++ [newthr]) y);;
  modify (set_plinks (insert newthr newproc));;
  z ← on_sched (thr newthr);
  esp ← fork_setup_stack regs (kt_kstack z);
  k ← get;
  c ← deref (kt_ctxs k !! newthr);
  y ← prc newproc;
  modify (set_ctxs (insert newthr
    (Context (p_pagedir y) userland_entry esp (c_ebp c) (kt_kstack z) DEFAULT_STACK_SIZE)));;
  on_sched (sched_make_runnable newthr);;
  x ← prc cur;
  upd_prc newproc (pset_cwd (p_cwd x));;
  on_fs (vref (p_cwd x));;
  y ← prc newproc;
  mret (p_pid y, regs).

Lemma fork_rest_run regs p cur x np t kt n stack c s v va v2 v3 v4 v5 v6 fs fs1 fs2 fs3 ps l nx ini pl cx km :
  p <> cur -> ps !! cur = Some x -> p_state np = PROC_RUNNING -> p_pagedir np <> NULL -> p_threads np = [] -> p_children np = [] ->
  p_files np = replicate (length (p_files x)) NULL -> length (p_files x) = Z.to_nat NFILES ->
  curthr s = t -> threads s !! t = Some kt -> kt_state kt = KT_RUN -> n <> t -> n <> NULL -> stack <> NULL ->
  vmmap_clone (p_vmmap x) v = Ok c va -> fork_vmas c (p_vmmap x) va = Ok tt v2 ->
  lift kthread_slab_alloc v2 = Ok n v3 -> lift (page_alloc_n stack_pages) v3 = Ok stack v4 ->
  lift (pt_unmap_range (p_pagedir x) USER_MEM_LOW USER_MEM_HIGH) v4 = Ok tt v5 -> lift proc_tlb_flush_all v5 = Ok tt v6 ->
  (forall q, q = pset_start_brk (p_start_brk x) (pset_brk (p_brk x) (pset_vmmap c np)) ->
    fork_files p cur NFILES (Kern (MM := MM) (FS := FS) (set_thr n (cloned kt (kt_proc (slab_kthread n (vm_mm v4))) stack) s) v6 fs (<[p := q]> ps) l nx ini (delete n pl)
      (<[n := Context (c_pdptr (slab_ctx n (vm_mm v4))) (c_eip (slab_ctx n (vm_mm v4))) (c_esp (slab_ctx n (vm_mm v4))) (c_ebp (slab_ctx n (vm_mm v4))) stack (c_kstacksz (slab_ctx n (vm_mm v4)))]> cx) km) =
    Ok tt (Kern (set_thr n (cloned kt (kt_proc (slab_kthread n (vm_mm v4))) stack) s) v6 fs1 (<[p := pset_files (p_files x) q]> ps) l nx ini (delete n pl)
      (<[n := Context (c_pdptr (slab_ctx n (vm_mm v4))) (c_eip (slab_ctx n (vm_mm v4))) (c_esp (slab_ctx n (vm_mm v4))) (c_ebp (slab_ctx n (vm_mm v4))) stack (c_kstacksz (slab_ctx n (vm_mm v4)))]> cx) km)) ->
  vput (p_cwd np) fs1 = Ok tt fs2 -> vref (p_cwd x) fs2 = Ok tt fs3 ->
  fork_rest cur p regs (Kern (MM := MM) (FS := FS) s v fs (<[p := np]> ps) l nx ini pl cx km) =
    Ok (p_pid np, <[r_eax := 0]> regs) (Kern (enq kt_runq n (cloned kt p stack) s) v6 fs3 (<[p := forked_proc np x c n]> ps) l nx ini (<[n := p]> pl)
      (<[n := forked_ctx np stack (c_ebp (slab_ctx n (vm_mm v4)))]> cx) (forked_stack regs stack km)).
Proof.
  intros Hp Hx Hst Hpd Hth Hch Hfl Hlen Hct Hkt Hkr Hn Hnn Hsn E1 E2 E3 E4 E5 E6 Ef E7 E8. unfold fork_rest.
  prc_q Hp Hx. vm_go E1. upd_p. prc_p. rewrite kassert_bind by (by apply bool_decide_eq_true_2).
  rewrite kassert_bind by (by apply negb_true_iff, Z.eqb_neq). vm_go E2. unfold get_curthr. rewrite gets_bind. cbn [ks]. rewrite Hct.
  rewrite (bind_ok _ _ _ _ _ (clone_run t kt n stack s v2 v3 v4 fs _ l nx ini pl cx km Hkt Hkr Hn Hnn E3 E4)). cbv zeta.
  set (raw := slab_kthread n (vm_mm v4)) in *. set (cr := slab_ctx n (vm_mm v4)) in *.
  rewrite (bind_ok _ _ _ _ _ (on_sched_run _ _ _ _ _ _ _ _ _ _ _ _ _ (thr_here _ _ _))).
  rewrite kassert_bind by (by apply negb_true_iff, Z.eqb_neq). prc_q Hp Hx. upd_p. upd_p. unfold on_mm. vm_go E5. vm_go E6.
  rewrite (bind_ok _ _ _ _ _ (Ef _ eq_refl)). prc_p. cbn [p_cwd pset_files pset_start_brk pset_brk pset_vmmap]. fs_go E7.
  rewrite (bind_ok _ _ _ _ _ (on_sched_run _ _ _ _ _ _ _ _ _ _ _ _ _ (upd_thr_here _ _ _ _))). upd_p. kgo.
  rewrite (bind_ok _ _ _ _ _ (on_sched_run _ _ _ _ _ _ _ _ _ _ _ _ _ (thr_here _ _ _))). unfold fork_setup_stack. kgo.
  rewrite lookup_insert_eq. cbn [deref]. kgo. prc_p. kgo. rewrite insert_insert_eq.
  change (with_proc p (cloned kt (kt_proc raw) stack)) with (cloned kt p stack).
  assert (sched_make_runnable n (set_thr n (cloned kt p stack) s) = Ok tt (enq kt_runq n (cloned kt p stack) s)) as Em.
  { rewrite (make_runnable_ok n (cloned kt p stack)) by (done || apply lookup_insert_eq). rewrite enq_set_thr.
    f_equal. unfold cloned. rewrite Hkr. done. }
  sched_go Em. prc_q Hp Hx. upd_p. fs_go E8. prc_p. unfold mret, M_ret. rewrite insert_delete_eq.
  assert (forall q, q = pset_files (p_files x) (pset_start_brk (p_start_brk x) (pset_brk (p_brk x) (pset_vmmap c np))) ->
    pset_cwd (p_cwd x) (pset_threads (p_threads q ++ [n]) q) = forked_proc np x c n) as Hq.
  { intros q ->. unfold forked_proc, pset_cwd, pset_threads, pset_files, pset_start_brk, pset_brk, pset_vmmap. cbn. by rewrite Hth, Hst, Hch. }
  by rewrite (Hq _ eq_refl).
Qed.

(** ** The invariant with the child *)

Lemma spaces_mono ps maps maps' : spaces_ok ps maps -> (forall m, is_Some (maps !! m) -> is_Some (maps' !! m)) -> spaces_ok ps maps'.
Proof. intros [H1 H2] Hm. split; [|done]. intros p x Hx Hr. eapply Hm, H1; eauto. Qed.

Lemma ready_ok t kt s : sched_ok s -> threads s !! t = Some kt -> kt_wchan kt = None -> kt_state kt = KT_RUN -> t <> curthr s ->
  sched_ok (enq kt_runq t kt s).
Proof.
  intros [Hi (kc & Hkc & Hcw)] Ht Hw Hs Hn. split; [by apply enq_idle_ok|]. exists kc. cbn. by rewrite lookup_insert_ne.
Qed.

Lemma open_file ps p x f : ps !! p = Some x -> p_state x = PROC_RUNNING -> f ∈ p_files x -> f <> NULL -> f ∈ opens ps.
Proof.
  intros Hx Hr Hf Hn. unfold opens. apply elem_of_list_to_set_disj, elem_of_gather. exists p, x. split; [done|].
  unfold file_refs. rewrite bool_decide_eq_true_2 by done. unfold nonnull. by apply list_elem_of_filter.
Qed.
Lemma cwd_held ps p x : ps !! p = Some x -> p_state x = PROC_RUNNING -> p_cwd x <> NULL -> p_cwd x ∈ cwds ps.
Proof.
  intros Hx Hr Hn. unfold cwds. apply elem_of_list_to_set_disj, elem_of_gather. exists p, x. split; [done|].
  unfold cwd_ref. rewrite bool_decide_eq_true_2 by done. unfold nonnull. apply list_elem_of_filter. split; [done|by left].
Qed.

Lemma threads_fork ps pl ths p cur x fp t kt : threads_ok ps pl ths -> ps !! p = None -> ps !! cur = Some x -> ths !! t = None ->
  p_threads fp = [t] -> p_state fp = PROC_RUNNING -> kt_proc kt = p -> kt_kstack kt <> NULL -> kt_state kt <> KT_EXITED ->
  threads_ok (with_child ps p cur fp x) (<[t := p]> pl) (<[t := kt]> ths).
Proof.
  intros Hok Hp Hx Ht Hft Hfs Hkp Hks Hst. set (np := pset_threads [] fp).
  pose proof (thr_create ps p cur np x Hp Hx pl ths Hok eq_refl Hfs) as H0.
  pose proof (thr_add _ _ _ p np t kt H0 (with_child_new ps p cur np x) eq_refl Ht Hkp Hks Hst) as H1.
  replace (with_child ps p cur fp x) with (<[p := pset_threads [t] np]> (with_child ps p cur np x)); [done|].
  unfold with_child. rewrite insert_insert_eq. f_equal. destruct fp. cbn in *. by subst.
Qed.

(** ** do_fork *)

Definition newproc_name : list Z := [110; 101; 119; 112; 114; 111; 99].

(** Where memory for the child ran out. *)
Inductive fork_short k : Prop :=
| fork_short_create : create_short k -> fork_short k
| fork_short_vmmap p k1 x : proc_create newproc_name k = Ok p k1 -> procs k !! curproc (ks k) = Some x ->
    (exists v', vmmap_create (kvm k1) = Ok NULL v') \/
    (exists v', fork_vmmap (p_vmmap x) (kvm k1) = Halt NullDeref v' /\ alloc_failed (vm_mm v')) -> fork_short k
| fork_short_thread p k1 x c v2 : proc_create newproc_name k = Ok p k1 -> procs k !! curproc (ks k) = Some x ->
    fork_vmmap (p_vmmap x) (kvm k1) = Ok c v2 -> thread_short v2 -> fork_short k.

(** The child [p] of the current process [x], with its thread [t], in the kernel [k']. *)
Record forks (regs : list Z) k (x : proc) (pid p t : Z) k' : Prop := {
  fk_pid : next_free k pid;
  fk_child : exists np, procs k !! p = None /\ procs k' !! p = Some np /\ p_pid np = pid /\ p_pproc np = curproc (ks k) /\
    p_files np = p_files x /\ p_cwd np = p_cwd x /\ p_brk np = p_brk x /\ p_start_brk np = p_start_brk x /\ p_threads np = [t] /\
    (* its address space is the fork of the parent's; the one [proc_create] made stays behind *)
    exists v1 v2 m, fork_vmmap (p_vmmap x) v1 = Ok (p_vmmap np) v2 /\ vm_maps v1 = <[m := Vmmap [] p]> (vm_maps (kvm k)) /\
      vm_maps (kvm k) !! m = None /\ vm_maps (kvm k') = vm_maps v2 /\ p_vmmap np <> m;
  fk_parent : exists x', procs k' !! curproc (ks k) = Some x' /\ x' = pset_children (p :: p_children x) x;
  fk_thread : exists kt kc, threads (ks k) !! t = None /\ threads (ks k) !! curthr (ks k) = Some kc /\ threads (ks k') !! t = Some kt /\
    kt = linked kt_runq (cloned kc p (kt_kstack kt)) /\ fifo (ks k') kt_runq = fifo (ks k) kt_runq ++ [t] /\
    curthr (ks k') = curthr (ks k) /\
    (* it starts in user mode with the registers of the parent on its stack *)
    exists pd ebp, kt_ctxs k' !! t = Some (Context pd userland_entry (fork_esp (kt_kstack kt)) ebp (kt_kstack kt) DEFAULT_STACK_SIZE) /\
      kstack_mem k' = forked_stack regs (kt_kstack kt) (kstack_mem k);
  fk_others : (forall q, q <> p -> q <> curproc (ks k) -> procs k' !! q = procs k !! q) /\
    (forall u, u <> t -> threads (ks k') !! u = threads (ks k) !! u) /\
    curproc (ks k') = curproc (ks k) /\ proc_initproc k' = proc_initproc k
}.

Lemma thread_order (n stack : Z) (A B F : list Z) : (A ++ [n; stack] ++ B) ++ F ≡ₚ stack :: n :: (A ++ B) ++ F.
Proof. cbn [app]. rewrite <- !Permutation_middle. cbn. apply Permutation_swap. Qed.

Lemma fork_split m v c v2 : fork_vmmap m v = Ok c v2 -> exists va, vmmap_clone m v = Ok c va /\ fork_vmas c m va = Ok tt v2.
Proof.
  unfold fork_vmmap. intros (c' & va & E1 & ([] & v3 & E2 & E3)%bind_Ok_inv)%bind_Ok_inv. unfold mret, M_ret in E3. injection E3 as -> ->. eauto.
Qed.

(** The memory for the new thread, and the page tables. *)
Lemma fork_memory L R v2 pd : vm_ok L R v2 -> thread_short v2 \/
  exists n stack v3 v4 v5 v6, lift kthread_slab_alloc v2 = Ok n v3 /\ lift (page_alloc_n stack_pages) v3 = Ok stack v4 /\
    lift (pt_unmap_range pd USER_MEM_LOW USER_MEM_HIGH) v4 = Ok tt v5 /\ lift proc_tlb_flush_all v5 = Ok tt v6 /\
    n <> NULL /\ stack <> NULL /\ n ∉ L /\ vm_maps v6 = vm_maps v2 /\ vm_ok (stack :: n :: L) R v6.
Proof.
  intros Hv2. destruct (vm_allocates _ _ _ _ pl_thread Hv2) as (n & v3 & E3 & Em3 & [[-> _]|(Hnn & Hv3 & Hnf)]); [left; left; eauto|].
  destruct (vm_allocates _ _ _ _ (pl_stack stack_pages) Hv3) as (stack & v4 & E4 & Em4 & [[-> _]|(Hsn & Hv4 & _)]); [left; right; eauto 6|].
  destruct (mm_pt_unmap _ _ _ _ pd USER_MEM_LOW USER_MEM_HIGH (vm_ok_safe _ _ _ Hv4)) as (mm5 & E5 & Hs5 & _).
  pose proof (vm_ok_mm _ _ _ _ _ Hv4 Hs5) as Hv5. apply lift_run in E5. set (v5 := Vm (vm_maps v4) mm5) in *.
  destruct (pl_tlb _ _ _ _ (vm_ok_safe _ _ _ Hv5)) as (mm6 & E6 & Hs6). pose proof (vm_ok_mm _ _ _ _ _ Hv5 Hs6) as Hv6. apply lift_run in E6.
  right. exists n, stack, v3, v4, v5, (Vm (vm_maps v5) mm6). split_and!; try done; [|cbn; congruence]. intros Hin. apply Hnf, elem_of_app. by left.
Qed.

Lemma nonnull_one a : a <> NULL -> list_to_set_disj (nonnull [a]) = {[+ a +]} :> gmultiset Z.
Proof. intros H. unfold nonnull. rewrite filter_cons_True by done. by rewrite filter_nil, list_to_set_disj_cons, list_to_set_disj_nil, (right_id_L ∅ (⊎)). Qed.

(** The references to files and vnodes with the child [np], which runs. *)
Lemma child_refs ps p cur x np : ps !! p = None -> ps !! cur = Some x -> p_state np = PROC_RUNNING ->
  cwds (with_child ps p cur np x) = list_to_set_disj (nonnull [p_cwd np]) ⊎ cwds ps /\
  opens (with_child ps p cur np x) = list_to_set_disj (nonnull (p_files np)) ⊎ opens ps.
Proof.
  intros Hp Hx Hr. pose proof (gather_child _ _ _ np _ Hp Hx cwd_ref (fun _ _ _ => eq_refl)) as G1.
  pose proof (gather_child _ _ _ np _ Hp Hx file_refs (fun _ _ _ => eq_refl)) as G2.
  unfold cwds, opens. rewrite (list_to_set_disj_perm _ _ G1), (list_to_set_disj_perm _ _ G2), !list_to_set_disj_app.
  unfold cwd_ref at 1, file_refs at 1. by rewrite !bool_decide_eq_true_2.
Qed.

Lemma forked_ok F R V O k x p c n stack kt pid v6 fs' np cx km :
  let cur := curproc (ks k) in let fp := forked_proc np (pset_children (p :: p_children x) x) c n in
  let s1 := set_queue (waitq p) (Ktqueue [] 0) (ks k) in
  kern_ok F R V O k -> sched_ok s1 -> procs k !! cur = Some x -> p_state x = PROC_RUNNING -> p_cwd x <> NULL ->
  procs k !! p = None -> p <> NULL -> next_free k pid -> 1 < pid < PROC_MAX_COUNT ->
  p_pid np = pid -> p_pproc np = cur -> p_child_link np = Some cur -> p_pagedir np <> NULL ->
  threads (ks k) !! curthr (ks k) = Some kt -> kt_state kt = KT_RUN -> threads (ks k) !! n = None -> n <> NULL -> stack <> NULL ->
  vm_ok (stack :: n :: owned (with_child (procs k) p cur np x) (threads (ks k)) ++ F) R v6 ->
  (exists maps w, vm_maps v6 = <[c := w]> maps /\ maps !! c = None /\ forall m, is_Some (vm_maps (kvm k) !! m) -> is_Some (maps !! m)) ->
  fs_safe (cwds (procs k) ⊎ V ⊎ {[+ p_cwd x +]}) (list_to_set_disj (nonnull (p_files x)) ⊎ (opens (procs k) ⊎ O)) fs' ->
  kern_ok F R V O (Kern (enq kt_runq n (cloned kt p stack) s1) v6 fs' (with_child (procs k) p cur fp x) (p :: proc_list k)
    ((pid + 1) `mod` PROC_MAX_COUNT) (proc_initproc k) (<[n := p]> (kt_plinks k)) cx km).
Proof.
  intros cur fp s1 Hk Hs1 Hx Hr Hcwd Hp Hpn Hfree Hpid E1 E2 E3 Hpd Hkt Hst Hnt Hnn Hsn Hv6 (maps & w & Em & Hc & Hmono) Hfs.
  assert (n <> curthr (ks k)) as Hnc by congruence. pose proof (ko_fam _ _ _ _ _ Hk) as Hf.
  split; cbn [ks kvm kfs procs proc_list next_pid proc_initproc kt_plinks].
  - rewrite <- (enq_set_thr kt_runq n (cloned kt p stack) (cloned kt p stack)). apply ready_ok; [|apply lookup_insert_eq|done|done|done].
    by apply new_thread_ok.
  - eapply vm_ok_perm; [|exact Hv6]. unfold owned. cbn [threads enq set_queue set_thr s1].
    rewrite (gather_child _ _ _ np _ Hp Hx proc_owns (fun _ _ _ => eq_refl)), (gather_child _ _ _ fp _ Hp Hx proc_owns (fun _ _ _ => eq_refl)).
    rewrite (gather_insert thread_owns (threads (ks k)) n) by done. symmetry. apply (thread_order n stack).
  - destruct (child_refs (procs k) p cur x fp Hp Hx eq_refl) as [-> ->]. cbn [fp forked_proc p_cwd p_files pset_children]. rewrite nonnull_one by done.
    match goal with |- fs_safe ?A ?B _ => match type of Hfs with fs_safe ?A' ?B' _ =>
      replace A with A' by multiset_solver; replace B with B' by multiset_solver end end. exact Hfs.
  - apply fam_create; try done.
    + intros q' z Hz Ez. destruct Hfree as (_ & _ & _ & Hn & _). apply Hn. rewrite kern_pid_used by done. exists q', z. split; [done|]. by rewrite Ez.
    + cbn. lia.
    + cbn. exact (fo_files _ _ _ Hf _ _ Hx).
  - cbn [threads enq set_queue set_thr s1]. apply threads_fork; try done; [apply Hk|]. cbn. congruence.
  - rewrite Em. apply spaces_create; try done. apply (spaces_mono _ (vm_maps (kvm k))); [apply Hk|done].
  - cbn [threads enq set_queue set_thr s1]. intros u ku a. rewrite lookup_insert. case_decide; [intros [= <-]; done|].
    apply (waits_create (procs k) p cur fp x Hp Hx F _ (ko_waits _ _ _ _ _ Hk)).
  - destruct (ko_cur _ _ _ _ _ Hk) as (kc & Hkc & Hcp). exists kc. cbn. by rewrite lookup_insert_ne.
  - pose proof proc_max_pos. apply Z.mod_pos_bound. lia.
Qed.

(** What the final state says of parent and child. *)
Lemma forked_forks regs k x p c n stack kt pid v1 v2 v6 m fs' np ebp :
  let cur := curproc (ks k) in let fp := forked_proc np (pset_children (p :: p_children x) x) c n in
  let s1 := set_queue (waitq p) (Ktqueue [] 0) (ks k) in
  procs k !! cur = Some x -> procs k !! p = None -> next_free k pid -> p_pid np = pid -> p_pproc np = cur ->
  threads (ks k) !! curthr (ks k) = Some kt -> threads (ks k) !! n = None ->
  fork_vmmap (p_vmmap x) v1 = Ok c v2 -> vm_maps v1 = <[m := Vmmap [] p]> (vm_maps (kvm k)) -> vm_maps (kvm k) !! m = None ->
  vm_maps v6 = vm_maps v2 -> vm_maps v1 !! c = None ->
  forks regs k x pid p n (Kern (enq kt_runq n (cloned kt p stack) s1) v6 fs' (with_child (procs k) p cur fp x) (p :: proc_list k)
    ((pid + 1) `mod` PROC_MAX_COUNT) (proc_initproc k) (<[n := p]> (kt_plinks k)) (<[n := forked_ctx np stack ebp]> (kt_ctxs k)) (forked_stack regs stack (kstack_mem k))).
Proof.
  intros cur fp s1 Hx Hp Hfree E1 E2 Hkt Hnt Ef Em1 Hm Em6 Hc. assert (p <> cur) as Hpc by congruence. split; cbn [ks procs kvm kt_ctxs kstack_mem proc_initproc].
  - done.
  - exists fp. unfold with_child. rewrite lookup_insert_eq. split_and!; try done. exists v1, v2, m. split_and!; try done. cbn. intros ->. by rewrite Em1, lookup_insert_eq in Hc.
  - exists (pset_children (p :: p_children x) x). unfold with_child. by rewrite lookup_insert_ne, lookup_insert_eq.
  - exists (linked kt_runq (cloned kt p stack)), kt. cbn. rewrite lookup_insert_eq. split_and!; try done.
    + unfold fifo. rewrite list_enq, decide_True by done. rewrite reverse_cons. f_equal. f_equal. unfold s1, queues. cbn. by rewrite lookup_insert_ne.
    + eexists _, ebp. by rewrite lookup_insert_eq.
  - split_and!; [| |done|done].
    + intros q Hq1 Hq2. unfold with_child. by rewrite !lookup_insert_ne by done.
    + intros u Hu. cbn. by rewrite lookup_insert_ne by done.
Qed.

Lemma do_fork_cases F R V O k x regs :
  kern_ok F R V O k -> proc_initproc k <> NULL -> procs k !! curproc (ks k) = Some x -> p_cwd x <> NULL -> vfs_root_vn (kfs k) <> NULL ->
  7 < PROC_NAME_LEN ->
  (exists pid p t k', do_fork regs k = Ok (pid, <[r_eax := 0]> regs) k' /\ forks regs k x pid p t k' /\ kern_ok F R V O k') \/
  (forall pid, 0 <= pid < PROC_MAX_COUNT -> pid_used k pid) \/ fork_short k.
Proof.
  intros Hk Hini Hx Hcwd Hroot Hname.
  destruct (proc_create_cases F R V O k newproc_name Hk Hini Hname) as [(p & k1 & E & Hcr & Hk1)|[?|?]];
    [|by right; left|by right; right; apply fork_short_create].
  pose proof Hcr as (pid & pd & cwd & m & y & v1 & fs1 & Hfree & Hy & Hp & Hpn & Hm & Em1 & Hcw & Ek1). rewrite Hx in Hy. injection Hy as <-.
  destruct (cur_running _ _ _ _ _ Hk) as (x' & kt & Hx' & Hr & Hth & Hkt & Hkp & Hw & Hst). rewrite Hx in Hx'. injection Hx' as <-.
  pose proof (ko_fam _ _ _ _ _ Hk) as Hf. assert (p <> curproc (ks k)) as Hpc by congruence.
  set (np := new_proc newproc_name pid (curproc (ks k)) pd cwd m (p_brk x) (p_start_brk x)) in *.
  destruct (proj1 (ko_spaces _ _ _ _ _ Hk) _ _ Hx Hr) as [w Hmx]. assert (p_vmmap x <> m) as Hxm by congruence.
  pose proof (ko_vm _ _ _ _ _ Hk1) as Hvm1. pose proof (ko_sched _ _ _ _ _ Hk1) as Hs1. pose proof (ko_fs _ _ _ _ _ Hk1) as Hfs.
  pose proof (fo_pagedir _ _ _ (ko_fam _ _ _ _ _ Hk1) p np ltac:(rewrite Ek1; apply with_child_new)) as Hpd.
  assert (vm_maps (kvm k1) !! p_vmmap x = Some w) as Hmx1 by (rewrite Ek1; cbn; by rewrite Em1, lookup_insert_ne).
  destruct (fork_vm_ok _ _ _ _ _ Hvm1 Hmx1) as [(c & lp & lc & v2 & Ef & Hv2 & Hc & _ & Em2 & _)|Hshort].
  2: { right. right. eapply fork_short_vmmap; [exact E|exact Hx|]. destruct Hshort; [by right|by left]. }
  destruct (fork_memory _ _ _ (p_pagedir x) Hv2) as [?|(n & stack & v3 & v4 & v5 & v6 & E3 & E4 & E5 & E6 & Hnn & Hsn & Hnf & Em6 & Hv6)].
  { right. right. by eapply fork_short_thread. }
  rewrite Ek1 in Hvm1, Hs1, Hfs, Hc, Em2, Ef, Hnf, Hv6. cbn [ks kvm kfs procs] in Hvm1, Hs1, Hfs, Hc, Em2, Ef, Hnf, Hv6.
  destruct (fork_split _ _ _ _ Ef) as (va & Ef1 & Ef2).
  (* files and directory *)
  destruct (child_refs (procs k) p (curproc (ks k)) x np Hp Hx eq_refl) as [Ec Eo]. rewrite Ec, Eo in Hfs. cbn [p_cwd p_files np new_proc] in Hfs.
  rewrite nonnull_one, nonnull_replicate, list_to_set_disj_nil, (left_id_L ∅ (⊎)), <- (assoc_L (⊎)), (comm_L (⊎) {[+ cwd +]}) in Hfs by congruence.
  pose proof (fo_files _ _ _ Hf _ _ Hx) as Hlen. cbn beta in Hlen.
  set (x1 := pset_children (p :: p_children x) x). set (psc := <[curproc (ks k) := x1]> (procs k)).
  assert (psc !! curproc (ks k) = Some x1) as Hx1 by apply lookup_insert_eq.
  set (s1 := set_queue (waitq p) (Ktqueue [] 0) (ks k)) in *. set (cr := slab_ctx n (vm_mm v4)).
  destruct (fork_files_run p (curproc (ks k)) x1 [] (p_files x) (pset_start_brk (p_start_brk x) (pset_brk (p_brk x) (pset_vmmap c np))) fs1
    (cwds (procs k) ⊎ V ⊎ {[+ cwd +]}) (opens (procs k) ⊎ O) (set_thr n (cloned kt (kt_proc (slab_kthread n (vm_mm v4))) stack) s1) v6 psc (p :: proc_list k)
    ((pid + 1) `mod` PROC_MAX_COUNT) (proc_initproc k) (delete n (kt_plinks k))
    (<[n := Context (c_pdptr cr) (c_eip cr) (c_esp cr) (c_ebp cr) stack (c_kstacksz cr)]> (kt_ctxs k)) (kstack_mem k)
    Hpc Hx1 eq_refl) as (fs2 & E7 & Hfs2 & _); [cbn; by rewrite Hlen|exact Hfs| |].
  { intros f Hin Hfn. apply gmultiset_elem_of_disj_union. left. by eapply open_file. }
  destruct (fs_vput _ _ _ _ Hfs2) as (fs3 & E8 & Hfs3 & _).
  destruct (fs_vref _ _ _ (p_cwd x) Hfs3) as (fs4 & E9 & Hfs4 & _); [apply gmultiset_elem_of_disj_union; left; by eapply cwd_held|].
  assert (threads (ks k) !! n = None) as Hnt.
  { apply eq_None_not_Some. intros [kn Hkn]. apply Hnf. apply elem_of_app. left. unfold owned. apply elem_of_app. right.
    apply elem_of_gather. exists n, kn. split; [done|]. by left. }
  assert (n <> curthr (ks k)) as Hnc by congruence.
  pose proof (fork_rest_run regs p (curproc (ks k)) x1 np (curthr (ks k)) kt n stack c s1 v1 va v2 v3 v4 v5 v6 fs1 fs2 fs3 fs4 psc (p :: proc_list k)
    ((pid + 1) `mod` PROC_MAX_COUNT) (proc_initproc k) (kt_plinks k) (kt_ctxs k) (kstack_mem k) Hpc Hx1 eq_refl Hpd eq_refl eq_refl
    ltac:(cbn; by rewrite Hlen) Hlen eq_refl Hkt Hst Hnc Hnn Hsn Ef1 Ef2 E3 E4 E5 E6
    ltac:(intros q' ->; unfold fork_files; rewrite <- Hlen; exact E7) E8 E9) as Erun.
  left. exists pid, p, n. eexists. split; [|split].
  - unfold do_fork, get_curproc. rewrite gets_bind. destruct (Z.eqb_spec (curproc (ks k)) NULL) as [E0|_].
    { rewrite E0 in Hx. by rewrite (fo_null _ _ _ Hf) in Hx. }
    rewrite kassert_bind by done. rewrite (bind_ok _ _ _ _ _ (prc_ok _ _ _ Hx)), kassert_bind by (by apply bool_decide_eq_true_2).
    rewrite (bind_ok _ _ _ _ _ E). rewrite Ek1. exact Erun.
  - eapply forked_forks; done || congruence.
  - pose proof (next_free_range _ _ _ _ _ _ Hk Hini Hfree) as Hpid. eapply forked_ok; try done.
    rewrite Em6, Em2. eexists _, _. split_and!; [done| |].
    + rewrite lookup_insert_ne; [done|]. intros E0. rewrite <- E0, Em1, lookup_insert_ne in Hc by done. congruence.
    + intros m' [w' Hw']. rewrite Em1, !lookup_insert. repeat case_decide; eauto.
Qed.

(** C13. fork returns the next free process identifier and makes a child of the
    current process with that identifier, the parent's open files, working
    directory and break, an address space that is the fork of the parent's, and
    one thread at the end of the run queue that enters user mode with the parent's
    registers on its own kernel stack; the registers passed on return 0; no other
    process or thread changes. It fails only when all identifiers are used or an
    allocation fails. *)
Theorem do_fork_makes_child F R V O k x regs :
  kern_ok F R V O k -> proc_initproc k <> NULL -> procs k !! curproc (ks k) = Some x -> p_cwd x <> NULL -> vfs_root_vn (kfs k) <> NULL ->
  7 < PROC_NAME_LEN ->
  (exists pid p t k', do_fork regs k = Ok (pid, <[r_eax := 0]> regs) k' /\ forks regs k x pid p t k' /\ kern_ok F R V O k') \/
  (forall pid, 0 <= pid < PROC_MAX_COUNT -> pid_used k pid) \/ fork_short k.
Proof. apply do_fork_cases. Qed.
End Fork.
