(* ===== verification/ProcFam.v ===== *)
(** The family tree when a process exits and when it is reaped. *)
From S2P Require Import Prelude.
From S2P Require Import Platform.
From S2P Require Import Sched.
From S2P Require Import ProcSched.
From S2P Require Import MmIface.
From S2P Require Import Proc.
From S2P Require Import ProcInv.
From S2P Require Import ProcThread.
Open Scope Z_scope.

Section Fam.
Context `{P : Platform} `{!PlatformOk P} {C : ProcConst} `{!ProcConstOk C}.
Implicit Types (ps : gmap Z proc) (l : list Z).

(** Process [init] becomes the parent of the processes [l]. *)
Definition adopted (init : Z) (x : proc) : proc := pset_pproc init (pset_child_link (Some init) x).
Definition reparented (init : Z) l (q : Z) (x : proc) : proc :=
  if decide (q = init) then pset_children (reverse l ++ p_children x) x
  else if decide (q ∈ l) then adopted init x else x.
Definition reparent (init : Z) l ps : gmap Z proc := map_imap (fun q x => Some (reparented init l q x)) ps.

Lemma reparent_lookup init l ps q : reparent init l ps !! q = reparented init l q <$> ps !! q.
Proof. unfold reparent. rewrite map_lookup_imap. by destruct (ps !! q). Qed.
Lemma reparent_Some init l ps q x' : reparent init l ps !! q = Some x' <-> exists x, ps !! q = Some x /\ x' = reparented init l q x.
Proof. rewrite reparent_lookup, fmap_Some. done. Qed.
Lemma reparent_nil init ps : reparent init [] ps = ps.
Proof.
  apply map_eq. intros q. rewrite reparent_lookup. destruct (ps !! q) as [x|]; [|done]. cbn. unfold reparented.
  rewrite (decide_False (P := q ∈ [])) by apply not_elem_of_nil. f_equal. case_decide; [|done]. by destruct x.
Qed.
Lemma reparent_cons init c l ps x y : c <> init -> ps !! c = Some x -> ps !! init = Some y ->
  reparent init l (<[c := adopted init x]> (<[init := pset_children (c :: p_children y) y]> ps)) = reparent init (c :: l) ps.
Proof.
  intros Hc Hx Hy. apply map_eq. intros q. rewrite !reparent_lookup. destruct (decide (q = c)) as [->|Hqc].
  - rewrite lookup_insert_eq, Hx. cbn. unfold reparented. rewrite !decide_False by done. f_equal.
    rewrite (decide_True (P := c ∈ c :: l)) by set_solver. rewrite (decide_False (P := c = init)) by done. by case_decide.
  - rewrite lookup_insert_ne by done. destruct (decide (q = init)) as [->|Hqi].
    + rewrite lookup_insert_eq, Hy. cbn. unfold reparented. rewrite !decide_True by done. cbn [p_children pset_children]. by rewrite reverse_cons, <- (assoc_L (++)).
    + rewrite lookup_insert_ne by done. destruct (ps !! q) as [z|]; [|done]. cbn. unfold reparented. rewrite !(decide_False (P := q = init)) by done.
      f_equal. destruct (decide (q ∈ l)) as [Hin|Hin]; [by rewrite decide_True by set_solver|by rewrite decide_False by set_solver].
Qed.

(** What exiting does to the process itself. *)
Definition dead (status : Z) (x : proc) : proc :=
  pset_files (replicate (Z.to_nat NFILES) NULL) (pset_state PROC_DEAD (pset_status status x)).

Section Exit.
Context (ps : gmap Z proc) (l : list Z) (init cur status : Z) (x : proc).
Hypotheses (Hf : fam_ok ps l init) (Hx : ps !! cur = Some x) (Hrun : p_state x = PROC_RUNNING)
  (Hidle : p_pid x <> PID_IDLE) (Hinit : p_pid x <> PID_INIT) (Hnn : init <> NULL).

Definition exited_procs : gmap Z proc := <[cur := dead status x]> (reparent init (p_children x) ps).

Lemma init_alive : exists y z, ps !! init = Some y /\ p_pid y = PID_INIT /\ p_state y = PROC_RUNNING /\
  ps !! p_pproc y = Some z /\ p_pid z = PID_IDLE.
Proof. by destruct (fo_init _ _ _ Hf) as [?|?]. Qed.
Lemma cur_not_init : cur <> init.
Proof. intros E. destruct init_alive as (y & z & Hy & Hp & _). congruence. Qed.
Lemma child_is c : c ∈ p_children x -> exists z, ps !! c = Some z /\ p_pproc z = cur.
Proof. intros Hc. destruct (fo_children _ _ _ Hf _ _ Hx Hrun) as [_ H]. by apply H. Qed.
Lemma child_not_init c : c ∈ p_children x -> c <> init.
Proof.
  intros Hc ->. destruct (child_is _ Hc) as (z & Hz & E). destruct init_alive as (y & w & Hy & _ & _ & Hw & Ew). simplify_eq.
Qed.
Lemma child_iff q z : ps !! q = Some z -> p_pid z <> PID_IDLE -> q ∈ p_children x <-> p_pproc z = cur.
Proof.
  intros Hz Hi. split.
  - intros Hc. destruct (child_is _ Hc) as (z' & Hz' & E). congruence.
  - intros E. destruct (fo_parent _ _ _ Hf q z Hz Hi) as (_ & _ & y & Hy & _ & Hin). rewrite E in Hy. by simplify_eq.
Qed.
Lemma child_not_idle c z : c ∈ p_children x -> ps !! c = Some z -> p_pid z <> PID_IDLE.
Proof.
  intros Hc Hz Hi. destruct (child_is _ Hc) as (z' & Hz' & E). simplify_eq. destruct (fo_idle _ _ _ Hf _ _ Hz Hi) as [E _].
  rewrite E in Hx. by rewrite (fo_null _ _ _ Hf) in Hx.
Qed.
Lemma cur_not_child : cur ∉ p_children x.
Proof. rewrite (child_iff cur x Hx Hidle). by destruct (fo_parent _ _ _ Hf _ _ Hx Hidle) as (_ & ? & _). Qed.

Lemma exited_inv q x' : exited_procs !! q = Some x' ->
  q = cur /\ x' = dead status x \/ q <> cur /\ exists z, ps !! q = Some z /\ x' = reparented init (p_children x) q z.
Proof. unfold exited_procs. intros [[-> <-]|[Hn Hq]]%lookup_insert_Some; [by left|right]. apply reparent_Some in Hq. eauto. Qed.
Lemma exited_old q z : q <> cur -> ps !! q = Some z -> exited_procs !! q = Some (reparented init (p_children x) q z).
Proof. intros Hn Hz. unfold exited_procs. rewrite lookup_insert_ne by done. apply reparent_Some. eauto. Qed.
Lemma exited_cur : exited_procs !! cur = Some (dead status x).
Proof. apply lookup_insert_eq. Qed.

(** What reparenting leaves alone. *)
Lemma reparented_same ls q z : let z' := reparented init ls q z in
  p_pid z' = p_pid z /\ p_threads z' = p_threads z /\ p_status z' = p_status z /\ p_state z' = p_state z /\ p_pagedir z' = p_pagedir z /\
  p_files z' = p_files z /\ p_cwd z' = p_cwd z /\ p_vmmap z' = p_vmmap z.
Proof. unfold reparented. repeat case_decide; by split_and!. Qed.
Lemma reparented_parent q z : q ∉ p_children x -> p_pproc (reparented init (p_children x) q z) = p_pproc z /\
  p_child_link (reparented init (p_children x) q z) = p_child_link z.
Proof. intros Hq. unfold reparented. case_decide; [done|]. by rewrite decide_False. Qed.
Lemma reparented_child q z : q ∈ p_children x -> reparented init (p_children x) q z = adopted init z.
Proof. intros Hq. unfold reparented. rewrite decide_False by (by apply child_not_init). by rewrite decide_True. Qed.

(** The processes that matter are as before, with a new parent for the orphans. *)
Lemma exited_pid q x' : exited_procs !! q = Some x' -> exists z, ps !! q = Some z /\ p_pid x' = p_pid z.
Proof.
  intros [[-> ->]|(_ & z & Hz & ->)]%exited_inv; [by exists x|]. exists z. split; [done|]. apply reparented_same.
Qed.

(** A running process other than [cur], before and after. *)
Lemma exited_parent q y : q <> cur -> ps !! q = Some y -> p_state y = PROC_RUNNING ->
  exists y', exited_procs !! q = Some y' /\ p_state y' = PROC_RUNNING /\ p_children y ⊆ p_children y' /\
    (q = init -> p_children x ⊆ p_children y').
Proof.
  intros Hn Hy Hs. exists (reparented init (p_children x) q y). split_and!; [by apply exited_old| | |].
  - by rewrite (proj1 (proj2 (proj2 (proj2 (reparented_same _ q y))))).
  - unfold reparented. repeat case_decide; cbn; set_solver.
  - intros ->. unfold reparented. rewrite decide_True by done. cbn. intros c Hc. apply elem_of_app. left. by apply elem_of_reverse.
Qed.

Lemma exited_has_parent q z' : exited_procs !! q = Some z' -> p_pid z' <> PID_IDLE -> has_parent exited_procs q z'.
Proof.
  pose proof cur_not_init as Hci. destruct init_alive as (yi & zi & Hyi & Hpi & Hri & Hzi & Hzp).
  destruct (fo_parent _ _ _ Hf _ _ Hx Hidle) as (Hlx & Hsx & px & Hpx & Hpxr & Hpxc).
  intros Hq Hi. apply exited_inv in Hq as [[-> ->]|(Hn & z & Hz & ->)].
  + split; [done|]. split; [done|]. cbn. by destruct (exited_parent _ _ Hsx Hpx Hpxr) as (y' & ? & ? & Hsub & _); exists y'; split_and!; [|..|apply Hsub].
  + rewrite (proj1 (reparented_same _ q z)) in Hi. destruct (decide (q ∈ p_children x)) as [Hin|Hin].
    * rewrite (reparented_child _ _ Hin). split; [done|]. cbn. split; [by apply not_eq_sym, child_not_init|].
      destruct (exited_parent _ _ (not_eq_sym Hci) Hyi Hri) as (y' & ? & ? & _ & Hsub). exists y'. split_and!; [done|done|by apply Hsub].
    * destruct (fo_parent _ _ _ Hf q z Hz Hi) as (Hl & Hs & y & Hy & Hyr & Hyc). destruct (reparented_parent _ z Hin) as [Ep El].
      assert (p_pproc z <> cur) as Hpc by (rewrite <- (child_iff q z Hz Hi); done).
      split; [by rewrite Ep, El|]. rewrite Ep. split; [done|].
      destruct (exited_parent _ _ Hpc Hy Hyr) as (y' & ? & ? & Hsub & _). exists y'. split_and!; [done|done|by apply Hsub].
Qed.
Lemma exited_has_children q z' : exited_procs !! q = Some z' -> p_state z' = PROC_RUNNING -> has_children exited_procs q z'.
Proof.
  assert (forall c q, c ∉ p_children x -> (exists z, ps !! c = Some z /\ p_pproc z = q) -> exists z, exited_procs !! c = Some z /\ p_pproc z = q) as Hold.
  { intros c r Hc (z & Hz & E). destruct (decide (c = cur)) as [->|Hn]; [simplify_eq; exists (dead status x); by rewrite exited_cur|].
    eexists. split; [by apply exited_old|]. by rewrite (proj1 (reparented_parent _ z Hc)). }
  intros Hq Hr. apply exited_inv in Hq as [[-> ->]|(Hn & z & Hz & ->)]; [done|].
  rewrite (proj1 (proj2 (proj2 (proj2 (reparented_same _ q z))))) in Hr. destruct (fo_children _ _ _ Hf _ _ Hz Hr) as [Hnd Hc].
  assert (forall c, c ∈ p_children z -> c ∉ p_children x) as Hdisj.
  { intros c H1 H2. destruct (Hc c H1) as (w & Hw & E1), (child_is c H2) as (w' & Hw' & E2). congruence. }
  destruct (decide (q = init)) as [->|Hqi].
  + unfold reparented. rewrite decide_True by done. split; cbn [p_children pset_children].
    * apply NoDup_app. split_and!; [|intros c Hc1 Hc2; apply (Hdisj c Hc2); by apply elem_of_reverse|done].
      rewrite reverse_Permutation. apply (fo_children _ _ _ Hf _ _ Hx Hrun).
    * intros c [Hin%elem_of_reverse|Hin]%elem_of_app; [rewrite reverse_involutive in Hin|apply Hold; [by apply Hdisj|by apply Hc]].
      destruct (child_is c Hin) as (w & Hw & _). exists (adopted init w). split; [|done].
      rewrite <- (reparented_child c w Hin). apply exited_old; [|done]. intros ->. by apply cur_not_child.
  + assert (p_children (reparented init (p_children x) q z) = p_children z) as Ec.
    { unfold reparented. rewrite decide_False by done. by case_decide. }
    split; rewrite Ec; [done|]. intros c Hin. apply Hold; [by apply Hdisj|by apply Hc].
Qed.
Lemma fam_exit : fam_ok exited_procs l init.
Proof.
  pose proof cur_not_init as Hci. destruct init_alive as (yi & zi & Hyi & Hpi & Hri & Hzi & Hzp).
  destruct (fo_parent _ _ _ Hf _ _ Hx Hidle) as (Hlx & Hsx & px & Hpx & Hpxr & Hpxc).
  split.
  - apply Hf.
  - intros q. rewrite (fo_list _ _ _ Hf). destruct (decide (q = cur)) as [->|Hn].
    + rewrite exited_cur, Hx. split; eauto.
    + split; [intros [z Hz]; rewrite (exited_old _ _ Hn Hz); eauto|].
      intros [z' Hz]. apply exited_pid in Hz as (z & ? & _). eauto.
  - apply eq_None_not_Some. intros [z Hz]. apply exited_pid in Hz as (w & Hw & _). by rewrite (fo_null _ _ _ Hf) in Hw.
  - intros a b z1 z2 Ha Hb E. apply exited_pid in Ha as (w1 & Hw1 & E1), Hb as (w2 & Hw2 & E2). eapply (fo_pid_inj _ _ _ Hf); [done|done|congruence].
  - intros q z' (z & Hz & ->)%exited_pid. by apply (fo_pid_range _ _ _ Hf q).
  - exact exited_has_parent.
  - intros q z' Hq Hi. apply exited_inv in Hq as [[-> ->]|(Hn & z & Hz & ->)]; [done|].
    destruct (reparented_same (p_children x) q z) as (E1 & _ & _ & E4 & _). rewrite E1 in Hi. rewrite E4.
    destruct (decide (q ∈ p_children x)) as [Hin|Hin]; [by destruct (child_not_idle _ _ Hin Hz)|].
    destruct (reparented_parent _ z Hin) as [-> _]. by apply (fo_idle _ _ _ Hf q).
  - destruct (fo_has_idle _ _ _ Hf) as (q & z & Hz & E). assert (q <> cur) as Hn by congruence.
    exists q. eexists. split; [by apply exited_old|]. by rewrite (proj1 (reparented_same _ q z)).
  - exact exited_has_children.
  - right. eexists _, _. split_and!; [by apply exited_old; [by apply not_eq_sym|exact Hyi]| | | |].
    + by rewrite (proj1 (reparented_same _ init yi)).
    + by rewrite (proj1 (proj2 (proj2 (proj2 (reparented_same _ init yi))))).
    + assert (init ∉ p_children x) as Hni by (intros Hin; by apply (child_not_init init)).
      rewrite (proj1 (reparented_parent _ yi Hni)). apply exited_old; [|exact Hzi]. intros E. rewrite E in Hzi. congruence.
    + by rewrite (proj1 (reparented_same _ (p_pproc yi) zi)).
  - intros q z' [[-> ->]|(_ & z & Hz & ->)]%exited_inv; [apply length_replicate|].
    destruct (reparented_same (p_children x) q z) as (_ & _ & _ & _ & _ & -> & _). by apply (fo_files _ _ _ Hf q).
  - intros q z' [[-> ->]|(_ & z & Hz & ->)]%exited_inv; [exact (fo_pagedir _ _ _ Hf cur x Hx)|].
    destruct (reparented_same (p_children x) q z) as (_ & _ & _ & _ & -> & _). by apply (fo_pagedir _ _ _ Hf q).
Qed.
End Exit.
End Fam.
