(* ===== verification/ProcExit.v ===== *)
(** Exiting: [do_exit], [kthread_exit], [proc_thread_exited] and [proc_cleanup]. *)
From S2P Require Import Prelude.
From S2P Require Import Platform.
From S2P Require Import Sched.
From S2P Require Import SchedInv.
From S2P Require Import ProcSched.
From S2P Require Import MmIface.
From S2P Require Import Vmmap.
From S2P Require Import Areas.
From S2P Require Import VmmapFacts.
From S2P Require Import VmmapThms.
From S2P Require Import Proc.
From S2P Require Import ProcInv.
From S2P Require Import ProcIds.
From S2P Require Import ProcCreate.
From S2P Require Import ProcThread.
From S2P Require Import ProcFam.
Open Scope Z_scope.

Section Exit.
Context `{P : Platform} `{!PlatformOk P} {C : ProcConst} `{!ProcConstOk C} {MM FS : Type}.
Context `{!MmOps MM} `{!MmLaws MM} `{!ProcOps MM} `{!ProcLaws MM} `{!FsOps FS} `{!FsLaws FS}.
Context (intr_wait : sched -> sched) (irqs : nat).
Context (Hintr : intr_pres intr_wait) (Hkeep : forall s, idle_ok s -> keeps_threads s (intr_wait s)).
Implicit Types (k : kern (MM := MM) (FS := FS)) (F : list Z) (R V O : gmultiset Z) (v : vm (MM := MM)).

(** ** The kernel while the current thread cannot go on *)

(** [kern_ok] without a thread that runs. *)
Record kern_idle F R V O k : Prop := {
  ki_sched : idle_ok (ks k);
  ki_cur : is_Some (threads (ks k) !! curthr (ks k));
  ki_vm : vm_ok (owned (procs k) (threads (ks k)) ++ F) R (kvm k);
  ki_fs : fs_safe (cwds (procs k) ⊎ V) (opens (procs k) ⊎ O) (kfs k);
  ki_fam : fam_ok (procs k) (proc_list k) (proc_initproc k);
  ki_thr : threads_ok (procs k) (kt_plinks k) (threads (ks k));
  ki_spaces : spaces_ok (procs k) (vm_maps (kvm k));
  ki_waits : waits_ok F (procs k) (threads (ks k));
  ki_next : 0 <= next_pid k < PROC_MAX_COUNT
}.

Lemma owned_keeps_in G ps s s' : keeps_in G s s' -> owned ps (threads s') ≡ₚ owned ps (threads s).
Proof.
  intros H. unfold owned. f_equiv. apply gather_ext. intros t. specialize (H t).
  destruct (threads s !! t) as [kt|], (threads s' !! t) as [kt'|]; try done. cbn in *. destruct H as (_ & E & _). unfold thread_owns. by rewrite E.
Qed.
Lemma threads_keeps_in G ps pl s s' : keeps_in G s s' -> threads_ok ps pl (threads s) -> threads_ok ps pl (threads s').
Proof.
  intros H [H1 H2]. split.
  - intros t kt' Hkt'. destruct (keeps_in_bwd _ _ _ _ _ H Hkt') as (kt & Hkt & E1 & E2 & E3 & _).
    destruct (H1 t kt Hkt) as (A & B & x & D & E & G0). unfold thread_of. rewrite E1, E2. split_and!; [done..|]. exists x. split_and!; [done..|]. by rewrite E3.
  - intros p x Hx. destruct (H2 p x Hx) as [?|(t & kt & A & Hkt & D)]; [by left|right].
    destruct (keeps_in_fwd _ _ _ _ _ H Hkt) as (kt' & Hkt' & E1 & _). exists t, kt'. by rewrite E1.
Qed.
Lemma waits_keeps_in F ps s s' : keeps_in F s s' -> waits_ok F ps (threads s) -> waits_ok F ps (threads s').
Proof.
  intros H Hw t kt' a Hkt' Ha. destruct (keeps_in_bwd _ _ _ _ _ H Hkt') as (kt & Hkt & E1 & _ & _ & E4). rewrite E1. destruct (E4 a Ha); [by apply (Hw t kt a Hkt)|by right].
Qed.
Lemma owned_keeps ps s s' : keeps_threads s s' -> owned ps (threads s') ≡ₚ owned ps (threads s).
Proof. intros H. by apply (owned_keeps_in []), keeps_threads_in. Qed.
Lemma threads_keeps ps pl s s' : keeps_threads s s' -> threads_ok ps pl (threads s) -> threads_ok ps pl (threads s').
Proof. intros H. by apply (threads_keeps_in []), keeps_threads_in. Qed.
Lemma waits_keeps F ps s s' : keeps_threads s s' -> waits_ok F ps (threads s) -> waits_ok F ps (threads s').
Proof. intros H. by apply waits_keeps_in, keeps_threads_in. Qed.

(** The scheduler does something that leaves processes and threads alone, except that
    threads may sleep on queues that are not a process's. *)
Lemma kern_set_ks F R V O k s' : kern_ok F R V O k -> sched_ok s' -> keeps_in F (ks k) s' ->
  (exists kt, threads s' !! curthr s' = Some kt /\ curproc s' = kt_proc kt) -> kern_ok F R V O (set_ks s' k).
Proof.
  intros Hk Hs Hks Hc. split; cbn.
  - done.
  - apply (vm_ok_perm (owned (procs k) (threads (ks k)) ++ F)); [by rewrite (owned_keeps_in _ _ _ _ Hks)|apply Hk].
  - apply Hk.
  - apply Hk.
  - eapply threads_keeps_in; [done|apply Hk].
  - apply Hk.
  - eapply waits_keeps_in; [done|apply Hk].
  - done.
  - apply Hk.
Qed.

(** A new thread becomes runnable. *)
Lemma kern_make_runnable F R V O k t kt : kern_ok F R V O k -> threads (ks k) !! t = Some kt -> kt_state kt = KT_NO_STATE -> kt_wchan kt = None ->
  let s' := enq kt_runq t (with_state KT_RUN kt) (ks k) in
  on_sched (sched_make_runnable t) k = Ok tt (set_ks s' k) /\ kern_ok F R V O (set_ks s' k) /\ keeps_threads (ks k) s'.
Proof.
  intros Hk Ht Hn Hw s'. assert (keeps_threads (ks k) s') as Hks by (apply make_runnable_keeps; [done|congruence]).
  assert (t <> curthr (ks k)) as Hc. { intros ->. destruct (so_cur _ (ko_sched _ _ _ _ _ Hk)) as (kc & ? & _ & ?). congruence. }
  split_and!; [by apply on_sched_ok, make_runnable_ok| |done]. apply kern_set_ks; [done| |by apply keeps_threads_in|].
  - destruct (ko_sched _ _ _ _ _ Hk) as [Hidle (kc & Hkc & Hcw & Hcs)]. split.
    + unfold s'. rewrite enq_with_state. apply enq_idle_ok; [cbn; apply lookup_insert_eq|done|done|done|].
      eapply set_thr_idle_ok; [exact Ht|done|done|cbn; congruence|done].
    + exists kc. cbn. by rewrite lookup_insert_ne.
  - destruct (ko_cur _ _ _ _ _ Hk) as (kc & Hkc & Hcp). exists kc. cbn. by rewrite lookup_insert_ne.
Qed.

(** The next thread goes on. *)
Lemma switch_ok F R V O k k' : kern_idle F R V O k -> on_sched (sched_switch intr_wait irqs) k = Ok tt k' ->
  kern_ok F R V O k' /\ exists s', k' = set_ks s' k /\ sched_switch intr_wait irqs (ks k) = Ok tt s' /\ keeps_threads (ks k) s'.
Proof.
  intros Hk. unfold on_sched. destruct (sched_switch intr_wait irqs (ks k)) as [[] s'|] eqn:E; [|done]. intros [= <-].
  destruct (switch_keeps _ _ Hintr Hkeep _ _ E (ki_sched _ _ _ _ _ Hk) (ki_cur _ _ _ _ _ Hk)) as (Hks & Hok & kt & Hkt & Hc).
  split; [|by exists s']. split; cbn.
  - done.
  - apply (vm_ok_perm (owned (procs k) (threads (ks k)) ++ F)); [by rewrite (owned_keeps _ _ _ Hks)|apply Hk].
  - apply Hk.
  - apply Hk.
  - eapply threads_keeps; [done|apply Hk].
  - apply Hk.
  - eapply waits_keeps; [done|apply Hk].
  - by exists kt.
  - apply Hk.
Qed.

(** ** The loops of proc_cleanup *)

Lemma cleanup_children_run ls s v fs ps l np ini pl cx km :
  is_Some (ps !! ini) -> Forall (fun c => c <> ini /\ is_Some (ps !! c)) ls ->
  cleanup_children ls (Kern (MM := MM) (FS := FS) s v fs ps l np ini pl cx km) = Ok tt (Kern s v fs (reparent ini ls ps) l np ini pl cx km).
Proof.
  intros Hi Hl. unfold cleanup_children. induction ls as [|c ls IH] in ps, Hi, Hl |- *; [cbn; by rewrite reparent_nil|].
  apply Forall_cons in Hl as [[Hc [x Hx]] Hl]. destruct Hi as [y Hy]. cbn [mfor]. kgo. unfold insert_child. kgo.
  prc_a Hy. kgo. upd_a Hy.
  rewrite (bind_ok _ _ _ _ _ (upd_at c _ x _ _ _ _ _ _ _ _ _ _ ltac:(by rewrite lookup_insert_ne))), (bind_ok _ _ _ _ _ (upd_here _ _ _ _ _ _ _ _ _ _ _ _ _)).
  rewrite IH.
  - by rewrite <- (reparent_cons ini c ls ps x y).
  - rewrite lookup_insert_ne, lookup_insert_eq by done. eauto.
  - eapply Forall_impl; [exact Hl|]. intros d [Hd [z Hz]]. split; [done|]. rewrite !lookup_insert. repeat case_decide; eauto.
Qed.

Definition nulls (n : nat) : list Z := replicate n NULL.

Lemma cleanup_files_run p (n : nat) files y fs V O s v ps l np ini pl cx km :
  fs_safe V (list_to_set_disj (nonnull files) ⊎ O) fs -> p_files y = nulls n ++ files ->
  exists fs', mfor (seq n (length files)) (fun i =>
      x ← prc p;
      match p_files x !! i with
      | None => stop BadIndex
      | Some f => when (c_true f) (on_fs (fput f));; upd_prc p (fun x => pset_files (<[i := NULL]> (p_files x)) x)
      end) (Kern (MM := MM) (FS := FS) s v fs (<[p := y]> ps) l np ini pl cx km) =
    Ok tt (Kern s v fs' (<[p := pset_files (nulls (n + length files)) y]> ps) l np ini pl cx km) /\ fs_safe V O fs'.
Proof.
  induction files as [|f files IH] in n, y, fs |- *; intros Hs Hy.
  { exists fs. unfold nonnull in Hs. rewrite filter_nil, list_to_set_disj_nil, (left_id_L ∅ (⊎)) in Hs. split; [|done]. cbn [length seq mfor]. rewrite Nat.add_0_r. rewrite app_nil_r in Hy. rewrite <- Hy. by destruct y. }
  cbn [length seq mfor]. rewrite bind_assoc. prc_p.
  assert (p_files y !! n = Some f) as Hn. { rewrite Hy, lookup_app_r; unfold nulls; rewrite length_replicate; [|lia]. by rewrite Nat.sub_diag. }
  rewrite Hn, bind_assoc.
  assert (exists fs1, (when (c_true f) (on_fs (fput f))) (Kern (MM := MM) (FS := FS) s v fs (<[p := y]> ps) l np ini pl cx km) =
      Ok tt (Kern s v fs1 (<[p := y]> ps) l np ini pl cx km) /\ fs_safe V (list_to_set_disj (nonnull files) ⊎ O) fs1) as (fs1 & E1 & Hs1).
  { unfold nonnull in Hs. rewrite filter_cons in Hs. unfold c_true. destruct (Z.eqb_spec f 0) as [->|Hf]; case_decide as Hd; try done; cbn [negb when].
    - by exists fs.
    - rewrite list_to_set_disj_cons, (comm_L (⊎) {[+ f +]}), <- (assoc_L (⊎)), (comm_L (⊎) {[+ f +]}), (assoc_L (⊎)) in Hs.
      destruct (fs_fput _ _ _ _ Hs) as (fs1 & E & Hs1 & _). exists fs1. split; [by apply on_fs_run|done]. }
  rewrite (bind_ok _ _ _ _ _ E1), (bind_ok _ _ _ _ _ (upd_here _ _ _ _ _ _ _ _ _ _ _ _ _)).
  destruct (IH (S n) (pset_files (<[n := NULL]> (p_files y)) y) fs1 Hs1) as (fs' & E & Hs').
  { cbn [p_files pset_files]. rewrite Hy. unfold nulls. rewrite insert_app_r_alt by (rewrite length_replicate; lia). rewrite length_replicate, Nat.sub_diag.
    rewrite replicate_S_end, <- (assoc_L (++)). done. }
  exists fs'. split; [|done]. rewrite E. by replace (n + S (length files))%nat with (S n + length files)%nat by lia.
Qed.

Lemma cleanup_cwd p y fs V O s v ps l np ini pl cx km (x := p_cwd y) :
  fs_safe (list_to_set_disj (nonnull [x]) ⊎ V) O fs ->
  exists fs', (when (c_true x) (on_fs (vput x))) (Kern (MM := MM) (FS := FS) s v fs (<[p := y]> ps) l np ini pl cx km) =
    Ok tt (Kern s v fs' (<[p := y]> ps) l np ini pl cx km) /\ fs_safe V O fs'.
Proof.
  intros Hs. unfold nonnull in Hs. rewrite filter_cons in Hs. unfold c_true. destruct (Z.eqb_spec x 0) as [E|Hx]; case_decide as Hd; try done; cbn [negb when].
  - exists fs. rewrite filter_nil, list_to_set_disj_nil, (left_id_L ∅ (⊎)) in Hs. done.
  - rewrite filter_nil, list_to_set_disj_cons, list_to_set_disj_nil, (right_id_L ∅ (⊎)), (comm_L (⊎)) in Hs.
    destruct (fs_vput _ _ _ _ Hs) as (fs' & E & Hs' & _). exists fs'. split; [by apply on_fs_run|done].
Qed.

(** ** Waking the parent *)

(** The thread that has slept longest on [q], if any, is runnable now. *)
Record woken_one (q : qid) (s s' : sched) : Prop := {
  wo_idle : idle_ok s';
  wo_keeps : keeps_threads s s';
  wo_cur : curthr s' = curthr s /\ curproc s' = curproc s;
  wo_fifo : match fifo s q with
            | [] => s' = s
            | t :: rest => fifo s' q = rest /\ fifo s' kt_runq = fifo s kt_runq ++ [t]
            end;
  wo_others : forall t kt, threads s !! t = Some kt -> kt_wchan kt <> Some q -> threads s' !! t = Some kt
}.

Lemma wake_parent a s v fs ps l np ini pl cx km : idle_ok s ->
  exists s', (forall B (K : M (kern (MM := MM) (FS := FS)) B), (empty ← gets (fun k => sched_queue_empty (waitq a) (ks k));
      when (negb empty) (on_sched (sched_wakeup_on (waitq a));; mret tt);; K) (Kern s v fs ps l np ini pl cx km) =
    K (Kern s' v fs ps l np ini pl cx km)) /\ woken_one (waitq a) s s'.
Proof.
  intros Hs. unfold sched_queue_empty. cbn [ks].
  destruct (tq_list (queues s (waitq a))) as [|t q _] eqn:El using rev_ind.
  { exists s. split; [intros B K; rewrite gets_bind; cbn [ks]; by rewrite El|]. split; [done|reflexivity|done|unfold fifo; by rewrite El|done]. }
  destruct (wakeup_on_ok (waitq a) s q t Hs) as (kt & Hkt & Hw & Hn & E); [done|done|].
  exists (wake (waitq a) t kt s). split.
  { intros B K. rewrite gets_bind. cbn [ks]. rewrite El.
    replace (match q ++ [t] with [] => true | _ :: _ => false end) with false by (by destruct q). cbn [negb when]. rewrite bind_assoc. by sched_go E. }
  pose proof (io_state _ Hs _ _ _ Hkt Hw) as Hst.
  split; [by apply wake_idle_ok|apply wake_keeps; [done|by destruct Hst as [-> | ->]]|done| |].
  - unfold fifo. rewrite El, reverse_snoc, !wake_list by done. rewrite decide_False, !decide_True by done. rewrite El.
    split; [|by rewrite reverse_cons]. f_equal. apply filter_ne_snoc. rewrite <- El. apply (io_queue _ Hs).
  - intros u ku Hu Hne. unfold wake, enq, deq. cbn. rewrite !lookup_insert_ne; [done|..]; intros ->; congruence.
Qed.

Definition exited (status : Z) (kt : kthread) : kthread := with_state KT_EXITED (with_retval status kt).

Lemma threads_exit ps pl ths cur t x kt status init ls :
  threads_ok ps pl ths -> ps !! cur = Some x -> p_threads x = [t] -> ths !! t = Some kt -> kt_proc kt = cur ->
  threads_ok (<[cur := dead status x]> (reparent init ls ps)) pl (<[t := exited status kt]> ths).
Proof.
  intros [H1 H2] Hx Ht Hkt Hp. split.
  - intros u ku. rewrite lookup_insert. case_decide as E.
    + intros [= <-]. subst u. destruct (H1 t kt Hkt) as (A & B & z & D & E & G). split_and!; [done..|]. exists (dead status x).
      cbn [kt_proc exited with_state with_retval]. rewrite Hp, lookup_insert_eq. by split_and!.
    + intros Hu. destruct (H1 u ku Hu) as (A & B & z & D & G & K). split_and!; [done..|].
      assert (kt_proc ku <> cur) as Hn by (intros E'; rewrite E', Hx in D; simplify_eq; congruence).
      rewrite lookup_insert_ne by done. exists (reparented init ls (kt_proc ku) z). split; [apply reparent_Some; eauto|].
      destruct (reparented_same init ls (kt_proc ku) z) as (_ & -> & _ & -> & _). done.
  - intros q z'. rewrite lookup_insert. case_decide as E.
    + intros [= <-]. subst q. right. exists t, (exited status kt). by rewrite lookup_insert_eq.
    + intros (z & Hz & ->)%reparent_Some. unfold proc_thread. destruct (reparented_same init ls q z) as (_ & -> & _ & -> & _).
      destruct (H2 q z Hz) as [?|(u & ku & A & B & D)]; [by left|right]. exists u, ku. rewrite lookup_insert_ne; [done|]. intros <-. congruence.
Qed.

Lemma spaces_exit ps maps cur x status init ls : spaces_ok ps maps -> ps !! cur = Some x -> p_state x = PROC_RUNNING ->
  spaces_ok (<[cur := dead status x]> (reparent init ls ps)) (delete (p_vmmap x) maps).
Proof.
  intros [H1 H2] Hx Hr.
  assert (forall q z', <[cur := dead status x]> (reparent init ls ps) !! q = Some z' -> p_state z' = PROC_RUNNING ->
    q <> cur /\ exists z, ps !! q = Some z /\ p_state z = PROC_RUNNING /\ p_vmmap z' = p_vmmap z) as Hinv.
  { intros q z'. rewrite lookup_insert. case_decide as E; [by intros [= <-]|]. intros (z & Hz & ->)%reparent_Some.
    destruct (reparented_same init ls q z) as (_ & _ & _ & -> & _ & _ & _ & ->). intros Hs. split; [done|]. by exists z. }
  split.
  - intros q z' Hz Hs. destruct (Hinv q z' Hz Hs) as (Hn & z & Hz0 & Hs0 & ->). rewrite lookup_delete_ne; [by eapply H1|].
    intros E. apply Hn. symmetry. by eapply (H2 cur q x z).
  - intros a b z1 z2 Ha Hb R1 R2 E. destruct (Hinv _ _ Ha R1) as (_ & y1 & Hy1 & S1 & T1), (Hinv _ _ Hb R2) as (_ & y2 & Hy2 & S2 & T2).
    eapply H2; [exact Hy1|exact Hy2|done|done|congruence].
Qed.

(** Everything the process referred to is let go. *)
Lemma gather_reparent (f : Z -> proc -> list Z) init ls ps :
  (forall q z, f q (reparented init ls q z) = f q z) -> gather f (reparent init ls ps) ≡ₚ gather f ps.
Proof. intros Hf. apply gather_ext. intros q. rewrite reparent_lookup. destruct (ps !! q); cbn; [by rewrite Hf|done]. Qed.
Lemma gather_exit (f : Z -> proc -> list Z) ps cur x status init ls :
  (forall q z, f q (reparented init ls q z) = f q z) -> f cur (dead status x) = [] -> ps !! cur = Some x ->
  gather f ps ≡ₚ f cur x ++ gather f (<[cur := dead status x]> (reparent init ls ps)).
Proof.
  intros Hf Hd Hx. rewrite <- (gather_reparent f init ls ps) by done.
  assert (reparent init ls ps !! cur = Some (reparented init ls cur x)) as Hc by (apply reparent_Some; eauto).
  rewrite (gather_delete _ _ _ _ Hc), Hf. f_equiv. rewrite <- insert_delete_eq, gather_insert, Hd by apply lookup_delete_eq. done.
Qed.
Lemma cwds_exit ps cur x status init ls : ps !! cur = Some x -> p_state x = PROC_RUNNING ->
  cwds ps = list_to_set_disj (nonnull [p_cwd x]) ⊎ cwds (<[cur := dead status x]> (reparent init ls ps)).
Proof.
  intros Hx Hr. pose proof (gather_exit cwd_ref ps cur x status init ls) as E.
  specialize (E ltac:(intros q z; unfold cwd_ref; destruct (reparented_same init ls q z) as (_ & _ & _ & -> & _ & _ & -> & _); done) eq_refl Hx).
  unfold cwds. rewrite (list_to_set_disj_perm _ _ E), list_to_set_disj_app. unfold cwd_ref at 1. by rewrite bool_decide_eq_true_2.
Qed.
Lemma opens_exit ps cur x status init ls : ps !! cur = Some x -> p_state x = PROC_RUNNING ->
  opens ps = list_to_set_disj (nonnull (p_files x)) ⊎ opens (<[cur := dead status x]> (reparent init ls ps)).
Proof.
  intros Hx Hr. pose proof (gather_exit file_refs ps cur x status init ls) as E.
  specialize (E ltac:(intros q z; unfold file_refs; destruct (reparented_same init ls q z) as (_ & _ & _ & -> & _ & -> & _); done) eq_refl Hx).
  unfold opens. rewrite (list_to_set_disj_perm _ _ E), list_to_set_disj_app. unfold file_refs at 1. by rewrite bool_decide_eq_true_2.
Qed.
Lemma owned_exit ps ths cur x status init ls : ps !! cur = Some x ->
  owned (<[cur := dead status x]> (reparent init ls ps)) ths ≡ₚ owned ps ths.
Proof.
  intros Hx. unfold owned. f_equiv. rewrite <- (gather_reparent proc_owns init ls ps).
  2: { intros q z. unfold proc_owns. by destruct (reparented_same init ls q z) as (_ & _ & _ & _ & -> & _). }
  assert (reparent init ls ps !! cur = Some (reparented init ls cur x)) as Hc by (apply reparent_Some; eauto).
  apply (gather_update _ _ _ _ _ Hc). unfold proc_owns. by destruct (reparented_same init ls cur x) as (_ & _ & _ & _ & -> & _).
Qed.

(** [k1] is [k] when process [cur] has exited, just before the scheduler runs. *)
Record exits (status : Z) k (x : proc) k1 : Prop := {
  ex_procs : procs k1 = exited_procs (procs k) (proc_initproc k) (curproc (ks k)) status x;
  ex_list : proc_list k1 = proc_list k /\ proc_initproc k1 = proc_initproc k;
  ex_maps : vm_maps (kvm k1) = delete (p_vmmap x) (vm_maps (kvm k));
  ex_thread : exists kt, threads (ks k) !! curthr (ks k) = Some kt /\ threads (ks k1) !! curthr (ks k) = Some (exited status kt);
  ex_parent : exists kt, threads (ks k) !! curthr (ks k) = Some kt /\
    woken_one (waitq (p_pproc x)) (set_thr (curthr (ks k)) (exited status kt) (ks k)) (ks k1)
}.

(** The code of do_exit, step by step: the thread is marked, the parent woken, the
    children given to init, files, directory and address space given back. *)
Lemma exit_code_run status s s2 v v' fs fs1 fs2 ps l np ini pl cx km x kt :
  let s1 := set_thr (curthr s) (exited status kt) s in let rp := reparent ini (p_children x) ps in
  let x1 := pset_state PROC_DEAD (pset_status status x) in let x2 := pset_files (nulls (Z.to_nat NFILES)) x1 in
  threads s !! curthr s = Some kt -> kt_wchan kt = None -> kt_qlink kt = None -> kt_proc kt = curproc s -> ps !! curproc s = Some x -> 1 <= p_pid x -> ini <> NULL -> p_pproc x <> NULL -> is_Some (ps !! ini) ->
  Forall (fun c => c <> ini /\ is_Some (ps !! c)) (p_children x) -> rp !! curproc s = Some x ->
  (forall B (K : M (kern (MM := MM) (FS := FS)) B), (empty ← gets (fun k => sched_queue_empty (waitq (p_pproc x)) (ks k));
     when (negb empty) (on_sched (sched_wakeup_on (waitq (p_pproc x)));; mret tt);; K) (Kern s1 v fs ps l np ini pl cx km) = K (Kern s2 v fs ps l np ini pl cx km)) ->
  cleanup_files (curproc s) NFILES (Kern s2 v fs (<[curproc s := x1]> rp) l np ini pl cx km) = Ok tt (Kern s2 v fs1 (<[curproc s := x2]> rp) l np ini pl cx km) ->
  when (c_true (p_cwd x)) (on_fs (vput (p_cwd x))) (Kern s2 v fs1 (<[curproc s := x2]> rp) l np ini pl cx km) = Ok tt (Kern s2 v fs2 (<[curproc s := x2]> rp) l np ini pl cx km) ->
  vmmap_destroy (p_vmmap x) v = Ok tt v' -> threads s2 !! curthr s = Some (exited status kt) ->
  do_exit intr_wait irqs status (Kern s v fs ps l np ini pl cx km) =
    on_sched (sched_switch intr_wait irqs) (Kern s2 v' fs2 (exited_procs ps ini (curproc s) status x) l np ini pl cx km).
Proof.
  intros s1 rp x1 x2 Hkt Hw Hql Hkp Hx Hpid Hini Hpn Hyi cleanup_ready Hxr Ew Ef Ec Ev Hex.
  unfold do_exit, kthread_exit, get_curthr. rewrite gets_bind. cbn [ks].
  sched_go (upd_thr_ok (curthr s) (with_retval status) kt s Hkt). sched_go (upd_thr_here (curthr s) (with_state KT_EXITED) (with_retval status kt) s).
  sched_go (thr_here (curthr s) (exited status kt) s). rewrite kassert_bind by (by apply bool_decide_eq_true_2).
  rewrite kassert_bind by (by apply bool_decide_eq_true_2). unfold get_curproc. rewrite gets_bind. cbn [ks curproc set_thr].
  rewrite kassert_bind by (apply Z.eqb_eq; exact Hkp). fold s1. unfold proc_thread_exited.
  erewrite bind_ok; [reflexivity|]. unfold proc_cleanup. rewrite get_bind. cbn [proc_initproc].
  rewrite kassert_bind by (apply negb_true_iff, Z.eqb_neq; congruence). unfold get_curproc. rewrite gets_bind. cbn [ks].
  change (curproc s1) with (curproc s). prc_a Hx. rewrite kassert_bind by (apply Z.leb_le; lia).
  rewrite kassert_bind by (apply negb_true_iff, Z.eqb_neq; congruence). unfold get_curthr. rewrite gets_bind. cbn [ks].
  change (curthr s1) with (curthr s). sched_go (thr_here (curthr s) (exited status kt) s). fold s1.
  cbn [kt_proc exited with_state with_retval]. rewrite Hkp. prc_a Hx. rewrite Ew.
  rewrite (bind_ok _ _ _ _ _ (cleanup_children_run _ s2 v fs ps l np ini pl cx km Hyi cleanup_ready)). fold rp. upd_a Hxr. upd_p. fold x1.
  rewrite (bind_ok _ _ _ _ _ Ef). prc_p. cbn [p_cwd p_vmmap x2 x1 pset_files pset_state pset_status].
  rewrite (bind_ok _ _ _ _ _ Ec). vm_go Ev. prc_p. rewrite kassert_bind by (apply negb_true_iff, Z.eqb_neq; cbn; congruence).
  sched_go (thr_ok _ _ _ Hex). done.
Qed.

Lemma exit_runs F R V O k status x :
  kern_ok F R V O k -> procs k !! curproc (ks k) = Some x -> p_pid x <> PID_IDLE -> p_pid x <> PID_INIT -> proc_initproc k <> NULL ->
  exists k1, do_exit intr_wait irqs status k = on_sched (sched_switch intr_wait irqs) k1 /\ kern_idle F R V O k1 /\ exits status k x k1.
Proof.
  intros Hk Hx Hid Hin Hini. pose proof (ko_fam _ _ _ _ _ Hk) as Hf.
  destruct (cur_running _ _ _ _ _ Hk) as (x' & kt & Hx' & Hr & Hth & Hkt & Hkp & Hw & Hst). rewrite Hx in Hx'. injection Hx' as <-.
  pose proof (fo_pid_range _ _ _ Hf _ _ Hx) as Hpid. rewrite pid_idle in Hid.
  destruct (fo_parent _ _ _ Hf _ _ Hx ltac:(by rewrite pid_idle)) as (_ & Hself & px & Hpx & _).
  assert (p_pproc x <> NULL) as Hpn by (intros E; rewrite E in Hpx; by rewrite (fo_null _ _ _ Hf) in Hpx).
  destruct (fo_init _ _ _ Hf) as [?|(yi & _ & Hyi & _)]; [done|].
  assert (p_pid x <> PID_IDLE) as Hid' by (by rewrite pid_idle).
  pose proof (cur_not_init _ _ _ _ _ Hf Hx Hin Hini) as Hci. pose proof (cur_not_child _ _ _ _ _ Hf Hx Hr Hid') as Hcc.
  destruct (proj1 (ko_spaces _ _ _ _ _ Hk) _ _ Hx Hr) as [w Hm].
  pose proof (io_queue _ (so_idle _ (ko_sched _ _ _ _ _ Hk))) as Hq.
  pose proof (qo_link _ Hq _ _ Hkt) as Hql. rewrite Hw in Hql.
  set (s1 := set_thr (curthr (ks k)) (exited status kt) (ks k)).
  assert (idle_ok s1) as Hi1. { eapply set_thr_idle_ok; [exact Hkt|done|done|cbn; congruence|apply Hk]. }
  destruct (destroy_ok _ _ _ _ _ (ko_vm _ _ _ _ _ Hk) Hm) as (v' & Ev & Hv' & Em).
  pose proof (ko_fs _ _ _ _ _ Hk) as Hfs.
  rewrite (cwds_exit _ _ x status (proc_initproc k) (p_children x) Hx Hr), (opens_exit _ _ x status (proc_initproc k) (p_children x) Hx Hr), <- !(assoc_L (⊎)) in Hfs.
  pose proof (fo_files _ _ _ Hf _ _ Hx) as Hlen. cbn beta in Hlen.
  set (ps1 := exited_procs (procs k) (proc_initproc k) (curproc (ks k)) status x).
  assert (fam_ok ps1 (proc_list k) (proc_initproc k)) as Hf1 by (by apply fam_exit).
  assert (threads_ok ps1 (kt_plinks k) (threads s1)) as Ht1 by (apply threads_exit; try done; apply Hk).
  assert (spaces_ok ps1 (delete (p_vmmap x) (vm_maps (kvm k)))) as Hs1 by (apply spaces_exit; try done; apply Hk).
  assert (waits_ok F ps1 (threads s1)) as Hw1.
  { intros u ku a. cbn. rewrite lookup_insert. case_decide; [intros [= <-]; cbn; congruence|]. intros Hu Ha.
    destruct (ko_waits _ _ _ _ _ Hk u ku a Hu Ha) as [[? Hps]|?]; [left|by right]. split; [done|].
    apply (fo_list _ _ _ Hf1). by apply (fo_list _ _ _ Hf). }
  assert (owned ps1 (threads s1) ≡ₚ owned (procs k) (threads (ks k))) as Ho1.
  { unfold ps1, exited_procs. rewrite owned_exit by done. unfold owned. f_equiv. by apply (gather_update _ _ _ kt). }
  assert (cleanup_ready : Forall (fun c => c <> proc_initproc k /\ is_Some (procs k !! c)) (p_children x)).
  { apply Forall_forall. intros c Hc. split; [by apply (child_not_init (procs k) (proc_list k) _ (curproc (ks k)) x)|].
    destruct (child_is _ _ _ _ _ Hf Hx Hr c Hc) as (z & ? & _). eauto. }
  assert (reparent (proc_initproc k) (p_children x) (procs k) !! curproc (ks k) = Some x) as Hxr.
  { apply reparent_Some. exists x. split; [done|]. unfold reparented. by rewrite !decide_False. }
  destruct k as [s v fs ps l np ini pl cx km]. cbn [ks kvm kfs procs proc_list next_pid proc_initproc kt_plinks kt_ctxs kstack_mem] in *.
  destruct (wake_parent (p_pproc x) s1 v fs ps l np ini pl cx km Hi1) as (s2 & Ew & Hwo).
  set (x1 := pset_state PROC_DEAD (pset_status status x)). set (rp := reparent ini (p_children x) ps) in *.
  destruct (cleanup_files_run (curproc s) 0 (p_files x) x1 fs _ _ s2 v rp l np ini pl cx km Hfs eq_refl) as (fs1 & Ef & Hfs1).
  rewrite Hlen in Ef. cbn [Nat.add] in Ef.
  set (x2 := pset_files (nulls (Z.to_nat NFILES)) x1) in *.
  destruct (cleanup_cwd (curproc s) x2 fs1 _ _ s2 v rp l np ini pl cx km Hfs1) as (fs2 & Ec & Hfs2). cbn [p_cwd x2 x1 pset_files pset_state pset_status] in Ec.
  assert (threads s2 !! curthr s = Some (exited status kt)) as Hex.
  { apply (wo_others _ _ _ Hwo); [apply lookup_insert_eq|cbn; congruence]. }
  exists (Kern s2 v' fs2 ps1 l np ini pl cx km). split_and!.
  - eapply exit_code_run; [exact Hkt|exact Hw|exact Hql|exact Hkp|exact Hx|lia|done|done|by exists yi|exact cleanup_ready|exact Hxr|exact Ew|exact Ef|exact Ec|exact Ev|exact Hex].
  - split; cbn [ks kvm kfs procs proc_list next_pid proc_initproc kt_plinks].
    + apply Hwo.
    + rewrite (proj1 (wo_cur _ _ _ Hwo)). change (curthr s1) with (curthr s). rewrite Hex. eauto.
    + eapply vm_ok_perm; [|exact Hv']. by rewrite (owned_keeps _ _ _ (wo_keeps _ _ _ Hwo)), Ho1.
    + exact Hfs2.
    + done.
    + eapply threads_keeps; [apply Hwo|done].
    + by rewrite Em.
    + eapply waits_keeps; [apply Hwo|done].
    + apply Hk.
  - split; cbn [ks kvm procs proc_list proc_initproc]; [done|done|done| |]; exists kt; done.
Qed.

(** C16. exit of any process but idle and init always gets as far as the switch to
    the next thread: the process is dead with its status, its files, working
    directory and address space are given back, its children belong to init, its
    thread has exited and exactly the first thread that waits for a child of the
    parent is woken; whenever the switch finds a thread the kernel is consistent. *)
Theorem do_exit_cleans F R V O k status x :
  kern_ok F R V O k -> procs k !! curproc (ks k) = Some x -> p_pid x <> PID_IDLE -> p_pid x <> PID_INIT -> proc_initproc k <> NULL ->
  exists k1, do_exit intr_wait irqs status k = on_sched (sched_switch intr_wait irqs) k1 /\ exits status k x k1 /\
    forall k', do_exit intr_wait irqs status k = Ok tt k' -> kern_ok F R V O k' /\ exists s', k' = set_ks s' k1.
Proof.
  intros Hk Hx H1 H2 H3. destruct (exit_runs _ _ _ _ _ status x Hk Hx H1 H2 H3) as (k1 & E & Hi & He). exists k1. split_and!; [done|done|].
  intros k' E'. rewrite E in E'. destruct (switch_ok _ _ _ _ _ _ Hi E') as (Hk' & s' & -> & _). eauto.
Qed.
End Exit.
