(* ===== verification/ProcReap.v ===== *)
(** Reaping a dead child: the ends of [do_waitpid], with [kthread_destroy]. *)
From S2P Require Import Prelude.
From S2P Require Import Platform.
From S2P Require Import Sched.
From S2P Require Import SchedInv.
From S2P Require Import ProcSched.
From S2P Require Import MmIface.
From S2P Require Import Vmmap.
From S2P Require Import Areas.
From S2P Require Import VmmapFacts.
From S2P Require Import VmmapThms.
From S2P Require Import Proc.
From S2P Require Import ProcInv.
From S2P Require Import ProcIds.
From S2P Require Import ProcCreate.
From S2P Require Import ProcThread.
Open Scope Z_scope.

(** Without [c]. *)
Definition without (c : Z) (l : list Z) : list Z := filter (fun x => x <> c) l.
Lemma elem_of_without c x l : x ∈ without c l <-> x <> c /\ x ∈ l.
Proof. unfold without. by rewrite list_elem_of_filter. Qed.

Section Fam.
Context `{P : Platform} `{!PlatformOk P} {C : ProcConst} `{!ProcConstOk C}.
Context (ps : gmap Z proc) (l : list Z) (init cur c : Z) (x y : proc).
Hypotheses (Hf : fam_ok ps l init) (Hx : ps !! c = Some x) (Hy : ps !! cur = Some y) (Hdead : p_state x = PROC_DEAD)
  (Hrun : p_state y = PROC_RUNNING) (Hc : c ∈ p_children y).

Definition reaped : gmap Z proc := delete c (<[cur := pset_children (without c (p_children y)) y]> ps).

Lemma reap_ne : c <> cur.
Proof. congruence. Qed.
Lemma reaped_inv q z : reaped !! q = Some z ->
  q <> c /\ (q = cur /\ z = pset_children (without c (p_children y)) y \/ q <> cur /\ ps !! q = Some z).
Proof.
  unfold reaped. intros [Hn Hq]%lookup_delete_Some. apply lookup_insert_Some in Hq as [[-> <-]|[Hn' Hq]]; (split; [done|]); [by left|by right].
Qed.
Lemma reaped_old q z : q <> c -> ps !! q = Some z -> exists ls, reaped !! q = Some (pset_children ls z) /\ (forall d, d ∈ ls <-> d ∈ p_children z /\ (q = cur -> d <> c)).
Proof.
  intros Hn Hz. unfold reaped. rewrite lookup_delete_ne by done. destruct (decide (q = cur)) as [->|Hq].
  - rewrite lookup_insert_eq. simplify_eq. exists (without c (p_children y)). split; [done|]. intros d. rewrite elem_of_without. naive_solver.
  - rewrite lookup_insert_ne by done. exists (p_children z). rewrite Hz. split; [by destruct z|]. naive_solver.
Qed.
Lemma reaped_parent : p_pproc x = cur.
Proof. destruct (fo_children _ _ _ Hf _ _ Hy Hrun) as [_ H]. destruct (H c Hc) as (z & ? & ?). congruence. Qed.

Lemma reaped_Forall (Q : Z -> proc -> Prop) : (forall q z ls, Q q z -> Q q (pset_children ls z)) -> map_Forall Q ps -> map_Forall Q reaped.
Proof. intros HQ H q z (_ & [[-> ->]|[_ Hz]])%reaped_inv; [by apply HQ, H|by apply H]. Qed.

Lemma fam_reap : fam_ok reaped (without c l) init.
Proof.
  pose proof reap_ne as Hne.
  assert (forall q z, reaped !! q = Some z -> q <> c /\ exists w ls, ps !! q = Some w /\ z = pset_children ls w) as Hback.
  { intros q z (Hn & [[-> ->]|[_ Hz]])%reaped_inv; (split; [done|]); [by exists y, (without c (p_children y))|exists z, (p_children z); by destruct z]. }
  split.
  - apply NoDup_filter, Hf.
  - intros q. rewrite elem_of_without, (fo_list _ _ _ Hf). split.
    + intros [Hn [z Hz]]. destruct (reaped_old q z Hn Hz) as (ls & -> & _). eauto.
    + intros [z Hz]. apply Hback in Hz as (Hn & w & ls & Hw & _). eauto.
  - apply eq_None_not_Some. intros [z Hz]. apply Hback in Hz as (_ & w & ls & Hw & _). by rewrite (fo_null _ _ _ Hf) in Hw.
  - intros a b z1 z2 Ha Hb E. apply Hback in Ha as (_ & w1 & l1 & Hw1 & ->), Hb as (_ & w2 & l2 & Hw2 & ->). by eapply (fo_pid_inj _ _ _ Hf).
  - apply reaped_Forall; [done|apply Hf].
  - intros q z Hz Hi. apply Hback in Hz as (Hn & w & ls & Hw & ->). destruct (fo_parent _ _ _ Hf q w Hw Hi) as (L & Hs & u & Hu & Hur & Hin).
    split; [done|]. split; [done|]. cbn. assert (p_pproc w <> c) as Hpc by (intros E; rewrite E in Hu; congruence).
    destruct (reaped_old _ _ Hpc Hu) as (ls' & Hl' & Hmem). exists (pset_children ls' u). split_and!; [done|done|]. cbn. rewrite Hmem. naive_solver.
  - intros q z Hz Hi. apply Hback in Hz as (_ & w & ls & Hw & ->). exact (fo_idle _ _ _ Hf q w Hw Hi).
  - destruct (fo_has_idle _ _ _ Hf) as (q & z & Hz & E). assert (q <> c) as Hn.
    { intros ->. destruct (fo_idle _ _ _ Hf _ _ Hz E) as [_ ?]. congruence. }
    destruct (reaped_old _ _ Hn Hz) as (ls & Hl & _). by eexists _, _.
  - intros q z Hz Hr. apply reaped_inv in Hz as (Hn & [[-> ->]|[Hq Hz]]).
    + destruct (fo_children _ _ _ Hf _ _ Hy Hrun) as [Hnd Hch]. split; [by apply NoDup_filter|]. cbn. intros d [Hd Hin]%elem_of_without.
      destruct (Hch d Hin) as (w & Hw & E). destruct (reaped_old _ _ Hd Hw) as (ls & Hl & _). by eexists.
    + destruct (fo_children _ _ _ Hf _ _ Hz Hr) as [Hnd Hch]. split; [done|]. intros d Hin. destruct (Hch d Hin) as (w & Hw & E).
      assert (d <> c) as Hd by (intros ->; pose proof reaped_parent; congruence). destruct (reaped_old _ _ Hd Hw) as (ls & Hl & _). by eexists.
  - destruct (fo_init _ _ _ Hf) as [?|(z & w & Hz & E1 & E2 & Hw & E3)]; [by left|right].
    assert (init <> c) as Hn by congruence. assert (p_pproc z <> c) as Hn'.
    { intros E. rewrite E in Hw. destruct (fo_idle _ _ _ Hf _ _ Hw E3) as [_ ?]. congruence. }
    destruct (reaped_old _ _ Hn Hz) as (ls & Hl & _), (reaped_old _ _ Hn' Hw) as (ls' & Hl' & _). by eexists _, _.
  - apply reaped_Forall; [done|apply Hf].
  - apply reaped_Forall; [done|apply Hf].
Qed.

Lemma threads_reap pl ths t : threads_ok ps pl ths -> p_threads x = [t] -> threads_ok reaped (delete t pl) (delete t ths).
Proof.
  intros [H1 H2] Ht. split.
  - intros u ku [Hn Hu]%lookup_delete_Some. destruct (H1 u ku Hu) as (A & B & z & D & E & G). split_and!; [by rewrite lookup_delete_ne|done|].
    assert (kt_proc ku <> c) as Hnc by (intros E'; rewrite E', Hx in D; congruence).
    destruct (reaped_old _ _ Hnc D) as (ls & Hl & _). by exists (pset_children ls z).
  - intros q z Hz. apply reaped_inv in Hz as (Hn & Hz). assert (exists w, ps !! q = Some w /\ p_threads z = p_threads w /\ p_state z = p_state w) as (w & Hw & E1 & E2).
    { destruct Hz as [[-> ->]|[_ Hz]]; [by exists y|by exists z]. }
    unfold proc_thread. rewrite E1, E2. destruct (H2 q w Hw) as [?|(u & ku & A & B & D)]; [by left|right]. exists u, ku. split_and!; [done| |done].
    rewrite lookup_delete_ne; [done|]. intros <-. destruct (H1 t ku B) as (_ & _ & w' & Hw' & _).
    destruct (H2 c x Hx) as [[E _]|(u' & ku' & A' & B' & D')]; [congruence|]. rewrite Ht in A'. injection A' as <-. congruence.
Qed.

Lemma spaces_reap maps : spaces_ok ps maps -> spaces_ok reaped maps.
Proof.
  intros [H1 H2]. assert (forall q z, reaped !! q = Some z -> exists w, ps !! q = Some w /\ p_state z = p_state w /\ p_vmmap z = p_vmmap w) as Hb.
  { intros q z (_ & [[-> ->]|[_ Hz]])%reaped_inv; [by exists y|by exists z]. }
  split.
  - intros q z Hz Hr. destruct (Hb q z Hz) as (w & Hw & E1 & E2). rewrite E2. eapply H1; [done|congruence].
  - intros a b z1 z2 Ha Hb' R1 R2 E. destruct (Hb _ _ Ha) as (w1 & Hw1 & S1 & T1), (Hb _ _ Hb') as (w2 & Hw2 & S2 & T2).
    eapply H2; [exact Hw1|exact Hw2|congruence..].
Qed.

Lemma gather_reap f : (forall q z ls, f q (pset_children ls z) = f q z) -> gather f ps ≡ₚ f c x ++ gather f reaped.
Proof.
  intros E. rewrite <- (gather_update f ps cur y (pset_children (without c (p_children y)) y)) by (done || by rewrite E).
  unfold reaped. apply gather_delete. pose proof reap_ne. by rewrite lookup_insert_ne.
Qed.
Lemma cwds_reap : cwds reaped = cwds ps.
Proof.
  pose proof (gather_reap cwd_ref (fun _ _ _ => eq_refl)) as E. unfold cwds. rewrite (list_to_set_disj_perm _ _ E).
  unfold cwd_ref at 2. by rewrite bool_decide_eq_false_2 by congruence.
Qed.
Lemma opens_reap : opens reaped = opens ps.
Proof.
  pose proof (gather_reap file_refs (fun _ _ _ => eq_refl)) as E. unfold opens. rewrite (list_to_set_disj_perm _ _ E).
  unfold file_refs at 2. by rewrite bool_decide_eq_false_2 by congruence.
Qed.
End Fam.

(** A thread that is on no queue and not current can go. *)
Lemma forget_thread_ok t kt s : sched_ok s -> threads s !! t = Some kt -> kt_state kt = KT_EXITED -> sched_ok (forget_thr t s).
Proof.
  intros [[[H1 H2 H3 H4 H5] Hst Hm] (cur & Hc & Hw & Hr)] Ht He. split; [split; [split| |]|]; try done.
  - intros u q. change (queues (forget_thr t s) q) with (queues s q). rewrite H3. cbn. split; intros (ku & Hu & Hq).
    + exists ku. rewrite lookup_delete_ne; [done|]. intros <-. simplify_eq. pose proof (Hst _ _ _ Ht Hq) as Hfit. destruct q; cbn in Hfit; destruct_or?; congruence.
    + apply lookup_delete_Some in Hu as [_ Hu]. eauto.
  - intros u ku. cbn. intros [_ Hu]%lookup_delete_Some. eauto.
  - cbn. apply lookup_delete_None. by right.
  - intros u ku q. cbn. intros [_ Hu]%lookup_delete_Some. eauto.
  - exists cur. cbn. rewrite lookup_delete_ne; [done|]. intros E. rewrite E in Ht. congruence.
Qed.

Section Reap.
Context `{P : Platform} `{!PlatformOk P} {C : ProcConst} `{!ProcConstOk C} {MM FS : Type}.
Context `{!MmOps MM} `{!MmLaws MM} `{!ProcOps MM} `{!ProcLaws MM} `{!FsOps FS} `{!FsLaws FS}.
Implicit Types (k : kern (MM := MM) (FS := FS)) (F : list Z) (R V O : gmultiset Z) (v : vm (MM := MM)).

(** [k'] is [k] without the child [c] of the current process [y] and its thread [t]. *)
Definition reaps k (c : Z) (y : proc) (t : Z) k' : Prop :=
  exists v', vm_maps v' = vm_maps (kvm k) /\
    k' = Kern (forget_thr t (ks k)) v' (kfs k) (reaped (procs k) (curproc (ks k)) c y) (without c (proc_list k)) (next_pid k)
      (proc_initproc k) (delete t (kt_plinks k)) (delete t (kt_ctxs k)) (kstack_mem k).

Lemma destroy_run t kt q z s v v1 v2 fs ps l np ini pl cx km :
  t <> NULL -> threads s !! t = Some kt -> kt_kstack kt <> NULL -> pl !! t = Some q -> ps !! q = Some z -> p_threads z = [t] ->
  lift (page_free_n (kt_kstack kt) stack_pages) v = Ok tt v1 -> lift (kthread_slab_free t) v1 = Ok tt v2 ->
  kthread_destroy t (Kern (MM := MM) (FS := FS) s v fs ps l np ini pl cx km) =
    Ok tt (Kern (forget_thr t s) v2 fs (<[q := pset_threads [] z]> ps) l np ini (delete t pl) (delete t cx) km).
Proof.
  intros Htn Ht Hks Hpl Hz Hth E1 E2. unfold kthread_destroy, free_stack, on_mm, remove_plink. destruct (Z.eqb_spec t NULL) as [?|_]; [done|].
  rewrite ret_bind. sched_go (thr_ok _ _ _ Ht). rewrite kassert_bind by (by apply c_true_spec). vm_go E1. kgo.
  rewrite bool_decide_eq_true_2 by (rewrite Hpl; eauto). cbn [when]. kgo. rewrite Hpl. cbn [deref]. kgo. prc_a Hz. rewrite bind_assoc. upd_a Hz. kgo.
  rewrite Hth, filter_cons_False, filter_nil by naive_solver. vm_go E2. kgo. rewrite (bind_ok _ _ _ _ _ (on_sched_modify _ _)). done.
Qed.

(** The memory of the dead process and its thread, in the order of [wait_any] and
    of [wait_pid], which is the same. *)
Lemma reap_frees stack t pd c L R v : vm_ok (stack :: t :: pd :: c :: L) R v ->
  exists v1 v2 v3 v4, lift (page_free_n stack stack_pages) v = Ok tt v1 /\ lift (kthread_slab_free t) v1 = Ok tt v2 /\
    lift (pt_destroy_pagedir pd) v2 = Ok tt v3 /\ lift (proc_slab_free c) v3 = Ok tt v4 /\ vm_maps v4 = vm_maps v /\ vm_ok L R v4.
Proof.
  intros H0. destruct (vm_releases _ _ _ _ _ (pl_stack_free stack_pages) H0) as (v1 & E1 & M1 & H1).
  destruct (vm_releases _ _ _ _ _ pl_thread_free H1) as (v2 & E2 & M2 & H2). destruct (vm_releases _ _ _ _ _ pl_pagedir_free H2) as (v3 & E3 & M3 & H3).
  destruct (vm_releases _ _ _ _ _ pl_proc_free H3) as (v4 & E4 & M4 & H4). exists v1, v2, v3, v4. split_and!; try done. congruence.
Qed.

Lemma reap_order (c pd t stack : Z) (gp gt F : list Z) :
  (([c; pd] ++ gp) ++ [t; stack] ++ gt) ++ F ≡ₚ stack :: t :: pd :: c :: (gp ++ gt) ++ F.
Proof.
  transitivity ([c; pd; t; stack] ++ (gp ++ gt) ++ F).
  - cbn [app]. by rewrite <- !Permutation_middle.
  - rewrite <- (reverse_Permutation [c; pd; t; stack]). done.
Qed.

Lemma reap_run (any : bool) pid c x y t kt s v v1 v2 v3 v4 fs ps l np ini pl cx km (cur := curproc s) :
  (if any then pid = -1 else pid = p_pid x) ->
  c <> NULL -> c <> cur -> ps !! c = Some x -> ps !! cur = Some y -> p_pagedir x <> NULL -> p_child_link x = Some cur ->
  p_threads x = [t] -> t <> NULL -> threads s !! t = Some kt -> kt_kstack kt <> NULL -> pl !! t = Some c ->
  lift (page_free_n (kt_kstack kt) stack_pages) v = Ok tt v1 -> lift (kthread_slab_free t) v1 = Ok tt v2 ->
  lift (pt_destroy_pagedir (p_pagedir x)) v2 = Ok tt v3 -> lift (proc_slab_free c) v3 = Ok tt v4 ->
  (if any then reap_any else reap_pid) c pid (Kern (MM := MM) (FS := FS) s v fs ps l np ini pl cx km) =
    Ok (WaitReturned (p_pid x) (Some (p_status x)))
      (Kern (forget_thr t s) v4 fs (reaped ps cur c y) (without c l) np ini (delete t pl) (delete t cx) km).
Proof.
  intros Hpid Hcn Hne Hx Hy Hpd Hl Hth Htn Ht Hks Hpl E1 E2 E3 E4.
  assert ((-1 =? pid) || (p_pid x =? pid) = true) as Hb by (apply orb_true_iff; destruct any; [left|right]; lia).
  assert (forall z w, delete c (<[c := z]> (<[c := w]> (<[cur := pset_children (without c (p_children y)) y]> ps))) = reaped ps cur c y) as Hm2.
  { intros z w. unfold reaped. by rewrite !delete_insert_eq. }
  destruct any; unfold reap_any, reap_pid.
  - prc_a Hx. rewrite kassert_bind by (apply negb_true_iff, Z.eqb_neq; congruence). rewrite kassert_bind by done.
    rewrite kassert_bind by (apply negb_true_iff, Z.eqb_neq; congruence). rewrite Hth. cbn [head]. rewrite (deref_bind _ t) by done.
    rewrite (bind_ok _ _ _ _ _ (destroy_run t kt c x s v v1 v2 fs ps l np ini pl cx km Htn Ht Hks Hpl Hx Hth E1 E2)). kgo.
    unfold remove_child. kgo. prc_p. cbn [p_child_link pset_threads]. rewrite Hl. cbn [deref]. kgo. prc_q Hne Hy. kgo. upd_q Hne Hy. upd_p.
    unfold on_mm. vm_go E3. vm_go E4. kgo. do 2 f_equal. unfold reaped. by rewrite delete_insert_eq.
  - prc_a Hx. rewrite kassert_bind by (apply negb_true_iff, Z.eqb_neq; congruence). rewrite kassert_bind by done.
    rewrite kassert_bind by (apply negb_true_iff, Z.eqb_neq; congruence). rewrite Hth. cbn [head]. rewrite (deref_bind _ t) by done.
    unfold remove_child. kgo. prc_a Hx. rewrite Hl. cbn [deref]. kgo. prc_a Hy. kgo. upd_a Hy.
    rewrite (bind_ok _ _ _ _ _ (upd_at c _ x _ _ _ _ _ _ _ _ _ _ ltac:(by rewrite lookup_insert_ne))). kgo.
    rewrite (bind_ok _ _ _ _ _ (destroy_run t kt c (pset_child_link None x) s v v1 v2 fs _ (without c l) np ini pl cx km Htn Ht Hks Hpl
      (lookup_insert_eq _ _ _) Hth E1 E2)). unfold on_mm. vm_go E3. vm_go E4. kgo. do 2 f_equal. by rewrite Hm2.
Qed.
End Reap.
