(* ===== verification/ProcWait.v ===== *)
(** Waiting for children: [do_waitpid]. *)
From S2P Require Import Prelude.
From S2P Require Import Platform.
From S2P Require Import Sched.
From S2P Require Import SchedInv.
From S2P Require Import ProcSched.
From S2P Require Import MmIface.
From S2P Require Import Vmmap.
From S2P Require Import Areas.
From S2P Require Import VmmapFacts.
From S2P Require Import VmmapThms.
From S2P Require Import Proc.
From S2P Require Import ProcInv.
From S2P Require Import ProcIds.
From S2P Require Import ProcCreate.
From S2P Require Import ProcThread.
From S2P Require Import ProcFam.
From S2P Require Import ProcExit.
From S2P Require Import ProcReap.
Open Scope Z_scope.

Section Wait.
Context `{P : Platform} `{!PlatformOk P} {C : ProcConst} `{!ProcConstOk C} {MM FS : Type}.
Context `{!MmOps MM} `{!MmLaws MM} `{!ProcOps MM} `{!ProcLaws MM} `{!FsOps FS} `{!FsLaws FS}.
Context (intr_wait : sched -> sched) (irqs : nat).
Context (Hintr : intr_pres intr_wait) (Hkeep : forall s, idle_ok s -> keeps_threads s (intr_wait s)).
Implicit Types (k : kern (MM := MM) (FS := FS)) (F : list Z) (R V O : gmultiset Z) (v : vm (MM := MM)).

(** The child [c], which is dead, is gone after the call, and its number and exit
    status are returned. *)
Definition collects k (c : Z) (x y : proc) (r : waited) k' : Prop :=
  r = WaitReturned (p_pid x) (Some (p_status x)) /\ exists t, p_threads x = [t] /\ reaps k c y t k'.

Lemma reap_ok F R V O k y c x pid (any : bool) :
  kern_ok F R V O k -> procs k !! curproc (ks k) = Some y -> c ∈ p_children y -> procs k !! c = Some x -> p_state x = PROC_DEAD ->
  (if any then pid = -1 else pid = p_pid x) ->
  exists r k', (if any then reap_any else reap_pid) c pid k = Ok r k' /\ collects k c x y r k' /\ kern_ok F R V O k'.
Proof.
  intros Hk Hy Hc Hx Hd Hpid. pose proof (ko_fam _ _ _ _ _ Hk) as Hf. pose proof (ko_thr _ _ _ _ _ Hk) as Hth.
  destruct (cur_running _ _ _ _ _ Hk) as (y' & ky & Hy' & Hr & Hyt & Hky & Hkyp & Hkyw & Hkys). rewrite Hy in Hy'. injection Hy' as <-.
  assert (p_pid x <> PID_IDLE) as Hid. { intros E. destruct (fo_idle _ _ _ Hf _ _ Hx E) as [_ ?]. congruence. }
  pose proof (reaped_parent _ _ _ _ _ _ _ Hf Hx Hy Hr Hc) as Hpp.
  destruct (fo_parent _ _ _ Hf _ _ Hx Hid) as (Hl & _). rewrite Hpp in Hl.
  destruct (to_proc _ _ _ Hth _ _ Hx) as [[_ ?]|(t & kt & Ht & Hkt & Hkp)]; [congruence|].
  destruct (to_thread _ _ _ Hth _ _ Hkt) as (Hpl & Hks & z & Hz & _ & Hex). rewrite Hkp in Hpl, Hz. rewrite Hx in Hz. injection Hz as <-.
  assert (kt_state kt = KT_EXITED) as He by (by apply Hex).
  pose proof (io_queue _ (so_idle _ (ko_sched _ _ _ _ _ Hk))) as Hq.
  assert (t <> NULL) as Htn by (intros ->; by rewrite (qo_null _ Hq) in Hkt).
  assert (c <> NULL) as Hcn by (intros ->; by rewrite (fo_null _ _ _ Hf) in Hx).
  assert (c <> curproc (ks k)) as Hne by congruence.
  pose proof (gather_reap (procs k) (curproc (ks k)) c x y Hx Hy Hd Hr proc_owns (fun _ _ _ => eq_refl)) as Ep.
  pose proof (gather_delete thread_owns _ _ _ Hkt) as Et.
  destruct (reap_frees (kt_kstack kt) t (p_pagedir x) c (owned (reaped (procs k) (curproc (ks k)) c y) (delete t (threads (ks k))) ++ F) R (kvm k))
    as (v1 & v2 & v3 & v4 & E1 & E2 & E3 & E4 & Em & Hv4).
  { apply (vm_ok_perm (owned (procs k) (threads (ks k)) ++ F)); [|apply Hk]. unfold owned. rewrite Ep, Et. apply reap_order. }
  destruct k as [s v fs ps l np ini pl cx km]. cbn [ks kvm kfs procs proc_list next_pid proc_initproc kt_plinks kt_ctxs kstack_mem] in *.
  pose proof (reap_run any pid c x y t kt s v v1 v2 v3 v4 fs ps l np ini pl cx km Hpid Hcn Hne Hx Hy
    (fo_pagedir _ _ _ Hf _ _ Hx) Hl Ht Htn Hkt Hks Hpl E1 E2 E3 E4) as E.
  eexists _, _. split; [exact E|]. split.
  { split; [done|]. exists t. split; [done|]. by exists v4. }
  split; cbn [ks kvm kfs procs proc_list next_pid proc_initproc kt_plinks].
  - eapply forget_thread_ok; [apply Hk|done|done].
  - exact Hv4.
  - rewrite (cwds_reap ps (curproc s) c x y), (opens_reap ps (curproc s) c x y) by done. apply Hk.
  - by apply (fam_reap ps l ini (curproc s) c x y).
  - by apply (threads_reap ps (curproc s) c x y).
  - rewrite Em. apply (spaces_reap ps (curproc s) c y); [done|]. apply Hk.
  - intros u ku a. cbn. intros [Hn Hu]%lookup_delete_Some Ha. destruct (ko_waits _ _ _ _ _ Hk u ku a Hu Ha) as [[Hkua [z Hz]]|?]; [left|by right].
    split; [done|]. cbn in Hz. assert (a <> c) as Hac.
    { intros ->. destruct (to_thread _ _ _ Hth _ _ Hu) as (_ & _ & w & Hw & Hwt & _). rewrite Hkua, Hx in Hw. congruence. }
    destruct (reaped_old ps (curproc s) c y Hy a z Hac Hz) as (ls & -> & _). eauto.
  - exists ky. cbn. split; [|done]. rewrite lookup_delete_ne; [done|]. intros ->. congruence.
  - apply Hk.
Qed.

(** ** Going to sleep *)

(** The current thread asleep on the wait queue of its process. *)
Definition asleep k : sched := 
  match threads (ks k) !! curthr (ks k) with
  | Some kt => enq (waitq (curproc (ks k))) (curthr (ks k)) (with_state KT_SLEEP kt) (ks k)
  | None => ks k
  end.

Lemma kern_asleep F R V O k : kern_ok F R V O k -> kern_idle F R V O (set_ks (asleep k) k).
Proof.
  intros Hk. destruct (cur_running _ _ _ _ _ Hk) as (y & kt & Hy & Hr & Hth & Hkt & Hkp & Hw & Hst). unfold asleep. rewrite Hkt.
  set (kt' := linked (waitq (curproc (ks k))) (with_state KT_SLEEP kt)).
  split; cbn [ks kvm kfs procs proc_list next_pid proc_initproc kt_plinks set_ks].
  - apply sleep_enq_idle_ok; [apply Hk|done|done|by left|done].
  - cbn. rewrite lookup_insert_eq. eauto.
  - eapply vm_ok_perm; [|apply Hk]. unfold owned. cbn. by rewrite (gather_update _ _ _ kt).
  - apply Hk.
  - apply Hk.
  - destruct (ko_thr _ _ _ _ _ Hk) as [H1 H2]. split.
    + intros u ku. cbn. rewrite lookup_insert. case_decide as E; [|apply H1]. intros [= <-]. subst u.
      destruct (H1 _ _ Hkt) as (A & B & x & D & E & G). split_and!; [done|done|]. exists x. cbn. split_and!; [done|done|]. rewrite G, Hst. by split.
    + intros p x Hx. destruct (H2 p x Hx) as [?|(u & ku & A & B & D)]; [by left|right]. cbn.
      destruct (decide (curthr (ks k) = u)) as [<-|Hn].
      * rewrite Hkt in B. injection B as <-. exists (curthr (ks k)), kt'. by rewrite lookup_insert_eq.
      * exists u, ku. by rewrite lookup_insert_ne.
  - apply Hk.
  - intros u ku a. cbn. rewrite lookup_insert. case_decide as E; [|apply Hk]. intros [= <-]. cbn. intros [= <-]. left. split; [done|eauto].
  - apply Hk.
Qed.

Lemma sleep_ok F R V O k : kern_ok F R V O k ->
  (forall B (K : M (kern (MM := MM) (FS := FS)) B), (on_sched (sched_sleep_on intr_wait irqs (waitq (curproc (ks k))));; K) k =
    (on_sched (sched_switch intr_wait irqs);; K) (set_ks (asleep k) k)).
Proof.
  intros Hk B K. destruct (cur_running _ _ _ _ _ Hk) as (y & kt & Hy & Hr & Hth & Hkt & Hkp & Hw & Hst). unfold asleep. rewrite Hkt.
  assert (sched_sleep_on intr_wait irqs (waitq (curproc (ks k))) (ks k) =
    sched_switch intr_wait irqs (enq (waitq (curproc (ks k))) (curthr (ks k)) (with_state KT_SLEEP kt) (ks k))) as E.
  { unfold sched_sleep_on. rewrite gets_bind, (bind_ok _ _ _ _ _ (upd_thr_ok _ _ _ _ Hkt)).
    by rewrite (bind_ok _ _ _ _ _ (ktqueue_enqueue_ok _ _ (with_state KT_SLEEP kt) _ (lookup_insert_eq _ _ _) Hw)), enq_set_thr. }
  unfold mbind, M_bind, on_sched. cbn [ks set_ks]. rewrite E. by destruct (sched_switch _ _ _).
Qed.

(** ** do_waitpid *)

(** The first dead process of a list. *)
Definition first_dead k (l : list Z) (r : option Z) : Prop :=
  match r with
  | Some c => exists l1 l2 x, l = l1 ++ c :: l2 /\ procs k !! c = Some x /\ p_state x = PROC_DEAD /\
      Forall (fun d => exists z, procs k !! d = Some z /\ p_state z = PROC_RUNNING) l1
  | None => Forall (fun d => exists z, procs k !! d = Some z /\ p_state z = PROC_RUNNING) l
  end.
Lemma find_dead_ok l k : all_procs k l -> exists r, find_dead l k = Ok r k /\ first_dead k l r.
Proof.
  induction l as [|c l IH]; intros Hl; [exists None; split; [done|constructor]|]. destruct (Hl c) as [x Hx]; [by left|].
  cbn [find_dead]. rewrite (bind_ok _ _ _ _ _ (prc_ok _ _ _ Hx)). case_bool_decide as Hd.
  - exists (Some c). split; [done|]. exists [], l, x. split_and!; [done|done|done|constructor].
  - assert (p_state x = PROC_RUNNING) as Hr by (by destruct (p_state x)).
    destruct IH as (r & E & Hfd); [intros d Hd'; apply Hl; by right|]. exists r. split; [done|]. destruct r as [d|]; cbn in *.
    + destruct Hfd as (l1 & l2 & z & -> & ? & ? & ?). exists (c :: l1), l2, z. split_and!; [done..|]. constructor; eauto.
    + constructor; eauto.
Qed.

(** [m] puts the caller to sleep on the wait queue of its process. *)
Definition waits k (m : outcome kern waited) : Prop :=
  m = (on_sched (sched_switch intr_wait irqs);; mret WaitSwitched) (set_ks (asleep k) k).

Lemma wait_any_cases F R V O k y : kern_ok F R V O k -> procs k !! curproc (ks k) = Some y ->
  exists d, first_dead k (p_children y) d /\
  match d with
  | Some c => exists x r k', procs k !! c = Some x /\ wait_any intr_wait irqs k = Ok r k' /\ collects k c x y r k' /\ kern_ok F R V O k'
  | None => waits k (wait_any intr_wait irqs k)
  end.
Proof.
  intros Hk Hy. pose proof (ko_fam _ _ _ _ _ Hk) as Hf.
  destruct (cur_running _ _ _ _ _ Hk) as (y' & kt & Hy' & Hr & _). rewrite Hy in Hy'. injection Hy' as <-.
  assert (all_procs k (p_children y)) as Hall.
  { intros c Hc. destruct (fo_children _ _ _ Hf _ _ Hy Hr) as [_ H]. destruct (H c Hc) as (x & ? & _). eauto. }
  destruct (find_dead_ok _ _ Hall) as (d & E & Hd). exists d. split; [done|].
  unfold wait_any, get_curproc. rewrite gets_bind, (bind_ok _ _ _ _ _ (prc_ok _ _ _ Hy)), (bind_ok _ _ _ _ _ E). destruct d as [c|].
  - destruct Hd as (l1 & l2 & x & El & Hx & Hxd & _). exists x.
    destruct (reap_ok F R V O k y c x (-1) true Hk Hy) as (r & k' & Er & Hc & Hk'); try done; [rewrite El; apply elem_of_app; right; by left|]. by exists r, k'.
  - exact (sleep_ok _ _ _ _ _ Hk waited (mret WaitSwitched)).
Qed.

Lemma wait_pid_cases F R V O k y c x : kern_ok F R V O k -> procs k !! curproc (ks k) = Some y -> c ∈ p_children y -> procs k !! c = Some x ->
  match p_state x with
  | PROC_DEAD => exists r k', wait_pid intr_wait irqs c (p_pid x) k = Ok r k' /\ collects k c x y r k' /\ kern_ok F R V O k'
  | PROC_RUNNING => waits k (wait_pid intr_wait irqs c (p_pid x) k)
  end.
Proof.
  intros Hk Hy Hc Hx. unfold wait_pid, get_curproc. rewrite gets_bind, (bind_ok _ _ _ _ _ (prc_ok _ _ _ Hx)).
  destruct (p_state x) eqn:Hs; [rewrite bool_decide_eq_false_2 by done|rewrite bool_decide_eq_true_2 by done].
  - exact (sleep_ok _ _ _ _ _ Hk waited (mret WaitSwitched)).
  - destruct (reap_ok F R V O k y c x (p_pid x) false Hk Hy Hc Hx Hs eq_refl) as (r & k' & E & ? & ?). by exists r, k'.
Qed.

Lemma waitpid_any_cases F R V O k y : kern_ok F R V O k -> procs k !! curproc (ks k) = Some y ->
  match p_children y with
  | [] => do_waitpid intr_wait irqs (-1) 0 k = Ok (WaitReturned (- ECHILD) None) k
  | _ =>
      exists d, first_dead k (p_children y) d /\
      match d with
      | Some c => exists x r k', procs k !! c = Some x /\ do_waitpid intr_wait irqs (-1) 0 k = Ok r k' /\ collects k c x y r k' /\ kern_ok F R V O k'
      | None => waits k (do_waitpid intr_wait irqs (-1) 0 k)
      end
  end.
Proof.
  intros Hk Hy. unfold do_waitpid, get_curproc. rewrite !Z.eqb_refl. cbn [negb]. rewrite gets_bind, (bind_ok _ _ _ _ _ (prc_ok _ _ _ Hy)).
  pose proof (wait_any_cases _ _ _ _ _ y Hk Hy) as H. destruct (p_children y); [by rewrite bool_decide_eq_true_2|by rewrite bool_decide_eq_false_2].
Qed.

(** C17. waitpid(-1) on every branch: a process without children gets ECHILD;
    otherwise the first dead child in the list is reaped, its identifier and
    status are returned and the kernel stays consistent; when all children are
    running the thread goes to sleep on the process's wait queue. *)
Theorem do_waitpid_any F R V O k y : kern_ok F R V O k -> procs k !! curproc (ks k) = Some y ->
  match p_children y with
  | [] => do_waitpid intr_wait irqs (-1) 0 k = Ok (WaitReturned (- ECHILD) None) k
  | _ =>
      exists d, first_dead k (p_children y) d /\
      match d with
      | Some c => exists x r k', procs k !! c = Some x /\ do_waitpid intr_wait irqs (-1) 0 k = Ok r k' /\ collects k c x y r k' /\ kern_ok F R V O k'
      | None => waits k (do_waitpid intr_wait irqs (-1) 0 k)
      end
  end.
Proof. apply waitpid_any_cases. Qed.

Lemma waitpid_pid_cases F R V O k y pid : kern_ok F R V O k -> procs k !! curproc (ks k) = Some y -> 0 < pid ->
  (exists c x, c ∈ p_children y /\ procs k !! c = Some x /\ p_pid x = pid /\
    match p_state x with
    | PROC_DEAD => exists r k', do_waitpid intr_wait irqs pid 0 k = Ok r k' /\ collects k c x y r k' /\ kern_ok F R V O k'
    | PROC_RUNNING => waits k (do_waitpid intr_wait irqs pid 0 k)
    end) \/
  (forall c x, c ∈ p_children y -> procs k !! c = Some x -> p_pid x <> pid) /\
    do_waitpid intr_wait irqs pid 0 k = Ok (WaitReturned (- ECHILD) None) k.
Proof.
  intros Hk Hy Hpid. pose proof (ko_fam _ _ _ _ _ Hk) as Hf.
  destruct (cur_running _ _ _ _ _ Hk) as (y' & kt & Hy' & Hr & _). rewrite Hy in Hy'. injection Hy' as <-.
  unfold do_waitpid, get_curproc. rewrite Z.eqb_refl. cbn [negb]. replace (pid =? -1) with false by lia. replace (0 <? pid) with true by lia.
  rewrite gets_bind, (bind_ok _ _ _ _ _ (prc_ok _ _ _ Hy)). case_bool_decide as He.
  { right. rewrite He. split; [by intros c x ?%elem_of_nil|done]. }
  assert (all_procs k (p_children y)) as Hall.
  { intros c Hc. destruct (fo_children _ _ _ Hf _ _ Hy Hr) as [_ H]. destruct (H c Hc) as (x & ? & _). eauto. }
  destruct (find_pid_ok pid _ _ Hall) as (r & E & Hfw). rewrite (bind_ok _ _ _ _ _ E). destruct r as [c|]; [left|by right].
  destruct Hfw as (x & Hc & Hx & <-). exists c, x. split_and!; [done..|]. by apply wait_pid_cases.
Qed.

(** waitpid for one child: a dead child is reaped and its status returned, for a
    running one the thread goes to sleep, and without such a child the result is
    ECHILD. *)
Theorem do_waitpid_pid F R V O k y pid : kern_ok F R V O k -> procs k !! curproc (ks k) = Some y -> 0 < pid ->
  (exists c x, c ∈ p_children y /\ procs k !! c = Some x /\ p_pid x = pid /\
    match p_state x with
    | PROC_DEAD => exists r k', do_waitpid intr_wait irqs pid 0 k = Ok r k' /\ collects k c x y r k' /\ kern_ok F R V O k'
    | PROC_RUNNING => waits k (do_waitpid intr_wait irqs pid 0 k)
    end) \/
  (forall c x, c ∈ p_children y -> procs k !! c = Some x -> p_pid x <> pid) /\
    do_waitpid intr_wait irqs pid 0 k = Ok (WaitReturned (- ECHILD) None) k.
Proof. apply waitpid_pid_cases. Qed.

(** waitpid with options, or with an identifier that names a process group,
    returns EINVAL. *)
Theorem do_waitpid_bad_args pid options k : options <> 0 \/ (pid <= 0 /\ pid <> -1) ->
  do_waitpid intr_wait irqs pid options k = Ok (WaitReturned (- EINVAL) None) k.
Proof.
  intros H. unfold do_waitpid. destruct (Z.eqb_spec options 0) as [E|E]; cbn [negb]; [|done]. destruct H as [?|[? ?]]; [done|].
  replace (pid =? -1) with false by lia. by replace (0 <? pid) with false by lia.
Qed.
End Wait.
