(* ===== verification/ProcLife.v ===== *)
(** The life of a process: exit and wait together, and every sequence of them. *)
From S2P Require Import Prelude.
From S2P Require Import Platform.
From S2P Require Import Sched.
From S2P Require Import SchedInv.
From S2P Require Import ProcSched.
From S2P Require Import MmIface.
From S2P Require Import Vmmap.
From S2P Require Import Areas.
From S2P Require Import VmmapFacts.
From S2P Require Import VmmapThms.
From S2P Require Import Proc.
From S2P Require Import ProcInv.
From S2P Require Import ProcIds.
From S2P Require Import ProcCreate.
From S2P Require Import ProcThread.
From S2P Require Import ProcFam.
From S2P Require Import ProcExit.
From S2P Require Import ProcReap.
From S2P Require Import ProcWait.
Open Scope Z_scope.

Section Life.
Context `{P : Platform} `{!PlatformOk P} {C : ProcConst} `{!ProcConstOk C} {MM FS : Type}.
Context `{!MmOps MM} `{!MmLaws MM} `{!ProcOps MM} `{!ProcLaws MM} `{!FsOps FS} `{!FsLaws FS}.
Context (intr_wait : sched -> sched) (irqs : nat).
Context (Hintr : intr_pres intr_wait) (Hkeep : forall s, idle_ok s -> keeps_threads s (intr_wait s)).
Implicit Types (k : kern (MM := MM) (FS := FS)) (F : list Z) (R V O : gmultiset Z).

(** The wait queue inside a process has only its own thread. *)
Lemma waiter_proc F R V O k p x t kt : kern_ok F R V O k -> procs k !! p = Some x -> threads (ks k) !! t = Some kt ->
  kt_wchan kt = Some (waitq p) -> kt_proc kt = p.
Proof.
  intros Hk Hx Ht Hw. destruct (ko_waits _ _ _ _ _ Hk t kt p Ht Hw) as [[? _]|HF]; [done|].
  destruct (vm_ok_live _ _ _ (ko_vm _ _ _ _ _ Hk)) as [(Hnd & _ & _)%NoDup_app _]. apply NoDup_app in Hnd as (_ & Hd & _). destruct (Hd p); [|done].
  unfold owned. apply elem_of_app. left. apply elem_of_gather. exists p, x. split; [done|]. unfold proc_owns. set_solver.
Qed.

Definition all_running k (l : list Z) : Prop := forall c z, c ∈ l -> procs k !! c = Some z -> p_state z = PROC_RUNNING.

(** When the parent's thread is the only one that waits for the process and no other is
    runnable, it runs next. *)
Lemma exit_to_parent F R V O k status x px pt :
  kern_ok F R V O k -> procs k !! curproc (ks k) = Some x -> p_pid x <> PID_IDLE -> p_pid x <> PID_INIT -> proc_initproc k <> NULL ->
  procs k !! p_pproc x = Some px -> fifo (ks k) (waitq (p_pproc x)) = [pt] -> fifo (ks k) kt_runq = [] ->
  exists k', do_exit intr_wait irqs status k = Ok tt k' /\ kern_ok F R V O k' /\ curproc (ks k') = p_pproc x /\
    procs k' = exited_procs (procs k) (proc_initproc k) (curproc (ks k)) status x.
Proof.
  intros Hk Hx Hid Hin Hini Hpx Hfp Hfr.
  destruct (exit_runs intr_wait irqs F R V O k status x Hk Hx Hid Hin Hini) as (k1 & E1 & Hi1 & [Ep _ _ _ (kt & Hkt & Hwo)]).
  pose proof (wo_fifo _ _ _ Hwo) as Hff. change (fifo (set_thr _ _ (ks k)) ?q) with (fifo (ks k) q) in Hff. rewrite Hfp, Hfr in Hff. destruct Hff as [_ Hr1].
  assert (tq_list (queues (ks k1) kt_runq) = [] ++ [pt]) as Hrq.
  { unfold fifo in Hr1. apply (f_equal reverse) in Hr1. by rewrite reverse_involutive in Hr1. }
  destruct (switch_oldest intr_wait irqs (ks k1) [] pt (ki_sched _ _ _ _ _ Hi1) (ki_cur _ _ _ _ _ Hi1) Hrq) as (s' & Es & _ & Hct & _).
  assert (on_sched (sched_switch intr_wait irqs) k1 = Ok tt (set_ks s' k1)) as Es' by (by apply on_sched_ok).
  destruct (switch_ok intr_wait irqs Hintr Hkeep _ _ _ _ _ _ Hi1 Es') as (Hk' & s2 & _ & Es2 & Hkp). rewrite Es in Es2. injection Es2 as <-.
  exists (set_ks s' k1). split_and!; [by rewrite E1|done| |exact Ep].
  assert (pt ∈ tq_list (queues (ks k) (waitq (p_pproc x)))) as Hpt.
  { unfold fifo in Hfp. apply (f_equal reverse) in Hfp. rewrite reverse_involutive in Hfp. rewrite Hfp. set_solver. }
  apply (qo_mem _ (io_queue _ (so_idle _ (ko_sched _ _ _ _ _ Hk)))) in Hpt as (kp & Hkpt & Hwp).
  pose proof (waiter_proc _ _ _ _ _ _ _ _ _ Hk Hpx Hkpt Hwp) as Hpp.
  assert (pt <> curthr (ks k)) as Hne. { intros ->. destruct (cur_running _ _ _ _ _ Hk) as (? & ? & _ & _ & _ & ? & _ & ? & _). congruence. }
  destruct (keeps_threads_fwd _ _ pt kp (wo_keeps _ _ _ Hwo)) as (kp1 & Hkp1 & Epr & _); [cbn; by rewrite lookup_insert_ne|].
  destruct (ko_cur _ _ _ _ _ Hk') as (kc & Hkc & Hcc). cbn in Hkc, Hcc |- *. rewrite Hct in Hkc.
  destruct (keeps_threads_bwd _ _ pt kc Hkp) as (kp2 & Hkp2 & Epr2 & _); [done|]. congruence.
Qed.

(** The only dead child of the parent is then the process that exited. *)
Lemma exited_only F R V O k k' status x px py c z :
  kern_ok F R V O k -> kern_ok F R V O k' -> procs k !! curproc (ks k) = Some x -> procs k !! p_pproc x = Some px ->
  procs k' = exited_procs (procs k) (proc_initproc k) (curproc (ks k)) status x -> procs k' !! p_pproc x = Some py -> p_state py = PROC_RUNNING ->
  all_running k (p_children px) -> all_running k (p_children x) ->
  c ∈ p_children py -> procs k' !! c = Some z -> p_state z = PROC_DEAD -> c = curproc (ks k).
Proof.
  intros Hk Hk' Hx Hpx Ep' Hpy Hpyr Hrp Hrx Hc Hz Hd. pose proof (ko_fam _ _ _ _ _ Hk) as Hf.
  destruct (decide (c = curproc (ks k))) as [->|Hn]; [done|]. exfalso. rewrite Ep' in Hz. apply (exited_inv _ _ _ _ _ Hx) in Hz as [[-> _]|(_ & w & Hw & ->)]; [done|].
  destruct (reparented_same (proc_initproc k) (p_children x) c w) as (_ & _ & _ & Est & _). rewrite Est in Hd.
  assert (p_state w = PROC_RUNNING); [|congruence].
  destruct (fo_children _ _ _ (ko_fam _ _ _ _ _ Hk') _ _ Hpy Hpyr) as [_ Hch]. destruct (Hch c Hc) as (w' & Hw' & Epp).
  rewrite Ep' in Hw'. apply (exited_inv _ _ _ _ _ Hx) in Hw' as [[-> _]|(_ & w2 & Hw2 & ->)]; [done|]. rewrite Hw in Hw2. injection Hw2 as <-.
  destruct (decide (c ∈ p_children x)) as [Hcx|Hcx]; [by apply (Hrx c)|].
  destruct (reparented_parent (proc_initproc k) x c w Hcx) as [Epr _]. rewrite Epr in Epp.
  apply (Hrp c); [|done]. destruct (decide (p_pid w = PID_IDLE)) as [Hi|Hi].
  - destruct (fo_idle _ _ _ Hf _ _ Hw Hi) as [E _]. rewrite E in Epp. rewrite <- Epp in Hpx. by rewrite (fo_null _ _ _ Hf) in Hpx.
  - destruct (fo_parent _ _ _ Hf _ _ Hw Hi) as (_ & _ & pz & Hpz & _ & Hcin). rewrite Epp, Hpx in Hpz. by injection Hpz as <-.
Qed.


(** C39. When a process exits that has a dead child it has not waited for, init
    inherits the dead child, but a thread of init that already sleeps in waitpid
    stays asleep: only the parent of the exiting process is woken. *)
Theorem orphan_zombie_unnoticed F R V O k status x z xz it kt :
  kern_ok F R V O k -> procs k !! curproc (ks k) = Some x -> p_pid x <> PID_IDLE -> p_pid x <> PID_INIT -> proc_initproc k <> NULL ->
  z ∈ p_children x -> procs k !! z = Some xz -> p_state xz = PROC_DEAD ->
  threads (ks k) !! it = Some kt -> kt_wchan kt = Some (waitq (proc_initproc k)) -> p_pproc x <> proc_initproc k ->
  exists k1 y, do_exit intr_wait irqs status k = on_sched (sched_switch intr_wait irqs) k1 /\
    procs k1 !! proc_initproc k = Some y /\ z ∈ p_children y /\ procs k1 !! z = Some (adopted (proc_initproc k) xz) /\
    threads (ks k1) !! it = Some kt.
Proof.
  intros Hk Hx Hid Hin Hini Hz Hxz Hzd Hit Hw Hne. pose proof (ko_fam _ _ _ _ _ Hk) as Hf.
  destruct (exit_runs intr_wait irqs F R V O k status x Hk Hx Hid Hin Hini) as (k1 & E1 & Hi1 & [Ep _ _ _ (kc & Hkc & Hwo)]).
  destruct (cur_running _ _ _ _ _ Hk) as (x' & kc' & Hx' & Hrun & _ & Hkc' & _ & Hcw & _). rewrite Hx in Hx'. injection Hx' as <-.
  destruct (init_alive _ _ _ Hf Hini) as (yi & _ & Hyi & _ & Hri & _).
  pose proof (cur_not_init _ _ _ _ _ Hf Hx Hin Hini) as Hci.
  destruct (exited_parent (procs k) (proc_list k) (proc_initproc k) (curproc (ks k)) status x Hf Hx Hrun Hid Hin Hini _ _ (not_eq_sym Hci) Hyi Hri)
    as (y & Hy & _ & _ & Hsub).
  exists k1, y. rewrite Ep. split_and!; [done|done|by apply Hsub| |].
  - rewrite <- (reparented_child (procs k) (proc_list k) (proc_initproc k) (curproc (ks k)) x Hf Hx Hrun Hid Hini z xz Hz).
    apply exited_old; [|done]. congruence.
  - apply (wo_others _ _ _ Hwo); [|congruence]. cbn. rewrite lookup_insert_ne; [done|]. intros E. rewrite E in *. congruence.
Qed.
End Life.
