(* ===== verification/ProcSteps.v ===== *)
(** All runs of processes that are created, sleep in [do_waitpid], exit and are
    reaped: the invariant holds throughout, and the pointer to a child that
    [do_waitpid] keeps while it sleeps never dangles. *)
From S2P Require Import Prelude.
From S2P Require Import Platform.
From S2P Require Import Sched.
From S2P Require Import SchedInv.
From S2P Require Import ProcSched.
From S2P Require Import MmIface.
From S2P Require Import Vmmap.
From S2P Require Import Areas.
From S2P Require Import VmmapFacts.
From S2P Require Import VmmapThms.
From S2P Require Import Proc.
From S2P Require Import ProcInv.
From S2P Require Import ProcIds.
From S2P Require Import ProcCreate.
From S2P Require Import ProcThread.
From S2P Require Import ForkVm.
From S2P Require Import ProcFork.
From S2P Require Import ProcFam.
From S2P Require Import ProcExit.
From S2P Require Import ProcReap.
From S2P Require Import ProcWait.
Open Scope Z_scope.

Section Steps.
Context `{P : Platform} `{!PlatformOk P} {C : ProcConst} `{!ProcConstOk C} {MM FS : Type}.
Context `{!MmOps MM} `{!MmLaws MM} `{!MmGrow MM} `{!ProcOps MM} `{!ProcLaws MM} `{!FsOps FS} `{!FsLaws FS}.
Context (intr_wait : sched -> sched) (irqs : nat).
Context (Hintr : intr_pres intr_wait) (Hkeep : forall s, idle_ok s -> keeps_threads s (intr_wait s)).
Implicit Types (k : kern (MM := MM) (FS := FS)) (F : list Z) (R V O : gmultiset Z).

(** The kernel, and the threads that sleep in [do_waitpid] for a child: the pointer
    to the child and its number. *)
Record pconf := PConf { pk : kern (MM := MM) (FS := FS); wait_for : gmap Z (Z * Z) }.

Definition cur_of k : option proc := procs k !! curproc (ks k).

Inductive pstep : pconf -> pconf -> Prop :=
| st_create name p k k' w :
    w !! curthr (ks k) = None -> Z.of_nat (length name) < PROC_NAME_LEN -> ~ create_short k -> (exists pid, next_free k pid) ->
    proc_create name k = Ok p k' -> pstep (PConf k w) (PConf k' w)
| st_thread p x func a1 a2 t k k' w :
    w !! curthr (ks k) = None -> procs k !! p = Some x -> p_threads x = [] -> ~ thread_short (kvm k) ->
    kthread_create p func a1 a2 k = Ok t k' -> pstep (PConf k w) (PConf k' w)
| st_ready t kt k k' w :
    threads (ks k) !! t = Some kt -> kt_state kt = KT_NO_STATE -> kt_wchan kt = None ->
    on_sched (sched_make_runnable t) k = Ok tt k' -> pstep (PConf k w) (PConf k' w)
| st_exit status x k k' w :
    w !! curthr (ks k) = None -> cur_of k = Some x -> p_pid x <> PID_IDLE -> p_pid x <> PID_INIT ->
    do_exit intr_wait irqs status k = Ok tt k' -> pstep (PConf k w) (PConf k' w)
| st_wait pid options r st k k' w :
    w !! curthr (ks k) = None -> do_waitpid intr_wait irqs pid options k = Ok (WaitReturned r st) k' -> pstep (PConf k w) (PConf k' w)
| st_wait_any k k' w :
    w !! curthr (ks k) = None -> do_waitpid intr_wait irqs (-1) 0 k = Ok WaitSwitched k' -> pstep (PConf k w) (PConf k' w)
| st_wait_pid c x y pid k k' w :
    w !! curthr (ks k) = None -> cur_of k = Some y -> c ∈ p_children y -> procs k !! c = Some x -> p_pid x = pid ->
    do_waitpid intr_wait irqs pid 0 k = Ok WaitSwitched k' -> pstep (PConf k w) (PConf k' (<[curthr (ks k) := (c, pid)]> w))
| st_again_any r k k' w :
    w !! curthr (ks k) = None -> wait_any intr_wait irqs k = Ok r k' -> pstep (PConf k w) (PConf k' w)
| st_again_pid c pid r st k k' w :
    w !! curthr (ks k) = Some (c, pid) -> wait_pid intr_wait irqs c pid k = Ok (WaitReturned r st) k' ->
    pstep (PConf k w) (PConf k' (delete (curthr (ks k)) w))
| st_sleep_pid c pid k k' w :
    w !! curthr (ks k) = Some (c, pid) -> wait_pid intr_wait irqs c pid k = Ok WaitSwitched k' -> pstep (PConf k w) (PConf k' w)
| st_fork regs x r k k' w :
    w !! curthr (ks k) = None -> cur_of k = Some x -> p_cwd x <> NULL -> vfs_root_vn (kfs k) <> NULL -> 7 < PROC_NAME_LEN ->
    ~ fork_short k -> (exists pid, next_free k pid) -> do_fork regs k = Ok r k' -> pstep (PConf k w) (PConf k' w).

(** ** The pointer stays good *)

(** Thread [t] belongs to a running process that has the child [c], whose number is [pid]. *)
Definition has_child k (t c pid : Z) : Prop :=
  exists kt y x, threads (ks k) !! t = Some kt /\ procs k !! kt_proc kt = Some y /\ p_state y = PROC_RUNNING /\
    c ∈ p_children y /\ procs k !! c = Some x /\ p_pid x = pid.

Record life_ok F R V O (c : pconf) : Prop := {
  lo_kern : kern_ok F R V O (pk c);
  lo_init : proc_initproc (pk c) <> NULL;
  lo_child : forall t ch pid, wait_for c !! t = Some (ch, pid) -> has_child (pk c) t ch pid
}.

Lemma has_child_keeps_in G k k' t c pid : procs k' = procs k -> keeps_in G (ks k) (ks k') -> has_child k t c pid -> has_child k' t c pid.
Proof.
  intros E Hs (kt & y & x & Ht & Hy & Hr & Hc & Hx & Hp). destruct (keeps_in_fwd _ _ _ _ _ Hs Ht) as (kt' & Ht' & Ekp & _).
  exists kt', y, x. rewrite E, Ekp. by split_and!.
Qed.
Lemma has_child_keeps k k' t c pid : procs k' = procs k -> keeps_threads (ks k) (ks k') -> has_child k t c pid -> has_child k' t c pid.
Proof. intros E Hs. by apply (has_child_keeps_in []), keeps_threads_in. Qed.

Lemma other_proc F R V O k t kt : kern_ok F R V O k -> threads (ks k) !! t = Some kt -> t <> curthr (ks k) -> kt_proc kt <> curproc (ks k).
Proof.
  intros Hk Ht Hn E. destruct (cur_running _ _ _ _ _ Hk) as (x & kc & Hx & _ & Hth & _).
  destruct (to_thread _ _ _ (ko_thr _ _ _ _ _ Hk) _ _ Ht) as (_ & _ & z & Hz & Hzt & _). rewrite E, Hx in Hz. congruence.
Qed.

Lemma has_child_created name k p k' t c pid : created name k p k' -> has_child k t c pid -> has_child k' t c pid.
Proof.
  intros (pid' & pd & cwd & m & y0 & v' & fs' & _ & Hy0 & Hp & _ & _ & _ & _ & ->) (kt & y & x & Ht & Hy & Hr & Hc & Hx & Hpid). cbn.
  destruct (with_child_old _ p _ (new_proc name pid' (curproc (ks k)) pd cwd m (p_brk y0) (p_start_brk y0)) _ Hp Hy0 _ _ Hy) as (l & Hl & Hsub).
  destruct (with_child_old _ p _ (new_proc name pid' (curproc (ks k)) pd cwd m (p_brk y0) (p_start_brk y0)) _ Hp Hy0 _ _ Hx) as (l' & Hl' & _).
  exists kt, (pset_children l y), (pset_children l' x). split_and!; try done. by apply Hsub.
Qed.

Lemma has_child_forked regs k x n p u k' t c pid : procs k !! curproc (ks k) = Some x -> forks regs k x n p u k' -> has_child k t c pid -> has_child k' t c pid.
Proof.
  intros Hx [_ (np & Hp & _) (x' & Hx' & ->) (_ & _ & Hu & _) (Ho & Ht & _)] (kt & y & z & Hkt & Hy & Hr & Hc & Hz & Hpid).
  assert (forall q w, procs k !! q = Some w -> exists l, procs k' !! q = Some (pset_children l w) /\ p_children w ⊆ l) as Hw.
  { intros q w Hq. destruct (decide (q = curproc (ks k))) as [->|Hn].
    - rewrite Hx in Hq. injection Hq as <-. exists (p :: p_children x). split; [done|]. set_solver.
    - exists (p_children w). rewrite Ho by congruence. rewrite Hq. split; [by destruct w|done]. }
  destruct (Hw _ _ Hy) as (l & Hl & Hsub), (Hw _ _ Hz) as (l' & Hl' & _). exists kt, (pset_children l y), (pset_children l' z).
  rewrite Ht by congruence. split_and!; try done. by apply Hsub.
Qed.

Lemma has_child_threaded p k u k' t c pid : threaded p k u k' -> has_child k t c pid -> has_child k' t c pid.
Proof.
  intros (x0 & stack & cx & v' & Hx0 & Hu & _ & _ & _ & ->) (kt & y & x & Ht & Hy & Hr & Hc & Hx & Hpid). cbn.
  assert (forall q z, procs k !! q = Some z -> exists th, <[p := pset_threads [u] x0]> (procs k) !! q = Some (pset_threads th z)) as Hw.
  { intros q z Hz. destruct (decide (p = q)) as [<-|Hn]; [exists [u]; rewrite lookup_insert_eq; congruence|].
    exists (p_threads z). rewrite lookup_insert_ne by done. rewrite Hz. by destruct z. }
  destruct (Hw _ _ Hy) as (th & Hth), (Hw _ _ Hx) as (th' & Hth'). exists kt, (pset_threads th y), (pset_threads th' x).
  split_and!; try done. cbn. rewrite lookup_insert_ne by congruence. done.
Qed.

Lemma has_child_exit F R V O k status x k1 t c pid : kern_ok F R V O k -> proc_initproc k <> NULL -> procs k !! curproc (ks k) = Some x ->
  p_pid x <> PID_IDLE -> p_pid x <> PID_INIT -> exits status k x k1 -> t <> curthr (ks k) -> has_child k t c pid -> has_child k1 t c pid.
Proof.
  intros Hk Hini Hx Hid Hin [Ep _ _ _ (kc & Hkc & Hwo)] Hn (kt & y & z & Ht & Hy & Hr & Hc & Hz & Hpid).
  pose proof (other_proc _ _ _ _ _ _ _ Hk Ht Hn) as Hpn. pose proof (ko_fam _ _ _ _ _ Hk) as Hf.
  destruct (cur_running _ _ _ _ _ Hk) as (x' & _ & Hx' & Hrun & _). rewrite Hx in Hx'. injection Hx' as <-.
  destruct (keeps_threads_fwd _ _ t kt (wo_keeps _ _ _ Hwo)) as (kt' & Ht' & Ekp & _); [cbn; by rewrite lookup_insert_ne|].
  destruct (exited_parent (procs k) (proc_list k) (proc_initproc k) (curproc (ks k)) status x Hf Hx Hrun Hid Hin Hini _ _ Hpn Hy Hr) as (y' & Hy' & Hr' & Hsub & _).
  assert (exists z', procs k1 !! c = Some z' /\ p_pid z' = pid) as (z' & Hz' & Hp').
  { rewrite Ep. destruct (decide (c = curproc (ks k))) as [->|Hnc]; [exists (dead status x); rewrite exited_cur; split; [done|]; cbn; congruence|].
    eexists. split; [by apply exited_old|]. rewrite (proj1 (reparented_same _ _ c z)). done. }
  exists kt', y', z'. rewrite Ekp, Ep. rewrite Ep in Hz'. split_and!; try done. by apply Hsub.
Qed.

Lemma has_child_reap F R V O k d x y u k' t c pid : kern_ok F R V O k -> procs k !! curproc (ks k) = Some y -> procs k !! d = Some x ->
  d ∈ p_children y -> p_threads x = [u] -> p_state x = PROC_DEAD -> reaps k d y u k' -> t <> curthr (ks k) -> has_child k t c pid -> has_child k' t c pid.
Proof.
  intros Hk Hy Hx Hd Hu Hxd (v' & _ & ->) Hn (kt & yt & z & Ht & Hyt & Hr & Hc & Hz & Hpid).
  pose proof (other_proc _ _ _ _ _ _ _ Hk Ht Hn) as Hpn. pose proof (ko_fam _ _ _ _ _ Hk) as Hf.
  destruct (cur_running _ _ _ _ _ Hk) as (y' & _ & Hy' & Hrun & _). rewrite Hy in Hy'. injection Hy' as <-.
  assert (p_pproc z = kt_proc kt) as Hzp. { destruct (fo_children _ _ _ Hf _ _ Hyt Hr) as [_ H]. destruct (H c Hc) as (z' & ? & ?). congruence. }
  assert (c <> d) as Hcd. { intros ->. pose proof (reaped_parent _ _ _ _ _ _ _ Hf Hx Hy Hrun Hd). congruence. }
  assert (kt_proc kt <> d) as Hkd by congruence.
  assert (u <> t) as Hut. { intros ->. destruct (to_thread _ _ _ (ko_thr _ _ _ _ _ Hk) _ _ Ht) as (_ & _ & w & Hw & Hwt & _).
    destruct (to_proc _ _ _ (ko_thr _ _ _ _ _ Hk) _ _ Hx) as [[? _]|(u' & ku' & A & B & D)]; [congruence|]. rewrite Hu in A. injection A as <-. congruence. }
  destruct (reaped_old (procs k) (curproc (ks k)) d y Hy _ _ Hkd Hyt) as (l & Hl & Hm), (reaped_old (procs k) (curproc (ks k)) d y Hy _ _ Hcd Hz) as (l' & Hl' & _).
  exists kt, (pset_children l yt), (pset_children l' z). cbn. split_and!; try done; [by rewrite lookup_delete_ne|]. apply Hm. split; [done|]. done.
Qed.

Lemma has_child_asleep k t c pid : has_child k t c pid -> has_child (set_ks (asleep k) k) t c pid.
Proof.
  intros (kt & y & x & Ht & H). unfold asleep, has_child. cbn [ks procs set_ks].
  destruct (threads (ks k) !! curthr (ks k)) as [kc|] eqn:Hc; [|by exists kt, y, x].
  destruct (decide (curthr (ks k) = t)) as [<-|Hn].
  - rewrite Ht in Hc. injection Hc as ->. eexists (linked _ _), y, x. cbn. rewrite lookup_insert_eq. split; [done|exact H].
  - exists kt, y, x. cbn. rewrite lookup_insert_ne by done. done.
Qed.

(** What a call that sleeps leaves. *)
Lemma waits_result F R V O k m r k' : kern_ok F R V O k -> waits intr_wait irqs k m -> m = Ok r k' ->
  r = WaitSwitched /\ kern_ok F R V O k' /\ proc_initproc k' = proc_initproc k /\ forall t c pid, has_child k t c pid -> has_child k' t c pid.
Proof.
  intros Hk -> E. apply bind_Ok_inv in E as ([] & k1 & E & E'). unfold mret, M_ret in E'. injection E' as <- <-.
  destruct (switch_ok intr_wait irqs Hintr Hkeep _ _ _ _ _ _ (kern_asleep _ _ _ _ _ Hk) E) as (Hk1 & s' & -> & _ & Hks).
  split_and!; [done|done|done|]. intros t c pid H. eapply has_child_keeps; [| |apply has_child_asleep, H]; done.
Qed.

(** What a call that collected a child leaves. *)
Lemma collects_result F R V O k c x y r k' : kern_ok F R V O k -> procs k !! curproc (ks k) = Some y -> procs k !! c = Some x -> c ∈ p_children y ->
  p_state x = PROC_DEAD -> collects k c x y r k' ->
  (exists n st, r = WaitReturned n st) /\ proc_initproc k' = proc_initproc k /\
  forall t d pid, t <> curthr (ks k) -> has_child k t d pid -> has_child k' t d pid.
Proof.
  intros Hk Hy Hx Hc Hd [-> (u & Hu & Hr)]. split_and!; [eauto|by destruct Hr as (v' & _ & ->)|].
  intros t d pid Hn. by eapply has_child_reap.
Qed.

(** A round of waiting keeps everything, whatever its outcome. *)
Definition wait_ends F R V O k (r : waited) k' : Prop :=
  kern_ok F R V O k' /\ proc_initproc k' = proc_initproc k /\
  (forall t c pid, t <> curthr (ks k) -> has_child k t c pid -> has_child k' t c pid) /\
  (r = WaitSwitched -> forall t c pid, has_child k t c pid -> has_child k' t c pid).

Lemma wait_ends_slept F R V O k m r k' : kern_ok F R V O k -> waits intr_wait irqs k m -> m = Ok r k' -> wait_ends F R V O k r k'.
Proof. intros Hk Hw E. destruct (waits_result _ _ _ _ _ _ _ _ Hk Hw E) as (-> & ? & ? & H). by split_and!; auto. Qed.
Lemma wait_ends_collected F R V O k c x y r k' : kern_ok F R V O k -> procs k !! curproc (ks k) = Some y -> procs k !! c = Some x -> c ∈ p_children y ->
  p_state x = PROC_DEAD -> collects k c x y r k' -> kern_ok F R V O k' -> wait_ends F R V O k r k'.
Proof.
  intros Hk Hy Hx Hc Hd Hcol Hk'. destruct (collects_result _ _ _ _ _ _ _ _ _ _ Hk Hy Hx Hc Hd Hcol) as ((n & st & ->) & ? & ?). by split_and!.
Qed.
Lemma wait_ends_same F R V O k n st : kern_ok F R V O k -> wait_ends F R V O k (WaitReturned n st) k.
Proof. intros Hk. by split_and!. Qed.

Lemma wait_any_ends F R V O k r k' : kern_ok F R V O k -> wait_any intr_wait irqs k = Ok r k' -> wait_ends F R V O k r k'.
Proof.
  intros Hk E. destruct (cur_running _ _ _ _ _ Hk) as (y & _ & Hy & _).
  destruct (wait_any_cases intr_wait irqs F R V O k y Hk Hy) as ([c|] & Hd & H); [|by eapply wait_ends_slept].
  destruct H as (x & r0 & k0 & Hx & E0 & Hcol & Hk0). rewrite E0 in E. injection E as <- <-. destruct Hd as (l1 & l2 & x' & El & Hx' & Hxd & _).
  rewrite Hx in Hx'. injection Hx' as <-. eapply wait_ends_collected; eauto. rewrite El. apply elem_of_app. right. by left.
Qed.

Lemma wait_pid_ends F R V O k y c x r k' : kern_ok F R V O k -> procs k !! curproc (ks k) = Some y -> c ∈ p_children y -> procs k !! c = Some x ->
  wait_pid intr_wait irqs c (p_pid x) k = Ok r k' -> wait_ends F R V O k r k'.
Proof.
  intros Hk Hy Hc Hx E. pose proof (wait_pid_cases intr_wait irqs F R V O k y c x Hk Hy Hc Hx) as H. destruct (p_state x) eqn:Hs.
  - by eapply wait_ends_slept.
  - destruct H as (r0 & k0 & E0 & Hcol & Hk0). rewrite E0 in E. injection E as <- <-. by eapply wait_ends_collected.
Qed.

Lemma do_waitpid_ends F R V O k pid options r k' : kern_ok F R V O k -> do_waitpid intr_wait irqs pid options k = Ok r k' -> wait_ends F R V O k r k'.
Proof.
  intros Hk E. destruct (cur_running _ _ _ _ _ Hk) as (y & _ & Hy & _). unfold do_waitpid, get_curproc in E.
  destruct (negb (options =? 0)); [unfold mret, M_ret in E; injection E as <- <-; by apply wait_ends_same|].
  destruct (pid =? -1); [|destruct (0 <? pid); [|unfold mret, M_ret in E; injection E as <- <-; by apply wait_ends_same]].
  - rewrite gets_bind, (bind_ok _ _ _ _ _ (prc_ok _ _ _ Hy)) in E.
    case_bool_decide; [unfold mret, M_ret in E; injection E as <- <-; by apply wait_ends_same|by apply wait_any_ends].
  - rewrite gets_bind, (bind_ok _ _ _ _ _ (prc_ok _ _ _ Hy)) in E.
    case_bool_decide; [unfold mret, M_ret in E; injection E as <- <-; by apply wait_ends_same|].
    destruct (find_pid_ok pid (p_children y) k) as (d & Ed & Hd).
    { intros c Hc. destruct (cur_running _ _ _ _ _ Hk) as (y' & _ & Hy' & Hr & _). rewrite Hy in Hy'. injection Hy' as <-.
      destruct (fo_children _ _ _ (ko_fam _ _ _ _ _ Hk) _ _ Hy Hr) as [_ Hch]. destruct (Hch c Hc) as (x & ? & _). eauto. }
    rewrite (bind_ok _ _ _ _ _ Ed) in E. destruct d as [c|]; [|unfold mret, M_ret in E; injection E as <- <-; by apply wait_ends_same].
    destruct Hd as (x & Hc & Hx & <-). by eapply wait_pid_ends.
Qed.

Lemma life_wait F R V O k w r k' : life_ok F R V O (PConf k w) -> wait_ends F R V O k r k' -> w !! curthr (ks k) = None \/ r = WaitSwitched ->
  life_ok F R V O (PConf k' w).
Proof.
  intros [Hk Hi Hc] (Hk' & Ei & H1 & H2) Hr. split; cbn in *; [done|congruence|]. intros t c pid Ht.
  destruct Hr as [Hr|Hr]; [|by apply (H2 Hr), Hc]. apply H1; [|by apply Hc]. intros ->. congruence.
Qed.

Lemma pstep_ok F R V O c c' : pstep c c' -> life_ok F R V O c -> life_ok F R V O c'.
Proof.
  intros Hst Hl. pose proof Hl as [Hk Hi Hc]. destruct Hst; cbn [pk wait_for] in *.
  - destruct (proc_create_cases F R V O k name Hk Hi) as [(p' & k1 & E & Hcr & Hk1)|[Hall|?]]; [done| |destruct H2 as [pid Hfree]|done].
    + rewrite H3 in E. injection E as <- <-. split; cbn; [done| |].
      * by destruct Hcr as (? & ? & ? & ? & ? & ? & ? & _ & _ & _ & _ & _ & _ & _ & ->).
      * intros t ch pid Ht. eapply has_child_created; [exact Hcr|by apply Hc].
    + pose proof (next_free_range _ _ _ _ _ _ Hk Hi Hfree) as Hp. destruct Hfree as (_ & _ & _ & Hn & _). destruct Hn. apply Hall. lia.
  - destruct (kthread_create_cases F R V O k p x func a1 a2 Hk H0 H1) as [(t' & k1 & E & Hth & Hk1)|?]; [|done].
    rewrite H3 in E. injection E as <- <-. split; cbn; [done| |].
    + by destruct Hth as (? & ? & ? & ? & _ & _ & _ & _ & _ & ->).
    + intros u ch pid Hu. eapply has_child_threaded; [exact Hth|by apply Hc].
  - destruct (kern_make_runnable _ _ _ _ _ _ _ Hk H H0 H1) as (E & Hk1 & Hks). rewrite E in H2. injection H2 as <-.
    split; cbn; [exact Hk1|done|]. intros u ch pid Hu. eapply has_child_keeps; [| |by apply Hc]; done.
  - destruct (exit_runs intr_wait irqs F R V O k status x Hk H0 H1 H2 Hi) as (k1 & E & Hidle & Hex). rewrite E in H3.
    destruct (switch_ok intr_wait irqs Hintr Hkeep _ _ _ _ _ _ Hidle H3) as (Hk' & s' & -> & _ & Hks).
    split; cbn; [done|by rewrite (proj2 (ex_list _ _ _ _ Hex))|]. intros t ch pid Ht.
    eapply (has_child_keeps k1); [done|exact Hks|]. eapply has_child_exit; [exact Hk|done|exact H0|done|done|exact Hex| |by apply Hc]. intros ->. congruence.
  - eapply life_wait; [exact Hl|exact (do_waitpid_ends _ _ _ _ _ _ _ _ _ Hk H0)|by left].
  - eapply life_wait; [exact Hl|exact (do_waitpid_ends _ _ _ _ _ _ _ _ _ Hk H0)|by left].
  - destruct (do_waitpid_ends F R V O _ _ _ _ _ Hk H4) as (Hk' & Ei & _ & H5). split; cbn; [done|congruence|].
    intros t ch pid' Ht. apply H5; [done|]. apply lookup_insert_Some in Ht as [[<- [= <- <-]]|[_ Ht]]; [|by apply Hc].
    destruct (cur_running _ _ _ _ _ Hk) as (y' & kc & Hy' & Hr & _ & Hkc & Hkp & _). unfold cur_of in H0. rewrite H0 in Hy'. injection Hy' as <-.
    exists kc, y, x. rewrite Hkp. by split_and!.
  - eapply life_wait; [exact Hl|exact (wait_any_ends _ _ _ _ _ _ _ Hk H0)|by left].
  - destruct (Hc _ _ _ H) as (kc & y & x & Hkc & Hy & Hr & Hcin & Hx & <-).
    destruct (cur_running _ _ _ _ _ Hk) as (y' & kc' & Hy' & _ & _ & Hkc' & Hkp & _). rewrite Hkc in Hkc'. injection Hkc' as <-. rewrite Hkp in Hy.
    destruct (wait_pid_ends F R V O _ _ _ _ _ _ Hk Hy Hcin Hx H0) as (Hk' & Ei & H5 & _). split; cbn; [done|congruence|].
    intros t ch pid' [Hn Ht]%lookup_delete_Some. apply H5; [done|by apply Hc].
  - destruct (Hc _ _ _ H) as (kc & y & x & Hkc & Hy & Hr & Hcin & Hx & <-).
    destruct (cur_running _ _ _ _ _ Hk) as (y' & kc' & Hy' & _ & _ & Hkc' & Hkp & _). rewrite Hkc in Hkc'. injection Hkc' as <-. rewrite Hkp in Hy.
    eapply life_wait; [exact Hl|exact (wait_pid_ends _ _ _ _ _ _ _ _ _ _ Hk Hy Hcin Hx H0)|by right].
  - destruct (do_fork_cases F R V O k x regs Hk Hi H0 H1 H2 H3) as [(n & p & u & k1 & E & Hfk & Hk1)|[Hall|?]]; [| |done].
    + rewrite H6 in E. injection E as -> <-. pose proof (fk_others _ _ _ _ _ _ _ Hfk) as (_ & _ & _ & Ei). split; cbn; [done|by rewrite Ei|].
      intros t ch pid Ht. eapply has_child_forked; [exact H0|exact Hfk|by apply Hc].
    + destruct H5 as [pid Hfree]. pose proof (next_free_range _ _ _ _ _ _ Hk Hi Hfree) as Hp. destruct Hfree as (_ & _ & _ & Hn & _). destruct Hn. apply Hall. lia.
Qed.

Lemma psteps_ok F R V O c c' : rtc pstep c c' -> life_ok F R V O c -> life_ok F R V O c'.
Proof. induction 1; eauto using pstep_ok. Qed.
End Steps.
