(* ===== verification/KernSched.v ===== *)
(** Threads of processes sleep, wake each other, lock mutexes, cancel and yield: the
    operations of [Sched] as steps of the kernel.  They leave processes alone, except that
    the current thread may go to sleep on a queue that is not a process's. *)
From S2P Require Import Prelude.
From S2P Require Import Platform.
From S2P Require Import Sched.
From S2P Require Import SchedInv.
From S2P Require Import SchedSteps.
From S2P Require Import ProcSched.
Open Scope Z_scope.

Section KernSched.
Context `{P : Platform} (intr_wait : sched -> sched) (irqs : nat).
Context (Hintr : intr_pres intr_wait) (Hkeep : forall s, idle_ok s -> keeps_threads s (intr_wait s)).
Implicit Types (s : sched) (G : list Z).

(** An operation of the current thread, as far as the next switch or its end. *)
Inductive sched_step G s s' : Prop :=
| ss_lock m r : kmutex_lock intr_wait irqs m s = Ok r s' -> sched_step G s s'
| ss_lockc m r : kmutex_lock_cancellable intr_wait irqs m s = Ok r s' -> sched_step G s s'
| ss_lockc_resume m v : kmutex_lock_cancellable_resume m s = Ok v s' -> sched_step G s s'
| ss_unlock m : kmutex_unlock m s = Ok tt s' -> sched_step G s s'
| ss_sleep a : a ∈ G -> sched_sleep_on intr_wait irqs (waitq a) s = Ok tt s' -> sched_step G s s'
| ss_csleep a r : a ∈ G -> sched_cancellable_sleep_on intr_wait irqs (waitq a) s = Ok r s' -> sched_step G s s'
| ss_csleep_resume v : sched_cancellable_sleep_on_resume s = Ok v s' -> sched_step G s s'
| ss_wakeup a t : sched_wakeup_on (waitq a) s = Ok t s' -> sched_step G s s'
| ss_broadcast a : sched_broadcast_on (waitq a) s = Ok tt s' -> sched_step G s s'
| ss_cancel t v : t <> curthr s -> kthread_cancel_other t v s = Ok tt s' -> sched_step G s s'
| ss_yield : thr_yield intr_wait irqs s = Ok tt s' -> sched_step G s s'.

(** The current process is that of the current thread. *)
Definition cur_matches s : Prop := exists kt, threads s !! curthr s = Some kt /\ curproc s = kt_proc kt.
Definition moves G s s' : Prop := sched_ok s' /\ keeps_in G s s' /\ cur_matches s'.

(** An operation that does not switch. *)
Lemma moves_stay G s s' : cur_matches s -> sched_ok s' -> keeps_in G s s' -> curthr s' = curthr s -> curproc s' = curproc s -> moves G s s'.
Proof.
  intros (kt & Hkt & Hc) Hs Hk E1 E2. split_and!; [done|done|]. destruct (keeps_in_fwd _ _ _ _ _ Hk Hkt) as (kt' & Hkt' & E & _). exists kt'. rewrite E1, E2, E. done.
Qed.
Lemma moves_refl G s : cur_matches s -> sched_ok s -> moves G s s.
Proof. intros Hc Hs. apply moves_stay; [done|done|reflexivity|done|done]. Qed.
Lemma moves_switch G s se s' : idle_ok se -> is_Some (threads se !! curthr se) -> keeps_in G s se -> sched_switch intr_wait irqs se = Ok tt s' -> moves G s s'.
Proof.
  intros Hi Hc Hk E. destruct (switch_keeps _ _ Hintr Hkeep _ _ E Hi Hc) as (K & Hs & Hm). split_and!; [done| |done]. etransitivity; [exact Hk|by apply keeps_threads_in].
Qed.

(** A thread on a queue has not exited. *)
Lemma queued_lives s t k q : idle_ok s -> threads s !! t = Some k -> kt_wchan k = Some q -> kt_state k <> KT_EXITED.
Proof. intros Hi Hk Hq E. pose proof (io_state _ Hi t k q Hk Hq) as H. rewrite E in H. destruct q; cbn in H; naive_solver. Qed.

(** The current thread goes to sleep on [q]. *)
Lemma enq_keeps_in G q x k s : threads s !! curthr s = Some k -> kt_state k = KT_RUN -> x <> KT_EXITED -> (forall a, q = waitq a -> a ∈ G) ->
  keeps_in G s (enq q (curthr s) (with_state x k) s).
Proof.
  intros Hk Hst Hx Hq. apply (set_thr_keeps_in G (curthr s) k); [done|]. split_and!; [done|done| |].
  - cbn. rewrite Hst. split; [done|done].
  - intros a [= ->]. right. by apply Hq.
Qed.
Lemma sleep_moves G q s s' : sched_ok s -> q <> kt_runq -> (forall m, q = km_waitq m -> km_holder s m <> NULL /\ km_holder s m <> curthr s) ->
  (forall a, q = waitq a -> a ∈ G) -> sched_sleep_on intr_wait irqs q s = Ok tt s' -> moves G s s'.
Proof.
  intros Hs Hq Hm Hg E. destruct (so_cur _ Hs) as (k & Hk & Hw & Hst).
  unfold sched_sleep_on in E. rewrite gets_bind, (bind_ok _ _ _ _ _ (upd_thr_ok _ _ _ _ Hk)) in E.
  rewrite (bind_ok _ _ _ _ _ (ktqueue_enqueue_ok q _ (with_state KT_SLEEP k) _ (lookup_insert_eq _ _ _) Hw)), enq_set_thr in E.
  eapply moves_switch; [| | |exact E].
  - apply sleep_enq_idle_ok; [done|done|done|destruct q; try done; by left|done].
  - cbn. rewrite lookup_insert_eq. eauto.
  - by apply enq_keeps_in.
Qed.
Lemma csleep_moves G q s s' r : sched_ok s -> cur_matches s -> q <> kt_runq -> (forall m, q = km_waitq m -> km_holder s m <> NULL /\ km_holder s m <> curthr s) ->
  (forall a, q = waitq a -> a ∈ G) -> sched_cancellable_sleep_on intr_wait irqs q s = Ok r s' -> moves G s s'.
Proof.
  intros Hs Hc Hq Hm Hg E. destruct (so_cur _ Hs) as (k & Hk & Hw & Hst).
  unfold sched_cancellable_sleep_on, intr_disable in E. rewrite modify_bind, gets_bind in E. change (curthr (set_intr false s)) with (curthr s) in E.
  rewrite (bind_ok _ _ _ _ _ (thr_ok (curthr s) k (set_intr false s) Hk)) in E. destruct (Z.eqb_spec (kt_cancelled k) 1).
  - injection E as <- <-. apply moves_stay; [done| |by apply keeps_threads_in, same_threads_keep|done|done].
    destruct Hs as [Hi Hcur]. split; [|exact Hcur]. by eapply idle_ok_core; [|exact Hi].
  - rewrite (bind_ok _ _ _ _ _ (ktqueue_enqueue_ok q (curthr s) k (set_intr false s) Hk Hw)) in E.
    rewrite (bind_ok _ _ _ _ _ (upd_thr_ok (curthr s) _ (linked q k) (enq q (curthr s) k (set_intr false s)) (lookup_insert_eq _ _ _))) in E.
    unfold intr_enable in E. rewrite modify_bind in E. apply bind_Ok_inv in E as ([] & s1 & E & [= <- <-]).
    set (se := enq q (curthr s) (with_state KT_SLEEP_CANCELLABLE k) s). set (sx := set_intr true _) in E.
    assert (same_core se sx) as Hcore by (unfold se, sx, same_core; cbn; by rewrite insert_insert_eq).
    assert (idle_ok se) as Hse by (apply sleep_enq_idle_ok; try done; destruct q; [done|by right|by right]).
    eapply moves_switch; [by eapply idle_ok_core| | |exact E].
    + cbn. rewrite lookup_insert_eq. eauto.
    + etransitivity; [apply (enq_keeps_in G q KT_SLEEP_CANCELLABLE k); done|]. apply keeps_threads_in, same_threads_keep. unfold sx. cbn. by rewrite insert_insert_eq.
Qed.

(** A thread is taken off a queue and becomes runnable. *)
Lemma wake_moves G q t k s s' : cur_matches s -> sched_ok s -> sched_ok s' -> threads s !! t = Some k -> kt_wchan k = Some q ->
  threads s' = threads (wake q t k s) -> curthr s' = curthr s -> curproc s' = curproc s -> moves G s s'.
Proof.
  intros Hc Hs Hs' Hk Hw Et E1 E2. apply moves_stay; try done. apply keeps_threads_in. etransitivity; [apply (wake_keeps q t k); [done|]|by apply same_threads_keep].
  by eapply queued_lives; [apply Hs| |].
Qed.
Lemma unlock_moves G m s s' : cur_matches s -> sched_ok s -> kmutex_unlock m s = Ok tt s' -> moves G s s'.
Proof.
  intros Hc Hs E. destruct (unlock_keeps m s s' Hs E) as [Hh [Hs' _]].
  destruct (tq_list (queues s (km_waitq m))) as [|x l _] eqn:Hl using rev_ind.
  - destruct (unlock_alone s m Hs Hh Hl) as [E' _]. rewrite E' in E. injection E as <-. by apply moves_stay; [| |apply keeps_threads_in, same_threads_keep| |].
  - destruct (unlock_waiters s m l x Hs Hh Hl) as (k & Hk & Hw & E' & _). rewrite E' in E. injection E as <-. by eapply wake_moves.
Qed.
Lemma lock_moves G m s s' r : cur_matches s -> sched_ok s -> kmutex_lock intr_wait irqs m s = Ok r s' -> moves G s s'.
Proof.
  intros Hc Hs E. pose proof (lock_keeps intr_wait irqs Hintr m s s' r Hs E) as [[Hs' _] _]. unfold kmutex_lock in E. rewrite get_bind in E.
  apply bind_Ok_inv in E as ([] & s0 & [Ha ->]%kassert_Ok_inv & E). zify_bool. destruct (Z.eqb_spec (km_holder s m) NULL) as [Hn|Hn]; cbn [negb] in E.
  - injection E as <- <-. by apply moves_stay; [| |apply keeps_threads_in, same_threads_keep| |].
  - apply bind_Ok_inv in E as ([] & s1 & E & [= <- <-]). eapply (sleep_moves G (km_waitq m)); [done|done| |done|exact E]. intros m' [= <-]. split; congruence.
Qed.
Lemma lockc_moves G m s s' r : cur_matches s -> sched_ok s -> kmutex_lock_cancellable intr_wait irqs m s = Ok r s' -> moves G s s'.
Proof.
  intros Hc Hs E. pose proof (lockc_keeps intr_wait irqs Hintr m s s' r Hs E) as [[Hs' _] _]. unfold kmutex_lock_cancellable in E. rewrite get_bind in E.
  apply bind_Ok_inv in E as ([] & s0 & [Ha ->]%kassert_Ok_inv & E). zify_bool. destruct (cur_rec s Hs) as (k & Hk & Hw).
  rewrite (bind_ok _ _ _ _ _ (thr_ok _ _ _ Hk)) in E. destruct (Z.eqb_spec (kt_cancelled k) 1) as [Hk1|Hk1]; cbn [negb] in E; [injection E as <- <-; by apply moves_refl|].
  destruct (Z.eqb_spec (km_holder s m) NULL) as [Hn|Hn]; cbn [negb] in E.
  - injection E as <- <-. by apply moves_stay; [| |apply keeps_threads_in, same_threads_keep| |].
  - assert (forall m', km_waitq m = km_waitq m' -> km_holder s m' <> NULL /\ km_holder s m' <> curthr s) as Hm by (intros m' [= <-]; split; congruence).
    apply bind_Ok_inv in E as (r0 & s1 & E0 & E). pose proof (csleep_pres intr_wait irqs Hintr _ _ _ _ _ E0 Hs ltac:(done) Hm Hk) as Hp.
    destruct r0 as [v|]; [by destruct Hp as [? _]|]. injection E as <- <-. by eapply (csleep_moves G (km_waitq m)).
Qed.
Lemma wakeup_moves G a t s s' : cur_matches s -> sched_ok s -> sched_wakeup_on (waitq a) s = Ok t s' -> moves G s s'.
Proof.
  intros Hc Hs E. destruct (wakeup_keeps a t s s' Hs E) as (E1 & Hs' & _). destruct (tq_list (queues s (waitq a))) as [|x l _] eqn:Hl using rev_ind.
  - rewrite wakeup_on_empty in E by done. injection E as _ <-. by apply moves_refl.
  - destruct (wakeup_on_ok (waitq a) s l x (so_idle _ Hs) ltac:(done) Hl) as (k & Hk & Hw & _ & E'). rewrite E' in E. injection E as _ <-. by eapply wake_moves.
Qed.
Lemma moves_trans G s1 s2 s3 : moves G s1 s2 -> moves G s2 s3 -> moves G s1 s3.
Proof. intros (_ & K1 & _) (H & K2 & Hc). split_and!; [done|by etransitivity|done]. Qed.
Lemma broadcast_moves G a n s s' : cur_matches s -> sched_ok s -> sched_broadcast_loop n (waitq a) s = Ok tt s' -> moves G s s'.
Proof.
  revert s. induction n as [|n IH]; intros s Hc Hs; [done|]. cbn [sched_broadcast_loop]. intros (t & s1 & Ew & E)%bind_Ok_inv.
  pose proof (wakeup_moves G _ _ _ _ Hc Hs Ew) as Hm. destruct (t =? NULL); [by injection E as <-|]. destruct Hm as (H1 & H2 & H3) eqn:Em.
  eapply moves_trans; [by split_and!|]. by apply IH.
Qed.
Lemma cancel_moves G t v s s' : cur_matches s -> sched_ok s -> t <> curthr s -> kthread_cancel_other t v s = Ok tt s' -> moves G s s'.
Proof.
  intros Hc Hs Ht E. pose proof (so_idle _ Hs) as Hi. destruct (cancel_keeps t v s s' Hs Ht E) as [Hs' _].
  destruct (cancel_thread _ _ _ _ E) as [k Hk].
  destruct (decide (kt_state k = KT_SLEEP_CANCELLABLE)) as [Hst|Hst].
  - destruct (kt_wchan k) as [q|] eqn:Hw; [|pose proof (cancel_dangling t v k s Hk Hst Hw) as Hd; by rewrite E in Hd].
    pose proof (qo_link _ (io_queue _ Hi) _ _ Hk) as Hq. rewrite Hw in Hq. rewrite (cancel_sleeper t v k q) in E by done. injection E as <-.
    apply moves_stay; try done. apply keeps_threads_in. etransitivity; [apply (set_thr_keeps t k (cancelled v k)); [done|by split_and!]|].
    etransitivity; [apply (wake_keeps q t (cancelled v k)); [apply lookup_insert_eq|by cbn; rewrite Hst]|]. apply same_threads_keep. by rewrite wake_set_thr.
  - rewrite (cancel_plain t v k) in E by done. injection E as <-. apply moves_stay; try done. apply keeps_threads_in, (set_thr_keeps t k (cancelled v k)); [done|by split_and!].
Qed.
Lemma yield_moves G s s' : cur_matches s -> sched_ok s -> thr_yield intr_wait irqs s = Ok tt s' -> moves G s s'.
Proof.
  intros Hc Hs. unfold thr_yield. rewrite gets_bind. intros ([] & s1 & (k & Hk & Hw & ->)%make_runnable_inv & E)%bind_Ok_inv.
  destruct (ready_frame _ k s Hs Hk Hw) as [H1 _]. destruct (so_cur _ Hs) as (k' & Hk' & _ & Hst). rewrite Hk in Hk'. injection Hk' as <-.
  eapply moves_switch; [exact H1|cbn; rewrite lookup_insert_eq; eauto| |exact E]. apply keeps_threads_in, make_runnable_keeps; [done|]. congruence.
Qed.
Lemma csleep_resume_moves G s v s' : cur_matches s -> sched_ok s -> sched_cancellable_sleep_on_resume s = Ok v s' -> moves G s s'.
Proof.
  intros Hc Hs E. destruct (cur_rec s Hs) as (k & Hk & _). unfold sched_cancellable_sleep_on_resume in E. rewrite gets_bind, (bind_ok _ _ _ _ _ (thr_ok _ _ _ Hk)) in E.
  injection E as _ <-. by apply moves_refl.
Qed.
Lemma lockc_resume_moves G m s v s' : cur_matches s -> sched_ok s -> kmutex_lock_cancellable_resume m s = Ok v s' -> moves G s s'.
Proof.
  intros Hc Hs. unfold kmutex_lock_cancellable_resume. intros (r & s1 & E1 & E)%bind_Ok_inv. pose proof (csleep_resume_moves G _ _ _ Hc Hs E1) as H1.
  apply bind_Ok_inv in E as ([] & s2 & E2 & E). injection E as _ <-. unfold when in E2. destruct (r =? - EINTR); [|by injection E2 as <-].
  eapply moves_trans; [exact H1|]. destruct H1 as (? & _ & ?). by eapply unlock_moves.
Qed.

Lemma sched_step_moves G s s' : cur_matches s -> sched_ok s -> sched_step G s s' -> moves G s s'.
Proof.
  intros Hc Hs [m r E|m r E|m v E|m E|a Ha E|a r Ha E|v E|a t E|a E|t v Ht E|E].
  - by eapply lock_moves.
  - by eapply lockc_moves.
  - by eapply lockc_resume_moves.
  - by eapply unlock_moves.
  - eapply sleep_moves; [done| | | |exact E]; [done|done|]. by intros b [= <-].
  - eapply csleep_moves; [done|done| | | |exact E]; [done|done|]. by intros b [= <-].
  - by eapply csleep_resume_moves.
  - by eapply wakeup_moves.
  - unfold sched_broadcast_on in E. rewrite get_bind in E. by eapply broadcast_moves.
  - by eapply cancel_moves.
  - by eapply yield_moves.
Qed.
End KernSched.
