(* ===== verification/ProcKill.v ===== *)
(** Killing processes: [proc_kill] and [proc_kill_all] of [proc/proc.c], which cancel
    the threads of other processes.  Nothing but the scheduler changes, and what it
    does is a run of cancellations, each a step of [KernSched]. *)
From S2P Require Import Prelude.
From S2P Require Import Platform.
From S2P Require Import Sched.
From S2P Require Import SchedInv.
From S2P Require Import SchedSteps.
From S2P Require Import ProcSched.
From S2P Require Import MmIface.
From S2P Require Import Vmmap.
From S2P Require Import Areas.
From S2P Require Import VmmapFacts.
From S2P Require Import VmmapThms.
From S2P Require Import Proc.
From S2P Require Import ProcInv.
From S2P Require Import ProcExit.
From S2P Require Import KernSched.
Open Scope Z_scope.

Section Cancel.
Context `{P : Platform}.
Implicit Types (s : sched).

(** A thread that sleeps cancellably is on the queue it sleeps on. *)
Definition cancellable (kt : kthread) : Prop := kt_state kt = KT_SLEEP_CANCELLABLE -> kt_wchan kt <> None.
(** A cancelled thread, woken up if its sleep could be cancelled. *)
Definition told (v : Z) (kt kt' : kthread) : Prop :=
  kt_cancelled kt' = 1 /\ kt_retval kt' = v /\ kt_proc kt' = kt_proc kt /\ kt_state kt' <> KT_SLEEP_CANCELLABLE /\
  (kt_state kt = KT_SLEEP_CANCELLABLE -> kt_state kt' = KT_RUN /\ kt_wchan kt' = Some kt_runq) /\
  (kt_state kt <> KT_SLEEP_CANCELLABLE -> kt_state kt' = kt_state kt /\ kt_wchan kt' = kt_wchan kt).
(** A cancellation of a thread other than the current one. *)
Definition cancels s s' : Prop := exists t v, t <> curthr s /\ kthread_cancel_other t v s = Ok tt s'.

Lemma cancel_other_ok t v kt s : idle_ok s -> threads s !! t = Some kt -> cancellable kt ->
  exists s' kt', kthread_cancel_other t v s = Ok tt s' /\ threads s' = <[t := kt']> (threads s) /\ told v kt kt' /\
    curthr s' = curthr s /\ curproc s' = curproc s.
Proof.
  intros Hi Hk Hc. destruct (decide (kt_state kt = KT_SLEEP_CANCELLABLE)) as [Hst|Hst].
  - destruct (kt_wchan kt) as [q|] eqn:Hw; [|by destruct (Hc Hst)].
    pose proof (qo_link _ (io_queue _ Hi) _ _ Hk) as Hq. rewrite Hw in Hq. rewrite (cancel_sleeper t v kt q) by done.
    do 2 eexists. split; [done|]. cbn. split; [by rewrite insert_insert_eq|]. by split_and!.
  - rewrite (cancel_plain t v kt) by done. do 2 eexists. split; [done|]. by split_and!.
Qed.
End Cancel.

Section Kill.
Context `{P : Platform} {C : ProcConst} {CO : ProcConstOk C}.
Context {MM FS : Type} `{!MmOps MM} `{!ProcOps MM} `{!FsOps FS} `{!MmLaws MM} `{!ProcLaws MM} `{!FsLaws FS}.
Context (intr_wait : sched -> sched) (irqs : nat).
Implicit Types (k : kern (MM := MM) (FS := FS)) (F : list Z) (R V O : gmultiset Z) (x : proc) (s : sched).

(** A process [proc_kill_all] kills. *)
Definition victim k (p : Z) x : Prop :=
  procs k !! p = Some x /\ p_pid x <> 0 /\ p_pid x <> 1 /\ p_pid x <> 2 /\ p <> curproc (ks k).
(** [s'] is [s] after the threads of the victims in [l] have been told. *)
Definition told_all k (l : list Z) s' : Prop :=
  (forall p x t kt, p ∈ l -> victim k p x -> p_threads x = [t] -> threads (ks k) !! t = Some kt ->
    exists kt', threads s' !! t = Some kt' /\ told NULL kt kt') /\
  (forall t, (forall p x, p ∈ l -> victim k p x -> t ∉ p_threads x) -> threads s' !! t = threads (ks k) !! t).
Definition can_kill k (l : list Z) : Prop := forall p x, p ∈ l -> victim k p x ->
  exists t kt, p_threads x = [t] /\ threads (ks k) !! t = Some kt /\ cancellable kt.
(** [s'] follows from cancellations in a kernel that is as consistent as before. *)
Definition cancels_in F R V O k s' : Prop :=
  rtc cancels (ks k) s' /\ curthr s' = curthr (ks k) /\ curproc s' = curproc (ks k) /\ kern_ok F R V O (set_ks s' k).

Lemma cancels_ok F R V O k s' : kern_ok F R V O k -> cancels (ks k) s' -> kern_ok F R V O (set_ks s' k).
Proof.
  intros Hk (t & v & Ht & E). destruct (cancel_moves F t v _ _ (ko_cur _ _ _ _ _ Hk) (ko_sched _ _ _ _ _ Hk) Ht E) as (Hs & Hm & Hc). by apply kern_set_ks.
Qed.

(** The thread of a process that is not the current one. *)
Lemma other_thread F R V O k p x t kt : kern_ok F R V O k -> procs k !! p = Some x -> p_threads x = [t] -> threads (ks k) !! t = Some kt -> kt_proc kt = p.
Proof.
  intros Hk Hx Hp Ht. destruct (to_proc _ _ _ (ko_thr _ _ _ _ _ Hk) _ _ Hx) as [[E _]|(t' & kt' & E & Ht' & <-)]; rewrite E in Hp; [done|]. simplify_eq. done.
Qed.

(** [proc_kill] of another process cancels its thread. *)
Lemma kill_other F R V O k p x t kt v : kern_ok F R V O k -> procs k !! p = Some x -> p <> curproc (ks k) ->
  p_threads x = [t] -> threads (ks k) !! t = Some kt -> cancellable kt ->
  exists s' kt', proc_kill intr_wait irqs p v k = Ok (Returned 0) (set_ks s' k) /\ threads s' = <[t := kt']> (threads (ks k)) /\
    told NULL kt kt' /\ cancels_in F R V O k s'.
Proof.
  intros Hk Hx Hn Hp Ht Hc. pose proof (other_thread _ _ _ _ _ _ _ _ _ Hk Hx Hp Ht) as Hkp.
  destruct (cancel_other_ok t NULL kt (ks k) (so_idle _ (ko_sched _ _ _ _ _ Hk)) Ht Hc) as (s' & kt' & E & Et & Htold & E1 & E2).
  destruct (ko_cur _ _ _ _ _ Hk) as (kc & Hkc & Ecur). assert (t <> curthr (ks k)) as Hcur by (intros ->; rewrite Ht in Hkc; injection Hkc as <-; congruence).
  assert (cancels (ks k) s') as Hcs by (by exists t, NULL). exists s', kt'. unfold cancels_in. split_and!; [|done|done|by apply rtc_once|done|done|by apply cancels_ok].
  unfold proc_kill, kthread_cancel, get_curproc, get_curthr. rewrite gets_bind. rewrite (proj2 (Z.eqb_neq _ _)) by done.
  rewrite (bind_ok _ _ _ _ _ (prc_ok _ _ _ Hx)), Hp. rewrite (deref_bind _ t) by done.
  rewrite kassert_bind, gets_bind; [|apply negb_true_iff, Z.eqb_neq].
  - rewrite (proj2 (Z.eqb_neq _ _)) by done. by rewrite (bind_ok _ _ _ _ _ (on_sched_ok _ _ _ _ E)).
  - intros <-. destruct (vm_ok_live _ _ _ (ko_vm _ _ _ _ _ Hk)) as [_ []]. apply elem_of_app. left. apply elem_of_app. left. unfold owned.
    apply elem_of_app. right. unfold gather. apply list_elem_of_bind. exists (NULL, kt). split; [by left|]. by apply elem_of_map_to_list.
Qed.

Lemma told_all_skip k p x l s' : procs k !! p = Some x -> ~ victim k p x -> told_all k l s' -> told_all k (p :: l) s'.
Proof.
  intros Hx Hv [H1 H2]. assert (forall q y, victim k q y -> q ∈ p :: l -> q ∈ l) as Hin.
  { intros q y Hq [->|?]%elem_of_cons; [|done]. destruct Hv. destruct Hq as [Hq Hr]. rewrite Hx in Hq. injection Hq as ->. by split. }
  split; [intros q y t kt Hq Hvy; apply (H1 q y); eauto|]. intros t Ht. apply H2. intros q y Hq. apply Ht. by right.
Qed.

(** After a cancellation the victims are the same, and the other ones as they were. *)
Lemma victim_set_ks k s1 p x : curproc s1 = curproc (ks k) -> victim (set_ks s1 k) p x <-> victim k p x.
Proof. intros E. unfold victim. cbn. by rewrite E. Qed.
Lemma other_victim F R V O k p x t kt s1 kt1 q y u : kern_ok F R V O k -> procs k !! p = Some x -> p_threads x = [t] ->
  threads (ks k) !! t = Some kt -> threads s1 = <[t := kt1]> (threads (ks k)) -> procs k !! q = Some y -> q <> p -> p_threads y = [u] ->
  threads s1 !! u = threads (ks k) !! u.
Proof.
  intros Hk Hx Hp Ht E1 Hy Hn Hu. rewrite E1, lookup_insert_ne; [done|]. intros <-.
  pose proof (other_thread _ _ _ _ _ _ _ _ _ Hk Hx Hp Ht). pose proof (other_thread _ _ _ _ _ _ _ _ _ Hk Hy Hu Ht). congruence.
Qed.
Lemma can_kill_rest F R V O k p x t kt s1 kt1 l : kern_ok F R V O k -> procs k !! p = Some x -> p_threads x = [t] ->
  threads (ks k) !! t = Some kt -> threads s1 = <[t := kt1]> (threads (ks k)) -> curproc s1 = curproc (ks k) -> p ∉ l ->
  can_kill k (p :: l) -> can_kill (set_ks s1 k) l.
Proof.
  intros Hk Hx Hp Ht E1 E2 Hn Hc q y Hq Hv%victim_set_ks; [|done]. destruct (Hc q y ltac:(by right) Hv) as (u & ku & Hu & Hku & Hcu).
  exists u, ku. split_and!; [done| |done]. cbn. rewrite <- Hku. eapply (other_victim F R V O k p x t kt s1 kt1 q y); [done..|apply Hv| |done]. by intros ->.
Qed.
Lemma told_all_step F R V O k p x t kt s1 kt1 l s' : kern_ok F R V O k -> victim k p x -> p_threads x = [t] ->
  threads (ks k) !! t = Some kt -> threads s1 = <[t := kt1]> (threads (ks k)) -> told NULL kt kt1 -> curproc s1 = curproc (ks k) -> p ∉ l ->
  told_all (set_ks s1 k) l s' -> told_all k (p :: l) s'.
Proof.
  intros Hk Hv Hp Ht E1 Htold E2 Hn [H1 H2]. cbn in *. pose proof (proj1 Hv) as Hx.
  assert (forall q y, q ∈ l -> procs k !! q = Some y -> t ∉ p_threads y) as Hout.
  { intros q y Hq Hy Hin. destruct (to_proc _ _ _ (ko_thr _ _ _ _ _ Hk) _ _ Hy) as [[E _]|(u & ku & E & _)]; rewrite E in Hin; [by apply elem_of_nil in Hin|].
    apply list_elem_of_singleton in Hin as <-. pose proof (other_thread _ _ _ _ _ _ _ _ _ Hk Hx Hp Ht). pose proof (other_thread _ _ _ _ _ _ _ _ _ Hk Hy E Ht). congruence. }
  split.
  - intros q y u ku [->|Hq]%elem_of_cons Hvy Hu Hku.
    + destruct Hvy as [Hy _]. rewrite Hx in Hy. injection Hy as <-. rewrite Hp in Hu. injection Hu as <-. rewrite Ht in Hku. injection Hku as <-. exists kt1. split; [|done]. rewrite H2; [rewrite E1; apply lookup_insert_eq|].
      intros q y Hq [Hy _]. by apply (Hout q).
    + assert (q <> p) by (intros ->; done). eapply (H1 q y); [done|by apply victim_set_ks|done|]. rewrite <- Hku.
      eapply (other_victim F R V O k p x t kt s1 kt1 q y); [done..|apply Hvy|done|done].
  - intros u Hu. rewrite H2.
    + rewrite E1, lookup_insert_ne; [done|]. intros <-. apply (Hu p x ltac:(by left) Hv). rewrite Hp. by left.
    + intros q y Hq Hvy%victim_set_ks; [|done]. apply (Hu q); [by right|done].
Qed.

Lemma kill_loop F R V O l : forall k, kern_ok F R V O k -> NoDup l -> (forall p, p ∈ l -> is_Some (procs k !! p)) -> can_kill k l ->
  exists s', proc_kill_loop intr_wait irqs l k = Ok (Returned 0) (set_ks s' k) /\ cancels_in F R V O k s' /\ told_all k l s'.
Proof.
  induction l as [|p l IH]; intros k Hk Hnd Hl Hc.
  - exists (ks k). assert (set_ks (ks k) k = k) as E by by destruct k. unfold cancels_in. rewrite E. split_and!; [done|done|done|done|done|].
    split; [by intros p x t kt []%elem_of_nil|done].
  - apply NoDup_cons in Hnd as [Hn Hnd]. destruct (Hl p ltac:(by left)) as [x Hx].
    cbn [proc_kill_loop]. unfold get_curproc. rewrite (bind_ok _ _ _ _ _ (prc_ok _ _ _ Hx)), gets_bind. destruct (_ && _) eqn:Eb.
    + assert (victim k p x) as Hv by (split_and!; [done|zify_bool; intuition congruence..]).
      destruct (Hc p x ltac:(by left) Hv) as (t & kt & Hp & Ht & Hca).
      destruct (kill_other F R V O k p x t kt 0 Hk Hx ltac:(apply Hv) Hp Ht Hca) as (s1 & kt1 & E & Et & Htold & Hr & E1 & E2 & Hk1).
      rewrite (bind_ok _ _ _ _ _ E). destruct (IH (set_ks s1 k) Hk1 Hnd) as (s' & E' & (Hr' & E1' & E2' & Hk') & Ht').
      * intros q Hq. apply (Hl q). by right.
      * by eapply can_kill_rest.
      * exists s'. unfold cancels_in. split_and!; [exact E'|by etransitivity|by etransitivity|by etransitivity|exact Hk'|by eapply told_all_step].
    + destruct (IH k Hk Hnd) as (s' & E' & Hcs & Ht').
      * intros q Hq. apply (Hl q). by right.
      * intros q y Hq. apply Hc. by right.
      * exists s'. split_and!; [done|done|]. apply (told_all_skip k p x); [done| |done]. intros (_ & ? & ? & ? & ?). by rewrite !(proj2 (Z.eqb_neq _ _)) in Eb by congruence.
Qed.

(** C34. proc_kill_all tells the thread of every process but the current one and
    those with numbers 0, 1 and 2 that it is cancelled, with result NULL, and
    makes it runnable if its sleep can be cancelled; no other thread is touched,
    processes, memory and files stay as they are, the kernel stays consistent, and
    the caller goes on. Each of these processes must have a thread, on the queue
    it sleeps on. *)
Theorem proc_kill_all_tells F R V O k : kern_ok F R V O k -> can_kill k (proc_list k) ->
  exists s', proc_kill_all intr_wait irqs k = Ok (Returned 0) (set_ks s' k) /\ kern_ok F R V O (set_ks s' k) /\ curthr s' = curthr (ks k) /\
    (forall p x t kt, victim k p x -> p_threads x = [t] -> threads (ks k) !! t = Some kt -> exists kt', threads s' !! t = Some kt' /\ told NULL kt kt') /\
    (forall t, (forall p x, victim k p x -> t ∉ p_threads x) -> threads s' !! t = threads (ks k) !! t).
Proof.
  intros Hk Hc. pose proof (ko_fam _ _ _ _ _ Hk) as Hf.
  destruct (kill_loop F R V O (proc_list k) k Hk (fo_nodup _ _ _ Hf) (fun p => proj1 (fo_list _ _ _ Hf p)) Hc) as (s' & E & (_ & E1 & _ & Hk') & H1 & H2).
  assert (forall p x, victim k p x -> p ∈ proc_list k) as Hin by (intros p x [Hx _]; apply (fo_list _ _ _ Hf); eauto).
  exists s'. split_and!; [exact E|done|done|intros p x t kt Hv; apply (H1 p x); eauto|]. intros t Ht. apply H2. intros p x _. apply Ht.
Qed.
End Kill.
