(* ===== verification/Store.v ===== *)
(** The file table and the vnode table that all processes share.

    [FsOps] and [FsLaws] say what processes expect of open files and vnodes: that
    references are counted.  Here that is proved of the tables of [Vfs], from what
    [file.c] and [vnode.c], which are not in the repository, promise ([VfsLaws],
    [StoreLaws]): a file has as many references as are held, and a vnode as many as are
    held, as files are open on it and as the file system has itself ([FsRefs]). *)
From S2P Require Import Prelude.
From S2P Require Import Platform.
From S2P Require Import Vfs.
From S2P Require Import VfsThms.
From S2P Require Import Proc.
From S2P Require Import ProcInv.
Open Scope Z_scope.

Section Store.
Context {FS : Type} `{P : Platform} {HP : PlatformOk P} {K : VfsConst} {Vo : VfsOps (FS := FS)} {HV : VfsLaws}.

Record store := Store { st_files : gmap Z file; st_vnodes : gmap Z vnode; st_root : Z; st_fs : FS }.
(** The tables as the process with these descriptors and this working directory sees them. *)
Definition seen (l : list Z) (cwd : Z) (st : store) : vfs FS := Vfs (st_files st) (st_vnodes st) l cwd (st_root st) (st_fs st).
Definition kept (s : vfs FS) : store := Store (files s) (vnodes s) (Vfs.vfs_root_vn s) (fs_state s).
Definition on_tables {A} (m : M (vfs FS) A) : M store A := fun st =>
  match m (seen [] NULL st) with Ok a s => Ok a (kept s) | Halt h s => Halt h (kept s) end.

(** ** Counted references *)

(** The references to vnodes a file system holds itself: for pages of files that are in
    memory, and for mounted roots. *)
Class FsRefs := { fs_refs : FS -> gmultiset Z }.
Context {HFr : FsRefs}.
Implicit Types (st : store) (V O : gmultiset Z).

(** The vnodes the open files refer to. *)
Definition file_vn (_ : Z) (x : file) : list Z := nonnull [f_vnode x].
Definition file_vns (fs : gmap Z file) : gmultiset Z := list_to_set_disj (gather file_vn fs).

(** The references to a vnode that are not the file system's. *)
Definition count_of (vs : gmap Z vnode) (v : Z) : Z := from_option vn_refcount 0 (vs !! v).
Definition refs st (v : Z) : Z := count_of (st_vnodes st) v - Z.of_nat (multiplicity v (fs_refs (st_fs st))).

(** [V] and [O] are the references to vnodes and to files that are held. *)
Record store_ok V O st : Prop := {
  so_null : NULL ∉ V /\ NULL ∉ O;
  so_files : forall f x, st_files st !! f = Some x -> f ∈ O /\ f_refcount x = Z.of_nat (multiplicity f O);
  so_open : forall f, f ∈ O -> is_Some (st_files st !! f);
  so_count : forall v, refs st v = Z.of_nat (multiplicity v (V ⊎ file_vns (st_files st)));
  so_root : st_root st = NULL \/ is_Some (st_vnodes st !! st_root st);
  so_tree : forall d nm v, dirent (st_fs st) d nm = inr v -> v <> NULL /\ is_Some (st_vnodes st !! v)
}.

Definition add_refs (n : Z) (y : vnode) : vnode := Vnode (vn_mode y) (vn_len y) (vn_refcount y + n) (vn_ops y).
Definition st_vn_add (n v : Z) st : store := Store (st_files st) (alter (add_refs n) v (st_vnodes st)) (st_root st) (st_fs st).
Definition st_put_file (f : Z) (x : file) st : store := Store (<[f := x]> (st_files st)) (st_vnodes st) (st_root st) (st_fs st).
Definition st_del_file (f : Z) st : store := Store (delete f (st_files st)) (st_vnodes st) (st_root st) (st_fs st).

Lemma kept_seen l cwd st : kept (seen l cwd st) = st.
Proof. by destruct st. Qed.

(** A vnode somebody refers to is there. *)
Lemma so_held V O st v : store_ok V O st -> v ∈ V ⊎ file_vns (st_files st) -> exists y, st_vnodes st !! v = Some y /\ 0 < vn_refcount y.
Proof.
  intros Hs Hv. pose proof (so_count _ _ _ Hs v) as Hc. unfold refs, count_of in Hc. rewrite elem_of_multiplicity in Hv.
  destruct (st_vnodes st !! v) as [y|]; cbn in Hc; [exists y; split; [done|]|]; lia.
Qed.

Lemma alter_is_Some n v (vs : gmap Z vnode) w : is_Some (alter (add_refs n) v vs !! w) <-> is_Some (vs !! w).
Proof. destruct (decide (v = w)) as [<-|]; [rewrite lookup_alter_eq; apply fmap_is_Some|by rewrite lookup_alter_ne]. Qed.
Lemma refs_vn_add n v st w : is_Some (st_vnodes st !! v) -> refs (st_vn_add n v st) w = refs st w + if decide (w = v) then n else 0.
Proof.
  intros [y Hy]. unfold refs, count_of. cbn. destruct (decide (w = v)) as [->|Hn]; [rewrite lookup_alter_eq, Hy; cbn; lia|]. rewrite lookup_alter_ne by done. lia.
Qed.

(** A vnode gets as many references as are added to those held. *)
Lemma vn_add_store_ok V V' O st n v : store_ok V O st -> is_Some (st_vnodes st !! v) -> NULL ∉ V' ->
  (forall w, Z.of_nat (multiplicity w V') = Z.of_nat (multiplicity w V) + if decide (w = v) then n else 0) -> store_ok V' O (st_vn_add n v st).
Proof.
  intros [[H1 H2] H3 H4 H5 H6 H7] Hv Hn Hm. split; cbn; try done.
  - intros w. rewrite refs_vn_add, H5, !multiplicity_disj_union by done. specialize (Hm w). lia.
  - destruct H6 as [?|?]; [by left|right]. by apply alter_is_Some.
  - intros d nm w Hd. destruct (H7 d nm w Hd). split; [done|]. by apply alter_is_Some.
Qed.
Lemma get_vnode_ok V O st v : store_ok V O st -> v <> NULL -> is_Some (st_vnodes st !! v) -> store_ok (V ⊎ {[+ v +]}) O (st_vn_add 1 v st).
Proof.
  intros Hs Hn Hv. eapply vn_add_store_ok; [exact Hs|done|destruct (so_null _ _ _ Hs); multiset_solver|].
  intros w. rewrite multiplicity_disj_union. case_decide as E; [subst w; rewrite multiplicity_singleton_eq|rewrite multiplicity_singleton_ne by done]; lia.
Qed.
Lemma put_vnode_ok V O st v : store_ok (V ⊎ {[+ v +]}) O st -> store_ok V O (st_vn_add (-1) v st).
Proof.
  intros Hs. eapply vn_add_store_ok; [exact Hs|destruct (so_held _ _ _ v Hs) as (y & ? & _); [multiset_solver|eauto]|destruct (so_null _ _ _ Hs); multiset_solver|].
  intros w. rewrite multiplicity_disj_union. case_decide as E; [subst w; rewrite multiplicity_singleton_eq|rewrite multiplicity_singleton_ne by done]; lia.
Qed.
(** A file changes, and with it the references to it. *)
Lemma put_file_store_ok V O O' st f x x' : store_ok V O st -> st_files st !! f = Some x -> f_vnode x' = f_vnode x ->
  f ∈ O' -> NULL ∉ O' -> (forall g, g <> f -> multiplicity g O' = multiplicity g O) -> f_refcount x' = Z.of_nat (multiplicity f O') ->
  store_ok V O' (st_put_file f x' st).
Proof.
  intros [[H1 H2] H3 H4 H5 H6 H7] Hf Ev Hin Hn Hm Hr.
  assert (file_vns (<[f := x']> (st_files st)) = file_vns (st_files st)) as Efv.
  { apply list_to_set_disj_perm, (gather_update _ _ _ x); [done|]. unfold file_vn. by rewrite Ev. }
  assert (forall g, g <> f -> g ∈ O' <-> g ∈ O) as Hg by (intros g Hne; by rewrite !elem_of_multiplicity, Hm).
  split; cbn; try rewrite Efv; try done.
  - intros g z. rewrite lookup_insert. case_decide as E; [intros [= <-]; by subst g|]. intros Hz. destruct (H3 g z Hz) as [A B].
    split; [by apply Hg|]. by rewrite Hm.
  - intros g Hgo. rewrite lookup_insert. case_decide; [eauto|]. by apply H4, Hg.
Qed.
Lemma file_vns_delete fs f x : fs !! f = Some x -> file_vns fs = list_to_set_disj (file_vn f x) ⊎ file_vns (delete f fs).
Proof. intros Hf. unfold file_vns. rewrite <- list_to_set_disj_app. by apply list_to_set_disj_perm, gather_delete. Qed.
Lemma file_vns_insert fs f x : fs !! f = None -> file_vns (<[f := x]> fs) = list_to_set_disj (file_vn f x) ⊎ file_vns fs.
Proof. intros Hf. unfold file_vns. rewrite <- list_to_set_disj_app. by apply list_to_set_disj_perm, gather_insert. Qed.

Lemma nonnull_mult a w : multiplicity w (list_to_set_disj (nonnull [a]) : gmultiset Z) = if decide (a <> NULL /\ w = a) then 1%nat else 0%nat.
Proof.
  unfold nonnull. destruct (decide (a = NULL)) as [->|Ha].
  - rewrite filter_cons_False, filter_nil by naive_solver. rewrite decide_False by naive_solver. apply multiplicity_empty.
  - rewrite filter_cons_True, filter_nil by done. rewrite list_to_set_disj_cons, list_to_set_disj_nil, (right_id_L ∅ (⊎)).
    case_decide as Hd; [destruct Hd as [_ ->]; apply multiplicity_singleton_eq|]. apply multiplicity_singleton_ne. naive_solver.
Qed.

(** The last reference to a file is dropped. *)
Lemma del_file_store_ok V O st f x : store_ok V (O ⊎ {[+ f +]}) st -> f ∉ O -> st_files st !! f = Some x ->
  store_ok V O (st_del_file f (if c_true (f_vnode x) then st_vn_add (-1) (f_vnode x) st else st)).
Proof.
  intros Hs Hf Hx. set (v := f_vnode x).
  assert (file_vns (st_files st) = list_to_set_disj (nonnull [v]) ⊎ file_vns (delete f (st_files st))) as Efv by exact (file_vns_delete _ _ _ Hx).
  assert (v <> NULL -> is_Some (st_vnodes st !! v)) as Hv.
  { intros Hn. destruct (so_held _ _ _ v Hs) as (y & ? & _); [|eauto]. rewrite elem_of_multiplicity, multiplicity_disj_union, Efv, multiplicity_disj_union, nonnull_mult, decide_True by done. lia. }
  pose proof Hs as [[H1 H2] H3 H4 H5 H6 H7]. rewrite Efv in H5.
  set (st1 := if c_true v then st_vn_add (-1) v st else st).
  assert (st_files st1 = st_files st /\ st_root st1 = st_root st /\ st_fs st1 = st_fs st) as (Ef1 & Er1 & Es1) by (unfold st1; by destruct (c_true v)).
  assert (forall w, is_Some (st_vnodes st !! w) -> is_Some (st_vnodes st1 !! w)) as Ev1.
  { intros w Hw. unfold st1. destruct (c_true v); [|done]. by apply alter_is_Some. }
  split; cbn; rewrite ?Ef1, ?Er1.
  - split; [done|]. multiset_solver.
  - intros g z [Hne Hz]%lookup_delete_Some. destruct (H3 g z Hz) as [A B]. rewrite multiplicity_disj_union, multiplicity_singleton_ne in B by done.
    split; [|lia]. multiset_solver.
  - intros g Hg. rewrite lookup_delete_ne by (intros ->; done). apply H4. multiset_solver.
  - intros w. specialize (H5 w). rewrite !multiplicity_disj_union, nonnull_mult in H5. rewrite multiplicity_disj_union.
    change (refs (st_del_file f st1) w) with (refs st1 w). unfold st1, c_true. destruct (Z.eqb_spec v 0) as [E|E]; cbn [negb].
    + rewrite decide_False in H5 by naive_solver. lia.
    + rewrite refs_vn_add, H5 by auto. destruct (decide (w = v)) as [->|Hn]; [rewrite decide_True by done|rewrite decide_False by naive_solver]; lia.
  - destruct H6 as [?|Hr]; [by left|right]. by apply Ev1.
  - rewrite Es1. intros d nm w Hd. destruct (H7 d nm w Hd). split; [done|]. by apply Ev1.
Qed.
(** A new file, open on nothing yet. *)
Lemma new_file_store_ok V O st f m pos : store_ok V O st -> st_files st !! f = None -> f <> NULL ->
  store_ok V (O ⊎ {[+ f +]}) (st_put_file f (File m pos 1 NULL) st).
Proof.
  intros [[H1 H2] H3 H4 H5 H6 H7] Hf Hn.
  assert (f ∉ O) as HfO by (intros Hin; destruct (H4 f Hin); congruence).
  assert (multiplicity f O = 0%nat) as Hm0 by (rewrite elem_of_multiplicity in HfO; lia).
  assert (file_vns (<[f := File m pos 1 NULL]> (st_files st)) = file_vns (st_files st)) as Efv by (rewrite file_vns_insert by done; apply (left_id_L ∅ (⊎))).
  split; cbn; rewrite ?Efv; try done.
  - split; [done|]. multiset_solver.
  - intros g z. rewrite lookup_insert. destruct (decide (f = g)) as [E|E].
    + intros [= <-]. subst g. split; [multiset_solver|]. rewrite multiplicity_disj_union, multiplicity_singleton_eq. cbn. lia.
    + intros Hz. destruct (H3 g z Hz) as [A B]. split; [multiset_solver|]. rewrite multiplicity_disj_union, multiplicity_singleton_ne by congruence. lia.
  - intros g Hg. rewrite lookup_insert. destruct (decide (f = g)); [eauto|]. apply H4. multiset_solver.
Qed.
(** A file that is open on nothing takes over a reference to a vnode. *)
Lemma file_takes_vnode V O st f x v : store_ok (V ⊎ {[+ v +]}) O st -> st_files st !! f = Some x -> f_vnode x = NULL ->
  store_ok V O (st_put_file f (set_f_vnode v x) st).
Proof.
  intros [[H1 H2] H3 H4 H5 H6 H7] Hf Hn.
  assert (v <> NULL) as Hv by (intros ->; multiset_solver).
  assert (file_vns (<[f := set_f_vnode v x]> (st_files st)) = {[+ v +]} ⊎ file_vns (st_files st)) as Efv.
  { rewrite (file_vns_delete (<[f := set_f_vnode v x]> (st_files st)) f (set_f_vnode v x)), (file_vns_delete (st_files st) f x) by (done || apply lookup_insert_eq).
    rewrite delete_insert_eq. unfold file_vn, nonnull. rewrite Hn. cbn [f_vnode set_f_vnode].
    rewrite filter_cons_True, filter_cons_False, filter_nil by naive_solver. by rewrite list_to_set_disj_cons, list_to_set_disj_nil, (right_id_L ∅ (⊎)), (left_id_L ∅ (⊎)). }
  split; cbn; rewrite ?Efv; try done.
  - split; [multiset_solver|done].
  - intros g z. rewrite lookup_insert. case_decide as E; [intros [= <-]; subst g; exact (H3 f x Hf)|apply H3].
  - intros g Hg. rewrite lookup_insert. case_decide; [eauto|]. by apply H4.
  - intros w. change (refs (st_put_file f (set_f_vnode v x) st) w) with (refs st w). rewrite H5, !multiplicity_disj_union. lia.
Qed.

(** Dropping a reference to a file. *)
Lemma fput_store V O s f : store_ok V (O ⊎ {[+ f +]}) (kept s) -> exists s', Vfs.fput f s = Ok tt s' /\ store_ok V O (kept s') /\
  Vfs.p_files s' = Vfs.p_files s /\ Vfs.p_cwd s' = Vfs.p_cwd s /\ Vfs.vfs_root_vn s' = Vfs.vfs_root_vn s.
Proof.
  intros Hs. destruct (so_open _ _ _ Hs f) as [x Hx]; [multiset_solver|]. cbn in Hx. destruct (so_files _ _ _ Hs f x Hx) as [_ Hr].
  rewrite multiplicity_disj_union, multiplicity_singleton_eq in Hr. destruct (decide (f ∈ O)) as [Hf|Hf].
  - assert (0 < multiplicity f O)%nat as Hm by (by apply elem_of_multiplicity). eexists. split; [apply (fput_shared s f x Hx); lia|]. split; [|done].
    apply (put_file_store_ok V (O ⊎ {[+ f +]}) O (kept s) f x); [exact Hs|exact Hx|done|done| | |].
    + destruct (so_null _ _ _ Hs). multiset_solver.
    + intros g Hg. rewrite multiplicity_disj_union, multiplicity_singleton_ne by done. lia.
    + cbn. lia.
  - assert (multiplicity f O = 0)%nat as Hm by (rewrite elem_of_multiplicity in Hf; lia).
    exists (file_gone f x s). split.
    + apply (fput_last _ _ x); [done|lia|]. unfold file_vnode_ok. destruct (decide (f_vnode x = NULLP)) as [|Hn]; [by left|right].
      apply (so_held _ _ _ _ Hs). apply gmultiset_elem_of_disj_union. right. cbn. rewrite (file_vns_delete _ _ _ Hx). apply gmultiset_elem_of_disj_union. left.
      rewrite elem_of_multiplicity. unfold file_vn. rewrite nonnull_mult, decide_True by done. lia.
    + pose proof (del_file_store_ok V O (kept s) f x Hs Hf Hx) as H. unfold file_gone. by destruct (c_true (f_vnode x)).
Qed.

(** ** The contract of the processes *)

(** fref of fs/file.c and the vget of the root, of fs/vnode.c *)
Class StoreOps := { file_ref : Z -> M (vfs FS) unit; root_get : M (vfs FS) unit }.
Class StoreLaws `{!StoreOps} : Prop := {
  file_ref_eq s f x : files s !! f = Some x -> file_ref f s = Ok tt (set_files (insert f (set_f_refcount (f_refcount x + 1) x)) s);
  root_get_eq s y : vnodes s !! Vfs.vfs_root_vn s = Some y -> root_get s = Ok tt (vn_add 1 (Vfs.vfs_root_vn s) s)
}.
Context {HSo : StoreOps} {HSl : StoreLaws}.

#[export] Instance store_ops : FsOps store := {|
  fref f := on_tables (file_ref f);
  fput f := on_tables (Vfs.fput f);
  vref v := on_tables (Vfs.vref v);
  vput v := on_tables (Vfs.vput v);
  vget_root := on_tables root_get;
  Proc.vfs_root_vn := st_root
|}.

Lemma on_tables_ok {A} (m : M (vfs FS) A) st a s : m (seen [] NULL st) = Ok a s -> on_tables m st = Ok a (kept s).
Proof. unfold on_tables. by intros ->. Qed.
#[export] Instance store_laws : FsLaws store.
Proof.
  refine {| fs_safe := store_ok |}.
  - intros V O st Hs. apply Hs.
  - intros V O st v Hs Hv. destruct (so_held _ _ _ v Hs) as (y & Hy & _); [multiset_solver|]. exists (st_vn_add 1 v st). split_and!; [|..|done].
    + exact (on_tables_ok (Vfs.vref v) st tt _ (vref_eq (seen [] NULL st) v y Hy)).
    + apply get_vnode_ok; [done| |eauto]. intros ->. by destruct (so_null _ _ _ Hs).
  - intros V O st v Hs. destruct (so_held _ _ _ v Hs) as (y & Hy & Hr); [multiset_solver|]. exists (st_vn_add (-1) v st). split_and!; [|by apply put_vnode_ok|done].
    exact (on_tables_ok (Vfs.vput v) st tt _ (vput_eq (seen [] NULL st) v y Hy Hr)).
  - intros V O st Hs Hr. cbn in Hr. destruct (so_root _ _ _ Hs) as [?|[y Hy]]; [done|]. exists (st_vn_add 1 (st_root st) st). split_and!; [|apply get_vnode_ok; eauto|done].
    exact (on_tables_ok root_get st tt _ (root_get_eq (seen [] NULL st) y Hy)).
  - intros V O st f Hs Hf. destruct (so_open _ _ _ Hs f Hf) as [x Hx]. destruct (so_files _ _ _ Hs f x Hx) as [_ Hr].
    exists (st_put_file f (set_f_refcount (f_refcount x + 1) x) st). split_and!; [|..|done].
    + exact (on_tables_ok (file_ref f) st tt _ (file_ref_eq (seen [] NULL st) f x Hx)).
    + eapply (put_file_store_ok _ O); [exact Hs|exact Hx|done|multiset_solver| | |].
      * destruct (so_null _ _ _ Hs). multiset_solver.
      * intros g Hg. rewrite multiplicity_disj_union, multiplicity_singleton_ne by done. lia.
      * cbn. rewrite multiplicity_disj_union, multiplicity_singleton_eq. lia.
  - intros V O st f Hs. destruct (fput_store V O (seen [] NULL st) f) as (s' & E & Hs' & _ & _ & Hr); [by rewrite kept_seen|].
    exists (kept s'). split_and!; [exact (on_tables_ok _ st tt _ E)|done|exact Hr].
Defined.
End Store.
Arguments store : clear implicits.
