(* ===== verification/FileRefs.v ===== *)
(** References are balanced: whatever a file system call does and however it ends, the
    count of a file is the number of descriptors that are open on it, and the count of a
    vnode that of the files, working directories and others that refer to it. *)
From S2P Require Import Prelude.
From S2P Require Import Platform.
From S2P Require Import Proc.
From S2P Require Import ProcInv.
From S2P Require Import Vfs.
From S2P Require Import VfsThms.
From S2P Require Import Namev.
From S2P Require Import Store.
Open Scope Z_scope.

Section FileRefs.
Context {FS : Type} `{P : Platform} {HP : PlatformOk P} {K : VfsConst} {Vo : VfsOps (FS := FS)} {HV : VfsLaws} {HFr : FsRefs (FS := FS)}.
Implicit Types (s : vfs FS) (V O D : gmultiset Z).

(** ** What operations of a file system do *)

Definition same_proc s s' : Prop := p_files s' = p_files s /\ p_cwd s' = p_cwd s /\ Vfs.vfs_root_vn s' = Vfs.vfs_root_vn s.
Definition same_files s s' : Prop := same_proc s s' /\ files s' = files s.
(** The entries of directories lead to vnodes. *)
Definition entries_ok s : Prop := forall d nm v, dirent (fs_state s) d nm = inr v -> v <> NULL /\ is_Some (vnodes s !! v).

(** An operation of a file system leaves files and processes alone and hands out the
    references [D]; others it takes are its own. *)
Record vn_kept D s s' : Prop := {
  vk_files : same_files s s';
  vk_refs : forall v, refs (kept s') v = refs (kept s) v + Z.of_nat (multiplicity v D);
  vk_root : is_Some (vnodes s !! Vfs.vfs_root_vn s) -> is_Some (vnodes s' !! Vfs.vfs_root_vn s);
  vk_entries : entries_ok s -> entries_ok s'
}.
Definition there s (v : Z) : Prop := is_Some (vnodes s !! v).

Class VnLaws : Prop := {
  vn_read_kept v off n s r s' : there s v -> vn_read v off n s = Ok r s' -> vn_kept ∅ s s';
  vn_write_kept v off buf n s r s' : there s v -> vn_write v off buf n s = Ok r s' -> vn_kept ∅ s s';
  vn_create_kept d nm s r s' : there s d -> vn_create d nm s = Ok r s' ->
    if c_true r.1 then vn_kept ∅ s s' else r.2 <> NULL /\ vn_kept {[+ r.2 +]} s s';
  vn_mknod_kept d nm mode dev s r s' : there s d -> vn_mknod d nm mode dev s = Ok r s' -> vn_kept ∅ s s';
  vn_link_kept v d nm s r s' : there s v -> there s d -> vn_link v d nm s = Ok r s' -> vn_kept ∅ s s';
  vn_unlink_kept d nm s r s' : there s d -> vn_unlink d nm s = Ok r s' -> vn_kept ∅ s s';
  vn_mkdir_kept d nm s r s' : there s d -> vn_mkdir d nm s = Ok r s' -> vn_kept ∅ s s';
  vn_rmdir_kept d nm s r s' : there s d -> vn_rmdir d nm s = Ok r s' -> vn_kept ∅ s s';
  vn_readdir_kept v off s r s' : there s v -> vn_readdir v off s = Ok r s' -> vn_kept ∅ s s';
  vn_stat_kept v s r s' : there s v -> vn_stat v s = Ok r s' -> vn_kept ∅ s s'
}.
Context {HVn : VnLaws}.

(** [V] and [O] are all references that are held to vnodes and to files. *)
Definition own V O s : Prop := store_ok V O (kept s).

Lemma same_proc_refl s : same_proc s s.
Proof. by split_and!. Qed.
Lemma same_proc_trans s1 s2 s3 : same_proc s1 s2 -> same_proc s2 s3 -> same_proc s1 s3.
Proof. intros (A & B & C) (A' & B' & C'). split_and!; congruence. Qed.
Lemma same_files_refl s : same_files s s.
Proof. split; [apply same_proc_refl|done]. Qed.
Lemma same_files_trans s1 s2 s3 : same_files s1 s2 -> same_files s2 s3 -> same_files s1 s3.
Proof. intros [A B] [A' B']. split; [by eapply same_proc_trans|congruence]. Qed.
Lemma same_files_proc s s' : same_files s s' -> same_proc s s'.
Proof. by intros []. Qed.

(** ** Single steps *)

Lemma own_held V O s v : own V O s -> v ∈ V -> there s v /\ v <> NULL.
Proof.
  intros Hs Hv. split; [destruct (so_held _ _ _ v Hs) as (y & Hy & _); [multiset_solver|]; by exists y|]. intros ->. by destruct (so_null _ _ _ Hs).
Qed.
Lemma own_kept V O D s s' : own V O s -> NULL ∉ D -> vn_kept D s s' -> own (V ⊎ D) O s'.
Proof.
  intros [[H1 H2] H3 H4 H5 H6 H7] Hn [((E1 & E2 & E3) & E4) Hr Hroot He]. cbn in *. split; cbn; rewrite ?E3, ?E4; try done.
  - split; [multiset_solver|done].
  - intros v. rewrite Hr, H5, !multiplicity_disj_union. lia.
  - destruct H6 as [?|?]; [by left|right; auto].
  - by apply He.
Qed.
Lemma own_kept0 V O s s' : own V O s -> vn_kept ∅ s s' -> own V O s'.
Proof. intros Hs Hk. apply (own_kept V O ∅ s s') in Hk; [by rewrite (right_id_L ∅ (⊎)) in Hk|done|multiset_solver]. Qed.

Lemma vref_own V O s v r s' : own V O s -> v <> NULL -> there s v -> vref v s = Ok r s' -> own (V ⊎ {[+ v +]}) O s' /\ same_files s s'.
Proof.
  intros Hs Hn [y Hy] E. rewrite (vref_eq s v y Hy) in E. injection E as _ <-. split; [|by split_and!].
  apply (get_vnode_ok V O (kept s) v); [done|done|by exists y].
Qed.
Lemma vput_own V O s v r s' : own (V ⊎ {[+ v +]}) O s -> vput v s = Ok r s' -> own V O s' /\ same_files s s'.
Proof.
  intros Hs E. destruct (so_held _ _ _ v Hs) as (y & Hy & Hr); [multiset_solver|]. rewrite (vput_eq s v y Hy Hr) in E. injection E as _ <-. split; [|by split_and!].
  by apply (put_vnode_ok V O (kept s) v).
Qed.
Lemma fput_own V O s f r s' : own V (O ⊎ {[+ f +]}) s -> fput f s = Ok r s' -> own V O s' /\ same_proc s s'.
Proof. intros Hs E. destruct (fput_store V O s f Hs) as (s1 & E1 & Hs1 & H). rewrite E1 in E. injection E as _ <-. done. Qed.

(** [fget] takes a reference to the file of a descriptor, or to a new file. *)
Lemma fget_own V O s fd f s' : own V O s -> (forall g, g ∈ p_files s -> g <> NULL -> g ∈ O) -> fget fd s = Ok f s' ->
  f = NULL /\ s' = s \/
  f <> NULL /\ own V (O ⊎ {[+ f +]}) s' /\ same_proc s s' /\
    (fd = -1 /\ f ∉ O /\ files s' !! f = Some (File 0 0 1 NULL) \/ 0 <= fd /\ p_files s !! Z.to_nat fd = Some f).
Proof.
  intros Hs Hl E. destruct (decide (fd = -1)) as [->|Hfd].
  - destruct (fget_new s) as (g & Hn & Hg & E1). rewrite E1 in E. injection E as <- <-. right. split_and!; [done| |by split_and!|].
    + by apply (new_file_store_ok V O (kept s) g 0 0).
    + left. split_and!; [done| |apply lookup_insert_eq]. intros Hin. destruct (so_open _ _ _ Hs g Hin) as [x Hx]. cbn in Hx. congruence.
  - destruct (decide (fd < 0)) as [Hlt|Hge]; [rewrite (fget_not_open s fd Hfd (or_introl Hlt)) in E; injection E as <- <-; by left|].
    destruct (p_files s !! Z.to_nat fd) as [g|] eqn:Hp; [|rewrite (fget_not_open s fd Hfd (or_intror (or_introl Hp))) in E; injection E as <- <-; by left].
    destruct (decide (g = NULL)) as [->|Hg]; [rewrite (fget_not_open s fd Hfd (or_intror (or_intror Hp))) in E; injection E as <- <-; by left|].
    assert (g ∈ O) as Hin by (apply Hl; [by eapply list_elem_of_lookup_2|done]).
    destruct (so_open _ _ _ Hs g Hin) as [x Hx]. cbn in Hx. destruct (so_files _ _ _ Hs g x Hx) as [_ Hr].
    rewrite (fget_open s fd g x) in E by (split_and!; (done || lia)). injection E as <- <-. right. split_and!; [done| |by split_and!|right; split; [lia|done]].
    apply (put_file_store_ok V O _ (kept s) g x); [exact Hs|exact Hx|done|multiset_solver| | |].
    + destruct (so_null _ _ _ Hs). multiset_solver.
    + intros h Hh. rewrite multiplicity_disj_union, multiplicity_singleton_ne by done. lia.
    + cbn. rewrite multiplicity_disj_union, multiplicity_singleton_eq. lia.
Qed.

Lemma vnode_at_inv v s y s' : vnode_at v s = Ok y s' -> s' = s /\ vnodes s !! v = Some y.
Proof. unfold vnode_at. rewrite get_bind. by intros [-> ->]%deref_Ok_inv. Qed.
Lemma file_at_inv f s x s' : file_at f s = Ok x s' -> s' = s /\ files s !! f = Some x.
Proof. unfold file_at. rewrite get_bind. by intros [-> ->]%deref_Ok_inv. Qed.
Lemma p_file_inv fd s f s' : p_file fd s = Ok f s' -> s' = s /\ 0 <= fd /\ p_files s !! Z.to_nat fd = Some f.
Proof. unfold p_file. rewrite get_bind. destruct (Z.leb_spec 0 fd); [|done]. destruct (p_files s !! _); [|done]. by intros [= <- <-]. Qed.
Lemma set_p_file_inv fd f s r s' : set_p_file fd f s = Ok r s' ->
  s' = set_p_files (<[Z.to_nat fd := f]> (p_files s)) s /\ 0 <= fd /\ is_Some (p_files s !! Z.to_nat fd).
Proof.
  unfold set_p_file. intros (g & s1 & (-> & ? & ?)%p_file_inv & E)%bind_Ok_inv. injection E as _ <-. by split_and!.
Qed.
Lemma upd_file_own V O s f (g : file -> file) r s' : (forall x, files s !! f = Some x -> f_vnode (g x) = f_vnode x /\ f_refcount (g x) = f_refcount x) ->
  own V O s -> upd_file f g s = Ok r s' -> own V O s' /\ same_proc s s'.
Proof.
  intros Hg Hs. unfold upd_file. intros (x & s1 & (-> & Hx)%file_at_inv & E)%bind_Ok_inv. injection E as _ <-. split; [|by split_and!].
  destruct (so_files _ _ _ Hs f x Hx) as [Hin Hr]. apply (put_file_store_ok V O O (kept s) f x); try done; [by apply Hg|apply Hs|]. by rewrite (proj2 (Hg x Hx)).
Qed.
Lemma own_p_files V O s l : own V O s -> own V O (set_p_files l s).
Proof. done. Qed.

Lemma lookup_own V O s d nm len r s' : own V O s -> lookup d nm len s = Ok r s' ->
  same_files s s' /\ there s d /\ (r.1 < 0 /\ r.2 = NULL /\ own V O s' \/ r.1 = 0 /\ r.2 <> NULL /\ own (V ⊎ {[+ r.2 +]}) O s').
Proof.
  intros Hs. unfold lookup. intros ([] & s1 & [_ ->]%kassert_Ok_inv & E)%bind_Ok_inv. destruct nm as [nm|]; [|done].
  apply bind_Ok_inv in E as (y & s1 & [-> Hy]%vnode_at_inv & E). assert (there s d) as Hd by (by exists y).
  case_decide; [|injection E as <- <-; split_and!; [done..|]; left; split_and!; [|done|done]; cbn; pose proof (errno_pos ENOTDIR ltac:(set_solver)); lia].
  rewrite vn_lookup_eq in E. destruct (dirent (fs_state s) d _) as [e|v] eqn:Ed; injection E as <- <-.
  - split_and!; [done..|]. left. split_and!; [|done|done]. by eapply dirent_err.
  - split_and!; [done..|]. right. destruct (so_tree _ _ _ Hs _ _ _ Ed) as [Hn Hv]. split_and!; [done|done|]. by apply (get_vnode_ok V O (kept s) v).
Qed.

(** ** Along paths *)

(** Files are as in [s0], and these are the references that are held. *)
Definition path_ok V O s0 s : Prop := own V O s /\ same_files s0 s.

Lemma path_start V O s : own V O s -> path_ok V O s s.
Proof. split; [done|apply same_files_refl]. Qed.
Lemma path_then V O s0 s s' : path_ok V O s0 s -> forall V' O', own V' O' s' -> same_files s s' -> path_ok V' O' s0 s'.
Proof. intros [_ H] V' O' Hs' H'. split; [done|by eapply same_files_trans]. Qed.
Lemma path_kept V O s0 s s' : path_ok V O s0 s -> vn_kept ∅ s s' -> path_ok V O s0 s'.
Proof. intros Hp Hk. eapply path_then; [exact Hp|eapply own_kept0; [apply Hp|done]|apply Hk]. Qed.
Lemma path_vref V O s0 s v r s' : path_ok V O s0 s -> v <> NULL -> there s v -> vref v s = Ok r s' -> path_ok (V ⊎ {[+ v +]}) O s0 s'.
Proof. intros Hp Hn Hv E. destruct (vref_own _ _ _ _ _ _ (proj1 Hp) Hn Hv E). by eapply path_then. Qed.
Lemma path_vput V O s0 s v r s' : path_ok (V ⊎ {[+ v +]}) O s0 s -> vput v s = Ok r s' -> path_ok V O s0 s'.
Proof. intros Hp E. destruct (vput_own _ _ _ _ _ _ (proj1 Hp) E). by eapply path_then. Qed.
Lemma path_vput2 V O s0 s v w r s' : path_ok (V ⊎ {[+ v +]} ⊎ {[+ w +]}) O s0 s -> vput v s = Ok r s' -> path_ok (V ⊎ {[+ w +]}) O s0 s'.
Proof. intros Hp E. eapply path_vput; [|exact E]. by replace (V ⊎ {[+ w +]} ⊎ {[+ v +]}) with (V ⊎ {[+ v +]} ⊎ {[+ w +]}) by multiset_solver. Qed.
Lemma path_lookup V O s0 s d nm len r s' : path_ok V O s0 s -> lookup d nm len s = Ok r s' ->
  r.1 < 0 /\ r.2 = NULL /\ path_ok V O s0 s' \/ r.1 = 0 /\ r.2 <> NULL /\ path_ok (V ⊎ {[+ r.2 +]}) O s0 s'.
Proof.
  intros Hp E. destruct (lookup_own _ _ _ _ _ _ _ _ (proj1 Hp) E) as (Hf & _ & [(?&?&?)|(?&?&?)]); [left|right]; (split_and!; [done|done|by eapply path_then]).
Qed.

Definition hold V (v : Z) : gmultiset Z := if c_true v then V ⊎ {[+ v +]} else V.
Lemma path_release V O s0 s v r s' : path_ok (hold V v) O s0 s -> when (c_true v) (vput v) s = Ok r s' -> path_ok V O s0 s'.
Proof. unfold hold. destruct (c_true v); cbn [when]; [apply path_vput|]. by intros Hp [= _ <-]. Qed.
Lemma path_release2 V O s0 s v w r s' : path_ok (hold V v ⊎ {[+ w +]}) O s0 s -> when (c_true v) (vput v) s = Ok r s' -> path_ok (V ⊎ {[+ w +]}) O s0 s'.
Proof. unfold hold. destruct (c_true v); cbn [when]; [apply path_vput2|]. by intros Hp [= _ <-]. Qed.

Lemma resolve_path V O s0 base prev comps s r s' : path_ok (hold V prev) O s0 s -> base <> NULL ->
  (prev = base \/ prev = NULL /\ exists c cs, comps = c :: cs /\ c <> []) -> resolve base prev comps s = Ok r s' ->
  match r with inl e => e < 0 /\ path_ok V O s0 s' | inr v => v <> NULL /\ path_ok (V ⊎ {[+ v +]}) O s0 s' end.
Proof.
  induction comps as [|c comps IH] in base, prev, s |- *; intros Hp Hb Hpb E.
  - destruct Hpb as [->|(_ & c & cs & ? & _)]; [|done]. cbn in E. injection E as <- <-. split; [done|]. unfold hold in Hp. by rewrite (proj2 (c_true_spec base) Hb) in Hp.
  - cbn [resolve] in E. destruct c as [|b c].
    { apply IH in E; [done..|]. destruct Hpb as [->|(_ & c & cs & [= <- <-] & ?)]; [by left|done]. }
    apply bind_Ok_inv in E as ([e v] & s1 & E1 & E). cbn [fst snd] in E.
    destruct (path_lookup _ _ _ _ _ _ _ _ _ Hp E1) as [(He & _ & Hp1)|(He & Hv & Hp1)]; cbn in He, Hp1; [|cbn in Hv; subst e].
    + rewrite (proj2 (Z.ltb_lt _ _) He) in E. apply bind_Ok_inv in E as ([] & s2 & E2 & E). injection E as <- <-. split; [done|]. by eapply path_release.
    + change (0 <? 0) with false in E. cbn iota in E. apply bind_Ok_inv in E as ([] & s2 & E2 & E). pose proof (path_release2 _ _ _ _ _ _ _ _ Hp1 E2) as Hp2.
      apply bind_Ok_inv in E as (y & s3 & [-> Hy]%vnode_at_inv & E). destruct (negb _).
      * apply bind_Ok_inv in E as ([] & s3 & E3 & E). injection E as <- <-. split; [pose proof (errno_pos ENOTDIR ltac:(set_solver)); lia|]. by eapply path_vput.
      * apply IH in E; [done| |done|by left]. unfold hold. by rewrite (proj2 (c_true_spec v) Hv).
Qed.

(** The path is not empty, or no slash follows the copy of it in memory. *)
Definition good_path (tail path : cstring) : Prop := rel path <> [] \/ (split_path (until_nul tail)).2 = [].
(** Where a path starts is there. *)
Definition cwd_held V s : Prop := p_cwd s = NULL \/ p_cwd s ∈ V.

Lemma components_head path tail : path <> [] -> exists c cs, components path tail = c :: cs /\ c <> [].
Proof. destruct path as [|c rest]; [done|]. intros _. cbn. destruct (split_path rest) as [h t]. by exists (c :: h), t. Qed.

Lemma dir_namev_path V O s0 tail path s d s' : path_ok V O s0 s -> cwd_held V s -> good_path tail path -> dir_namev tail path NULLP s = Ok d s' ->
  nv_ret d < 0 /\ nv_vnode d = NULL /\ path_ok V O s0 s' \/ nv_ret d = 0 /\ nv_vnode d <> NULL /\ path_ok (V ⊎ {[+ nv_vnode d +]}) O s0 s'.
Proof.
  intros Hp Hc Hg. unfold dir_namev. rewrite get_bind. change (match path with [] => false | c :: _ => c =? slash end) with (is_absolute path).
  change (if is_absolute path then Vfs.vfs_root_vn s else _) with (start s path NULLP). change (if is_absolute path then tl path else path) with (rel path).
  cbv zeta. set (base := start s path NULLP).
  intros ([] & s1 & [Hb%c_true_spec ->]%kassert_Ok_inv & E)%bind_Ok_inv.
  assert (there s base) as Hthere.
  { unfold base, start in *. destruct (is_absolute path); [destruct (so_root _ _ _ (proj1 Hp)) as [?|?]; [done|done]|]. cbn in *.
    destruct Hc as [?|Hc]; [done|]. by apply (own_held _ _ _ _ (proj1 Hp)). }
  apply bind_Ok_inv in E as ([] & s1 & E1 & E). destruct (50 <? _)%nat; [done|]. injection E1 as <-.
  destruct (reverse (components (rel path) tail)) as [|last init] eqn:Er; [done|]. apply (f_equal reverse) in Er. rewrite reverse_involutive, reverse_cons in Er.
  destruct init as [|c0 init].
  - apply bind_Ok_inv in E as ([] & s2 & E2 & E). injection E as <- <-. right. split_and!; [done|done|]. by eapply path_vref.
  - apply bind_Ok_inv in E as (r & s2 & E2 & E). eapply (resolve_path V) in E2; [|done|done|].
    + destruct r as [e|v]; injection E as <- <-; [left|right]; cbn; tauto.
    + right. split; [done|]. destruct (reverse (c0 :: init)) as [|c cs] eqn:Ei; [apply (f_equal length) in Ei; by rewrite length_reverse in Ei|]. exists c, cs. split; [done|].
      destruct Hg as [Hg|Hg].
      * destruct (components_head _ tail Hg) as (c' & cs' & Ec & ?). rewrite Er in Ec. cbn in Ec. congruence.
      * intros ->. destruct (rel path) as [|a p] eqn:Erel; [|destruct (components_head (a :: p) tail) as (c' & cs' & Ec & ?); [done|]; rewrite Er in Ec; cbn in Ec; congruence].
        cbn in Er. rewrite Hg in Er. injection Er as Er. by destruct cs.
Qed.

Lemma open_namev_path V O s0 tail path flag s r s' : path_ok V O s0 s -> cwd_held V s -> good_path tail path -> open_namev tail path flag NULLP s = Ok r s' ->
  r.1 <> 0 /\ path_ok V O s0 s' \/ r.1 = 0 /\ r.2 <> NULL /\ path_ok (V ⊎ {[+ r.2 +]}) O s0 s'.
Proof.
  intros Hp Hc Hg. unfold open_namev. intros (d & s1 & E1 & E)%bind_Ok_inv.
  destruct (dir_namev_path _ _ _ _ _ _ _ _ Hp Hc Hg E1) as [(Hr & _ & Hp1)|(Hr & Hn & Hp1)].
  { assert (nv_ret d <> 0) as Hr' by lia. rewrite (proj2 (c_true_spec _) Hr') in E. injection E as <- <-. left. split; [done|done]. }
  rewrite Hr in E. cbn [c_true] in E. change (c_true 0) with false in E. cbn iota in E. apply bind_Ok_inv in E as (nm & s2 & [_ ->]%deref_Ok_inv & E).
  destruct (_ || _); [injection E as <- <-; right; by split_and!|].
  apply bind_Ok_inv in E as ([e v] & s2 & E2 & E). cbn [fst snd] in E.
  destruct (path_lookup _ _ _ _ _ _ _ _ _ Hp1 E2) as [(He & Hv & Hp2)|(He & Hv & Hp2)]; cbn in He, Hv, Hp2.
  - assert (e <> 0) as He0 by lia. rewrite (proj2 (c_true_spec e) He0) in E. destruct (_ && _).
    + apply bind_Ok_inv in E as (x & s3 & [-> Hx]%vnode_at_inv & E). apply bind_Ok_inv in E as ([] & s3 & [_ ->]%kassert_Ok_inv & E).
      apply bind_Ok_inv in E as (q & s3 & E3 & E). apply vn_create_kept in E3; [|by exists x]. apply bind_Ok_inv in E as ([] & s4 & E4 & E). injection E as <- <-.
      destruct (c_true q.1) eqn:Eq; [left; split; [by apply c_true_spec|]; eapply path_vput; [|exact E4]; by eapply path_kept|].
      destruct E3 as [Hqn Hk]. right. split_and!; [done|done|]. cbn. eapply path_vput2; [|exact E4].
      eapply path_then; [exact Hp2|eapply own_kept; [apply Hp2|multiset_solver|done]|apply Hk].
    + apply bind_Ok_inv in E as ([] & s4 & E4 & E). injection E as <- <-. left. split; [done|]. by eapply path_vput.
  - subst e. change (c_true 0) with false in E. cbn iota in E. destruct (byte_at nm (nv_len d) =? slash).
    + apply bind_Ok_inv in E as (x & s3 & [-> Hx]%vnode_at_inv & E). destruct (negb _).
      * apply bind_Ok_inv in E as ([] & s3 & E3 & E). apply bind_Ok_inv in E as ([] & s4 & E4 & E). injection E as <- <-. left. split; [cbn; pose proof (errno_pos ENOTDIR ltac:(set_solver)); lia|].
        eapply path_vput; [|exact E4]. by eapply path_vput2.
      * apply bind_Ok_inv in E as ([] & s3 & E3 & E). injection E as <- <-. right. split_and!; [done|done|]. by eapply path_vput2.
    + apply bind_Ok_inv in E as ([] & s3 & E3 & E). injection E as <- <-. right. split_and!; [done|done|]. by eapply path_vput2.
Qed.

(** ** The calls *)

(** The references the process has itself. *)
Definition fds (l : list Z) : gmultiset Z := list_to_set_disj (nonnull l).
(** The tables count these, those of others ([V] and [O]) and no more. *)
Definition balanced V O s : Prop := own (fds [p_cwd s] ⊎ V) (fds (p_files s) ⊎ O) s.
(** What every call keeps. *)
Record call_keeps V O s s' : Prop := {
  ck_refs : balanced V O s';
  ck_table : length (p_files s') = length (p_files s);
  ck_root : Vfs.vfs_root_vn s' = Vfs.vfs_root_vn s
}.

Lemma fds_elem a l : a ∈ fds l <-> a ∈ l /\ a <> NULL.
Proof. unfold fds, nonnull. rewrite elem_of_list_to_set_disj, list_elem_of_filter. tauto. Qed.
Lemma fds_split l i a : l !! i = Some a -> fds l = fds [a] ⊎ fds (<[i := NULL]> l).
Proof.
  intros Hi. unfold fds. rewrite <- list_to_set_disj_app. apply list_to_set_disj_perm. pose proof (lookup_lt_Some _ _ _ Hi).
  rewrite <- (take_drop_middle l i a) at 1 by done. rewrite insert_take_drop by done. unfold nonnull. rewrite !filter_app. cbn [filter].
  change (a :: drop (S i) l) with ([a] ++ drop (S i) l). change (NULL :: drop (S i) l) with ([NULL] ++ drop (S i) l). rewrite !filter_app.
  replace (filter (fun a => a <> NULL) [NULL]) with (@nil Z) by done. cbn [app]. by rewrite !app_assoc, (Permutation_app_comm (filter _ (take i l))).
Qed.
Lemma fds_null : fds [NULL] = ∅.
Proof. done. Qed.
Lemma fds_one a : a <> NULL -> fds [a] = {[+ a +]}.
Proof. intros Ha. unfold fds, nonnull. rewrite filter_cons_True, filter_nil by done. by rewrite list_to_set_disj_cons, list_to_set_disj_nil, (right_id_L ∅ (⊎)). Qed.
(** A free descriptor is taken, one in use is freed. *)
Lemma fds_take l i a : l !! i = Some NULL -> a <> NULL -> fds (<[i := a]> l) = fds l ⊎ {[+ a +]}.
Proof.
  intros Hi Ha. pose proof (lookup_lt_Some _ _ _ Hi). rewrite (fds_split (<[i := a]> l) i a) by (by apply list_lookup_insert_eq).
  rewrite list_insert_insert_eq, fds_one, (comm_L (⊎)) by done. f_equal. by rewrite (fds_split l i NULL), fds_null, (left_id_L ∅ (⊎)).
Qed.
Lemma fds_drop l i a : l !! i = Some a -> a <> NULL -> fds l = fds (<[i := NULL]> l) ⊎ {[+ a +]}.
Proof. intros Hi Ha. by rewrite (fds_split l i a), fds_one, (comm_L (⊎)). Qed.

Definition file_ok V O s0 s : Prop := own V O s /\ same_proc s0 s.
Lemma file_done V O s0 s : file_ok (fds [p_cwd s0] ⊎ V) (fds (p_files s0) ⊎ O) s0 s -> call_keeps V O s0 s.
Proof. intros [H (E1 & E2 & E3)]. split; [|by rewrite E1|done]. unfold balanced. by rewrite E1, E2. Qed.
Lemma path_done V O s0 s : path_ok (fds [p_cwd s0] ⊎ V) (fds (p_files s0) ⊎ O) s0 s -> call_keeps V O s0 s.
Proof. intros [H [H' _]]. by apply file_done. Qed.
Lemma call_same V O s : balanced V O s -> call_keeps V O s s.
Proof. intros H. by apply path_done, path_start. Qed.

Lemma file_fget V O s0 s fd f s' : file_ok V (fds (p_files s0) ⊎ O) s0 s -> fget fd s = Ok f s' ->
  f = NULL /\ file_ok V (fds (p_files s0) ⊎ O) s0 s' \/
  f <> NULL /\ file_ok V (fds (p_files s0) ⊎ O ⊎ {[+ f +]}) s0 s' /\
    (fd = -1 /\ f ∉ fds (p_files s0) ⊎ O /\ files s' !! f = Some (File 0 0 1 NULL) \/ 0 <= fd /\ p_files s0 !! Z.to_nat fd = Some f).
Proof.
  intros [Hs Hp] E. pose proof Hp as (E1 & _). eapply fget_own in E; [|exact Hs|].
  - rewrite E1 in E. destruct E as [(-> & ->)|(Hf & Ho & Hp' & H)]; [by left|right]. split_and!; [done|split; [done|by eapply same_proc_trans]|done].
  - rewrite E1. intros g Hg Hn. apply gmultiset_elem_of_disj_union. left. by apply fds_elem.
Qed.
Lemma file_fput V O s0 s f r s' : file_ok V (O ⊎ {[+ f +]}) s0 s -> fput f s = Ok r s' -> file_ok V O s0 s'.
Proof. intros [Hs Hp] E. destruct (fput_own _ _ _ _ _ _ Hs E). split; [done|by eapply same_proc_trans]. Qed.
Lemma file_upd V O s0 s f g r s' : file_ok V O s0 s -> upd_file f g s = Ok r s' -> (forall x, f_vnode (g x) = f_vnode x /\ f_refcount (g x) = f_refcount x) ->
  file_ok V O s0 s'.
Proof. intros [Hs Hp] E Hg. destruct (upd_file_own _ _ _ _ _ _ _ (fun x _ => Hg x) Hs E). split; [done|by eapply same_proc_trans]. Qed.
Lemma file_kept V O s0 s s' : file_ok V O s0 s -> vn_kept ∅ s s' -> file_ok V O s0 s'.
Proof. intros [Hs Hp] Hk. split; [by eapply own_kept0|eapply same_proc_trans; [exact Hp|apply Hk]]. Qed.
Lemma vcall_inv {A} v op (m : M (vfs FS) A) s a s' : vcall v op m s = Ok a s' -> there s v /\ m s = Ok a s'.
Proof. unfold vcall. intros (x & s1 & [-> Hx]%vnode_at_inv & E)%bind_Ok_inv. case_decide; [|done]. split; [by exists x|done]. Qed.
End FileRefs.

(** Follows a computation that returned; the state's references are in the hypothesis
    about [file_ok] or [path_ok]. *)
Ltac at_bind E x s1 E1 := apply bind_Ok_inv in E as (x & s1 & E1 & E).
Ltac follow E :=
  lazymatch type of E with
  | mret _ _ = Ok _ _ => injection E as <- <-
  | (mret _ ≫= _) _ = Ok _ _ => rewrite ret_bind in E
  | (get ≫= _) _ = Ok _ _ => rewrite get_bind in E
  | (vnode_at _ ≫= _) _ = Ok _ _ => let y := fresh "y" in let s1 := fresh "st" in let E1 := fresh "Ek" in let Hy := fresh "Hy" in at_bind E y s1 E1; apply vnode_at_inv in E1 as [-> Hy]
  | (file_at _ ≫= _) _ = Ok _ _ => let y := fresh "x" in let s1 := fresh "st" in let E1 := fresh "Ek" in let Hy := fresh "Hx" in at_bind E y s1 E1; apply file_at_inv in E1 as [-> Hy]
  | (kassert _ ≫= _) _ = Ok _ _ => let y := fresh "k" in let s1 := fresh "st" in let E1 := fresh "Ek" in at_bind E y s1 E1; apply kassert_Ok_inv in E1 as [_ ->]
  | (deref _ ≫= _) _ = Ok _ _ => let y := fresh "nm" in let s1 := fresh "st" in let E1 := fresh "Ek" in at_bind E y s1 E1; apply deref_Ok_inv in E1 as [_ ->]
  | (vput _ ≫= _) _ = Ok _ _ => let y := fresh "k" in let s1 := fresh "st" in let E1 := fresh "Ek" in at_bind E y s1 E1;
      match type of E1 with _ ?s = _ => match goal with Hp : path_ok _ _ _ s |- _ => first [eapply path_vput in Hp; [|exact E1]|eapply path_vput2 in Hp; [|exact E1]]; clear E1 end end
  | (when (c_true _) (vput _) ≫= _) _ = Ok _ _ => let y := fresh "k" in let s1 := fresh "st" in let E1 := fresh "Ek" in at_bind E y s1 E1
  | (fput _ ≫= _) _ = Ok _ _ => let y := fresh "k" in let s1 := fresh "st" in let E1 := fresh "Ek" in at_bind E y s1 E1;
      match type of E1 with _ ?s = _ => match goal with Hp : file_ok _ _ _ s |- _ => eapply file_fput in Hp; [|exact E1]; clear E1 end end
  | (upd_file _ _ ≫= _) _ = Ok _ _ => let y := fresh "k" in let s1 := fresh "st" in let E1 := fresh "Ek" in at_bind E y s1 E1;
      match type of E1 with _ ?s = _ => match goal with Hp : file_ok _ _ _ s |- _ => eapply (file_upd _ _ _ _ _ _ _ _ Hp) in E1; [clear Hp|done] end end
  | (if ?b then _ else _) _ = Ok _ _ => destruct b eqn:?
  | stop _ _ = Ok _ _ => discriminate E
  end.
Ltac follow_all E := repeat follow E; try (apply file_done; done); try (apply path_done; done); try (by apply call_same).

Section Calls.
Context {FS : Type} `{P : Platform} {HP : PlatformOk P} {K : VfsConst} {Vo : VfsOps (FS := FS)} {HV : VfsLaws} {HFr : FsRefs (FS := FS)} {HVn : VnLaws}.
Implicit Types (s : vfs FS) (V O : gmultiset Z).

(** The start of a call on a descriptor. *)
Lemma call_fget V O s fd f s1 : balanced V O s -> fget fd s = Ok f s1 ->
  f = NULL /\ call_keeps V O s s1 \/ f <> NULL /\ file_ok (fds [p_cwd s] ⊎ V) (fds (p_files s) ⊎ O ⊎ {[+ f +]}) s s1 /\
    (fd = -1 /\ files s1 !! f = Some (File 0 0 1 NULL) \/ 0 <= fd /\ p_files s !! Z.to_nat fd = Some f).
Proof.
  intros Hb E. eapply file_fget in E; [|split; [exact Hb|apply same_proc_refl]]. destruct E as [[-> H]|(Hf & H & Hd)]; [left; split; [done|by apply file_done]|right]. by intuition.
Qed.

Lemma do_read_keeps V O s fd n r s' : balanced V O s -> do_read fd n s = Ok r s' -> call_keeps V O s s'.
Proof.
  intros Hb. unfold do_read. intros (f & s1 & E1 & E)%bind_Ok_inv. destruct (call_fget _ _ _ _ _ _ Hb E1) as [[-> H]|(Hf & Ho & _)]; [by injection E as <- <-|].
  rewrite (proj2 (c_true_spec f) Hf) in E. follow E. follow E; [follow_all E|]. follow E; [follow_all E|]. follow E. follow E; [follow_all E|].
  at_bind E res s2 E2. apply vcall_inv in E2 as [Ht E2]. eapply file_kept in Ho; [|eapply vn_read_kept; [exact Ht|exact E2]].
  unfold when in E. destruct (0 <? res.1); follow_all E.
Qed.

Lemma do_lseek_keeps V O s fd offset whence r s' : balanced V O s -> do_lseek fd offset whence s = Ok r s' -> call_keeps V O s s'.
Proof.
  intros Hb. unfold do_lseek. destruct (_ && _); [intros [= <- <-]; by apply call_same|]. intros (f & s1 & E1 & E)%bind_Ok_inv.
  destruct (call_fget _ _ _ _ _ _ Hb E1) as [[-> H]|(Hf & Ho & _)]; [by injection E as <- <-|].
  rewrite (proj2 (c_true_spec f) Hf) in E. follow E. follow E; [follow_all E|]. at_bind E v s2 E2.
  assert (s2 = s1) as -> by (destruct (whence =? SEEK_END); [by apply vnode_at_inv in E2 as [-> _]|by injection E2]). cbv zeta in E. follow E; follow_all E.
Qed.
Lemma do_close_keeps V O s fd r s' : balanced V O s -> do_close fd s = Ok r s' -> call_keeps V O s s'.
Proof.
  intros Hb. unfold do_close. intros (f & s1 & E1 & E)%bind_Ok_inv. destruct (call_fget _ _ _ _ _ _ Hb E1) as [[-> H]|(Hf & Ho & Hfd)]; [by injection E as <- <-|].
  rewrite (proj2 (Z.eqb_neq f NULLP) Hf) in E. follow E. follow E; [follow_all E|]. at_bind E u1 s2 E2. eapply file_fput in Ho; [|exact E2]. at_bind E u2 s3 E3. apply set_p_file_inv in E3 as (-> & H0 & _).
  destruct Hfd as [[-> _]|[_ Hl]]; [lia|]. destruct Ho as [Ho (P1 & P2 & P3)]. rewrite (fds_drop _ _ _ Hl Hf) in Ho.
  at_bind E u3 s3 E3. injection E as <- <-. set (l := <[Z.to_nat fd := NULL]> (p_files s)) in *. change (<[Z.to_nat fd := NULLP]> (p_files s2)) with (<[Z.to_nat fd := NULL]> (p_files s2)) in E3.
  rewrite P1 in E3. fold l in E3. destruct (fput_own (fds [p_cwd s] ⊎ V) (fds l ⊎ O) (set_p_files l s2) f u3 s3) as [Ho' (Q1 & Q2 & Q3)]; [|done|].
  - apply own_p_files. by replace (fds l ⊎ O ⊎ {[+ f +]}) with (fds l ⊎ {[+ f +]} ⊎ O) by multiset_solver.
  - cbn in Q1, Q2, Q3. split; [unfold balanced; by rewrite Q1, Q2, P2|rewrite Q1; apply length_insert|congruence].
Qed.
(** A file in a free descriptor. *)
Lemma fd_taken V O s s1 nfd f r s' : file_ok (fds [p_cwd s] ⊎ V) (fds (p_files s) ⊎ O ⊎ {[+ f +]}) s s1 -> f <> NULL -> p_files s !! Z.to_nat nfd = Some NULL ->
  set_p_file nfd f s1 = Ok r s' -> call_keeps V O s s'.
Proof.
  intros [Ho (P1 & P2 & P3)] Hf Hl E. apply set_p_file_inv in E as (-> & H0 & _). rewrite P1.
  split; [|apply length_insert|done]. unfold balanced. cbn [p_files p_cwd set_p_files]. rewrite P2, (fds_take _ _ _ Hl Hf). apply own_p_files.
  by replace (fds (p_files s) ⊎ {[+ f +]} ⊎ O) with (fds (p_files s) ⊎ O ⊎ {[+ f +]}) by multiset_solver.
Qed.
Lemma get_empty_fd_inv s fd s' : get_empty_fd s = Ok fd s' -> s' = s /\ (fd = - EMFILE \/ p_files s !! Z.to_nat fd = Some NULL).
Proof.
  unfold get_empty_fd. rewrite get_bind. intros [= <- <-]. split; [done|]. pose proof (first_empty_spec 0 (p_files s)) as H.
  destruct (first_empty 0 (p_files s)) as [fd|]; [right|by left]. destruct H as (i & -> & Hi & _). by rewrite Z.add_0_l, Nat2Z.id.
Qed.
Lemma do_dup_keeps V O s fd r s' : balanced V O s -> do_dup fd s = Ok r s' -> call_keeps V O s s'.
Proof.
  intros Hb. unfold do_dup. intros (f & s1 & E1 & E)%bind_Ok_inv. destruct (call_fget _ _ _ _ _ _ Hb E1) as [[-> H]|(Hf & Ho & Hfd)]; [by injection E as <- <-|].
  rewrite (proj2 (Z.eqb_neq f NULLP) Hf) in E. follow E. follow E; [follow_all E|]. at_bind E nfd s2 E2. apply get_empty_fd_inv in E2 as [-> Hn].
  at_bind E u s2 E2. injection E as <- <-. destruct Hn as [->|Hn].
  - apply set_p_file_inv in E2 as (_ & ? & _). pose proof (errno_pos EMFILE ltac:(set_solver)). lia.
  - eapply fd_taken; [exact Ho|done| |exact E2]. destruct Ho as [_ (P1 & _)]. by rewrite <- P1.
Qed.
(** [dup2] to a descriptor that is not open, or to itself. *)
Lemma do_dup2_keeps V O s ofd nfd r s' : balanced V O s -> nfd = ofd \/ p_files s !! Z.to_nat nfd = Some NULL -> do_dup2 ofd nfd s = Ok r s' -> call_keeps V O s s'.
Proof.
  intros Hb Hn. unfold do_dup2. destruct (_ || _); [intros [= <- <-]; by apply call_same|]. intros (f & s1 & E1 & E)%bind_Ok_inv.
  destruct (call_fget _ _ _ _ _ _ Hb E1) as [[-> H]|(Hf & Ho & Hfd)]; [by injection E as <- <-|].
  rewrite (proj2 (Z.eqb_neq f NULLP) Hf) in E. follow E. follow E; [follow_all E|]. at_bind E g s2 E2. apply p_file_inv in E2 as (-> & H0 & Hg).
  destruct (c_true g && (nfd =? ofd)) eqn:Eg; [follow_all E|]. pose proof Ho as [_ (P1 & _)]. rewrite P1 in Hg. destruct (Z.eqb_spec g NULLP) as [->|Hgn].
  - at_bind E u s2 E2. injection E as <- <-. by eapply fd_taken.
  - destruct Hn as [->|Hn]; [|rewrite Hn in Hg; injection Hg as <-; done]. by rewrite Z.eqb_refl, (proj2 (c_true_spec g) Hgn) in Eg.
Qed.
Lemma do_getdent_keeps V O s fd r s' : balanced V O s -> do_getdent fd s = Ok r s' -> call_keeps V O s s'.
Proof.
  intros Hb. unfold do_getdent. intros (f & s1 & E1 & E)%bind_Ok_inv. destruct (call_fget _ _ _ _ _ _ Hb E1) as [[-> H]|(Hf & Ho & _)]; [by injection E as <- <-|].
  rewrite (proj2 (Z.eqb_neq f NULLP) Hf) in E. follow E. follow E; [follow_all E|]. follow E. follow E; [follow_all E|].
  at_bind E res s2 E2. eapply file_kept in Ho; [|eapply vn_readdir_kept; [by exists y|exact E2]]. follow E; follow_all E.
Qed.
(** Seeking while a reference to a file is held. *)
Lemma do_lseek_own V O s0 s fd offset whence r s' : file_ok V (fds (p_files s0) ⊎ O) s0 s -> do_lseek fd offset whence s = Ok r s' -> file_ok V (fds (p_files s0) ⊎ O) s0 s'.
Proof.
  intros Hb. unfold do_lseek. destruct (_ && _); [by intros [= <- <-]|]. intros (f & s1 & E1 & E)%bind_Ok_inv.
  destruct (file_fget _ _ _ _ _ _ _ Hb E1) as [[-> H]|(Hf & Ho & _)]; [by injection E as <- <-|].
  rewrite (proj2 (c_true_spec f) Hf) in E. follow E. follow E; [by repeat follow E|]. at_bind E v s2 E2.
  assert (s2 = s1) as -> by (destruct (whence =? SEEK_END); [by apply vnode_at_inv in E2 as [-> _]|by injection E2]). cbv zeta in E. by follow E; repeat follow E.
Qed.
Lemma do_write_keeps V O s fd buf n r s' : balanced V O s -> do_write fd buf n s = Ok r s' -> call_keeps V O s s'.
Proof.
  intros Hb. unfold do_write. intros (f & s1 & E1 & E)%bind_Ok_inv. destruct (call_fget _ _ _ _ _ _ Hb E1) as [[-> H]|(Hf & Ho & _)]; [by injection E as <- <-|].
  rewrite (proj2 (c_true_spec f) Hf) in E. follow E. follow E; [follow_all E|]. follow E; [follow_all E|]. at_bind E p s2 E2.
  replace (fds (p_files s) ⊎ O ⊎ {[+ f +]}) with (fds (p_files s) ⊎ (O ⊎ {[+ f +]})) in Ho by multiset_solver.
  assert (file_ok (fds [p_cwd s] ⊎ V) (fds (p_files s) ⊎ (O ⊎ {[+ f +]})) s s2) as Ho2 by (destruct (c_true _); by eapply do_lseek_own).
  replace (fds (p_files s) ⊎ (O ⊎ {[+ f +]})) with (fds (p_files s) ⊎ O ⊎ {[+ f +]}) in Ho2 by multiset_solver. clear Ho.
  follow E. at_bind E res s3 E3. apply vcall_inv in E3 as [Ht E3]. eapply file_kept in Ho2; [|eapply vn_write_kept; [exact Ht|exact E3]].
  unfold when in E. destruct (0 <? res); [|follow_all E]. rewrite bind_assoc in E. follow E. rewrite bind_assoc in E. follow E. rewrite bind_assoc in E. follow_all E.
Qed.

(** *** On paths *)

Lemma cwd_held_start V D s0 s : same_files s0 s -> cwd_held (fds [p_cwd s0] ⊎ V ⊎ D) s.
Proof.
  intros [(_ & E & _) _]. unfold cwd_held. rewrite E. destruct (decide (p_cwd s0 = NULL)); [by left|right]. rewrite fds_one by done. multiset_solver.
Qed.
Lemma cwd_held_here V s : cwd_held (fds [p_cwd s] ⊎ V) s.
Proof. rewrite <- (right_id_L ∅ (⊎) (_ ⊎ V)). apply cwd_held_start, same_files_refl. Qed.
(** The start of a call on a path. *)
Lemma call_namev V O s tail path d s1 : balanced V O s -> good_path tail path -> dir_namev tail path NULLP s = Ok d s1 ->
  nv_ret d < 0 /\ nv_vnode d = NULL /\ call_keeps V O s s1 \/
  nv_ret d = 0 /\ nv_vnode d <> NULL /\ path_ok (fds [p_cwd s] ⊎ V ⊎ {[+ nv_vnode d +]}) (fds (p_files s) ⊎ O) s s1.
Proof.
  intros Hb Hg E. destruct (dir_namev_path _ _ s _ _ _ _ _ (path_start _ _ _ Hb) (cwd_held_here _ _) Hg E) as [(?&?&?)|?]; [left|by right]. split_and!; try done. by apply path_done.
Qed.
Lemma lookup_null nm len s r s' : lookup NULL nm len s = Ok r s' -> False.
Proof. unfold lookup. intros ([] & s1 & [? _]%kassert_Ok_inv & _)%bind_Ok_inv. done. Qed.

Lemma do_mknod_keeps V O s tail path mode dev r s' : balanced V O s -> good_path tail path -> do_mknod tail path mode dev s = Ok r s' -> call_keeps V O s s'.
Proof.
  intros Hb Hg. unfold do_mknod. intros (d & s1 & E1 & E)%bind_Ok_inv. follow E. follow E. at_bind E q s2 E2.
  destruct (call_namev _ _ _ _ _ _ _ Hb Hg E1) as [(_ & Hd & _)|(_ & _ & Hp)]; [rewrite Hd in E2; by apply lookup_null in E2|].
  destruct (path_lookup _ _ _ _ _ _ _ _ _ Hp E2) as [(_ & _ & Hp2)|(Hq & _ & _)]; destruct (Z.eqb_spec q.1 (- ENOENT)) as [He|He]; try done.
  - follow E. at_bind E u s3 E3. assert (there s2 (nv_vnode d)) as Ht by (eapply own_held; [apply Hp2|multiset_solver]).
    eapply path_kept in Hp2; [|by eapply vn_mknod_kept]. follow_all E.
  - pose proof (errno_pos ENOENT ltac:(set_solver)). lia.
Qed.
Lemma do_mkdir_keeps V O s tail path r s' : balanced V O s -> good_path tail path -> do_mkdir tail path s = Ok r s' -> call_keeps V O s s'.
Proof.
  intros Hb Hg. unfold do_mkdir. intros (d & s1 & E1 & E)%bind_Ok_inv. destruct (call_namev _ _ _ _ _ _ _ Hb Hg E1) as [(Hr & Hd & Hc)|(Hr & _ & Hp)].
  { rewrite (proj2 (Z.ltb_lt _ _) Hr) in E. by injection E as <- <-. }
  rewrite Hr in E. change (0 <? 0) with false in E. cbn iota in E. follow E; [follow_all E|]. follow E; [follow_all E|]. follow E. follow E; [follow_all E|]. follow E.
  at_bind E q s2 E2. destruct (path_lookup _ _ _ _ _ _ _ _ _ Hp E2) as [(Hq & _ & Hp2)|(Hq & _ & Hp2)].
  - rewrite (proj2 (Z.leb_gt _ _) Hq) in E. follow E; [|done]. follow E. at_bind E u s3 E3.
    assert (there s2 (nv_vnode d)) as Ht by (eapply own_held; [apply Hp2|multiset_solver]). eapply path_kept in Hp2; [|by eapply vn_mkdir_kept]. follow_all E.
  - rewrite Hq in E. change (0 <=? 0) with true in E. cbn iota in E. follow_all E.
Qed.
Lemma do_rmdir_keeps V O s tail path r s' : balanced V O s -> good_path tail path -> do_rmdir tail path s = Ok r s' -> call_keeps V O s s'.
Proof.
  intros Hb Hg. unfold do_rmdir. intros (d & s1 & E1 & E)%bind_Ok_inv. destruct (call_namev _ _ _ _ _ _ _ Hb Hg E1) as [(Hr & Hd & Hc)|(Hr & _ & Hp)].
  { rewrite (proj2 (Z.ltb_lt _ _) Hr) in E. by injection E as <- <-. }
  rewrite Hr in E. change (0 <? 0) with false in E. cbn iota in E. follow E. follow E; [follow_all E|]. follow E. cbv zeta in E. follow E; [follow_all E|]. follow E; [follow_all E|]. follow E.
  at_bind E u s2 E2. eapply path_kept in Hp; [|eapply vn_rmdir_kept; [by exists y|exact E2]]. follow_all E.
Qed.
Lemma do_unlink_keeps V O s tail path r s' : balanced V O s -> good_path tail path -> do_unlink tail path s = Ok r s' -> call_keeps V O s s'.
Proof.
  intros Hb Hg. unfold do_unlink. intros (d & s1 & E1 & E)%bind_Ok_inv. destruct (call_namev _ _ _ _ _ _ _ Hb Hg E1) as [(Hr & Hd & Hc)|(Hr & _ & Hp)].
  { rewrite (proj2 (c_true_spec _)) in E by (unfold NULLP; lia). by injection E as <- <-. }
  rewrite Hr in E. change (c_true 0) with false in E. cbn iota in E. at_bind E q s2 E2. destruct (path_lookup _ _ _ _ _ _ _ _ _ Hp E2) as [(Hq & _ & Hp2)|(Hq & _ & Hp2)].
  - rewrite (proj2 (Z.ltb_lt _ _) Hq) in E. follow_all E.
  - rewrite Hq in E. change (0 <? 0) with false in E. cbn iota in E. follow E. follow E; [follow_all E|]. follow E. follow E. follow E. at_bind E u s3 E3.
    eapply path_kept in Hp2; [|eapply vn_unlink_kept; [by exists y0|exact E3]]. follow_all E.
Qed.
Lemma do_stat_keeps V O s tail path r s' : balanced V O s -> good_path tail path -> do_stat tail path s = Ok r s' -> call_keeps V O s s'.
Proof.
  intros Hb Hg. unfold do_stat. destruct path as [|b path]; [intros [= <- <-]; by apply call_same|]. intros (d & s1 & E1 & E)%bind_Ok_inv.
  destruct (call_namev _ _ _ _ _ _ _ Hb Hg E1) as [(Hr & Hd & Hc)|(Hr & Hn & Hp)].
  { rewrite (proj2 (Z.ltb_lt _ _) Hr) in E. by injection E as <- <-. }
  rewrite Hr in E. change (0 <? 0) with false in E. cbn iota zeta in E. at_bind E q s2 E2. destruct (path_lookup _ _ _ _ _ _ _ _ _ Hp E2) as [(Hq & Hqn & Hp2)|(Hq & Hqn & Hp2)].
  - follow E; [follow_all E|]. follow E. follow E. at_bind E st s3 E3. eapply path_kept in Hp2; [|eapply vn_stat_kept; [by exists y|exact E3]].
    rewrite Hqn, (proj2 (c_true_spec _) Hn) in E. change (c_true NULL) with false in E. cbn [when] in E. follow_all E.
  - follow E; [exfalso; pose proof (errno_pos ENOENT ltac:(set_solver)); pose proof (errno_pos ENOTDIR ltac:(set_solver)); rewrite Hq in *; zify_bool; lia|].
    follow E. follow E. at_bind E st s3 E3. eapply path_kept in Hp2; [|eapply vn_stat_kept; [by exists y|exact E3]].
    rewrite (proj2 (c_true_spec _) Hn), (proj2 (c_true_spec _) Hqn) in E. cbn [when] in E. follow_all E.
Qed.
Lemma do_chdir_keeps V O s tail path r s' : balanced V O s -> p_cwd s <> NULL -> good_path tail path -> do_chdir tail path s = Ok r s' -> call_keeps V O s s'.
Proof.
  intros Hb Hcwd Hg. unfold do_chdir. intros (d & s1 & E1 & E)%bind_Ok_inv. at_bind E q s2 E2.
  destruct (call_namev _ _ _ _ _ _ _ Hb Hg E1) as [(_ & Hd & _)|(_ & _ & Hp)]; [rewrite Hd in E2; by apply lookup_null in E2|].
  destruct (path_lookup _ _ _ _ _ _ _ _ _ Hp E2) as [(Hq & Hqn & Hp2)|(Hq & Hqn & Hp2)]; [rewrite (proj2 (Z.ltb_lt _ _) Hq) in E; follow_all E|].
  rewrite Hq in E. change (0 <? 0) with false in E. cbn iota in E. follow E. follow E; [follow_all E|].
  at_bind E u s3 E3. eapply path_vput2 in Hp2; [|exact E3]. follow E. destruct Hp2 as [Ho ((P1 & P2 & P3) & P4)]. rewrite P2 in E.
  at_bind E u2 s4 E4. destruct (vput_own (V ⊎ {[+ q.2 +]}) (fds (p_files s) ⊎ O) s3 (p_cwd s) u2 s4) as [Ho4 ((Q1 & Q2 & Q3) & Q4)]; [|done|].
  { rewrite fds_one in Ho by done. by replace (V ⊎ {[+ q.2 +]} ⊎ {[+ p_cwd s +]}) with ({[+ p_cwd s +]} ⊎ V ⊎ {[+ q.2 +]}) by multiset_solver. }
  rewrite modify_bind in E. injection E as <- <-. split; cbn [p_files set_p_cwd Vfs.vfs_root_vn]; [|congruence|congruence].
  unfold balanced. cbn [p_files p_cwd set_p_cwd]. rewrite fds_one, Q1, P1, (comm_L (⊎) _ V) by done. exact Ho4.
Qed.
Lemma do_link_keeps V O s tail from to r s' : balanced V O s -> good_path tail from -> good_path tail to -> do_link tail from to s = Ok r s' -> call_keeps V O s s'.
Proof.
  intros Hb Hg1 Hg2. unfold do_link. intros (v & s1 & E1 & E)%bind_Ok_inv.
  destruct (open_namev_path _ _ s _ _ _ _ _ _ (path_start _ _ _ Hb) (cwd_held_here _ _) Hg1 E1) as [(Hr & Hp)|(Hr & Hn & Hp)].
  { rewrite (proj2 (c_true_spec _) Hr) in E. follow_all E. }
  rewrite Hr in E. change (c_true 0) with false in E. cbn iota in E. follow E. follow E; [follow_all E|]. at_bind E d s2 E2.
  destruct (dir_namev_path _ _ _ _ _ _ _ _ Hp (cwd_held_start _ _ _ _ (proj2 Hp)) Hg2 E2) as [(Hd & _ & Hp2)|(Hd & Hdn & Hp2)].
  { rewrite (proj2 (c_true_spec _)) in E by (unfold NULLP; lia). follow_all E. }
  rewrite Hd in E. change (c_true 0) with false in E. cbn iota in E. follow E; [follow_all E|].
  at_bind E q s3 E3. destruct (path_lookup _ _ _ _ _ _ _ _ _ Hp2 E3) as [(Hq & Hqn & Hp3)|(Hq & Hqn & Hp3)].
  - rewrite Hqn in E. change (c_true NULL) with false in E. cbn [andb] in E. follow E. at_bind E u s4 E4. apply vcall_inv in E4 as [Ht E4].
    destruct (own_held _ _ _ v.2 (proj1 Hp3)) as [Ht2 _]; [by rewrite !gmultiset_elem_of_disj_union, !gmultiset_elem_of_singleton; auto|]. eapply path_kept in Hp3; [|eapply vn_link_kept; [exact Ht2|exact Ht|exact E4]].
    replace (fds [p_cwd s] ⊎ V ⊎ {[+ v.2 +]} ⊎ {[+ nv_vnode d +]}) with (fds [p_cwd s] ⊎ V ⊎ {[+ nv_vnode d +]} ⊎ {[+ v.2 +]}) in Hp3 by multiset_solver.
    follow_all E.
  - rewrite Hq, (proj2 (c_true_spec _) Hqn) in E. cbn in E. at_bind E u s4 E4.
    replace (fds [p_cwd s] ⊎ V ⊎ {[+ v.2 +]} ⊎ {[+ nv_vnode d +]} ⊎ {[+ q.2 +]}) with (fds [p_cwd s] ⊎ V ⊎ {[+ nv_vnode d +]} ⊎ {[+ q.2 +]} ⊎ {[+ v.2 +]}) in Hp3 by multiset_solver.
    eapply path_vput in Hp3; [|exact E4]. follow_all E.
Qed.

(** The descriptor [fd] that [do_open] fills, of the file [f], is empty again. *)
Lemma open_undone V O s fd s1 f r1 s2 r2 s' : p_files s !! Z.to_nat fd = Some NULL -> p_files s1 = <[Z.to_nat fd := f]> (p_files s) -> p_cwd s1 = p_cwd s ->
  Vfs.vfs_root_vn s1 = Vfs.vfs_root_vn s -> own (fds [p_cwd s] ⊎ V) (fds (p_files s) ⊎ O ⊎ {[+ f +]}) s1 ->
  fput f s1 = Ok r1 s2 -> set_p_file fd NULLP s2 = Ok r2 s' -> call_keeps V O s s'.
Proof.
  intros Hl P1 P2 P3 Ho E1 E2. destruct (fput_own _ _ _ _ _ _ Ho E1) as [Ho2 (Q1 & Q2 & Q3)]. apply set_p_file_inv in E2 as (-> & _ & _).
  assert (<[Z.to_nat fd := NULL]> (p_files s2) = p_files s) as El by (rewrite Q1, P1, list_insert_insert_eq; by apply list_insert_id).
  change NULLP with NULL. rewrite El. split; cbn [p_files set_p_files Vfs.vfs_root_vn]; [|done|congruence].
  unfold balanced. cbn [p_files p_cwd set_p_files]. rewrite Q2, P2. by apply own_p_files.
Qed.
(** [upd_file] on a file that is known. *)
Lemma upd_file_run f g s x r s' : files s !! f = Some x -> upd_file f g s = Ok r s' -> s' = set_files (insert f (g x)) s.
Proof. intros Hx E. rewrite (upd_file_eq f x g s Hx) in E. by injection E as _ <-. Qed.
(** The end of [do_open]: the new file [f] gets the vnode [v], which may be a directory
    that must not be written. *)
Lemma open_found V O s fd s4 f v m oflags r s' : p_files s !! Z.to_nat fd = Some NULL -> p_files s4 = <[Z.to_nat fd := f]> (p_files s) -> p_cwd s4 = p_cwd s ->
  Vfs.vfs_root_vn s4 = Vfs.vfs_root_vn s -> f <> NULL -> files s4 !! f = Some (File m 0 1 NULL) ->
  own (fds [p_cwd s] ⊎ V ⊎ {[+ v +]}) (fds (p_files s) ⊎ O ⊎ {[+ f +]}) s4 ->
  (upd_file f (set_f_vnode v);;
   x ← vnode_at v;
   if S_ISDIR (vn_mode x) && ((Z.land oflags 3 =? O_WRONLY) || (Z.land oflags 3 =? O_RDWR)) then fput f;; set_p_file fd NULLP;; mret (- EISDIR)
   else upd_file f (set_f_refcount 1);; upd_file f (set_f_pos 0);; mret fd) s4 = Ok r s' -> call_keeps V O s s'.
Proof.
  intros Hl Hp4 Hc4 Hv4 Hf Hf4 Ho4 E. at_bind E u5 s5 E5. pose proof (upd_file_run f _ s4 _ _ _ Hf4 E5) as ->. clear E5.
  set (x5 := set_f_vnode v (File m 0 1 NULL)) in E. set (s5 := set_files (insert f x5) s4) in *.
  assert (own (fds [p_cwd s] ⊎ V) (fds (p_files s) ⊎ O ⊎ {[+ f +]}) s5) as Ho5 by (by apply (file_takes_vnode _ _ (kept s4) f)).
  follow E. follow E.
  { at_bind E u6 s6 E6. at_bind E u7 s7 E7. injection E as <- <-. by eapply (open_undone _ _ _ _ s5). }
  assert (files s5 !! f = Some x5) as Hf5 by apply lookup_insert_eq. at_bind E u6 s6 E6.
  assert (own (fds [p_cwd s] ⊎ V) (fds (p_files s) ⊎ O ⊎ {[+ f +]}) s6 /\ same_proc s5 s6) as [Ho6 (T1 & T2 & T3)].
  { refine (upd_file_own _ _ s5 f _ u6 s6 _ Ho5 E6). intros x Hx. rewrite Hf5 in Hx. by injection Hx as <-. }
  at_bind E u7 s7 E7. destruct (upd_file_own (fds [p_cwd s] ⊎ V) (fds (p_files s) ⊎ O ⊎ {[+ f +]}) s6 f (set_f_pos 0) u7 s7) as [Ho7 (U1 & U2 & U3)]; [done|exact Ho6|done|].
  injection E as <- <-. assert (p_files s7 = <[Z.to_nat fd := f]> (p_files s)) as Hp7 by (rewrite U1, T1; exact Hp4).
  assert (p_cwd s7 = p_cwd s) as Hc7 by (rewrite U2, T2; exact Hc4).
  split; [|by rewrite Hp7, length_insert|rewrite U3, T3; exact Hv4]. unfold balanced. rewrite Hp7, Hc7, (fds_take _ _ _ Hl Hf).
  by replace (fds (p_files s) ⊎ {[+ f +]} ⊎ O) with (fds (p_files s) ⊎ O ⊎ {[+ f +]}) by multiset_solver.
Qed.
Lemma do_open_keeps V O s tail path oflags r s' : balanced V O s -> good_path tail path -> do_open tail path oflags s = Ok r s' -> call_keeps V O s s'.
Proof.
  intros Hb Hg. unfold do_open. destruct (_ && _); [intros [= <- <-]; by apply call_same|]. destruct (_ <? _); [intros [= <- <-]; by apply call_same|].
  intros (fd & s1 & [-> Hfd]%get_empty_fd_inv & E)%bind_Ok_inv. at_bind E f s1 E1.
  destruct (call_fget _ _ _ _ _ _ Hb E1) as [[-> H]|(Hf & [Ho (P1 & P2 & P3)] & [[_ Hnew]|[? _]])]; [|clear E1|lia].
  { at_bind E u s2 E2. apply set_p_file_inv in E2 as (-> & H0 & _). at_bind E u' s3 E3. unfold upd_file in E3. apply bind_Ok_inv in E3 as (x & s4 & [-> Hx]%file_at_inv & _).
    cbn [files set_p_files] in Hx. destruct H as [Hs _ _]. destruct (so_files _ _ _ Hs NULL x Hx) as [Hin _]. by destruct (so_null _ _ _ Hs). }
  at_bind E u s2 E2. apply set_p_file_inv in E2 as (-> & H0 & _). rewrite P1 in E.
  destruct Hfd as [->|Hl]; [pose proof (errno_pos EMFILE ltac:(set_solver)); lia|].
  at_bind E u2 s3 E3. set (s2 := set_p_files _ s1) in *. pose proof (upd_file_run f _ s2 _ _ _ Hnew E3) as Es3. cbn in Es3.
  destruct (upd_file_own (fds [p_cwd s] ⊎ V) (fds (p_files s) ⊎ O ⊎ {[+ f +]}) s2 f (set_f_mode (mode_of oflags)) u2 s3) as [Ho3 (Q1 & Q2 & Q3)]; [done|exact Ho|done|].
  assert (files s3 !! f = Some (File (mode_of oflags) 0 1 NULL)) as Hf3 by (rewrite Es3; apply lookup_insert_eq).
  at_bind E v s4 E4. assert (cwd_held (fds [p_cwd s] ⊎ V) s3) as Hc3.
  { pose proof (cwd_held_here V s) as Hc. unfold cwd_held in *. rewrite Q2. cbn [p_cwd s2 set_p_files]. by rewrite P2. }
  destruct (open_namev_path _ _ s3 _ _ _ _ _ _ (path_start _ _ _ Ho3) Hc3 Hg E4) as [(Hr & [Ho4 ((R1 & R2 & R3) & R4)])|(Hr & Hn & [Ho4 ((R1 & R2 & R3) & R4)])].
  all: assert (p_files s4 = <[Z.to_nat fd := f]> (p_files s)) as Hp4 by (rewrite R1, Q1; done).
  all: assert (p_cwd s4 = p_cwd s) as Hc4 by (rewrite R2, Q2; exact P2).
  all: assert (Vfs.vfs_root_vn s4 = Vfs.vfs_root_vn s) as Hv4 by (rewrite R3, Q3; exact P3).
  { rewrite (proj2 (c_true_spec _) Hr) in E. at_bind E u5 s5 E5. at_bind E u6 s6 E6. injection E as <- <-. by eapply open_undone. }
  rewrite Hr in E. change (c_true 0) with false in E. cbn iota in E. rewrite <- R4 in Hf3. by eapply open_found.
Qed.

(** ** Every call *)

(** The calls of a process on files.  [dup2] is to a free descriptor or to the same one
    (on any other it loses a reference, see [do_dup2_leaks]); a path is not empty, or
    memory behind it has no slash. *)
Inductive fs_call s : forall A : Type, M (vfs FS) A -> Prop :=
| fc_open tail path oflags : good_path tail path -> fs_call s Z (do_open tail path oflags)
| fc_read fd n : fs_call s (Z * list Z) (do_read fd n)
| fc_write fd buf n : fs_call s Z (do_write fd buf n)
| fc_close fd : fs_call s Z (do_close fd)
| fc_dup fd : fs_call s Z (do_dup fd)
| fc_dup2 ofd nfd : nfd = ofd \/ p_files s !! Z.to_nat nfd = Some NULL -> fs_call s Z (do_dup2 ofd nfd)
| fc_lseek fd offset whence : fs_call s Z (do_lseek fd offset whence)
| fc_getdent fd : fs_call s (Z * list Z) (do_getdent fd)
| fc_mknod tail path mode dev : good_path tail path -> fs_call s Z (do_mknod tail path mode dev)
| fc_mkdir tail path : good_path tail path -> fs_call s Z (do_mkdir tail path)
| fc_rmdir tail path : good_path tail path -> fs_call s Z (do_rmdir tail path)
| fc_unlink tail path : good_path tail path -> fs_call s Z (do_unlink tail path)
| fc_link tail from to : good_path tail from -> good_path tail to -> fs_call s Z (do_link tail from to)
| fc_rename tail from to : good_path tail from -> good_path tail to -> fs_call s Z (do_rename tail from to)
| fc_chdir tail path : p_cwd s <> NULL -> good_path tail path -> fs_call s Z (do_chdir tail path)
| fc_stat tail path : good_path tail path -> fs_call s (Z * list Z) (do_stat tail path).

Lemma fs_call_keeps V O s A (m : M (vfs FS) A) r s' : balanced V O s -> fs_call s A m -> m s = Ok r s' -> call_keeps V O s s'.
Proof.
  intros Hb Hc. revert r. destruct Hc; intros r E;
    eauto using do_open_keeps, do_read_keeps, do_write_keeps, do_close_keeps, do_dup_keeps, do_dup2_keeps, do_lseek_keeps, do_getdent_keeps,
      do_mknod_keeps, do_mkdir_keeps, do_rmdir_keeps, do_unlink_keeps, do_link_keeps, do_chdir_keeps, do_stat_keeps.
Qed.

End Calls.
