(* ===== verification/StoreRun.v ===== *)
(** The shared tables of [Store] on the tree of [VfsDemo], and a call on them. *)
From S2P Require Import Prelude.
From S2P Require Import Platform.
From S2P Require Import Demo.
From S2P Require Import Proc.
From S2P Require Import ProcInv.
From S2P Require Import Vfs.
From S2P Require Import VfsThms.
From S2P Require Import Namev.
From S2P Require Import VfsDemo.
From S2P Require Import Store.
From S2P Require Import FileRefs.
Open Scope Z_scope.

(** This file system holds no references itself. *)
#[export] Instance demo_refs : FsRefs (FS := entries) := {| fs_refs _ := ∅ |}.
#[export] Instance demo_store : StoreOps (FS := entries) := {|
  file_ref f s := match files s !! f with Some x => Ok tt (set_files (insert f (set_f_refcount (f_refcount x + 1) x)) s) | None => Halt NullDeref s end;
  root_get s := Ok tt (vn_add 1 (vfs_root_vn s) s)
|}.
#[export] Instance demo_store_ok : StoreLaws (FS := entries).
Proof. split; [|done]. intros s f x Hx. cbn. by rewrite Hx. Qed.

Implicit Types (s : dfs).
Lemma kept_same s : vn_kept ∅ s s.
Proof. split; [apply same_files_refl| |done|done]. intros v. rewrite multiplicity_empty. lia. Qed.
(** A new entry, with a vnode that nobody or the caller refers to. *)
Lemma kept_entry d nm mode refs D s : (forall v, Z.of_nat (multiplicity v D) = if decide (v = new_key (vnodes s)) then refs else 0) ->
  vn_kept D s (add_entry d nm mode refs s).2.
Proof.
  intros HD. set (v := new_key (vnodes s)) in *. destruct (new_key_fresh (vnodes s)) as [Hv Hn]. fold v in Hv, Hn.
  assert (forall w, is_Some (vnodes s !! w) -> is_Some (<[v := Vnode mode 0 refs all_ops]> (vnodes s) !! w)) as Hold
    by (intros w Hw; rewrite lookup_insert; case_decide; eauto).
  split; [by split| |by apply Hold|].
  - intros w. rewrite HD. unfold Store.refs, count_of. cbn. fold v. rewrite lookup_insert. destruct (decide (v = w)) as [<-|Hw].
    + rewrite decide_True, Hn by done. cbn. lia.
    + rewrite decide_False by done. lia.
  - intros He d' nm' w. cbn. unfold entry_of. cbn [List.find]. case_bool_decide.
    + cbn. intros [= <-]. split; [unfold NULL; lia|]. exists (Vnode mode 0 refs all_ops). apply lookup_insert_eq.
    + intros Hd. destruct (He d' nm' w) as [? ?]; [exact Hd|]. split; [done|by apply Hold].
Qed.
#[export] Instance demo_vn : VnLaws (FS := entries).
Proof.
  split; cbn; intros.
  1-2, 5-6, 8-10: simplify_eq; apply kept_same.
  - injection H0 as <- <-. cbn. destruct (new_key_fresh (vnodes s)) as [Hv _]. split; [unfold NULL; lia|].
    apply (kept_entry d nm 4 1). intros w. case_decide as E; [subst w; by rewrite multiplicity_singleton_eq|by rewrite multiplicity_singleton_ne].
  - injection H0 as <- <-. apply (kept_entry d nm mode 0). intros w. rewrite multiplicity_empty. by case_decide.
  - injection H0 as <- <-. apply (kept_entry d nm 1 0). intros w. rewrite multiplicity_empty. by case_decide.
Qed.

(** Counting by computation: of the files that are there and of those that are held, and
    of the vnodes that are there or referred to. *)
Definition count_check (V O : gmultiset Z) (st : store entries) : bool :=
  bool_decide (NULL ∉ V) && bool_decide (NULL ∉ O) &&
  bool_decide (map_Forall (fun f x => f_refcount x = Z.of_nat (multiplicity f O)) (st_files st)) &&
  bool_decide (map_Forall (fun f x => f ∈ O) (st_files st)) && bool_decide (set_Forall (fun f => is_Some (st_files st !! f)) (dom O)) &&
  bool_decide (map_Forall (fun v y => vn_refcount y = Z.of_nat (multiplicity v (V ⊎ file_vns (st_files st)))) (st_vnodes st)) &&
  bool_decide (set_Forall (fun v => is_Some (st_vnodes st !! v)) (dom (V ⊎ file_vns (st_files st)))) &&
  bool_decide (st_root st = NULL \/ is_Some (st_vnodes st !! st_root st)) &&
  forallb (fun e => negb (e.2 =? 0) && bool_decide (is_Some (st_vnodes st !! e.2))) (st_fs st).
Lemma count_check_ok V O st : count_check V O st = true -> store_ok V O st.
Proof.
  unfold count_check. rewrite !andb_true_iff, !bool_decide_eq_true, forallb_forall. intros ((((((((H1 & H2) & H3) & H4) & H5) & H6) & H7) & H8) & H9).
  split; [done| | | |done|].
  - intros f x Hx. split; [by apply (H4 f x)|by apply (H3 f x)].
  - intros f Hf. apply H5. by apply gmultiset_elem_of_dom.
  - intros v. unfold Store.refs, count_of. cbn [fs_refs demo_refs]. rewrite multiplicity_empty. destruct (st_vnodes st !! v) as [y|] eqn:Hy; cbn [from_option]; [rewrite <- (H6 v y Hy); lia|].
    destruct (decide (v ∈ V ⊎ file_vns (st_files st))) as [Hin|Hin]; [destruct (H7 v) as [y ?]; [by apply gmultiset_elem_of_dom|congruence]|].
    rewrite elem_of_multiplicity in Hin. lia.
  - intros d nm v. cbn. unfold entry_of. destruct (List.find _ _) as [e|] eqn:E; cbn; intros; simplify_eq. apply List.find_some in E as [Hin _].
    specialize (H9 e Hin). apply andb_true_iff in H9 as [A B%bool_decide_eq_true]. split; [|done]. by apply negb_true_iff, Z.eqb_neq in A.
Qed.

(** Vnode 1 is the working directory and the root that is mounted. *)
Lemma fs0_balanced : balanced {[+ 1 +]} ∅ fs0.
Proof. apply count_check_ok. vm_compute. reflexivity. Qed.

