(* ===== verification/KernUser.v ===== *)
(** Processes change their own memory: mmap, munmap, brk and page faults as steps of
    the kernel, with the current process's address space and break in the state of
    [Proc]. *)
From S2P Require Import Prelude.
From S2P Require Import Platform.
From S2P Require Import Sched.
From S2P Require Import SchedInv.
From S2P Require Import ProcSched.
From S2P Require Import MmIface.
From S2P Require Import Mm.
From S2P Require Import MmInv.
From S2P Require Import MmPut.
From S2P Require Import MmSafe.
From S2P Require Import Vmmap.
From S2P Require Import Areas.
From S2P Require Import VmmapFacts.
From S2P Require Import VmmapThms.
From S2P Require Import MmLookup.
From S2P Require Import MmCow.
From S2P Require Import UserMem.
From S2P Require Import UserThms.
From S2P Require Import BrkThms.
From S2P Require Import FaultThms.
From S2P Require Import Proc.
From S2P Require Import ProcInv.
From S2P Require Import ProcThread.
From S2P Require Import ForkVm.
From S2P Require Import ProcFork.
Open Scope Z_scope.

(** ** A process changes in what the others do not look at *)

Section Update.
Context `{P : Platform} `{!PlatformOk P} {C : ProcConst} `{!ProcConstOk C} {MM FS : Type}.
Context `{!MmOps MM} `{!MmLaws MM} `{!ProcOps MM} `{!ProcLaws MM} `{!FsOps FS} `{!FsLaws FS}.
Implicit Types (k : kern (MM := MM) (FS := FS)) (F : list Z) (R V O : gmultiset Z).

Lemma threads_update ps pl ths p x x' : threads_ok ps pl ths -> ps !! p = Some x -> p_threads x' = p_threads x -> p_state x' = p_state x ->
  threads_ok (<[p := x']> ps) pl ths.
Proof.
  intros [Ht Hp] Hx E1 E2. split.
  - intros t kt Hkt. destruct (Ht t kt Hkt) as (A & B & z & Hz & D & E). split_and!; [done|done|]. rewrite lookup_insert. case_decide as Ep; [|by exists z].
    rewrite <- Ep, Hx in Hz. injection Hz as <-. exists x'. rewrite E1, E2. by split_and!.
  - intros q z. rewrite lookup_insert. case_decide as Ep; [|apply Hp]. intros [= <-]. subst q. specialize (Hp p x Hx). unfold proc_thread in *. by rewrite E1, E2.
Qed.

(** The current process with another break, descriptors and working directory, and the
    memory and the tables that go with them. *)
Definition with_current (x' : proc) (v' : vm (MM := MM)) (fs' : FS) k : kern :=
  Kern (ks k) v' fs' (<[curproc (ks k) := x']> (procs k)) (proc_list k) (next_pid k) (proc_initproc k) (kt_plinks k) (kt_ctxs k) (kstack_mem k).

Lemma with_current_ok F R V O O' k x x' v' fs' : kern_ok F R V O k -> procs k !! curproc (ks k) = Some x ->
  same_family x x' -> p_threads x' = p_threads x -> Proc.p_vmmap x' = Proc.p_vmmap x ->
  vm_ok (owned (procs k) (threads (ks k)) ++ F) R v' ->
  (forall m, is_Some (vm_maps (kvm k) !! m) -> is_Some (vm_maps v' !! m)) ->
  fs_safe (cwds (<[curproc (ks k) := x']> (procs k)) ⊎ V) (opens (<[curproc (ks k) := x']> (procs k)) ⊎ O') fs' ->
  kern_ok F R V O' (with_current x' v' fs' k).
Proof.
  intros [K1 K2 K3 K4 K5 K6 K7 K8 K9] Hx Hsf Et Em Hv Hmono Hfs. pose proof Hsf as (E1 & E2 & E3 & E4 & E5 & E6 & E7). split; try done; cbn.
  - eapply vm_ok_perm; [|exact Hv]. by rewrite (owned_update _ _ _ x).
  - by eapply fam_update.
  - by eapply threads_update.
  - eapply spaces_update; [|exact Hx|done|done]. by eapply spaces_mono.
  - by eapply waits_update.
Qed.
End Update.

Section KernUser.
Context {LM : Type} `{P : Platform} `{!PlatformOk P} {C : UserConst} `{!LowMem LM} {HHdr0 : MmobjHeader}.
Context {HLow : LowMemOk (LM:=LM)} {HHdr : MmobjHeaderOk} {HFile : FileOps (LM:=LM)} {HFileOk : FileOpsOk}.
Context {HUser : UserOps (mm LM)} {HPt : PtLaws LM} `{!UserLaws (mm LM)}.
Context {PC : ProcConst} `{!ProcConstOk PC} {FS : Type} `{!ProcOps (mm LM)} `{!ProcLaws (mm LM)} `{!FsOps FS} `{!FsLaws FS}.
Implicit Types (k : kern (MM := mm LM) (FS := FS)) (s : user (mm LM)) (F : list Z) (R V O : gmultiset Z).

(** ** Calls that change an address space *)

(** The heap is as [do_brk] keeps it, for a break up to the end of user memory. *)
Definition heap_ok (addr : Z) s (v : vmmap) (d : vmarea) F R : Prop :=
  heap_call addr s v d F R /\ addr <= USER_MEM_HIGH /\ addr <> UserMem.p_brk s /\
  (UserMem.p_brk s <= vma_end d * 4096 \/ vma_end d * 4096 < addr /\ exists a, heap_area s v d a).

(** The calls of a process: arguments are machine words, mappings anonymous. *)
Inductive mem_call F R s : forall A : Type, M (user (mm LM)) A -> Prop :=
| mc_munmap addr len : is_u32 addr -> is_u32 len -> addr <= USER_MEM_HIGH -> mem_call F R s Z (do_munmap addr len)
| mc_mmap addr len prot flags fd off v : mmap_args addr len flags off ->
    vm_maps (u_vm s) !! UserMem.p_vmmap s = Some v -> addr = 0 /\ vmm_list v <> [] \/ valid_range addr len ->
    mem_call F R s (Z * option Z) (do_mmap addr len prot flags fd off)
| mc_brk addr v d : heap_ok addr s v d F R -> mem_call F R s (Z * option Z) (do_brk addr)
| mc_fault vaddr cause v : is_u32 vaddr -> vm_maps (u_vm s) !! UserMem.p_vmmap s = Some v ->
    (forall o n prot fl, maps_to (vmm_list v) (vaddr / 4096) = Some (o, n, prot, fl) -> exists b, anon_chain (vm_mm (u_vm s)) o b) ->
    mem_call F R s unit (handle_pagefault vaddr cause).

(** What every such call keeps. *)
Record mem_kept F R s s' : Prop := {
  mk_ok : vm_ok F R (u_vm s');
  mk_maps : forall m, is_Some (vm_maps (u_vm s) !! m) -> is_Some (vm_maps (u_vm s') !! m)
}.
Lemma mem_kept_insert F R s m v s' l : vm_ok F R (u_vm s') -> vm_maps (u_vm s') = <[m := Vmmap l v]> (vm_maps (u_vm s)) -> mem_kept F R s s'.
Proof. intros H E. split; [done|]. intros i Hi. rewrite E, lookup_insert. case_decide; eauto. Qed.
Lemma mem_kept_same F R s s' : vm_ok F R (u_vm s') -> vm_maps (u_vm s') = vm_maps (u_vm s) -> mem_kept F R s s'.
Proof. intros H E. split; [done|]. by rewrite E. Qed.

(** Whether a range is free can be found out. *)
Lemma range_free_or lo n s m v : vm_maps (u_vm s) !! m = Some v -> areas_ok (vmm_list v) -> 0 < n -> user_range lo (lo + n) ->
  range_free lo (lo + n) (vmm_list v) \/ ~ range_free lo (lo + n) (vmm_list v).
Proof.
  intros Hm Ha Hn Hr. destruct (range_empty_user m lo n s v Hm Ha Hn Hr) as ([|] & _ & H); [left; by apply H|right]. intros Hf%H. done.
Qed.

Lemma brk_kept F R addr s v d r s' : heap_ok addr s v d F R -> do_brk addr s = Ok r s' -> mem_kept F R s s'.
Proof.
  intros (Hc & Ha & Hne & Hcase) E. pose proof (hc_ok _ _ _ _ _ _ Hc) as Hok. pose proof (hc_map _ _ _ _ _ _ Hc) as Hm.
  destruct (heap_call_facts _ _ _ _ _ _ Hc) as (Hn & Hl & (Hd1 & Hd2 & Hd3 & _) & Hin & He & Hs & Hu). pose proof user_pages as (? & ? & ?).
  pose proof user_mem as (? & ? & ?). pose proof user_high_aligned. pose proof (Z.div_mod USER_MEM_HIGH 4096 ltac:(lia)). pose proof (up_spec addr).
  rewrite (addr_to_pn_eq USER_MEM_HIGH) in * by (unfold is_u32; lia). destruct Hcase as [Hb|(Hlt & a & Hh)].
  - destruct (brk_first_cases addr s v d F R Hc Hb Ha) as (C1 & C2 & C3). destruct (Z.le_gt_cases addr (vma_end d * 4096)) as [Hle|Hlt].
    { rewrite (C1 Hle) in E. injection E as <- <-. by apply mem_kept_same. }
    destruct (range_free_or (vma_end d) (up addr - vma_end d) s _ v Hm Hl) as [Hf|Hf]; [lia|unfold user_range; rewrite (addr_to_pn_eq USER_MEM_HIGH) by (unfold is_u32; lia); lia|..];
      replace (vma_end d + (up addr - vma_end d)) with (up addr) in Hf by lia.
    + destruct (C3 Hlt Hf) as [(l' & o & vm' & E1 & Hok' & Em & _)|(s1 & E1 & _)]; rewrite E1 in E; [|done]. injection E as <- <-. by eapply mem_kept_insert.
    + rewrite (C2 Hlt Hf) in E. injection E as <- <-. by apply mem_kept_same.
  - destruct (brk_moves_cases addr s v d a F R Hc Hh ltac:(lia) Hne) as [C1 C2].
    assert (UserMem.p_brk s < addr /\ ~ range_free (UserMem.p_brk s / 4096) (up addr) (vmm_list v) \/
      (addr < UserMem.p_brk s \/ range_free (UserMem.p_brk s / 4096) (up addr) (vmm_list v))) as [[Hw1 Hw2]|Hcase].
    { destruct (Z.lt_ge_cases addr (UserMem.p_brk s)); [by right; left|]. pose proof (ha_aligned _ _ _ _ Hh) as Hal. pose proof (hc_brk _ _ _ _ _ _ Hc).
      pose proof (Z.div_mod (UserMem.p_brk s) 4096 ltac:(lia)). destruct (ha_bounds _ _ _ _ Hh) as [Hb1 Hb2].
      destruct (lookup_area_Some _ _ _ (ha_lookup _ _ _ _ Hh)) as [Hain _]. pose proof (ao_each _ Hl) as Hea. rewrite Forall_forall in Hea. destruct (Hea a Hain) as (Ha1 & Ha2 & Ha3 & _).
      set (q := UserMem.p_brk s / 4096) in *.
      destruct (range_free_or q (up addr - q) s _ v Hm Hl) as [Hf|Hf]; [lia|unfold user_range; rewrite (addr_to_pn_eq USER_MEM_HIGH) in * by (unfold is_u32; lia); lia|..];
        replace (q + (up addr - q)) with (up addr) in Hf by lia; [by right; right|]. left. split; [lia|done]. }
    + rewrite (C1 Hw1 Hw2) in E. injection E as <- <-. by apply mem_kept_same.
    + destruct (C2 Hcase) as (l' & vm' & E1 & Hok' & _ & Em & _). rewrite E1 in E. injection E as <- <-. by eapply mem_kept_insert.
Qed.

Lemma mem_call_kept F R s v s' A (m : M (user (mm LM)) A) r : vm_ok F R (u_vm s) -> vm_maps (u_vm s) !! UserMem.p_vmmap s = Some v -> UserMem.p_pagedir s <> NULL ->
  mem_call F R s A m -> m s = Ok r s' -> mem_kept F R s s'.
Proof.
  intros Hok Hm Hpd Hc. revert r. destruct Hc as [addr len Ha Hl Hh|addr len prot flags fd off v' Hargs Hm' Hplace|addr v' d Hheap|vaddr cause v' Hv Hm' Hch]; intros r E.
  - destruct (munmap_cases addr len s v F R Hok Hm Ha Hl Hh) as [C1 C2].
    assert (valid_range addr len \/ ~ valid_range addr len) as [Hr|Hr].
    { destruct (decide (0 < len /\ USER_MEM_LOW <= addr /\ addr + len <= USER_MEM_HIGH /\ addr `mod` 4096 = 0)); [by left|by right]. }
    + destruct (C2 Hr) as [(l' & vm' & E1 & Hok' & Em & _)|(mm1 & s2 & _ & E1)]; rewrite E1 in E; [|done]. injection E as <- <-. by eapply mem_kept_insert.
    + rewrite (C1 Hr) in E. injection E as <- <-. by apply mem_kept_same.
  - rewrite Hm in Hm'. injection Hm' as <-.
    destruct (mmap_cases addr len prot flags fd off s v F R Hok Hm Hpd Hargs Hplace) as [(start & l' & o & vm' & E1 & Hok' & Em & _)|[(vm' & E1 & _ & Hok' & Em & _)|(s2 & E1 & _)]];
      rewrite E1 in E; [| |done]; injection E as <- <-; [by eapply mem_kept_insert|by apply mem_kept_same].
  - by eapply brk_kept.
  - rewrite Hm in Hm'. injection Hm' as <-. pose proof (pagefault_cases vaddr cause s v F R Hok Hm Hv) as Cf. cbv zeta in Cf.
    destruct (maps_to (vmm_list v) (vaddr / 4096)) as [[[[o n] prot] fl]|]; [|congruence]. destruct (may_access _ _); [|congruence].
    destruct (Hch o n prot fl eq_refl) as [b Hb]. destruct (Cf b Hb) as [(s2 & E1 & Hs)|(s2 & E1 & _)]; rewrite E1 in E; [|done]. injection E as _ <-.
    by destruct Hs; apply mem_kept_same.
Qed.

(** ** The calls in the kernel *)

Definition user_of k (x : proc) : user (mm LM) := User (kvm k) (Proc.p_vmmap x) (Proc.p_pagedir x) (Proc.p_brk x) (Proc.p_start_brk x).
(** The code of [UserMem], run by the current process. *)
Definition on_user {A} (m : M (user (mm LM)) A) : M (kern (MM := mm LM) (FS := FS)) A := fun k =>
  match procs k !! curproc (ks k) with
  | None => Halt NullDeref k
  | Some x =>
      let back s := with_current (pset_brk (UserMem.p_brk s) x) (u_vm s) (kfs k) k in
      match m (user_of k x) with Ok a s => Ok a (back s) | Halt h s => Halt h (back s) end
  end.
(** The current process makes one of the calls, and it returns. *)
Definition mem_step F R k k' : Prop := exists x A (m : M (user (mm LM)) A) a, procs k !! curproc (ks k) = Some x /\ p_state x = PROC_RUNNING /\
  mem_call (owned (procs k) (threads (ks k)) ++ F) R (user_of k x) A m /\ on_user m k = Ok a k'.

Lemma mem_step_back F R k k' : mem_step F R k k' -> exists x v' b, procs k !! curproc (ks k) = Some x /\ k' = with_current (pset_brk b x) v' (kfs k) k.
Proof.
  intros (x & A & m & a & Hx & _ & _ & E). unfold on_user in E. rewrite Hx in E. destruct (m (user_of k x)) as [r s'|]; [|done]. injection E as _ <-. eauto.
Qed.
Lemma mem_step_ok F R V O k k' : kern_ok F R V O k -> mem_step F R k k' -> kern_ok F R V O k'.
Proof.
  intros Hk (x & A & m & a & Hx & Hr & Hc & E). destruct (proj1 (ko_spaces _ _ _ _ _ Hk) _ _ Hx Hr) as [v Hv].
  unfold on_user in E. rewrite Hx in E. destruct (m (user_of k x)) as [r s'|] eqn:Em; [|done]. injection E as _ <-.
  assert (mem_kept (owned (procs k) (threads (ks k)) ++ F) R (user_of k x) s') as [M1 M2].
  { apply (mem_call_kept _ _ _ v _ A m r); [apply Hk|exact Hv|exact (fo_pagedir _ _ _ (ko_fam _ _ _ _ _ Hk) _ _ Hx)|done|done]. }
  eapply with_current_ok; [exact Hk|exact Hx|by split_and!|done|done|done|done|]. rewrite (cwds_update _ _ x), (opens_update _ _ x) by done. apply Hk.
Qed.
End KernUser.
