(* ===== verification/KernFiles.v ===== *)
(** Processes use files: the calls of [Vfs] as steps of the kernel, with the descriptors
    and the working directory of the current process in the state of [Proc] and the
    tables shared by all ([Store]). *)
From S2P Require Import Prelude.
From S2P Require Import Platform.
From S2P Require Import Sched.
From S2P Require Import ProcSched.
From S2P Require Import MmIface.
From S2P Require Import Vmmap.
From S2P Require Import Areas.
From S2P Require Import VmmapFacts.
From S2P Require Import VmmapThms.
From S2P Require Import Vfs.
From S2P Require Import VfsThms.
From S2P Require Import Proc.
From S2P Require Import ProcInv.
From S2P Require Import ProcThread.
From S2P Require Import Store.
From S2P Require Import FileRefs.
From S2P Require Import KernUser.
Open Scope Z_scope.

Section KernFiles.
Context `{P : Platform} {HP : PlatformOk P} {K : VfsConst} {FS : Type} {Vo : VfsOps (FS := FS)} {HV : VfsLaws} {HFr : FsRefs (FS := FS)} {HVn : VnLaws}.
Context {HSo : StoreOps (FS := FS)} {HSl : StoreLaws}.
Context {C : ProcConst} `{!ProcConstOk C} {MM : Type} `{!MmOps MM} `{!MmLaws MM} `{!ProcOps MM} `{!ProcLaws MM}.
Implicit Types (k : kern (MM := MM) (FS := store FS)) (F : list Z) (R V O : gmultiset Z).

(** The code of [Vfs], run by the current process. *)
Definition on_files {A} (m : M (vfs FS) A) : M (kern (MM := MM) (FS := store FS)) A := fun k =>
  match procs k !! curproc (ks k) with
  | None => Halt NullDeref k
  | Some x =>
      let back s := with_current (pset_cwd (Vfs.p_cwd s) (pset_files (Vfs.p_files s) x)) (kvm k) (kept s) k in
      match m (seen (p_files x) (p_cwd x) (kfs k)) with Ok a s => Ok a (back s) | Halt h s => Halt h (back s) end
  end.
(** The current process makes one of the calls, and it returns. *)
Definition file_step k k' : Prop := exists x A (m : M (vfs FS) A) a, procs k !! curproc (ks k) = Some x /\ p_state x = PROC_RUNNING /\
  fs_call (seen (p_files x) (p_cwd x) (kfs k)) A m /\ on_files m k = Ok a k'.

(** The references of one process and those of the others. *)
Lemma opens_split ps p x : ps !! p = Some x -> p_state x = PROC_RUNNING -> opens ps = fds (p_files x) ⊎ opens (delete p ps).
Proof.
  intros Hx Hr. unfold opens, fds. rewrite <- list_to_set_disj_app. apply list_to_set_disj_perm. rewrite (gather_delete _ _ _ x Hx). unfold file_refs at 1. by rewrite bool_decide_eq_true_2.
Qed.
Lemma cwds_split ps p x : ps !! p = Some x -> p_state x = PROC_RUNNING -> cwds ps = fds [p_cwd x] ⊎ cwds (delete p ps).
Proof.
  intros Hx Hr. unfold cwds, fds. rewrite <- list_to_set_disj_app. apply list_to_set_disj_perm. rewrite (gather_delete _ _ _ x Hx). unfold cwd_ref at 1. by rewrite bool_decide_eq_true_2.
Qed.

Lemma file_step_keeps F R V O k k' : kern_ok F R V O k -> file_step k k' ->
  exists x x' v' fs', procs k !! curproc (ks k) = Some x /\ same_family x x' /\ k' = with_current x' v' fs' k /\ kern_ok F R V O k'.
Proof.
  intros Hk (x & A & m & a & Hx & Hr & Hc & E). unfold on_files in E. rewrite Hx in E.
  set (s := seen (p_files x) (p_cwd x) (kfs k)) in *. destruct (m s) as [r s'|] eqn:Em; [|done]. injection E as _ <-.
  set (cur := curproc (ks k)) in *. set (V1 := cwds (delete cur (procs k)) ⊎ V). set (O1 := opens (delete cur (procs k)) ⊎ O).
  assert (balanced V1 O1 s) as Hb.
  { pose proof (ko_fs _ _ _ _ _ Hk) as H. rewrite (cwds_split _ _ _ Hx Hr), (opens_split _ _ _ Hx Hr), <- !(assoc_L (⊎)) in H. unfold balanced, own, s. by rewrite kept_seen. }
  destruct (fs_call_keeps V1 O1 s A m r s' Hb Hc Em) as [Hb' Hlen _]. set (x' := pset_cwd _ _). assert (same_family x x') as Hsf by (by split_and!).
  exists x, x', (kvm k), (kept s'). split_and!; [done|done|done|].
  eapply with_current_ok; [exact Hk|exact Hx|done|done|done|apply Hk|done|]. fold cur.
  rewrite (cwds_split _ cur x'), (opens_split _ cur x') by (done || apply lookup_insert_eq). rewrite delete_insert_eq, <- !(assoc_L (⊎)). exact Hb'.
Qed.
End KernFiles.
