(* ===== verification/KernSteps.v ===== *)
(** The kernel as a whole: in any order, processes are created, fork, exit and wait
    ([ProcSteps]), sleep, wake each other and lock mutexes ([KernSched]), change their
    memory ([KernUser]) and use files ([KernFiles]); the invariant of the kernel holds
    throughout. *)
From S2P Require Import Prelude.
From S2P Require Import Platform.
From S2P Require Import Sched.
From S2P Require Import SchedInv.
From S2P Require Import SchedSteps.
From S2P Require Import ProcSched.
From S2P Require Import MmIface.
From S2P Require Import Mm.
From S2P Require Import MmInv.
From S2P Require Import MmPut.
From S2P Require Import MmSafe.
From S2P Require Import Vmmap.
From S2P Require Import Areas.
From S2P Require Import VmmapFacts.
From S2P Require Import VmmapThms.
From S2P Require Import MmLookup.
From S2P Require Import MmCow.
From S2P Require Import UserMem.
From S2P Require Import UserThms.
From S2P Require Import BrkThms.
From S2P Require Import FaultThms.
From S2P Require Import Vfs.
From S2P Require Import VfsThms.
From S2P Require Import Store.
From S2P Require Import FileRefs.
From S2P Require Import Proc.
From S2P Require Import ProcInv.
From S2P Require Import ForkVm.
From S2P Require Import ForkCow.
From S2P Require Import ProcThread.
From S2P Require Import ProcExit.
From S2P Require Import ProcSteps.
From S2P Require Import KernSched.
From S2P Require Import ProcKill.
From S2P Require Import KernUser.
From S2P Require Import KernFiles.
Open Scope Z_scope.

Section KernSteps.
Context {LM : Type} `{P : Platform} `{!PlatformOk P} {UC : UserConst} `{!LowMem LM} {HHdr0 : MmobjHeader}.
Context {HLow : LowMemOk (LM:=LM)} {HHdr : MmobjHeaderOk} {HFile : FileOps (LM:=LM)} {HFileOk : FileOpsOk}.
Context {HUser : UserOps (mm LM)} {HPt : PtLaws LM} `{!UserLaws (mm LM)}.
Context {PC : ProcConst} `{!ProcConstOk PC} `{!ProcOps (mm LM)} `{!ProcLaws (mm LM)}.
Context {K : VfsConst} {FS : Type} {Vo : VfsOps (FS := FS)} {HV : VfsLaws} {HFr : FsRefs (FS := FS)} {HVn : VnLaws}.
Context {HSo : StoreOps (FS := FS)} {HSl : StoreLaws}.
Context (intr_wait : sched -> sched) (irqs : nat).
Context (Hintr : intr_pres intr_wait) (Hkeep : forall s, idle_ok s -> keeps_threads s (intr_wait s)).
Notation kern := (kern (MM := mm LM) (FS := store FS)).
Notation pconf := (pconf (MM := mm LM) (FS := store FS)).
Implicit Types (k : kern) (c : pconf) (F : list Z) (R V O : gmultiset Z).

(** [F] and [R] are what is allocated and referred to outside of the processes. *)
Inductive kstep F R : pconf -> pconf -> Prop :=
| ks_proc c c' : pstep intr_wait irqs c c' -> kstep F R c c'
| ks_sched k s' w : w !! curthr (ks k) = None -> sched_step intr_wait irqs F (ks k) s' -> kstep F R (PConf k w) (PConf (set_ks s' k) w)
| ks_mem k k' w : w !! curthr (ks k) = None -> mem_step F R k k' -> kstep F R (PConf k w) (PConf k' w)
| ks_file k k' w : w !! curthr (ks k) = None -> file_step k k' -> kstep F R (PConf k w) (PConf k' w).

(** The current process changes, but not in its family. *)
Lemma has_child_with k x x' v' fs' t ch pid : procs k !! curproc (ks k) = Some x -> same_family x x' -> has_child k t ch pid ->
  has_child (with_current x' v' fs' k) t ch pid.
Proof.
  intros Hx (E1 & E2 & _ & _ & E5 & _ & _) (kt & y & z & Ht & Hy & Hr & Hc & Hz & Hp).
  assert (forall q w, procs k !! q = Some w -> exists w', <[curproc (ks k) := x']> (procs k) !! q = Some w' /\
    p_pid w' = p_pid w /\ p_children w' = p_children w /\ p_state w' = p_state w) as Hw.
  { intros q w Hq. rewrite lookup_insert. destruct (decide (curproc (ks k) = q)) as [<-|]; [|eauto]. rewrite Hx in Hq. injection Hq as <-. eauto. }
  destruct (Hw _ _ Hy) as (y' & Hy' & _ & Ec & Es), (Hw _ _ Hz) as (z' & Hz' & Ep & _). exists kt, y', z'. rewrite Ec, Es, Ep. by split_and!.
Qed.
Lemma life_with F R V O k x x' v' fs' w : life_ok F R V O (PConf k w) -> procs k !! curproc (ks k) = Some x -> same_family x x' ->
  kern_ok F R V O (with_current x' v' fs' k) -> life_ok F R V O (PConf (with_current x' v' fs' k) w).
Proof. intros [_ Hi Hc] Hx Hs Hk. split; [done|done|]. intros t ch pid Ht. cbn. eapply has_child_with; [exact Hx|done|]. by apply Hc. Qed.

Lemma kstep_ok F R V O c c' : kstep F R c c' -> life_ok F R V O c -> life_ok F R V O c'.
Proof.
  intros Hst Hl. destruct Hst as [c c' Hst|k s' w _ Hst|k k' w _ Hst|k k' w _ Hst].
  - by eapply pstep_ok.
  - destruct Hl as [Hk Hi Hc]. cbn [pk wait_for] in *.
    destruct (sched_step_moves intr_wait irqs Hintr Hkeep F _ _ (ko_cur _ _ _ _ _ Hk) (ko_sched _ _ _ _ _ Hk) Hst) as (Hs' & Hks & Hcur).
    split; cbn [pk wait_for]; [by apply kern_set_ks|done|]. intros t ch pid Ht. apply (has_child_keeps_in F k); [done|exact Hks|by apply Hc].
  - pose proof (mem_step_ok _ _ V O _ _ (lo_kern _ _ _ _ _ Hl) Hst) as Hk. destruct (mem_step_back _ _ _ _ Hst) as (x & v' & b & Hx & ->).
    eapply life_with; [exact Hl|exact Hx|by split_and!|exact Hk].
  - destruct (file_step_keeps _ _ V O _ _ (lo_kern _ _ _ _ _ Hl) Hst) as (x & x' & v' & fs' & Hx & Hs & -> & Hk). by eapply life_with.
Qed.
Lemma ksteps_ok F R V O c c' : rtc (kstep F R) c c' -> life_ok F R V O c -> life_ok F R V O c'.
Proof. induction 1; eauto using kstep_ok. Qed.

(** Halting is a run of these steps. *)
Lemma cancels_steps F R k s' w : rtc cancels (ks k) s' -> w !! curthr (ks k) = None -> idle_ok (ks k) -> rtc (kstep F R) (PConf k w) (PConf (set_ks s' k) w).
Proof.
  intros Hr. remember (ks k) as s eqn:Es. revert k Es. induction Hr as [s|s s1 s2 (t & v & Ht & E) _ IH]; intros k -> Hw Hi.
  - by destruct k.
  - destruct (cancel_thread _ _ _ _ E) as [kt Hkt]. destruct (cancel_shape t v kt _ _ Hi Hkt E) as (Hi1 & _ & Ec & _).
    eapply rtc_l; [apply ks_sched; [done|by eapply ss_cancel]|]. apply (IH (set_ks s1 k)); [done|by rewrite Ec|done].
Qed.
Lemma kill_all_steps F R V O k w : kern_ok F R V O k -> can_kill k (proc_list k) -> w !! curthr (ks k) = None ->
  exists k', proc_kill_all intr_wait irqs k = Ok (Returned 0) k' /\ rtc (kstep F R) (PConf k w) (PConf k' w).
Proof.
  intros Hk Hc Hw. pose proof (ko_fam _ _ _ _ _ Hk) as Hf.
  destruct (kill_loop intr_wait irqs F R V O (proc_list k) k Hk (fo_nodup _ _ _ Hf) (fun p => proj1 (fo_list _ _ _ Hf p)) Hc) as (s' & E & (Hr & _) & _).
  exists (set_ks s' k). split; [exact E|]. apply cancels_steps; [done|done|apply (ko_sched _ _ _ _ _ Hk)].
Qed.
Lemma life_start F R V O k : kern_ok F R V O k -> proc_initproc k <> NULL -> life_ok F R V O (PConf k ∅).
Proof. intros Hk Hi. split; cbn; [done|done|]. intros t ch pid Ht. by rewrite lookup_empty in Ht. Qed.


(** C28. In every reachable state, a thread that went to sleep in waitpid for one
    child and runs again may use the pointer to the child it has kept: the child
    has not been freed, is still a child of the thread's process and still has the
    identifier waited for. *)
Theorem waitpid_pointer_safe F R V O k c ch pid :
  kern_ok F R V O k -> proc_initproc k <> NULL -> rtc (kstep F R) (PConf k ∅) c -> wait_for c !! curthr (ks (pk c)) = Some (ch, pid) ->
  exists y x, procs (pk c) !! curproc (ks (pk c)) = Some y /\ ch ∈ p_children y /\ procs (pk c) !! ch = Some x /\ p_pid x = pid.
Proof.
  intros Hk Hi Hr Hw. destruct (ksteps_ok _ _ _ _ _ _ Hr (life_start _ _ _ _ _ Hk Hi)) as [Hk' _ Hc].
  destruct (Hc _ _ _ Hw) as (kt & y & x & Hkt & Hy & _ & Hin & Hx & Hp).
  destruct (cur_running _ _ _ _ _ Hk') as (_ & kt' & _ & _ & _ & Hkt' & Hkp & _). rewrite Hkt in Hkt'. injection Hkt' as <-.
  exists y, x. rewrite <- Hkp. by split_and!.
Qed.


End KernSteps.
