(* ===== verification/Boot.v ===== *)
(** Starting the kernel: [main/kmain.c] makes the idle and the init process,
    [mm/pframe.c] the page-out daemon.

    From the state at power on, with nothing in the process table, the invariant of
    [ProcInv] is established; [init_call_all] and the page tables are not in the
    repository ([BootOps]), and the file system is the one of [FsOps]. *)
From S2P Require Import Prelude.
From S2P Require Import Platform.
From S2P Require Import Sched.
From S2P Require Import SchedInv.
From S2P Require Import ProcSched.
From S2P Require Import MmIface.
From S2P Require Import Vmmap.
From S2P Require Import Areas.
From S2P Require Import VmmapFacts.
From S2P Require Import VmmapThms.
From S2P Require Import Proc.
From S2P Require Import ProcInv.
From S2P Require Import ProcIds.
From S2P Require Import ProcCreate.
From S2P Require Import ProcThread.
From S2P Require Import ProcExit.
From S2P Require Import ProcWait.
Open Scope Z_scope.

Class BootOps (MM FS : Type) `{!MmOps MM} := {
  pt_template_init : M MM unit;
  init_call_all : M (kern (MM := MM) (FS := FS)) unit;
  final_shutdown : M (kern (MM := MM) (FS := FS)) unit;
  boot_mkdir : list Z -> M FS Z;
  boot_mknod : list Z -> Z -> Z -> M FS Z;
  (* where the threads start *)
  idleproc_entry : Z; initproc_entry : Z; pageoutd_entry : Z;
  S_IFCHR : Z; MEM_NULL_DEVID : Z; MEM_ZERO_DEVID : Z; TTY0_DEVID : Z;
  pageoutd_waitq : Z    (* the address of the queue *)
}.

(** Names, as bytes. *)
Definition n_idle : list Z := [105; 100; 108; 101; 95; 112; 114; 111; 99].
Definition n_init : list Z := [105; 110; 105; 116].
Definition n_pageoutd : list Z := [112; 97; 103; 101; 111; 117; 116; 100].
Definition n_dev : list Z := [47; 100; 101; 118].
Definition n_null : list Z := n_dev ++ [47; 110; 117; 108; 108].
Definition n_zero : list Z := n_dev ++ [47; 122; 101; 114; 111].
Definition n_tty0 : list Z := n_dev ++ [47; 116; 116; 121; 48].

Section Boot.
Context `{P : Platform} {C : ProcConst} {MM FS : Type} `{!MmOps MM} `{!ProcOps MM} `{!FsOps FS} `{!BootOps MM FS}.
Context (intr_wait : sched -> sched) (irqs : nat).
Implicit Types (k : kern (MM := MM) (FS := FS)).

Definition set_curproc (p : Z) : M (kern (MM := MM) (FS := FS)) unit := on_sched (modify (fun s => set_cur (curthr s) p s)).
Definition set_curthr (t : Z) : M (kern (MM := MM) (FS := FS)) unit := on_sched (modify (fun s => set_cur t (curproc s) s)).

(** Ends where [context_make_active] starts the idle thread. *)
Definition bootstrap : M (kern (MM := MM) (FS := FS)) unit :=
  on_mm pt_template_init;;
  p ← proc_create n_idle;
  set_curproc p;;
  kassert (negb (NULL =? p));;
  x ← prc p;
  kassert (PID_IDLE =? p_pid x);;
  t ← kthread_create p idleproc_entry 0 NULL;
  set_curthr t;;
  kassert (negb (NULL =? t)).

Definition initproc_create : M (kern (MM := MM) (FS := FS)) Z :=
  p ← proc_create n_init;
  kassert (negb (NULL =? p));;
  x ← prc p;
  kassert (PID_INIT =? p_pid x);;
  t ← kthread_create p initproc_entry 0 NULL;
  kassert (negb (NULL =? t));;
  mret t.

(** The root becomes the working directory of the process of [p]. *)
Definition set_root (p : Z) : M (kern (MM := MM) (FS := FS)) unit :=
  k ← get;
  upd_prc p (pset_cwd (vfs_root_vn (kfs k)));;
  k ← get;
  on_fs (vref (vfs_root_vn (kfs k))).

(** The files for the devices. *)
Definition make_devices : M FS unit :=
  boot_mkdir n_dev;;
  boot_mknod n_null S_IFCHR MEM_NULL_DEVID;;
  boot_mknod n_zero S_IFCHR MEM_ZERO_DEVID;;
  boot_mknod n_tty0 S_IFCHR TTY0_DEVID;;
  mret tt.

(** The idle process after the start-up functions, until it sleeps or the machine is
    shut down. *)
Definition idle_rest (initthr : Z) : M (kern (MM := MM) (FS := FS)) waited :=
  cur ← get_curproc;
  set_root cur;;
  y ← on_sched (thr initthr);
  set_root (kt_proc y);;
  on_fs make_devices;;
  on_sched intr_enable;;
  on_sched (sched_make_runnable initthr);;
  r ← do_waitpid intr_wait irqs (-1) 0;
  match r with
  | WaitReturned child _ => kassert (PID_INIT =? child);; final_shutdown;; mret r
  | WaitSwitched => mret r
  end.

Definition idleproc_run : M (kern (MM := MM) (FS := FS)) waited :=
  initthr ← initproc_create;
  init_call_all;;
  idle_rest initthr.

(** The page-out daemon: the new process and its thread. *)
Definition pageoutd_init : M (kern (MM := MM) (FS := FS)) (Z * Z) :=
  on_sched (sched_queue_init (waitq pageoutd_waitq));;
  cur ← get_curproc;
  kassert (c_true cur);;
  x ← prc cur;
  kassert (PID_IDLE =? p_pid x);;
  p ← proc_create n_pageoutd;
  kassert (negb (NULL =? p));;
  t ← kthread_create p pageoutd_entry 0 NULL;
  kassert (negb (NULL =? t));;
  on_sched (sched_make_runnable t);;
  mret (p, t).
End Boot.

Section BootThms.
Context `{P : Platform} `{!PlatformOk P} {C : ProcConst} `{!ProcConstOk C} {MM FS : Type}.
Context `{!MmOps MM} `{!MmLaws MM} `{!ProcOps MM} `{!ProcLaws MM} `{!FsOps FS} `{!FsLaws FS} `{!BootOps MM FS}.
Implicit Types (k : kern (MM := MM) (FS := FS)) (F : list Z) (R V O : gmultiset Z) (v : vm (MM := MM)).

(** The state at power on. *)
Record power_on F R V O k : Prop := {
  on_sched_ok0 : idle_ok (ks k);
  on_threads : threads (ks k) = ∅;
  on_cur : curproc (ks k) = NULL;
  on_vm_ok0 : vm_ok F R (kvm k);
  on_fs_safe : fs_safe V O (kfs k);
  on_procs : procs k = ∅;
  on_list : proc_list k = [];
  on_next : next_pid k = 0;
  on_init : proc_initproc k = NULL;
  on_plinks : kt_plinks k = ∅
}.

(** The idle process as [proc_create] makes it. *)
Definition idle_proc (name : list Z) (pd m : Z) : proc :=
  Proc 0 name [] [] None NULL 0 PROC_RUNNING pd (replicate (Z.to_nat NFILES) NULL) NULL 0 0 m.

Lemma fill_idle name p pd s v1 v2 v3 fs ps l np ini pl cx km m :
  curproc s = NULL -> lift pt_create_pagedir v1 = Ok pd v2 -> vmmap_create v2 = Ok m v3 -> vm_maps v3 !! m = Some (Vmmap [] NULL) ->
  Z.of_nat (length name) < PROC_NAME_LEN ->
  create_fill name p 0 (Kern s v1 fs (<[p := zero_proc]> ps) l np ini pl cx km) =
    Ok tt (Kern (set_queue (waitq p) (Ktqueue [] 0) s) (set_map m (Vmmap [] p) v3) fs (<[p := idle_proc name pd m]> ps) (p :: l) np ini pl cx km).
Proof.
  intros Hcur E1 E2 Hm Hname. unfold create_fill, get_curproc. kgo. upd_p. cbn [Z.eqb when]. kgo.
  destruct (Z.ltb_spec (Z.of_nat (length name)) PROC_NAME_LEN); [|lia]. kgo. do 4 upd_p. rewrite Hcur. cbn [Z.eqb NULL negb when]. kgo. do 2 upd_p.
  unfold sched_queue_init. rewrite (bind_ok _ _ _ _ _ (on_sched_modify _ _)). kgo.
  unfold on_mm. vm_go E1. kgo. upd_p. kgo. upd_p. unfold create_cwd. kgo. cbn [Z.ltb Z.compare andb when]. kgo.
  unfold create_vm. vm_go E2. kgo. upd_p.
  assert (vmmap_of m v3 = Ok (Vmmap [] NULL) v3) as E3. { unfold vmmap_of. rewrite get_bind. by rewrite Hm. }
  vm_go E3. kgo. rewrite (bind_ok _ _ _ _ _ (on_vm_modify _ _)). kgo. rewrite pid_idle. reflexivity.
Qed.

(** ** The idle process *)

Lemma gather_singleton {A} (f : Z -> A -> list Z) i x : gather f {[i := x]} = f i x.
Proof. unfold gather. rewrite map_to_list_singleton. cbn. apply app_nil_r. Qed.

Lemma power_on_queue F R V O k q : power_on F R V O k -> tq_list (queues (ks k) q) = [].
Proof.
  intros Hk. destruct (tq_list (queues (ks k) q)) as [|t l] eqn:E; [done|].
  destruct (proj1 (qo_mem _ (io_queue _ (on_sched_ok0 _ _ _ _ _ Hk)) t q)) as (kt & Hkt & _); [rewrite E; set_solver|].
  rewrite (on_threads _ _ _ _ _ Hk), lookup_empty in Hkt. done.
Qed.

(** One process, with one thread. *)
Definition idle_sched s (p t : Z) (kt : kthread) : sched := set_cur t p (set_thr t kt (set_queue (waitq p) (Ktqueue [] 0) s)).
Definition idle_kern k (p t pd stack m : Z) v (c : context) : kern :=
  Kern (idle_sched (ks k) p t (new_thread 0 p stack)) v (kfs k)
    {[p := pset_threads [t] (idle_proc n_idle pd m)]} [p] 1 NULL {[t := p]} (<[t := c]> (kt_ctxs k)) (kstack_mem k).

Lemma idle_fam p t pd m name : p <> NULL -> pd <> NULL -> fam_ok {[p := pset_threads [t] (idle_proc name pd m)]} [p] NULL.
Proof.
  intros Hp Hpd. pose proof proc_max_pos. set (x := pset_threads [t] (idle_proc name pd m)).
  split; try (apply map_Forall_singleton; cbn; (lia || done || apply length_replicate)).
  - apply NoDup_singleton.
  - intros q. rewrite list_elem_of_singleton. split; [intros ->; rewrite lookup_singleton_eq; eauto|]. by intros [y [-> _]%lookup_singleton_Some].
  - by apply lookup_singleton_ne.
  - intros a b y z [<- <-]%lookup_singleton_Some [<- <-]%lookup_singleton_Some _. done.
  - intros a y [<- <-]%lookup_singleton_Some E. cbn in E. rewrite pid_idle in E. done.
  - intros a y [<- <-]%lookup_singleton_Some _. done.
  - exists p, x. rewrite lookup_singleton_eq, pid_idle. done.
  - intros a y [<- <-]%lookup_singleton_Some _. split; [constructor|]. by intros c ?%elem_of_nil.
  - by left.
Qed.

Lemma idle_ok_start F R V O k p t pd stack m v c :
  power_on F R V O k -> p <> NULL -> pd <> NULL -> t <> NULL -> stack <> NULL ->
  vm_ok (stack :: t :: pd :: p :: F) R v -> is_Some (vm_maps v !! m) -> kern_ok F R V O (idle_kern k p t pd stack m v c).
Proof.
  intros Hk Hp Hpd Ht Hst Hv Hm. pose proof proc_max_pos. set (x := pset_threads [t] (idle_proc n_idle pd m)).
  assert (threads (ks (idle_kern k p t pd stack m v c)) = {[t := new_thread 0 p stack]}) as Eth by (cbn; by rewrite (on_threads _ _ _ _ _ Hk)).
  split; rewrite ?Eth; cbn [ks kvm kfs procs proc_list next_pid proc_initproc kt_plinks idle_kern].
  - split.
    + eapply idle_ok_core; [apply set_cur_core|]. apply new_thread_idle_ok; try done.
      * apply queue_init_idle_ok; [apply Hk|by apply (power_on_queue _ _ _ _ _ _ Hk)].
      * cbn. by rewrite (on_threads _ _ _ _ _ Hk).
    + exists (new_thread 0 p stack). cbn. by rewrite lookup_insert_eq.
  - eapply vm_ok_perm; [|exact Hv]. unfold owned. rewrite !gather_singleton. cbn.
    exact (Permutation_app_tail F (reverse_Permutation [p; pd; t; stack])).
  - unfold cwds, opens. rewrite !gather_singleton.
    unfold cwd_ref, file_refs. cbn [p_state p_cwd p_files idle_proc pset_threads]. rewrite !bool_decide_eq_true_2, nonnull_replicate by done.
    unfold nonnull. rewrite filter_cons_False, filter_nil by naive_solver. rewrite list_to_set_disj_nil, !(left_id_L ∅ (⊎)). apply Hk.
  - by apply idle_fam.
  - split; apply map_Forall_singleton.
    + split_and!; [apply lookup_singleton_eq|done|]. exists x. rewrite lookup_singleton_eq. by split_and!.
    + right. exists t, (new_thread 0 p stack). by rewrite lookup_singleton_eq.
  - split.
    + intros q y [<- <-]%lookup_singleton_Some _. done.
    + intros a b y z [<- <-]%lookup_singleton_Some [<- <-]%lookup_singleton_Some. done.
  - intros u ku a [<- <-]%lookup_singleton_Some. done.
  - exists (new_thread 0 p stack). cbn. by rewrite lookup_singleton_eq.
  - lia.
Qed.

(** What the code outside the repository does at start-up. *)
Definition template_ok : Prop := forall L I R mm, mm_safe L I R mm -> exists mm', pt_template_init mm = Ok tt mm' /\ mm_safe L I R mm'.

(** Memory for the idle process ran out. *)
Definition idle_short k : Prop := exists v0, lift pt_template_init (kvm k) = Ok tt v0 /\
  (create_short (set_kvm v0 k) \/
   exists p pd m v1 v2 v3, lift proc_slab_alloc v0 = Ok p v1 /\ lift pt_create_pagedir v1 = Ok pd v2 /\ vmmap_create v2 = Ok m v3 /\
     thread_short (set_map m (Vmmap [] p) v3)).

Lemma bootstrap_cases F R V O k : power_on F R V O k -> template_ok -> 9 < PROC_NAME_LEN ->
  (exists k' p t pd stack m v c, bootstrap k = Ok tt k' /\ k' = idle_kern k p t pd stack m v c /\ kern_ok F R V O k') \/ idle_short k.
Proof.
  intros Hk Htpl Hname. pose proof proc_max_pos. pose proof (on_vm_ok0 _ _ _ _ _ Hk) as Hv.
  destruct (Htpl _ _ _ _ (vm_ok_safe _ _ _ Hv)) as (mm0 & E0 & Hs0). apply lift_run in E0. pose proof (vm_ok_mm _ _ _ _ _ Hv Hs0) as Hv0. set (v0 := Vm _ mm0) in *.
  destruct (vm_allocates _ _ _ _ pl_proc Hv0) as (p & v1 & E1 & Em1 & [[-> _]|(Hpn & Hv1 & Hp)]).
  { right. exists v0. split; [done|left]. by eapply short_proc. }
  destruct (vm_allocates _ _ _ _ pl_pagedir Hv1) as (pd & v2 & E2 & Em2 & [[-> _]|(Hpdn & Hv2 & _)]).
  { right. exists v0. split; [done|left]. by eapply short_pagedir. }
  destruct (create_ok _ _ _ Hv2) as [(m & v3 & E3 & Hmn & Hm & Em3 & Hv3)|(v3 & E3 & _)].
  2: { right. exists v0. split; [done|left]. by eapply short_vmmap. }
  pose proof (vm_ok_set_proc _ _ _ m (Vmmap [] NULL) p Hv3 ltac:(by rewrite Em3, lookup_insert_eq)) as Hv4. set (v4 := set_map m (Vmmap [] p) v3) in *. cbn in Hv4.
  destruct (vm_allocates _ _ _ _ pl_thread Hv4) as (t & v5 & E5 & Em5 & [[-> _]|(Htn & Hv5 & Ht)]).
  { right. exists v0. split; [done|right]. exists p, pd, m, v1, v2, v3. split_and!; [done..|]. left. eauto. }
  destruct (vm_allocates _ _ _ _ (pl_stack stack_pages) Hv5) as (stack & v6 & E6 & Em6 & [[-> _]|(Hsn & Hv6 & _)]).
  { right. exists v0. split; [done|right]. exists p, pd, m, v1, v2, v3. split_and!; [done..|]. right. eauto 6. }
  destruct (pl_context idleproc_entry 0 NULL stack DEFAULT_STACK_SIZE pd _ _ _ _ (vm_ok_safe _ _ _ Hv6)) as (c & mm7 & E7 & Hs7 & _).
  pose proof (vm_ok_mm _ _ _ _ _ Hv6 Hs7) as Hv7. apply lift_run in E7. set (v7 := Vm _ mm7) in *.
  left. exists (idle_kern k p t pd stack m v7 c), p, t, pd, stack, m, v7, c. split; [|split; [done|]].
  - destruct Hk as [K1 K2 K3 K4 K5 K6 K7 K8 K9 K10]. destruct k as [s v fs ps l np ini pl cx km]. cbn in K1, K2, K3, K4, K5, K6, K7, K8, K9, K10. subst ps l np ini pl.
    unfold bootstrap, on_mm. vm_go E0. unfold proc_create, on_mm. kgo. vm_go E1. kgo. rewrite kassert_bind by (by apply c_true_spec). kgo.
    unfold proc_getid. kgo. replace (Z.to_nat PROC_MAX_COUNT) with (S (Z.to_nat (PROC_MAX_COUNT - 1))) by lia. cbn [proc_getid_loop]. kgo. cbn [find_pid]. kgo.
    replace ((0 + 1) `mod` PROC_MAX_COUNT) with 1 by (rewrite Z.mod_small; lia).
    rewrite kassert_bind by (rewrite bool_decide_eq_true_2 by done; apply orb_true_r). kgo. rewrite pid_init. cbn [Z.eqb when]. kgo.
    rewrite (bind_ok _ _ _ _ _ (fill_idle n_idle p pd s v1 v2 v3 fs ∅ [] 1 NULL ∅ cx km m K3 E2 E3 ltac:(by rewrite Em3, lookup_insert_eq) ltac:(cbn; lia))).
    kgo. unfold set_curproc, set_curthr. rewrite (bind_ok _ _ _ _ _ (on_sched_modify _ _)). kgo.
    rewrite kassert_bind by (destruct (Z.eqb_spec NULL p); [congruence|done]). prc_p. rewrite kassert_bind by (by rewrite pid_idle).
    assert (<[p := idle_proc n_idle pd m]> (∅ : gmap Z proc) !! p = Some (idle_proc n_idle pd m)) as Hx by apply lookup_insert_eq.
    rewrite (bind_ok _ _ _ _ _ (thread_run p (idle_proc n_idle pd m) idleproc_entry 0 NULL t stack c _ _ _ _ _ _ _ _ _ _ _ _ _ E5 E6 E7 Htn Hpn Hx eq_refl)).
    rewrite (bind_ok _ _ _ _ _ (on_sched_modify _ _)). kgo. destruct (Z.eqb_spec NULL t) as [?|_]; [congruence|].
    unfold idle_kern. cbn. by rewrite insert_insert_eq, !insert_empty.
  - apply idle_ok_start; try done. cbn. rewrite Em6, Em5. cbn. rewrite lookup_insert_eq. eauto.
Qed.
End BootThms.
