(* ===== verification/BootThms.v ===== *)
(** From power on to the first process: the kernel starts with the invariant of
    processes and memory, init is on the run queue or runs, and the idle process waits
    for it. *)
From S2P Require Import Prelude.
From S2P Require Import Platform.
From S2P Require Import Sched.
From S2P Require Import SchedInv.
From S2P Require Import ProcSched.
From S2P Require Import MmIface.
From S2P Require Import Vmmap.
From S2P Require Import Areas.
From S2P Require Import VmmapFacts.
From S2P Require Import VmmapThms.
From S2P Require Import Proc.
From S2P Require Import ProcInv.
From S2P Require Import ProcIds.
From S2P Require Import ProcCreate.
From S2P Require Import ProcThread.
From S2P Require Import ProcExit.
From S2P Require Import ProcWait.
From S2P Require Import Boot.
Open Scope Z_scope.

Section Start.
Context `{P : Platform} `{!PlatformOk P} {C : ProcConst} `{!ProcConstOk C} {MM FS : Type}.
Context `{!MmOps MM} `{!MmLaws MM} `{!ProcOps MM} `{!ProcLaws MM} `{!FsOps FS} `{!FsLaws FS} `{!BootOps MM FS}.
Context (intr_wait : sched -> sched) (irqs : nat).
Context (Hintr : intr_pres intr_wait) (Hkeep : forall s, idle_ok s -> keeps_threads s (intr_wait s)).
Implicit Types (k : kern (MM := MM) (FS := FS)) (F : list Z) (R V O : gmultiset Z) (v : vm (MM := MM)).

(** ** The init process *)

Lemma kern_set_init F R V O k p y z : kern_ok F R V O k -> procs k !! p = Some y -> p_pid y = PID_INIT -> p_state y = PROC_RUNNING ->
  procs k !! p_pproc y = Some z -> p_pid z = PID_IDLE -> kern_ok F R V O (set_initproc p k).
Proof.
  intros Hk Hy H1 H2 Hz H3. split; cbn; try apply Hk. destruct (ko_fam _ _ _ _ _ Hk). split; try done. right. by exists y, z.
Qed.

(** Only the idle process is there, and no file system. *)
Definition only_idle k : Prop :=
  next_pid k = 1 /\ ~ pid_used k 1 /\ vfs_root_vn (kfs k) = NULL /\ exists y, procs k !! curproc (ks k) = Some y /\ p_pid y = PID_IDLE /\ p_cwd y = NULL.

Lemma only_idle_first k pid : only_idle k -> next_free k pid -> pid = 1.
Proof.
  intros (Hn & Hu & _) (i & Hi & -> & _ & Hused). pose proof proc_max_pos. rewrite Hn in *.
  destruct (decide (i = 0)) as [->|]; [by rewrite Z.mod_small by lia|]. destruct Hu. specialize (Hused 0 ltac:(lia)). by rewrite Z.mod_small in Hused by lia.
Qed.

(** Process [p] with its thread [t], which waits to be started. *)
Definition fresh_pair k (p t : Z) : Prop :=
  exists x kt, procs k !! p = Some x /\ p_cwd x = NULL /\ p_state x = PROC_RUNNING /\
    threads (ks k) !! t = Some kt /\ kt_proc kt = p /\ kt_state kt = KT_NO_STATE /\ kt_wchan kt = None.

Lemma initproc_create_cases F R V O k : kern_ok F R V O k -> only_idle k -> 4 < PROC_NAME_LEN ->
  (exists p t k', initproc_create k = Ok t k' /\ kern_ok F R V O k' /\ proc_initproc k' = p /\ p <> NULL /\ fresh_pair k' p t /\
    curproc (ks k') = curproc (ks k) /\
    (exists y, procs k' !! curproc (ks k) = Some y /\ p_cwd y = NULL /\ p ∈ p_children y) /\
    (forall q x, procs k' !! q = Some x -> q = p \/ exists x0, procs k !! q = Some x0 /\ p_state x = p_state x0)) \/
  create_short k \/ exists p k1, proc_create n_init k = Ok p k1 /\ thread_short (kvm k1).
Proof.
  intros Hk Hid Hname. pose proof proc_max_pos. pose proof Hid as (Hnext & Hunused & Hroot & yi & Hyi & Hyp & Hyc).
  destruct (proc_create_run F R V O k n_init Hk) as [(pid & p & k1 & Hfree & E1 & Hc & Hk1)|[Hall|?]]; [ |done| | |by right; left].
  { intros pid ->%only_idle_first; [|done]. split; [lia|]. intros _. split; [done|]. by exists yi. }
  2: { destruct Hunused. apply Hall. lia. }
  pose proof (only_idle_first _ _ Hid Hfree) as ->. rewrite Z.eqb_refl in E1.
  destruct Hc as (pid & pd & cwd & m & y & v' & fs' & Hfree' & Hy & Hp & Hpn & Hm & Em & Ecwd & ->). rewrite Hyi in Hy. injection Hy as <-.
  pose proof (only_idle_first _ _ Hid Hfree') as ->. set (np := new_proc _ _ _ _ _ _ _ _) in *. set (cur := curproc (ks k)) in *.
  assert (p <> cur) as Hpc by (intros ->; congruence).
  set (k1 := Kern _ _ _ _ _ _ (proc_initproc k) _ _ _) in *.
  assert (procs k1 !! p = Some np) as Hnp by (cbn; apply with_child_new).
  assert (procs k1 !! cur = Some (pset_children (p :: p_children yi) yi)) as Hcur1 by (cbn; unfold with_child; by rewrite lookup_insert_ne, lookup_insert_eq by done).
  assert (kern_ok F R V O (set_initproc p k1)) as Hk2.
  { eapply (kern_set_init _ _ _ _ _ p np); [exact Hk1|exact Hnp|by rewrite pid_init|done|exact Hcur1|done]. }
  destruct (kthread_create_cases F R V O _ p np initproc_entry 0 NULL Hk2 Hnp eq_refl) as [(t & k3 & E3 & Hth & Hk3)|Hs]; [|right; right; eauto].
  left. exists p, t, k3. destruct Hth as (x & stack & c & v3 & Hx & Htn & Htnn & _ & _ & ->). change (procs k1 !! p = Some x) in Hx. rewrite Hnp in Hx. injection Hx as <-.
  split_and!; [|done|done|done| |done| |].
  - unfold initproc_create. rewrite (bind_ok _ _ _ _ _ E1), kassert_bind by (destruct (Z.eqb_spec NULL p); [congruence|done]).
    rewrite (bind_ok _ _ _ _ _ (prc_ok p np (set_initproc p k1) Hnp)), kassert_bind by (by rewrite pid_init). rewrite (bind_ok _ _ _ _ _ E3).
    by rewrite kassert_bind by (destruct (Z.eqb_spec NULL t); [congruence|done]).
  - exists (pset_threads [t] np), (new_thread 1 p stack). cbn. rewrite !lookup_insert_eq. split_and!; try done. cbn. congruence.
  - exists (pset_children (p :: p_children yi) yi). cbn. rewrite lookup_insert_ne by done. split_and!; [done|done|by left].
  - intros q x. cbn. rewrite lookup_insert. case_decide as Eq; [by left|right]. rename H0 into Hqx.
    apply with_child_inv in Hqx as [[-> _]|[(_ & -> & ->)|(_ & _ & ?)]]; [done|by exists yi|by exists x|done|done].
Qed.

(** ** Working directories *)

Lemma kern_set_root F R V O k p x : kern_ok F R V O k -> procs k !! p = Some x -> p_state x = PROC_RUNNING -> p_cwd x = NULL ->
  vfs_root_vn (kfs k) <> NULL -> vfs_root_vn (kfs k) ∈ V ->
  exists fs', set_root p k = Ok tt (set_kfs fs' (set_procs (insert p (pset_cwd (vfs_root_vn (kfs k)) x)) k)) /\
    vfs_root_vn fs' = vfs_root_vn (kfs k) /\ kern_ok F R V O (set_kfs fs' (set_procs (insert p (pset_cwd (vfs_root_vn (kfs k)) x)) k)).
Proof.
  intros Hk Hx Hr Hc Hn HV. set (root := vfs_root_vn (kfs k)) in *. set (x' := pset_cwd root x).
  destruct (fs_vref _ _ _ root (ko_fs _ _ _ _ _ Hk)) as (fs' & E & Hs & Hroot); [apply gmultiset_elem_of_disj_union; by right|]. exists fs'. split_and!; [|done|].
  - unfold set_root. rewrite get_bind, (bind_ok _ _ _ _ _ (upd_prc_ok p _ x k Hx)), get_bind. by apply on_fs_ok.
  - assert (same_family x x') as Hsf by (by split_and!).
    assert (cwds (<[p := x']> (procs k)) = {[+ root +]} ⊎ cwds (procs k)) as Ec.
    { unfold cwds. pose proof (gather_delete cwd_ref (procs k) p x Hx) as G1.
      pose proof (gather_delete cwd_ref (<[p := x']> (procs k)) p x' (lookup_insert_eq _ _ _)) as G2. rewrite delete_insert_eq in G2.
      rewrite (list_to_set_disj_perm _ _ G1), (list_to_set_disj_perm _ _ G2), !list_to_set_disj_app. unfold cwd_ref at 1 3. cbn [p_state p_cwd x' pset_cwd].
      rewrite Hc, !bool_decide_eq_true_2 by done. unfold nonnull.
      rewrite filter_cons_True, filter_cons_False, !filter_nil by naive_solver.
      by rewrite list_to_set_disj_cons, !list_to_set_disj_nil, (right_id_L ∅ (⊎)), (left_id_L ∅ (⊎)). }
    split; cbn [ks kvm kfs procs proc_list next_pid proc_initproc kt_plinks set_kfs set_procs]; try apply Hk.
    + apply (vm_ok_perm (owned (procs k) (threads (ks k)) ++ F)); [|apply Hk]. by rewrite (owned_update _ _ _ x) by done.
    + rewrite Ec, (opens_update _ _ x) by done. rewrite <- (assoc_L (⊎)), (comm_L (⊎)). done.
    + eapply fam_update; [apply Hk|exact Hx|done].
    + destruct (ko_thr _ _ _ _ _ Hk) as [H1 H2]. split.
      * intros t kt Hkt. destruct (H1 t kt Hkt) as (A & B & z & D & E1 & G). split_and!; [done|done|].
        destruct (decide (p = kt_proc kt)) as [->|Hne]; [|exists z; by rewrite lookup_insert_ne]. rewrite Hx in D. injection D as <-.
        exists x'. rewrite lookup_insert_eq. by split_and!.
      * intros q z [[<- <-]|[_ Hz]]%lookup_insert_Some; [|by apply H2]. exact (H2 p x Hx).
    + apply (spaces_update _ _ _ x); try done. apply Hk.
    + apply (waits_update _ _ _ _ x); [apply Hk|done].
Qed.

(** ** Until the idle process sleeps *)

(** Making files for devices leaves the references alone. *)
Definition devices_ok : Prop := forall V O (fs : FS), fs_safe V O fs ->
  (forall name, exists r fs', boot_mkdir name fs = Ok r fs' /\ fs_safe V O fs') /\
  (forall name mode dev, exists r fs', boot_mknod name mode dev fs = Ok r fs' /\ fs_safe V O fs').

Lemma make_devices_ok V O fs : devices_ok -> fs_safe V O fs -> exists fs', make_devices fs = Ok tt fs' /\ fs_safe V O fs'.
Proof.
  intros Hd H0. destruct (proj1 (Hd _ _ _ H0) n_dev) as (r1 & f1 & E1 & H1). destruct (proj2 (Hd _ _ _ H1) n_null S_IFCHR MEM_NULL_DEVID) as (r2 & f2 & E2 & H2).
  destruct (proj2 (Hd _ _ _ H2) n_zero S_IFCHR MEM_ZERO_DEVID) as (r3 & f3 & E3 & H3). destruct (proj2 (Hd _ _ _ H3) n_tty0 S_IFCHR TTY0_DEVID) as (r4 & f4 & E4 & H4).
  exists f4. split; [|done]. unfold make_devices. by rewrite (bind_ok _ _ _ _ _ E1), (bind_ok _ _ _ _ _ E2), (bind_ok _ _ _ _ _ E3), (bind_ok _ _ _ _ _ E4).
Qed.

Definition all_run k : Prop := forall p x, procs k !! p = Some x -> p_state x = PROC_RUNNING.

(** The start-up functions mount the root; they may make processes and threads, and
    leave those that exist as they are. *)
Record inits F' R' V' O k k' : Prop := {
  is_ok : kern_ok F' R' V' O k';
  is_root : vfs_root_vn (kfs k') <> NULL /\ vfs_root_vn (kfs k') ∈ V';
  is_init : proc_initproc k' = proc_initproc k;
  is_cur : curproc (ks k') = curproc (ks k);
  is_threads : threads (ks k) ⊆ threads (ks k');
  is_procs : forall p x, procs k !! p = Some x -> exists l, procs k' !! p = Some (pset_children l x) /\ p_children x ⊆ l;
  is_run : all_run k'
}.
Definition inits_ok F R V O F' R' V' : Prop := forall k k', kern_ok F R V O k -> proc_initproc k <> NULL -> all_run k ->
  init_call_all k = Ok tt k' -> inits F' R' V' O k k'.

Lemma idle_waits F R V O k cur yi p : kern_ok F R V O k -> all_run k -> curproc (ks k) = cur -> procs k !! cur = Some yi -> p ∈ p_children yi ->
  fifo (ks k) kt_runq <> [] ->
  exists k', do_waitpid intr_wait irqs (-1) 0 k = Ok WaitSwitched k' /\ kern_ok F R V O k' /\ proc_initproc k' = proc_initproc k /\
    curthr (ks k') :: fifo (ks k') kt_runq = fifo (ks k) kt_runq.
Proof.
  intros Hk Hrun <- Hy Hp Hne. pose proof (waitpid_any_cases intr_wait irqs F R V O k yi Hk Hy) as H.
  destruct (p_children yi) as [|c0 cs]; [by apply elem_of_nil in Hp|]. destruct H as (d & Hd & H). destruct d as [c|].
  { destruct Hd as (l1 & l2 & x & _ & Hx & Hdead & _). rewrite (Hrun _ _ Hx) in Hdead. done. }
  pose proof (kern_asleep _ _ _ _ _ Hk) as Hi. rewrite H.
  assert (tq_list (queues (asleep k) kt_runq) = tq_list (queues (ks k) kt_runq)) as Eq.
  { unfold asleep. destruct (threads (ks k) !! curthr (ks k)); [|done]. by rewrite list_enq, decide_False by done. }
  destruct (tq_list (queues (ks k) kt_runq)) as [|t l _] eqn:El using rev_ind; [unfold fifo in Hne; by rewrite El in Hne|].
  destruct (switch_oldest intr_wait irqs (asleep k) l t (ki_sched _ _ _ _ _ Hi) (ki_cur _ _ _ _ _ Hi) Eq) as (s' & Es & _ & Hct & _ & _ & Hq).
  assert (on_sched (sched_switch intr_wait irqs) (set_ks (asleep k) k) = Ok tt (set_ks s' (set_ks (asleep k) k))) as Es' by (by apply on_sched_ok).
  destruct (switch_ok intr_wait irqs Hintr Hkeep _ _ _ _ _ _ Hi Es') as (Hk' & _).
  eexists. rewrite (bind_ok _ _ _ _ _ Es'). split_and!; [done|exact Hk'|done|]. unfold fifo. cbn [ks set_ks]. by rewrite Hct, Hq, El, reverse_snoc.
Qed.

Lemma fresh_threads k k' p t : fresh_pair k p t -> threads (ks k) ⊆ threads (ks k') -> (forall q x, procs k !! q = Some x -> exists l, procs k' !! q = Some (pset_children l x) /\ p_children x ⊆ l) ->
  fresh_pair k' p t.
Proof.
  intros (x & kt & Hx & Hc & Hr & Ht & H) Hsub Hps. destruct (Hps _ _ Hx) as (l & Hl & _). exists (pset_children l x), kt. split_and!; try done; [|apply H..].
  by eapply lookup_weaken.
Qed.

Lemma idle_rest_ok F R V O k p t yi : kern_ok F R V O k -> all_run k -> devices_ok -> vfs_root_vn (kfs k) <> NULL -> vfs_root_vn (kfs k) ∈ V ->
  procs k !! curproc (ks k) = Some yi -> p_cwd yi = NULL -> p ∈ p_children yi -> fresh_pair k p t -> p <> curproc (ks k) ->
  exists k', idle_rest intr_wait irqs t k = Ok WaitSwitched k' /\ kern_ok F R V O k' /\ proc_initproc k' = proc_initproc k /\
    curthr (ks k') :: fifo (ks k') kt_runq = fifo (ks k) kt_runq ++ [t].
Proof.
  intros Hk Hrun Hdev Hn HV Hy Hyc Hpy (x & kt & Hx & Hxc & Hxr & Ht & Hkp & Hts & Htw) Hpc. unfold idle_rest, get_curproc. rewrite gets_bind.
  destruct (kern_set_root _ _ _ _ _ _ _ Hk Hy (Hrun _ _ Hy) Hyc Hn HV) as (f1 & E1 & Er1 & Hk1). rewrite (bind_ok _ _ _ _ _ E1). set (k1 := set_kfs f1 _) in *.
  rewrite (bind_ok _ _ _ _ _ (on_sched_ok (thr t) k1 kt (ks k1) (thr_ok _ _ _ Ht))), Hkp. change (set_ks (ks k1) k1) with k1.
  assert (procs k1 !! p = Some x) as Hx1 by (cbn; by rewrite lookup_insert_ne).
  destruct (kern_set_root _ _ _ _ _ _ _ Hk1 Hx1 Hxr Hxc) as (f2 & E2 & Er2 & Hk2); [cbn; by rewrite Er1|cbn; by rewrite Er1|].
  rewrite (bind_ok _ _ _ _ _ E2). set (k2 := set_kfs f2 _) in *.
  destruct (make_devices_ok _ _ _ Hdev (ko_fs _ _ _ _ _ Hk2)) as (f3 & E3 & Hf3). rewrite (bind_ok _ _ _ _ _ (on_fs_ok _ _ _ _ E3)). set (k3 := set_kfs f3 k2) in *.
  assert (kern_ok F R V O k3) as Hk3 by (destruct Hk2; by split).
  unfold intr_enable. rewrite (bind_ok _ _ _ _ _ (on_sched_modify _ _)). set (k4 := set_ks (set_intr true (ks k3)) k3).
  assert (kern_ok F R V O k4) as Hk4.
  { apply kern_set_ks; [done| |by apply keeps_threads_in, same_threads_keep|apply Hk3]. destruct (ko_sched _ _ _ _ _ Hk3) as [Hi Hc]. split; [|done]. eapply idle_ok_core; [apply set_intr_core|done]. }
  destruct (kern_make_runnable F R V O k4 t kt Hk4 Ht Hts Htw) as (E5 & Hk5 & _). rewrite (bind_ok _ _ _ _ _ E5). set (k5 := set_ks _ k4) in *.
  assert (procs k5 = procs k2) as Ep by done.
  assert (forall q z, procs k5 !! q = Some z -> exists z0, procs k !! q = Some z0 /\ p_state z = p_state z0 /\ p_children z = p_children z0) as Hback.
  { intros q z. rewrite Ep. cbn. intros [[<- <-]|[_ [[<- <-]|[_ Hz]]%lookup_insert_Some]]%lookup_insert_Some; eauto. }
  assert (fifo (ks k5) kt_runq = fifo (ks k) kt_runq ++ [t]) as Ef.
  { unfold fifo, k5. cbn [ks set_ks]. rewrite list_enq, decide_True by done. by rewrite reverse_cons. }
  destruct (idle_waits F R V O k5 (curproc (ks k)) (pset_cwd (vfs_root_vn (kfs k)) yi) p Hk5) as (k' & E6 & Hk' & Hi' & Hq); try done.
  - intros q z (z0 & Hz0 & -> & _)%Hback. by apply (Hrun q).
  - rewrite Ep. cbn. by rewrite lookup_insert_ne, lookup_insert_eq by done.
  - rewrite Ef. by destruct (fifo (ks k) kt_runq).
  - exists k'. rewrite (bind_ok _ _ _ _ _ E6). rewrite Hq, Ef. by split_and!.
Qed.
(** Where memory ran out for the first processes, or a start-up function stopped. *)
Inductive start_stops k : Prop :=
| stop_idle : idle_short k -> start_stops k
| stop_init k1 : bootstrap k = Ok tt k1 -> create_short k1 -> start_stops k
| stop_thread k1 p k2 : bootstrap k = Ok tt k1 -> proc_create n_init k1 = Ok p k2 -> thread_short (kvm k2) -> start_stops k
| stop_inits k1 t h k2 : (bootstrap;; initproc_create) k = Ok t k1 -> init_call_all k1 = Halt h k2 -> start_stops k.

Lemma start_cases F R V O F' R' V' k :
  power_on F R V O k -> vfs_root_vn (kfs k) = NULL -> template_ok -> 9 < PROC_NAME_LEN -> devices_ok -> inits_ok F R V O F' R' V' ->
  (exists k1 t k2 k', (bootstrap;; initproc_create) k = Ok t k1 /\ init_call_all k1 = Ok tt k2 /\
    (bootstrap;; idleproc_run intr_wait irqs) k = Ok WaitSwitched k' /\ kern_ok F' R' V' O k' /\
    proc_initproc k' = proc_initproc k1 /\ fresh_pair k1 (proc_initproc k1) t /\
    curthr (ks k') :: fifo (ks k') kt_runq = fifo (ks k2) kt_runq ++ [t]) \/
  start_stops k.
Proof.
  intros Hon Hroot Htpl Hname Hdev Hin. pose proof proc_max_pos.
  destruct (bootstrap_cases F R V O k Hon Htpl Hname) as [(k0 & p & t & pd & stack & m & v & c & E0 & Ek0 & Hk0)|?]; [|right; by constructor].
  set (x := pset_threads [t] (idle_proc n_idle pd m)). assert (procs k0 = {[p := x]}) as Ep by (by subst k0).
  assert (curproc (ks k0) = p) as Ec by (by subst k0).
  assert (only_idle k0) as Hoi.
  { subst k0. split_and!; [done| |done|exists x; rewrite pid_idle; cbn; by rewrite lookup_singleton_eq].
    intros (q & z & _ & Hz & E). cbn in Hz. apply lookup_singleton_Some in Hz as [_ <-]. done. }
  assert (4 < PROC_NAME_LEN) as Hname' by lia.
  destruct (initproc_create_cases F R V O k0 Hk0 Hoi Hname') as [(pi & ti & k1 & E1 & Hk1 & Hpi & Hpn & Hfresh & Ec1 & (yi & Hyi & Hyc & Hyp) & Hst)|[?|(p1 & k1 & E1 & ?)]].
  2: { right. by eapply stop_init. } 2: { right. by eapply stop_thread. }
  assert ((bootstrap;; initproc_create) k = Ok ti k1) as E01 by (by rewrite (bind_ok _ _ _ _ _ E0)).
  assert (all_run k1) as Hrun1.
  { intros q z Hz. destruct (Hst q z Hz) as [->|(z0 & Hz0 & ->)].
    - destruct Hfresh as (z1 & _ & Hz1 & _ & Hr & _). congruence.
    - rewrite Ep in Hz0. apply lookup_singleton_Some in Hz0 as [_ <-]. done. }
  destruct (init_call_all k1) as [[] k2|h k2] eqn:E2; [|right; by eapply stop_inits]. left.
  destruct (Hin k1 k2 Hk1 ltac:(by rewrite Hpi) Hrun1 E2) as [Hk2 [Hr2 HV2] Hi2 Hc2 Hth2 Hps2 Hrun2].
  rewrite Ec in *. destruct (Hps2 _ _ Hyi) as (l & Hl & Hsub).
  assert (pi <> p) as Hpip. { intros ->. destruct (fo_children _ _ _ (ko_fam _ _ _ _ _ Hk1) _ _ Hyi (Hrun1 _ _ Hyi)) as [_ Hch].
    destruct (Hch p Hyp) as (z & Hz & Hzp). rewrite Hyi in Hz. injection Hz as <-.
    destruct Hfresh as (w & _ & Hw & _). rewrite Hyi in Hw. injection Hw as <-. destruct (decide (p_pid yi = PID_IDLE)) as [Ei|Ei].
    - destruct (fo_idle _ _ _ (ko_fam _ _ _ _ _ Hk1) _ _ Hyi Ei). congruence.
    - by destruct (fo_parent _ _ _ (ko_fam _ _ _ _ _ Hk1) _ _ Hyi Ei) as (_ & ? & _). }
  destruct (idle_rest_ok F' R' V' O k2 pi ti (pset_children l yi)) as (k' & E3 & Hk' & Hi' & Hq); try done.
  { rewrite Hc2, Ec1. done. } { by apply Hsub. } { by eapply fresh_threads. } { by rewrite Hc2, Ec1. }
  exists k1, ti, k2, k'. split_and!; try done.
  - unfold idleproc_run. rewrite (bind_ok _ _ _ _ _ E0), (bind_ok _ _ _ _ _ E1), (bind_ok _ _ _ _ _ E2). done.
  - congruence.
  - by rewrite Hpi.
Qed.

End Start.
