(* ===== verification/Commands.v ===== *)
(** The commands of the kernel shell and the body of init: [main/kmain.c].

    Each command makes a process for a test and waits for it.  The tests, and
    [kernel_execve], are not in the repository ([TestOps]). *)
From S2P Require Import Prelude.
From S2P Require Import Platform.
From S2P Require Import Sched.
From S2P Require Import SchedInv.
From S2P Require Import ProcSched.
From S2P Require Import MmIface.
From S2P Require Import Vmmap.
From S2P Require Import Areas.
From S2P Require Import VmmapFacts.
From S2P Require Import VmmapThms.
From S2P Require Import Proc.
From S2P Require Import ProcInv.
From S2P Require Import ProcIds.
From S2P Require Import ProcCreate.
From S2P Require Import ProcThread.
From S2P Require Import ProcFam.
From S2P Require Import ProcExit.
From S2P Require Import ProcReap.
From S2P Require Import ProcWait.
Open Scope Z_scope.

(** Where the threads of the tests start, and the program of init. *)
Class TestOps (MM FS : Type) `{!MmOps MM} := {
  faber_thread_test : Z; sunghan_test : Z; sunghan_deadlock_test : Z; vfstest_main : Z;
  kernel_execve : list Z -> list (list Z) -> list (list Z) -> M (kern (MM := MM) (FS := FS)) unit
}.

Definition n_faber : list Z := [70; 65; 66; 69; 82].
Definition n_sunghan : list Z := [83; 85; 78; 71; 72; 65; 78].
Definition n_vfstest : list Z := [86; 70; 83; 84; 69; 83; 84].
Definition n_sbin_init : list Z := [47; 115; 98; 105; 110; 47; 105; 110; 105; 116].

Section Commands.
Context `{P : Platform} {C : ProcConst} {MM FS : Type} `{!MmOps MM} `{!ProcOps MM} `{!FsOps FS} `{!TestOps MM FS}.
Context (intr_wait : sched -> sched) (irqs : nat).
Implicit Types (k : kern (MM := MM) (FS := FS)).

(** A command ends with 0, once the process it waits for is gone. *)
Definition command_ends (r : waited) : waited := match r with WaitReturned _ _ => WaitReturned 0 None | WaitSwitched => WaitSwitched end.

(** The body of the first three commands. *)
Definition run_test (name : list Z) (test : Z) : M (kern (MM := MM) (FS := FS)) waited :=
  p ← proc_create name;
  t ← kthread_create p test 0 NULL;
  on_sched (sched_make_runnable t);;
  x ← prc p;
  r ← do_waitpid intr_wait irqs (p_pid x) 0;
  mret (command_ends r).

Definition do_faber_test (kshell : Z) : M (kern (MM := MM) (FS := FS)) waited := kassert (c_true kshell);; run_test n_faber faber_thread_test.
Definition do_sunghan_test (kshell : Z) : M (kern (MM := MM) (FS := FS)) waited := kassert (c_true kshell);; run_test n_sunghan sunghan_test.
Definition do_deadlock_test (kshell : Z) : M (kern (MM := MM) (FS := FS)) waited := kassert (c_true kshell);; run_test n_sunghan sunghan_deadlock_test.

(** The end of do_vfs_test, which goes through the pointer to the process. *)
Definition vfs_test_end (p : Z) (r : waited) : M (kern (MM := MM) (FS := FS)) waited :=
  match r with
  | WaitReturned _ _ => x ← prc p; on_fs (vput (p_cwd x));; mret (WaitReturned 0 None)
  | WaitSwitched => mret WaitSwitched
  end.
Definition do_vfs_test (kshell : Z) : M (kern (MM := MM) (FS := FS)) waited :=
  kassert (c_true kshell);;
  p ← proc_create n_vfstest;
  cur ← get_curproc;
  y ← prc cur;
  upd_prc p (pset_cwd (p_cwd y));;
  x ← prc p;
  on_fs (vref (p_cwd x));;
  t ← kthread_create p vfstest_main 1 NULL;
  on_sched (sched_make_runnable t);;
  x ← prc p;
  r ← do_waitpid intr_wait irqs (p_pid x) 0;
  vfs_test_end p r.
(** ... when the thread has slept in waitpid and runs again. *)
Definition do_vfs_test_resume (p pid : Z) : M (kern (MM := MM) (FS := FS)) waited := r ← wait_pid intr_wait irqs p pid; vfs_test_end p r.

Definition initproc_run : M (kern (MM := MM) (FS := FS)) Z := kernel_execve n_sbin_init [n_sbin_init] [];; mret NULL.
End Commands.

Section Thms.
Context `{P : Platform} `{!PlatformOk P} {C : ProcConst} `{!ProcConstOk C} {MM FS : Type}.
Context `{!MmOps MM} `{!MmLaws MM} `{!ProcOps MM} `{!ProcLaws MM} `{!FsOps FS} `{!FsLaws FS} `{!TestOps MM FS}.
Context (intr_wait : sched -> sched) (irqs : nat).
Implicit Types (k : kern (MM := MM) (FS := FS)) (F : list Z) (R V O : gmultiset Z).

(** A test command makes a child with one thread, puts the thread at the end of the run
    queue and goes to sleep in waitpid; it can only fail when memory or process numbers
    run out. *)
Theorem run_test_waits F R V O k name test : kern_ok F R V O k -> proc_initproc k <> NULL -> Z.of_nat (length name) < PROC_NAME_LEN ->
  (exists p t x k', run_test intr_wait irqs name test k = (on_sched (sched_switch intr_wait irqs);; mret WaitSwitched) (set_ks (asleep k') k') /\
    kern_ok F R V O k' /\ procs k !! p = None /\ procs k' !! p = Some x /\ p_pproc x = curproc (ks k') /\ p_threads x = [t] /\
    fifo (ks k') kt_runq = fifo (ks k) kt_runq ++ [t] /\ curthr (ks k') = curthr (ks k)) \/
  (forall pid, 0 <= pid < PROC_MAX_COUNT -> pid_used k pid) \/ create_short k \/
  (exists p k1, proc_create name k = Ok p k1 /\ thread_short (kvm k1)).
Proof.
  intros Hk Hi Hname. destruct (proc_create_cases F R V O k name Hk Hi Hname) as [(p & k1 & E1 & Hcr & Hk1)|[?|?]]; [|by right; left|by right; right; left].
  destruct Hcr as (pid & pd & cwd & m & y & v' & fs' & Hfree & Hy & Hp & Hpn & Hm & Ev & Hcwd & Ek1). cbv zeta in Ek1.
  pose proof (next_free_range _ _ _ _ _ _ Hk Hi Hfree) as Hpid. set (np := new_proc _ _ _ _ _ _ _ _) in Ek1. set (cur := curproc (ks k)) in *.
  assert (p <> cur) as Hpc by congruence.
  assert (procs k1 !! p = Some np) as Hnp by (subst k1; cbn; apply lookup_insert_eq).
  destruct (kthread_create_cases F R V O k1 p np test 0 NULL Hk1 Hnp eq_refl) as [(t & k2 & E2 & Hth & Hk2)|?]; [|right; right; right; eauto].
  destruct Hth as (x' & stack & c & v2 & Hx' & Ht & Htn & Hc & Ev2 & Ek2). rewrite Hnp in Hx'. injection Hx' as <-. cbn [p_pid np new_proc] in Ek2.
  assert (threads (ks k2) !! t = Some (new_thread pid p stack)) as Ht2 by (subst k2; cbn; apply lookup_insert_eq).
  destruct (kern_make_runnable _ _ _ _ _ _ _ Hk2 Ht2) as (E3 & Hk3 & _); [unfold new_thread; cbn; by destruct (Z.eqb_spec pid 0); [lia|]|done|].
  set (s3 := enq kt_runq t _ (ks k2)) in *. set (k3 := set_ks s3 k2) in *.
  assert (procs k3 !! p = Some (pset_threads [t] np)) as Hp3 by (subst k3 k2; cbn; apply lookup_insert_eq).
  assert (curproc (ks k3) = cur) as Ec3 by (subst k3 s3 k2 k1; done).
  assert (procs k3 !! cur = Some (pset_children (p :: p_children y) y)) as Hc3.
  { subst k3 k2 k1. cbn. rewrite lookup_insert_ne by done. unfold with_child. rewrite lookup_insert_ne by done. apply lookup_insert_eq. }
  left. exists p, t, (pset_threads [t] np), k3. split_and!; [|done|done|done|done|done| |].
  - unfold run_test. rewrite (bind_ok _ _ _ _ _ E1), (bind_ok _ _ _ _ _ E2), (bind_ok _ _ _ _ _ E3), (bind_ok _ _ _ _ _ (prc_ok _ _ _ Hp3)). cbn [p_pid pset_threads np new_proc].
    rewrite <- Ec3 in Hc3. destruct (waitpid_pid_cases intr_wait irqs F R V O k3 _ pid Hk3 Hc3 ltac:(lia)) as [(c' & x & Hin & Hx & Hxp & H)|[H _]].
    + assert (c' = p) as -> by (eapply (fo_pid_inj _ _ _ (ko_fam _ _ _ _ _ Hk3)); eauto). rewrite Hp3 in Hx. injection Hx as <-. cbn [p_state pset_threads np new_proc] in H.
      unfold waits in H. unfold mbind at 1, M_bind at 1. rewrite H. unfold mbind, M_bind. by destruct (on_sched (sched_switch intr_wait irqs) (set_ks (asleep k3) k3)).
    + by destruct (H p (pset_threads [t] np) ltac:(cbn; set_solver) Hp3).
  - unfold fifo, k3, s3. cbn [ks set_ks]. rewrite list_enq, decide_True by done. rewrite reverse_cons. f_equal. f_equal. subst k2 k1. unfold queues. cbn. by rewrite lookup_insert_ne.
  - by subst k3 s3 k2 k1.
Qed.

(** When the child of do_vfs_test has exited, waiting for it frees it, and the command
    then reads its working directory through the dangling pointer. *)
Theorem vfs_test_uses_freed F R V O k y p x : kern_ok F R V O k -> procs k !! curproc (ks k) = Some y -> p ∈ p_children y ->
  procs k !! p = Some x -> p_state x = PROC_DEAD ->
  exists k', do_vfs_test_resume intr_wait irqs p (p_pid x) k = Halt NullDeref k' /\ kern_ok F R V O k'.
Proof.
  intros Hk Hy Hin Hx Hd. pose proof (wait_pid_cases intr_wait irqs F R V O k y p x Hk Hy Hin Hx) as H. rewrite Hd in H.
  destruct H as (r & k' & E & (-> & t & _ & v' & _ & ->) & Hk'). eexists. split; [|exact Hk']. unfold do_vfs_test_resume. rewrite (bind_ok _ _ _ _ _ E).
  cbn [vfs_test_end]. unfold mbind, M_bind, prc. rewrite get_bind. cbn [procs]. unfold reaped. by rewrite lookup_delete_eq.
Qed.
End Thms.
