(* ===== verification/Info.v ===== *)
(** What the kernel prints about itself: [vmmap_mapping_info] of [vm/vmmap.c],
    [proc_info] and [proc_list_info] of [proc/proc.c].

    A buffer is a range of the memory [bytes].  The conversions of printf and
    [snprintf] are those of the C library; how a pointer looks is up to the
    library ([fmt_p]), and [iprintf] is not in the repository ([InfoOps]). *)
From Stdlib Require Import String Ascii.
From S2P Require Import Prelude.
From S2P Require Import Platform.
From S2P Require Import Sched.
From S2P Require Import MmIface.
From S2P Require Import Vmmap.
From S2P Require Import Proc.
Open Scope Z_scope.

(** ** Conversions *)

Notation text := (list Z).
Definition txt (s : string) : text := (fun c => Z.of_N (N_of_ascii c)) <$> list_ascii_of_string s.
Definition nl : text := [10].
Definition len (t : text) : Z := Z.of_nat (length t).

Definition digit (d : Z) : Z := if d <? 10 then 48 + d else 87 + d.
Fixpoint digits_loop (fuel : nat) (base n : Z) (acc : text) : text :=
  match fuel with
  | O => acc
  | S fuel => if n =? 0 then acc else digits_loop fuel base (n / base) (digit (n `mod` base) :: acc)
  end.
(** The digits of [n], none for 0. *)
Definition digits (base n : Z) : text := digits_loop (S (Z.to_nat (Z.log2 n))) base n [].

(** A number with at least [prec] digits; [%i]; [%#.<prec>x]; [%<w>s] and [%-<w>s]; a string up to its NUL. *)
Definition fmt_u (prec : nat) (base n : Z) : text := let d := digits base n in replicate (prec - length d) 48 ++ d.
Definition fmt_i (n : Z) : text := if n <? 0 then 45 :: fmt_u 1 10 (- n) else fmt_u 1 10 n.
Definition fmt_x (prec : nat) (n : Z) : text := (if n =? 0 then [] else txt "0x") ++ fmt_u prec 16 n.
Definition pad_left (w : nat) (t : text) : text := replicate (w - length t) 32 ++ t.
Definition pad_right (w : nat) (t : text) : text := t ++ replicate (w - length t) 32.
Fixpoint c_str (t : text) : text :=
  match t with [] => [] | c :: t => if c =? 0 then [] else c :: c_str t end.

(** ** Buffers *)

Notation bytes := (gmap Z Z).
Fixpoint poke (a : Z) (t : text) (m : bytes) : bytes :=
  match t with [] => m | c :: t => <[a := c]> (poke (a + 1) t m) end.

(** At most [size - 1] bytes of the text and a NUL are written; the result is the
    length of the text. *)
Definition snprintf (buf size : Z) (t : text) : M bytes Z :=
  when (0 <? size) (modify (poke buf (take (Z.to_nat (size - 1)) t ++ [0])));;
  mret (len t).

(** The state of [iprintf]: where the next byte goes, how many fit, the memory. *)
Record out := Out { o_buf : Z; o_size : Z; o_mem : bytes }.

(** [iprintf(&buf, &size, ...)] for a text; [%p]; the number of a process state. *)
Class InfoOps := {
  iprintf : text -> M out unit;
  fmt_p : Z -> text;
  state_num : proc_state -> Z
}.

(** ** The mappings of an address space *)

Section Info.
Context `{P : Platform} {C : ProcConst} {I : InfoOps}.

Definition mapping_head : text :=
  pad_left 21 (txt "VADDR RANGE") ++ txt " " ++ pad_left 5 (txt "PROT") ++ txt " " ++ pad_left 7 (txt "FLAGS") ++ txt " " ++
  pad_left 8 (txt "MMOBJ") ++ txt " " ++ pad_left 10 (txt "OFFSET") ++ txt " " ++ pad_left 12 (txt "VFN RANGE") ++ nl.

Definition flag_char (has : Z) (c : string) : text := if c_true has then txt c else txt "-".
Definition mapping_row (vma : vmarea) : text :=
  fmt_x 8 (u32 (Z.shiftl (vma_start vma) PAGE_SHIFT)) ++ txt "-" ++
  fmt_x 8 (u32 (Z.shiftl (vma_end vma) PAGE_SHIFT)) ++ txt "  " ++
  flag_char (Z.land (vma_prot vma) PROT_READ) "r" ++
  flag_char (Z.land (vma_prot vma) PROT_WRITE) "w" ++
  flag_char (Z.land (vma_prot vma) PROT_EXEC) "x" ++ txt "  " ++
  pad_left 7 (if c_true (Z.land (vma_flags vma) MAP_SHARED) then txt " SHARED" else txt "PRIVATE") ++ txt " 0x" ++
  fmt_p (vma_obj vma) ++ txt " " ++
  fmt_x 5 (u32 (vma_off vma)) ++ txt " " ++ fmt_x 5 (u32 (vma_start vma)) ++ txt "-" ++ fmt_x 5 (u32 (vma_end vma)) ++ nl.

(** The loop, up to the label [end]: the values of [buf] and [size] there. *)
Fixpoint mapping_rows (l : list vmarea) (buf size n : Z) : M bytes (Z * Z) :=
  match l with
  | [] => mret (buf, size)
  | vma :: l =>
      let size := size - n in
      let buf := buf + n in
      if size <=? 0 then mret (buf, size)
      else n ← snprintf buf size (mapping_row vma); mapping_rows l buf size n
  end.

Definition vmmap_mapping_info (maps : vmmaps) (vmmap buf osize : Z) : M bytes Z :=
  kassert (0 <? osize);;
  kassert (c_true buf);;
  kassert (c_true vmmap);;
  map ← deref (maps !! vmmap);
  n ← snprintf buf osize mapping_head;
  r ← mapping_rows (vmm_list map) buf (s32 osize) n;
  if r.2 <=? 0 then modify (<[r.1 + osize - 1 := 0]>);; mret 0
  else mret (osize - r.2).

(** ** Processes *)

Context {MM FS : Type} `{!MmOps MM}.
Implicit Types (k : kern (MM := MM) (FS := FS)).

Definition prc_at k (p : Z) : M out proc := deref (procs k !! p).

Definition proc_info k (arg buf osize : Z) : M out Z :=
  modify (fun o => Out buf osize (o_mem o));;
  kassert (c_true arg);;
  kassert (c_true buf);;
  p ← prc_at k arg;
  iprintf (txt "pid:          " ++ fmt_i (p_pid p) ++ nl);;
  iprintf (txt "name:         " ++ c_str (p_comm p) ++ nl);;
  (if c_true (p_pproc p)
   then q ← prc_at k (p_pproc p); iprintf (txt "parent:       " ++ fmt_i (p_pid q) ++ txt " (" ++ c_str (p_comm q) ++ txt ")" ++ nl)
   else iprintf (txt "parent:       -" ++ nl));;
  iprintf (if bool_decide (p_children p = []) then txt "children:     -" ++ nl else txt "children:" ++ nl);;
  mfor (p_children p) (fun c =>
    child ← prc_at k c; iprintf (txt "     " ++ fmt_i (p_pid child) ++ txt " (" ++ c_str (p_comm child) ++ txt ")" ++ nl));;
  iprintf (txt "status:       " ++ fmt_i (p_status p) ++ nl);;
  iprintf (txt "state:        " ++ fmt_i (state_num (p_state p)) ++ nl);;
  iprintf (txt "start brk:    0x" ++ fmt_p (p_start_brk p) ++ nl);;
  iprintf (txt "brk:          0x" ++ fmt_p (p_brk p) ++ nl);;
  gets o_size.

Definition list_head : text := pad_left 5 (txt "PID") ++ txt " " ++ pad_right 13 (txt "NAME") ++ txt " " ++ txt "PARENT" ++ nl.
(** The parent as it is printed through [char parent[64]]. *)
Definition parent_buf (t : text) : text := c_str (take 63 t).
Definition list_row (p : proc) (parent : text) : text :=
  txt " " ++ pad_left 3 (fmt_i (p_pid p)) ++ txt "  " ++ pad_right 13 (c_str (p_comm p)) ++ txt " " ++ parent ++ nl.

Definition proc_list_info k (arg buf osize : Z) : M out Z :=
  modify (fun o => Out buf osize (o_mem o));;
  kassert (negb (c_true arg));;
  kassert (c_true buf);;
  iprintf list_head;;
  mfor (proc_list k) (fun a =>
    p ← prc_at k a;
    parent ← (if c_true (p_pproc p)
              then q ← prc_at k (p_pproc p);
                   mret (parent_buf (pad_left 3 (fmt_i (p_pid q)) ++ txt " (" ++ c_str (p_comm q) ++ txt ")"))
              else mret (parent_buf (txt "  -")));
    iprintf (list_row p parent));;
  gets o_size.
End Info.
