(* ===== verification/InfoThms.v ===== *)
(** What printing does to the buffer.

    Numbers are printed so that they can be read back ([digits_value]).
    [vmmap_mapping_info] stays inside its buffer exactly as long as all lines but
    the last fit; when they do not, it writes a NUL past the end.  [proc_info] and
    [proc_list_info] never follow a dangling pointer in a consistent kernel. *)
From Stdlib Require Import String.
From S2P Require Import Prelude.
From S2P Require Import Platform.
From S2P Require Import Sched.
From S2P Require Import SchedInv.
From S2P Require Import ProcSched.
From S2P Require Import MmIface.
From S2P Require Import Vmmap.
From S2P Require Import Areas.
From S2P Require Import VmmapFacts.
From S2P Require Import VmmapThms.
From S2P Require Import Proc.
From S2P Require Import ProcInv.
From S2P Require Import Info.
Open Scope Z_scope.

(** ** Numbers *)

Definition digit_value (c : Z) : Z := if c <? 58 then c - 48 else c - 87.
Definition value (base : Z) (t : text) : Z := foldl (fun n c => n * base + digit_value c) 0 t.

Lemma digit_value_digit d : 0 <= d < 16 -> digit_value (digit d) = d.
Proof. unfold digit_value, digit. intros ?. case_tests; lia. Qed.

Lemma digits_loop_app base fuel : forall n acc, digits_loop fuel base n acc = digits_loop fuel base n [] ++ acc.
Proof.
  induction fuel as [|f IH]; intros n acc; cbn; [done|]. case_tests; [done|].
  rewrite IH, (IH _ [digit _]), <- app_assoc. done.
Qed.

Lemma digits_loop_value base fuel : 2 <= base <= 16 -> forall n, 0 <= n < 2 ^ Z.of_nat fuel ->
  value base (digits_loop fuel base n []) = n.
Proof.
  intros Hb. induction fuel as [|f IH]; intros n Hn; [change (0 <= n < 1) in Hn; cbn; unfold value; cbn; lia|].
  rewrite Nat2Z.inj_succ, Z.pow_succ_r in Hn by lia. cbn. case_tests; [unfold value; cbn; lia|].
  rewrite digits_loop_app. unfold value. rewrite foldl_app. cbn. fold (value base (digits_loop f base (n / base) [])).
  pose proof (Z.mod_pos_bound n base ltac:(lia)). pose proof (Z.div_lt_upper_bound n base (2 ^ Z.of_nat f) ltac:(lia) ltac:(nia)).
  rewrite IH, digit_value_digit by (split; [apply Z.div_pos|]; lia) || lia.
  pose proof (Z.div_mod n base). lia.
Qed.

(** The digits printed for a number are those of the number. *)
Theorem digits_value base n : 2 <= base <= 16 -> 0 <= n -> value base (digits base n) = n.
Proof.
  intros Hb Hn. apply digits_loop_value; [done|]. split; [done|].
  destruct (decide (n = 0)) as [->|Hz]; [done|].
  pose proof (Z.log2_spec n) as [_ ?]; [lia|]. rewrite Nat2Z.inj_succ, Z2Nat.id by apply Z.log2_nonneg. done.
Qed.

(** ** Memory *)

(** The memory shows [t] at [a]; two memories agree outside a range. *)
Definition shows (m : bytes) (a : Z) (t : text) : Prop := forall i c, t !! i = Some c -> m !! (a + Z.of_nat i) = Some c.
Definition same_but (lo hi : Z) (m m' : bytes) : Prop := forall a, ~ (lo <= a < hi) -> m' !! a = m !! a.

Lemma same_but_refl lo hi m : same_but lo hi m m.
Proof. done. Qed.
Lemma same_but_trans lo hi m1 m2 m3 : same_but lo hi m1 m2 -> same_but lo hi m2 m3 -> same_but lo hi m1 m3.
Proof. intros H1 H2 a Ha. by rewrite H2, H1. Qed.
Lemma same_but_mono lo hi lo' hi' m m' : same_but lo hi m m' -> lo' <= lo -> hi <= hi' -> same_but lo' hi' m m'.
Proof. intros H ?? a Ha. apply H. lia. Qed.

Lemma poke_same t : forall a m, same_but a (a + len t) m (poke a t m).
Proof.
  induction t as [|c t IH]; intros a m b Hb; [done|]. cbn. unfold len in *. cbn in Hb.
  rewrite lookup_insert_ne by lia. apply IH. unfold len. lia.
Qed.
Lemma poke_shows t : forall a m, shows (poke a t m) a t.
Proof.
  induction t as [|c t IH]; intros a m i d Hi; [done|]. destruct i as [|i]; cbn in *.
  - simplify_eq. rewrite Z.add_0_r. apply lookup_insert_eq.
  - rewrite lookup_insert_ne by lia. rewrite <- (IH (a + 1) m i d Hi). f_equal. lia.
Qed.

Lemma shows_app m a t u : shows m a (t ++ u) <-> shows m a t /\ shows m (a + len t) u.
Proof.
  unfold shows, len. split.
  - intros H. split; intros i c Hi.
    + apply H. by rewrite lookup_app, Hi.
    + rewrite <- (H (length t + i)%nat c); [f_equal; lia|]. rewrite lookup_app_r by lia. by rewrite Nat.add_sub_swap, Nat.sub_diag.
  - intros [H1 H2] i c [Hi|[? Hi]]%lookup_app_Some; [by apply H1|]. rewrite <- (H2 _ _ Hi). f_equal. lia.
Qed.
Lemma shows_same lo hi m m' a t : same_but lo hi m m' -> a + len t <= lo -> shows m a t -> shows m' a t.
Proof.
  intros Hs Hle H i c Hi. rewrite <- (H i c Hi). apply Hs. apply lookup_lt_Some in Hi. unfold len in Hle. lia.
Qed.

Lemma len_app t u : len (t ++ u) = len t + len u.
Proof. unfold len. rewrite length_app. lia. Qed.
Lemma len_nonneg t : 0 <= len t.
Proof. unfold len. lia. Qed.

(** What fits of a text of a buffer, with its NUL. *)
Definition cut (size : Z) (t : text) : text := take (Z.to_nat (size - 1)) t ++ [0].
Lemma len_cut size t : 0 < size -> len (cut size t) <= size.
Proof. intros ?. unfold cut. rewrite len_app. unfold len. rewrite length_take. cbn. lia. Qed.
Lemma cut_app size t u : len t < size -> cut size (t ++ u) = t ++ cut (size - len t) u.
Proof.
  intros H. unfold cut. rewrite (take_app_ge t) by (unfold len in *; lia). rewrite <- app_assoc.
  do 3 f_equal. unfold len in *. lia.
Qed.

Lemma snprintf_ok buf size t m : 0 < size -> exists m', snprintf buf size t m = Ok (len t) m' /\
  same_but buf (buf + size) m m' /\ shows m' buf (cut size t).
Proof.
  intros Hs. unfold snprintf. rewrite (proj2 (Z.ltb_lt _ _) Hs). eexists. split; [done|]. split; [|apply poke_shows].
  eapply same_but_mono; [apply poke_same|lia|]. pose proof (len_cut size t Hs). unfold cut in *. lia.
Qed.

(** ** The mappings of an address space *)

Section MappingInfo.
Context `{P : Platform} {C : ProcConst} {I : InfoOps}.

(** The length of all lines but the last, the line [t] before the areas [l] included. *)
Fixpoint but_last (t : text) (l : list vmarea) : Z :=
  match l with [] => 0 | a :: l => len t + but_last (mapping_row a) l end.
Definition mapping_lines (l : list vmarea) : text := mapping_head ++ mjoin (mapping_row <$> l).

Lemma but_last_nonneg l : forall t, 0 <= but_last t l.
Proof. induction l as [|a l IH]; intros t; cbn; [done|]. pose proof (IH (mapping_row a)). pose proof (len_nonneg t). lia. Qed.

Lemma rows_fit l : forall t buf size m, but_last t l < size -> shows m buf (cut size t) ->
  exists m', mapping_rows l buf size (len t) m = Ok (buf + but_last t l, size - but_last t l) m' /\
    same_but buf (buf + size) m m' /\ shows m' buf (cut size (t ++ mjoin (mapping_row <$> l))).
Proof.
  induction l as [|a l IH]; intros t buf size m Hf Hs; cbn in *.
  - exists m. rewrite Z.add_0_r, Z.sub_0_r, app_nil_r. by split_and!.
  - pose proof (but_last_nonneg l (mapping_row a)) as Hn. pose proof (len_nonneg t).
    rewrite (proj2 (Z.leb_gt _ _)) by lia.
    destruct (snprintf_ok (buf + len t) (size - len t) (mapping_row a) m) as (m1 & E1 & S1 & W1); [lia|].
    rewrite (bind_ok _ _ _ _ _ E1). destruct (IH (mapping_row a) (buf + len t) (size - len t) m1) as (m2 & E2 & S2 & W2); [lia|done|].
    pose proof (same_but_trans _ _ _ _ _ S1 S2) as S12.
    exists m2. split_and!; [rewrite E2; do 2 f_equal; lia|eapply same_but_mono; [exact S12|lia|lia]|].
    rewrite cut_app by lia. apply shows_app. split; [|exact W2].
    eapply shows_same; [exact S12|lia|]. rewrite <- (app_nil_r t), cut_app in Hs by lia. by apply shows_app in Hs as [? _].
Qed.

Lemma rows_over l : forall t buf size m, 0 < size <= but_last t l ->
  exists c m', mapping_rows l buf size (len t) m = Ok (buf + c, size - c) m' /\ size <= c /\ same_but buf (buf + size) m m'.
Proof.
  induction l as [|a l IH]; intros t buf size m Hf; cbn in *; [lia|]. destruct (size - len t <=? 0) eqn:E; zify_bool.
  - exists (len t), m. split; [done|]. split; [lia|done].
  - destruct (snprintf_ok (buf + len t) (size - len t) (mapping_row a) m) as (m1 & E1 & S1 & W1); [lia|].
    rewrite (bind_ok _ _ _ _ _ E1).
    destruct (IH (mapping_row a) (buf + len t) (size - len t) m1) as (c & m2 & E2 & Hc & S2); [lia|].
    exists (len t + c), m2. pose proof (len_nonneg t). split_and!; [rewrite E2; do 2 f_equal; lia|lia|].
    eapply same_but_mono; [exact (same_but_trans _ _ _ _ _ S1 S2)|lia|lia].
Qed.

Lemma mapping_info_start maps vmmap buf osize m M : 0 < osize < 2 ^ 31 -> buf <> NULL -> vmmap <> NULL ->
  maps !! vmmap = Some M ->
  exists m1, same_but buf (buf + osize) m m1 /\ shows m1 buf (cut osize mapping_head) /\
    vmmap_mapping_info maps vmmap buf osize m =
    (r ← mapping_rows (vmm_list M) buf osize (len mapping_head);
     if r.2 <=? 0 then modify (<[r.1 + osize - 1 := 0]>);; mret 0 else mret (osize - r.2)) m1.
Proof.
  intros Ho Hb Hv HM. destruct (snprintf_ok buf osize mapping_head m) as (m1 & E1 & S1 & W1); [lia|].
  exists m1. split_and!; [done|done|]. unfold vmmap_mapping_info.
  rewrite kassert_bind by (apply Z.ltb_lt; lia). rewrite !kassert_bind by by apply c_true_spec.
  rewrite (deref_bind _ _ _ _ HM), (bind_ok _ _ _ _ _ E1). by rewrite s32_small by lia.
Qed.

(** As long as all lines but the last fit, nothing outside the buffer changes, the
    buffer has the lines in order, cut at its end, and the result is the length of
    all lines but the last, which is not counted. *)
Lemma mapping_info_fits maps vmmap buf osize m M : 0 < osize < 2 ^ 31 -> buf <> NULL -> vmmap <> NULL ->
  maps !! vmmap = Some M -> but_last mapping_head (vmm_list M) < osize ->
  exists m', vmmap_mapping_info maps vmmap buf osize m = Ok (but_last mapping_head (vmm_list M)) m' /\
    same_but buf (buf + osize) m m' /\ shows m' buf (cut osize (mapping_lines (vmm_list M))).
Proof.
  intros Ho Hb Hv HM Hf. destruct (mapping_info_start maps vmmap buf osize m M Ho Hb Hv HM) as (m1 & S1 & W1 & ->).
  destruct (rows_fit (vmm_list M) mapping_head buf osize m1 Hf W1) as (m2 & E2 & S2 & W2).
  exists m2. rewrite (bind_ok _ _ _ _ _ E2). cbn [fst snd]. rewrite (proj2 (Z.leb_gt _ _)) by lia.
  split_and!; [apply (f_equal (fun n => Ok n m2)); lia|by eapply same_but_trans|done].
Qed.

(** When they do not fit, the result is 0, and a NUL goes to a byte that lies at
    least the length of the buffer past its end: the code has moved [buf] on by then. *)
Lemma mapping_info_overflows maps vmmap buf osize m M : 0 < osize < 2 ^ 31 -> buf <> NULL -> vmmap <> NULL ->
  maps !! vmmap = Some M -> osize <= but_last mapping_head (vmm_list M) ->
  exists a m', vmmap_mapping_info maps vmmap buf osize m = Ok 0 m' /\ buf + 2 * osize - 1 <= a /\ m' !! a = Some 0.
Proof.
  intros Ho Hb Hv HM Hf. destruct (mapping_info_start maps vmmap buf osize m M Ho Hb Hv HM) as (m1 & S1 & W1 & ->).
  destruct (rows_over (vmm_list M) mapping_head buf osize m1) as (c & m2 & E2 & Hc & S2); [lia|].
  exists (buf + c + osize - 1). eexists. rewrite (bind_ok _ _ _ _ _ E2). cbn [fst snd]. rewrite (proj2 (Z.leb_le _ _)) by lia.
  split; [done|]. split; [lia|apply lookup_insert_eq].
Qed.

(** C35. vmmap_mapping_info on every address space: if all lines but the last fit
    into the buffer, it writes into the buffer only, which then has the lines in
    order, cut at its end, with a NUL, and returns the length of all lines but the
    last; otherwise it returns 0 and has written a NUL to an address at least the
    size of the buffer past its end. *)
Theorem mapping_info_bounds maps vmmap buf osize m M : 0 < osize < 2 ^ 31 -> buf <> NULL -> vmmap <> NULL ->
  maps !! vmmap = Some M ->
  exists n m', vmmap_mapping_info maps vmmap buf osize m = Ok n m' /\
    (if but_last mapping_head (vmm_list M) <? osize
     then n = but_last mapping_head (vmm_list M) /\ same_but buf (buf + osize) m m' /\ shows m' buf (cut osize (mapping_lines (vmm_list M)))
     else n = 0 /\ exists a, buf + 2 * osize - 1 <= a /\ m' !! a = Some 0).
Proof.
  intros Ho Hb Hv HM. destruct (Z.ltb_spec (but_last mapping_head (vmm_list M)) osize) as [Hf|Hf].
  - destruct (mapping_info_fits maps vmmap buf osize m M Ho Hb Hv HM Hf) as (m' & E & Hs & Hw). eauto 10.
  - destruct (mapping_info_overflows maps vmmap buf osize m M Ho Hb Hv HM Hf) as (a & m' & E & Ha & Hw). eauto 10.
Qed.
End MappingInfo.

(** ** Processes *)

(** A text that fits is written with a NUL after it, and the next one goes over the NUL. *)
Class InfoLaws {I : InfoOps} := {
  ip_fits t o : len t < o_size o -> exists m',
    iprintf t o = Ok tt (Out (o_buf o + len t) (o_size o - len t) m') /\
    same_but (o_buf o) (o_buf o + o_size o) (o_mem o) m' /\ shows m' (o_buf o) (t ++ [0])
}.

Section ProcInfo.
Context `{P : Platform} {C : ProcConst} {MM FS : Type} `{!MmOps MM} `{!ProcOps MM} `{!FsOps FS}.
Context {I : InfoOps} `{!InfoLaws}.
Implicit Types (k : kern (MM := MM) (FS := FS)) (x q : proc).

(** [m] prints the text [t] if it fits, into a buffer that begins with a NUL, or
    into any when [fresh]; its result and the room left are related by [Q]. *)
Definition prints {A} (fresh : bool) (m : M out A) (t : text) (Q : A -> Z -> Prop) : Prop := forall o,
  len t < o_size o -> (fresh = false -> shows (o_mem o) (o_buf o) [0]) ->
  exists a m', m o = Ok a (Out (o_buf o + len t) (o_size o - len t) m') /\ Q a (o_size o - len t) /\
    same_but (o_buf o) (o_buf o + o_size o) (o_mem o) m' /\ shows m' (o_buf o) (t ++ [0]).
Notation printed := (fun _ _ => True).

Lemma prints_one fresh t : prints fresh (iprintf t) t printed.
Proof. intros o Ho _. destruct (ip_fits t o Ho) as (m' & E & ? & ?). by exists tt, m'. Qed.
Lemma prints_size : prints false (gets o_size) [] eq.
Proof.
  intros [b n m] Ho Hf. exists n, m. cbn in *. unfold len. cbn. rewrite Z.add_0_r, Z.sub_0_r. by split_and!; [| |apply same_but_refl|apply Hf].
Qed.
Lemma prints_bind {A B} fresh (m : M out A) (f : A -> M out B) t u Q :
  prints fresh m t printed -> (forall a, prints false (f a) u Q) -> prints fresh (m ≫= f) (t ++ u) Q.
Proof.
  intros Hm Hf o Ho Hp. rewrite len_app in Ho. pose proof (len_nonneg u). pose proof (len_nonneg t).
  destruct (Hm o ltac:(lia) Hp) as (a & m1 & E1 & _ & S1 & W1). apply shows_app in W1 as [W1 N1].
  destruct (Hf a (Out (o_buf o + len t) (o_size o - len t) m1)) as (b & m2 & E2 & HQ & S2 & W2); [cbn; lia|done|].
  cbn in *. exists b, m2. rewrite (bind_ok _ _ _ _ _ E1), E2, len_app, <- app_assoc.
  split_and!; [do 2 f_equal; lia|by rewrite Z.sub_add_distr| |].
  - eapply same_but_trans; [exact S1|]. eapply same_but_mono; [exact S2|lia|lia].
  - apply shows_app. split; [|done]. by eapply shows_same; [exact S2| |].
Qed.
Lemma prints_prc {B} fresh k p x (f : proc -> M out B) t Q : procs k !! p = Some x ->
  prints fresh (f x) t Q -> prints fresh (prc_at k p ≫= f) t Q.
Proof. intros Hp Hf o Ho Hn. unfold prc_at. rewrite (deref_bind _ _ _ _ Hp). by apply Hf. Qed.
Lemma prints_kassert {B} fresh b (f : unit -> M out B) t Q : b = true -> prints fresh (f tt) t Q -> prints fresh (kassert b ≫= f) t Q.
Proof. intros -> Hf o Ho Hn. rewrite kassert_bind by done. by apply Hf. Qed.
Lemma prints_mfor {A} (l : list A) (f : A -> M out unit) (g : A -> text) :
  (forall a, a ∈ l -> prints false (f a) (g a) printed) -> prints false (mfor l f) (mjoin (g <$> l)) printed.
Proof.
  induction l as [|a l IH]; intros Ha; cbn.
  - intros [b n m] Ho Hf. exists tt, m. cbn in *. unfold len. cbn. rewrite Z.add_0_r, Z.sub_0_r. by split_and!; [| |apply same_but_refl|apply Hf].
  - apply prints_bind; [apply Ha; left|]. intros _. apply IH. intros ??. apply Ha. by right.
Qed.

(** The text of a finished printing function. *)
Lemma prints_buf (m : M out Z) t buf osize (o : out) : prints true m t eq -> len t < osize ->
  exists m', (modify (fun o => Out buf osize (o_mem o));; m) o = Ok (osize - len t) (Out (buf + len t) (osize - len t) m') /\
    same_but buf (buf + osize) (o_mem o) m' /\ shows m' buf (t ++ [0]).
Proof.
  intros Hm Ht. destruct (Hm (Out buf osize (o_mem o)) Ht) as (a & m' & E & -> & ? & ?); [done|].
  exists m'. by rewrite modify_bind.
Qed.

(** ** The texts *)

Definition named x : text := fmt_i (p_pid x) ++ txt " (" ++ c_str (p_comm x) ++ txt ")".
(** The text for the process at an address. *)
Definition at_proc k (p : Z) (f : proc -> text) : text := from_option f [] (procs k !! p).

Definition parent_line k x : text :=
  if c_true (p_pproc x) then txt "parent:       " ++ at_proc k (p_pproc x) named ++ nl else txt "parent:       -" ++ nl.
Definition children_head x : text := if bool_decide (p_children x = []) then txt "children:     -" ++ nl else txt "children:" ++ nl.
Definition child_line k (c : Z) : text := txt "     " ++ at_proc k c named ++ nl.
Definition proc_text k x : text :=
  (txt "pid:          " ++ fmt_i (p_pid x) ++ nl) ++ (txt "name:         " ++ c_str (p_comm x) ++ nl) ++ parent_line k x ++
  children_head x ++ mjoin (child_line k <$> p_children x) ++
  (txt "status:       " ++ fmt_i (p_status x) ++ nl) ++ (txt "state:        " ++ fmt_i (state_num (p_state x)) ++ nl) ++
  (txt "start brk:    0x" ++ fmt_p (p_start_brk x) ++ nl) ++ (txt "brk:          0x" ++ fmt_p (p_brk x) ++ nl) ++ [].

Definition parent_text k x : text :=
  parent_buf (if c_true (p_pproc x)
              then at_proc k (p_pproc x) (fun q => pad_left 3 (fmt_i (p_pid q)) ++ txt " (" ++ c_str (p_comm q) ++ txt ")") else txt "  -").
Definition list_text k : text :=
  list_head ++ mjoin ((fun p => at_proc k p (fun x => list_row x (parent_text k x))) <$> proc_list k) ++ [].

(** The parent of a process is NULL or a process. *)
Lemma parent_known ps l init p x : fam_ok ps l init -> ps !! p = Some x -> c_true (p_pproc x) = true -> is_Some (ps !! p_pproc x).
Proof.
  intros Hf Hx Hc. destruct (decide (p_pid x = PID_IDLE)) as [Hi|Hi].
  - destruct (fo_idle _ _ _ Hf p x Hx Hi) as [E _]. by rewrite E in Hc.
  - destruct (fo_parent _ _ _ Hf p x Hx Hi) as (_ & _ & y & -> & _). by eexists.
Qed.

Lemma prints_parent k p x : fam_ok (procs k) (proc_list k) (proc_initproc k) -> procs k !! p = Some x ->
  prints false (if c_true (p_pproc x)
     then q ← prc_at k (p_pproc x); iprintf (txt "parent:       " ++ fmt_i (p_pid q) ++ txt " (" ++ c_str (p_comm q) ++ txt ")" ++ nl)
     else iprintf (txt "parent:       -" ++ nl)) (parent_line k x) printed.
Proof.
  intros Hf Hx. unfold parent_line. destruct (c_true (p_pproc x)) eqn:E; [|apply prints_one].
  destruct (parent_known _ _ _ _ _ Hf Hx E) as [q Hq]. apply (prints_prc _ _ _ q); [done|].
  unfold at_proc, named. rewrite Hq. cbn [from_option]. rewrite <- !app_assoc. apply prints_one.
Qed.

(** [proc_info] of a running process writes the text of the process and a NUL into
    the buffer and nothing elsewhere, and returns the room that is left. *)
Theorem proc_info_text k p x buf osize o :
  fam_ok (procs k) (proc_list k) (proc_initproc k) -> procs k !! p = Some x -> p_state x = PROC_RUNNING ->
  buf <> NULL -> len (proc_text k x) < osize ->
  exists m', proc_info k p buf osize o = Ok (osize - len (proc_text k x)) (Out (buf + len (proc_text k x)) (osize - len (proc_text k x)) m') /\
    same_but buf (buf + osize) (o_mem o) m' /\ shows m' buf (proc_text k x ++ [0]).
Proof.
  intros Hf Hx Hr Hb Ht. apply prints_buf; [|done].
  assert (Hp : p <> NULL) by (intros ->; by rewrite (fo_null _ _ _ Hf) in Hx).
  do 2 (apply prints_kassert; [by apply c_true_spec|]).
  apply (prints_prc _ _ _ x); [done|]. destruct (fo_children _ _ _ Hf p x Hx Hr) as [_ Hc].
  do 4 (apply prints_bind; [apply prints_one || by eapply prints_parent|intros _]).
  apply prints_bind; [apply prints_mfor|intros _; do 4 (apply prints_bind; [apply prints_one|intros _]); apply prints_size].
  intros c Hin. destruct (Hc c Hin) as (y & Hy & _). apply (prints_prc _ _ _ y); [done|].
  unfold child_line, at_proc, named. rewrite Hy. cbn [from_option]. rewrite <- !app_assoc. apply prints_one.
Qed.

(** [proc_list_info] writes a line for every process, in the order of the list. *)
Theorem proc_list_info_text k buf osize o :
  fam_ok (procs k) (proc_list k) (proc_initproc k) -> buf <> NULL -> len (list_text k) < osize ->
  exists m', proc_list_info k NULL buf osize o = Ok (osize - len (list_text k)) (Out (buf + len (list_text k)) (osize - len (list_text k)) m') /\
    same_but buf (buf + osize) (o_mem o) m' /\ shows m' buf (list_text k ++ [0]).
Proof.
  intros Hf Hb Ht. apply prints_buf; [|done].
  do 2 (apply prints_kassert; [done || by apply c_true_spec|]). apply prints_bind; [apply prints_one|intros _]. apply prints_bind; [|intros _; apply prints_size].
  apply prints_mfor. intros p Hin. apply (fo_list _ _ _ Hf) in Hin as [x Hx]. apply (prints_prc _ _ _ x); [done|].
  unfold at_proc at 1. rewrite Hx. cbn [from_option]. unfold parent_text.
  destruct (c_true (p_pproc x)) eqn:E; [|apply prints_one]. destruct (parent_known _ _ _ _ _ Hf Hx E) as [q Hq].
  intros o' Ho' Hn. unfold at_proc in *. rewrite Hq in *. rewrite bind_assoc. unfold prc_at. rewrite (deref_bind _ _ _ _ Hq), ret_bind. exact (prints_one false _ o' Ho' Hn).
Qed.
End ProcInfo.
