(* ===== verification/Pageout.v ===== *)
(** The page-out daemon as a process, and the end of the page frames: [mm/pframe.c].

    The loop over the pages is in [Mm]; here are the functions around it, which use
    processes and queues. *)
From S2P Require Import Prelude.
From S2P Require Import Platform.
From S2P Require Import Sched.
From S2P Require Import MmIface.
From S2P Require Import Mm.
From S2P Require Import Vmmap.
From S2P Require Import Proc.
From S2P Require Import Boot.
Open Scope Z_scope.

Section Pageout.
Context {LM FS : Type} `{P : Platform} `{!LowMem LM} `{!MmobjHeader} `{!FileOps (LM := LM)}.
Context {C : ProcConst} `{!ProcOps (mm LM)} `{!FsOps FS} `{!BootOps (mm LM) FS}.
Context (intr_wait : sched -> sched) (irqs : nat) (alloc_waitq : Z).
Notation kern := (kern (MM := mm LM) (FS := FS)).

(** The code that works on the page frames, with the address spaces as they are. *)
Definition on_frames {A} (m : vmmaps -> M (mm LM) A) : M kern A := k ← get; on_mm (m (vm_maps (kvm k))).

(** The new value of [pageoutd_thr]. *)
Definition pageoutd_exit (pageoutd_thr : Z) : M kern Z :=
  kassert (negb (NULL =? pageoutd_thr));;
  kthread_cancel intr_wait irqs pageoutd_thr 0;;
  mret NULL.

(** One turn of the daemon: it pages out, wakes the threads that wait for memory and
    sleeps. *)
Definition pageoutd_turn (fuel : nat) : M kern called :=
  n ← on_frames (fun _ => gets nallocated);
  kassert (0 <=? n);;
  on_frames (pageoutd_loop fuel);;
  on_sched (sched_broadcast_on (waitq alloc_waitq));;
  r ← on_sched (sched_cancellable_sleep_on intr_wait irqs (waitq pageoutd_waitq));
  match r with
  | Returned e => when (c_true e) (kthread_exit intr_wait irqs 0);; mret (Returned e)
  | Switched => mret Switched
  end.
(** It runs again. *)
Definition pageoutd_resume : M kern Z :=
  e ← on_sched sched_cancellable_sleep_on_resume;
  when (c_true e) (kthread_exit intr_wait irqs 0);;
  mret e.

(** The pages that are left are freed. *)
Definition free_all (maps : vmmaps) : M (mm LM) unit :=
  l ← gets alloc_list;
  mfor l (fun pf =>
    f ← frame pf;
    kassert (negb (pf_dirty f));;
    kassert (negb (pf_busy f));;
    kassert (negb (pframe_is_pinned f));;
    pframe_free (put maps) maps pf).
(** pframe_shutdown from where the daemon has been waited for. *)
Definition shutdown_rest (fuel : nat) (pid child : Z) : M kern unit :=
  kassert (pid =? child);;
  n ← on_frames (fun _ => gets npinned);
  kassert (0 =? n);;
  on_frames (pframe_clean_all fuel);;
  on_frames free_all.
Definition pframe_shutdown (fuel : nat) (pageoutd pageoutd_thr : Z) : M kern (option Z) :=
  cur ← get_curproc;
  x ← prc cur;
  kassert (PID_IDLE =? p_pid x);;
  pageoutd_exit pageoutd_thr;;
  y ← prc pageoutd;
  r ← do_waitpid intr_wait irqs (-1) 0;
  match r with
  | WaitReturned child _ => shutdown_rest fuel (p_pid y) child;; mret (Some child)
  | WaitSwitched => mret None
  end.

(** ** Cleaning *)

Implicit Types (s : mm LM).
(** A page that can be freed. *)
Definition reclaimable s (pf : Z) : Prop :=
  exists f, pframes s !! pf = Some f /\ pf_dirty f = false /\ pf_busy f = false /\ pframe_is_pinned f = false.
(** A walk over the pages that finds nothing to do changes nothing. *)
Lemma clean_walk_none maps l s s' : clean_walk maps l s = Ok false s' -> s' = s /\ forall pf, pf ∈ l -> reclaimable s pf.
Proof.
  induction l as [|pf l IH]; cbn [clean_walk]; [intros [= <-]; split; [done|]; by intros pf ?%elem_of_nil|].
  intros (f & s1 & Ef & E)%bind_Ok_inv. assert (s1 = s /\ pframes s !! pf = Some f) as [-> Hf].
  { unfold frame in Ef. rewrite get_bind in Ef. by destruct (pframes s !! pf); [injection Ef as <- <-|]. }
  unfold kassert in E. destruct (pframe_is_pinned f) eqn:Ep; [done|]. destruct (pframe_is_free f); [done|]. cbn [negb] in E. rewrite !ret_bind in E.
  destruct (pf_busy f) eqn:Eb.
  { unfold sleep_on in E. rewrite get_bind in E. by apply bind_Ok_inv in E as (? & ? & _ & ?). }
  destruct (pf_dirty f) eqn:Ed; [by apply bind_Ok_inv in E as (? & ? & _ & ?)|].
  destruct (IH E) as [-> Hl]. split; [done|]. intros q [->|Hq]%elem_of_cons; [by exists f|by apply Hl].
Qed.

(** When [pframe_clean_all] returns, no page that could be paged out is dirty, busy or
    pinned: the pages [pframe_shutdown] frees next pass its assertions. *)
Theorem clean_all_cleans fuel maps s s' : pframe_clean_all fuel maps s = Ok tt s' -> forall pf, pf ∈ alloc_list s' -> reclaimable s' pf.
Proof.
  induction fuel as [|fuel IH] in s |- *; cbn [pframe_clean_all]; [done|]. rewrite gets_bind. intros ([|] & s1 & E1 & E)%bind_Ok_inv; [by eapply IH|].
  injection E as <-. by destruct (clean_walk_none _ _ _ _ E1) as [-> Hl].
Qed.
End Pageout.
