(* ===== verification/ProcDemo.v ===== *)
(** The small machine of [Demo] with processes on it: the kernel is started, init
    forks, waits and so on, and the states it goes through satisfy the invariant. *)
From S2P Require Import Prelude.
From S2P Require Import Platform.
From S2P Require Import Sched.
From S2P Require Import SchedInv.
From S2P Require Import ProcSched.
From S2P Require Import MmIface.
From S2P Require Import Mm.
From S2P Require Import MmInv.
From S2P Require Import MmPut.
From S2P Require Import MmSafe.
From S2P Require Import Demo.
From S2P Require Import Vmmap.
From S2P Require Import Areas.
From S2P Require Import VmmapFacts.
From S2P Require Import VmmapThms.
From S2P Require Import VmmapRun.
From S2P Require Import Vfs.
From S2P Require Import VfsDemo.
From S2P Require Import Store.
From S2P Require Import StoreRun.
From S2P Require Import Proc.
From S2P Require Import ProcInv.
From S2P Require Import ProcIds.
From S2P Require Import ProcCreate.
From S2P Require Import ProcThread.
From S2P Require Import ForkVm.
From S2P Require Import ForkCow.
From S2P Require Import ProcFork.
From S2P Require Import ProcExit.
From S2P Require Import ProcWait.
From S2P Require Import ProcSteps.
From S2P Require Import Boot.
From S2P Require Import BootThms.
Open Scope Z_scope.

#[export] Instance demo_const : ProcConst := {|
  PID_IDLE := 0; PID_INIT := 1; PROC_NAME_LEN := 256;
  DEFAULT_STACK_SIZE := 57344; PAGE_SHIFT := 12; userland_entry := 0;
  sizeof_regs := 76; r_eax := 7
|}.
#[export] Instance demo_const_ok : ProcConstOk demo_const.
Proof. by split. Qed.

(** Every struct comes from the one counter of the machine. *)
Definition any_alloc : M (mm machine) Z := slab_alloc VmmapSlab.
Definition any_free (p : Z) : M (mm machine) unit := modify (set_lowmem (slab_obj_free VmmapSlab p)).
#[export] Instance demo_proc : ProcOps (mm machine) := {|
  proc_slab_alloc := any_alloc; proc_slab_free := any_free;
  kthread_slab_alloc := any_alloc; kthread_slab_free := any_free;
  slab_kthread _ _ := zero_thread;
  slab_ctx _ _ := Context 0 0 0 0 0 0;
  page_alloc_n _ := any_alloc; page_free_n p _ := any_free p;
  pt_create_pagedir := any_alloc; pt_destroy_pagedir := any_free;
  proc_tlb_flush_all := mret tt;
  context_setup func _ _ st sz pd := mret (Context pd func (st + sz) (st + sz) st sz)
|}.

Lemma any_allocates : allocates any_alloc.
Proof.
  intros L I R mm Hs. destruct (slab_alloc_ok VmmapSlab L I R mm Hs) as (i & s' & E & _ & H0 & H1).
  exists i, s'. split_and!; [done|done|]. intros Hn. by destruct (H1 Hn).
Qed.
Lemma any_releases : releases any_free.
Proof. intros L I R mm a Hs. eexists. split; [reflexivity|]. by apply (slab_free_ok VmmapSlab). Qed.
#[export] Instance demo_proc_laws : ProcLaws (mm machine).
Proof.
  split; intros; try (apply any_allocates || apply any_releases); [by exists mm|].
  eexists _, mm. by split_and!.
Qed.

(** The file system of [VfsDemo]: nothing is open, the root is not mounted yet. *)
Notation demo_fs := (store entries).
Definition unused (mode len : Z) : vnode := Vnode mode len 0 all_ops.
Definition st_off : demo_fs := Store ∅ {[1 := unused 1 0; 2 := unused 1 0; 3 := unused 4 100; 4 := unused 1 0; 5 := unused 4 7]} NULL tree.
(** Vnode 1 is brought in if need be, and becomes the root. *)
Definition mount (st : demo_fs) : demo_fs :=
  Store (st_files st) (partial_alter (fun o => Some (add_refs 1 (default (unused 1 0) o))) 1 (st_vnodes st)) 1 (st_fs st).

Lemma mount_ok V O st : store_ok V O st -> store_ok (V ⊎ {[+ 1 +]}) O (mount st).
Proof.
  intros [[H1 H2] H3 H4 H5 H6 H7]. set (vs := st_vnodes (mount st)).
  assert (forall w, is_Some (st_vnodes st !! w) -> is_Some (vs !! w)) as Hold.
  { intros w Hw. unfold vs, mount. cbn [st_vnodes]. destruct (decide (w = 1)) as [->|Hn]; [rewrite lookup_partial_alter_eq; eauto|by rewrite lookup_partial_alter_ne]. }
  split; try done.
  - split; [|done]. rewrite gmultiset_elem_of_disj_union, gmultiset_elem_of_singleton. by intros [?|?].
  - intros w. specialize (H5 w). unfold refs, count_of in *. cbn [st_vnodes st_fs st_files mount] in *. rewrite !multiplicity_disj_union in *. destruct (decide (w = 1)) as [->|Hn].
    + rewrite lookup_partial_alter_eq, multiplicity_singleton_eq. destruct (st_vnodes st !! 1); cbn in *; lia.
    + rewrite lookup_partial_alter_ne, multiplicity_singleton_ne by done. lia.
  - right. unfold mount. cbn. rewrite lookup_partial_alter_eq. eauto.
  - intros d nm w Hd. destruct (H7 d nm w Hd). split; [done|by apply Hold].
Qed.

Notation dkern := (kern (MM := mm machine) (FS := demo_fs)).

(** The start-up functions mount the root. *)
#[export] Instance demo_boot : BootOps (mm machine) demo_fs := {|
  pt_template_init := mret tt;
  init_call_all := on_fs (modify mount);
  final_shutdown := mret tt;
  boot_mkdir _ := mret 0; boot_mknod _ _ _ := mret 0;
  idleproc_entry := 16; initproc_entry := 32; pageoutd_entry := 48;
  S_IFCHR := 8192; MEM_NULL_DEVID := 256; MEM_ZERO_DEVID := 257; TTY0_DEVID := 512;
  pageoutd_waitq := 64
|}.

(** No interrupt arrives. *)
Definition no_intr (s : sched) : sched := s.
Lemma no_intr_pres : intr_pres no_intr.
Proof. intros s Hs. by split_and!. Qed.
Lemma no_intr_keeps s : idle_ok s -> keeps_threads s (no_intr s).
Proof. intros _. reflexivity. Qed.

Definition k_on : dkern := Kern (Sched ∅ ∅ ∅ NULL NULL 0 false) vm0 st_off ∅ [] 0 NULL ∅ ∅ ∅.

Lemma k_on_on : power_on [] ∅ ∅ ∅ k_on.
Proof.
  split; try done; [|exact vm0_ok|apply count_check_ok; vm_compute; reflexivity]. split; [split| |].
  - done.
  - intros q. constructor.
  - intros t q. split; [by intros ?%elem_of_nil|]. intros (kt & Hkt & _). cbn in Hkt. by rewrite lookup_empty in Hkt.
  - intros t kt Hkt. cbn in Hkt. by rewrite lookup_empty in Hkt.
  - done.
  - intros t kt q Hkt. cbn in Hkt. by rewrite lookup_empty in Hkt.
  - intros m. split; [done|]. by intros ?%elem_of_nil.
Qed.

(** ** The first process *)

Lemma demo_template : template_ok (MM := mm machine).
Proof. intros L I R mm Hs. by exists mm. Qed.
Lemma demo_devices : devices_ok (MM := mm machine) (FS := demo_fs).
Proof. intros V O fs Hs. split; intros; by eexists _, fs. Qed.
Lemma demo_inits : inits_ok (MM := mm machine) (FS := demo_fs) [] ∅ ∅ ∅ [] ∅ {[+ 1 +]}.
Proof.
  intros k k' Hk Hi Hrun E. cbn in E. injection E as <-. split; try done.
  - destruct Hk as [A1 A2 A3 A4 A5 A6 A7 A8 A9]. split; try done. cbn. rewrite (right_id_L ∅ (⊎)) in A3. by apply mount_ok.
  - cbn. split; [done|]. by apply gmultiset_elem_of_singleton.
  - intros p x Hx. exists (p_children x). cbn. rewrite Hx. split; [by destruct x|done].
Qed.

Definition k_init : dkern := Eval vm_compute in out_state ((bootstrap;; idleproc_run no_intr 0) k_on).
Lemma k_init_eq : (bootstrap;; idleproc_run no_intr 0) k_on = Ok WaitSwitched k_init.
Proof. vm_compute. reflexivity. Qed.

(** Memory does not run out: the allocations are run. *)
Ltac run E := vm_compute in E; injection E; clear E; intros; subst.
Lemma not_create_short k p v1 pd v2 m v3 : lift proc_slab_alloc (kvm k) = Ok p v1 -> lift pt_create_pagedir v1 = Ok pd v2 -> vmmap_create v2 = Ok m v3 ->
  p <> NULL -> pd <> NULL -> m <> NULL -> ~ create_short (FS := demo_fs) (MM := mm machine) k.
Proof.
  intros E1 E2 E3 H1 H2 H3 [v A|p' v v' A B|p' pd' v v' v'' A B D]; rewrite E1 in A; [congruence|..];
    injection A as <- <-; rewrite E2 in B; [congruence|]. injection B as <- <-. rewrite E3 in D. congruence.
Qed.
Lemma not_thread_short (v : vm (MM := mm machine)) t v1 st v2 : lift kthread_slab_alloc v = Ok t v1 -> lift (page_alloc_n stack_pages) v1 = Ok st v2 ->
  t <> NULL -> st <> NULL -> ~ thread_short v.
Proof.
  intros E1 E2 H1 H2 [(v' & A)|(t' & v' & v'' & A & B)]; rewrite E1 in A; [congruence|]. injection A as <- <-. rewrite E2 in B. congruence.
Qed.

Ltac enough_memory := first [eapply not_create_short|eapply not_thread_short]; (vm_compute; (reflexivity || discriminate)).

Lemma k_on_runs : ~ start_stops k_on.
Proof.
  intros [(v0 & E0 & [H|(p & pd & m & v1 & v2 & v3 & E1 & E2 & E3 & H)])|k1 E H|k1 p k2 E1 E2 H|k1 t h k2 E1 E2].
  - run E0. revert H. enough_memory.
  - run E0. run E1. run E2. run E3. revert H. enough_memory.
  - run E. revert H. enough_memory.
  - run E1. run E2. revert H. enough_memory.
  - run E1. vm_compute in E2. discriminate E2.
Qed.

Lemma demo_name n : n < 256 -> n < PROC_NAME_LEN.
Proof. done. Qed.
Notation demo_ok := (kern_ok [] ∅ {[+ 1 +]} ∅).

Lemma k_init_ok : demo_ok k_init.
Proof.
  destruct (start_cases no_intr 0 no_intr_pres no_intr_keeps [] ∅ ∅ ∅ [] ∅ {[+ 1 +]} k_on k_on_on eq_refl demo_template (demo_name 9 eq_refl) demo_devices demo_inits)
    as [(k1 & t & k2 & k' & _ & _ & E & Hk & _)|[]%k_on_runs].
  rewrite k_init_eq in E. injection E as <-. exact Hk.
Qed.

(** ** Init forks, and so does its child *)

Lemma free_pid (k : dkern) : demo_ok k -> find_pid 100 (proc_list k) k = Ok None k -> ~ forall pid, 0 <= pid < PROC_MAX_COUNT -> pid_used k pid.
Proof.
  intros Hk E H. destruct (find_pid_used 100 k (kern_all_procs _ _ _ _ _ Hk)) as (r & E' & Hr). rewrite E in E'. injection E' as <-.
  destruct (proj2 Hr) as [? ?]; [|done]. apply H. cbn. lia.
Qed.

Lemma not_fork_short (k : dkern) x p k1 m v1 c v2 : ~ create_short k -> procs k !! curproc (ks k) = Some x -> proc_create newproc_name k = Ok p k1 ->
  vmmap_create (kvm k1) = Ok m v1 -> m <> NULL -> fork_vmmap (p_vmmap x) (kvm k1) = Ok c v2 -> ~ thread_short v2 -> ~ fork_short k.
Proof.
  intros H1 Hx Ep Em Hm Ef H2 [?|p' k1' x' A B D|p' k1' x' c' v2' A B D E]; [done|..]; rewrite Ep in A; injection A as <- <-; rewrite Hx in B; injection B as <-.
  - destruct D as [[v' D]|(v' & D & _)]; congruence.
  - rewrite Ef in D. injection D as <- <-. done.
Qed.
Ltac enough_memory_fork := eapply not_fork_short;
  [enough_memory|vm_compute; reflexivity|vm_compute; reflexivity|vm_compute; reflexivity|discriminate|vm_compute; reflexivity|enough_memory].

Definition regs0 : list Z := replicate 19 7.
Lemma fork_step (k : dkern) x r k' : demo_ok k -> proc_initproc k <> NULL -> procs k !! curproc (ks k) = Some x -> p_cwd x <> NULL -> vfs_root_vn (kfs k) <> NULL ->
  find_pid 100 (proc_list k) k = Ok None k -> ~ fork_short k -> do_fork regs0 k = Ok r k' -> demo_ok k'.
Proof.
  intros Hk Hi Hx Hc Hr Hf Hs E. destruct (do_fork_cases [] ∅ {[+ 1 +]} ∅ k x regs0 Hk Hi Hx Hc Hr (demo_name 7 eq_refl)) as [(pid & p & t & k1 & E1 & _ & Hk1)|[Ha|?]]; [| |done].
  - rewrite E1 in E. injection E as <- <-. done.
  - by destruct (free_pid k Hk Hf).
Qed.
Ltac fork_run Hk := eapply (fork_step _ _ _ _ Hk); [discriminate|vm_compute; reflexivity|discriminate|discriminate|vm_compute; reflexivity|enough_memory_fork|vm_compute; reflexivity].

Lemma wait_step (k : dkern) pid r k' : demo_ok k -> do_waitpid no_intr 0 pid 0 k = Ok r k' -> demo_ok k'.
Proof. intros Hk E. by apply (do_waitpid_ends no_intr 0 no_intr_pres no_intr_keeps _ _ _ _ _ _ _ _ _ Hk E). Qed.
Lemma exit_step (k : dkern) x status k' : demo_ok k -> procs k !! curproc (ks k) = Some x -> p_pid x <> PID_IDLE -> p_pid x <> PID_INIT -> proc_initproc k <> NULL ->
  do_exit no_intr 0 status k = Ok tt k' -> demo_ok k'.
Proof.
  intros Hk Hx H1 H2 H3 E. destruct (exit_runs no_intr 0 [] ∅ {[+ 1 +]} ∅ k status x Hk Hx H1 H2 H3) as (k1 & E1 & Hi & _). rewrite E1 in E.
  by destruct (switch_ok no_intr 0 no_intr_pres no_intr_keeps _ _ _ _ _ _ Hi E).
Qed.

(** Init forks A (process 2) and waits; A forks B (3) and waits; B forks Z (4) and waits;
    Z exits, which wakes B. *)
Definition forked (k : dkern) : dkern := out_state (do_fork regs0 k).
Definition waited_any (k : dkern) : dkern := out_state (do_waitpid no_intr 0 (-1) 0 k).
Definition k_a : dkern := Eval vm_compute in forked k_init.
Definition k_a_runs : dkern := Eval vm_compute in waited_any k_a.
Definition k_b : dkern := Eval vm_compute in forked k_a_runs.
Definition k_b_runs : dkern := Eval vm_compute in waited_any k_b.
Definition k_z : dkern := Eval vm_compute in forked k_b_runs.
Definition k_z_runs : dkern := Eval vm_compute in waited_any k_z.
Definition k_z_dead : dkern := Eval vm_compute in out_state (do_exit no_intr 0 3 k_z_runs).

Lemma k_a_ok : demo_ok k_a.
Proof. fork_run k_init_ok. Qed.
Lemma k_a_runs_ok : demo_ok k_a_runs.
Proof. eapply (wait_step k_a (-1)); [exact k_a_ok|vm_compute; reflexivity]. Qed.
Lemma k_b_ok : demo_ok k_b.
Proof. fork_run k_a_runs_ok. Qed.
Lemma k_b_runs_ok : demo_ok k_b_runs.
Proof. eapply (wait_step k_b (-1)); [exact k_b_ok|vm_compute; reflexivity]. Qed.
Lemma k_z_ok : demo_ok k_z.
Proof. fork_run k_b_runs_ok. Qed.
Lemma k_z_runs_ok : demo_ok k_z_runs.
Proof. eapply (wait_step k_z (-1)); [exact k_z_ok|vm_compute; reflexivity]. Qed.
Lemma k_z_dead_ok : demo_ok k_z_dead.
Proof. eapply (exit_step k_z_runs _ 3); [exact k_z_runs_ok|vm_compute; reflexivity|discriminate|discriminate|discriminate|vm_compute; reflexivity]. Qed.
