(* ===== verification/ProcRun.v ===== *)
(** The theorems about processes at work on the kernel of [ProcDemo]. *)
From S2P Require Import Prelude.
From S2P Require Import Platform.
From S2P Require Import Sched.
From S2P Require Import SchedInv.
From S2P Require Import ProcSched.
From S2P Require Import MmIface.
From S2P Require Import Mm.
From S2P Require Import MmInv.
From S2P Require Import MmPut.
From S2P Require Import MmSafe.
From S2P Require Import Demo.
From S2P Require Import Vmmap.
From S2P Require Import Vfs.
From S2P Require Import VfsDemo.
From S2P Require Import Store.
From S2P Require Import StoreRun.
From S2P Require Import ForkVm.
From S2P Require Import ForkCow.
From S2P Require Import Proc.
From S2P Require Import ProcInv.
From S2P Require Import ProcIds.
From S2P Require Import ProcCreate.
From S2P Require Import ProcThread.
From S2P Require Import ProcFork.
From S2P Require Import ProcFam.
From S2P Require Import ProcExit.
From S2P Require Import ProcReap.
From S2P Require Import ProcWait.
From S2P Require Import ProcLife.
From S2P Require Import ProcSteps.
From S2P Require Import Boot.
From S2P Require Import BootThms.
From S2P Require Import ProcDemo.
Open Scope Z_scope.

(** What a run returned. *)
Definition result {S A} (o : outcome S A) : option A := match o with Ok a _ => Some a | Halt _ _ => None end.
Ltac result_in E := apply (f_equal result) in E; vm_compute in E.


Lemma proc_getid_fresh_witness : proc_getid k_init = Ok 2 (set_next_pid 3 k_init) /\ next_free k_init 2.
Proof.
  destruct (proc_getid_fresh k_init (kern_all_procs _ _ _ _ _ k_init_ok) (ko_next _ _ _ _ _ k_init_ok)) as [(pid & E & H)|[E _]].
  - assert (pid = 2) as -> by (clear -E; result_in E; congruence). exact (conj E H).
  - result_in E. discriminate E.
Defined.

Lemma proc_lookup_finds_witness : proc_lookup 1 k_init = Ok 6 k_init /\ pid_used k_init 1.
Proof.
  destruct (proc_lookup_finds 1 k_init (kern_all_procs _ _ _ _ _ k_init_ok) (fo_null _ _ _ (ko_fam _ _ _ _ _ k_init_ok))) as (p & E & H1 & H2).
  assert (p = 6) as -> by (clear -E; result_in E; congruence). split; [exact E|]. destruct H1 as (H & x & Hx & Hp); [discriminate|]. exists 6, x. exact (conj H (conj Hx Hp)).
Defined.

Definition sh_name : list Z := [115; 104].
Lemma proc_create_adds_witness : exists p k', proc_create sh_name k_init = Ok p k' /\ created sh_name k_init p k' /\ demo_ok k'.
Proof.
  destruct (proc_create_adds [] ∅ {[+ 1 +]} ∅ k_init sh_name k_init_ok ltac:(discriminate) (demo_name 2 eq_refl)) as [H|[H|H]]; [exact H|..]; exfalso; revert H.
  - apply (free_pid _ k_init_ok). vm_compute. reflexivity.
  - enough_memory.
Defined.

Lemma do_fork_makes_child_witness : exists x p t k', do_fork regs0 k_init = Ok (2, <[7%nat := 0]> regs0) k' /\ forks regs0 k_init x 2 p t k' /\ demo_ok k'.
Proof.
  assert (is_Some (procs k_init !! curproc (ks k_init))) as [x Hx] by (vm_compute; eauto).
  assert (p_cwd x <> NULL) as Hc by (vm_compute in Hx; injection Hx as <-; discriminate).
  destruct (do_fork_makes_child [] ∅ {[+ 1 +]} ∅ k_init x regs0 k_init_ok ltac:(discriminate) Hx Hc ltac:(discriminate) (demo_name 7 eq_refl))
    as [(pid & p & t & k' & E & H & Hk)|[H|H]].
  - assert (pid = 2) as -> by (clear -E; result_in E; congruence). exists x, p, t, k'. exact (conj E (conj H Hk)).
  - exfalso. revert H. apply (free_pid _ k_init_ok). vm_compute. reflexivity.
  - exfalso. revert H. enough_memory_fork.
Defined.

(** Process A is there and runs. *)
Lemma a_runs : exists x, procs k_a_runs !! curproc (ks k_a_runs) = Some x /\ p_pid x = 2 /\ p_children x = [] /\ p_pproc x = 6.
Proof. eexists. split; [vm_compute; reflexivity|]. split_and!; reflexivity. Qed.

Lemma do_exit_cleans_witness : exists x k1, do_exit no_intr 0 9 k_a_runs = on_sched (sched_switch no_intr 0) k1 /\ exits 9 k_a_runs x k1.
Proof.
  destruct a_runs as (x & Hx & Hp & _). assert (p_pid x <> PID_IDLE) as H0 by (rewrite Hp; discriminate). assert (p_pid x <> PID_INIT) as H1 by (rewrite Hp; discriminate).
  destruct (do_exit_cleans no_intr 0 no_intr_pres no_intr_keeps [] ∅ {[+ 1 +]} ∅ k_a_runs 9 x k_a_runs_ok Hx H0 H1 ltac:(discriminate)) as (k1 & E & He & _).
  exists x, k1. exact (conj E He).
Defined.

Lemma do_waitpid_any_witness : exists k', do_waitpid no_intr 0 (-1) 0 k_z_dead = Ok (WaitReturned 4 (Some 3)) k' /\ demo_ok k'.
Proof.
  assert (exists y, procs k_z_dead !! curproc (ks k_z_dead) = Some y /\ p_children y = [23]) as (y & Hy & Hc) by (eexists; split; [vm_compute; reflexivity|split_and?; reflexivity]).
  pose proof (do_waitpid_any no_intr 0 [] ∅ {[+ 1 +]} ∅ k_z_dead y k_z_dead_ok Hy) as H. rewrite Hc in H. destruct H as ([c|] & _ & H).
  - destruct H as (x & r & k' & _ & E & _ & Hk). exists k'. split; [|exact Hk]. rewrite E. f_equal. clear -E. result_in E. congruence.
  - unfold waits in H. result_in H. discriminate H.
Defined.

Lemma do_waitpid_pid_witness : exists k', do_waitpid no_intr 0 4 0 k_z_dead = Ok (WaitReturned 4 (Some 3)) k' /\ demo_ok k'.
Proof.
  assert (exists y, procs k_z_dead !! curproc (ks k_z_dead) = Some y) as (y & Hy) by (eexists; vm_compute; reflexivity).
  destruct (do_waitpid_pid no_intr 0 [] ∅ {[+ 1 +]} ∅ k_z_dead y 4 k_z_dead_ok Hy eq_refl) as [(c & x & _ & _ & _ & H)|[_ H]].
  - destruct (p_state x).
    + unfold waits in H. result_in H. discriminate H.
    + destruct H as (r & k' & E & _ & Hk). exists k'. split; [|exact Hk]. rewrite E. f_equal. clear -E. result_in E. congruence.
  - result_in H. discriminate H.
Defined.

Lemma do_waitpid_bad_args_witness : do_waitpid no_intr 0 0 0 k_init = Ok (WaitReturned (- EINVAL) None) k_init.
Proof. apply (do_waitpid_bad_args no_intr 0 0 0 k_init). right. split; [reflexivity|discriminate]. Defined.


(** B exits while its child Z is dead: init adopts Z and sleeps on. *)
Lemma orphan_zombie_unnoticed_witness : exists k1 y, do_exit no_intr 0 0 k_z_dead = on_sched (sched_switch no_intr 0) k1 /\
  procs k1 !! 6 = Some y /\ 23 ∈ p_children y.
Proof.
  assert (exists x, procs k_z_dead !! curproc (ks k_z_dead) = Some x /\ p_pid x = 3 /\ p_children x = [23] /\ p_pproc x = 11) as (x & Hx & Hp & Hc & Hpp) by (eexists; split; [vm_compute; reflexivity|split_and?; reflexivity]).
  assert (p_pid x <> PID_IDLE) as H0 by (rewrite Hp; discriminate). assert (p_pid x <> PID_INIT) as H1 by (rewrite Hp; discriminate).
  assert (exists xz, procs k_z_dead !! 23 = Some xz /\ p_state xz = PROC_DEAD) as (xz & Hz & Hzd) by (eexists; split; [vm_compute; reflexivity|split_and?; reflexivity]).
  assert (exists kt, threads (ks k_z_dead) !! 9 = Some kt /\ kt_wchan kt = Some (waitq 6)) as (kt & Ht & Hw) by (eexists; split; [vm_compute; reflexivity|split_and?; reflexivity]).
  destruct (orphan_zombie_unnoticed no_intr 0 [] ∅ {[+ 1 +]} ∅ k_z_dead 0 x 23 xz 9 kt k_z_dead_ok Hx H0 H1 ltac:(discriminate) ltac:(rewrite Hc; by left) Hz Hzd Ht Hw ltac:(rewrite Hpp; discriminate))
    as (k1 & y & E & H2 & H3 & _). exists k1, y. exact (conj E (conj H2 H3)).
Defined.
