(* ===== verification/KernRun.v ===== *)
(** A run of the kernel of [ProcDemo] with all of its parts: init opens a file, maps
    memory, locks a mutex, forks and waits for the child, which exits. *)
From S2P Require Import Prelude.
From S2P Require Import Platform.
From S2P Require Import Sched.
From S2P Require Import SchedInv.
From S2P Require Import ProcSched.
From S2P Require Import MmIface.
From S2P Require Import Mm.
From S2P Require Import MmInv.
From S2P Require Import MmPut.
From S2P Require Import MmSafe.
From S2P Require Import MmLookup.
From S2P Require Import MmCow.
From S2P Require Import Demo.
From S2P Require Import Vmmap.
From S2P Require Import Areas.
From S2P Require Import UserMem.
From S2P Require Import UserThms.
From S2P Require Import FaultThms.
From S2P Require Import UserRun.
From S2P Require Import ForkVm.
From S2P Require Import ForkCow.
From S2P Require Import Vfs.
From S2P Require Import VfsThms.
From S2P Require Import VfsDemo.
From S2P Require Import VfsRun.
From S2P Require Import Store.
From S2P Require Import FileRefs.
From S2P Require Import StoreRun.
From S2P Require Import Proc.
From S2P Require Import ProcInv.
From S2P Require Import ProcIds.
From S2P Require Import ProcCreate.
From S2P Require Import ProcFork.
From S2P Require Import ProcSteps.
From S2P Require Import KernSched.
From S2P Require Import ProcKill.
From S2P Require Import KernUser.
From S2P Require Import KernFiles.
From S2P Require Import KernSteps.
From S2P Require Import ProcDemo.
Open Scope Z_scope.

Notation dconf := (pconf (MM := mm machine) (FS := demo_fs)).
Notation dstep := (kstep no_intr 0 [] ∅).

(** ["/bin/ls"] is opened as descriptor 0, and three pages are mapped. *)
Definition open_ls : M (vfs entries) Z := do_open [] bin_ls O_RDONLY.
Definition map_pages : M (user (mm machine)) (Z * option Z) := do_mmap 8200192 10000 3 (Z.lor MAP_PRIVATE MAP_ANON) (-1) 0.
Definition k_open : dkern := Eval vm_compute in out_state (on_files open_ls k_init).
Definition k_mapped : dkern := Eval vm_compute in out_state (on_user map_pages k_open).
Definition k_locked : dkern := Eval vm_compute in set_ks (out_state (kmutex_lock no_intr 0 77 (ks k_mapped))) k_mapped.
Definition k_child : dkern := Eval vm_compute in out_state (do_fork regs0 k_locked).
Definition k_child_runs : dkern := Eval vm_compute in out_state (do_waitpid no_intr 0 2 0 k_child).
Definition k_back : dkern := Eval vm_compute in out_state (do_exit no_intr 0 9 k_child_runs).

Lemma opened : file_step k_init k_open.
Proof.
  eexists _, Z, open_ls, 0. split_and!; [vm_compute; reflexivity|reflexivity|apply fc_open; left; discriminate|vm_compute; reflexivity].
Qed.
Lemma mapped : mem_step [] ∅ k_open k_mapped.
Proof.
  eexists _, (Z * option Z)%type, map_pages, (0, Some 8200192). split_and!; [vm_compute; reflexivity|reflexivity| |vm_compute; reflexivity].
  eapply mc_mmap; [by apply mmap_demo|vm_compute; reflexivity|right]. split_and!; cbn; (lia || reflexivity).
Qed.

(** The states init goes through. *)
Lemma to_locked : rtc dstep (PConf k_init ∅) (PConf k_locked ∅).
Proof.
  apply (rtc_l _ _ (PConf k_open ∅)); [by apply ks_file, opened|]. apply (rtc_l _ _ (PConf k_mapped ∅)); [by apply ks_mem, mapped|]. apply rtc_once.
  change k_locked with (set_ks (ks k_locked) k_mapped). apply ks_sched; [reflexivity|]. apply (ss_lock _ _ _ _ _ 77 (Returned 0)). vm_compute. reflexivity.
Qed.
Lemma locked_ok : demo_ok k_locked.
Proof. exact (lo_kern _ _ _ _ _ (ksteps_ok no_intr 0 no_intr_pres no_intr_keeps [] ∅ {[+ 1 +]} ∅ _ _ to_locked (life_start _ _ _ _ _ k_init_ok ltac:(discriminate)))). Qed.
Lemma locked_pid : exists pid, next_free k_locked pid.
Proof.
  destruct (getid_ok k_locked (kern_all_procs _ _ _ _ _ locked_ok) (ko_next _ _ _ _ _ locked_ok)) as [(pid & _ & H)|[E _]]; [by exists pid|]. vm_compute in E. discriminate E.
Qed.
Lemma to_child : rtc dstep (PConf k_init ∅) (PConf k_child ∅).
Proof.
  eapply rtc_r; [exact to_locked|]. apply ks_proc.
  assert (exists x, cur_of k_locked = Some x /\ p_cwd x <> NULL) as (x & Hx & Hc) by (eexists; split; [vm_compute; reflexivity|discriminate]).
  eapply (st_fork _ _ regs0 x); [reflexivity|exact Hx|exact Hc|discriminate|reflexivity|enough_memory_fork|exact locked_pid|vm_compute; reflexivity].
Qed.
Definition back : dconf := PConf k_back {[9 := (14, 2)]}.
Lemma to_back : rtc dstep (PConf k_init ∅) back.
Proof.
  eapply rtc_r; [eapply rtc_r; [exact to_child|]|].
  - assert (exists y, cur_of k_child = Some y /\ p_children y = [14]) as (y & Hy & Hc) by (eexists; split; [vm_compute; reflexivity|reflexivity]).
    assert (exists z, procs k_child !! 14 = Some z /\ p_pid z = 2) as (z & Hz & Hzp) by (eexists; split; [vm_compute; reflexivity|reflexivity]).
    eapply ks_proc, (st_wait_pid _ _ 14 z y 2); [reflexivity|exact Hy|rewrite Hc; by left|exact Hz|exact Hzp|vm_compute; reflexivity].
  - assert (exists x, cur_of k_child_runs = Some x /\ p_pid x = 2) as (x & Hx & Hp) by (eexists; split; [vm_compute; reflexivity|reflexivity]).
    eapply ks_proc, (st_exit _ _ 9 x); [vm_compute; reflexivity|exact Hx|rewrite Hp; discriminate|rewrite Hp; discriminate|vm_compute; reflexivity].
Qed.


(** Init runs again, with its pointer to the child that has exited. *)
Lemma waitpid_pointer_safe_witness : exists x, procs k_back !! 14 = Some x /\ p_pid x = 2.
Proof.
  destruct (waitpid_pointer_safe no_intr 0 no_intr_pres no_intr_keeps [] ∅ {[+ 1 +]} ∅ k_init back 14 2 k_init_ok ltac:(discriminate) to_back) as (y & x & _ & _ & Hx & Hp).
  - vm_compute. reflexivity.
  - exists x. exact (conj Hx Hp).
Defined.



(** Process 4 halts the system: process 3 sleeps in waitpid and is told. *)
Lemma z_can_kill : can_kill k_z_runs (proc_list k_z_runs).
Proof.
  intros p x Hin Hv. assert (p = 17) as ->.
  { change (proc_list k_z_runs) with [23; 17; 11; 6; 1] in Hin. destruct Hv as (Hx & H0 & H1 & H2 & Hc).
    rewrite !elem_of_cons in Hin. destruct Hin as [->|[->|[->|[->|[->|[]%elem_of_nil]]]]]; vm_compute in Hx; injection Hx as <-; cbn in *; congruence. }
  destruct Hv as [Hx _]. vm_compute in Hx. injection Hx as <-. do 2 eexists. split_and!; [reflexivity|vm_compute; reflexivity|discriminate].
Qed.
Lemma proc_kill_all_tells_witness : exists s' kt', proc_kill_all no_intr 0 k_z_runs = Ok (Returned 0) (set_ks s' k_z_runs) /\
  demo_ok (set_ks s' k_z_runs) /\ threads s' !! 21 = Some kt' /\ kt_cancelled kt' = 1 /\ threads s' !! 15 = threads (ks k_z_runs) !! 15.
Proof.
  destruct (proc_kill_all_tells no_intr 0 [] ∅ {[+ 1 +]} ∅ k_z_runs k_z_runs_ok z_can_kill) as (s' & E & Hk & _ & H1 & H2).
  assert (exists x kt, victim k_z_runs 17 x /\ p_threads x = [21] /\ threads (ks k_z_runs) !! 21 = Some kt) as (x & kt & Hv & Hp & Ht).
  { do 2 eexists. split_and!; [split_and!; [vm_compute; reflexivity|discriminate..]|reflexivity|vm_compute; reflexivity]. }
  destruct (H1 17 x 21 kt Hv Hp Ht) as (kt' & Hkt' & Hc & _). exists s', kt'. split_and!; [exact E|exact Hk|exact Hkt'|exact Hc|].
  apply H2. intros p y (Hy & H0 & H3 & H4 & Hc') Hin.
  destruct (to_proc _ _ _ (ko_thr _ _ _ _ _ k_z_runs_ok) _ _ Hy) as [[Et _]|(t & kt0 & Et & Ht0 & Hp0)]; rewrite Et in Hin; [by apply elem_of_nil in Hin|].
  apply list_elem_of_singleton in Hin as <-. vm_compute in Ht0. injection Ht0 as <-. cbn in Hp0. subst p. vm_compute in Hy. injection Hy as <-. by apply H4.
Defined.
