(* ===== verification/InfoRun.v ===== *)
(** The printing functions at work on the kernel of [ProcDemo]: the contract of
    [iprintf] can be met, and the list of processes after the start. *)
From Stdlib Require Import String.
From S2P Require Import Prelude.
From S2P Require Import Platform.
From S2P Require Import Sched.
From S2P Require Import SchedInv.
From S2P Require Import ProcSched.
From S2P Require Import MmIface.
From S2P Require Import Mm.
From S2P Require Import Demo.
From S2P Require Import Vmmap.
From S2P Require Import VmmapRun.
From S2P Require Import Proc.
From S2P Require Import ProcInv.
From S2P Require Import ProcDemo.
From S2P Require Import Info.
From S2P Require Import InfoThms.
Open Scope Z_scope.

(** An [iprintf] on top of [snprintf]: the position stops at the NUL. *)
Definition demo_iprintf (t : text) : M out unit := fun o =>
  match snprintf (o_buf o) (o_size o) t (o_mem o) with
  | Ok n m => let n := Z.min n (o_size o - 1) in Ok tt (Out (o_buf o + n) (o_size o - n) m)
  | Halt h m => Halt h (Out (o_buf o) (o_size o) m)
  end.
#[export] Instance demo_info : InfoOps := {|
  iprintf := demo_iprintf; fmt_p := fmt_u 1 16; state_num st := match st with PROC_RUNNING => 1 | PROC_DEAD => 2 end |}.
#[export] Instance demo_info_laws : InfoLaws.
Proof.
  split. intros t o Ht. pose proof (len_nonneg t). destruct (snprintf_ok (o_buf o) (o_size o) t (o_mem o)) as (m' & E & S & W); [lia|].
  exists m'. cbn. unfold demo_iprintf. rewrite E. cbn. rewrite Z.min_l by lia. split_and!; [done|done|].
  unfold cut in W. rewrite take_ge in W; [done|]. unfold len in *. lia.
Qed.

(** A buffer as text, up to its NUL. *)
Definition read_text (n : nat) (buf : Z) (m : bytes) : text :=
  c_str (omap (fun i => m !! (buf + Z.of_nat i)) (seq 0 n)).

Example process_list : match proc_list_info k_init NULL 1000 200 (Out 0 0 ∅) with
  | Ok n o => (n, read_text 200 1000 (o_mem o))
  | Halt _ _ => (-1, [])
  end = (113, txt "  PID NAME          PARENT" ++ nl ++ txt "   1  init            0 (idle_proc)" ++ nl ++ txt "   0  idle_proc       -" ++ nl).
Proof. vm_compute. reflexivity. Qed.

(** An address space with two areas needs two lines before the last; a buffer of 100
    bytes at 1000 is too small for them, and the byte at 1230 is overwritten. *)
Example two_areas_overflow : but_last mapping_head areas3 = 131 /\
  match vmmap_mapping_info (vm_maps vm3) 1 1000 100 ∅ with Ok n m => (n, m !! 1230) | Halt _ _ => (-1, None) end = (0, Some 0).
Proof. vm_compute. split; reflexivity. Qed.

(** In a buffer of 200 bytes the lines fit. *)
Lemma mapping_info_bounds_witness :
  (exists m', vmmap_mapping_info (vm_maps vm3) 1 1000 200 ∅ = Ok 131 m' /\ same_but 1000 1200 ∅ m') /\
  (exists a m', vmmap_mapping_info (vm_maps vm3) 1 1000 100 ∅ = Ok 0 m' /\ 1199 <= a /\ m' !! a = Some 0).
Proof.
  split.
  - destruct (mapping_info_bounds (vm_maps vm3) 1 1000 200 ∅ (Vmmap areas3 0)) as (n & m' & E & H); [lia|discriminate|discriminate|vm_compute; reflexivity|].
    change (but_last _ _) with 131 in H. destruct H as (-> & Hs & _). exists m'. split; [exact E|exact Hs].
  - destruct (mapping_info_bounds (vm_maps vm3) 1 1000 100 ∅ (Vmmap areas3 0)) as (n & m' & E & H); [lia|discriminate|discriminate|vm_compute; reflexivity|].
    change (but_last _ _) with 131 in H. destruct H as (-> & a & Ha & Hm). exists a, m'. split; [exact E|split; [exact Ha|exact Hm]].
Defined.
Lemma proc_list_info_text_witness : exists m', proc_list_info k_init NULL 1000 200 (Out 0 0 ∅) = Ok 113 (Out 1087 113 m') /\ same_but 1000 1200 ∅ m'.
Proof.
  destruct (proc_list_info_text k_init 1000 200 (Out 0 0 ∅) (ko_fam _ _ _ _ _ k_init_ok)) as (m' & E & Hs & _); [discriminate|vm_compute; reflexivity|].
  exists m'. split; [exact E|exact Hs].
Defined.
