(* ===== verification/Syscall.v ===== *)
(** System calls: [api/syscall.c].

    The file turns the results of the other components into the interface of user
    programs: it copies arguments in and results out, and reports errors in
    [kt_errno].  It is modelled against the interface [SysOps] of what it calls, for
    any state [K] of the kernel; the numbers of the system calls and the layout of their
    arguments are in headers outside the repository ([SysLayout]).  Support for mounting
    is not compiled in (Config.mk). *)
From S2P Require Import Prelude.
From S2P Require Import Platform.
Open Scope Z_scope.

(** ** Arguments *)

Record argstr := ArgStr { as_str : Z; as_len : Z }.
Record argvec := ArgVec { av_vec : Z; av_len : Z }.
Record read_args := ReadArgs { ra_fd : Z; ra_buf : Z; ra_nbytes : Z }.
Record getdents_args := GetdentsArgs { ga_fd : Z; ga_dirp : Z; ga_count : Z }.
Record dup2_args := Dup2Args { ofd : Z; nfd : Z }.
Record link_args := LinkArgs { la_to : argstr; la_from : argstr }.
Record rename_args := RenameArgs { oldname : argstr; newname : argstr }.
Record lseek_args := LseekArgs { sk_fd : Z; sk_offset : Z; sk_whence : Z }.
Record open_args := OpenArgs { filename : argstr; oa_flags : Z }.
Record munmap_args := MunmapArgs { ma_addr : Z; ma_len : Z }.
Record mmap_args := MmapArgs { mma_addr : Z; mma_len : Z; mma_prot : Z; mma_flags : Z; mma_fd : Z; mma_off : Z }.
Record waitpid_args := WaitpidArgs { wpa_pid : Z; wpa_options : Z; wpa_status : Z }.
Record stat_args := StatArgs { st_path : argstr; st_buf : Z }.
Record execve_args := ExecveArgs { ex_filename : argstr; ex_argv : argvec; ex_envp : argvec }.
(** Where the fields of a struct utsname are. *)
Record utsname := Utsname { u_sysname : Z; u_release : Z; u_version : Z; u_nodename : Z; u_machine : Z }.

Inductive sysno :=
| SYS_waitpid | SYS_exit | SYS_thr_exit | SYS_thr_yield | SYS_fork | SYS_getpid | SYS_sync | SYS_mmap | SYS_munmap | SYS_open
| SYS_close | SYS_read | SYS_write | SYS_dup | SYS_dup2 | SYS_mkdir | SYS_rmdir | SYS_unlink | SYS_link | SYS_rename | SYS_chdir
| SYS_getdents | SYS_brk | SYS_lseek | SYS_halt | SYS_set_errno | SYS_errno | SYS_execve | SYS_stat | SYS_pipe | SYS_uname
| SYS_debug | SYS_kshell.
#[global] Instance sysno_eq_dec : EqDecision sysno.
Proof. solve_decision. Defined.

(** The size of a struct and its fields from its bytes. *)
Record layout (A : Type) := Layout { size_of : Z; decode : list Z -> A }.
Arguments Layout {A}.
Arguments size_of {A}.
Arguments decode {A}.

Class SysLayout := {
  sysno_of : Z -> option sysno;
  L_argstr : layout argstr;
  L_read : layout read_args;
  L_getdents : layout getdents_args;
  L_dup2 : layout dup2_args;
  L_mkdir : layout argstr;      (* mkdir_args_t, of which only the path is used *)
  L_link : layout link_args;
  L_rename : layout rename_args;
  L_lseek : layout lseek_args;
  L_open : layout open_args;
  L_munmap : layout munmap_args;
  L_mmap : layout mmap_args;
  L_waitpid : layout waitpid_args;
  L_stat : layout stat_args;
  L_execve : layout execve_args;
  uts_fields : Z -> utsname;
  sizeof_dirent : Z; sizeof_stat : Z;
  int_bytes : Z -> list Z;      (* an int in memory *)
  MAP_FAILED : Z;
  build_version : list Z        (* "#1 " __DATE__ " " __TIME__ *)
}.

(** What the file calls.  Results are those of the functions; an output buffer is a
    second component.  [read_args_at] is [arg->...], read by the kernel in user memory. *)
Class SysOps (K : Type) := {
  (* curthr, curproc *)
  kt_errno : K -> Z;
  set_kt_errno : Z -> K -> K;
  kt_cancelled : K -> Z;
  kt_retval : K -> Z;
  cur_pid : K -> Z;
  (* api/access.h, kmalloc.h, page.h *)
  copy_from_user : Z -> Z -> M K (Z * list Z);
  copy_to_user : Z -> list Z -> Z -> M K Z;
  read_args_at : Z -> M K read_args;
  kmalloc : Z -> M K Z;
  kfree : Z -> M K unit;
  kstore : Z -> list Z -> K -> K;       (* bytes into a block of kernel memory *)
  words : Z -> K -> list Z;             (* a block as an array of pointers *)
  set_word : Z -> nat -> Z -> K -> K;
  page_alloc : M K Z;
  page_free : Z -> M K unit;
  (* fs *)
  do_read : Z -> Z -> Z -> M K (Z * list Z);     (* fd, buffer, size; the bytes of the buffer *)
  do_write : Z -> Z -> list Z -> Z -> M K Z;
  do_getdent : Z -> M K (Z * list Z);
  do_close : Z -> M K Z;
  do_dup : Z -> M K Z;
  do_dup2 : Z -> Z -> M K Z;
  do_mkdir : Z -> M K Z;
  do_rmdir : Z -> M K Z;
  do_unlink : Z -> M K Z;
  do_link : Z -> Z -> M K Z;
  do_rename : Z -> Z -> M K Z;
  do_chdir : Z -> M K Z;
  do_lseek : Z -> Z -> Z -> M K Z;
  do_open : Z -> Z -> M K Z;
  do_stat : Z -> M K (Z * list Z);
  do_pipe : M K (Z * list Z);
  (* vm *)
  do_munmap : Z -> Z -> M K Z;
  do_mmap : Z -> Z -> Z -> Z -> Z -> Z -> M K (Z * Z);
  do_brk : Z -> M K (Z * Z);
  (* proc *)
  do_waitpid : Z -> Z -> M K (Z * Z);
  do_fork : M K Z;
  do_exit : Z -> M K unit;
  kthread_exit : Z -> M K unit;
  thr_yield : M K unit;
  do_execve : Z -> Z -> Z -> M K Z;
  pframe_clean_all : M K unit;
  proc_kill_all : M K unit;
  (* kshell *)
  kshell_create : Z -> M K Z;
  kshell_execute_next : Z -> M K Z;
  kshell_destroy : Z -> M K unit;
  (* dbg *)
  dbg_user : Z -> M K unit
}.

Section Syscall.
Context `{P : Platform} {L : SysLayout} {K : Type} `{!SysOps K}.

(** [curthr->kt_errno = e; return -1;] *)
Definition fail (e : Z) : M K Z := modify (set_kt_errno e);; mret (-1).
(** The end of most system calls: a negative result is an error. *)
Definition finish (err : Z) : M K Z := if err <? 0 then fail (- err) else mret err.

(** [copy_from_user(&kern_args, arg, sizeof(kern_args))] *)
Definition get_args {A} (l : layout A) (arg : Z) : M K (Z * A) :=
  r ← copy_from_user arg (size_of l); mret (r.1, decode l r.2).

(** ** Strings and vectors of strings from user memory ([api/access.c]) *)

Definition user_strdup (ustr : argstr) : M K Z :=
  kstr ← kmalloc (as_len ustr +u 1);
  if kstr =? NULL then modify (set_kt_errno ENOMEM);; mret NULL
  else
    r ← copy_from_user (as_str ustr) (as_len ustr +u 1);
    modify (kstore kstr r.2);;
    if r.1 <? 0 then modify (set_kt_errno (- r.1));; kfree kstr;; mret NULL
    else mret kstr.

(** [for (i = 0; v[i] != NULL; i++) kfree(v[i]);] from [i] on *)
Fixpoint free_until_null (fuel : nat) (v : Z) (i : nat) : M K unit :=
  match fuel with
  | O => stop BadIndex
  | S fuel =>
      ws ← gets (words v);
      match ws !! i with
      | None => stop BadIndex
      | Some p => if p =? NULL then mret tt else kfree p;; free_until_null fuel v (S i)
      end
  end.
(** The array ends before the fuel does. *)
Definition free_strings (v : Z) : M K unit := ws ← gets (words v); free_until_null (S (length ws)) v 0.

(** The label fail of user_vecdup. *)
Definition vecdup_fail (temp_kvec kvec ret : Z) : M K Z :=
  when (c_true kvec) (free_strings kvec;; kfree kvec);;
  kfree temp_kvec;;
  modify (set_kt_errno (- ret));;
  mret NULL.

(** [temp_kvec[i]], in the bytes copied from the user. *)
Definition argstr_at (bytes : list Z) (i : nat) : option argstr :=
  let n := Z.to_nat (size_of L_argstr) in
  let b := take n (drop (i * n) bytes) in if decide (length b = n) then Some (decode L_argstr b) else None.
Definition put_word (v : Z) (i : nat) (p : Z) : M K unit :=
  ws ← gets (words v); if decide (i < length ws)%nat then modify (set_word v i p) else stop BadIndex.

(** The loop over the strings: whether all of them, [n] from [i] on, were copied. *)
Fixpoint dup_strings (n : nat) (kvec : Z) (bytes : list Z) (i : nat) : M K bool :=
  match n with
  | O => mret true
  | S n =>
      match argstr_at bytes i with
      | None => stop BadIndex
      | Some ustr => p ← user_strdup ustr; put_word kvec i p;; if p =? NULL then mret false else dup_strings n kvec bytes (S i)
      end
  end.

Definition user_vecdup (uvec : argvec) : M K Z :=
  temp_kvec ← kmalloc (u32 ((av_len uvec +u 1) * size_of L_argstr));
  if temp_kvec =? NULL then vecdup_fail NULL NULL (- ENOMEM)
  else
    kvec ← kmalloc (u32 ((av_len uvec +u 1) * 4));
    if kvec =? NULL then vecdup_fail temp_kvec NULL (- ENOMEM)
    else
      r ← copy_from_user (av_vec uvec) (u32 ((av_len uvec +u 1) * size_of L_argstr));
      modify (kstore temp_kvec r.2);;
      if r.1 <? 0 then vecdup_fail temp_kvec kvec r.1
      else
        done ← dup_strings (Z.to_nat (av_len uvec)) kvec r.2 0;
        if (done : bool) then put_word kvec (Z.to_nat (av_len uvec)) NULL;; kfree temp_kvec;; mret kvec
        else k ← get; vecdup_fail temp_kvec kvec (- kt_errno k).

(** ** The system calls *)

Definition sys_read (arg : Z) : M K Z :=
  a ← get_args L_read arg;
  let kern_args := a.2 in
  temp_buf ← page_alloc;
  r ← do_read (ra_fd kern_args) temp_buf (ra_nbytes kern_args);
  if r.1 <? 0 then modify (set_kt_errno (- r.1));; page_free temp_buf;; mret (-1)
  else
    u ← read_args_at arg;
    copy_to_user (ra_buf u) r.2 r.1;;
    page_free temp_buf;;
    mret r.1.

Definition sys_write (arg : Z) : M K Z :=
  a ← get_args L_read arg;
  let kern_args := a.2 in
  temp_buf ← page_alloc;
  u ← read_args_at arg;
  d ← copy_from_user (ra_buf kern_args) (ra_nbytes u);
  r ← do_write (ra_fd kern_args) temp_buf d.2 (ra_nbytes kern_args);
  if r <? 0 then modify (set_kt_errno (- r));; page_free temp_buf;; mret (-1)
  else page_free temp_buf;; mret r.

(** The loop, with [n] rounds left. *)
Fixpoint getdents_loop (n : nat) (fd dirp total : Z) : M K Z :=
  match n with
  | O => mret total
  | S n =>
      r ← do_getdent fd;
      if r.1 <? 0 then fail (- r.1)
      else if r.1 =? 0 then mret total
      else
        copy_to_user (dirp +u total) r.2 sizeof_dirent;;
        getdents_loop n fd dirp (s32 (total + r.1))
  end.
Definition sys_getdents (arg : Z) : M K Z :=
  a ← get_args L_getdents arg;
  getdents_loop (Z.to_nat (ga_count a.2 / sizeof_dirent)) (ga_fd a.2) (ga_dirp a.2) 0.

Definition sys_close (fd : Z) : M K Z := err ← do_close fd; finish err.
Definition sys_dup (fd : Z) : M K Z := err ← do_dup fd; finish err.
Definition sys_dup2 (arg : Z) : M K Z :=
  a ← get_args L_dup2 arg;
  if a.1 <? 0 then fail (- a.1) else err ← do_dup2 (ofd a.2) (nfd a.2); finish err.

(** Calls on a path: [path = user_strdup(..); err = f(path); kfree(path);] *)
Definition on_path (s : argstr) (f : Z -> M K Z) : M K Z :=
  path ← user_strdup s;
  if path =? NULL then fail EINVAL
  else err ← f path; kfree path;; finish err.

Definition sys_mkdir (arg : Z) : M K Z :=
  a ← get_args L_mkdir arg; if a.1 <? 0 then fail (- a.1) else on_path a.2 do_mkdir.
Definition sys_rmdir (arg : Z) : M K Z :=
  a ← get_args L_argstr arg; if a.1 <? 0 then fail (- a.1) else on_path a.2 do_rmdir.
Definition sys_unlink (arg : Z) : M K Z :=
  a ← get_args L_argstr arg; if a.1 <? 0 then fail (- a.1) else on_path a.2 do_unlink.
Definition sys_chdir (arg : Z) : M K Z :=
  a ← get_args L_argstr arg; if a.1 <? 0 then fail (- a.1) else on_path a.2 do_chdir.
Definition sys_open (arg : Z) : M K Z :=
  a ← get_args L_open arg;
  if a.1 <? 0 then fail (- a.1) else on_path (filename a.2) (fun path => do_open path (oa_flags a.2)).

Definition sys_link (arg : Z) : M K Z :=
  a ← get_args L_link arg;
  if a.1 <? 0 then fail (- a.1)
  else
    to ← user_strdup (la_to a.2);
    if to =? NULL then fail EINVAL
    else
      from ← user_strdup (la_from a.2);
      if from =? NULL then modify (set_kt_errno EINVAL);; kfree to;; mret (-1)
      else err ← do_link from to; kfree to;; kfree from;; finish err.

Definition sys_rename (arg : Z) : M K Z :=
  a ← get_args L_rename arg;
  if a.1 <? 0 then fail (- a.1)
  else
    old ← user_strdup (oldname a.2);
    if old =? NULL then fail EINVAL
    else
      new ← user_strdup (newname a.2);
      if new =? NULL then modify (set_kt_errno EINVAL);; kfree old;; mret (-1)
      else err ← do_rename old new; kfree new;; kfree old;; finish err.

Definition sys_lseek (arg : Z) : M K Z :=
  a ← get_args L_lseek arg;
  if a.1 <? 0 then fail (- a.1) else err ← do_lseek (sk_fd a.2) (sk_offset a.2) (sk_whence a.2); finish err.

Definition sys_munmap (arg : Z) : M K Z :=
  a ← get_args L_munmap arg;
  if negb (a.1 =? 0) then fail EFAULT
  else err ← do_munmap (ma_addr a.2) (ma_len a.2); if err <? 0 then fail (- err) else mret 0.

Definition sys_mmap (arg : Z) : M K Z :=
  a ← get_args L_mmap arg;
  if a.1 <? 0 then modify (set_kt_errno EFAULT);; mret MAP_FAILED
  else
    r ← do_mmap (mma_addr a.2) (mma_len a.2) (mma_prot a.2) (mma_flags a.2) (mma_fd a.2) (mma_off a.2);
    if r.1 <? 0 then modify (set_kt_errno (- r.1));; mret MAP_FAILED else mret r.2.

Definition sys_waitpid (arg : Z) : M K Z :=
  a ← get_args L_waitpid arg;
  if a.1 <? 0 then fail EFAULT
  else
    r ← do_waitpid (wpa_pid a.2) (wpa_options a.2);
    if r.1 <? 0 then fail (- r.1)
    else if negb (wpa_status a.2 =? NULL) then
      e ← copy_to_user (wpa_status a.2) (int_bytes r.2) 4;
      if e <? 0 then fail EFAULT else mret r.1
    else mret r.1.

Definition sys_brk (addr : Z) : M K Z :=
  r ← do_brk addr;
  if r.1 =? 0 then mret r.2 else modify (set_kt_errno (- r.1));; mret (-1).

Definition sys_sync : M K unit := pframe_clean_all.
Definition sys_halt : M K unit := proc_kill_all.

Definition sys_stat (arg : Z) : M K Z :=
  a ← get_args L_stat arg;
  if a.1 <? 0 then fail EFAULT
  else
    path ← user_strdup (st_path a.2);
    if path =? NULL then fail EINVAL
    else
      r ← do_stat path;
      ret ← (if r.1 =? 0 then copy_to_user (st_buf a.2) r.2 sizeof_stat else mret r.1);
      if negb (ret =? 0) then kfree path;; modify (set_kt_errno (- ret));; mret (-1)
      else kfree path;; mret 0.

Definition sys_pipe (arg : Z) : M K Z :=
  r ← do_pipe;
  ret ← (if r.1 =? 0 then copy_to_user arg r.2 8 else mret r.1);
  if negb (ret =? 0) then fail (- ret) else mret 0.

(** Copying out the strings one after the other, up to the first error. *)
Fixpoint copy_fields (l : list (Z * list Z)) : M K Z :=
  match l with
  | [] => mret 0
  | (a, s) :: l => ret ← copy_to_user a s (Z.of_nat (length s)); if negb (ret =? 0) then fail (- ret) else copy_fields l
  end.
Definition sys_uname (arg : Z) : M K Z :=
  let u := uts_fields arg in
  copy_fields
    [(u_sysname u, [87; 101; 101; 110; 105; 120; 0]);        (* "Weenix" *)
     (u_release u, [49; 46; 50; 0]);                         (* "1.2" *)
     (u_version u, build_version); (u_nodename u, [0]); (u_machine u, [0])].

Definition sys_fork : M K Z := ret ← do_fork; finish ret.

(** The strings of a vector and the vector. *)
Definition free_vector (v : Z) : M K unit := free_strings v;; kfree v.

(** The end of sys_execve. *)
Definition execve_cleanup (kern_filename kern_argv kern_envp : Z) : M K Z :=
  when (c_true kern_filename) (kfree kern_filename);;
  when (c_true kern_argv) (free_vector kern_argv);;
  when (c_true kern_envp) (free_vector kern_envp);;
  k ← get;
  if negb (kt_errno k =? 0) then mret (-1) else mret 0.

(** A vector the caller gave, or NULL; the result says whether copying it failed. *)
Definition opt_vec (a : argvec) : M K (Z * bool) :=
  if c_true (av_vec a) then v ← user_vecdup a; mret (v, v =? NULL) else mret (NULL, false).

Definition sys_execve (arg : Z) : M K Z :=
  a ← get_args L_execve arg;
  if a.1 <? 0 then modify (set_kt_errno (- a.1));; execve_cleanup NULL NULL NULL
  else
    kern_filename ← user_strdup (ex_filename a.2);
    if kern_filename =? NULL then execve_cleanup NULL NULL NULL
    else
      argv ← opt_vec (ex_argv a.2);
      if (argv.2 : bool) then execve_cleanup kern_filename NULL NULL
      else
        envp ← opt_vec (ex_envp a.2);
        if (envp.2 : bool) then execve_cleanup kern_filename argv.1 NULL
        else
          err ← do_execve kern_filename argv.1 envp.1;
          modify (set_kt_errno (- err));;
          execve_cleanup kern_filename argv.1 envp.1.

Definition sys_debug (arg : Z) : M K Z :=
  a ← get_args L_argstr arg;
  if a.1 <? 0 then fail (- a.1)
  else message ← user_strdup a.2; dbg_user message;; kfree message;; mret 0.

(** Commands are run until one ends the shell. *)
Fixpoint kshell_loop (fuel : nat) (ksh : Z) : M K Z :=
  match fuel with
  | O => stop OutOfFuel
  | S fuel => err ← kshell_execute_next ksh; if 0 <? err then kshell_loop fuel ksh else mret err
  end.
Definition sys_kshell (fuel : nat) (ttyid : Z) : M K Z :=
  ksh ← kshell_create ttyid;
  if ksh =? NULL then fail ENODEV
  else err ← kshell_loop fuel ksh; kshell_destroy ksh;; if err <? 0 then fail (- err) else mret 0.

(** [fuel] bounds the commands of a kernel shell. *)
Definition syscall_dispatch (fuel : nat) (sysnum args : Z) : M K Z :=
  match sysno_of sysnum with
  | Some SYS_waitpid => sys_waitpid args
  | Some SYS_exit => do_exit (s32 args);; stop KAssert
  | Some SYS_thr_exit => kthread_exit args;; stop KAssert
  | Some SYS_thr_yield => thr_yield;; mret 0
  | Some SYS_fork => sys_fork
  | Some SYS_getpid => gets cur_pid
  | Some SYS_sync => sys_sync;; mret 0
  | Some SYS_mmap => r ← sys_mmap args; mret (s32 r)
  | Some SYS_munmap => sys_munmap args
  | Some SYS_open => sys_open args
  | Some SYS_close => sys_close (s32 args)
  | Some SYS_read => sys_read args
  | Some SYS_write => sys_write args
  | Some SYS_dup => sys_dup (s32 args)
  | Some SYS_dup2 => sys_dup2 args
  | Some SYS_mkdir => sys_mkdir args
  | Some SYS_rmdir => sys_rmdir args
  | Some SYS_unlink => sys_unlink args
  | Some SYS_link => sys_link args
  | Some SYS_rename => sys_rename args
  | Some SYS_chdir => sys_chdir args
  | Some SYS_getdents => sys_getdents args
  | Some SYS_brk => r ← sys_brk args; mret (s32 r)
  | Some SYS_lseek => sys_lseek args
  | Some SYS_halt => sys_halt;; mret (-1)
  | Some SYS_set_errno => modify (set_kt_errno (s32 args));; mret 0
  | Some SYS_errno => gets kt_errno
  | Some SYS_execve => sys_execve args
  | Some SYS_stat => sys_stat args
  | Some SYS_pipe => sys_pipe args
  | Some SYS_uname => sys_uname args
  | Some SYS_debug => sys_debug args
  | Some SYS_kshell => sys_kshell fuel (s32 args)
  | None => fail ENOSYS
  end.

(** The registers [r_eax], [r_edx] on entry; the result is [r_eax] on return to user mode. *)
Definition syscall_handler (fuel : nat) (r_eax r_edx : Z) : M K Z :=
  k ← get;
  when (c_true (kt_cancelled k)) (kthread_exit (kt_retval k));;
  ret ← syscall_dispatch fuel r_eax r_edx;
  k ← get;
  when (c_true (kt_cancelled k)) (kthread_exit (kt_retval k));;
  mret (u32 ret).
End Syscall.
