(* ===== verification/SyscallThms.v ===== *)
(** What holds of every system call: the kernel memory it allocates is freed exactly
    once, and an error is reported as -1 with a positive [kt_errno]. *)
From S2P Require Import Prelude.
From S2P Require Import Platform.
From S2P Require Import Syscall.
Open Scope Z_scope.

Section Laws.
Context `{P : Platform} `{!PlatformOk P} {L : SysLayout} {K : Type} `{!SysOps K}.
Implicit Types (k : K).

(** [held k] are the blocks of kernel memory the current thread has allocated and not
    freed; freeing another pointer ends [bad_free].  Nothing but the allocator changes
    them, or the vectors of pointers in them. *)
Class SysLaws := {
  held : K -> gset Z;
  bad_free : halt;
  held_null k : NULL ∉ held k;
  errno_set e k : kt_errno (set_kt_errno e k) = e /\ held (set_kt_errno e k) = held k /\ forall v, words v (set_kt_errno e k) = words v k;
  store_ok p d k : let k' := kstore p d k in held k' = held k /\ kt_errno k' = kt_errno k /\ forall v, v <> p -> words v k' = words v k;
  word_ok v i p k : let k' := set_word v i p k in held k' = held k /\ kt_errno k' = kt_errno k /\ words v k' = <[i := p]> (words v k) /\
    forall w, w <> v -> words w k' = words w k
}.
Context `{!SysLaws}.

(** The call leaves the memory alone. *)
Definition quiet k k' : Prop := held k' = held k /\ forall v, v ∈ held k -> words v k' = words v k.
Definition plain {A} (m : M K A) (R : A -> Prop) : Prop :=
  forall k, match m k with Ok a k' => quiet k k' /\ R a | Halt h _ => h <> bad_free end.
(** A new block, or NULL with the reason in [kt_errno]; or a page. *)
Definition new_block k (p : Z) k' : Prop :=
  (p = NULL /\ quiet k k') \/
  (p <> NULL /\ p ∉ held k /\ held k' = {[p]} ∪ held k /\ forall v, v ∈ held k -> words v k' = words v k).
Definition gives {A} (m : M K A) (Q : K -> A -> K -> Prop) : Prop :=
  forall k, match m k with Ok a k' => Q k a k' | Halt h _ => h <> bad_free end.
Definition frees (m : Z -> M K unit) : Prop := forall p k,
  match m p k with
  | Ok _ k' => held k' = held k ∖ {[p]} /\ kt_errno k' = kt_errno k /\ forall v, v ∈ held k' -> words v k' = words v k
  | Halt h _ => h = bad_free -> p ∉ held k
  end.

(** What the other components promise about memory and results. *)
Class SysMem := {
  sm_from a n : plain (copy_from_user a n) (fun _ => True);
  sm_to a d n : plain (copy_to_user a d n) (fun r => r <= 0);
  sm_args a : plain (read_args_at a) (fun _ => True);
  sm_kmalloc n : gives (kmalloc n) new_block;
  sm_kfree : frees kfree;
  sm_page : gives page_alloc (fun k p k' => p <> NULL /\ new_block k p k');
  sm_page_free : frees page_free;
  sm_read fd b n : plain (do_read fd b n) (fun _ => True);
  sm_write fd b d n : plain (do_write fd b d n) (fun _ => True);
  sm_getdent fd : plain (do_getdent fd) (fun _ => True);
  sm_close fd : plain (do_close fd) (fun _ => True);
  sm_dup fd : plain (do_dup fd) (fun _ => True);
  sm_dup2 a b : plain (do_dup2 a b) (fun _ => True);
  sm_mkdir p : plain (do_mkdir p) (fun _ => True);
  sm_rmdir p : plain (do_rmdir p) (fun _ => True);
  sm_unlink p : plain (do_unlink p) (fun _ => True);
  sm_link p q : plain (do_link p q) (fun _ => True);
  sm_rename p q : plain (do_rename p q) (fun _ => True);
  sm_chdir p : plain (do_chdir p) (fun _ => True);
  sm_lseek a b c : plain (do_lseek a b c) (fun _ => True);
  sm_open p f : plain (do_open p f) (fun _ => True);
  sm_stat p : plain (do_stat p) (fun r => r.1 <= 0);
  sm_pipe : plain do_pipe (fun r => r.1 <= 0);
  sm_munmap a b : plain (do_munmap a b) (fun _ => True);
  sm_mmap a b c d e f : plain (do_mmap a b c d e f) (fun _ => True);
  sm_brk a : plain (do_brk a) (fun r => r.1 <= 0);
  sm_waitpid a b : plain (do_waitpid a b) (fun _ => True);
  sm_fork : plain do_fork (fun _ => True);
  sm_exit s : plain (do_exit s) (fun _ => True);
  sm_thr_exit s : plain (kthread_exit s) (fun _ => True);
  sm_yield : plain thr_yield (fun _ => True);
  sm_execve a b c : plain (do_execve a b c) (fun r => r <= 0);
  sm_sync : plain pframe_clean_all (fun _ => True);
  sm_kill : plain proc_kill_all (fun _ => True);
  sm_ksh_create t : plain (kshell_create t) (fun _ => True);
  sm_ksh_next s : plain (kshell_execute_next s) (fun _ => True);
  sm_ksh_destroy s : plain (kshell_destroy s) (fun _ => True);
  sm_dbg m : plain (dbg_user m) (fun _ => True);
  sm_pid k : 0 <= cur_pid k;
  bad_free_new : bad_free <> KAssert /\ bad_free <> OutOfFuel /\ bad_free <> BadIndex
}.
Context `{!SysMem}.

(** ** A small program logic *)

(** [m] from a state that satisfies [Pre] ends with [Post], and does not free wrongly. *)
Definition spec {A} (Pre : K -> Prop) (m : M K A) (Post : A -> K -> Prop) : Prop :=
  forall k, Pre k -> match m k with Ok a k' => Post a k' | Halt h _ => h <> bad_free end.

Lemma spec_ret {A} (a : A) (Pre : K -> Prop) (Post : A -> K -> Prop) : (forall k, Pre k -> Post a k) -> spec Pre (mret a) Post.
Proof. intros HP k Hk. cbn. by apply HP. Qed.
Lemma spec_bind {A B} (m : M K A) (f : A -> M K B) Pre (Mid : A -> K -> Prop) Post :
  spec Pre m Mid -> (forall a, spec (Mid a) (f a) Post) -> spec Pre (m ≫= f) Post.
Proof.
  intros Hm Hf k Hk. specialize (Hm k Hk). unfold mbind, M_bind. destruct (m k) as [a k'|h k']; [|done]. by apply Hf.
Qed.
Lemma spec_conseq {A} (m : M K A) (Pre Pre' : K -> Prop) (Post Post' : A -> K -> Prop) :
  spec Pre m Post -> (forall k, Pre' k -> Pre k) -> (forall a k, Post a k -> Post' a k) -> spec Pre' m Post'.
Proof. intros Hm H1 H2 k Hk. specialize (Hm k (H1 k Hk)). destruct (m k); [by apply H2|done]. Qed.
(** What the precondition says about values is known. *)
Lemma spec_pure {A} (R : Prop) (Pre : K -> Prop) (m : M K A) Post : (R -> spec Pre m Post) -> spec (fun k => Pre k /\ R) m Post.
Proof. intros Hs k [Hk HR]. by apply Hs. Qed.
Lemma spec_or {A} (P1 P2 : K -> Prop) (m : M K A) Post : spec P1 m Post -> spec P2 m Post -> spec (fun k => P1 k \/ P2 k) m Post.
Proof. intros H1 H2 k [Hk|Hk]; [by apply H1|by apply H2]. Qed.

(** The blocks [l] were allocated since the call began, in state [k0]; [W] says of some
    of them what pointers they contain; [E] holds of [kt_errno]. *)
Record mem k0 (l : list Z) (W : list (Z * (list Z -> Prop))) (E : Z -> Prop) k : Prop := {
  mem_held : held k = list_to_set l ∪ held k0;
  mem_nodup : NoDup l;
  mem_new : forall p, p ∈ l -> p ∉ held k0;
  mem_vecs : forall v Q, (v, Q) ∈ W -> v ∈ l /\ Q (words v k);
  mem_errno : E (kt_errno k)
}.
Definition any_errno (e : Z) : Prop := True.

Lemma mem_quiet k0 l W E k k' : mem k0 l W E k -> quiet k k' -> mem k0 l W any_errno k'.
Proof.
  intros [H1 H2 H3 H4 _] [Q1 Q2]. split; [congruence|done|done| |done]. intros v Q Hv. destruct (H4 v Q Hv) as [? HQ].
  split; [done|]. rewrite Q2; [done|]. rewrite H1. set_solver.
Qed.

Lemma spec_plain {A} (m : M K A) R k0 l W E : plain m R -> spec (mem k0 l W E) m (fun a k => mem k0 l W any_errno k /\ R a).
Proof.
  intros Hm k Hk. specialize (Hm k). destruct (m k) as [a k'|]; [|done]. destruct Hm as [Hq HR]. split; [by eapply mem_quiet|done].
Qed.
Lemma spec_set_errno e k0 l W E : spec (mem k0 l W E) (modify (set_kt_errno e)) (fun _ => mem k0 l W (eq e)).
Proof.
  intros k [H1 H2 H3 H4 _]. cbn. destruct (errno_set e k) as (A1 & A2 & A3). split; [congruence|done|done| |done].
  intros v Q Hv. rewrite A3. by apply H4.
Qed.
Lemma mem_block k0 l W E k p k' : mem k0 l W E k -> p <> NULL -> p ∉ held k -> held k' = {[p]} ∪ held k -> (forall v, v ∈ held k -> words v k' = words v k) ->
  mem k0 (p :: l) W any_errno k'.
Proof.
  intros [H1 H2 H3 H4 _] Hn Hp Hh Hv. rewrite H1 in Hp. split.
  - rewrite Hh, H1. set_solver.
  - constructor; [set_solver|done].
  - intros q [->|Hq]%elem_of_cons; [set_solver|by apply H3].
  - intros v Q Hin. destruct (H4 v Q Hin) as [? HQ]. split; [by right|]. rewrite Hv; [done|]. rewrite H1. set_solver.
  - done.
Qed.
Lemma spec_page k0 l W E : spec (mem k0 l W E) page_alloc (fun p k => mem k0 (p :: l) W any_errno k /\ p <> NULL).
Proof.
  intros k Hk. pose proof (sm_page k) as Hm. destruct (page_alloc k) as [p k'|]; [|done]. destruct Hm as [Hn [[? _]|(_ & Hp & Hh & Hv)]]; [done|].
  split; [by eapply mem_block|done].
Qed.
Lemma spec_frees m p k0 l W E : frees m -> (forall ps, (p, ps) ∉ W) -> spec (mem k0 (p :: l) W E) (m p) (fun _ => mem k0 l W E).
Proof.
  intros Hm HW k [H1 H2 H3 H4 H5]. specialize (Hm p k). apply NoDup_cons in H2 as [Hpl Hnd]. assert (p ∉ held k0) as Hp0 by (apply H3; by left).
  destruct (m p k) as [u k'|h k'].
  - destruct Hm as (A1 & A2 & A3). assert (held k' = list_to_set l ∪ held k0) as Hh by (rewrite A1, H1; set_solver).
    split; [done|done|intros q Hq; apply H3; by right| |congruence]. intros v Q Hv. destruct (H4 v Q Hv) as [Hin HQ].
    assert (v ∈ l) as Hl. { apply elem_of_cons in Hin as [->|?]; [|done]. by destruct (HW _ Hv). }
    split; [done|]. rewrite A3; [done|]. rewrite Hh. set_solver.
  - intros E'. specialize (Hm E'). apply Hm. rewrite H1. set_solver.
Qed.

Definition keys_in (W : list (Z * (list Z -> Prop))) (l : list Z) : Prop := forall v Q, (v, Q) ∈ W -> v ∈ l.
Lemma spec_know {A} (R : Prop) (Pre : K -> Prop) (m : M K A) Post : (forall k, Pre k -> R) -> (R -> spec Pre m Post) -> spec Pre m Post.
Proof. intros HR Hm k Hk. by apply Hm; [eapply HR|]. Qed.
Lemma spec_kfree p l W k0 E : keys_in W l -> spec (mem k0 (p :: l) W E) (kfree p) (fun _ => mem k0 l W E).
Proof.
  intros HW. apply (spec_know (NoDup (p :: l))); [by intros k []|]. intros [Hp _]%NoDup_cons. apply spec_frees; [apply sm_kfree|].
  intros ps Hin. apply Hp. by eapply HW.
Qed.
Lemma spec_kmalloc n k0 l W E : spec (mem k0 l W E) (kmalloc n) (fun p k =>
  (mem k0 l W any_errno k /\ p = NULL) \/ (mem k0 (p :: l) W any_errno k /\ p <> NULL)).
Proof.
  intros k Hk. pose proof (sm_kmalloc n k) as Hm. destruct (kmalloc n k) as [p k'|]; [|done]. destruct Hm as [[Hn Hq]|(Hn & Hp & Hh & Hv)]; [left|right].
  - split; [by eapply mem_quiet|done].
  - split; [by eapply mem_block|done].
Qed.
(** Bytes go to a block about which nothing is claimed. *)
Lemma spec_kstore p d k0 l W E : (forall Q, (p, Q) ∉ W) -> spec (mem k0 l W E) (modify (kstore p d)) (fun _ => mem k0 l W E).
Proof.
  intros HW k [H1 H2 H3 H4 H5]. cbn. destruct (store_ok p d k) as (A1 & A2 & A3). split; [congruence|done|done| |congruence].
  intros v Q Hv. rewrite A3; [by apply H4|]. intros ->. by destruct (HW Q).
Qed.
Lemma pos_ENOMEM : 0 < ENOMEM.
Proof. apply errno_pos. unfold errnos. set_solver. Qed.
Lemma spec_strdup s k0 l W E : keys_in W l -> spec (mem k0 l W E) (user_strdup s) (fun p k =>
  (mem k0 l W (fun e => 0 < e) k /\ p = NULL) \/ (mem k0 (p :: l) W any_errno k /\ p <> NULL)).
Proof.
  intros HW. unfold user_strdup. eapply spec_bind; [apply spec_kmalloc|]. intros p. apply spec_or; apply spec_pure; intros Hp.
  - subst p. cbn [Z.eqb NULL]. eapply spec_bind; [apply spec_set_errno|]. intros ?. apply spec_ret. intros k []. left. split; [|done]. split; try done. cbn. rewrite <- mem_errno0. apply pos_ENOMEM.
  - destruct (Z.eqb_spec p NULL); [done|]. apply (spec_know (NoDup (p :: l))); [by intros k []|]. intros [Hpl _]%NoDup_cons.
    assert (forall Q, (p, Q) ∉ W) as HpW by (intros Q Hin; apply Hpl; by eapply HW).
    eapply spec_bind; [apply spec_plain, sm_from|]. intros r. apply spec_pure. intros ?. eapply spec_bind; [by apply spec_kstore|]. intros ?.
    destruct (Z.ltb_spec r.1 0).
    + eapply spec_bind; [apply spec_set_errno|]. intros ?. eapply spec_bind; [by apply spec_kfree|]. intros ?. apply spec_ret. intros k []. left. split; [|done]. split; try done. cbn. lia.
    + apply spec_ret. intros k Hk. right. done.
Qed.

(** ** Ends of system calls *)

(** The call is over: its memory is freed, and an error has a number. *)
Definition ended k0 (r : Z) k : Prop := mem k0 [] [] any_errno k /\ (0 <= r \/ r = -1 /\ 0 < kt_errno k).

Lemma mem_any k0 l W E k : mem k0 l W E k -> mem k0 l W any_errno k.
Proof. intros []. by split. Qed.
Lemma spec_ended r k0 E : (0 <= r \/ r = -1 /\ forall e, E e -> 0 < e) -> spec (mem k0 [] [] E) (mret r) (ended k0).
Proof. intros HE. apply spec_ret. intros k Hk. split; [by eapply mem_any|]. destruct HE as [?|[? HE]]; [by left|right]. split; [done|]. apply HE, Hk. Qed.
Lemma spec_fail e k0 E : 0 < e -> spec (mem k0 [] [] E) (fail e) (ended k0).
Proof. intros He. eapply spec_bind; [apply spec_set_errno|]. intros ?. apply spec_ended. right. split; [done|]. by intros ? <-. Qed.
Lemma spec_finish err k0 E : spec (mem k0 [] [] E) (finish err) (ended k0).
Proof. unfold finish. destruct (Z.ltb_spec err 0); [apply spec_fail; lia|apply spec_ended; by left]. Qed.

Lemma pos_EINVAL : 0 < EINVAL.
Proof. apply errno_pos. unfold errnos. set_solver. Qed.
Lemma pos_EFAULT : 0 < EFAULT.
Proof. apply errno_pos. unfold errnos. set_solver. Qed.
Lemma pos_ENODEV : 0 < ENODEV.
Proof. apply errno_pos. unfold errnos. set_solver. Qed.
Lemma pos_ENOSYS : 0 < ENOSYS.
Proof. apply errno_pos. unfold errnos. set_solver. Qed.
End Laws.
Arguments SysLaws K {_}.
Arguments SysMem K {_ _}.
#[export] Hint Resolve sm_from sm_to sm_args sm_read sm_write sm_getdent sm_close sm_dup sm_dup2 sm_mkdir sm_rmdir sm_unlink sm_link sm_rename
  sm_chdir sm_lseek sm_open sm_stat sm_pipe sm_munmap sm_mmap sm_brk sm_waitpid sm_fork sm_exit sm_thr_exit sm_yield sm_execve sm_sync sm_kill
  sm_ksh_create sm_ksh_next sm_ksh_destroy sm_dbg : syslaw.
#[export] Hint Resolve pos_EINVAL pos_EFAULT pos_ENODEV pos_ENOSYS : syslaw.

(** One step of a system call: a call of another component, whose promise about its
    result becomes a hypothesis. *)
Ltac sys_plain := eapply spec_bind; [eapply spec_plain; solve [eauto with syslaw]|intros ?; cbv beta; apply spec_pure; intros ?].
Ltac sys_errno := eapply spec_bind; [apply spec_set_errno|intros ?; cbv beta].
Ltac sys_free := eapply spec_bind; [apply spec_frees; [first [apply sm_kfree|apply sm_page_free]|intros ?; apply not_elem_of_nil]|intros ?; cbv beta].
Ltac sys_strdup := eapply spec_bind; [apply spec_strdup; intros ? ? ?%elem_of_nil; done|intros ?p; cbv beta; apply spec_or; apply spec_pure; intros ?; subst].

Section Calls.
Context `{P : Platform} `{!PlatformOk P} {L : SysLayout} {K : Type} `{!SysOps K} `{!SysLaws K} `{!SysMem K}.
Implicit Types (k : K).

Lemma spec_args {A} (lay : layout A) arg k0 l W E : spec (mem k0 l W E) (get_args lay arg) (fun _ => mem k0 l W any_errno).
Proof. unfold get_args. sys_plain. by apply spec_ret. Qed.
(** Most calls copy in their arguments, and stop when that fails. *)
Lemma spec_with_args {A} (lay : layout A) arg k0 (e : Z -> Z) (f : A -> M K Z) : (forall r, r < 0 -> 0 < e r) ->
  (forall a, spec (mem k0 [] [] any_errno) (f a) (ended k0)) ->
  spec (mem k0 [] [] any_errno) (a ← get_args lay arg; if a.1 <? 0 then fail (e a.1) else f a.2) (ended k0).
Proof.
  intros He Hf. eapply spec_bind; [apply spec_args|]. intros [r a]. cbn [fst snd]. destruct (Z.ltb_spec r 0); [apply spec_fail; auto|apply Hf].
Qed.
Lemma spec_on_path s f k0 : (forall p, plain (f p) (fun _ => True)) -> spec (mem k0 [] [] any_errno) (on_path s f) (ended k0).
Proof.
  intros Hf. unfold on_path. sys_strdup; cbn [Z.eqb NULL].
  - apply spec_fail, pos_EINVAL.
  - destruct (Z.eqb_spec p NULL); [done|]. eapply spec_bind; [apply spec_plain, Hf|]. intros err. cbv beta. apply spec_pure. intros _. sys_free. apply spec_finish.
Qed.

Lemma sys_path_ok {A} (lay : layout A) arg s f k0 : (forall a p, plain (f a p) (fun _ => True)) ->
  spec (mem k0 [] [] any_errno) (a ← get_args lay arg; if a.1 <? 0 then fail (- a.1) else on_path (s a.2) (f a.2)) (ended k0).
Proof. intros Hf. apply (spec_with_args lay arg k0 Z.opp (fun a => on_path (s a) (f a))); [lia|]. intros a. by apply spec_on_path. Qed.

Notation runs k0 m := (spec (mem k0 [] [] any_errno) m (ended k0)).

Lemma neg_pos r : r < 0 -> 0 < - r.
Proof. lia. Qed.

Lemma sys_read_ok arg k0 : runs k0 (sys_read arg).
Proof.
  unfold sys_read. eapply spec_bind; [apply spec_args|]. intros a. eapply spec_bind; [apply spec_page|]. intros b. apply spec_pure. intros Hb. sys_plain.
  destruct (Z.ltb_spec a0.1 0).
  - sys_errno. sys_free. apply spec_ended. right. split; [done|]. intros ? <-. lia.
  - sys_plain. sys_plain. sys_free. apply spec_ended. by left.
Qed.
Lemma sys_write_ok arg k0 : runs k0 (sys_write arg).
Proof.
  unfold sys_write. eapply spec_bind; [apply spec_args|]. intros a. eapply spec_bind; [apply spec_page|]. intros b. apply spec_pure. intros Hb. do 3 sys_plain.
  destruct (Z.ltb_spec a2 0).
  - sys_errno. sys_free. apply spec_ended. right. split; [done|]. intros ? <-. lia.
  - sys_free. apply spec_ended. by left.
Qed.
(** For calls whose result is a number or an address of any sign. *)
Definition freed k0 (_ : Z) k : Prop := mem k0 [] [] any_errno k.
Lemma spec_freed m k0 : runs k0 m -> spec (mem k0 [] [] any_errno) m (freed k0).
Proof. intros Hm. eapply spec_conseq; [exact Hm|done|]. by intros a k [? _]. Qed.
Lemma spec_ret_freed r k0 E : spec (mem k0 [] [] E) (mret r) (freed k0).
Proof. apply spec_ret. intros k. apply mem_any. Qed.

Lemma getdents_loop_ok n fd dirp total k0 : spec (mem k0 [] [] any_errno) (getdents_loop n fd dirp total) (freed k0).
Proof.
  induction n as [|n IH] in total |- *; cbn [getdents_loop]; [apply spec_ret_freed|]. sys_plain. destruct (Z.ltb_spec a.1 0); [by apply spec_freed, spec_fail, neg_pos|].
  destruct (a.1 =? 0); [apply spec_ret_freed|]. sys_plain. apply IH.
Qed.
Lemma sys_dup2_ok arg k0 : runs k0 (sys_dup2 arg).
Proof. apply (spec_with_args L_dup2 arg k0 Z.opp (fun a => err ← do_dup2 (ofd a) (nfd a); finish err) neg_pos). intros a. sys_plain. apply spec_finish. Qed.
Lemma sys_lseek_ok arg k0 : runs k0 (sys_lseek arg).
Proof.
  apply (spec_with_args L_lseek arg k0 Z.opp (fun a => err ← do_lseek (sk_fd a) (sk_offset a) (sk_whence a); finish err) neg_pos). intros a. sys_plain. apply spec_finish.
Qed.
Lemma sys_munmap_ok arg k0 : runs k0 (sys_munmap arg).
Proof.
  unfold sys_munmap. eapply spec_bind; [apply spec_args|]. intros a. destruct (negb (a.1 =? 0)); [apply spec_fail, pos_EFAULT|]. sys_plain.
  destruct (Z.ltb_spec a0 0); [by apply spec_fail, neg_pos|]. apply spec_ended. by left.
Qed.
Lemma sys_waitpid_ok arg k0 : runs k0 (sys_waitpid arg).
Proof.
  unfold sys_waitpid. apply (spec_with_args L_waitpid arg k0 (fun _ => EFAULT) (fun a => r ← do_waitpid (wpa_pid a) (wpa_options a);
    if r.1 <? 0 then fail (- r.1)
    else if negb (wpa_status a =? NULL) then e ← copy_to_user (wpa_status a) (int_bytes r.2) 4; if e <? 0 then fail EFAULT else mret r.1
    else mret r.1)); [intros; apply pos_EFAULT|]. intros a. sys_plain.
  destruct (Z.ltb_spec a0.1 0); [by apply spec_fail, neg_pos|]. destruct (negb (wpa_status a =? NULL)); [|apply spec_ended; by left]. sys_plain.
  destruct (a1 <? 0); [apply spec_fail, pos_EFAULT|apply spec_ended; by left].
Qed.

(** Two strings, freed in either order. *)
Lemma mem_swap k0 p q E k : mem k0 [p; q] [] E k -> mem k0 [q; p] [] E k.
Proof.
  intros [H1 H2 H3 H4 H5]. split; [rewrite H1; set_solver|by rewrite Permutation_swap|intros x Hx; apply H3; set_solver|intros v ps ?%elem_of_nil; done|done].
Qed.
Lemma sys_link_ok arg k0 : runs k0 (sys_link arg).
Proof.
  unfold sys_link. eapply spec_bind; [apply spec_args|]. intros a. destruct (Z.ltb_spec a.1 0); [by apply spec_fail, neg_pos|].
  sys_strdup; [apply spec_fail, pos_EINVAL|]. destruct (Z.eqb_spec p NULL); [done|]. sys_strdup.
  - cbn [Z.eqb NULL]. sys_errno. sys_free. apply spec_ended. right. split; [done|]. intros ? <-. apply pos_EINVAL.
  - destruct (Z.eqb_spec p0 NULL); [done|]. sys_plain. eapply (spec_conseq _ (mem k0 [p; p0] [] any_errno)); [|by intros k; apply mem_swap|done]. do 2 sys_free. apply spec_finish.
Qed.
Lemma sys_rename_ok arg k0 : runs k0 (sys_rename arg).
Proof.
  unfold sys_rename. eapply spec_bind; [apply spec_args|]. intros a. destruct (Z.ltb_spec a.1 0); [by apply spec_fail, neg_pos|].
  sys_strdup; [apply spec_fail, pos_EINVAL|]. destruct (Z.eqb_spec p NULL); [done|]. sys_strdup.
  - cbn [Z.eqb NULL]. sys_errno. sys_free. apply spec_ended. right. split; [done|]. intros ? <-. apply pos_EINVAL.
  - destruct (Z.eqb_spec p0 NULL); [done|]. sys_plain. do 2 sys_free. apply spec_finish.
Qed.
Lemma sys_stat_ok arg k0 : runs k0 (sys_stat arg).
Proof.
  unfold sys_stat. eapply spec_bind; [apply spec_args|]. intros a. destruct (a.1 <? 0); [apply spec_fail, pos_EFAULT|].
  sys_strdup; [apply spec_fail, pos_EINVAL|]. destruct (Z.eqb_spec p NULL); [done|]. sys_plain.
  eapply (spec_bind _ _ _ (fun ret k => mem k0 [p] [] any_errno k /\ ret <= 0)).
  - destruct (a0.1 =? 0); [apply spec_plain, sm_to|]. apply spec_ret. intros k Hk. done.
  - intros ret. apply spec_pure. intros Hr. destruct (Z.eqb_spec ret 0); cbn [negb]; sys_free; [apply spec_ended; by left|].
    sys_errno. apply spec_ended. right. split; [done|]. intros ? <-. lia.
Qed.
Lemma sys_pipe_ok arg k0 : runs k0 (sys_pipe arg).
Proof.
  unfold sys_pipe. sys_plain. eapply (spec_bind _ _ _ (fun ret k => mem k0 [] [] any_errno k /\ ret <= 0)).
  - destruct (a.1 =? 0); [apply spec_plain, sm_to|]. apply spec_ret. intros k Hk. done.
  - intros ret. apply spec_pure. intros Hr. destruct (Z.eqb_spec ret 0); cbn [negb]; [apply spec_ended; by left|]. apply spec_fail. lia.
Qed.
Lemma copy_fields_ok l k0 : runs k0 (copy_fields l).
Proof.
  induction l as [|[a s] l IH]; cbn [copy_fields]; [apply spec_ended; by left|]. sys_plain. destruct (Z.eqb_spec a0 0); cbn [negb]; [apply IH|]. apply spec_fail. lia.
Qed.
Lemma sys_fork_ok k0 : runs k0 sys_fork.
Proof. unfold sys_fork. sys_plain. apply spec_finish. Qed.
Lemma kshell_loop_ok fuel ksh k0 : spec (mem k0 [] [] any_errno) (kshell_loop fuel ksh) (freed k0).
Proof.
  induction fuel as [|fuel IH]; cbn [kshell_loop]; [intros k _; cbn; apply not_eq_sym, bad_free_new|]. sys_plain. destruct (0 <? a); [apply IH|apply spec_ret_freed].
Qed.
Lemma sys_kshell_ok fuel t k0 : runs k0 (sys_kshell fuel t).
Proof.
  unfold sys_kshell. sys_plain. destruct (a =? NULL); [apply spec_fail, pos_ENODEV|]. eapply spec_bind; [apply kshell_loop_ok|]. intros err. unfold freed. sys_plain.
  destruct (Z.ltb_spec err 0); [by apply spec_fail, neg_pos|apply spec_ended; by left].
Qed.

(** ** sys_execve *)

Lemma spec_ex {A X} (Pre : X -> K -> Prop) (m : M K A) Post : (forall x, spec (Pre x) m Post) -> spec (fun k => exists x, Pre x k) m Post.
Proof. intros Hs k [x Hk]. by apply (Hs x). Qed.
Lemma mem_perm k0 l l' W W' E k : l ≡ₚ l' -> W' ⊆ W -> mem k0 l W E k -> mem k0 l' W' E k.
Proof.
  intros Hl HW [H1 H2 H3 H4 H5]. split; [|by rewrite <- Hl| | |done].
  - rewrite H1. by rewrite (list_to_set_perm_L _ _ Hl).
  - intros p Hp. apply H3. by rewrite Hl.
  - intros v ps Hv. destruct (H4 v ps) as [? ?]; [by apply HW|]. by rewrite <- Hl.
Qed.
Lemma spec_perm {A} l l' W W' k0 E (m : M K A) Post : l ≡ₚ l' -> W' ⊆ W -> spec (mem k0 l' W' E) m Post -> spec (mem k0 l W E) m Post.
Proof. intros Hl HW Hm. eapply spec_conseq; [exact Hm| |done]. intros k. by apply mem_perm. Qed.

(** A vector: pointers to strings, and a NULL behind them. *)
Definition vec (ps ws : list Z) : Prop := NULL ∉ ps /\ exists rest, ws = ps ++ NULL :: rest.
(** A vector that is being filled. *)
Definition filled (ps ws : list Z) : Prop := NULL ∉ ps /\ exists rest, ws = ps ++ rest.

Lemma spec_words {A} v Q (f : list Z -> M K A) l W k0 E Post : (v, Q) ∈ W ->
  (forall ws, Q ws -> spec (mem k0 l W E) (f ws) Post) -> spec (mem k0 l W E) (ws ← gets (words v); f ws) Post.
Proof. intros Hv Hf k Hk. rewrite gets_bind. apply Hf; [|done]. by destruct (mem_vecs _ _ _ _ _ Hk v Q Hv). Qed.
Lemma spec_free_until_null ps : forall fuel v qs l W k0 E, keys_in W l -> (v, vec (qs ++ ps)) ∈ W -> (length ps < fuel)%nat ->
  spec (mem k0 (ps ++ l) W E) (free_until_null fuel v (length qs)) (fun _ => mem k0 l W E).
Proof.
  induction ps as [|p ps IH]; intros fuel v qs l W k0 E HW Hv Hf; (destruct fuel as [|fuel]; cbn [length] in Hf; [lia|]); cbn [free_until_null app];
    (eapply spec_words; [exact Hv|]); intros ws (Hn & rest & ->).
  - rewrite app_nil_r, list_lookup_middle by done. cbn. by apply spec_ret.
  - rewrite <- app_assoc, <- app_comm_cons, list_lookup_middle by done. destruct (Z.eqb_spec p NULL) as [->|_]; [destruct Hn; set_solver|].
    eapply spec_bind; [apply spec_kfree; intros w Q Hin; apply elem_of_app; right; by eapply HW|]. intros ?.
    specialize (IH fuel v (qs ++ [p]) l W k0 E HW). rewrite length_app, Nat.add_1_r, <- app_assoc in IH. apply IH; [done|lia].
Qed.
Lemma spec_free_strings v ps l W k0 E : keys_in W l -> (v, vec ps) ∈ W -> spec (mem k0 (ps ++ l) W E) (free_strings v) (fun _ => mem k0 l W E).
Proof.
  intros HW Hv. unfold free_strings. eapply spec_words; [exact Hv|]. intros ws (Hn & rest & ->). rewrite length_app.
  apply (spec_free_until_null ps _ v []); [done|done|cbn; lia].
Qed.
Lemma spec_free_vector v ps l W k0 E : keys_in W l -> spec (mem k0 (v :: ps ++ l) ((v, vec ps) :: W) E) (free_vector v) (fun _ => mem k0 l W E).
Proof.
  intros HW. unfold free_vector.
  apply (spec_perm (v :: ps ++ l) (ps ++ v :: l) ((v, vec ps) :: W) ((v, vec ps) :: W)); [apply Permutation_middle|done|].
  eapply spec_bind; [apply spec_free_strings; [|by left]|].
  - intros w qs [[= -> ->]|Hin]%elem_of_cons; [by left|right; by eapply HW].
  - intros ?. apply (spec_perm (v :: l) (v :: l) ((v, vec ps) :: W) W); [done|set_solver|]. by apply spec_kfree.
Qed.

Lemma spec_put_word v i p (Q Q' : list Z -> Prop) l W k0 E : (forall R, (v, R) ∉ W) ->
  (forall ws, Q ws -> (i < length ws)%nat -> Q' (<[i := p]> ws)) ->
  spec (mem k0 l ((v, Q) :: W) E) (put_word v i p) (fun _ => mem k0 l ((v, Q') :: W) E).
Proof.
  intros HW HQ k [H1 H2 H3 H4 H5]. unfold put_word. rewrite gets_bind. case_decide as Hi; [|cbn; apply not_eq_sym, bad_free_new].
  cbn. destruct (word_ok v i p k) as (A1 & A2 & A3 & A4). split; [congruence|done|done| |congruence].
  destruct (H4 v Q) as [Hin Hq]; [by left|]. intros w R [[= -> ->]|Hr]%elem_of_cons.
  - split; [done|]. rewrite A3. by apply HQ.
  - rewrite A4; [apply H4; by right|]. intros ->. by destruct (HW R).
Qed.
Lemma filled_end ps p ws : filled ps ws -> (length ps < length ws)%nat -> NULL ∉ ps /\ exists rest, <[length ps := p]> ws = ps ++ p :: rest.
Proof.
  intros (Hn & rest & ->). rewrite length_app. destruct rest as [|x rest]; [cbn; lia|]. intros _. split; [done|]. exists rest.
  rewrite insert_app_r_alt by done. by rewrite Nat.sub_diag.
Qed.
Lemma filled_null ps ws : filled ps ws -> (length ps < length ws)%nat -> vec ps (<[length ps := NULL]> ws).
Proof. intros Hf Hl. by apply filled_end. Qed.
Lemma filled_next ps p ws : p <> NULL -> filled ps ws -> (length ps < length ws)%nat -> filled (ps ++ [p]) (<[length ps := p]> ws).
Proof.
  intros Hp Hf Hl. destruct (filled_end ps p ws Hf Hl) as (Hn & rest & ->). split; [|exists rest; by rewrite <- app_assoc].
  rewrite not_elem_of_app, list_elem_of_singleton. split; [done|by apply not_eq_sym].
Qed.

(** All the strings of the vector [v] are copied, or the first so many and the last
    pointer is NULL. *)
Definition strings_in k0 (v : Z) (n : nat) l W (ok : bool) k : Prop :=
  exists ps, if ok then mem k0 (ps ++ v :: l) ((v, filled ps) :: W) any_errno k /\ length ps = n
             else mem k0 (ps ++ v :: l) ((v, vec ps) :: W) (fun e => 0 < e) k.
Lemma spec_dup_strings n : forall v bytes ps l W k0, keys_in W l -> v ∉ l ->
  spec (mem k0 (ps ++ v :: l) ((v, filled ps) :: W) any_errno) (dup_strings n v bytes (length ps)) (strings_in k0 v (length ps + n) l W).
Proof.
  induction n as [|n IH]; intros v bytes ps l W k0 HW Hv; cbn [dup_strings].
  { apply spec_ret. intros k Hk. exists ps. by rewrite Nat.add_0_r. }
  assert (forall R, (v, R) ∉ W) as HvW by (intros R Hin; apply Hv; by eapply HW).
  destruct (argstr_at bytes (length ps)) as [u|]; [|intros k _; cbn; apply not_eq_sym, bad_free_new].
  eapply spec_bind; [apply spec_strdup|].
  { intros w Q [[= -> ->]|Hin]%elem_of_cons; [set_solver|]. specialize (HW _ _ Hin). set_solver. }
  intros p. apply spec_or; apply spec_pure; intros Hp.
  - subst p. eapply spec_bind; [apply spec_put_word; [done|]; intros ws; apply filled_null|]. intros ?. cbn. apply spec_ret. intros k Hk. by exists ps.
  - eapply spec_bind; [apply spec_put_word; [done|]; intros ws; by apply (filled_next ps p)|]. intros ?. destruct (Z.eqb_spec p NULL); [done|].
    specialize (IH v bytes (ps ++ [p]) l W k0 HW Hv). rewrite length_app, Nat.add_1_r, <- plus_n_Sm in *. eapply spec_perm; [|done|exact IH].
    rewrite <- app_assoc. apply Permutation_middle.
Qed.

(** The vector of pointers can be allocated and copied. *)
Definition copied_in (a : argvec) : Prop := forall k,
  let n := u32 ((av_len a +u 1) * size_of L_argstr) in
  (forall k', kmalloc n k <> Ok NULL k') /\ (forall r k', copy_from_user (av_vec a) n k = Ok r k' -> 0 <= r.1).

(** The label fail, once the pointers of the vector end with a NULL. *)
Lemma spec_vecdup_fail t v ps ret l W k0 E : keys_in W l -> ret < 0 -> v <> NULL ->
  spec (mem k0 (ps ++ v :: t :: l) ((v, vec ps) :: W) E) (vecdup_fail t v ret) (fun p k => mem k0 l W (fun e => 0 < e) k /\ p = NULL).
Proof.
  intros HW Hr Hv. unfold vecdup_fail, c_true. destruct (Z.eqb_spec v 0) as [->|_]; [done|]. cbn [negb when].
  eapply (spec_bind _ _ _ (fun _ => mem k0 (t :: l) W E)).
  { eapply spec_bind; [apply spec_free_strings; [|by left]|].
    - intros w Q [[= -> ->]|Hin]%elem_of_cons; [by left|]. do 2 right. by eapply HW.
    - intros ?. apply (spec_perm (v :: t :: l) (v :: t :: l) ((v, vec ps) :: W) W); [done|set_solver|]. apply spec_kfree.
      intros w Q Hin. right. by eapply HW. }
  intros ?. eapply spec_bind; [by apply spec_kfree|]. intros ?. eapply spec_bind; [apply spec_set_errno|]. intros ?. apply spec_ret.
  intros k []. split; [|done]. split; try done. cbn. lia.
Qed.
Lemma spec_vecdup_short t ret l W k0 E : keys_in W l -> ret < 0 ->
  spec (mem k0 (t :: l) W E) (vecdup_fail t NULL ret) (fun p k => mem k0 l W (fun e => 0 < e) k /\ p = NULL).
Proof.
  intros HW Hr. unfold vecdup_fail. change (c_true NULL) with false. cbn [when].
  eapply (spec_bind _ _ _ (fun _ => mem k0 (t :: l) W E)); [by apply spec_ret|]. intros ?.
  eapply spec_bind; [by apply spec_kfree|]. intros ?. eapply spec_bind; [apply spec_set_errno|]. intros ?. apply spec_ret.
  intros k []. split; [|done]. split; try done. cbn. lia.
Qed.

(** A result that the hypothesis rules out. *)
Lemma spec_result {A} (m : M K A) Pre (Post Post' : A -> K -> Prop) : spec Pre m Post ->
  (forall k a k', m k = Ok a k' -> Post a k' -> Post' a k') -> spec Pre m Post'.
Proof. intros Hm HP k Hk. specialize (Hm k Hk). destruct (m k) as [a k'|] eqn:E; [|done]. by eapply HP. Qed.

Lemma spec_vecdup a k0 l W E : copied_in a -> keys_in W l -> spec (mem k0 l W E) (user_vecdup a) (fun v k =>
  (mem k0 l W (fun e => 0 < e) k /\ v = NULL) \/ exists ps, mem k0 (v :: ps ++ l) ((v, vec ps) :: W) any_errno k /\ v <> NULL).
Proof.
  intros Hc HW. unfold user_vecdup. eapply (spec_bind _ _ _ (fun t k => mem k0 (t :: l) W any_errno k /\ t <> NULL)).
  { eapply spec_result; [apply spec_kmalloc|]. intros k t k' Et [[_ ->]|H]; [|done]. by destruct (proj1 (Hc k) k'). }
  intros t. apply spec_pure. intros Ht. destruct (Z.eqb_spec t NULL); [done|]. assert (keys_in W (t :: l)) as HWt by (intros w Q Hin; right; by eapply HW).
  eapply spec_bind; [apply spec_kmalloc|]. intros v. apply spec_or; apply spec_pure; intros Hv.
  { subst v. cbn [Z.eqb NULL]. eapply spec_conseq; [apply (spec_vecdup_short t (- ENOMEM) l W k0 any_errno); [done|]; pose proof pos_ENOMEM; lia|intros k Hk; exact Hk|]. intros; by left. }
  destruct (Z.eqb_spec v NULL); [done|]. apply (spec_know (NoDup (v :: t :: l))); [by intros k []|]. intros [Hvl [Htl _]%NoDup_cons]%NoDup_cons.
  eapply (spec_bind _ _ _ (fun r k => mem k0 (v :: t :: l) W any_errno k /\ 0 <= r.1)).
  { eapply spec_result; [apply spec_plain, sm_from|]. intros k r k' Er [Hk _]. split; [done|]. by eapply (Hc k). }
  intros r. apply spec_pure. intros Hr. eapply spec_bind; [apply spec_kstore; intros Q Hin; apply Htl; by eapply HW|]. intros ?. rewrite (proj2 (Z.ltb_ge _ _) Hr).
  eapply spec_bind; [eapply spec_conseq; [apply (spec_dup_strings (Z.to_nat (av_len a)) v r.2 [] (t :: l) W k0); done| |done]|].
  { intros k [H1 H2 H3 H4 H5]. split; try done. intros w Q [[= -> ->]|Hin]%elem_of_cons; [|by apply H4]. split; [by left|]. split; [by apply not_elem_of_nil|]. by exists (words v k). }
  intros [|]; apply spec_ex; intros ps.
  - apply spec_pure. intros Hl. cbn [length Nat.add] in Hl.
    eapply spec_bind; [apply spec_put_word; [intros R Hin; apply Hvl; by eapply HWt|]; rewrite <- Hl; intros ws; apply (filled_null ps)|]. intros ?.
    apply (spec_perm _ (t :: v :: ps ++ l) ((v, vec ps) :: W) ((v, vec ps) :: W)); [|done|].
    { rewrite (perm_swap v t). by rewrite <- !Permutation_middle. }
    eapply spec_bind; [apply spec_kfree|].
    { intros w Q [[= -> ->]|Hin]%elem_of_cons; [by left|]. right. apply elem_of_app. right. by eapply HW. }
    intros ?. apply spec_ret. intros k Hk. right. by exists ps.
  - intros k Hk. unfold mbind at 1, M_bind at 1, get. pose proof (mem_errno _ _ _ _ _ Hk) as He. revert k Hk He. intros k Hk He.
    eapply spec_conseq; [apply (spec_vecdup_fail t v ps (- kt_errno k) l W k0 (fun e => 0 < e)); [done|cbn in He; lia|done]|done| |exact Hk]. intros; by left.
Qed.

(** The blocks of a vector that may be NULL. *)
Definition seg (v : Z) (ps : list Z) : list Z := if decide (v = NULL) then [] else v :: ps.
Definition seg_vec (v : Z) (ps : list Z) : list (Z * (list Z -> Prop)) := if decide (v = NULL) then [] else [(v, vec ps)].

Lemma spec_when_free_vector v ps l W k0 E : keys_in W l ->
  spec (mem k0 (seg v ps ++ l) (seg_vec v ps ++ W) E) (when (c_true v) (free_vector v)) (fun _ => mem k0 l W E).
Proof.
  intros HW. unfold seg, seg_vec, c_true. destruct (Z.eqb_spec v 0) as [->|Hn]; cbn [negb when].
  - rewrite !decide_True by done. by apply spec_ret.
  - rewrite !decide_False by done. by apply spec_free_vector.
Qed.
Lemma spec_opt_vec a k0 l W E : (av_vec a <> NULL -> copied_in a) -> keys_in W l -> spec (mem k0 l W E) (opt_vec a) (fun r k =>
  (mem k0 l W (fun e => 0 < e) k /\ r = (NULL, true)) \/ exists ps, mem k0 (seg r.1 ps ++ l) (seg_vec r.1 ps ++ W) any_errno k /\ r.2 = false).
Proof.
  intros Hc HW. unfold opt_vec, c_true. destruct (Z.eqb_spec (av_vec a) 0) as [E0|E0]; cbn [negb]; [|specialize (Hc E0)].
  - apply spec_ret. intros k Hk. right. exists []. cbn. split; [by eapply mem_any|done].
  - eapply spec_bind; [by apply spec_vecdup|]. intros v. apply spec_ret. intros k [[Hm ->]|(ps & Hm & Hn)]; [left; done|right].
    exists ps. cbn [fst snd]. unfold seg, seg_vec. rewrite !decide_False by done. split; [done|]. by destruct (Z.eqb_spec v NULL).
Qed.

Lemma execve_cleanup_ok fn argv envp psa pse k0 (E : Z -> Prop) : (forall e, E e -> 0 <= e) ->
  spec (mem k0 (seg envp pse ++ seg argv psa ++ seg fn []) (seg_vec envp pse ++ seg_vec argv psa) E) (execve_cleanup fn argv envp) (ended k0).
Proof.
  intros HE. unfold execve_cleanup. set (l1 := seg argv psa ++ seg envp pse). set (W1 := seg_vec argv psa ++ seg_vec envp pse ++ []).
  assert (forall v ps, keys_in (seg_vec v ps ++ []) (seg v ps ++ [])) as Hk1.
  { intros v ps w qs. unfold seg, seg_vec. case_decide; [by intros ?%elem_of_nil|]. intros [[= -> ->]|?%elem_of_nil]%elem_of_cons; [by left|done]. }
  assert (keys_in W1 (seg argv psa ++ seg envp pse ++ [])) as Hkeys.
  { intros w qs. unfold W1. rewrite !elem_of_app. intros [Hin|Hin].
    - left. specialize (Hk1 argv psa w qs). rewrite !app_nil_r in Hk1. by apply Hk1.
    - right. specialize (Hk1 envp pse w qs). rewrite !elem_of_app in Hk1. by apply Hk1. }
  apply (spec_perm _ (seg fn [] ++ seg argv psa ++ seg envp pse ++ []) _ W1).
  { by rewrite app_nil_r, (Permutation_app_comm (seg envp pse) (seg argv psa ++ seg fn [])), (Permutation_app_comm (seg argv psa) (seg fn [])), <- app_assoc. }
  { intros x. unfold W1. rewrite app_nil_r, !elem_of_app. tauto. }
  eapply (spec_bind _ _ _ (fun _ => mem k0 (seg argv psa ++ seg envp pse ++ []) W1 E)).
  { unfold seg at 1, c_true. destruct (Z.eqb_spec fn 0) as [->|Hn]; cbn [negb when]; [rewrite decide_True by done; by apply spec_ret|].
    rewrite decide_False by done. by apply spec_kfree. }
  intros ?. eapply spec_bind; [apply spec_when_free_vector; apply Hk1|]. intros ?. eapply spec_bind; [apply spec_when_free_vector; intros ? ? ?%elem_of_nil; done|].
  intros ? k Hk. unfold mbind, M_bind, get. destruct (Z.eqb_spec (kt_errno k) 0) as [E0|E0]; cbn.
  - split; [by eapply mem_any|by left].
  - split; [by eapply mem_any|right]. split; [done|]. specialize (HE _ (mem_errno _ _ _ _ _ Hk)). lia.
Qed.

Lemma cleanup_file k0 fn argv psa (E : Z -> Prop) : fn <> NULL -> (forall e, E e -> 0 <= e) ->
  spec (mem k0 (seg argv psa ++ [fn]) (seg_vec argv psa) E) (execve_cleanup fn argv NULL) (ended k0).
Proof.
  intros Hn HE. pose proof (execve_cleanup_ok fn argv NULL psa [] k0 E HE) as H. unfold seg at 1 3, seg_vec at 1 in H.
  rewrite !(decide_True (P := NULL = NULL)), (decide_False (P := fn = NULL)) in H by done. exact H.
Qed.
Lemma keys_seg v ps l : keys_in (seg_vec v ps ++ []) (seg v ps ++ l).
Proof.
  intros w qs. unfold seg, seg_vec. case_decide; [by intros ?%elem_of_nil|]. intros [[= -> ->]|?%elem_of_nil]%elem_of_cons; [by left|done].
Qed.
(** The vectors among the arguments of execve can be copied. *)
Definition vectors_in (arg : Z) k : Prop := forall r k1 v, copy_from_user arg (size_of L_execve) k = Ok r k1 ->
  v = ex_argv (decode L_execve r.2) \/ v = ex_envp (decode L_execve r.2) -> av_vec v <> NULL -> copied_in v.

Lemma sys_execve_ok arg k0 : spec (fun k => mem k0 [] [] any_errno k /\ vectors_in arg k) (sys_execve arg) (ended k0).
Proof.
  unfold sys_execve. eapply (spec_bind _ _ _ (fun a k => mem k0 [] [] any_errno k /\
    forall v, v = ex_argv a.2 \/ v = ex_envp a.2 -> av_vec v <> NULL -> copied_in v)).
  { intros k [Hk Hv]. unfold get_args. pose proof (sm_from arg (size_of L_execve) k) as Hp. unfold mbind, M_bind.
    destruct (copy_from_user arg (size_of L_execve) k) as [r k1|] eqn:E1; [|done]. cbn. split; [by eapply mem_quiet, Hp|]. intros v. by apply (Hv r k1). }
  intros a. apply spec_pure. intros Hv. destruct (Z.ltb_spec a.1 0).
  { sys_errno. apply (execve_cleanup_ok NULL NULL NULL [] []). intros e <-. lia. }
  sys_strdup; [apply (execve_cleanup_ok NULL NULL NULL [] []); lia|]. destruct (Z.eqb_spec p NULL); [done|].
  eapply spec_bind; [apply spec_opt_vec; [auto|intros ? ? ?%elem_of_nil; done]|]. intros [argv fa]. apply spec_or; [|apply spec_ex; intros psa]; apply spec_pure; cbn [fst snd].
  { intros [= -> ->]. apply (cleanup_file k0 p NULL []); [done|lia]. }
  intros ->. eapply spec_bind; [apply spec_opt_vec; [auto|apply keys_seg]|]. intros [envp fe]. apply spec_or; [|apply spec_ex; intros pse]; apply spec_pure; cbn [fst snd].
  { intros [= -> ->]. rewrite app_nil_r. apply cleanup_file; [done|lia]. }
  intros ->. sys_plain. sys_errno. rewrite app_nil_r.
  pose proof (execve_cleanup_ok p argv envp psa pse k0 (eq (- a0)) ltac:(intros ? <-; lia)) as H'. unfold seg at 3 in H'. rewrite (decide_False (P := p = NULL)) in H' by done. exact H'.
Qed.

(** ** Every system call *)

(** The calls whose result is a count, a descriptor or a process number. *)
Definition reports_errors (n : option sysno) : bool :=
  match n with Some (SYS_mmap | SYS_brk | SYS_halt | SYS_errno | SYS_getdents | SYS_debug) => false | _ => true end.

Lemma spec_panic {A} (m : M K A) R k0 : plain m R -> runs k0 (m;; stop KAssert).
Proof. intros Hm. eapply spec_bind; [by apply spec_plain|]. intros ? k _. cbn. apply not_eq_sym, bad_free_new. Qed.

Lemma dispatch_ended fuel sysnum args k0 : reports_errors (sysno_of sysnum) = true -> sysno_of sysnum <> Some SYS_execve ->
  runs k0 (syscall_dispatch fuel sysnum args).
Proof.
  unfold syscall_dispatch. destruct (sysno_of sysnum) as [[]|]; cbn [reports_errors]; intros Hr Hx; try discriminate Hr; try by destruct Hx.
  - apply sys_waitpid_ok.
  - eapply spec_panic, sm_exit.
  - eapply spec_panic, sm_thr_exit.
  - sys_plain. apply spec_ended. by left.
  - apply sys_fork_ok.
  - intros k Hk. cbn. split; [done|]. left. apply sm_pid.
  - unfold sys_sync. sys_plain. apply spec_ended. by left.
  - apply sys_munmap_ok.
  - apply (sys_path_ok L_open args filename (fun a path => do_open path (oa_flags a))). intros. apply sm_open.
  - unfold sys_close. sys_plain. apply spec_finish.
  - apply sys_read_ok.
  - apply sys_write_ok.
  - unfold sys_dup. sys_plain. apply spec_finish.
  - apply sys_dup2_ok.
  - apply (sys_path_ok L_mkdir args id (fun _ => do_mkdir)). intros. apply sm_mkdir.
  - apply (sys_path_ok L_argstr args id (fun _ => do_rmdir)). intros. apply sm_rmdir.
  - apply (sys_path_ok L_argstr args id (fun _ => do_unlink)). intros. apply sm_unlink.
  - apply sys_link_ok.
  - apply sys_rename_ok.
  - apply (sys_path_ok L_argstr args id (fun _ => do_chdir)). intros. apply sm_chdir.
  - apply sys_lseek_ok.
  - sys_errno. apply spec_ended. by left.
  - apply sys_stat_ok.
  - apply sys_pipe_ok.
  - apply copy_fields_ok.
  - apply sys_kshell_ok.
  - apply spec_fail, pos_ENOSYS.
Qed.

Lemma dispatch_freed fuel sysnum args k0 : sysno_of sysnum <> Some SYS_debug -> sysno_of sysnum <> Some SYS_execve ->
  spec (mem k0 [] [] any_errno) (syscall_dispatch fuel sysnum args) (freed k0).
Proof.
  intros Hd Hx. destruct (reports_errors (sysno_of sysnum)) eqn:Hr; [by apply spec_freed, dispatch_ended|].
  unfold syscall_dispatch. destruct (sysno_of sysnum) as [[]|]; try discriminate Hr; try done.
  - eapply (spec_bind _ _ _ (freed k0)); [|intros ?; apply spec_ret_freed]. unfold sys_mmap. eapply spec_bind; [apply spec_args|]. intros a.
    destruct (a.1 <? 0); [sys_errno; apply spec_ret_freed|]. sys_plain. destruct (a0.1 <? 0); [sys_errno|]; apply spec_ret_freed.
  - eapply spec_bind; [apply spec_args|]. intros a. apply getdents_loop_ok.
  - eapply (spec_bind _ _ _ (freed k0)); [|intros ?; apply spec_ret_freed]. unfold sys_brk. sys_plain. destruct (a.1 =? 0); [|sys_errno]; apply spec_ret_freed.
  - unfold sys_halt. sys_plain. apply spec_ret_freed.
  - intros k Hk. exact Hk.
Qed.

Lemma mem_start k : mem k [] [] any_errno k.
Proof. split; [set_solver|constructor|by intros p ?%elem_of_nil|by intros v ps ?%elem_of_nil|done]. Qed.


(** ** The error number of execve, whatever happens to the memory *)

Lemma kfree_errno p k u k' : kfree p k = Ok u k' -> kt_errno k' = kt_errno k.
Proof. intros E. pose proof (sm_kfree p k) as H. rewrite E in H. apply H. Qed.
Lemma set_errno_is e k : kt_errno (set_kt_errno e k) = e.
Proof. apply errno_set. Qed.
Lemma free_until_null_errno fuel v i k u k' : free_until_null fuel v i k = Ok u k' -> kt_errno k' = kt_errno k.
Proof.
  induction fuel as [|fuel IH] in i, k |- *; cbn [free_until_null]; [done|]. rewrite gets_bind. destruct (words v k !! i) as [p|]; [|done].
  destruct (p =? NULL); [by intros [= <- <-]|]. intros (? & k1 & E1%kfree_errno & E)%bind_Ok_inv. rewrite <- E1. by eapply IH.
Qed.
Lemma free_vector_errno v k u k' : (free_strings v;; kfree v) k = Ok u k' -> kt_errno k' = kt_errno k.
Proof.
  intros (? & k1 & E1 & E%kfree_errno)%bind_Ok_inv. rewrite E. unfold free_strings in E1. rewrite gets_bind in E1. by eapply free_until_null_errno.
Qed.
Lemma when_errno c (m : M K unit) k u k' : (forall u k', m k = Ok u k' -> kt_errno k' = kt_errno k) -> when c m k = Ok u k' -> kt_errno k' = kt_errno k.
Proof. intros Hm. destruct c; [apply Hm|]. by intros [= <- <-]. Qed.
Lemma strdup_errno s k k' : user_strdup s k = Ok NULL k' -> 0 < kt_errno k'.
Proof.
  unfold user_strdup. intros (p & k1 & _ & E)%bind_Ok_inv. destruct (Z.eqb_spec p NULL) as [_|Hp].
  { rewrite modify_bind in E. injection E as <-. rewrite set_errno_is. apply pos_ENOMEM. }
  apply bind_Ok_inv in E as (r & k2 & _ & E). rewrite modify_bind in E. destruct (Z.ltb_spec r.1 0); [|by injection E as ->].
  rewrite modify_bind in E. apply bind_Ok_inv in E as (? & k3 & E3%kfree_errno & [= <-]). rewrite E3, set_errno_is. lia.
Qed.
Lemma vecdup_fail_errno t v ret k r k' : vecdup_fail t v ret k = Ok r k' -> kt_errno k' = - ret.
Proof.
  unfold vecdup_fail. intros (? & k1 & _ & E)%bind_Ok_inv. apply bind_Ok_inv in E as (? & k2 & _ & E). rewrite modify_bind in E. injection E as _ <-.
  apply set_errno_is.
Qed.
Lemma dup_strings_errno n v bytes i k k' : dup_strings n v bytes i k = Ok false k' -> 0 < kt_errno k'.
Proof.
  induction n as [|n IH] in i, k |- *; cbn [dup_strings]; [done|]. destruct (argstr_at bytes i) as [u|]; [|done].
  intros (p & k1 & E1 & (? & k2 & E2 & E)%bind_Ok_inv)%bind_Ok_inv. destruct (Z.eqb_spec p NULL) as [->|Hp]; [|by eapply IH].
  injection E as <-. apply strdup_errno in E1. unfold put_word in E2. rewrite gets_bind in E2. case_decide; [|done]. injection E2 as _ <-.
  by destruct (word_ok v i NULL k1) as (_ & -> & _).
Qed.
Lemma vecdup_errno a k k' : user_vecdup a k = Ok NULL k' -> 0 < kt_errno k'.
Proof.
  pose proof pos_ENOMEM. unfold user_vecdup. intros (t & k1 & _ & E)%bind_Ok_inv. destruct (t =? NULL); [apply vecdup_fail_errno in E; lia|].
  apply bind_Ok_inv in E as (v & k2 & _ & E). destruct (Z.eqb_spec v NULL) as [_|Hv]; [apply vecdup_fail_errno in E; lia|].
  apply bind_Ok_inv in E as (r & k3 & _ & E). rewrite modify_bind in E. destruct (Z.ltb_spec r.1 0); [apply vecdup_fail_errno in E; lia|].
  apply bind_Ok_inv in E as ([|] & k4 & E4 & E).
  - apply bind_Ok_inv in E as (? & k5 & _ & E). apply bind_Ok_inv in E as (? & k6 & _ & E). by injection E as ->.
  - apply dup_strings_errno in E4. apply vecdup_fail_errno in E. lia.
Qed.
Lemma opt_vec_errno a k v k' : opt_vec a k = Ok (v, true) k' -> 0 < kt_errno k'.
Proof.
  unfold opt_vec. destruct (c_true (av_vec a)); [|done]. intros (w & k1 & E1 & E)%bind_Ok_inv. destruct (Z.eqb_spec w NULL) as [->|]; [|done].
  injection E as <- <-. by eapply vecdup_errno.
Qed.
Lemma cleanup_errno fn argv envp k r k' : execve_cleanup fn argv envp k = Ok r k' -> 0 <= kt_errno k -> 0 <= r \/ r = -1 /\ 0 < kt_errno k'.
Proof.
  unfold execve_cleanup. intros (? & k1 & E1 & (? & k2 & E2 & (? & k3 & E3 & E)%bind_Ok_inv)%bind_Ok_inv)%bind_Ok_inv Hk.
  apply when_errno in E1; [|apply kfree_errno]. apply when_errno in E2; [|apply free_vector_errno]. apply when_errno in E3; [|apply free_vector_errno].
  unfold mbind, M_bind, get in E. destruct (Z.eqb_spec (kt_errno k3) 0); injection E as <- <-; [by left|right]. split; [done|]. lia.
Qed.
Lemma sys_execve_errno arg k r k' : sys_execve arg k = Ok r k' -> 0 <= r \/ r = -1 /\ 0 < kt_errno k'.
Proof.
  unfold sys_execve. intros (a & k1 & _ & E)%bind_Ok_inv. destruct (Z.ltb_spec a.1 0).
  { rewrite modify_bind in E. apply cleanup_errno in E; [done|]. rewrite set_errno_is. lia. }
  apply bind_Ok_inv in E as (p & k2 & E2 & E). destruct (Z.eqb_spec p NULL) as [->|_]; [apply strdup_errno in E2; apply cleanup_errno in E; [done|lia]|].
  apply bind_Ok_inv in E as ([argv fa] & k3 & E3 & E). cbn [fst snd] in E. destruct fa; [apply opt_vec_errno in E3; apply cleanup_errno in E; [done|lia]|].
  apply bind_Ok_inv in E as ([envp fe] & k4 & E4 & E). cbn [fst snd] in E. destruct fe; [apply opt_vec_errno in E4; apply cleanup_errno in E; [done|lia]|].
  apply bind_Ok_inv in E as (err & k5 & E5 & E). rewrite modify_bind in E. apply cleanup_errno in E; [done|]. rewrite set_errno_is.
  pose proof (sm_execve p argv envp k4) as H5. rewrite E5 in H5. lia.
Qed.

(** When the vector of an execve cannot be copied, [user_vecdup] frees the pointers that
    happen to be in the block it has just allocated. *)
Theorem vecdup_frees_garbage a k t k1 v k2 r k3 p ws h k4 : let n := av_len a +u 1 in
  kmalloc (u32 (n * size_of L_argstr)) k = Ok t k1 -> t <> NULL -> kmalloc (u32 (n * 4)) k1 = Ok v k2 -> v <> NULL ->
  copy_from_user (av_vec a) (u32 (n * size_of L_argstr)) k2 = Ok r k3 -> r.1 < 0 ->
  words v (kstore t r.2 k3) = p :: ws -> p <> NULL -> kfree p (kstore t r.2 k3) = Halt h k4 ->
  user_vecdup a k = Halt h k4.
Proof.
  intros n. subst n. intros Et Ht Ev Hv Er Hr Hw Hp Ef. unfold user_vecdup. unfold mbind at 1, M_bind at 1. rewrite Et. destruct (Z.eqb_spec t NULL); [done|].
  unfold mbind at 1, M_bind at 1. rewrite Ev. destruct (Z.eqb_spec v NULL); [done|]. unfold mbind at 1, M_bind at 1. rewrite Er, modify_bind.
  rewrite (proj2 (Z.ltb_lt _ _) Hr). unfold vecdup_fail, c_true. destruct (Z.eqb_spec v 0); [done|]. cbn [negb when]. unfold free_strings.
  unfold mbind, M_bind, gets. rewrite Hw. cbn [length free_until_null]. unfold mbind, M_bind, gets. rewrite Hw. cbn.
  destruct (Z.eqb_spec p NULL); [done|]. by rewrite Ef.
Qed.
End Calls.

(** ** sys_getdents and the handler *)

Section Getdents.
Context `{P : Platform} {L : SysLayout} {K : Type} `{!SysOps K}.
Implicit Types (k : K).

(** [I] says what must not change; copying to addresses from [lo] to [hi] does not
    disturb it, and neither does anything else sys_getdents does. *)
Record undisturbed (I : K -> Prop) (lo hi : Z) : Prop := {
  ud_getdent fd k r k' : I k -> do_getdent fd k = Ok r k' -> I k' /\ r.1 <= sizeof_dirent;
  ud_copy a d k r k' : lo <= a -> a + sizeof_dirent <= hi -> I k -> copy_to_user a d sizeof_dirent k = Ok r k' -> I k';
  ud_errno e k : I k -> I (set_kt_errno e k)
}.

Lemma getdents_loop_in I lo hi n fd total k r k' : undisturbed I lo hi -> 0 < sizeof_dirent -> 0 <= lo -> hi < 4294967296 -> hi - lo < 2147483648 ->
  0 <= total -> total + Z.of_nat n * sizeof_dirent <= hi - lo -> I k -> getdents_loop n fd lo total k = Ok r k' ->
  I k' /\ (r = -1 \/ 0 <= r <= hi - lo).
Proof.
  intros Hu Hs Hlo Hhi Hd. induction n as [|n IH] in total, k |- *; cbn [getdents_loop]; intros Ht Hn Hk E.
  { unfold mret, M_ret in E. injection E as <- <-. split; [done|]. right. lia. }
  apply bind_Ok_inv in E as ([m d] & k1 & E1 & E). destruct (ud_getdent _ _ _ Hu _ _ _ _ Hk E1) as [Hk1 Hm]. cbn [fst snd] in *.
  destruct (Z.ltb_spec m 0).
  { unfold fail in E. rewrite modify_bind in E. unfold mret, M_ret in E. injection E as <- <-. split; [by apply (ud_errno _ _ _ Hu)|by left]. }
  destruct (Z.eqb_spec m 0). { unfold mret, M_ret in E. injection E as <- <-. split; [done|]. right. lia. }
  apply bind_Ok_inv in E as (x & k2 & E2 & E). rewrite (u32_small (lo + total)) in E2 by (unfold is_u32; lia).
  rewrite s32_small in E by lia. apply (IH (total + m) k2); [lia|lia| |done].
  eapply (ud_copy _ _ _ Hu); [| |exact Hk1|exact E2]; lia.
Qed.

(** C37. getdents writes to no address outside the user's buffer: whatever is not
    disturbed by writes inside it is as before when the call returns, and the
    count returned is -1 or between 0 and the size of the buffer. *)
Theorem sys_getdents_in_buffer I arg e bytes k k1 r k' : let a := decode L_getdents bytes in
  copy_from_user arg (size_of L_getdents) k = Ok (e, bytes) k1 -> I k1 -> undisturbed I (ga_dirp a) (ga_dirp a + ga_count a) ->
  0 < sizeof_dirent -> 0 <= ga_dirp a -> 0 <= ga_count a < 2147483648 -> ga_dirp a + ga_count a < 4294967296 ->
  sys_getdents arg k = Ok r k' -> I k' /\ (r = -1 \/ 0 <= r <= ga_count a).
Proof.
  intros a E Hk Hu Hs Hd Hc Hend. assert (decode L_getdents bytes = a) as Ea by done. clearbody a.
  unfold sys_getdents, get_args. rewrite bind_assoc, (bind_ok _ _ _ _ _ E), ret_bind. cbn [fst snd]. rewrite Ea. intros Hr.
  replace (ga_count a) with (ga_dirp a + ga_count a - ga_dirp a) by lia. pose proof (Z.mul_div_le (ga_count a) sizeof_dirent Hs).
  apply (getdents_loop_in I _ _ (Z.to_nat (ga_count a / sizeof_dirent)) (ga_fd a) 0 k1); [exact Hu|done|done|done|lia|lia| |exact Hk|exact Hr]. rewrite Z2Nat.id, Z.mul_comm by (apply Z.div_pos; lia). lia.
Qed.

(** C38. A thread that has been cancelled exits at the entry of a system call, and
    one that is cancelled during the call exits before it returns; only a thread
    that is not cancelled returns to user mode, with the result of the call in its
    register. *)
Theorem syscall_handler_returns fuel r_eax r_edx k r k' : (forall v k0, exists h k1, kthread_exit v k0 = Halt h k1) ->
  (kt_cancelled k <> 0 -> syscall_handler fuel r_eax r_edx k = (kthread_exit (kt_retval k);; mret 0) k) /\
  (syscall_handler fuel r_eax r_edx k = Ok r k' ->
   kt_cancelled k = 0 /\ kt_cancelled k' = 0 /\ exists ret, syscall_dispatch fuel r_eax r_edx k = Ok ret k' /\ r = u32 ret).
Proof.
  intros Hx. assert (forall v k0 (m : M K Z), (kthread_exit v;; m) k0 = (kthread_exit v;; mret 0) k0) as Hstop.
  { intros v k0 m. destruct (Hx v k0) as (h & k1 & E). unfold mbind, M_bind. by rewrite E. }
  assert (forall v k0 a k1, (kthread_exit v;; mret 0) k0 <> Ok a k1) as Hno.
  { intros v k0 a k1. destruct (Hx v k0) as (h & k2 & E). unfold mbind, M_bind. by rewrite E. }
  unfold syscall_handler. rewrite get_bind. split.
  - intros Hc. rewrite (proj2 (c_true_spec _) Hc). apply Hstop.
  - destruct (decide (kt_cancelled k = 0)) as [Hc|Hc].
    2: { rewrite (proj2 (c_true_spec _) Hc). cbn [when]. rewrite Hstop. by intros ?%Hno. }
    rewrite Hc at 1. cbn [c_true Z.eqb negb when]. rewrite ret_bind. intros (ret & k1 & E1 & E2)%bind_Ok_inv. rewrite get_bind in E2.
    destruct (decide (kt_cancelled k1 = 0)) as [Hc1|Hc1].
    2: { rewrite (proj2 (c_true_spec _) Hc1) in E2. cbn [when] in E2. rewrite Hstop in E2. by apply Hno in E2. }
    rewrite Hc1 in E2. cbn [c_true Z.eqb negb when] in E2. rewrite ret_bind in E2. unfold mret, M_ret in E2. injection E2 as <- <-. split_and!; [done|done|]. by exists ret.
Qed.
End Getdents.
