(* ===== verification/Mount.v ===== *)
(** The system calls [mount] and [umount] of [api/syscall.c], compiled when several
    file systems can be mounted; [do_mount] and [do_umount] are not in the repository. *)
From S2P Require Import Prelude.
From S2P Require Import Platform.
From S2P Require Import Syscall.
From S2P Require Import SyscallThms.
Open Scope Z_scope.

Record mount_args := MountArgs { ma_spec : argstr; ma_dir : argstr; ma_fstype : argstr }.

Class MountOps (K : Type) := {
  L_mount : layout mount_args;
  do_mount : Z -> Z -> Z -> M K Z;
  do_umount : Z -> M K Z
}.

Section Mount.
Context `{P : Platform} {L : SysLayout} {K : Type} `{!SysOps K} `{!MountOps K}.

Definition sys_mount (arg : Z) : M K Z :=
  a ← get_args L_mount arg;
  if a.1 <? 0 then fail EFAULT
  else
    source ← user_strdup (ma_spec a.2);
    target ← user_strdup (ma_dir a.2);
    if target =? NULL then kfree source;; fail EINVAL
    else
      type ← user_strdup (ma_fstype a.2);
      if type =? NULL then kfree source;; kfree target;; fail EINVAL
      else
        ret ← do_mount source target type;
        kfree source;; kfree target;; kfree type;;
        if negb (ret =? 0) then fail (- ret) else mret 0.

Definition sys_umount (input : Z) : M K Z :=
  a ← get_args L_argstr input;
  if a.1 <? 0 then fail EFAULT
  else
    target ← user_strdup a.2;
    if target =? NULL then fail EINVAL
    else ret ← do_umount target; kfree target;; if negb (ret =? 0) then fail (- ret) else mret 0.

(** A source that cannot be copied is NULL, and it is freed on every path: where freeing
    NULL is an error, NULL is not okay for the source either. *)
Theorem sys_mount_needs_source arg k a k1 k2 :
  get_args L_mount arg k = Ok (0, a) k1 -> user_strdup (ma_spec a) k1 = Ok NULL k2 ->
  (forall k', returned (kfree NULL k') = false) -> returned (sys_mount arg k) = false.
Proof.
  intros Ea Es Hf. unfold sys_mount. rewrite (bind_ok _ _ _ _ _ Ea). cbn [fst snd]. change (0 <? 0) with false. cbv iota.
  rewrite (bind_ok _ _ _ _ _ Es).
  assert (forall (c : unit -> M K Z) k', returned ((kfree NULL ≫= c) k') = false) as Hk.
  { intros c k'. specialize (Hf k'). unfold mbind, M_bind. by destruct (kfree NULL k'). }
  unfold mbind at 1, M_bind at 1. destruct (user_strdup (ma_dir a) k2) as [t k3|]; [|done].
  destruct (t =? NULL); [apply Hk|]. unfold mbind at 1, M_bind at 1. destruct (user_strdup (ma_fstype a) k3) as [ty k4|]; [|done].
  destruct (ty =? NULL); [apply Hk|]. unfold mbind at 1, M_bind at 1. destruct (do_mount NULL t ty k4) as [r k5|]; [|done]. apply Hk.
Qed.
End Mount.

Section MountThms.
Context `{P : Platform} `{!PlatformOk P} {L : SysLayout} {K : Type} `{!SysOps K} `{!SysLaws K} `{!SysMem K} `{!MountOps K}.
Implicit Types (k : K).

(** Mounting gives 0 or an error, and leaves the memory of system calls alone. *)
Class MountLaws := {
  sm_mount s t ty : plain (do_mount s t ty) (fun r => r <= 0);
  sm_umount t : plain (do_umount t) (fun r => r <= 0)
}.
Context `{!MountLaws}.
Notation runs k0 m := (spec (mem k0 [] [] any_errno) m (ended k0)).

Lemma spec_zero ret k0 E : ret <= 0 -> spec (mem k0 [] [] E) (if negb (ret =? 0) then fail (- ret) else mret 0) (ended k0).
Proof. intros Hr. destruct (Z.eqb_spec ret 0); cbn [negb]; [apply spec_ended; by left|apply spec_fail; lia]. Qed.

(** umount frees what it allocates, and an error has a number. *)
Theorem sys_umount_ok input k0 : runs k0 (sys_umount input).
Proof.
  unfold sys_umount. eapply spec_bind; [apply spec_args|]. intros a. destruct (a.1 <? 0); [apply spec_fail, pos_EFAULT|].
  sys_strdup; [apply spec_fail, pos_EINVAL|]. destruct (Z.eqb_spec p NULL); [done|].
  eapply spec_bind; [apply spec_plain, sm_umount|]. intros r. cbv beta. apply spec_pure. intros Hr. sys_free. by apply spec_zero.
Qed.

(** The block of a string that may be NULL. *)
Definition block (s : Z) : list Z := if s =? NULL then [] else [s].
Lemma spec_strdup_block s k0 : spec (mem k0 [] [] any_errno) (user_strdup s) (fun p => mem k0 (block p) [] any_errno).
Proof.
  eapply spec_conseq; [apply spec_strdup; by intros ? ? ?%elem_of_nil|done|]. intros p k [[Hk ->]|[Hk Hp]]; [by eapply mem_any|].
  unfold block. by rewrite (proj2 (Z.eqb_neq _ _)).
Qed.
Lemma spec_free_block s l l' k0 E : (forall k, kfree NULL k = Ok tt k) -> l' ≡ₚ block s ++ l -> spec (mem k0 l' [] E) (kfree s) (fun _ => mem k0 l [] E).
Proof.
  intros Hn Hl. apply (spec_perm _ (block s ++ l) _ []); [done|done|]. unfold block.
  destruct (Z.eqb_spec s NULL) as [->|Hs]; [intros k Hk; by rewrite Hn|]. apply spec_frees; [apply sm_kfree|intros ?; apply not_elem_of_nil].
Qed.

(** If freeing NULL does nothing, mount frees what it allocates, on every path. *)
Theorem sys_mount_ok arg k0 : (forall k, kfree NULL k = Ok tt k) -> runs k0 (sys_mount arg).
Proof.
  intros Hn. unfold sys_mount. eapply spec_bind; [apply spec_args|]. intros a. destruct (a.1 <? 0); [apply spec_fail, pos_EFAULT|].
  eapply spec_bind; [apply spec_strdup_block|]. intros s. cbv beta. sys_strdup; cbn [Z.eqb NULL].
  - eapply spec_bind; [apply (spec_free_block s []); [done|by rewrite app_nil_r]|]. intros ?. apply spec_fail, pos_EINVAL.
  - destruct (Z.eqb_spec p NULL); [done|]. sys_strdup; cbn [Z.eqb NULL].
    + eapply spec_bind; [apply (spec_free_block s [p]); [done|solve_Permutation]|]. intros ?. cbv beta. sys_free. apply spec_fail, pos_EINVAL.
    + destruct (Z.eqb_spec p0 NULL); [done|]. eapply spec_bind; [apply spec_plain, sm_mount|]. intros r. cbv beta. apply spec_pure. intros Hr.
      eapply spec_bind; [apply (spec_free_block s [p; p0]); [done|solve_Permutation]|]. intros ?. cbv beta. do 2 sys_free. by apply spec_zero.
Qed.
End MountThms.
