(* ===== verification/SyscallRun.v ===== *)
(** System calls at work on a small kernel: memory blocks are numbers, user memory is
    a map from addresses to what was copied there. *)
From S2P Require Import Prelude.
From S2P Require Import Platform.
From S2P Require Import Syscall.
From S2P Require Import SyscallThms.
From S2P Require Import Mount.
Open Scope Z_scope.

#[local] Existing Instance weenix.

Record skern := Skern {
  s_errno : Z; s_held : gset Z; s_next : positive; s_vecs : gmap Z (list Z); s_user : gmap Z (list Z); s_dirents : nat
}.
Definition s_set_errno (e : Z) (k : skern) : skern := Skern e (s_held k) (s_next k) (s_vecs k) (s_user k) (s_dirents k).
(** The next number, or another one when it is held; a block has eight words, with
    something in them. *)
Definition s_fresh (k : skern) : Z := if decide (Zpos (s_next k) ∈ s_held k) then fresh ({[NULL]} ∪ s_held k) else Zpos (s_next k).
Lemma s_fresh_new k : s_fresh k <> NULL /\ s_fresh k ∉ s_held k.
Proof. unfold s_fresh. case_decide; [|done]. pose proof (is_fresh ({[NULL]} ∪ s_held k)). set_solver. Qed.
Definition s_alloc : M skern Z := fun k =>
  let p := s_fresh k in
  Ok p (Skern (s_errno k) ({[p]} ∪ s_held k) (s_next k + 1) (<[p := repeat 77 8]> (s_vecs k)) (s_user k) (s_dirents k)).
Definition s_free (p : Z) : M skern unit := fun k =>
  if decide (p ∈ s_held k) then Ok tt (Skern (s_errno k) (s_held k ∖ {[p]}) (s_next k) (s_vecs k) (s_user k) (s_dirents k)) else Halt NullDeref k.
Definition s_words (v : Z) (k : skern) : list Z := default [] (s_vecs k !! v).
Definition s_set_word (v : Z) (i : nat) (p : Z) (k : skern) : skern :=
  Skern (s_errno k) (s_held k) (s_next k) (<[v := <[i := p]> (s_words v k)]> (s_vecs k)) (s_user k) (s_dirents k).
Definition s_put (a : Z) (d : list Z) : M skern Z := fun k =>
  Ok 0 (Skern (s_errno k) (s_held k) (s_next k) (s_vecs k) (<[a := d]> (s_user k)) (s_dirents k)).
(** A directory with a few entries, of four bytes each. *)
Definition s_getdent : M skern (Z * list Z) := fun k =>
  match s_dirents k with
  | O => Ok (0, []) k
  | S n => Ok (4, [1; 2; 3; 4]) (Skern (s_errno k) (s_held k) (s_next k) (s_vecs k) (s_user k) n)
  end.

#[local] Instance demo_layout : SysLayout := {|
  sysno_of n := if n =? 9 then Some SYS_link else if n =? 11 then Some SYS_execve else if n =? 21 then Some SYS_getdents else None;
  L_argstr := Layout 8 (fun _ => ArgStr 100 5); L_read := Layout 12 (fun _ => ReadArgs 3 200 10);
  L_getdents := Layout 12 (fun _ => GetdentsArgs 3 1000 11);
  L_dup2 := Layout 8 (fun _ => Dup2Args 0 1); L_mkdir := Layout 12 (fun _ => ArgStr 100 5);
  L_link := Layout 16 (fun _ => LinkArgs (ArgStr 100 5) (ArgStr 200 5)); L_rename := Layout 16 (fun _ => RenameArgs (ArgStr 100 5) (ArgStr 200 5));
  L_lseek := Layout 12 (fun _ => LseekArgs 0 0 0); L_open := Layout 16 (fun _ => OpenArgs (ArgStr 100 5) 0);
  L_munmap := Layout 8 (fun _ => MunmapArgs 4096 4096); L_mmap := Layout 24 (fun _ => MmapArgs 0 4096 3 8 0 0);
  L_waitpid := Layout 12 (fun _ => WaitpidArgs (-1) 0 0); L_stat := Layout 12 (fun _ => StatArgs (ArgStr 100 5) 300);
  L_execve := Layout 24 (fun _ => ExecveArgs (ArgStr 100 5) (ArgVec 400 1) (ArgVec 500 1));
  uts_fields a := Utsname a (a + 256) (a + 512) (a + 768) (a + 1024);
  sizeof_dirent := 4; sizeof_stat := 64; int_bytes _ := [0; 0; 0; 0]; MAP_FAILED := -1; build_version := [35; 49; 0]
|}.

(** Making a link fails: no such file. *)
#[local] Instance demo_sys : SysOps skern := {|
  kt_errno := s_errno; set_kt_errno := s_set_errno; kt_cancelled _ := 0; kt_retval _ := 0; cur_pid _ := 2;
  copy_from_user _ n := mret (0, repeat 0 (Z.to_nat n)); copy_to_user a d _ := s_put a d; read_args_at _ := mret (ReadArgs 3 200 10);
  kmalloc _ := s_alloc; kfree := s_free; kstore _ _ k := k; words := s_words; set_word := s_set_word; page_alloc := s_alloc; page_free := s_free;
  do_read _ _ _ := mret (0, []); do_write _ _ _ _ := mret 0; do_getdent _ := s_getdent; do_close _ := mret 0; do_dup _ := mret 1; do_dup2 _ n := mret n;
  do_mkdir _ := mret 0; do_rmdir _ := mret 0; do_unlink _ := mret 0; do_link _ _ := mret (- ENOENT); do_rename _ _ := mret 0; do_chdir _ := mret 0;
  do_lseek _ o _ := mret o; do_open _ _ := mret 3; do_stat _ := mret (0, []); do_pipe := mret (- ENOSYS, []); do_munmap _ _ := mret 0;
  do_mmap _ _ _ _ _ _ := mret (0, 4096); do_brk a := mret (0, a); do_waitpid _ _ := mret (- ECHILD, 0); do_fork := mret 5;
  do_exit s := stop (Exits s); kthread_exit s := stop (Exits s); thr_yield := mret tt; do_execve _ _ _ := mret (- ENOENT);
  pframe_clean_all := mret tt; proc_kill_all := mret tt; kshell_create _ := mret NULL; kshell_execute_next _ := mret 0; kshell_destroy _ := mret tt;
  dbg_user _ := mret tt
|}.

#[local] Instance demo_sys_laws : SysLaws skern.
Proof.
  refine {| held k := s_held k ∖ {[NULL]}; bad_free := NullDeref |}.
  - intros k. set_solver.
  - done.
  - done.
  - intros v i p k. cbn. unfold s_words. cbn. split_and!; [done|done|by rewrite lookup_insert_eq|].
    intros w Hw. by rewrite lookup_insert_ne by congruence.
Defined.

Lemma plain_ret {A} (a : A) (R : A -> Prop) : R a -> plain (K := skern) (mret a) R.
Proof. intros HR k. cbn. split; [by split|done]. Qed.
Lemma s_alloc_new k p k' : s_alloc k = Ok p k' -> p <> NULL /\ new_block k p k'.
Proof.
  unfold s_alloc. destruct (s_fresh_new k) as [Hn Hp]. revert Hn Hp. generalize (s_fresh k). intros q Hn Hp [= <- <-]. split; [done|right].
  split_and!; [done|cbn; set_solver|cbn; set_solver|]. intros v Hv. cbn. unfold s_words. cbn. rewrite lookup_insert_ne; [done|]. cbn in Hv. set_solver.
Qed.
Lemma s_alloc_ok : gives s_alloc new_block.
Proof. intros k. by apply (s_alloc_new k _ _ eq_refl). Qed.
Lemma s_free_ok : frees s_free.
Proof.
  intros p k. unfold s_free. case_decide as Hd; cbn; [split_and!; [set_solver|done|done]|]. set_solver.
Qed.
Lemma s_page_ok : gives s_alloc (fun k p k' => p <> NULL /\ new_block k p k').
Proof. intros k. by apply (s_alloc_new k _ _ eq_refl). Qed.
Lemma s_put_ok a d : plain (s_put a d) (fun r => r <= 0).
Proof. intros k. cbn. split; [by split|lia]. Qed.
Lemma s_getdent_ok : plain s_getdent (fun _ => True).
Proof. intros k. unfold s_getdent. destruct (s_dirents k); cbn; by split. Qed.

#[local] Instance demo_sys_mem : SysMem skern.
Proof.
  split; repeat lazymatch goal with |- forall _, _ => intro end; try (apply plain_ret; cbn; (exact I || lia)); try (by intros k);
    try (apply s_put_ok || apply s_alloc_ok || apply s_free_ok || apply s_page_ok || apply s_getdent_ok).
  - done.
  - done.
Qed.

Definition s0 : skern := Skern 0 ∅ 1 ∅ ∅ 2.


(** Two entries go to the 11 bytes at 1000; nothing is written at 1011. *)
Definition clear_1011 (k : skern) : Prop := s_user k !! 1011 = None.
Lemma clear_undisturbed : undisturbed clear_1011 1000 1011.
Proof.
  split.
  - intros fd k r k' Hk. cbn. unfold s_getdent. destruct (s_dirents k); intros [= <- <-]; split; cbn; (done || lia).
  - intros a d k r k' H1 H2 Hk [= <- <-]. unfold clear_1011 in *. cbn in *. rewrite lookup_insert_ne; [done|]. lia.
  - done.
Qed.
Lemma sys_getdents_in_buffer_witness : exists k', sys_getdents 100 s0 = Ok 8 k' /\ clear_1011 k'.
Proof.
  destruct (sys_getdents 100 s0) as [r k'|] eqn:E; [|vm_compute in E; discriminate E]. assert (r = 8) as -> by (vm_compute in E; congruence).
  exists k'. split; [reflexivity|]. assert (0 < sizeof_dirent) as Hs by reflexivity.
  assert (copy_from_user 100 (size_of L_getdents) s0 = Ok (0, repeat 0 12) s0) as Ec by reflexivity. assert (clear_1011 s0) as H0 by reflexivity.
  destruct (sys_getdents_in_buffer clear_1011 100 0 (repeat 0 12) s0 s0 8 k' Ec H0 clear_undisturbed Hs) as [H _]; [cbn; lia|cbn; lia|cbn; lia|exact E|exact H].
Defined.

Lemma syscall_handler_returns_witness : exists k', syscall_handler 0 9 100 s0 = Ok 4294967295 k' /\ kt_cancelled k' = 0.
Proof.
  destruct (syscall_handler 0 9 100 s0) as [r k'|] eqn:E; [|vm_compute in E; discriminate E]. assert (r = 4294967295) as -> by (vm_compute in E; congruence).
  exists k'. split; [reflexivity|]. apply (syscall_handler_returns 0 9 100 s0 4294967295 k'); [intros v k0; by eexists _, _|exact E].
Defined.

(** Mounting: three strings are copied, used and freed. *)
#[local] Instance demo_mount : MountOps skern := {|
  L_mount := Layout 24 (fun _ => MountArgs (ArgStr 100 5) (ArgStr 200 5) (ArgStr 300 5)); do_mount _ _ _ := mret (- ENOENT); do_umount _ := mret 0
|}.
#[local] Instance demo_mount_laws : MountLaws.
Proof. split; intros; apply plain_ret; cbn; lia. Qed.
Example mount_fails : match sys_mount 100 s0 with Ok r k => (r, kt_errno k, bool_decide (held k = ∅)) | Halt _ _ => (0, 0, false) end = (-1, ENOENT, true).
Proof. vm_compute. reflexivity. Qed.
Example umount_works : match sys_umount 100 s0 with Ok r k => (r, bool_decide (held k = ∅)) | Halt _ _ => (-1, false) end = (0, true).
Proof. vm_compute. reflexivity. Qed.
